(* ===== verification/_CoqProject ===== *)
-Q . S2P
Prelude.v
Memory.v
Tty.v
Printk.v
Keyboard.v
Programs.v
Ushell.v
Machine.v
FrameAlloc.v
Pmm.v
PmmInit.v
PmmBoot.v
PmmTheorems.v
Vmm.v
VmmSpec.v
VmmProof.v
VmmTheorems.v
Kmalloc.v
KmallocProof.v
Initramfs.v
Sharing.v
Kmem.v
Kernel.v
Sched.v
SchedProof.v
SchedTheorems.v
Asm.v
Entry.v
Bootstrap.v
Gdt.v
Idt.v
Ports.v
IrqLines.v
Serial.v
User.v
UserMem.v
UserExec.v
UserInv.v
UserProof.v
UserSpawn.v
UserRun.v
UserExit.v
UserTheorems.v
Syscall.v
Calls.v
Loaded.v
System.v
SystemTheorems.v
ProcessMemory.v
Userland.v
ShellProcess.v
Kshell.v
Interrupt.v
KshellTheorems.v
Main.v
BootTheorems.v
Demo.v
Witnesses.v
KernelDemo.v
KernelWitnesses.v
SystemDemo.v
SystemWitnesses.v
BootWitnesses.v
ProgramWitnesses.v
ProcessWitnesses.v
