(* ===== verification/Prelude.v ===== *)
(** * Emyx: a cooperative i386 kernel and its userland

    This library models the code of src/kernel, src/libc and src/user and proves
    what makes it correct.  Definitions carry the names of the C functions they
    translate; every file says which sources it covers.

    ** The program

    GRUB loads the kernel and an archive of programs.  boot.S maps the first
    16 MiB low and high and jumps into the higher half; [kmain] (main.c) sets up
    the serial line and the terminal, the page allocator (mm/pmm.c), the boot
    module (boot.c), page tables (mm/vmm.c), segments, gates, interrupt
    controllers and timer (arch/i386), and the scheduler (sched.c), turns
    interrupts on and starts /bin/init (user.c).  Processes run in address spaces
    of their own and call the kernel with int 0x80 (syscall.c); the scheduler is
    cooperative, so the processor changes hands only in [sched_yield] and
    [kthread_exit].  Interrupts count, tick the clock and pass keys to the
    process in the foreground or to the kernel shell (kshell.c).

    ** The files

    Shared: Prelude (fixed-width integers, loops, strings), Memory (physical
    memory, the direct map, libc/string), Machine (the state [mm] of the memory
    layer, output, panic, the [outcome] of code that can panic or not return).

    - Tty, Printk, Keyboard: arch/i386/tty.c and vga.h; lib/printk.c; keyboard.c
      and arch/i386/keyboard.c.
    - FrameAlloc: the interface (class [FrameAllocator]) that pmm.c offers and
      vmm.c, kmalloc.c, sched.c and user.c use; their theorems are proved against
      it.  Pmm, PmmInit, PmmBoot, PmmTheorems: mm/pmm.c, which is an instance.
    - Vmm (mm/vmm.c), VmmSpec (the MMU's [walk] and the invariant [vm_inv]),
      VmmProof (contracts), VmmTheorems (round trips, isolation, no leaks).
    - Kmalloc (mm/kmalloc.c) and KmallocProof (the abstract list of blocks).
    - Initramfs: boot.c, initramfs.c, lib/endian.c, scripts/mkemxa.py.
    - Sharing, Kmem: the page tables, the heap and the pages of processes as
      three owners of the same frames; [own] says who holds what.  The
      invariants of the clients fix the directories and the pages of [own]; the
      frames of the heap only grow, and only by frames in which [kmalloc] has put
      a block ([heap_grows], [in_heap]), so that no leaked frame can hide there.
    - Kernel (static variables of sched.c and user.c), Sched (sched.c,
      arch/i386/sched.c), SchedProof, SchedTheorems.
    - Asm (an interpreter of the instructions used), Entry (context_switch.S,
      isr_stub.S and the end of boot.S), Bootstrap (boot.S up to the jump).
    - Gdt, Idt (gdt.c, gdt_flush.S, idt.c), Ports (io.h, pic.c, pit.c, arch.c on
      models of the device registers), IrqLines, Serial (serial.c).
    - User (user.c, arch/i386/user.c); UserMem, UserExec, UserInv, UserProof,
      UserSpawn, UserRun, UserExit (contracts), UserTheorems.
    - Syscall (syscall.c), Loaded, System (the kernel as a state machine over
      all tasks), SystemTheorems.
    - Kshell (kshell.c, timer.c), Interrupt (interrupt.c of both directories),
      KshellTheorems, Main (main.c), BootTheorems.
    - Programs (src/user), Ushell (the user shell against a line editor), Calls
      (the kernel serves the calls that the programs make), ProcessMemory (the
      memory a process sees), Userland (programs as processes of the system, and
      a weakest precondition for them), ShellProcess (the shell as a process).
    - Demo, KernelDemo, SystemDemo: concrete machines; Witnesses,
      KernelWitnesses, SystemWitnesses, BootWitnesses, ProgramWitnesses,
      ProcessWitnesses: the theorems applied to them.

    ** What is shown

    - The running system (SystemTheorems): in every interleaving of the kernel's
      task, loading threads and processes that store and call as they like, the
      invariant holds and no frame is lost (it is available, of the address space
      of a task or a new process, a page of a process or of the module, or the
      heap's), the kernel never panics, and a step of one process changes neither the record, the address space nor
      the memory of another.  The memory of a process holds what it stored last
      (ProcessMemory), and a program that keeps to its pages, such as the shell,
      never faults, from the moment its file is loaded (ShellProcess).
    - Booting (BootTheorems): [kmain] gets to the end of its initialisation
      wherever the loader put the module, in a state of that invariant but for the
      module, and of the whole invariant when the module is in memory that the
      allocator does not get; one in usable memory is handed out in the end, which
      is a defect of the kernel ([module_handed_out]); bootstrap tables (Bootstrap) and [vmm_init] map what they should; segments, gates and
      interrupt lines decode to what is meant (Gdt, Idt, IrqLines).
    - Processes (UserTheorems): spawn, exec, exit and wait succeed completely or
      undo everything, with the frames that are available afterwards stated
      exactly; a status travels from exit to wait.
    - Memory: [pmm_init] frees exactly the usable frames; no frame is handed out
      twice; page tables translate as mapped, address spaces are isolated and give
      everything back; the heap refines a list of blocks whose payloads are
      disjoint.
    - Scheduling: the invariant over any history, fairness of the round robin, and
      at instruction level the round trip of the context switch, transparent
      interrupt stubs and the frame of int 0x80.
    - Text and keys: the terminal refines a screen, printk its format, the ring
      buffer a FIFO (also when the interrupt hits in the middle of a pop), the two
      shells line editors; an interrupt leaves the controllers as it found them;
      serial output ends.
    - Files: an archive that mkemxa.py writes is read back, and no lookup looks at
      bytes outside the module or returns any.

    ** Conventions, bounds and assumptions

    A w-bit integer is a [Z] wrapped where the C wraps ([u32], [s32]).  A C loop
    over a range is [for_range] or [find_range]; code that can panic or not return
    is an [outcome].  Loops that are not over a range have a bound: 2^24 rounds for
    a chain of heap blocks (each has a header of 12 bytes in the 16 MiB that are
    mapped), 5 for the search of a segment (each round but the last leaves one of
    the three avoided ranges behind), the length of the map for its entries, 10
    digits of a 32-bit number, 128 bytes for a string (no array is longer).  The
    theorems show that the bounds are enough; the polls of the UART end for every
    bound on its delays.  A round of [user_wait], [user_init] or of the user shell
    is a step, since other tasks run in between.

    Assumed of the running system: the frames of the boot module are not handed
    out ([module_held], part of the invariant; the kernel itself does not see to
    it, and GRUB may well put the module into usable memory), the counters of pids
    and threads have not come round, and user code cannot store to the kernel half
    ([user_store] refuses it; the direct map of [vmm_init] is supervisor-only).
    The interrupts of System are the keys for the process in the foreground,
    between two steps; timer ticks, which only count, the commands of the kernel
    shell and exceptions of user code other than page faults are not events there
    (Interrupt and Kshell have them on their own).  Devices answer as the register
    models of Ports say, and C calls follow the i386 calling convention.

    ** Not modelled

    crti.S and crtn.S (the tool chain's frame of [_init]), the linker scripts and
    the build, caches of translations other than a record of [invlpg], instruction
    encoding, and user code as machine code: a process in System is arbitrary, and
    the programs of src/user are taken at source level with the linker's addresses
    as parameters, without the segment registers that crt0.S and readkey.S load.
    arch_idle and arch_halt are [hlt], where a round ends. *)

From stdpp Require Export base tactics option list list_numbers gmap strings.
From Stdlib Require Export ZArith Lia.

#[global] Open Scope Z_scope.

(** The solvers of stdpp clear hypotheses they may already have consumed. *)
#[export] Set Warnings "-clear-no-such-hyp".

(** ** Fixed-width integers

    A C integer of width [w] is a [Z]; every operation of the code that can
    leave the width is followed by an explicit [wrap]. *)

Definition wrap (w z : Z) : Z := z mod 2 ^ w.

Abbreviation u8 := (wrap 8).
Abbreviation u16 := (wrap 16).
Abbreviation u32 := (wrap 32).
Abbreviation u64 := (wrap 64).

(** Reading an unsigned 32-bit value as [int] (two's complement). *)
Definition s32 (z : Z) : Z :=
  if u32 z <? 2147483648 then u32 z else u32 z - 4294967296.

Arguments wrap : simpl never.

Declare Scope cint_scope.
Delimit Scope cint_scope with cint.
Notation "x +u y" := (u32 (x + y)) (at level 50, left associativity) : cint_scope.
Notation "x -u y" := (u32 (x - y)) (at level 50, left associativity) : cint_scope.
Notation "x *u y" := (u32 (x * y)) (at level 40, left associativity) : cint_scope.
#[global] Open Scope cint_scope.

(** ** Automation *)

(** [lia] with wrap-around, division and remainder made linear. *)
Ltac ulia := unfold wrap in *; try lia; Z.div_mod_to_equations; lia.

(** Turn the boolean tests of the context into propositions. *)

Ltac bool_simpl :=
  repeat match goal with
  | H : (_ && _)%bool = true |- _ => apply andb_prop in H; destruct H
  | H : (_ && _)%bool = false |- _ => apply andb_false_iff in H; destruct H
  | H : (_ || _)%bool = false |- _ => apply orb_false_elim in H; destruct H
  | H : (_ || _)%bool = true |- _ => apply orb_prop in H; destruct H
  | H : negb _ = true |- _ => apply negb_true_iff in H
  | H : negb _ = false |- _ => apply negb_false_iff in H
  | H : (_ <? _) = true |- _ => apply Z.ltb_lt in H
  | H : (_ <? _) = false |- _ => apply Z.ltb_ge in H
  | H : (_ <=? _) = true |- _ => apply Z.leb_le in H
  | H : (_ <=? _) = false |- _ => apply Z.leb_gt in H
  | H : (_ =? _) = true |- _ => apply Z.eqb_eq in H
  | H : (_ =? _) = false |- _ => apply Z.eqb_neq in H
  | H : bool_decide _ = true |- _ => apply bool_decide_eq_true in H
  | H : bool_decide _ = false |- _ => apply bool_decide_eq_false in H
  end.

(** Case analysis on the first boolean test of the goal. *)
Ltac case_if :=
  match goal with
  | |- context [if ?b then _ else _] =>
      lazymatch type of b with
      | bool => let E := fresh "Hif" in destruct b eqn:E; bool_simpl
      end
  end.

Ltac case_if_in H :=
  match type of H with
  | context [if ?b then _ else _] =>
      lazymatch type of b with
      | bool => let E := fresh "Hif" in destruct b eqn:E; bool_simpl
      end
  end.

Create HintDb cint.
Create Rewrite HintDb cint.

(** ** Lemmas on fixed-width integers *)

Lemma wrap_range w z : 0 <= w -> 0 <= wrap w z < 2 ^ w.
Proof. intros. unfold wrap. apply Z.mod_pos_bound. lia. Qed.

Lemma wrap_small w z : 0 <= z < 2 ^ w -> wrap w z = z.
Proof. intros. unfold wrap. by apply Z.mod_small. Qed.

Lemma wrap_wrap w z : 0 <= w -> wrap w (wrap w z) = wrap w z.
Proof. intros. apply wrap_small, wrap_range; lia. Qed.

Lemma wrap_wrap_ge w v z : 0 <= w <= v -> wrap v (wrap w z) = wrap w z.
Proof.
  intros. apply wrap_small. pose proof (wrap_range w z).
  pose proof (Z.pow_le_mono_r 2 w v). lia.
Qed.

Lemma u32_range z : 0 <= u32 z < 4294967296.
Proof. apply (wrap_range 32). lia. Qed.

Lemma u8_range z : 0 <= u8 z < 256.
Proof. apply (wrap_range 8). lia. Qed.

#[export] Hint Resolve u32_range u8_range : cint.

Lemma s32_u32 z : -2147483648 <= z < 2147483648 -> s32 (u32 z) = z.
Proof. intros. unfold s32. rewrite wrap_wrap by lia. case_if; ulia. Qed.

(** Masks, shifts and disjoint "or" in arithmetic form. *)

Lemma land_ones_mod x k : 0 <= k -> Z.land x (Z.ones k) = x mod 2 ^ k.
Proof. apply Z.land_ones. Qed.

Lemma land_low x k m : 0 <= k -> m = Z.ones k -> Z.land x m = x mod 2 ^ k.
Proof. intros ? ->. by apply Z.land_ones. Qed.

Lemma land_4095 x : Z.land x 4095 = x mod 4096.
Proof. by apply (land_low x 12). Qed.

Lemma land_1023 x : Z.land x 1023 = x mod 1024.
Proof. by apply (land_low x 10). Qed.

Lemma land_1 x : Z.land x 1 = x mod 2.
Proof. by apply (land_low x 1). Qed.

Lemma land_field x k n m :
  0 <= k -> 0 <= n -> m = Z.shiftl (Z.ones n) k ->
  Z.land x m = ((x / 2 ^ k) mod 2 ^ n) * 2 ^ k.
Proof.
  intros ?? ->. rewrite <- Z.land_ones, <- Z.shiftr_div_pow2, <- Z.shiftl_mul_pow2 by lia.
  apply Z.bits_inj'. intros i Hi. rewrite Z.land_spec, !Z.shiftl_spec by lia.
  destruct (decide (i < k)).
  - rewrite !(Z.testbit_neg_r _ (i - k)) by lia. by rewrite andb_false_r.
  - rewrite Z.land_spec, Z.shiftr_spec by lia. by replace (i - k + k) with i by lia.
Qed.

Lemma land_fffff000 x : Z.land x 0xfffff000 = (x / 4096) mod 1048576 * 4096.
Proof. by apply (land_field x 12 20). Qed.

Lemma land_high k x m :
  0 <= k <= 32 -> 0 <= x < 4294967296 -> m = Z.shiftl (Z.ones (32 - k)) k ->
  Z.land x m = x / 2 ^ k * 2 ^ k.
Proof.
  intros Hk Hx ->. rewrite (land_field x k (32 - k)) by (reflexivity || lia).
  rewrite Z.mod_small; [done|]. split; [apply Z.div_pos; lia|].
  apply Z.div_lt_upper_bound; [lia|]. rewrite <- Z.pow_add_r by lia.
  replace (k + (32 - k)) with 32 by lia. lia.
Qed.

Lemma lor_disjoint a b k :
  0 <= k -> 0 <= b < 2 ^ k -> Z.lor (a * 2 ^ k) b = a * 2 ^ k + b.
Proof.
  intros Hk Hb.
  assert (Hl : Z.land (a * 2 ^ k) b = 0).
  { apply Z.bits_inj'. intros i Hi. rewrite Z.land_spec, Z.bits_0.
    destruct (decide (i < k)).
    - by rewrite Z.mul_pow2_bits_low by lia.
    - rewrite <- (Z.mod_small b (2 ^ k)) by done.
      rewrite Z.mod_pow2_bits_high by lia. apply andb_false_r. }
  by rewrite Z.add_nocarry_lxor, Z.lxor_lor by done.
Qed.

Lemma lor_page a b : 0 <= b < 4096 -> Z.lor (a * 4096) b = a * 4096 + b.
Proof. apply (lor_disjoint a b 12). lia. Qed.

Lemma lor_page' p b : p mod 4096 = 0 -> 0 <= b < 4096 -> Z.lor p b = p + b.
Proof.
  intros Hp Hb. rewrite (Z.div_mod p 4096), Hp by lia.
  replace (4096 * (p / 4096) + 0) with (p / 4096 * 4096) by lia. by rewrite lor_page.
Qed.

Lemma shiftr_12 x : Z.shiftr x 12 = x / 4096.
Proof. by rewrite Z.shiftr_div_pow2. Qed.

Lemma shiftr_22 x : Z.shiftr x 22 = x / 4194304.
Proof. by rewrite Z.shiftr_div_pow2. Qed.

Lemma shiftl_12 x : Z.shiftl x 12 = x * 4096.
Proof. by rewrite Z.shiftl_mul_pow2. Qed.

#[export] Hint Rewrite land_4095 land_1023 land_1 land_fffff000
  shiftr_12 shiftr_22 shiftl_12 : cint.

(** [~(size - 1)] at 32 bits, as [align_up] and [align_size] compute it. *)
Lemma land_lnot_mask k x :
  0 <= k <= 32 -> 0 <= x < 4294967296 ->
  Z.land x (u32 (Z.lnot (2 ^ k - 1))) = x / 2 ^ k * 2 ^ k.
Proof.
  intros Hk Hx. apply land_high; [done..|].
  assert (2 ^ 32 = 2 ^ k * 2 ^ (32 - k)) as E by (rewrite <- Z.pow_add_r by lia; f_equal; lia).
  assert (0 < 2 ^ k) by lia. assert (0 < 2 ^ (32 - k)) by lia.
  rewrite Z.shiftl_mul_pow2, Z.ones_equiv by lia.
  unfold Z.lnot, wrap. rewrite E.
  replace (Z.pred (- (2 ^ k - 1))) with (2 ^ k * 2 ^ (32 - k) - 2 ^ k + (-1) * (2 ^ k * 2 ^ (32 - k))) by lia.
  rewrite Z.mod_add by nia. rewrite Z.mod_small by nia. lia.
Qed.

(** ** Counted loops

    [for_range lo hi body s] is [for (i = lo; i < hi; i++) body] on the state
    [s]; [find_range lo hi p] is the loop that returns at the first [i] that
    passes the test [p]. *)

Fixpoint for_count {S : Type} (n : nat) (i : Z) (body : Z -> S -> S) (s : S) : S :=
  match n with
  | O => s
  | Datatypes.S n => for_count n (i + 1) body (body i s)
  end.

Definition for_range {S : Type} (lo hi : Z) (body : Z -> S -> S) (s : S) : S :=
  for_count (Z.to_nat (hi - lo)) lo body s.

Fixpoint first_in (p : Z -> bool) (l : list Z) : option Z :=
  match l with
  | [] => None
  | i :: l => if p i then Some i else first_in p l
  end.

Definition find_range (lo hi : Z) (p : Z -> bool) : option Z :=
  first_in p (seqZ lo (hi - lo)).

Arguments for_range : simpl never.
Arguments find_range : simpl never.

Section for_range.
Context {S : Type}.
Implicit Types (body : Z -> S -> S) (s : S).

Lemma for_count_snoc n i body s :
  for_count (n + 1) i body s = body (i + Z.of_nat n) (for_count n i body s).
Proof.
  revert i s. induction n as [|n IH]; intros i s; simpl; [f_equal; lia|].
  rewrite IH. f_equal. lia.
Qed.

Lemma for_range_nil lo hi body s : hi <= lo -> for_range lo hi body s = s.
Proof. intros. unfold for_range. by replace (Z.to_nat (hi - lo)) with O by lia. Qed.

Lemma for_range_cons lo hi body s :
  lo < hi -> for_range lo hi body s = for_range (lo + 1) hi body (body lo s).
Proof.
  intros. unfold for_range.
  by replace (Z.to_nat (hi - lo)) with (Datatypes.S (Z.to_nat (hi - (lo + 1)))) by lia.
Qed.

Lemma for_range_snoc lo hi body s :
  lo <= hi -> for_range lo (hi + 1) body s = body hi (for_range lo hi body s).
Proof.
  intros. unfold for_range.
  replace (Z.to_nat (hi + 1 - lo)) with (Z.to_nat (hi - lo) + 1)%nat by lia.
  rewrite for_count_snoc. f_equal. lia.
Qed.

(** The loop invariant rule. *)
Lemma for_range_ind (P : Z -> S -> Prop) lo hi body s :
  lo <= hi -> P lo s ->
  (forall i s', lo <= i < hi -> P i s' -> P (i + 1) (body i s')) ->
  P hi (for_range lo hi body s).
Proof.
  intros Hle H0 HS.
  assert (forall n : nat, lo + Z.of_nat n <= hi ->
    P (lo + Z.of_nat n) (for_range lo (lo + Z.of_nat n) body s)) as Hn.
  { induction n as [|n IH]; intros.
    - rewrite for_range_nil by lia. by replace (lo + Z.of_nat 0) with lo by lia.
    - replace (lo + Z.of_nat (Datatypes.S n)) with (lo + Z.of_nat n + 1) by lia.
      rewrite for_range_snoc by lia. apply HS; [lia|]. apply IH. lia. }
  specialize (Hn (Z.to_nat (hi - lo))).
  replace (lo + Z.of_nat (Z.to_nat (hi - lo))) with hi in Hn by lia. apply Hn. lia.
Qed.

Lemma for_range_ext lo hi body body' s :
  (forall i s', lo <= i < hi -> body i s' = body' i s') ->
  for_range lo hi body s = for_range lo hi body' s.
Proof.
  intros Hext. destruct (decide (lo <= hi)); [|by rewrite !for_range_nil by lia].
  apply (for_range_ind (fun i s' => s' = for_range lo i body' s)); [lia|..].
  - by rewrite for_range_nil by lia.
  - intros i s' Hi ->. rewrite for_range_snoc by lia. by apply Hext.
Qed.
End for_range.

(** Apply the loop invariant rule with an invariant whose instances are
    resolved first. *)
Tactic Notation "for_inv" constr(P) := apply (for_range_ind P).

Lemma first_in_Some p l i :
  first_in p l = Some i <->
  exists l1 l2, l = l1 ++ i :: l2 /\ p i = true /\ Forall (fun j => p j = false) l1.
Proof.
  split.
  - induction l as [|j l IH]; simpl; [done|]. destruct (p j) eqn:E; intros Hl.
    + injection Hl as <-. by exists [], l.
    + destruct (IH Hl) as (l1 & l2 & -> & ? & ?). exists (j :: l1), l2. eauto.
  - intros (l1 & l2 & -> & Hi & Hl). induction Hl; simpl; [by rewrite Hi|].
    by rewrite H.
Qed.

Lemma first_in_None p l :
  first_in p l = None <-> Forall (fun j => p j = false) l.
Proof.
  induction l as [|j l IH]; simpl; [by split|]. destruct (p j) eqn:E.
  - split; [done|]. intros H; inv H; congruence.
  - rewrite IH. split; [by constructor|]. by intros H; inv H.
Qed.

Lemma find_range_None lo hi p :
  find_range lo hi p = None <-> forall j, lo <= j < hi -> p j = false.
Proof.
  unfold find_range. rewrite first_in_None, Forall_seqZ.
  by replace (lo + (hi - lo)) with hi by lia.
Qed.

Lemma find_range_Some lo hi p i :
  find_range lo hi p = Some i <->
  lo <= i < hi /\ p i = true /\ forall j, lo <= j < i -> p j = false.
Proof.
  unfold find_range. rewrite first_in_Some. split.
  - intros (l1 & l2 & Hl & Hi & Hf).
    assert (Hlen : seqZ lo (hi - lo) !! length l1 = Some i)
      by (rewrite Hl, lookup_app_r, Nat.sub_diag by lia; done).
    apply lookup_seqZ in Hlen as [-> Hlt]. split; [lia|]. split; [done|].
    intros j Hj. rewrite Forall_lookup in Hf. apply (Hf (Z.to_nat (j - lo))).
    rewrite <- (lookup_app_l l1 ((lo + Z.of_nat (length l1)) :: l2)) by lia.
    rewrite <- Hl. apply lookup_seqZ. lia.
  - intros (Hr & Hi & Hf). exists (seqZ lo (i - lo)), (seqZ (i + 1) (hi - (i + 1))).
    split; [|split; [done|]].
    + replace (hi - lo) with ((i - lo) + (hi - i)) by lia. rewrite seqZ_app by lia.
      f_equal. rewrite seqZ_cons by lia. f_equal; [lia|]. f_equal; lia.
    + rewrite Forall_seqZ. intros j Hj. apply Hf. lia.
Qed.

(** A search stops where its predicate holds, whatever comes after. *)
Lemma find_range_until lo hi (p q : Z -> bool) k :
  lo <= k < hi -> p k = true -> (forall i, lo <= i <= k -> p i = q i) ->
  exists i, lo <= i <= k /\ find_range lo hi p = Some i /\ find_range lo hi q = Some i.
Proof.
  intros Hk Hp Heq. destruct (find_range lo hi p) as [i|] eqn:Hf.
  - pose proof (proj1 (find_range_Some _ _ _ _) Hf) as (Hi & Pi & Ni). assert (Hik : i <= k).
    { destruct (Z.le_gt_cases i k); [done|]. rewrite Ni in Hp by lia. done. }
    exists i. split; [lia|]. split; [done|]. apply find_range_Some. split; [lia|]. rewrite <- Heq by lia.
    split; [done|]. intros j Hj. rewrite <- Heq by lia. apply Ni. lia.
  - rewrite find_range_None in Hf. rewrite Hf in Hp by lia. done.
Qed.

Lemma find_range_ext lo hi (p q : Z -> bool) :
  (forall i, lo <= i < hi -> p i = q i) -> find_range lo hi p = find_range lo hi q.
Proof.
  intros H. destruct (find_range lo hi p) as [k|] eqn:Hf; symmetry.
  - apply find_range_Some in Hf as (Hk & Pk & Nk). apply find_range_Some. split; [done|]. rewrite <- H by lia.
    split; [done|]. intros j Hj. rewrite <- H by lia. by apply Nk.
  - rewrite find_range_None in *. intros j Hj. rewrite <- H by done. by apply Hf.
Qed.

(** ** Counting *)

(** How many [i] of [lo, hi) pass the test [p]. *)
Definition count_range (p : Z -> bool) (lo hi : Z) : Z :=
  Z.of_nat (length (List.filter p (seqZ lo (hi - lo)))).

Lemma count_range_nil p lo hi : hi <= lo -> count_range p lo hi = 0.
Proof. intros. unfold count_range. by rewrite seqZ_nil by lia. Qed.

Lemma count_range_split p lo mid hi :
  lo <= mid <= hi -> count_range p lo hi = count_range p lo mid + count_range p mid hi.
Proof.
  intros. unfold count_range. replace (hi - lo) with ((mid - lo) + (hi - mid)) by lia.
  rewrite seqZ_app, List.filter_app, length_app by lia.
  replace (lo + (mid - lo)) with mid by lia. lia.
Qed.

Lemma count_range_one p i : count_range p i (i + 1) = if p i then 1 else 0.
Proof.
  unfold count_range. replace (i + 1 - i) with 1 by lia.
  rewrite seqZ_cons, seqZ_nil by lia. simpl. by destruct (p i).
Qed.

Lemma count_range_ext p q lo hi :
  (forall i, lo <= i < hi -> p i = q i) -> count_range p lo hi = count_range q lo hi.
Proof.
  intros Hpq. unfold count_range. do 2 f_equal. apply List.filter_ext_in.
  intros i Hi. apply list_elem_of_In, elem_of_seqZ in Hi. apply Hpq. lia.
Qed.

Lemma count_range_bounds p lo hi : lo <= hi -> 0 <= count_range p lo hi <= hi - lo.
Proof.
  intros. unfold count_range. pose proof (List.filter_length_le p (seqZ lo (hi - lo))).
  rewrite length_seqZ in H0. lia.
Qed.

Lemma count_range_pos p lo hi i : lo <= i < hi -> p i = true -> 0 < count_range p lo hi.
Proof.
  intros Hi Hp. rewrite (count_range_split p lo i hi), (count_range_split p i (i + 1) hi) by lia.
  rewrite count_range_one, Hp.
  pose proof (count_range_bounds p lo i). pose proof (count_range_bounds p (i + 1) hi). lia.
Qed.

Lemma count_range_all p lo hi :
  lo <= hi -> (forall i, lo <= i < hi -> p i = true) -> count_range p lo hi = hi - lo.
Proof.
  intros Hle Hp. rewrite (count_range_ext p (fun _ => true)) by done.
  unfold count_range. rewrite List.filter_true, length_seqZ. lia.
Qed.

Lemma count_range_none p lo hi :
  (forall i, lo <= i < hi -> p i = false) -> count_range p lo hi = 0.
Proof.
  intros Hp. rewrite (count_range_ext p (fun _ => false)) by done.
  unfold count_range. induction (seqZ lo (hi - lo)); done.
Qed.

(** Adding a block of new indices. *)
Lemma count_range_add p q lo hi a b :
  lo <= a <= b -> b <= hi -> (forall i, a <= i < b -> p i = false) ->
  (forall i, lo <= i < hi -> q i = p i || ((a <=? i) && (i <? b))) ->
  count_range q lo hi = count_range p lo hi + (b - a).
Proof.
  intros Ha Hb Hp Hq.
  rewrite (count_range_split q lo a hi), (count_range_split q a b hi),
    (count_range_split p lo a hi), (count_range_split p a b hi) by lia.
  rewrite (count_range_all q a b), (count_range_none p a b); [|done|lia|].
  2: { intros i Hi. rewrite Hq by lia. rewrite (proj2 (Z.leb_le a i)), (proj2 (Z.ltb_lt i b)) by lia.
       apply orb_true_r. }
  rewrite (count_range_ext q p lo a), (count_range_ext q p b hi); [lia|..]; intros i Hi; rewrite Hq by lia;
    destruct (Z.leb_spec a i), (Z.ltb_spec i b); try lia; by rewrite orb_false_r.
Qed.

(** Changing the test at one index changes the count by one. *)
Lemma count_range_flip p q lo hi k :
  lo <= k < hi -> p k = false -> q k = true ->
  (forall i, lo <= i < hi -> i <> k -> p i = q i) ->
  count_range q lo hi = count_range p lo hi + 1.
Proof.
  intros Hk Hp Hq Hne.
  rewrite (count_range_split q lo k hi), (count_range_split q k (k + 1) hi),
    (count_range_split p lo k hi), (count_range_split p k (k + 1) hi) by lia.
  rewrite !count_range_one, Hp, Hq.
  rewrite (count_range_ext p q lo k), (count_range_ext p q (k + 1) hi); [lia|..];
    intros; apply Hne; lia.
Qed.

(** ** Bytes of string literals *)

(** The bytes of a C string literal, without its terminating NUL. *)
Fixpoint chars (s : string) : list Z :=
  match s with
  | EmptyString => []
  | String c s => Z.of_N (Ascii.N_of_ascii c) :: chars s
  end.

(** A literal that ends in [\n]. *)
Definition ln (s : string) : string := s +:+ String (Ascii.ascii_of_nat 10) EmptyString.

Lemma chars_range s : Forall (fun c => 0 <= c < 256) (chars s).
Proof.
  induction s as [|c s IH]; simpl; constructor; [|done].
  pose proof (Ascii.N_ascii_bounded c). lia.
Qed.

(** ** Lists used as C arrays *)

Lemma list_insert_lookup {A} (l : list A) i j x :
  <[i:=x]> l !! j = if decide (i = j /\ (j < length l)%nat) then Some x else l !! j.
Proof.
  case_decide as H.
  - destruct H as [-> ?]. by apply list_lookup_insert_eq.
  - destruct (decide (i = j)) as [->|]; [|by apply list_lookup_insert_ne].
    rewrite list_insert_ge by lia. done.
Qed.

(** The loop that fills a[lo..hi) with [f i]. *)
Lemma fill_loop {A} (f : Z -> A) lo hi (l : list A) :
  0 <= lo ->
  length (for_range lo hi (fun i (l : list A) => <[Z.to_nat i := f i]> l) l) = length l /\
  forall j : nat, for_range lo hi (fun i (l : list A) => <[Z.to_nat i := f i]> l) l !! j =
    if decide (lo <= Z.of_nat j < hi /\ (j < length l)%nat) then Some (f (Z.of_nat j)) else l !! j.
Proof.
  intros Hlo. destruct (decide (lo <= hi)).
  2: { rewrite for_range_nil by lia. split; [done|]. intros j. by case_decide; [lia|]. }
  for_inv (fun hi l' => length l' = length l /\ forall j : nat, l' !! j =
    if decide (lo <= Z.of_nat j < hi /\ (j < length l)%nat) then Some (f (Z.of_nat j)) else l !! j).
  - done.
  - split; [done|]. intros j. by case_decide; [lia|].
  - intros i l' Hi [IHl IH]. rewrite length_insert. split; [done|]. intros j.
    rewrite list_insert_lookup, IH, IHl.
    repeat case_decide; try lia; try done. do 2 f_equal. lia.
Qed.

Lemma filter_length_lt {A} (p q : A -> bool) (l : list A) x :
  (forall y, q y = true -> p y = true) -> x ∈ l -> p x = true -> q x = false ->
  (length (List.filter q l) < length (List.filter p l))%nat.
Proof.
  intros Hqp Hx Hp Hq.
  assert (Hle : forall l, (length (List.filter q l) <= length (List.filter p l))%nat).
  { clear -Hqp. induction l as [|y l IH]; simpl; [lia|]. specialize (Hqp y).
    destruct (q y), (p y); simpl; try lia; by discriminate Hqp. }
  induction l as [|y l IH]; [by apply elem_of_nil in Hx|]. simpl.
  apply elem_of_cons in Hx as [<-|Hx].
  - rewrite Hp, Hq. simpl. specialize (Hle l). lia.
  - specialize (IH Hx). destruct (q y) eqn:Ey.
    + rewrite (Hqp y Ey). simpl. lia.
    + destruct (p y); simpl; lia.
Qed.

(** ** While loops

    [while_pow n step s] runs [step] until it answers [inr], at most [2 ^ n]
    times; [inl] means that the bound was reached.  The doubling recursion
    keeps the bound large and the term small. *)

Fixpoint while_pow {S R : Type} (n : nat) (step : S -> S + R) (s : S) : S + R :=
  match n with
  | O => step s
  | Datatypes.S n =>
    match while_pow n step s with
    | inl s' => while_pow n step s'
    | inr r => inr r
    end
  end.

(** The loop ends with [r] after at most [k] rounds. *)
Inductive ends_in {S R : Type} (step : S -> S + R) : nat -> S -> R -> Prop :=
  | ends_now k s r : step s = inr r -> ends_in step (Datatypes.S k) s r
  | ends_later k s s' r : step s = inl s' -> ends_in step k s' r -> ends_in step (Datatypes.S k) s r.

Lemma while_pow_split {S R} (step : S -> S + R) n k s r :
  ends_in step k s r ->
  while_pow n step s = inr r \/
  exists s', while_pow n step s = inl s' /\ (2 ^ n < k)%nat /\ ends_in step (k - 2 ^ n) s' r.
Proof.
  revert k s. induction n as [|n IH]; intros k s Hk; simpl.
  - inversion Hk as [? ? ? E|k' ? s' ? E Hk']; subst; rewrite E; [by left|right].
    exists s'. split; [done|]. replace (Datatypes.S k' - 1)%nat with k' by lia.
    split; [|done]. inversion Hk'; lia.
  - destruct (IH k s Hk) as [->|(s1 & -> & Hlt & Hk1)]; [by left|].
    destruct (IH _ _ Hk1) as [->|(s2 & -> & Hlt2 & Hk2)]; [by left|right].
    exists s2. split; [done|]. split; [lia|].
    by replace (k - (2 ^ n + (2 ^ n + 0)))%nat with (k - 2 ^ n - 2 ^ n)%nat by lia.
Qed.

Lemma while_pow_ends {S R} (step : S -> S + R) n k s r :
  ends_in step k s r -> (k <= 2 ^ n)%nat -> while_pow n step s = inr r.
Proof.
  intros Hk Hle. destruct (while_pow_split step n k s r Hk) as [|(s' & _ & ? & _)]; [done|lia].
Qed.

(** What every round preserves holds at the end. *)
Lemma while_pow_inv {S R} (P : S -> Prop) (Q : R -> Prop) (step : S -> S + R) n s :
  (forall s, P s -> match step s with inl s' => P s' | inr r => Q r end) ->
  P s -> match while_pow n step s with inl s' => P s' | inr r => Q r end.
Proof.
  intros Hstep. revert s. induction n as [|n IH]; intros s Hs; simpl; [by apply Hstep|].
  specialize (IH s Hs) as H1. destruct (while_pow n step s) as [s'|r]; [by apply IH|done].
Qed.

(** Loops are reasoned about with the rules above; conversion must not unroll
    them. *)
#[global] Opaque for_range find_range count_range.
