(* ===== verification/Memory.v ===== *)
(** * Physical memory, the direct map and the freestanding libc

    The kernel reaches physical memory through the direct map: the pointer
    [VMM_KERNEL_VIRTUAL_BASE + a] denotes the physical address [a]
    ([vmm_phys_to_virt], [vmm_virt_to_phys] of src/kernel/mm/vmm.c).  Memory is
    one shared byte store; the page bitmap, the page tables, the heap blocks,
    the user pages and the boot module all live in it, so that aliasing between
    components is visible to the model.

    On top of it: [read_le32] (src/kernel/lib/endian.c) and the string
    functions of src/libc/string, loop for loop. *)

From S2P Require Import Prelude.

(** ** Bytes and words *)

(** A partial map from physical addresses to cells; a cell never written
    reads as 0, and a cell always holds a byte. *)
Abbreviation memory := (gmap Z Z).

Definition load8 (m : memory) (a : Z) : Z := u8 (default 0 (m !! a)).
Definition store8 (m : memory) (a v : Z) : memory := <[a := u8 v]> m.

(** i386 is little-endian. *)
Definition load32 (m : memory) (a : Z) : Z :=
  load8 m a + load8 m (a + 1) * 256 + load8 m (a + 2) * 65536
  + load8 m (a + 3) * 16777216.
Definition store32 (m : memory) (a v : Z) : memory :=
  store8 (store8 (store8 (store8 m a v) (a + 1) (v / 256))
    (a + 2) (v / 65536)) (a + 3) (v / 16777216).
Definition load64 (m : memory) (a : Z) : Z :=
  load32 m a + load32 m (a + 4) * 4294967296.

(** ** The direct map *)

Abbreviation VMM_KERNEL_VIRTUAL_BASE := 0xC0000000.
Abbreviation VMM_DIRECT_MAP_LIMIT := 0x1000000.
Abbreviation NULL := 0.

Definition vmm_phys_to_virt (paddr : Z) : Z :=
  if VMM_DIRECT_MAP_LIMIT <=? paddr then NULL
  else VMM_KERNEL_VIRTUAL_BASE +u paddr.

Definition vmm_virt_to_phys (vaddr : Z) : Z :=
  if (vaddr <? VMM_KERNEL_VIRTUAL_BASE)
     || (VMM_KERNEL_VIRTUAL_BASE + VMM_DIRECT_MAP_LIMIT <=? vaddr)
  then 0
  else vaddr -u VMM_KERNEL_VIRTUAL_BASE.

(** The physical address behind a kernel pointer, and dereferences. *)
Definition phys (p : Z) : Z := p - VMM_KERNEL_VIRTUAL_BASE.
Definition rd8 (m : memory) (p : Z) : Z := load8 m (phys p).
Definition rd32 (m : memory) (p : Z) : Z := load32 m (phys p).
Definition wr8 (m : memory) (p v : Z) : memory := store8 m (phys p) v.
Definition wr32 (m : memory) (p v : Z) : memory := store32 m (phys p) v.

(** ** libc and endianness *)

Definition memset (m : memory) (bufptr value size : Z) : memory :=
  for_range 0 size (fun i m => wr8 m (bufptr + i) value) m.

Definition memcpy (m : memory) (dst src size : Z) : memory :=
  for_range 0 size (fun i m => wr8 m (dst + i) (rd8 m (src + i))) m.

(** The second loop of [memmove] counts [i] down from [size] to 1; iteration
    [k] of the model is the source's [i = size - k]. *)
Definition memmove (m : memory) (dst src size : Z) : memory :=
  if dst <? src then
    for_range 0 size (fun i m => wr8 m (dst + i) (rd8 m (src + i))) m
  else
    for_range 0 size (fun k m => let i := size - k in
      wr8 m (dst + (i - 1)) (rd8 m (src + (i - 1)))) m.

(** [memcmp] and [strlen] read through pointers to a heap page, a static array
    or a literal: a pointer argument is the function from index to byte. *)
Definition memcmp (a b : Z -> Z) (size : Z) : Z :=
  match find_range 0 size (fun i => (a i <? b i) || (b i <? a i)) with
  | Some i => if a i <? b i then -1 else 1
  | None => 0
  end.

(** [strlen] scans for the NUL; [None] when there is none in the first [fuel]
    bytes (the C loop would run off the array). *)
Fixpoint strlen_from (fuel : nat) (str : Z -> Z) (len : Z) : option Z :=
  match fuel with
  | O => None
  | S fuel => if str len =? 0 then Some len else strlen_from fuel str (len + 1)
  end.
Definition strlen (fuel : nat) (str : Z -> Z) : option Z := strlen_from fuel str 0.

Definition read_le32 (bytes : Z -> Z) : Z :=
  Z.lor (Z.lor (Z.lor (bytes 0) (u32 (Z.shiftl (bytes 1) 8)))
    (u32 (Z.shiftl (bytes 2) 16))) (u32 (Z.shiftl (bytes 3) 24)).

(** A pointer into memory, and a static array, as byte readers. *)
Definition at_ptr (m : memory) (p : Z) : Z -> Z := fun i => rd8 m (p + i).
Definition at_arr (l : list Z) : Z -> Z := fun i => default 0 (l !! Z.to_nat i).

(** ** Lemmas: bytes *)

Lemma load8_range m a : 0 <= load8 m a < 256.
Proof. apply u8_range. Qed.

Lemma load8_store8 m a v b :
  load8 (store8 m a v) b = if decide (a = b) then u8 v else load8 m b.
Proof.
  unfold load8, store8. rewrite lookup_insert. case_decide; simpl; [|done].
  by rewrite wrap_wrap by lia.
Qed.

Lemma load8_store8_eq m a v : load8 (store8 m a v) a = u8 v.
Proof. rewrite load8_store8. by case_decide. Qed.

Lemma load8_store8_ne m a v b : a <> b -> load8 (store8 m a v) b = load8 m b.
Proof. intros. rewrite load8_store8. by case_decide. Qed.

(** ** Lemmas: words *)

Lemma load32_range m a : 0 <= load32 m a < 4294967296.
Proof.
  unfold load32. pose proof (load8_range m a). pose proof (load8_range m (a + 1)).
  pose proof (load8_range m (a + 2)). pose proof (load8_range m (a + 3)). lia.
Qed.

#[export] Hint Resolve load8_range load32_range : cint.

Lemma load8_store32 m a v b :
  load8 (store32 m a v) b =
  if decide (a <= b < a + 4) then u8 (v / 2 ^ (8 * (b - a))) else load8 m b.
Proof.
  unfold store32. rewrite !load8_store8. repeat case_decide; try lia; try done; subst.
  - by replace (8 * (a + 3 - a)) with 24 by lia.
  - by replace (8 * (a + 2 - a)) with 16 by lia.
  - by replace (8 * (a + 1 - a)) with 8 by lia.
  - replace (8 * (b - b)) with 0 by lia. by rewrite Z.pow_0_r, Z.div_1_r.
Qed.

Lemma bytes_u32 v :
  u8 v + u8 (v / 256) * 256 + u8 (v / 65536) * 65536 + u8 (v / 16777216) * 16777216
  = u32 v.
Proof. ulia. Qed.

Lemma load32_store32_eq m a v : load32 (store32 m a v) a = u32 v.
Proof.
  unfold load32, store32. rewrite !load8_store8.
  repeat case_decide; try lia. apply bytes_u32.
Qed.

(** Loads depend only on the bytes they read. *)
Lemma load32_ext m m' a :
  (forall b, a <= b < a + 4 -> load8 m' b = load8 m b) -> load32 m' a = load32 m a.
Proof. intros H. unfold load32. rewrite !H by lia. done. Qed.

Lemma load32_store32_ne m a v b :
  a + 4 <= b \/ b + 4 <= a -> load32 (store32 m a v) b = load32 m b.
Proof.
  intros. apply load32_ext. intros c Hc. rewrite load8_store32. by case_decide; [lia|].
Qed.

Lemma load32_store8_ne m a v b :
  a < b \/ b + 4 <= a -> load32 (store8 m a v) b = load32 m b.
Proof. intros. apply load32_ext. intros c Hc. rewrite load8_store8_ne by lia. done. Qed.

Lemma load8_store32_ne m a v b :
  b < a \/ a + 4 <= b -> load8 (store32 m a v) b = load8 m b.
Proof. intros. rewrite load8_store32. by case_decide; [lia|]. Qed.

(** ** Footprints

    [only_changes F m m']: going from [m] to [m'] writes no byte outside [F]. *)

Definition only_changes (F : Z -> Prop) (m m' : memory) : Prop :=
  forall a, ~ F a -> load8 m' a = load8 m a.

Lemma only_changes_refl F m : only_changes F m m.
Proof. by intros a _. Qed.

Lemma only_changes_trans F m1 m2 m3 :
  only_changes F m1 m2 -> only_changes F m2 m3 -> only_changes F m1 m3.
Proof. intros H1 H2 a Ha. by rewrite H2, H1. Qed.

#[export] Instance only_changes_preorder F : PreOrder (only_changes F).
Proof. split; [intros ?; apply only_changes_refl|intros ???; apply only_changes_trans]. Qed.

Lemma only_changes_mono (F G : Z -> Prop) m m' :
  (forall a, F a -> G a) -> only_changes F m m' -> only_changes G m m'.
Proof. intros HFG H a Ha. apply H. auto. Qed.

Lemma only_changes_store8 (F : Z -> Prop) m a v : F a -> only_changes F m (store8 m a v).
Proof. intros Ha b Hb. apply load8_store8_ne. by intros ->. Qed.

Lemma only_changes_store32 (F : Z -> Prop) m a v :
  (forall b, a <= b < a + 4 -> F b) -> only_changes F m (store32 m a v).
Proof. intros Ha b Hb. rewrite load8_store32. case_decide; [|done]. by destruct Hb; apply Ha. Qed.

Lemma only_changes_load32 (F : Z -> Prop) m m' a :
  only_changes F m m' -> (forall b, a <= b < a + 4 -> ~ F b) -> load32 m' a = load32 m a.
Proof. intros H Hb. apply load32_ext. intros b ?. by apply H, Hb. Qed.

#[export] Hint Resolve only_changes_refl : cint.

(** ** Two stores with the same bytes

    [m ≡ₘ m'] equates stores that no load can tell apart. *)

Definition mem_equiv (m m' : memory) : Prop := forall a, load8 m a = load8 m' a.
Infix "≡ₘ" := mem_equiv (at level 70).

#[export] Instance mem_equiv_equivalence : Equivalence mem_equiv.
Proof.
  split; unfold mem_equiv.
  - by intros m a.
  - intros m m' H a. by rewrite H.
  - intros m m' m'' H H' a. by rewrite H, H'.
Qed.

#[export] Instance load8_proper : Proper (mem_equiv ==> eq ==> eq) load8.
Proof. by intros m m' H a ? <-. Qed.

#[export] Instance load32_proper : Proper (mem_equiv ==> eq ==> eq) load32.
Proof. intros m m' H a ? <-. apply load32_ext. intros. by rewrite H. Qed.

#[export] Instance store8_proper : Proper (mem_equiv ==> eq ==> eq ==> mem_equiv) store8.
Proof. intros m m' H a ? <- v ? <- b. rewrite !load8_store8. by case_decide. Qed.

#[export] Instance store32_proper : Proper (mem_equiv ==> eq ==> eq ==> mem_equiv) store32.
Proof. intros m m' H a ? <- v ? <- b. rewrite !load8_store32. by case_decide. Qed.

(** ** Lemmas: the direct map *)

Lemma phys_to_virt_in p :
  0 <= p < VMM_DIRECT_MAP_LIMIT -> vmm_phys_to_virt p = VMM_KERNEL_VIRTUAL_BASE + p.
Proof. intros. unfold vmm_phys_to_virt. case_if; [lia|]. ulia. Qed.

Lemma phys_to_virt_out p : VMM_DIRECT_MAP_LIMIT <= p -> vmm_phys_to_virt p = NULL.
Proof. intros. unfold vmm_phys_to_virt. by case_if; [|lia]. Qed.

Lemma phys_to_virt_null p :
  0 <= p -> vmm_phys_to_virt p = NULL <-> VMM_DIRECT_MAP_LIMIT <= p.
Proof.
  intros. split; [|apply phys_to_virt_out]. intros Hp.
  destruct (decide (VMM_DIRECT_MAP_LIMIT <= p)); [done|].
  rewrite phys_to_virt_in in Hp by lia. lia.
Qed.

Lemma phys_phys_to_virt p :
  0 <= p < VMM_DIRECT_MAP_LIMIT -> phys (vmm_phys_to_virt p) = p.
Proof. intros. rewrite phys_to_virt_in by done. unfold phys. lia. Qed.

Lemma virt_to_phys_to_virt p :
  0 <= p < VMM_DIRECT_MAP_LIMIT -> vmm_virt_to_phys (vmm_phys_to_virt p) = p.
Proof.
  intros. rewrite phys_to_virt_in by done. unfold vmm_virt_to_phys.
  case_if; try lia. ulia.
Qed.

(** ** Lemmas: libc *)

Lemma load8_memset m p v n a :
  load8 (memset m p v n) a =
  if decide (phys p <= a < phys p + n) then u8 v else load8 m a.
Proof.
  unfold memset. destruct (decide (0 <= n)).
  2: { rewrite for_range_nil by lia. by case_decide; [lia|]. }
  for_inv (fun i m' => load8 m' a =
    if decide (phys p <= a < phys p + i) then u8 v else load8 m a); [done|..].
  - by case_decide; [lia|].
  - intros i m' Hi IH. unfold wr8. rewrite load8_store8, IH. unfold phys.
    repeat case_decide; try lia; done.
Qed.

Lemma only_changes_memset (F : Z -> Prop) m p v n :
  (forall a, phys p <= a < phys p + n -> F a) -> only_changes F m (memset m p v n).
Proof. intros HF a Ha. rewrite load8_memset. case_decide; [|done]. by destruct Ha; apply HF. Qed.

Lemma load32_memset0 m p n a :
  phys p <= a -> a + 4 <= phys p + n -> load32 (memset m p 0 n) a = 0.
Proof. intros. unfold load32. rewrite !load8_memset. by repeat case_decide; try lia. Qed.

Lemma load32_memset_ne m p v n a :
  a + 4 <= phys p \/ phys p + n <= a -> load32 (memset m p v n) a = load32 m a.
Proof. intros. apply load32_ext. intros b Hb. rewrite load8_memset. by case_decide; [lia|]. Qed.

(** The forward copy loop, when it never overwrites a byte it has yet to
    read. *)
Lemma load8_copy_up m d s n a :
  0 <= n -> d <= s \/ s + n <= d ->
  load8 (for_range 0 n (fun i m => wr8 m (d + i) (rd8 m (s + i))) m) a =
  if decide (phys d <= a < phys d + n) then load8 m (a - d + s) else load8 m a.
Proof.
  intros Hn Hov.
  for_inv (fun i m' => forall a, load8 m' a =
    if decide (phys d <= a < phys d + i) then load8 m (a - d + s) else load8 m a); [done|..].
  - intros b. by case_decide; [lia|].
  - intros i m' Hi IH b. unfold wr8, rd8. rewrite load8_store8, !IH.
    assert (u8 (load8 m (phys (s + i))) = load8 m (phys (s + i))) as Hu
      by (apply wrap_small, load8_range).
    unfold phys in *. repeat case_decide; subst; try lia; try done.
    rewrite Hu. f_equal. lia.
Qed.

(** The backward copy loop of [memmove]. *)
Lemma load8_copy_down m d s n a :
  0 <= n -> s <= d ->
  load8 (for_range 0 n (fun k m => let i := n - k in
    wr8 m (d + (i - 1)) (rd8 m (s + (i - 1)))) m) a =
  if decide (phys d <= a < phys d + n) then load8 m (a - d + s) else load8 m a.
Proof.
  intros Hn Hov. cbv zeta.
  enough (Hk : forall a, load8 (for_range 0 n (fun k m =>
      wr8 m (d + (n - k - 1)) (rd8 m (s + (n - k - 1)))) m) a =
    if decide (phys d + n - n <= a < phys d + n) then load8 m (a - d + s) else load8 m a).
  { rewrite Hk. by repeat case_decide; try lia. }
  for_inv (fun k m' => forall a, load8 m' a =
    if decide (phys d + n - k <= a < phys d + n) then load8 m (a - d + s) else load8 m a); [done|..].
  - intros b. by case_decide; [lia|].
  - intros k m' Hk IH b. unfold wr8, rd8. rewrite load8_store8, !IH.
    assert (u8 (load8 m (phys (s + (n - k - 1)))) = load8 m (phys (s + (n - k - 1)))) as Hu
      by (apply wrap_small, load8_range).
    unfold phys in *. repeat case_decide; subst; try lia; try done.
    rewrite Hu. f_equal. lia.
Qed.

Lemma load8_memcpy m d s n a :
  0 <= n -> d + n <= s \/ s + n <= d ->
  load8 (memcpy m d s n) a =
  if decide (phys d <= a < phys d + n) then load8 m (a - d + s) else load8 m a.
Proof. intros. apply load8_copy_up; lia. Qed.

Lemma load8_memmove m d s n a :
  0 <= n ->
  load8 (memmove m d s n) a =
  if decide (phys d <= a < phys d + n) then load8 m (a - d + s) else load8 m a.
Proof.
  intros. unfold memmove. case_if; [apply load8_copy_up|apply load8_copy_down]; lia.
Qed.

(** [memmove] copies the bytes the source had before the call, also when
    the two areas overlap in either direction, and changes nothing else. *)
Theorem memmove_correct m d s n :
  0 <= n ->
  (forall i, 0 <= i < n -> rd8 (memmove m d s n) (d + i) = rd8 m (s + i)) /\
  only_changes (fun a => phys d <= a < phys d + n) m (memmove m d s n).
Proof.
  intros Hn. split.
  - intros i Hi. unfold rd8. rewrite load8_memmove by done. unfold phys.
    rewrite decide_True by lia. f_equal. lia.
  - intros a Ha. rewrite load8_memmove by done. by rewrite decide_False.
Qed.

Lemma only_changes_memcpy (F : Z -> Prop) m d s n :
  0 <= n -> (forall a, phys d <= a < phys d + n -> F a) -> only_changes F m (memcpy m d s n).
Proof.
  intros Hn HF a Ha. unfold memcpy.
  for_inv (fun (_ : Z) m' => load8 m' a = load8 m a); [done..|].
  intros i m' Hi IH. unfold wr8. rewrite load8_store8_ne; [done|].
  intros <-. apply Ha, HF. unfold phys. lia.
Qed.

Lemma memcmp_eq a b n :
  memcmp a b n = 0 <-> forall i, 0 <= i < n -> a i = b i.
Proof.
  unfold memcmp. destruct (find_range _ _ _) as [i|] eqn:E.
  - apply find_range_Some in E as (Hi & Hp & _). split.
    + case_if; done.
    + intros H. rewrite (H i Hi), Z.ltb_irrefl in Hp. done.
  - split; [intros _ i Hi|done]. rewrite find_range_None in E.
    specialize (E i Hi). bool_simpl. lia.
Qed.

Lemma strlen_from_Some fuel str len n :
  strlen_from fuel str len = Some n <->
  len <= n < len + Z.of_nat fuel /\ str n = 0 /\ forall i, len <= i < n -> str i <> 0.
Proof.
  revert len. induction fuel as [|fuel IH]; intros len; simpl; [split; [done|lia]|].
  case_if.
  - split.
    + intros [= <-]. split; [lia|]. split; [done|]. lia.
    + intros (Hn & Hz & Hnz). f_equal. destruct (decide (len = n)); [done|].
      by destruct (Hnz len); [lia|].
  - rewrite IH. split; intros (Hn & Hz & Hnz); (split; [|split; [done|]]).
    + lia.
    + intros i Hi. destruct (decide (i = len)) as [->|]; [done|]. apply Hnz. lia.
    + assert (len <> n) by congruence. lia.
    + intros i Hi. apply Hnz. lia.
Qed.

Lemma strlen_Some fuel str n :
  strlen fuel str = Some n <->
  0 <= n < Z.of_nat fuel /\ str n = 0 /\ forall i, 0 <= i < n -> str i <> 0.
Proof. apply strlen_from_Some. Qed.

Lemma strlen_ends fuel str k : 0 <= k < Z.of_nat fuel -> str k = 0 -> strlen fuel str <> None.
Proof.
  unfold strlen. intros Hk Hz. enough (H : forall n len, 0 <= len <= k -> k < len + Z.of_nat n -> strlen_from n str len <> None)
    by (apply H; lia).
  induction n as [|n IH]; intros len Hl Hn; simpl; [lia|]. destruct (Z.eqb_spec (str len) 0) as [|Hne]; [done|].
  apply IH; [|lia]. destruct (decide (len = k)) as [->|]; [done|lia].
Qed.

Lemma read_le32_bytes b :
  (forall i, 0 <= i < 4 -> 0 <= b i < 256) ->
  read_le32 b = b 0 + b 1 * 256 + b 2 * 65536 + b 3 * 16777216.
Proof.
  intros Hb. unfold read_le32.
  pose proof (Hb 0 ltac:(lia)). pose proof (Hb 1 ltac:(lia)).
  pose proof (Hb 2 ltac:(lia)). pose proof (Hb 3 ltac:(lia)).
  rewrite !Z.shiftl_mul_pow2 by lia. rewrite !wrap_small by lia.
  rewrite (Z.lor_comm (b 0)), (lor_disjoint (b 1) (b 0) 8) by lia.
  rewrite (Z.lor_comm _ (b 2 * _)), (lor_disjoint (b 2) _ 16) by lia.
  rewrite (Z.lor_comm _ (b 3 * _)), (lor_disjoint (b 3) _ 24) by lia. lia.
Qed.

(** On the little-endian machine [read_le32] is a word load. *)
Lemma read_le32_load m p : read_le32 (at_ptr m p) = rd32 m p.
Proof.
  rewrite read_le32_bytes by (intros; apply load8_range).
  unfold at_ptr, rd32, load32, rd8, phys.
  do 3 f_equal; repeat f_equal; lia.
Qed.

(** Conversion must not unroll the clearing of a page. *)
#[global] Opaque memset memcpy.
