(* ===== verification/Tty.v ===== *)
(** * The VGA text terminal (src/kernel/arch/i386/tty.c, vga.h)

    The static variables of tty.c as a record, the VGA text buffer as an array
    of 2000 16-bit cells, and the CRTC register file behind the ports 0x3D4 and
    0x3D5 that [terminal_update_cursor] programs. *)

From S2P Require Import Prelude.

Abbreviation VGA_WIDTH := 80.
Abbreviation VGA_HEIGHT := 25.
Abbreviation VGA_CRTC_INDEX := 0x3D4.
Abbreviation VGA_CRTC_DATA := 0x3D5.
Abbreviation VGA_COLOR_BLACK := 0.
Abbreviation VGA_COLOR_LIGHT_GREY := 7.

Record tty := mkTty {
  terminal_row : Z;
  terminal_column : Z;
  terminal_color : Z;
  terminal_buffer : list Z;
  crtc_index : Z;            (** the selected CRTC register *)
  crtc_regs : gmap Z Z;      (** the CRTC register file *)
}.

(** ** Operations *)

Definition set_pos (row col : Z) (t : tty) : tty :=
  mkTty row col (terminal_color t) (terminal_buffer t) (crtc_index t) (crtc_regs t).
Definition set_buffer (b : list Z) (t : tty) : tty :=
  mkTty (terminal_row t) (terminal_column t) (terminal_color t) b
    (crtc_index t) (crtc_regs t).

(** A byte written to one of the two CRTC ports. *)
Definition crtc_outb (port value : Z) (t : tty) : tty :=
  if port =? VGA_CRTC_INDEX then
    mkTty (terminal_row t) (terminal_column t) (terminal_color t)
      (terminal_buffer t) (u8 value) (crtc_regs t)
  else if port =? VGA_CRTC_DATA then
    mkTty (terminal_row t) (terminal_column t) (terminal_color t)
      (terminal_buffer t) (crtc_index t) (<[crtc_index t := u8 value]> (crtc_regs t))
  else t.

Definition vga_entry_color (fg bg : Z) : Z := u8 (Z.lor fg (Z.shiftl bg 4)).
Definition vga_entry (uc color : Z) : Z := u16 (Z.lor (u8 uc) (Z.shiftl (u8 color) 8)).

Definition terminal_update_cursor (t : tty) : tty :=
  let pos := u16 (terminal_row t * VGA_WIDTH + terminal_column t) in
  let t := crtc_outb VGA_CRTC_INDEX 0x0F t in
  let t := crtc_outb VGA_CRTC_DATA (Z.land pos 0xFF) t in
  let t := crtc_outb VGA_CRTC_INDEX 0x0E t in
  crtc_outb VGA_CRTC_DATA (Z.land (Z.shiftr pos 8) 0xFF) t.

Definition terminal_putentryat (c color x y : Z) (t : tty) : tty :=
  let index := u32 (y * VGA_WIDTH + x) in
  set_buffer (<[Z.to_nat index := vga_entry c color]> (terminal_buffer t)) t.

(** The nested loops of [terminal_init]. *)
Definition clear_screen (t : tty) : tty :=
  for_range 0 VGA_HEIGHT (fun y t =>
    for_range 0 VGA_WIDTH (fun x t =>
      terminal_putentryat 32 (terminal_color t) x y t) t) t.

Definition terminal_init (t : tty) : tty :=
  let t := mkTty 0 0 (vga_entry_color VGA_COLOR_LIGHT_GREY VGA_COLOR_BLACK)
    (terminal_buffer t) (crtc_index t) (crtc_regs t) in
  terminal_update_cursor (clear_screen t).

Definition terminal_setcolor (color : Z) (t : tty) : tty :=
  mkTty (terminal_row t) (terminal_column t) color (terminal_buffer t)
    (crtc_index t) (crtc_regs t).

(** The two loops of [terminal_scroll_up], on the buffer. *)
Definition scroll_rows (color : Z) (b : list Z) : list Z :=
  let size := VGA_WIDTH * VGA_HEIGHT in
  let b := for_range 0 (size - VGA_WIDTH) (fun i (b : list Z) =>
    <[Z.to_nat i := default 0 (b !! Z.to_nat (i + VGA_WIDTH))]> b) b in
  for_range (size - VGA_WIDTH) size (fun i (b : list Z) =>
    <[Z.to_nat i := vga_entry 32 color]> b) b.

Definition terminal_scroll_up (t : tty) : tty :=
  let t := set_buffer (scroll_rows (terminal_color t) (terminal_buffer t)) t in
  terminal_update_cursor (set_pos (VGA_HEIGHT - 1) 0 t).

Definition terminal_backspace (t : tty) : tty :=
  let erase t := terminal_update_cursor
    (terminal_putentryat 32 (terminal_color t) (terminal_column t) (terminal_row t) t) in
  if terminal_column t =? 0 then
    if terminal_row t =? 0 then t
    else erase (set_pos (terminal_row t - 1) (VGA_WIDTH - 1) t)
  else erase (set_pos (terminal_row t) (terminal_column t - 1) t).

(** [if (++terminal_row == VGA_HEIGHT) terminal_scroll_up();] *)
Definition next_row (t : tty) : tty :=
  let t := set_pos (terminal_row t + 1) (terminal_column t) t in
  if terminal_row t =? VGA_HEIGHT then terminal_scroll_up t else t.

Definition terminal_putchar (c : Z) (t : tty) : tty :=
  if c =? 8 then terminal_backspace t
  else if c =? 10 then
    terminal_update_cursor (next_row (set_pos (terminal_row t) 0 t))
  else
    let t := terminal_putentryat c (terminal_color t)
      (terminal_column t) (terminal_row t) t in
    let t := set_pos (terminal_row t) (terminal_column t + 1) t in
    let t := if terminal_column t =? VGA_WIDTH
             then next_row (set_pos (terminal_row t) 0 t) else t in
    terminal_update_cursor t.

(** [terminal_write(data, size)] on the [size] bytes of [data]. *)
Definition terminal_write (data : list Z) (t : tty) : tty :=
  foldl (fun t c => terminal_putchar c t) t data.

Definition terminal_writestring (data : list Z) (t : tty) : tty := terminal_write data t.

(** ** The invariant *)

(** Project the fields of an updated terminal, and nothing else. *)
Ltac tsimpl := cbn [terminal_row terminal_column terminal_color terminal_buffer
  crtc_index crtc_regs set_pos set_buffer terminal_putentryat] in *.

(** The cell at row [y], column [x]; the position the hardware cursor shows. *)
Definition cell (t : tty) (y x : Z) : option Z :=
  terminal_buffer t !! Z.to_nat (y * VGA_WIDTH + x).
Definition cursor (t : tty) : option Z :=
  lo ← crtc_regs t !! 15; hi ← crtc_regs t !! 14; Some (hi * 256 + lo).

Record tty_wf (t : tty) : Prop := {
  wf_row : 0 <= terminal_row t < VGA_HEIGHT;
  wf_col : 0 <= terminal_column t < VGA_WIDTH;
  wf_buf : Z.of_nat (length (terminal_buffer t)) = 2000;
  wf_cur : cursor t = Some (terminal_row t * VGA_WIDTH + terminal_column t);
}.

(** What holds in the middle of an operation, before the cursor is moved. *)
Definition tty_ok (t : tty) : Prop :=
  0 <= terminal_row t < VGA_HEIGHT /\ 0 <= terminal_column t < VGA_WIDTH /\
  Z.of_nat (length (terminal_buffer t)) = 2000.

Lemma tty_wf_ok t : tty_wf t -> tty_ok t.
Proof. by intros []. Qed.
#[local] Hint Resolve tty_wf_ok : core.

(** Moving the cursor changes nothing but the CRTC. *)
Lemma update_cursor_frame t :
  terminal_row (terminal_update_cursor t) = terminal_row t /\
  terminal_column (terminal_update_cursor t) = terminal_column t /\
  terminal_color (terminal_update_cursor t) = terminal_color t /\
  terminal_buffer (terminal_update_cursor t) = terminal_buffer t.
Proof. done. Qed.

Lemma update_cursor_cursor t :
  cursor (terminal_update_cursor t) =
  Some (u16 (terminal_row t * VGA_WIDTH + terminal_column t)).
Proof.
  unfold terminal_update_cursor, cursor, crtc_outb. simpl.
  change (u8 15) with 15. change (u8 14) with 14.
  rewrite (lookup_insert_ne _ 14 15), !lookup_insert_eq by lia. simpl.
  f_equal. generalize (terminal_row t * VGA_WIDTH + terminal_column t). intros p.
  rewrite Z.shiftr_div_pow2, !(land_low _ 8 255) by done. ulia.
Qed.

Lemma update_cursor_wf t : tty_ok t -> tty_wf (terminal_update_cursor t).
Proof.
  intros (Hr & Hc & Hb). split; try done.
  rewrite update_cursor_cursor. f_equal. simpl. apply wrap_small. lia.
Qed.

Lemma length_scroll_rows color b : length (scroll_rows color b) = length b.
Proof.
  unfold scroll_rows.
  for_inv (fun (_ : Z) (b' : list Z) => length b' = length b); [lia|..].
  - for_inv (fun (_ : Z) (b' : list Z) => length b' = length b); [lia|done|].
    intros i b' _ IH. by rewrite length_insert.
  - intros i b' _ IH. by rewrite length_insert.
Qed.

(** The first loop of the scroll reads each cell before it overwrites it. *)
Lemma shift_loop (b : list Z) n k :
  0 <= n -> 0 < k -> n + k <= Z.of_nat (length b) ->
  let b' := for_range 0 n (fun i (b : list Z) =>
    <[Z.to_nat i := default 0 (b !! Z.to_nat (i + k))]> b) b in
  length b' = length b /\ forall j : nat,
    b' !! j = if decide (Z.of_nat j < n) then b !! (j + Z.to_nat k)%nat else b !! j.
Proof.
  intros Hn Hk Hl. cbv zeta.
  for_inv (fun n (b' : list Z) => length b' = length b /\ forall j : nat,
    b' !! j = if decide (Z.of_nat j < n) then b !! (j + Z.to_nat k)%nat else b !! j).
  - done.
  - split; [done|]. intros j. by case_decide; [lia|].
  - intros i b' Hi [IHl IH]. rewrite length_insert. split; [done|]. intros j.
    rewrite list_insert_lookup, !IH, IHl.
    repeat case_decide; try lia; try done.
    replace (Z.to_nat (i + k)) with (j + Z.to_nat k)%nat by lia.
    destruct (b !! _) eqn:E; [done|]. apply lookup_ge_None in E. lia.
Qed.

(** The in-place scroll is "drop the first row, append a blank one". *)
Lemma scroll_rows_spec color b :
  Z.of_nat (length b) = 2000 ->
  scroll_rows color b = drop 80 b ++ replicate 80 (vga_entry 32 color).
Proof.
  intros Hlen. unfold scroll_rows.
  destruct (shift_loop b (VGA_WIDTH * VGA_HEIGHT - VGA_WIDTH) VGA_WIDTH) as [Hl Hup]; [lia..|].
  set (up := for_range 0 _ _ b) in *. clearbody up.
  destruct (fill_loop (fun _ => vga_entry 32 color) (VGA_WIDTH * VGA_HEIGHT - VGA_WIDTH)
    (VGA_WIDTH * VGA_HEIGHT) up) as [_ Hf]; [lia|].
  apply list_eq. intros j. rewrite Hf, Hup, Hl.
  destruct (decide (j < 1920)%nat).
  - rewrite lookup_app_l by (rewrite length_drop; lia). rewrite lookup_drop.
    repeat case_decide; try lia. f_equal. lia.
  - rewrite lookup_app_r, length_drop by (rewrite length_drop; lia).
    destruct (decide (j < 2000)%nat).
    + rewrite lookup_replicate_2 by lia. by repeat case_decide; try lia.
    + repeat case_decide; try lia.
      rewrite !lookup_ge_None_2; [done|rewrite length_replicate; lia|lia].
Qed.

Lemma scroll_up_wf t : Z.of_nat (length (terminal_buffer t)) = 2000 -> tty_wf (terminal_scroll_up t).
Proof.
  intros Hb. unfold terminal_scroll_up. apply update_cursor_wf. unfold tty_ok. tsimpl.
  rewrite length_scroll_rows. lia.
Qed.

Lemma putentryat_ok c color x y t : tty_ok t -> tty_ok (terminal_putentryat c color x y t).
Proof.
  intros (Hr & Hc & Hb). split; [done|]. split; [done|]. tsimpl. by rewrite length_insert.
Qed.

Lemma next_row_ok t :
  0 <= terminal_row t < VGA_HEIGHT -> 0 <= terminal_column t < VGA_WIDTH ->
  Z.of_nat (length (terminal_buffer t)) = 2000 -> tty_ok (next_row t).
Proof.
  intros Hr Hc Hb. unfold next_row. tsimpl. case_if.
  - by apply tty_wf_ok, scroll_up_wf.
  - unfold tty_ok. tsimpl. lia.
Qed.

Lemma backspace_wf t : tty_wf t -> tty_wf (terminal_backspace t).
Proof.
  intros Hwf. destruct (Hwf) as [Hr Hc Hb _]. unfold terminal_backspace.
  repeat case_if; [done|..]; apply update_cursor_wf, putentryat_ok; unfold tty_ok; tsimpl; lia.
Qed.

Lemma putchar_wf c t : tty_wf t -> tty_wf (terminal_putchar c t).
Proof.
  intros Hwf. destruct (Hwf) as [Hr Hc Hb _]. unfold terminal_putchar.
  case_if; [by apply backspace_wf|]. case_if.
  - apply update_cursor_wf, next_row_ok; tsimpl; lia.
  - apply update_cursor_wf. tsimpl. case_if.
    + apply next_row_ok; tsimpl; [lia..|]. by rewrite length_insert.
    + unfold tty_ok; tsimpl. rewrite length_insert. lia.
Qed.

Lemma write_wf data t : tty_wf t -> tty_wf (terminal_write data t).
Proof.
  revert t. induction data as [|c data IH]; intros t Hwf; [done|]. by apply IH, putchar_wf.
Qed.

(** [terminal_init] clears a row-major 80x25 screen. *)
Lemma clear_screen_spec t :
  clear_screen t = set_buffer (terminal_buffer (clear_screen t)) t /\
  length (terminal_buffer (clear_screen t)) = length (terminal_buffer t) /\
  forall j : nat, Z.of_nat j < 2000 -> (j < length (terminal_buffer t))%nat ->
    terminal_buffer (clear_screen t) !! j = Some (vga_entry 32 (terminal_color t)).
Proof.
  set (Inv := fun n t' => t' = set_buffer (terminal_buffer t') t /\
    length (terminal_buffer t') = length (terminal_buffer t) /\
    forall j : nat, Z.of_nat j < n -> (j < length (terminal_buffer t))%nat ->
      terminal_buffer t' !! j = Some (vga_entry 32 (terminal_color t))).
  enough (Inv (VGA_HEIGHT * VGA_WIDTH) (clear_screen t)) as (? & ? & H)
    by (split; [done|]; split; [done|]; intros; apply H; lia).
  unfold clear_screen. for_inv (fun y => Inv (y * VGA_WIDTH)); [lia| |].
  - subst Inv; tsimpl. split; [by destruct t|]. split; [done|]. lia.
  - intros y t1 Hy Hi. replace ((y + 1) * VGA_WIDTH) with (y * VGA_WIDTH + VGA_WIDTH) by lia.
    for_inv (fun x => Inv (y * VGA_WIDTH + x)); [lia|by rewrite Z.add_0_r|].
    intros x t2 Hx (He & Hlen & Hj). rewrite He. subst Inv; tsimpl.
    split; [done|]. rewrite length_insert. split; [done|]. intros j Hlt Hjl.
    rewrite list_insert_lookup, wrap_small by lia.
    case_decide; [done|]. apply Hj; [lia|done].
Qed.

Lemma terminal_init_wf t :
  Z.of_nat (length (terminal_buffer t)) = 2000 -> tty_wf (terminal_init t).
Proof.
  intros Hb. unfold terminal_init. apply update_cursor_wf.
  match goal with |- tty_ok (clear_screen ?t0) =>
    destruct (clear_screen_spec t0) as (He & Hl & _);
    generalize dependent (clear_screen t0) end.
  intros t' -> Hl. unfold tty_ok. tsimpl. lia.
Qed.

(** ** The abstract screen

    What the terminal promises: an 80x25 grid with a current position.  Writing
    a character at the last position of the last row drops the first row. *)

Record screen := mkScreen {
  s_row : Z;
  s_col : Z;
  s_color : Z;
  s_at : Z -> Z -> Z;
}.

Definition blank (s : screen) : Z := vga_entry 32 (s_color s).

Definition s_put (y x v : Z) (s : screen) : screen :=
  mkScreen (s_row s) (s_col s) (s_color s)
    (fun y' x' => if (y' =? y) && (x' =? x) then v else s_at s y' x').

Definition s_move (y x : Z) (s : screen) : screen :=
  mkScreen y x (s_color s) (s_at s).

Definition s_newline (s : screen) : screen :=
  if s_row s =? 24 then
    mkScreen 24 0 (s_color s)
      (fun y x => if y =? 24 then blank s else s_at s (y + 1) x)
  else s_move (s_row s + 1) 0 s.

Definition s_erase (y x : Z) (s : screen) : screen := s_put y x (blank s) (s_move y x s).

Definition s_putchar (c : Z) (s : screen) : screen :=
  if c =? 8 then
    if 0 <? s_col s then s_erase (s_row s) (s_col s - 1) s
    else if 0 <? s_row s then s_erase (s_row s - 1) 79 s
    else s
  else if c =? 10 then s_newline s
  else
    let s := s_put (s_row s) (s_col s) (vga_entry c (s_color s)) s in
    if s_col s =? 79 then s_newline s else s_move (s_row s) (s_col s + 1) s.

Definition screen_eq (s s' : screen) : Prop :=
  s_row s = s_row s' /\ s_col s = s_col s' /\ s_color s = s_color s' /\
  forall y x, 0 <= y < VGA_HEIGHT -> 0 <= x < VGA_WIDTH -> s_at s y x = s_at s' y x.
Infix "≡ₛ" := screen_eq (at level 70).

#[export] Instance screen_eq_equivalence : Equivalence screen_eq.
Proof.
  split.
  - intros s. by repeat split.
  - intros s s' (? & ? & ? & H). repeat split; [done..|]. intros. by rewrite H.
  - intros s s' s'' (? & ? & ? & H) (? & ? & ? & H').
    repeat split; [congruence..|]. intros. by rewrite H, H'.
Qed.

#[export] Instance s_putchar_proper c : Proper (screen_eq ==> screen_eq) (s_putchar c).
Proof.
  intros [r cl k f] [r' cl' k' f'] (Hr & Hc & Hk & Hf). simpl in *. subst.
  unfold s_putchar, s_newline, s_erase, s_put, s_move, blank. simpl.
  repeat case_if; simpl; (repeat split; [done..|]); simpl; intros; repeat case_if; try done;
    try apply Hf; lia.
Qed.

(** The screen a terminal shows. *)
Definition view (t : tty) : screen :=
  mkScreen (terminal_row t) (terminal_column t) (terminal_color t)
    (fun y x => default 0 (cell t y x)).

Lemma view_update_cursor t : view (terminal_update_cursor t) = view t.
Proof. done. Qed.

Lemma view_set_pos y x t : view (set_pos y x t) = s_move y x (view t).
Proof. done. Qed.

Lemma view_putentryat c color x y t :
  tty_ok t -> 0 <= y < VGA_HEIGHT -> 0 <= x < VGA_WIDTH ->
  view (terminal_putentryat c color x y t) ≡ₛ s_put y x (vga_entry c color) (view t).
Proof.
  intros (_ & _ & Hb) Hy Hx. repeat split; [done..|]. intros y' x' Hy' Hx'.
  unfold s_put, view, cell. cbn [s_at]. tsimpl. rewrite list_insert_lookup, wrap_small by lia.
  case_decide as Hd; case_if; try done; lia.
Qed.

Lemma view_scroll_up t :
  Z.of_nat (length (terminal_buffer t)) = 2000 ->
  view (terminal_scroll_up t) ≡ₛ s_newline (s_move 24 0 (view t)).
Proof.
  intros Hb. unfold terminal_scroll_up. rewrite view_update_cursor, view_set_pos.
  repeat split. intros y x Hy Hx. unfold s_newline, s_move, view, cell, blank. cbn [s_at s_row s_color].
  tsimpl. rewrite scroll_rows_spec, Z.eqb_refl by done. cbn [s_at]. case_if.
  - rewrite lookup_app_r, length_drop by (rewrite length_drop; lia).
    by rewrite lookup_replicate_2 by lia.
  - rewrite lookup_app_l, lookup_drop by (rewrite length_drop; lia). do 2 f_equal. lia.
Qed.

Lemma view_next_row t :
  tty_ok t -> terminal_column t = 0 -> view (next_row t) ≡ₛ s_newline (view t).
Proof.
  intros (Hr & Hc & Hb) H0. unfold next_row. tsimpl.
  destruct (Z.eqb_spec (terminal_row t + 1) VGA_HEIGHT).
  - rewrite view_scroll_up by done. unfold s_newline, s_move, view, cell; cbn [s_row s_color s_at].
    replace (terminal_row t) with 24 by lia. done.
  - unfold s_newline, s_move, view; cbn [s_row s_color s_at]. case_if; [lia|].
    by rewrite H0.
Qed.

#[export] Instance s_newline_proper : Proper (screen_eq ==> screen_eq) s_newline.
Proof.
  intros s s' H. pose proof (s_putchar_proper 10 _ _ H) as H'. exact H'.
Qed.

#[export] Instance s_move_proper y x : Proper (screen_eq ==> screen_eq) (s_move y x).
Proof. intros s s' (? & ? & ? & H). by repeat split. Qed.

(** The terminal implements the abstract screen, character by character. *)
Lemma view_putchar c t : tty_wf t -> view (terminal_putchar c t) ≡ₛ s_putchar c (view t).
Proof.
  intros Hwf. pose proof (tty_wf_ok _ Hwf) as Hok. destruct (Hok) as (Hr & Hc & Hb).
  unfold terminal_putchar, s_putchar, terminal_backspace.
  destruct (Z.eqb_spec c 8); [|destruct (Z.eqb_spec c 10)].
  - cbn [view s_col s_row s_color].
    destruct (Z.eqb_spec (terminal_column t) 0), (Z.ltb_spec 0 (terminal_column t)); try lia;
    [destruct (Z.eqb_spec (terminal_row t) 0), (Z.ltb_spec 0 (terminal_row t)); try lia; [done|]|];
    rewrite view_update_cursor, view_putentryat by (unfold tty_ok; tsimpl; lia); done.
  - rewrite view_update_cursor, view_next_row by (unfold tty_ok; tsimpl; lia). done.
  - rewrite view_update_cursor. tsimpl. cbn [view s_put s_col s_row s_color].
    pose proof (view_putentryat c (terminal_color t) (terminal_column t) (terminal_row t) t
      Hok Hr Hc) as Hput.
    pose proof (putentryat_ok c (terminal_color t) (terminal_column t) (terminal_row t) t Hok)
      as Hok'.
    destruct (Z.eqb_spec (terminal_column t + 1) 80), (Z.eqb_spec (terminal_column t) 79); try lia.
    + change (view (next_row (set_pos (terminal_row t) 0 (terminal_putentryat c (terminal_color t)
        (terminal_column t) (terminal_row t) t))) ≡ₛ
        s_newline (s_put (terminal_row t) (terminal_column t) (vga_entry c (terminal_color t)) (view t))).
      destruct Hok' as (? & ? & ?).
      rewrite view_next_row by (unfold tty_ok; tsimpl; lia).
      rewrite view_set_pos, Hput. unfold s_newline. cbn [s_row s_move s_put view]. by case_if.
    + exact (s_move_proper _ _ _ _ Hput).
Qed.

(** C36: [terminal_write] refines an abstract 80x25 screen with a cursor:
    newline, backspace, wrapping at the right edge and scrolling at the bottom
    do to the VGA cells what they do to the screen, and the hardware cursor,
    row and column stay valid. *)
Theorem terminal_write_refines data t :
  tty_wf t ->
  tty_wf (terminal_write data t) /\
  view (terminal_write data t) ≡ₛ foldl (fun s c => s_putchar c s) (view t) data.
Proof.
  intros Hwf. split; [by apply write_wf|].
  enough (H : forall s, view t ≡ₛ s ->
    view (terminal_write data t) ≡ₛ foldl (fun s c => s_putchar c s) s data) by by apply H.
  revert t Hwf. induction data as [|c data IH]; intros t Hwf s Hs; [done|]. simpl.
  apply (IH (terminal_putchar c t)); [by apply putchar_wf|].
  by rewrite view_putchar, Hs.
Qed.
