(* ===== verification/Printk.v ===== *)
(** * Number formatting and printk (src/kernel/lib/printk.c)

    [hex_digit], [u32_to_hex], [u32_to_str] and the [printk] loop.  A C string
    is the list of its bytes without the terminating NUL; the variable
    arguments are a list, and [None] is the undefined behaviour of a [va_arg]
    that has no argument of the expected type.  The number of iterations of the
    printk loop is bounded by the length of the format; [printk_spec] shows that
    the fuel is always enough. *)

From S2P Require Import Prelude Tty.

Abbreviation INT_MAX := 2147483647.
Abbreviation ch_percent := 37.

(** ** Number formatting *)

Definition hex_digit (nibble : Z) : Z :=
  if nibble <? 10 then 48 + nibble else 97 + (nibble - 10).

(** [u32_to_hex(out, value)] on the array [out]. *)
Definition u32_to_hex (out : list Z) (value : Z) : list Z :=
  let out := <[1%nat := 120]> (<[0%nat := 48]> out) in
  let out := for_range 0 8 (fun i (out : list Z) =>
    let nibble := u8 (Z.land (Z.shiftr value ((7 - i) * 4)) 0x0f) in
    <[Z.to_nat (2 + i) := hex_digit nibble]> out) out in
  <[10%nat := 0]> out.

(** The first loop of [u32_to_str]: [tmp[i++] = '0' + value % 10]; the fuel is
    the size of [tmp]. *)
Fixpoint u32_digits (fuel : nat) (value : Z) (tmp : list Z) : list Z :=
  match fuel with
  | O => tmp
  | S fuel =>
      if 0 <? value then u32_digits fuel (value / 10) (tmp ++ [48 + value mod 10])
      else tmp
  end.

(** The bytes [u32_to_str] writes to [out]; the second loop copies [tmp]
    backwards. *)
Definition u32_to_str (value : Z) : list Z :=
  if value =? 0 then [48; 0]
  else reverse (u32_digits 10 value []) ++ [0].

(** The bytes of an array before its first NUL (what [print_bytes(dec,
    strlen(dec))] prints). *)
Fixpoint until_nul (l : list Z) : list Z :=
  match l with
  | [] => []
  | c :: l => if c =? 0 then [] else c :: until_nul l
  end.

(** ** printk *)

Inductive varg :=
  | VInt (z : Z)                     (** int, uint32_t, or a pointer for %x *)
  | VStr (s : option (list Z)).      (** const char *, [None] for NULL *)

(** [while (format[amount] && format[amount] != '%') amount++] *)
Fixpoint literal_run (l : list Z) : nat :=
  match l with
  | [] => O
  | c :: l => if c =? ch_percent then O else S (literal_run l)
  end.

(** [print_bytes] with the check of [maxrem] in front of it. *)
Definition print_chunk (data : list Z) (written : Z) (t : tty) : option (Z * tty) :=
  if INT_MAX - written <? Z.of_nat (length data) then None
  else Some (written + Z.of_nat (length data), terminal_write data t).

Fixpoint printk_loop (fuel : nat) (format : list Z) (args : list varg)
    (written : Z) (t : tty) : option (Z * tty) :=
  match fuel with
  | O => None
  | S fuel =>
    let emit data k :=
      match print_chunk data written t with
      | None => Some (-1, t)
      | Some (written, t) => k written t
      end in
    match format with
    | [] => Some (written, t)
    | c0 :: rest =>
      if negb (c0 =? ch_percent) || (default 0 (head rest) =? ch_percent) then
        let fmt := if c0 =? ch_percent then rest else format in
        let amount := S (literal_run (tail fmt)) in
        emit (take amount fmt) (printk_loop fuel (drop amount fmt) args)
      else
        let conv := default 0 (head rest) in
        if conv =? 99 then
          match args with
          | VInt z :: args => emit [u8 z] (printk_loop fuel (tail rest) args)
          | _ => None
          end
        else if conv =? 115 then
          match args with
          | VStr s :: args =>
              emit (default (chars "(null)") s) (printk_loop fuel (tail rest) args)
          | _ => None
          end
        else if conv =? 120 then
          match args with
          | VInt z :: args =>
              emit (take 10 (u32_to_hex (replicate 11 0) (u32 z)))
                (printk_loop fuel (tail rest) args)
          | _ => None
          end
        else if conv =? 117 then
          match args with
          | VInt z :: args =>
              emit (until_nul (u32_to_str (u32 z))) (printk_loop fuel (tail rest) args)
          | _ => None
          end
        else emit format (printk_loop fuel [] args)
    end
  end.

Definition printk (format : list Z) (args : list varg) (t : tty) : option (Z * tty) :=
  printk_loop (S (length format)) format args 0 t.

(** ** The output of a format, character by character *)

Definition dec (z : Z) : list Z := until_nul (u32_to_str (u32 z)).
Definition hex (z : Z) : list Z := take 10 (u32_to_hex (replicate 11 0) (u32 z)).

Fixpoint format_out (format : list Z) (args : list varg) : option (list Z) :=
  match format with
  | [] => Some []
  | c :: rest =>
    if c =? ch_percent then
      match rest with
      | [] => Some format
      | conv :: rest' =>
        if conv =? ch_percent then cons ch_percent <$> format_out rest' args
        else if conv =? 99 then
          match args with
          | VInt z :: args => cons (u8 z) <$> format_out rest' args
          | _ => None
          end
        else if conv =? 115 then
          match args with
          | VStr s :: args => app (default (chars "(null)") s) <$> format_out rest' args
          | _ => None
          end
        else if conv =? 120 then
          match args with
          | VInt z :: args => app (hex z) <$> format_out rest' args
          | _ => None
          end
        else if conv =? 117 then
          match args with
          | VInt z :: args => app (dec z) <$> format_out rest' args
          | _ => None
          end
        else Some format
      end
    else cons c <$> format_out rest args
  end.

(** Writing is compositional. *)
Lemma terminal_write_app d1 d2 t :
  terminal_write (d1 ++ d2) t = terminal_write d2 (terminal_write d1 t).
Proof. apply foldl_app. Qed.

(** A literal run is copied to the output unchanged. *)
Lemma format_out_run l args :
  format_out l args =
  app (take (literal_run l) l) <$> format_out (drop (literal_run l) l) args.
Proof.
  induction l as [|c l IH]; [done|]. simpl. destruct (Z.eqb_spec c ch_percent) as [->|Hc]; simpl.
  - by destruct (match l with [] => _ | _ => _ end).
  - rewrite IH.
    by destruct (format_out (drop _ _) _).
Qed.

(** What the loop does once the remaining output is known. *)
Definition finish (out : list Z) (written : Z) (t : tty) (r : option (Z * tty)) : Prop :=
  if INT_MAX - written <? Z.of_nat (length out)
  then exists t', r = Some (-1, t')
  else r = Some (written + Z.of_nat (length out), terminal_write out t).

Lemma finish_chunk data out written t k :
  0 <= written <= INT_MAX ->
  (forall w t', 0 <= w <= INT_MAX -> finish out w t' (k w t')) ->
  finish (data ++ out) written t
    (match print_chunk data written t with None => Some (-1, t) | Some (w, t') => k w t' end).
Proof.
  intros Hw Hk. unfold print_chunk. destruct (Z.ltb_spec (INT_MAX - written) (Z.of_nat (length data))) as [Hd|Hd].
  - unfold finish. rewrite length_app. case_if; [by eexists|lia].
  - specialize (Hk (written + Z.of_nat (length data)) (terminal_write data t) ltac:(lia)).
    unfold finish in *. rewrite length_app, terminal_write_app.
    case_if; case_if_in Hk; try lia; [done|]. rewrite Hk. do 2 f_equal. lia.
Qed.

(** The loop prints the formatted output. *)
Lemma printk_loop_spec fuel format args written t out :
  (length format < fuel)%nat -> 0 <= written <= INT_MAX ->
  format_out format args = Some out ->
  finish out written t (printk_loop fuel format args written t).
Proof.
  revert format args written t out.
  induction fuel as [|fuel IH]; intros format args written t out Hf Hw Hout; [lia|].
  destruct format as [|c0 rest].
  { injection Hout as <-. unfold finish. simpl. case_if; [lia|]. by rewrite Z.add_0_r. }
  assert (Hrun : forall fmt out', fmt <> [] -> (length fmt <= fuel)%nat ->
    hd 0 fmt :: out' = out -> format_out (tail fmt) args = Some out' ->
    finish out written t
      match print_chunk (take (S (literal_run (tail fmt))) fmt) written t with
      | None => Some (-1, t)
      | Some (w, t') => printk_loop fuel (drop (S (literal_run (tail fmt))) fmt) args w t'
      end).
  { intros [|c fmt] out' Hne Hl <- Hout'; [done|]. simpl in *.
    rewrite format_out_run in Hout'. apply fmap_Some in Hout' as (out2 & Hout2 & ->).
    apply (finish_chunk (c :: take (literal_run fmt) fmt)); [done|]. intros w t' Hw'.
    apply IH; [rewrite length_drop; lia|done..]. }
  simpl in Hf. simpl printk_loop. simpl in Hout.
  destruct (Z.eqb_spec c0 ch_percent) as [->|Hc]; simpl.
  - destruct rest as [|conv rest']; simpl in *.
    { injection Hout as <-. apply (finish_chunk [ch_percent] []); [done|]. intros.
      apply IH; simpl; [lia|done..]. }
    assert (Hconv : forall data args' out', app data <$> format_out rest' args' = Some out' ->
      finish out' written t match print_chunk data written t with
        | None => Some (-1, t) | Some (w, t') => printk_loop fuel rest' args' w t' end).
    { intros data args' out' H. apply fmap_Some in H as (out2 & H2 & ->).
      apply finish_chunk; [done|]. intros. apply IH; [lia|done..]. }
    destruct (Z.eqb_spec conv ch_percent) as [->|].
    { apply fmap_Some in Hout as (out2 & Hout2 & ->). apply (Hrun (ch_percent :: rest') out2); simpl; [done|lia|done..]. }
    repeat (case_if; [destruct args as [|[z|s] args]; try done; by apply Hconv|]).
    injection Hout as <-.
    pose proof (finish_chunk (ch_percent :: conv :: rest') [] written t (printk_loop fuel [] args))
      as Hend. rewrite app_nil_r in Hend. apply Hend; [done|]. intros. apply IH; simpl; [lia|done..].
  - apply fmap_Some in Hout as (out2 & Hout2 & ->). apply (Hrun (c0 :: rest) out2); simpl; [done|lia|done..].
Qed.

(** ** Round trips of the number formats *)

(** The value of a digit string in base [b]. *)
Definition digit_val (c : Z) : Z := if c <? 58 then c - 48 else c - 87.
Definition parse_digits (b : Z) (l : list Z) : Z :=
  foldl (fun acc c => acc * b + digit_val c) 0 l.

Lemma parse_digits_app b l1 c :
  parse_digits b (l1 ++ [c]) = parse_digits b l1 * b + digit_val c.
Proof. unfold parse_digits. by rewrite foldl_app. Qed.

Lemma digit_val_hex n : 0 <= n < 16 -> digit_val (hex_digit n) = n.
Proof. intros. unfold digit_val, hex_digit. repeat case_if; lia. Qed.

Lemma hex_closed z :
  hex z = 48 :: 120 :: ((fun k => hex_digit (u32 z / 16 ^ k mod 16)) <$> [7; 6; 5; 4; 3; 2; 1; 0]).
Proof.
  assert (Hn : forall i, 0 <= i < 8 ->
    u8 (Z.land (Z.shiftr (u32 z) ((7 - i) * 4)) 0x0f) = u32 z / 16 ^ (7 - i) mod 16).
  { intros i Hi. rewrite (land_low _ 4), Z.shiftr_div_pow2 by (done || lia).
    replace (2 ^ ((7 - i) * 4)) with (16 ^ (7 - i))
      by (rewrite Z.mul_comm, Z.pow_mul_r by lia; done).
    change (2 ^ 4) with 16. apply wrap_small. ulia. }
  unfold hex, u32_to_hex. rewrite (for_range_ext 0 8 _ (fun i (out : list Z) =>
    <[Z.to_nat (2 + i) := hex_digit (u32 z / 16 ^ (7 - i) mod 16)]> out)).
  2: { intros i out Hi. cbv zeta. by rewrite Hn. }
  reflexivity.
Qed.

(** [%x] always prints "0x" and eight digits that read back as the
    number. *)
Theorem hex_roundtrip z :
  length (hex z) = 10%nat /\ take 2 (hex z) = chars "0x" /\
  parse_digits 16 (drop 2 (hex z)) = u32 z.
Proof.
  rewrite hex_closed. split; [done|]. split; [done|].
  pose proof (u32_range z) as Hz. generalize dependent (u32 z). intros v Hv. simpl.
  unfold parse_digits. simpl foldl.
  rewrite !digit_val_hex by (apply Z.mod_pos_bound; lia).
  change (16 ^ 7) with 268435456. change (16 ^ 6) with 16777216. change (16 ^ 5) with 1048576.
  change (16 ^ 4) with 65536. change (16 ^ 3) with 4096. change (16 ^ 2) with 256.
  change (16 ^ 1) with 16. change (16 ^ 0) with 1. clear -Hv. Z.div_mod_to_equations. lia.
Qed.

(** The digit loop of [u32_to_str] ends within the ten bytes of [tmp]. *)
Lemma u32_digits_spec fuel v tmp :
  0 <= v < 10 ^ Z.of_nat fuel ->
  exists ds, u32_digits fuel v tmp = tmp ++ ds /\ (length ds <= fuel)%nat /\
    parse_digits 10 (reverse ds) = v /\ Forall (fun c => 48 <= c < 58) ds /\
    (v = 0 -> ds = []) /\ (v <> 0 -> default 0 (last ds) <> 48).
Proof.
  revert v tmp. induction fuel as [|fuel IH]; intros v tmp Hv; simpl.
  - exists []. rewrite app_nil_r. split; [done|]. split; [done|].
    change (10 ^ Z.of_nat 0) with 1 in Hv. unfold parse_digits. simpl.
    split; [lia|]. split; [done|]. split; [done|]. lia.
  - case_if.
    + replace (Z.of_nat (S fuel)) with (Z.of_nat fuel + 1) in Hv by lia.
      rewrite Z.pow_add_r in Hv by lia.
      destruct (IH (v / 10) (tmp ++ [48 + v mod 10])) as (ds & -> & Hl & Hp & Hf & H0 & Hz).
      { split; [apply Z.div_pos; lia|]. apply Z.div_lt_upper_bound; lia. }
      exists ((48 + v mod 10) :: ds). rewrite <- app_assoc. split; [done|].
      split; [simpl; lia|]. pose proof (Z.mod_pos_bound v 10 ltac:(lia)).
      rewrite reverse_cons, parse_digits_app, Hp. split.
      { unfold digit_val. case_if; [|lia]. pose proof (Z.div_mod v 10). lia. }
      split; [by constructor; [lia|]|]. split; [lia|]. intros _.
      destruct ds as [|d ds]; [|rewrite last_cons_cons; apply Hz; by intros ?%H0].
      simpl. unfold parse_digits in Hp; simpl in Hp. Z.div_mod_to_equations. lia.
    + exists []. rewrite app_nil_r. split; [done|]. split; [simpl; lia|].
      split; [unfold parse_digits; simpl; lia|]. split; [done|]. split; [done|lia].
Qed.

Lemma until_nul_app l : Forall (fun c => c <> 0) l -> until_nul (l ++ [0]) = l.
Proof. induction 1 as [|c l Hc _ IH]; simpl; [done|]. case_if; [done|]. by rewrite IH. Qed.

(** [%u] prints one to ten decimal digits without a leading zero that
    read back as the number. *)
Theorem dec_roundtrip z :
  parse_digits 10 (dec z) = u32 z /\ (1 <= length (dec z) <= 10)%nat /\
  Forall (fun c => 48 <= c < 58) (dec z) /\
  (u32 z <> 0 -> default 0 (head (dec z)) <> 48).
Proof.
  unfold dec, u32_to_str. pose proof (u32_range z) as Hv. generalize dependent (u32 z).
  intros v Hv. destruct (Z.eqb_spec v 0) as [->|Hne].
  { simpl. unfold parse_digits. simpl. repeat split; try lia. by repeat constructor. }
  destruct (u32_digits_spec 10 v []) as (ds & -> & Hl & Hp & Hf & _ & Hz); [lia|]. simpl.
  rewrite until_nul_app.
  2: { apply Forall_reverse. eapply Forall_impl; [done|]. simpl. lia. }
  rewrite length_reverse. split; [done|]. split; [|split].
  - destruct ds; [|simpl in *; lia]. unfold parse_digits in Hp. simpl in Hp. lia.
  - by apply Forall_reverse.
  - by rewrite head_reverse.
Qed.

(** C37: [printk] writes exactly the formatted output, in order, to the
    terminal and returns its length, for any format and matching arguments
    whose output fits into an [int]. *)
Theorem printk_spec format args t out :
  format_out format args = Some out ->
  Z.of_nat (length out) <= INT_MAX ->
  printk format args t = Some (Z.of_nat (length out), terminal_write out t).
Proof.
  intros Hout Hl. pose proof (printk_loop_spec (S (length format)) format args 0 t out
    ltac:(lia) ltac:(lia) Hout) as H. unfold finish in H. case_if_in H; [lia|]. exact H.
Qed.

(** When the output would not fit into an [int], [printk] returns -1. *)
Theorem printk_overflow format args t out :
  format_out format args = Some out -> INT_MAX < Z.of_nat (length out) ->
  exists t', printk format args t = Some (-1, t').
Proof.
  intros Hout Hl. pose proof (printk_loop_spec (S (length format)) format args 0 t out
    ltac:(lia) ltac:(lia) Hout) as H. unfold finish in H. case_if_in H; [exact H|lia].
Qed.
