(* ===== verification/Keyboard.v ===== *)
(** * The keyboard (src/kernel/keyboard.c, src/kernel/arch/i386/keyboard.c)

    The ring buffer between the keyboard interrupt and the [SYS_GETC] system
    call, and the scancode table.  The abstract specification is a FIFO queue
    of at most 31 characters.  The interrupt can arrive inside
    [keyboard_buffer_pop] (the system call gate leaves interrupts enabled), so
    the pop is also given step by step. *)

From S2P Require Import Prelude.

Abbreviation KEYBOARD_BUFFER_SIZE := 32.

Record kbd := mkKbd {
  buffer : list Z;
  read_index : Z;
  write_index : Z;
}.

(** ** Operations *)

Definition keyboard_buffer_push (c : Z) (k : kbd) : kbd :=
  if c =? 0 then k
  else
    let next := (write_index k +u 1) mod KEYBOARD_BUFFER_SIZE in
    if next =? read_index k then k
    else mkKbd (<[Z.to_nat (write_index k) := c]> (buffer k)) (read_index k) next.

(** [(uint32_t)c] of a [char], which is signed on i386. *)
Definition char_to_u32 (c : Z) : Z := u32 (if c <? 128 then c else c - 256).

(** The three steps of [keyboard_buffer_pop]: the emptiness test, the read of
    the character, the update of [read_index]. *)
Definition pop_empty (k : kbd) : bool := read_index k =? write_index k.
Definition pop_char (k : kbd) : Z := default 0 (buffer k !! Z.to_nat (read_index k)).
Definition pop_advance (k : kbd) : kbd :=
  mkKbd (buffer k) ((read_index k +u 1) mod KEYBOARD_BUFFER_SIZE) (write_index k).

Definition keyboard_buffer_pop (k : kbd) : Z * kbd :=
  if pop_empty k then (0, k)
  else (char_to_u32 (pop_char k), pop_advance k).

Definition keyboard_buffer_clear (k : kbd) : kbd :=
  mkKbd (buffer k) (write_index k) (write_index k).

(** The scancode set-1 table of [keyboard_decode]. *)
Definition keyboard_table : list (Z * Z) :=
  [(0x02, 49); (0x03, 50); (0x04, 51); (0x05, 52); (0x06, 53); (0x07, 54);
   (0x08, 55); (0x09, 56); (0x0A, 57); (0x0B, 48); (0x0E, 8);
   (0x10, 113); (0x11, 119); (0x12, 101); (0x13, 114); (0x14, 116);
   (0x15, 121); (0x16, 117); (0x17, 105); (0x18, 111); (0x19, 112);
   (0x1C, 10);
   (0x1E, 97); (0x1F, 115); (0x20, 100); (0x21, 102); (0x22, 103);
   (0x23, 104); (0x24, 106); (0x25, 107); (0x26, 108);
   (0x2C, 122); (0x2D, 120); (0x2E, 99); (0x2F, 118); (0x30, 98);
   (0x31, 110); (0x32, 109); (0x35, 47); (0x39, 32)].

Definition keyboard_decode (scancode : Z) : Z :=
  if negb (Z.land scancode 0x80 =? 0) then 0
  else match list_find (fun e => e.1 = scancode) keyboard_table with
       | Some (_, (_, c)) => c
       | None => 0
       end.

(** ** The abstract queue *)

Definition queue_len (k : kbd) : Z :=
  (write_index k - read_index k) mod KEYBOARD_BUFFER_SIZE.

Definition slot (k : kbd) (i : Z) : Z :=
  default 0 (buffer k !! Z.to_nat ((read_index k + i) mod KEYBOARD_BUFFER_SIZE)).

(** The characters waiting, oldest first. *)
Definition queue (k : kbd) : list Z := slot k <$> seqZ 0 (queue_len k).

Record kbd_wf (k : kbd) : Prop := {
  wf_len : length (buffer k) = 32%nat;
  wf_read : 0 <= read_index k < KEYBOARD_BUFFER_SIZE;
  wf_write : 0 <= write_index k < KEYBOARD_BUFFER_SIZE;
}.

Lemma queue_len_bounds k : 0 <= queue_len k < KEYBOARD_BUFFER_SIZE.
Proof. apply Z.mod_pos_bound. lia. Qed.

Lemma length_queue k : Z.of_nat (length (queue k)) = queue_len k.
Proof.
  unfold queue. rewrite length_fmap, length_seqZ. pose proof (queue_len_bounds k). lia.
Qed.

Lemma push_wf c k : kbd_wf k -> kbd_wf (keyboard_buffer_push c k).
Proof.
  intros [Hl Hr Hw]. unfold keyboard_buffer_push. repeat case_if; [done..|].
  split; simpl; [by rewrite length_insert|lia|apply Z.mod_pos_bound; lia].
Qed.

Lemma pop_wf k : kbd_wf k -> kbd_wf (keyboard_buffer_pop k).2.
Proof.
  intros [Hl Hr Hw]. unfold keyboard_buffer_pop. case_if; [done|].
  split; simpl; [done|apply Z.mod_pos_bound; lia|lia].
Qed.

Lemma clear_wf k : kbd_wf k -> kbd_wf (keyboard_buffer_clear k).
Proof. intros [Hl Hr Hw]. by split. Qed.

(** The push adds at the tail, unless the queue is full. *)
Lemma queue_push c k :
  kbd_wf k ->
  queue (keyboard_buffer_push c k) =
  if (c =? 0) || (queue_len k =? 31) then queue k else queue k ++ [c].
Proof.
  intros [Hl Hr Hw]. unfold keyboard_buffer_push.
  rewrite (wrap_small 32) by lia.
  destruct (Z.eqb_spec c 0) as [|Hc]; [done|]. simpl.
  assert (Hfull : ((write_index k + 1) mod 32 =? read_index k) = (queue_len k =? 31)).
  { unfold queue_len. apply eq_bool_prop_intro. rewrite !Is_true_true, !Z.eqb_eq.
    Z.div_mod_to_equations. lia. }
  rewrite Hfull. destruct (Z.eqb_spec (queue_len k) 31) as [|Hn]; [done|].
  pose proof (queue_len_bounds k) as Hq.
  assert (Hlen : forall b, queue_len (mkKbd b (read_index k) ((write_index k + 1) mod 32)) = queue_len k + 1).
  { intros b. unfold queue_len in *. simpl. Z.div_mod_to_equations. lia. }
  unfold queue. rewrite Hlen, seqZ_app, fmap_app by lia. f_equal.
  - apply list_fmap_ext. intros i x [-> Hi]%lookup_seqZ. unfold slot. simpl.
    rewrite list_lookup_insert_ne; [done|]. unfold queue_len in *. Z.div_mod_to_equations. lia.
  - rewrite seqZ_cons, (seqZ_nil _ (Z.pred 1)) by lia. simpl. f_equal.
    unfold slot. simpl.
    replace ((read_index k + (0 + queue_len k)) mod 32) with (write_index k)
      by (unfold queue_len; Z.div_mod_to_equations; lia).
    rewrite list_lookup_insert_eq by lia. done.
Qed.

Lemma pop_empty_len k : kbd_wf k -> pop_empty k = (queue_len k =? 0).
Proof.
  intros [_ Hr Hw]. unfold pop_empty, queue_len. apply eq_bool_prop_intro. rewrite !Is_true_true, !Z.eqb_eq.
  Z.div_mod_to_equations. lia.
Qed.

(** The pop takes the oldest character. *)
Lemma queue_pop k :
  kbd_wf k ->
  match queue k with
  | [] => keyboard_buffer_pop k = (0, k)
  | c :: q => keyboard_buffer_pop k = (char_to_u32 c, pop_advance k) /\
              queue (pop_advance k) = q
  end.
Proof.
  intros Hk. pose proof Hk as [Hl Hr Hw]. unfold keyboard_buffer_pop. rewrite pop_empty_len by done.
  pose proof (queue_len_bounds k) as Hq. destruct (Z.eqb_spec (queue_len k) 0) as [H0|H0].
  - unfold queue. rewrite H0. done.
  - unfold queue at 1. rewrite seqZ_cons by lia. simpl. split.
    + do 2 f_equal. unfold slot, pop_char. do 3 f_equal. rewrite Z.mod_small; lia.
    + assert (Hlen : queue_len (pop_advance k) = Z.pred (queue_len k)).
      { unfold queue_len in *. simpl. rewrite wrap_small by lia. Z.div_mod_to_equations. lia. }
      unfold queue. rewrite Hlen. apply list_eq. intros i. rewrite !list_lookup_fmap.
      destruct (decide (Z.of_nat i < Z.pred (queue_len k))).
      * rewrite !lookup_seqZ_lt by lia. simpl. f_equal. unfold slot. simpl.
        rewrite wrap_small by lia. do 3 f_equal. rewrite Zplus_mod_idemp_l. f_equal. lia.
      * by rewrite !lookup_seqZ_ge by lia.
Qed.

Lemma queue_clear k : queue (keyboard_buffer_clear k) = [].
Proof. unfold queue, queue_len. simpl. by rewrite Z.sub_diag. Qed.

(** ** Refinement

    Calls on the buffer, run on the ring and on an abstract queue. *)

Inductive kbd_op := Push (c : Z) | Pop | Clear.

Definition kbd_run1 (op : kbd_op) (k : kbd) : list Z * kbd :=
  match op with
  | Push c => ([], keyboard_buffer_push c k)
  | Pop => let '(r, k) := keyboard_buffer_pop k in ([r], k)
  | Clear => ([], keyboard_buffer_clear k)
  end.

(** A queue that holds at most 31 characters, drops what does not fit and
    ignores NUL. *)
Definition fifo_run1 (op : kbd_op) (q : list Z) : list Z * list Z :=
  match op with
  | Push c => ([], if (c =? 0) || (Z.of_nat (length q) =? 31) then q else q ++ [c])
  | Pop => match q with [] => ([0], []) | c :: q => ([char_to_u32 c], q) end
  | Clear => ([], [])
  end.

(** The answers to a sequence of calls. *)
Fixpoint answers {S} (run1 : kbd_op -> S -> list Z * S) (ops : list kbd_op) (s : S) : list Z :=
  match ops with
  | [] => []
  | op :: ops => let '(r, s) := run1 op s in r ++ answers run1 ops s
  end.

Lemma fifo_step op k :
  kbd_wf k -> kbd_wf (kbd_run1 op k).2 /\
  fifo_run1 op (queue k) = ((kbd_run1 op k).1, queue (kbd_run1 op k).2).
Proof.
  intros Hk. destruct op as [c| |]; simpl.
  - split; [by apply push_wf|]. by rewrite queue_push, length_queue.
  - pose proof (queue_pop k Hk) as Hp. pose proof (pop_wf k Hk) as Hw.
    destruct (queue k) as [|c q] eqn:E; [rewrite Hp in *; simpl; by rewrite E|].
    destruct Hp as [Hp Hq]. rewrite Hp in *. simpl. by rewrite Hq.
  - split; [by apply clear_wf|]. by rewrite queue_clear.
Qed.

(** C34: The ring buffer refines a FIFO queue of at most 31 characters: any
    sequence of pushes, pops and clears gets the same answers from both. *)
Theorem keyboard_refines_fifo ops k :
  kbd_wf k -> answers kbd_run1 ops k = answers fifo_run1 ops (queue k).
Proof.
  revert k. induction ops as [|op ops IH]; intros k Hk; simpl; [done|].
  destruct (fifo_step op k Hk) as [Hk' ->]. destruct (kbd_run1 op k) as [r k'].
  simpl in *. by rewrite IH.
Qed.

(** ** Interrupts inside the pop *)

(** The interrupt handler pushes the characters [cs]. *)
Definition irq_pushes (cs : list Z) (k : kbd) : kbd :=
  foldl (fun k c => keyboard_buffer_push c k) k cs.

(** [keyboard_buffer_pop] with interrupts between its steps: [cs1] arrive
    between the test and the read, [cs2] between the read and the update. *)
Definition pop_interrupted (cs1 cs2 : list Z) (k : kbd) : Z * kbd :=
  if pop_empty k then (0, k)
  else
    let k := irq_pushes cs1 k in
    let c := pop_char k in
    let k := irq_pushes cs2 k in
    (char_to_u32 c, pop_advance k).

Lemma irq_pushes_wf cs k : kbd_wf k -> kbd_wf (irq_pushes cs k).
Proof. revert k. induction cs; intros k Hk; [done|]. by apply IHcs, push_wf. Qed.

Lemma irq_pushes_app cs1 cs2 k :
  irq_pushes (cs1 ++ cs2) k = irq_pushes cs2 (irq_pushes cs1 k).
Proof. apply foldl_app. Qed.

(** A push never disturbs a waiting character. *)
Lemma push_keeps_head c k :
  kbd_wf k -> pop_empty k = false ->
  pop_empty (keyboard_buffer_push c k) = false /\
  pop_char (keyboard_buffer_push c k) = pop_char k.
Proof.
  intros [Hl Hr Hw] Hne. unfold keyboard_buffer_push. repeat case_if; try done.
  unfold pop_empty, pop_char in *. simpl. bool_simpl.
  split; [by apply Z.eqb_neq; auto|]. rewrite list_lookup_insert_ne by lia. done.
Qed.

Lemma irq_pushes_keep_head cs k :
  kbd_wf k -> pop_empty k = false ->
  pop_empty (irq_pushes cs k) = false /\ pop_char (irq_pushes cs k) = pop_char k.
Proof.
  revert k. induction cs as [|c cs IH]; intros k Hk Hne; [done|]. simpl.
  destruct (push_keeps_head c k Hk Hne) as [Hne' <-]. by apply IH; [apply push_wf|].
Qed.

(** Pushes fill the queue up to 31 characters. *)
Lemma queue_pushes cs k :
  kbd_wf k -> queue (irq_pushes cs k) = queue k ++ take (31 - length (queue k)) (filter (fun c => c <> 0) cs).
Proof.
  revert k. induction cs as [|c cs IH]; intros k Hk; [change (filter _ []) with (@nil Z); by rewrite take_nil, app_nil_r|]. simpl irq_pushes.
  rewrite IH by (by apply push_wf). rewrite queue_push by done. pose proof (length_queue k) as Hl. pose proof (queue_len_bounds k).
  destruct (Z.eqb_spec c 0) as [->|Hc]; cbn [orb]; [by rewrite filter_cons_False by lia|]. rewrite filter_cons_True by done.
  destruct (Z.eqb_spec (queue_len k) 31) as [Hf|Hf].
  - by replace (31 - length (queue k))%nat with 0%nat by lia.
  - rewrite length_app, <- app_assoc. simpl length. replace (31 - length (queue k))%nat with (S (31 - (length (queue k) + 1))) by lia. done.
Qed.

(** C35: A pop that keyboard interrupts cut in two places, between the test and
    the read and between the read and the update, still takes the oldest
    character, and does to the buffer what the pushes followed by an
    uninterrupted pop do.  The test decides: a buffer that was empty then answers
    0.  Otherwise no character that waited is lost, and the new ones follow as
    long as there was room for them beside the one that is taken: with 31
    waiting, all are dropped, though an uninterrupted pop first would have made
    room for one. *)
Theorem pop_linearizable cs1 cs2 k :
  kbd_wf k ->
  pop_interrupted cs1 cs2 k =
    (if pop_empty k then keyboard_buffer_pop k else keyboard_buffer_pop (irq_pushes (cs1 ++ cs2) k)) /\
  match queue k with
  | [] => pop_interrupted cs1 cs2 k = (0, k)
  | c :: q => (pop_interrupted cs1 cs2 k).1 = char_to_u32 c /\
      queue (pop_interrupted cs1 cs2 k).2 = q ++ take (30 - length q) (filter (fun c => c <> 0) (cs1 ++ cs2))
  end.
Proof.
  intros Hk. assert (E : pop_interrupted cs1 cs2 k =
    if pop_empty k then keyboard_buffer_pop k else keyboard_buffer_pop (irq_pushes (cs1 ++ cs2) k)).
  { unfold pop_interrupted, keyboard_buffer_pop. destruct (pop_empty k) eqn:Hne; [done|].
    destruct (irq_pushes_keep_head cs1 k Hk Hne) as [H1 H1'].
    destruct (irq_pushes_keep_head cs2 (irq_pushes cs1 k) (irq_pushes_wf _ _ Hk) H1) as [H2 H2'].
    by rewrite irq_pushes_app, H2, H2'. }
  split; [done|]. rewrite E, pop_empty_len, <- length_queue by done.
  pose proof (queue_pop k Hk) as Hp. pose proof (queue_pushes (cs1 ++ cs2) k Hk) as Hq.
  pose proof (queue_pop (irq_pushes (cs1 ++ cs2) k) (irq_pushes_wf _ _ Hk)) as Hpp. destruct (queue k) as [|c q]; [done|].
  rewrite (proj2 (Z.eqb_neq _ 0)) by (simpl; lia). rewrite Hq in Hpp. simpl in Hpp. by destruct Hpp as [-> ?].
Qed.

(** ** The scancode table *)

(** A property of every scancode byte, checked by evaluation. *)
Lemma all_scancodes (p : Z -> bool) :
  forallb p (seqZ 0 256) = true -> forall sc, 0 <= sc < 256 -> p sc = true.
Proof.
  intros H sc Hsc. rewrite List.forallb_forall in H. apply H, list_elem_of_In, elem_of_seqZ. lia.
Qed.

Lemma decode_release sc : 128 <= sc < 256 -> keyboard_decode sc = 0.
Proof.
  intros Hsc. apply Z.eqb_eq.
  enough (H : (if 128 <=? sc then keyboard_decode sc =? 0 else true) = true)
    by (case_if_in H; lia).
  revert sc Hsc. enough (H : forall sc, 0 <= sc < 256 ->
    (if 128 <=? sc then keyboard_decode sc =? 0 else true) = true) by (intros; apply H; lia).
  apply all_scancodes. vm_compute. reflexivity.
Qed.

Definition editable (c : Z) : bool :=
  (c =? 0) || (c =? 8) || (c =? 10) || ((32 <=? c) && (c <=? 126)).

Lemma decode_editable sc : 0 <= sc < 256 -> editable (keyboard_decode sc) = true.
Proof. apply (all_scancodes (fun sc => editable (keyboard_decode sc))). vm_compute. reflexivity. Qed.

Lemma decode_injective a b :
  0 <= a < 256 -> 0 <= b < 256 -> keyboard_decode a <> 0 ->
  keyboard_decode a = keyboard_decode b -> a = b.
Proof.
  intros Ha Hb Hne Heq.
  assert (H : forallb (fun b => (keyboard_decode a =? 0) || negb (keyboard_decode a =? keyboard_decode b)
    || (a =? b)) (seqZ 0 256) = true).
  { revert a Ha Hne Heq. enough (forall a, 0 <= a < 256 -> forallb (fun b => (keyboard_decode a =? 0)
      || negb (keyboard_decode a =? keyboard_decode b) || (a =? b)) (seqZ 0 256) = true) by auto.
    apply (all_scancodes (fun a => forallb (fun b => (keyboard_decode a =? 0)
      || negb (keyboard_decode a =? keyboard_decode b) || (a =? b)) (seqZ 0 256))).
    vm_compute. reflexivity. }
  pose proof (all_scancodes _ H b Hb) as Hab. simpl in Hab. bool_simpl; lia.
Qed.

(** Every scancode decodes to a character the line editors understand or
    to 0; key releases decode to 0; and no two keys give the same
    character. *)
Theorem keyboard_decode_spec a b :
  0 <= a < 256 -> 0 <= b < 256 ->
  editable (keyboard_decode a) = true /\
  char_to_u32 (keyboard_decode a) = keyboard_decode a /\
  (128 <= a -> keyboard_decode a = 0) /\
  (keyboard_decode a <> 0 -> keyboard_decode a = keyboard_decode b -> a = b).
Proof.
  intros Ha Hb. pose proof (decode_editable a Ha) as He.
  split; [done|]. split; [|split; [intros; apply decode_release; lia|by apply decode_injective]].
  unfold editable in He. unfold char_to_u32. case_if; bool_simpl; try lia; ulia.
Qed.
