(* ===== verification/Programs.v ===== *)
(** * The programs of userland (src/user)

    The system-call wrappers of user.h, the start-up code crt0.S and the
    programs init, shell, hello and readkey.  A program is a tree of the
    actions it takes: reads and writes of its own memory, and [int $0x80] with
    the registers it sets.  The shell loops for ever, so its [main] is a first
    part and a round, and [shell_main] runs a number of rounds. *)

From S2P Require Import Prelude Memory.

(** ** Actions *)

(** The registers at [int $0x80]; [None]: left as the compiler has it. *)
Record call := mkCall {
  c_eax : Z; c_ebx : option Z; c_ecx : option Z; c_edx : option Z;
}.

Inductive prog (A : Type) :=
  | Ret (a : A)
  | Int80 (c : call) (k : Z -> prog A)
  | Peek (a : Z) (k : Z -> prog A)                 (** reads a byte *)
  | Poke (a b : Z) (p : prog A).                   (** writes a byte *)
Arguments Ret {A}.
Arguments Int80 {A}.
Arguments Peek {A}.
Arguments Poke {A}.

#[export] Instance prog_ret : MRet prog := @Ret.
#[export] Instance prog_bind : MBind prog := fun A B f =>
  fix go (p : prog A) : prog B :=
  match p with
  | Ret a => f a
  | Int80 c k => Int80 c (fun r => go (k r))
  | Peek a k => Peek a (fun b => go (k b))
  | Poke a b p => Poke a b (go p)
  end.

Definition peek (a : Z) : prog Z := Peek a Ret.
Definition poke (a b : Z) : prog unit := Poke a b (Ret tt).
Definition int80 (c : call) : prog Z := Int80 c Ret.

(** ** user.h *)

Abbreviation SYS_WRITE := 1.
Abbreviation SYS_EXIT := 2.
Abbreviation SYS_YIELD := 3.
Abbreviation SYS_GETC := 4.
Abbreviation SYS_SPAWN := 5.
Abbreviation SYS_WAIT := 6.
Abbreviation SYS_FD_STDOUT := 1.

Definition write (fd buf len : Z) : prog Z :=
  ret ← int80 (mkCall SYS_WRITE (Some (u32 fd)) (Some buf) (Some len)); mret (s32 ret).
Definition yield : prog Z :=
  ret ← int80 (mkCall SYS_YIELD None None None); mret (s32 ret).
Definition getchar : prog Z :=
  ret ← int80 (mkCall SYS_GETC None None None); mret (s32 ret).
Definition spawn (path : Z) : prog Z :=
  ret ← int80 (mkCall SYS_SPAWN (Some path) None None); mret (s32 ret).
Definition wait (pid : Z) : prog Z :=
  ret ← int80 (mkCall SYS_WAIT (Some (u32 pid)) None None); mret (s32 ret).

(** ** The programs *)

Definition backspace : string := String (Ascii.ascii_of_nat 8) EmptyString.

Section programs.
(** Where the linker put the string literals, and [input] in the frame of the
    shell's [main]. *)
Context (lit : string -> Z) (input : Z).

(** hello.c *)
Definition hello_main : prog Z :=
  _ ← write SYS_FD_STDOUT (lit (ln "hello from C")) 13; mret 0.

(** init.c *)
Definition init_main : prog Z :=
  pid ← spawn (lit "/bin/shell");
  if pid <? 0 then mret 1
  else
    status ← wait pid;
    if status <? 0 then mret 1 else mret status.

(** shell.c *)

Abbreviation INPUT_SIZE := 32.

Definition shell_prompt : prog unit := _ ← write SYS_FD_STDOUT (lit "emyx$ ") 6; mret tt.

(** [length == 4 && input[0] == 'q' && ...] stops at the first difference. *)
Fixpoint input_is (i : Z) (word : list Z) : prog bool :=
  match word with
  | [] => mret true
  | c :: word => b ← peek (input +u i); if b =? c then input_is (i + 1) word else mret false
  end.
Definition is_quit (length : Z) : prog bool :=
  if length =? 4 then input_is 0 (chars "quit") else mret false.

Definition run_program : prog unit :=
  pid ← spawn input;
  if pid <? 0 then _ ← write SYS_FD_STDOUT (lit (ln "shell: failed to run program")) 29; mret tt
  else
    ret ← wait pid;
    if ret <? 0 then _ ← write SYS_FD_STDOUT (lit (ln "shell: failed to wait for program")) 34; mret tt
    else mret tt.

(** The body of the loop; [inl]: [continue], [inr]: [return]. *)
Definition shell_round (length : Z) : prog (Z + Z) :=
  c ← getchar;
  if c =? 0 then _ ← yield; mret (inl length)
  else if c =? 8 then
    if 0 <? length then _ ← write SYS_FD_STDOUT (lit backspace) 1; mret (inl (length - 1))
    else mret (inl length)
  else if c =? 10 then
    _ ← write SYS_FD_STDOUT (lit (ln "")) 1;
    _ ← poke (input +u length) 0;
    quit ← is_quit length;
    if quit : bool then mret (inr 0)
    else
      _ ← (if 0 <? length then run_program else mret tt);
      _ ← shell_prompt;
      mret (inl 0)
  else if (c <? 32) || (126 <? c) || (length =? INPUT_SIZE - 1) then mret (inl length)
  else
    _ ← poke (input +u length) (u8 c);
    _ ← write SYS_FD_STDOUT (input +u length) 1;
    mret (inl (length + 1)).

(** The first [n] rounds. *)
Fixpoint shell_loop (n : nat) (length : Z) : prog (Z + Z) :=
  match n with
  | O => mret (inl length)
  | S n =>
    r ← shell_round length;
    match r with
    | inl length => shell_loop n length
    | inr status => mret (inr status)
    end
  end.
Definition shell_main (n : nat) : prog (Z + Z) := _ ← shell_prompt; shell_loop n 0.

(** crt0.S: the status of [main] is the argument of the exit call, which does
    not return. *)
Definition crt0_exit (status : Z) : call := mkCall SYS_EXIT (Some status) (Some 0) (Some 0).
Definition crt0_start (main : prog Z) : prog unit :=
  status ← main; _ ← int80 (crt0_exit (u32 status)); mret tt.

(** readkey.S, with [esp] as the kernel sets it.  Its prompt is three words on
    the stack. *)
Definition push_word (esp w : Z) : prog unit :=
  _ ← poke (esp -u 4) (w mod 256);
  _ ← poke (esp -u 3) (w / 256 mod 256);
  _ ← poke (esp -u 2) (w / 65536 mod 256);
  poke (esp -u 1) (w / 16777216 mod 256).

Definition readkey_start (esp : Z) : prog Z :=
  _ ← push_word esp 0x000a3a79;
  _ ← push_word (esp -u 4) 0x656b2073;
  _ ← push_word (esp -u 8) 0x73657270;
  int80 (mkCall SYS_WRITE (Some SYS_FD_STDOUT) (Some (esp -u 12)) (Some 11)).

(** A round of its polling loop: [Some key] when there is one. *)
Definition readkey_poll : prog (option Z) :=
  c ← int80 (mkCall SYS_GETC None None None);
  mret (if c =? 0 then None else Some c).

Definition readkey_end (esp key : Z) : prog Z :=
  _ ← poke (esp -u 4) (u8 key);
  _ ← poke ((esp -u 4) +u 1) 0x0a;
  _ ← int80 (mkCall SYS_WRITE (Some SYS_FD_STDOUT) (Some (esp -u 4)) (Some 2));
  int80 (mkCall SYS_EXIT (Some 0) (Some 0) (Some 0)).
End programs.

(** ** Running a program *)

(** What the kernel does for a program, in terms of contents instead of
    pointers: [k_write] of bytes to a descriptor, [k_spawn] of a path. *)
Class World (W : Type) := {
  k_write : Z -> list Z -> W -> Z * W;
  k_exit : Z -> W -> W;
  k_yield : W -> Z * W;
  k_getc : W -> Z * W;
  k_spawn : list Z -> W -> Z * W;
  k_wait : Z -> W -> Z * W;
}.

Definition bytes_at (m : memory) (a n : Z) : list Z := (fun i => load8 m (a +u i)) <$> seqZ 0 n.

(** A path of 1 to 31 bytes and its NUL; the kernel refuses any other. *)
Definition path_at (m : memory) (a : Z) : option (list Z) :=
  match strlen 32 (fun i => load8 m (a +u i)) with
  | Some n => if n =? 0 then None else Some (bytes_at m a n)
  | None => None
  end.

Section run.
Context {W : Type} `{!World W}.

Definition serve (c : call) (m : memory) (w : W) : Z * W :=
  let arg := default 0 in
  if c_eax c =? SYS_WRITE then k_write (arg (c_ebx c)) (bytes_at m (arg (c_ecx c)) (arg (c_edx c))) w
  else if c_eax c =? SYS_EXIT then (0, k_exit (arg (c_ebx c)) w)
  else if c_eax c =? SYS_YIELD then k_yield w
  else if c_eax c =? SYS_GETC then k_getc w
  else if c_eax c =? SYS_SPAWN then
    match path_at m (arg (c_ebx c)) with
    | Some path => k_spawn path w
    | None => (u32 (-1), w)
    end
  else if c_eax c =? SYS_WAIT then k_wait (arg (c_ebx c)) w
  else (u32 (-1), w).

Fixpoint run {A} (p : prog A) (m : memory) (w : W) : A * memory * W :=
  match p with
  | Ret a => (a, m, w)
  | Int80 c k => let '(r, w) := serve c m w in run (k r) m w
  | Peek a k => run (k (load8 m a)) m w
  | Poke a b p => run p (store8 m a b) w
  end.

Lemma run_bind {A B} (f : A -> prog B) (p : prog A) m w :
  run (p ≫= f) m w = let '(a, m, w) := run p m w in run (f a) m w.
Proof. revert m w. induction p as [a|c k IH|a k IH|a b p IH]; intros m w; cbn; [done| |apply IH|apply IH]. destruct (serve c m w). apply IH. Qed.
End run.
