(* ===== verification/Ushell.v ===== *)
(** * The user shell as a line editor

    What shell.c promises its user, without addresses: an editor of the line
    typed so far, which echoes, erases, runs the line as a path on Enter and
    leaves on "quit".  The program of Programs.v refines it, whatever the
    kernel answers.  The last section has what init and readkey do. *)

From S2P Require Import Prelude Memory Programs.

(** ** The editor *)

Section editor.
Context {W : Type} `{!World W}.

Definition out (l : list Z) (w : W) : W := (k_write SYS_FD_STDOUT l w).2.

Definition editor_run (line : list Z) (w : W) : W :=
  let '(pid, w) := k_spawn line w in
  if s32 pid <? 0 then out (chars (ln "shell: failed to run program")) w
  else
    let '(status, w) := k_wait (u32 (s32 pid)) w in
    if s32 status <? 0 then out (chars (ln "shell: failed to wait for program")) w else w.

Definition printable (c : Z) : bool := (32 <=? c) && (c <=? 126).

(** One key, or none. *)
Definition editor_round (line : list Z) (w : W) : (list Z + Z) * W :=
  let '(r, w) := k_getc w in
  let c := s32 r in
  if c =? 0 then (inl line, (k_yield w).2)
  else if c =? 8 then
    match line with
    | [] => (inl [], w)
    | _ => (inl (take (length line - 1) line), out [8] w)
    end
  else if c =? 10 then
    let w := out [10] w in
    if decide (line = chars "quit") then (inr 0, w)
    else (inl [], out (chars "emyx$ ") (match line with [] => w | _ => editor_run line w end))
  else if printable c && (Z.of_nat (length line) <? 31) then (inl (line ++ [c]), out [c] w)
  else (inl line, w).

Fixpoint editor_loop (n : nat) (line : list Z) (w : W) : (list Z + Z) * W :=
  match n with
  | O => (inl line, w)
  | S n =>
    match editor_round line w with
    | (inl line, w) => editor_loop n line w
    | (inr status, w) => (inr status, w)
    end
  end.

(** A session of [n] rounds. *)
Definition editor (n : nat) (w : W) : (list Z + Z) * W := editor_loop n [] (out (chars "emyx$ ") w).
End editor.

(** ** The program and its memory *)

Definition literals : list string :=
  ["emyx$ "; backspace; ln ""; ln "shell: failed to run program"; ln "shell: failed to wait for program"].

Section refinement.
Context (lit : string -> Z) (input : Z).

(** The literals are in memory, and [input] is elsewhere. *)
Record layout (m : memory) : Prop := {
  la_input : 0 <= input /\ input + 32 <= 2 ^ 32;
  la_lit s : s ∈ literals -> 0 <= lit s /\ lit s + Z.of_nat (length (chars s)) <= 2 ^ 32 /\
    (lit s + Z.of_nat (length (chars s)) <= input \/ input + 32 <= lit s);
  la_bytes s : s ∈ literals -> bytes_at m (lit s) (Z.of_nat (length (chars s))) = chars s;
}.

(** [input] holds the line. *)
Record holds (m : memory) (line : list Z) : Prop := {
  ho_fits : (length line <= 31)%nat;
  ho_chars : Forall (fun c => printable c = true) line;
  ho_bytes i c : line !! i = Some c -> load8 m (input + Z.of_nat i) = c;
}.

Definition same_outside (m m' : memory) : Prop := forall a, ~ (input <= a < input + 32) -> load8 m' a = load8 m a.

(** The result of the program and of the editor. *)
Definition agree (m : memory) (r : Z + Z) (e : list Z + Z) : Prop :=
  match r, e with
  | inl n, inl line => n = Z.of_nat (length line) /\ holds m line
  | inr status, inr status' => status = status'
  | _, _ => False
  end.

Lemma bytes_at_eq m a l :
  0 <= a -> a + Z.of_nat (length l) <= 2 ^ 32 -> (forall i c, l !! i = Some c -> load8 m (a + Z.of_nat i) = c) ->
  bytes_at m a (Z.of_nat (length l)) = l.
Proof.
  intros Ha Hl H. apply list_eq. intros i. unfold bytes_at. rewrite list_lookup_fmap.
  destruct (l !! i) as [c|] eqn:E.
  - pose proof (lookup_lt_Some _ _ _ E). rewrite (lookup_seqZ_lt) by lia. simpl.
    rewrite wrap_small by lia. f_equal. rewrite <- (H i c E). f_equal.
  - apply lookup_ge_None in E. by rewrite lookup_seqZ_ge by lia.
Qed.

Lemma layout_same m m' : layout m -> same_outside m m' -> layout m'.
Proof.
  intros L S. split; [apply L..|]. intros s Hs. rewrite <- (la_bytes m L s Hs) at 2.
  destruct (la_lit m L s Hs) as (H0 & H1 & H2). unfold bytes_at. apply list_fmap_ext.
  intros i j Hj. apply lookup_seqZ in Hj as [-> Hj]. apply S. rewrite wrap_small by lia. lia.
Qed.

Lemma store_same m i b : 0 <= i < 32 -> same_outside m (store8 m (input + i) b).
Proof. intros Hi a Ha. apply load8_store8_ne. lia. Qed.

Lemma same_trans m1 m2 m3 : same_outside m1 m2 -> same_outside m2 m3 -> same_outside m1 m3.
Proof. intros H1 H2 a Ha. rewrite H2, H1; done. Qed.

Lemma holds_nil m : holds m [].
Proof. split; [simpl; lia|constructor|done]. Qed.

(** A path that the shell hands to [spawn]. *)
Lemma path_line m line :
  layout m -> holds m line -> line <> [] -> load8 m (input + Z.of_nat (length line)) = 0 -> path_at m input = Some line.
Proof.
  intros L H Hne Hz. destruct (la_input m L). pose proof (ho_fits m line H).
  assert (Hs : strlen 32 (fun i => load8 m (input +u i)) = Some (Z.of_nat (length line))).
  { apply strlen_Some. split; [lia|]. rewrite wrap_small by lia. split; [done|]. intros i Hi.
    rewrite wrap_small by lia. destruct (lookup_lt_is_Some_2 line (Z.to_nat i)) as [c Hc]; [lia|].
    replace i with (Z.of_nat (Z.to_nat i)) by lia. rewrite (ho_bytes m line H _ c Hc).
    pose proof (proj1 (Forall_lookup _ _) (ho_chars m line H) _ _ Hc) as Hp. unfold printable in Hp. bool_simpl. lia. }
  unfold path_at. rewrite Hs. destruct line as [|x line']; [done|]. cbn [length]. rewrite (proj2 (Z.eqb_neq _ 0)) by lia.
  f_equal. exact (bytes_at_eq m input (x :: line') ltac:(lia) ltac:(lia) (ho_bytes m _ H)).
Qed.

(** ** The actions of the program *)

Section run.
Context {W : Type} `{!World W}.

Lemma run_write {B} (p : Z -> prog B) buf n m w :
  run (r ← write SYS_FD_STDOUT buf n; p r) m w =
  let '(r, w') := k_write SYS_FD_STDOUT (bytes_at m buf n) w in run (p (s32 r)) m w'.
Proof. unfold write. rewrite run_bind. cbn. by destruct (k_write _ _ _). Qed.

Lemma run_lit {B} s n (p : prog B) m w :
  layout m -> s ∈ literals -> n = Z.of_nat (length (chars s)) ->
  run (_ ← write SYS_FD_STDOUT (lit s) n; p) m w = run p m (out (chars s) w).
Proof. intros L Hs ->. rewrite (run_write (fun _ => p)), (la_bytes m L s Hs). unfold out. by destruct (k_write _ _ _). Qed.

Lemma run_prompt {B} (p : prog B) m w :
  layout m -> run (_ ← shell_prompt lit; p) m w = run p m (out (chars "emyx$ ") w).
Proof.
  intros L. rewrite run_bind. unfold shell_prompt. rewrite run_lit; [done|done|unfold literals; set_solver|done].
Qed.

Lemma run_spawn {B} (p : Z -> prog B) a path m w :
  path_at m a = Some path ->
  run (r ← spawn a; p r) m w = let '(r, w') := k_spawn path w in run (p (s32 r)) m w'.
Proof. intros Hp. unfold spawn. rewrite run_bind. cbn. rewrite Hp. by destruct (k_spawn _ _). Qed.

Lemma run_wait {B} (p : Z -> prog B) pid m w :
  run (r ← wait pid; p r) m w = let '(r, w') := k_wait (u32 pid) w in run (p (s32 r)) m w'.
Proof. unfold wait. rewrite run_bind. cbn. by destruct (k_wait _ _). Qed.

Lemma run_run_program m line w :
  layout m -> path_at m input = Some line -> run (run_program lit input) m w = (tt, m, editor_run line w).
Proof.
  intros L Hp. unfold run_program, editor_run. rewrite (run_spawn _ _ line) by done.
  destruct (k_spawn line w) as [pid w1]. destruct (s32 pid <? 0).
  - rewrite run_lit; [done|done| |done]. unfold literals. set_solver.
  - rewrite run_wait. destruct (k_wait _ w1) as [st w2]. destruct (s32 st <? 0); [|done].
    rewrite run_lit; [done|done| |done]. unfold literals. set_solver.
Qed.

(** The comparison with a word. *)
Lemma run_input_is m line word i w :
  layout m -> holds m line -> (i + length word = length line)%nat ->
  run (input_is input (Z.of_nat i) word) m w = (bool_decide (drop i line = word), m, w).
Proof.
  intros L H. destruct (la_input m L). pose proof (ho_fits m line H). revert i.
  induction word as [|c word IH]; intros i Hi; cbn [length] in Hi.
  - simpl. rewrite drop_ge by lia. by rewrite bool_decide_eq_true_2.
  - destruct (lookup_lt_is_Some_2 line i) as [x Hx]; [lia|].
    cbn. rewrite wrap_small by lia. rewrite (ho_bytes m line H i x Hx), (drop_S line x i Hx).
    destruct (Z.eqb_spec x c) as [->|Hne].
    + replace (Z.of_nat i + 1) with (Z.of_nat (S i)) by lia. rewrite IH by lia. f_equal. f_equal.
      apply bool_decide_ext. split; [by intros ->|by intros [= ->]].
    + cbn. by rewrite bool_decide_eq_false_2 by congruence.
Qed.

Lemma run_is_quit m line w :
  layout m -> holds m line ->
  run (is_quit input (Z.of_nat (length line))) m w = (bool_decide (line = chars "quit"), m, w).
Proof.
  intros L H. unfold is_quit. destruct (Z.eqb_spec (Z.of_nat (length line)) 4) as [E|E].
  - rewrite (run_input_is m line (chars "quit") 0); [done|done|done|simpl; lia].
  - rewrite bool_decide_eq_false_2; [done|]. intros ->. by apply E.
Qed.

(** ** A round *)

Lemma run_getchar {B} (p : Z -> prog B) m w :
  run (r ← getchar; p r) m w = let '(r, w') := k_getc w in run (p (s32 r)) m w'.
Proof. unfold getchar. rewrite run_bind. cbn. by destruct (k_getc _). Qed.

Lemma run_yield_call {B} (p : prog B) m w : run (_ ← yield; p) m w = run p m (k_yield w).2.
Proof. unfold yield. rewrite run_bind. cbn. by destruct (k_yield _). Qed.

Lemma run_poke {B} (p : prog B) a b m w : run (_ ← poke a b; p) m w = run p (store8 m a b) w.
Proof. done. Qed.

(** What is shown of a run that should do [e]. *)
Definition refines (m : memory) (x : (Z + Z) * memory * W) (e : (list Z + Z) * W) : Prop :=
  x.2 = e.2 /\ agree x.1.2 x.1.1 e.1 /\ same_outside m x.1.2.

Lemma refines_idle m line w : holds m line -> refines m (inl (Z.of_nat (length line)), m, w) (inl line, w).
Proof. by repeat split; try apply H. Qed.

Lemma holds_take m line : holds m line -> holds m (take (length line - 1) line).
Proof.
  intros H. split.
  - rewrite length_take. pose proof (ho_fits m line H). lia.
  - apply Forall_take, H.
  - intros i c Hi. apply lookup_take_Some in Hi as [Hi _]. by apply (ho_bytes m line H).
Qed.

Lemma holds_store m line b : holds m line -> holds (store8 m (input + Z.of_nat (length line)) b) line.
Proof.
  intros H. split; [apply H..|]. intros i c Hi. pose proof (lookup_lt_Some _ _ _ Hi).
  rewrite load8_store8_ne by lia. by apply (ho_bytes m line H).
Qed.

Lemma holds_snoc m line c :
  holds m line -> (length line < 31)%nat -> printable c = true ->
  holds (store8 m (input + Z.of_nat (length line)) c) (line ++ [c]).
Proof.
  intros H Hn Hp. pose proof (holds_store m line c H) as H'. split.
  - rewrite length_app. simpl. lia.
  - apply Forall_app. split; [apply H|]. by constructor.
  - intros i x Hi. apply lookup_app_Some in Hi as [Hi|[Hge Hi]]; [by apply (ho_bytes _ _ H')|].
    apply list_lookup_singleton_Some in Hi as [Hi <-]. replace (Z.of_nat i) with (Z.of_nat (length line)) by lia.
    rewrite load8_store8_eq. unfold printable in Hp. bool_simpl. apply wrap_small. lia.
Qed.

Lemma round_enter m line w (p := shell_round lit input (Z.of_nat (length line))) :
  layout m -> holds m line -> s32 (k_getc w).1 = 10 -> refines m (run p m w) (editor_round line w).
Proof.
  intros L H Hc. unfold p, shell_round, editor_round. rewrite run_getchar. destruct (k_getc w) as [r w0]. simpl in Hc.
  rewrite Hc. cbn [Z.eqb Pos.eqb]. rewrite run_lit; [|done|unfold literals; set_solver|done]. rewrite run_poke.
  pose proof (ho_fits m line H) as Hfit. destruct (la_input m L) as [Hin Hin2]. rewrite wrap_small by lia.
  set (m1 := store8 _ _ _). assert (S : same_outside m m1) by (apply store_same; lia).
  pose proof (layout_same m m1 L S) as L1. pose proof (holds_store m line 0 H) as H1. fold m1 in H1.
  change (chars (ln "")) with [10]. set (w1 := out [10] w0). rewrite run_bind, (run_is_quit m1 line) by done.
  destruct (decide (line = chars "quit")) as [->|Hq].
  { by rewrite bool_decide_eq_true_2. }
  rewrite bool_decide_eq_false_2 by done. rewrite run_bind.
  assert (Hr : run (if 0 <? Z.of_nat (length line) then run_program lit input else mret tt) m1 w1 =
    (tt, m1, match line with [] => w1 | _ => editor_run line w1 end)).
  { assert (Hz : load8 m1 (input + Z.of_nat (length line)) = 0) by apply load8_store8_eq. clearbody m1.
    destruct line as [|x l]; [done|]. cbn [length Z.of_nat Z.ltb Z.compare]. apply run_run_program; [done|]. by apply path_line. }
  rewrite Hr, run_prompt by done. split; [done|]. split; [|done]. split; [done|]. apply holds_nil.
Qed.

Lemma round_refines m line w :
  layout m -> holds m line -> refines m (run (shell_round lit input (Z.of_nat (length line))) m w) (editor_round line w).
Proof.
  intros L H. destruct (Z.eqb_spec (s32 (k_getc w).1) 10) as [E|E]; [by apply round_enter|].
  unfold shell_round, editor_round. rewrite run_getchar. destruct (k_getc w) as [r w0]. simpl in E.
  set (c := s32 r) in *. rewrite (proj2 (Z.eqb_neq c 10)) by done. pose proof (ho_fits m line H) as Hfit. destruct (la_input m L) as [Hin Hin2].
  destruct (Z.eqb_spec c 0) as [_|E0]; [rewrite run_yield_call; by apply refines_idle|].
  destruct (Z.eqb_spec c 8) as [_|E8].
  { destruct line as [|x l] eqn:El; [by apply refines_idle|]. rewrite <- El in *.
    assert (Hl : (0 < length line)%nat) by (rewrite El; simpl; lia).
    rewrite (proj2 (Z.ltb_lt 0 _)) by lia. rewrite run_lit; [|done|unfold literals; set_solver|done].
    split; [done|]. split; [|done]. split; [rewrite length_take; lia|by apply holds_take]. }
  destruct (printable c) eqn:Hp; unfold printable in Hp; bool_simpl.
  2,3: replace ((c <? 32) || (126 <? c)) with true by (symmetry; apply orb_true_iff; rewrite !Z.ltb_lt; lia); by apply refines_idle.
  rewrite (proj2 (Z.ltb_ge c 32)), (proj2 (Z.ltb_ge 126 c)) by lia. cbn [orb andb].
  destruct (Z.ltb_spec (Z.of_nat (length line)) 31).
  - rewrite (proj2 (Z.eqb_neq _ _)) by lia. rewrite run_poke. rewrite !wrap_small by lia.
    set (m1 := store8 _ _ _). rewrite (run_write (fun _ => mret (inl (Z.of_nat (length line) + 1)))).
    assert (Hb : bytes_at m1 (input + Z.of_nat (length line)) 1 = [c]).
    { apply (bytes_at_eq m1 _ [c]); [lia|simpl; lia|]. intros [|i] x [= <-]. rewrite Z.add_0_r. unfold m1.
      rewrite load8_store8_eq. apply wrap_small. lia. }
    rewrite Hb. unfold out. destruct (k_write _ [c] w0). split; [done|]. split; [|apply store_same; lia].
    split; [rewrite length_app; simpl; lia|]. apply holds_snoc; [done|lia|]. unfold printable. by rewrite !(proj2 (Z.leb_le _ _)) by lia.
  - rewrite (proj2 (Z.eqb_eq _ _)) by lia. by apply refines_idle.
Qed.

Lemma loop_refines n m line w :
  layout m -> holds m line -> refines m (run (shell_loop lit input n (Z.of_nat (length line))) m w) (editor_loop n line w).
Proof.
  revert m line w. induction n as [|n IH]; intros m line w L H; [by apply refines_idle|].
  cbn [shell_loop editor_loop]. rewrite run_bind. destruct (round_refines m line w L H) as (Ew & Ha & S).
  destruct (run _ m w) as [[r m1] w1], (editor_round line w) as [e w2]. simpl in *. subst w2.
  destruct r as [k|st], e as [line'|st']; simpl in Ha; try done.
  destruct Ha as [-> H1]. destruct (IH m1 line' w1) as (E1 & E2 & E3); [by eapply layout_same|done|].
  split; [done|]. split; [done|]. by eapply same_trans.
Qed.

(** C15: the shell is the line editor: from a memory that holds its literals, any
    number of rounds of its loop does to the world what the editor does,
    whatever the kernel answers to each call: the same bytes are printed in the
    same order and the same paths run.  The line is always in the array with
    its length, at most 31 printable characters, and nothing outside the array
    is written. *)
Theorem shell_refines n m w :
  layout m ->
  let '(r, m', w') := run (shell_main lit input n) m w in
  w' = (editor n w).2 /\ agree m' r (editor n w).1 /\ same_outside m m'.
Proof.
  intros L. unfold shell_main, editor. rewrite run_prompt by done.
  pose proof (loop_refines n m [] (out (chars "emyx$ ") w) L (holds_nil m)) as (E & A & S).
  cbn [length Z.of_nat] in *. by destruct (run _ _ _) as [[r m'] w'].
Qed.
End run.
End refinement.

(** ** The other programs *)

Section others.
Context {W : Type} `{!World W} (lit : string -> Z).

(** init starts the shell, waits for it and exits with its status; an error, or
    a status that does not fit a non-negative [int], is status 1. *)
Lemma init_exits m w :
  path_at m (lit "/bin/shell") = Some (chars "/bin/shell") ->
  run (crt0_start (init_main lit)) m w =
  let '(pid, w) := k_spawn (chars "/bin/shell") w in
  let '(status, w) := if s32 pid <? 0 then (1, w)
                      else let '(st, w) := k_wait (u32 (s32 pid)) w in (if s32 st <? 0 then 1 else s32 st, w) in
  (tt, m, k_exit (u32 status) w).
Proof.
  intros Hp. unfold crt0_start. rewrite run_bind. unfold init_main. rewrite (run_spawn _ _ _ _ _ Hp).
  destruct (k_spawn _ w) as [pid w1]. destruct (s32 pid <? 0); [done|].
  rewrite run_wait. destruct (k_wait _ w1) as [st w2]. by destruct (s32 st <? 0).
Qed.

(** The words that readkey pushes are its prompt. *)
Lemma readkey_prompt esp m w :
  12 <= esp < 2 ^ 32 ->
  exists m', run (readkey_start esp) m w = let '(r, w') := k_write SYS_FD_STDOUT (chars (ln "press key:")) w in (r, m', w').
Proof.
  intros He. unfold readkey_start, push_word. cbn. eexists.
  assert (Hb : forall m', (forall i c, chars (ln "press key:") !! i = Some c -> load8 m' (esp - 12 + Z.of_nat i) = c) ->
    bytes_at m' (esp -u 12) 11 = chars (ln "press key:")).
  { intros m' H. rewrite wrap_small by lia. apply (bytes_at_eq m' (esp - 12) (chars (ln "press key:"))); [lia|simpl; lia|done]. }
  rewrite Hb; [by destruct (k_write _ _ w)|]. rewrite (wrap_small 32 (esp - 8)) by lia. repeat (rewrite wrap_small by lia). intros i c Hi.
  assert (Hl : (i < 11)%nat) by (apply lookup_lt_Some in Hi; simpl in Hi; lia).
  do 11 (destruct i as [|i]; [injection Hi as <-; repeat (rewrite load8_store8_ne by lia);
    match goal with |- load8 (store8 _ ?a _) ?b = _ => replace b with a by lia end; rewrite load8_store8_eq; vm_compute; reflexivity|]). lia.
Qed.
End others.
