(* ===== verification/Machine.v ===== *)
(** * The machine and the static data of the memory-management layer

    [mm] gathers what the code of src/kernel/mm reads and writes: physical
    memory, the console and the serial line, the paging registers, and the
    static variables of pmm.c, vmm.c and kmalloc.c.  Functions that cannot fail
    fatally take the state and return it; functions that may call [panic]
    return an [outcome]. *)

From S2P Require Import Prelude Memory Tty Printk.

(** The static variables of pmm.c. *)
Record pmm_vars := mkPmm {
  pmm_bitmap : Z;          (** kernel pointer *)
  pmm_bitmap_bytes : Z;
  pmm_max_page : Z;
  pmm_total_pages : Z;
  pmm_free_pages : Z;
}.

Record mm := mkMm {
  mem : memory;
  con : tty;                       (** the VGA console *)
  serial : list Z;                 (** bytes sent to COM1 *)
  cr3 : Z;                         (** active page directory *)
  cr0_pg : bool;                   (** CR0.PG *)
  invlpg : list Z;                 (** TLB invalidations, latest first *)
  pm : pmm_vars;
  kernel_page_directory : Z;       (** vmm.c *)
  heap_list : Z;                   (** [list] of kmalloc.c *)
}.

(** ** Updates *)

Definition set_mem (m : memory) (s : mm) : mm :=
  mkMm m (con s) (serial s) (cr3 s) (cr0_pg s) (invlpg s) (pm s)
    (kernel_page_directory s) (heap_list s).
Definition set_con (t : tty) (s : mm) : mm :=
  mkMm (mem s) t (serial s) (cr3 s) (cr0_pg s) (invlpg s) (pm s)
    (kernel_page_directory s) (heap_list s).
Definition set_serial (o : list Z) (s : mm) : mm :=
  mkMm (mem s) (con s) o (cr3 s) (cr0_pg s) (invlpg s) (pm s)
    (kernel_page_directory s) (heap_list s).
Definition set_pm (p : pmm_vars) (s : mm) : mm :=
  mkMm (mem s) (con s) (serial s) (cr3 s) (cr0_pg s) (invlpg s) p
    (kernel_page_directory s) (heap_list s).
Definition set_kpd (a : Z) (s : mm) : mm :=
  mkMm (mem s) (con s) (serial s) (cr3 s) (cr0_pg s) (invlpg s) (pm s)
    a (heap_list s).
Definition set_heap_list (a : Z) (s : mm) : mm :=
  mkMm (mem s) (con s) (serial s) (cr3 s) (cr0_pg s) (invlpg s) (pm s)
    (kernel_page_directory s) a.

(** The paging primitives of src/kernel/arch/i386/paging.c. *)
Definition paging_load_directory (pd_paddr : Z) (s : mm) : mm :=
  mkMm (mem s) (con s) (serial s) pd_paddr (cr0_pg s) (invlpg s) (pm s)
    (kernel_page_directory s) (heap_list s).
Definition paging_enable (s : mm) : mm :=
  mkMm (mem s) (con s) (serial s) (cr3 s) true (invlpg s) (pm s)
    (kernel_page_directory s) (heap_list s).
Definition paging_tlb_invalidate (vaddr : Z) (s : mm) : mm :=
  mkMm (mem s) (con s) (serial s) (cr3 s) (cr0_pg s) (vaddr :: invlpg s) (pm s)
    (kernel_page_directory s) (heap_list s).

(** ** Output *)

(** [printk] for its effect; the callers in the kernel ignore its result. *)
Definition kprint (format : string) (args : list varg) (s : mm) : mm :=
  match printk (chars format) args (con s) with
  | Some (_, t) => set_con t s
  | None => s
  end.

(** [serial_writestring] (src/kernel/arch/i386/serial.c): LF goes out as CR LF.
    The wait for the transmit buffer is not visible. *)
Definition serial_bytes (data : list Z) : list Z :=
  data ≫= fun c => if c =? 10 then [13; 10] else [c].
Definition serial_writestring (data : list Z) (s : mm) : mm :=
  set_serial (serial s ++ serial_bytes data) s.

(** ** Fatal errors *)

Inductive outcome (A : Type) :=
  | Done (a : A)
  | Panic (err : string) (s : mm)     (** halted in [arch_halt] *)
  | Diverge.                          (** a loop did not end within its bound *)
Arguments Done {A} a.
Arguments Panic {A} err s.
Arguments Diverge {A}.

Definition obind {A B} (c : outcome A) (k : A -> outcome B) : outcome B :=
  match c with
  | Done a => k a
  | Panic err s => Panic err s
  | Diverge => Diverge
  end.

Declare Scope outcome_scope.
Delimit Scope outcome_scope with outcome.
Notation "'let*' x := c 'in' k" := (obind c (fun x => k))
  (at level 10, x pattern, c at level 100, k at level 200) : outcome_scope.
#[global] Open Scope outcome_scope.

(** [panic] (src/kernel/lib/panic.c). *)
Definition panic {A} (err : string) (s : mm) : outcome A :=
  Panic err (kprint "%s" [VStr (Some (chars err))] (serial_writestring (chars err) s)).

Lemma obind_Done {A B} (c : outcome A) (k : A -> outcome B) b :
  obind c k = Done b <-> exists a, c = Done a /\ k a = Done b.
Proof. destruct c; simpl; split; try done; [eauto|by intros (? & [= ->] & ?)|by intros (? & [=] & ?)..]. Qed.

(** Output touches only the console and the serial line. *)

Lemma kprint_con f args s : kprint f args s = set_con (con (kprint f args s)) s.
Proof. unfold kprint. destruct (printk _ _ _) as [[? ?]|]; by destruct s. Qed.

Lemma kprint_set_con f args t s : exists t', kprint f args (set_con t s) = set_con t' s.
Proof. eexists. rewrite kprint_con. reflexivity. Qed.

(** Proofs reason about output through the lemmas above; the conversion test
    must not start to evaluate a print. *)
#[global] Opaque kprint.
