(* ===== verification/FrameAlloc.v ===== *)
(** * The contract of the physical page allocator

    What src/kernel/mm/pmm.c promises to its clients (vmm.c, kmalloc.c, user.c):
    [alloc] hands out a frame nobody holds, [free] gives one back, and neither
    touches any memory but the allocator's own.  The clients' theorems are
    proved from this interface; Pmm.v proves that the bitmap allocator has it. *)

From S2P Require Import Prelude Memory Machine.

(** [s'] differs from [s] only in the allocator's variables and in memory that
    belongs to the allocator. *)
Definition touches_only (priv : Z -> Prop) (s s' : mm) : Prop :=
  s' = set_pm (pm s') (set_mem (mem s') s) /\ only_changes priv (mem s) (mem s').

Class FrameAllocator (alloc : mm -> Z * mm) (free : Z -> mm -> mm) := {
  fa_inv : mm -> Prop;
  avail : mm -> Z -> bool;        (** frame [p] can be handed out *)
  managed : mm -> Z -> bool;      (** frame [p] is under the allocator's control *)
  priv : mm -> Z -> Prop;         (** addresses of the allocator's own data *)

  (** The allocator's data is never handed out. *)
  priv_unavail s a : fa_inv s -> priv s a -> avail s (a / 4096) = false;
  avail_managed s p : fa_inv s -> avail s p = true -> managed s p = true /\ 0 < p < 1048576;

  (** Allocation: either no frame is left and nothing changes, or the lowest
      available frame is taken. *)
  alloc_spec s : fa_inv s ->
    (alloc s = (0, s) /\ forall p, avail s p = false) \/
    (exists p s', alloc s = (p * 4096, s') /\ avail s p = true /\
      (forall q, q < p -> avail s q = false) /\
      (forall q, avail s' q = avail s q && negb (q =? p)) /\
      (forall q, managed s' q = managed s q) /\ (forall a, priv s' a <-> priv s a) /\
      fa_inv s' /\ touches_only (priv s) s s');

  (** Freeing a frame that is out makes it available again. *)
  free_spec s p : fa_inv s -> 0 < p -> managed s p = true -> avail s p = false ->
    (forall a, priv s a -> a / 4096 <> p) ->
    forall s', free (p * 4096) s = s' ->
    (forall q, avail s' q = avail s q || (q =? p)) /\
    (forall q, managed s' q = managed s q) /\ (forall a, priv s' a <-> priv s a) /\
    fa_inv s' /\ touches_only (priv s) s s';

  (** Nothing the clients do to the rest of the machine disturbs it. *)
  fa_frame s s' : fa_inv s -> pm s' = pm s ->
    (forall a, priv s a -> load8 (mem s') a = load8 (mem s) a) ->
    fa_inv s' /\ (forall q, avail s' q = avail s q) /\
    (forall q, managed s' q = managed s q) /\ (forall a, priv s' a <-> priv s a);
}.

(** ** Frames of memory *)

Definition same_frame (m m' : memory) (p : Z) : Prop :=
  forall a, a / 4096 = p -> load8 m' a = load8 m a.

Lemma only_changes_frame (F : Z -> Prop) m m' p :
  only_changes F m m' -> (forall a, F a -> a / 4096 <> p) -> same_frame m m' p.
Proof. intros H HF a Ha. apply H. intros HFa. by apply (HF a). Qed.

(** ** What the clients share *)

Section clients.
Context `{FA : !FrameAllocator alloc free}.

(** Frame [p] is allocated, lies in the direct map, and is not the
    allocator's own. *)
Record held (s : mm) (p : Z) : Prop := {
  held_range : 0 < p < 4096;
  held_managed : managed s p = true;
  held_taken : avail s p = false;
  held_priv a : priv s a -> a / 4096 <> p;
}.

(** The allocator's view of two states agrees. *)
Definition fa_same (s s' : mm) : Prop :=
  (forall q, avail s' q = avail s q) /\ (forall q, managed s' q = managed s q) /\
  (forall a, priv s' a <-> priv s a).

Lemma held_fa_same s s' q : fa_same s s' -> held s q -> held s' q.
Proof.
  intros (Ha & Hm & Hp) [Hr Hg Ht Hq]. split; [done|by rewrite Hm|by rewrite Ha|].
  intros a. rewrite Hp. apply Hq.
Qed.

Lemma fa_same_trans s1 s2 s3 : fa_same s1 s2 -> fa_same s2 s3 -> fa_same s1 s3.
Proof.
  intros (A1 & M1 & P1) (A2 & M2 & P2). split; [|split].
  - intros q. by rewrite A2.
  - intros q. by rewrite M2.
  - intros a. by rewrite P2.
Qed.

(** Writing to held frames is invisible to the allocator. *)
Lemma held_writes s m' (F : Z -> Prop) :
  fa_inv s -> (forall a, F a -> held s (a / 4096)) -> only_changes F (mem s) m' ->
  fa_inv (set_mem m' s) /\ fa_same s (set_mem m' s).
Proof.
  intros Hfa HF Hm. apply (fa_frame s (set_mem m' s)); [done|done|].
  intros a Ha. apply Hm. intros HFa. by apply (held_priv s _ (HF a HFa) a).
Qed.

Lemma held_write s m' p :
  fa_inv s -> held s p -> only_changes (fun a => a / 4096 = p) (mem s) m' ->
  fa_inv (set_mem m' s) /\ fa_same s (set_mem m' s) /\
  (forall q, held s q -> held (set_mem m' s) q).
Proof.
  intros Hfa Hp Hm. destruct (held_writes s m' (fun a => a / 4096 = p)) as [? ?]; [done|by intros a ->|done|].
  do 2 (split; [done|]). intros q. by apply held_fa_same.
Qed.

(** Frame [p] is taken between [s] and [s']. *)
Record frame_taken (s : mm) (p : Z) (s' : mm) : Prop := {
  ft_avail : avail s p = true;
  ft_range : 0 < p < 1048576;
  ft_lowest q : q < p -> avail s q = false;
  ft_rest q : avail s' q = avail s q && negb (q =? p);
  ft_managed q : managed s' q = managed s q;
  ft_priv a : priv s' a <-> priv s a;
  ft_inv : fa_inv s';
  ft_low : p < 4096 -> held s' p;
  ft_held q : held s q -> held s' q;
  ft_other q : held s q -> same_frame (mem s) (mem s') q;
  ft_touch : touches_only (priv s) s s';
}.

Lemma alloc_taken s :
  fa_inv s ->
  (alloc s = (0, s) /\ forall p, avail s p = false) \/
  exists p s', alloc s = (p * 4096, s') /\ frame_taken s p s'.
Proof.
  intros Hfa. destruct (alloc_spec s Hfa) as
    [?|(p & s' & Ha & Hav & Hlow & Hq & Hm & Hpr & Hfa' & Ht)]; [by left|right].
  destruct (avail_managed s p Hfa Hav) as [Hmp Hp]. exists p, s'. split; [done|]. split; try done.
  - intros Hlt. split; [lia|by rewrite Hm|by rewrite Hq, Z.eqb_refl, andb_false_r|].
    intros a Hap <-. apply Hpr in Hap. pose proof (priv_unavail s a Hfa Hap). congruence.
  - intros q [Hr Hmq Htk Hpq]. split; [done|by rewrite Hm|by rewrite Hq, Htk|].
    intros a. rewrite Hpr. apply Hpq.
  - intros q [_ _ _ Hpq]. by apply (only_changes_frame _ _ _ _ (proj2 Ht)).
Qed.

(** Taking a frame and giving it back restores the allocator. *)
Lemma alloc_free s p s' :
  fa_inv s -> alloc s = (p * 4096, s') -> p <> 0 ->
  fa_inv (free (p * 4096) s') /\ fa_same s (free (p * 4096) s') /\
  touches_only (priv s) s (free (p * 4096) s').
Proof.
  intros Hfa Ha Hp0. destruct (alloc_spec s Hfa) as
    [[E _]|(p' & s1 & E & Hav & _ & Hq & Hm & Hpr & Hfa' & Hst & Hoc)];
    rewrite Ha in E; injection E as E ?; [lia|]. assert (p' = p) as -> by lia. subst s1.
  destruct (avail_managed s p Hfa Hav) as [Hmp Hp].
  destruct (free_spec s' p Hfa') with (s' := free (p * 4096) s') as (Hq' & Hm' & Hpr' & ? & Hst' & Hoc');
    [lia|by rewrite Hm|by rewrite Hq, Z.eqb_refl, andb_false_r| |done|].
  { intros a Hap <-. apply Hpr in Hap. pose proof (priv_unavail s a Hfa Hap). congruence. }
  split; [done|]. split; [split; [|split]|split].
  - intros q. rewrite Hq', Hq. destruct (Z.eqb_spec q p) as [->|]; simpl; [by rewrite Hav, orb_true_r|].
    by rewrite andb_true_r, orb_false_r.
  - intros q. by rewrite Hm'.
  - intros a. by rewrite Hpr'.
  - rewrite Hst', Hst. reflexivity.
  - intros a Hna. rewrite Hoc', Hoc; [done|done|by rewrite Hpr].
Qed.
(** Between [s] and [s'] a client took the frames of [P] and gave none back. *)
Definition takes (P : gset Z) (s s' : mm) : Prop :=
  (forall p, p ∈ P -> avail s p = true /\ 0 < p < 4096) /\
  (forall q, avail s' q = avail s q && negb (bool_decide (q ∈ P))) /\
  (forall q, managed s' q = managed s q) /\ (forall a, priv s' a <-> priv s a).

Lemma fa_same_takes s s' : fa_same s s' -> takes ∅ s s'.
Proof. intros (A & M & P). split; [set_solver|]. split; [|done]. intros q. by rewrite A, andb_true_r. Qed.

Lemma takes_trans P Q s1 s2 s3 : takes P s1 s2 -> takes Q s2 s3 -> takes (P ∪ Q) s1 s3.
Proof.
  intros (T1 & A1 & M1 & P1) (T2 & A2 & M2 & P2). split; [|split; [|split]].
  - intros p [Hp|Hp]%elem_of_union; [auto|]. destruct (T2 p Hp) as [Ha ?]. rewrite A1 in Ha. bool_simpl. done.
  - intros q. rewrite A2, A1. rewrite <- andb_assoc. f_equal. rewrite (bool_decide_ext (q ∈ P ∪ Q) (q ∈ P \/ q ∈ Q)) by set_solver.
    by do 2 case_bool_decide; case_bool_decide; naive_solver.
  - intros q. by rewrite M2.
  - intros a. by rewrite P2.
Qed.

Lemma takes_held P s s' q : takes P s s' -> held s' q <-> (held s q \/ q ∈ P /\ held s' q).
Proof.
  intros (T & A & M & Pr). split.
  - intros [Hr Hm Ht Hp]. destruct (decide (q ∈ P)); [right; by split|left].
    rewrite A, bool_decide_eq_false_2, andb_true_r in Ht by done.
    split; [done|by rewrite <- M|done|]. intros a. rewrite <- Pr. apply Hp.
  - intros [[Hr Hm Ht Hp]|[_ ?]]; [|done]. split; [done|by rewrite M|by rewrite A, Ht|].
    intros a. rewrite Pr. apply Hp.
Qed.
End clients.
