(* ===== verification/Pmm.v ===== *)
(** * The physical page allocator (src/kernel/mm/pmm.c) *)

From S2P Require Import Prelude Memory Tty Printk Machine FrameAlloc.

Abbreviation PMM_PAGE_SHIFT := 12.
Abbreviation PMM_PAGE_SIZE := 4096.

(** ** Bitmap *)

Definition bitmap_byte (s : mm) (page : Z) : Z := pmm_bitmap (pm s) + page / 8.

Definition bitmap_set (page : Z) (s : mm) : mm :=
  let p := bitmap_byte s page in
  set_mem (wr8 (mem s) p (Z.lor (rd8 (mem s) p) (Z.shiftl 1 (page mod 8)))) s.

Definition bitmap_clear (page : Z) (s : mm) : mm :=
  let p := bitmap_byte s page in
  set_mem (wr8 (mem s) p
    (Z.land (rd8 (mem s) p) (u32 (Z.lnot (Z.shiftl 1 (page mod 8)))))) s.

Definition bitmap_test (page : Z) (s : mm) : Z :=
  u8 (Z.land (rd8 (mem s) (bitmap_byte s page)) (Z.shiftl 1 (page mod 8))).

Definition align_up (addr size : Z) : Z :=
  Z.land (u32 (addr + size - 1)) (u32 (Z.lnot (size - 1))).

(** [if (pmm_free_pages > 0) pmm_free_pages--;] and [pmm_free_pages++;] *)
Definition set_free_pages (n : Z) (s : mm) : mm :=
  let p := pm s in
  set_pm (mkPmm (pmm_bitmap p) (pmm_bitmap_bytes p) (pmm_max_page p)
    (pmm_total_pages p) n) s.
Definition dec_free_pages (s : mm) : mm :=
  if 0 <? pmm_free_pages (pm s) then set_free_pages (pmm_free_pages (pm s) - 1) s else s.
Definition inc_free_pages (s : mm) : mm :=
  set_free_pages (pmm_free_pages (pm s) +u 1) s.

Definition reserve_page (page : Z) (s : mm) : mm :=
  if pmm_max_page (pm s) <=? page then s
  else if bitmap_test page s =? 0 then dec_free_pages (bitmap_set page s)
  else s.

Definition reserve_segment (start_addr end_addr : Z) (s : mm) : mm :=
  let start_page := Z.shiftr start_addr PMM_PAGE_SHIFT in
  let end_page := Z.shiftr (u32 (end_addr + PMM_PAGE_SIZE - 1)) PMM_PAGE_SHIFT in
  for_range start_page end_page reserve_page s.

(** ** Allocation *)

Definition pmm_alloc_page (s : mm) : Z * mm :=
  match find_range 1 (pmm_max_page (pm s)) (fun i => bitmap_test i s =? 0) with
  | Some i => (u32 (Z.shiftl i PMM_PAGE_SHIFT), dec_free_pages (bitmap_set i s))
  | None => (0, s)
  end.

Definition pmm_free_page (addr : Z) (s : mm) : mm :=
  let page := Z.shiftr addr PMM_PAGE_SHIFT in
  if negb (page =? 0) && (page <? pmm_max_page (pm s)) && negb (bitmap_test page s =? 0)
  then inc_free_pages (bitmap_clear page s)
  else s.

Definition pmm_get_total_pages (s : mm) : Z := pmm_total_pages (pm s).
Definition pmm_get_free_pages (s : mm) : Z := pmm_free_pages (pm s).

(** ** Bits *)

(** The bit of [page] in the bitmap. *)
Definition page_bit (s : mm) (page : Z) : bool :=
  Z.testbit (rd8 (mem s) (bitmap_byte s page)) (page mod 8).

Lemma land_bit_zero x k :
  0 <= k -> (Z.land x (Z.shiftl 1 k) =? 0) = negb (Z.testbit x k).
Proof.
  intros Hk. rewrite Z.shiftl_1_l. destruct (Z.testbit x k) eqn:E; simpl.
  - apply Z.eqb_neq. intros H0.
    assert (Z.testbit (Z.land x (2 ^ k)) k = true) as H
      by (rewrite Z.land_spec, E, Z.pow2_bits_true by lia; done).
    rewrite H0, Z.bits_0 in H. done.
  - apply Z.eqb_eq, Z.bits_inj'. intros i Hi. rewrite Z.land_spec, Z.bits_0.
    destruct (decide (i = k)) as [->|]; [by rewrite E|].
    rewrite Z.pow2_bits_false by done. apply andb_false_r.
Qed.

Lemma page_mod8 p : 0 <= p mod 8 < 8.
Proof. apply Z.mod_pos_bound. lia. Qed.

Lemma bitmap_test_bit s p : (bitmap_test p s =? 0) = negb (page_bit s p).
Proof.
  unfold bitmap_test, page_bit. set (x := rd8 _ _). pose proof (page_mod8 p).
  rewrite wrap_small; [by apply land_bit_zero; lia|].
  pose proof (load8_range (mem s) (phys (bitmap_byte s p))) as Hx. fold (rd8 (mem s) (bitmap_byte s p)) in Hx.
  fold x in Hx. split; [apply Z.land_nonneg; lia|].
  rewrite <- (Z.mod_small x (2 ^ 8)) by lia. rewrite <- Z.land_ones by lia.
  rewrite (Z.land_comm x), <- Z.land_assoc, Z.land_comm, Z.land_ones by lia.
  apply Z.mod_pos_bound. lia.
Qed.

Lemma testbit_u8 x j : 0 <= j < 8 -> Z.testbit (u8 x) j = Z.testbit x j.
Proof. intros. unfold wrap. by rewrite Z.mod_pow2_bits_low by lia. Qed.

Lemma testbit_one k j : 0 <= k -> 0 <= j -> Z.testbit (Z.shiftl 1 k) j = (j =? k).
Proof. intros. by rewrite Z.shiftl_1_l, Z.pow2_bits_eqb, Z.eqb_sym by lia. Qed.

Lemma page_bit_set s p q :
  0 <= p -> 0 <= q -> page_bit (bitmap_set p s) q = (q =? p) || page_bit s q.
Proof.
  intros Hp Hq. unfold page_bit, bitmap_set, bitmap_byte. simpl.
  unfold rd8, wr8. rewrite load8_store8. pose proof (page_mod8 p). pose proof (page_mod8 q).
  case_decide as Hd; unfold phys in Hd.
  - assert (E : p / 8 = q / 8) by lia. rewrite testbit_u8, Z.lor_spec, testbit_one by lia.
    rewrite E, orb_comm. f_equal. apply eq_bool_prop_intro. rewrite !Is_true_true, !Z.eqb_eq.
    Z.div_mod_to_equations. lia.
  - destruct (Z.eqb_spec q p) as [->|]; [by destruct Hd|done].
Qed.

Lemma page_bit_clear s p q :
  0 <= p -> 0 <= q -> page_bit (bitmap_clear p s) q = negb (q =? p) && page_bit s q.
Proof.
  intros Hp Hq. unfold page_bit, bitmap_clear, bitmap_byte. simpl.
  unfold rd8, wr8. rewrite load8_store8. pose proof (page_mod8 p). pose proof (page_mod8 q).
  case_decide as Hd; unfold phys in Hd.
  - assert (E : p / 8 = q / 8) by lia. rewrite testbit_u8, Z.land_spec by lia.
    unfold wrap at 1. rewrite Z.mod_pow2_bits_low by lia.
    rewrite Z.lnot_spec, testbit_one, E, andb_comm by lia. do 2 f_equal.
    apply eq_bool_prop_intro. rewrite !Is_true_true, !Z.eqb_eq. Z.div_mod_to_equations. lia.
  - destruct (Z.eqb_spec q p) as [->|]; [by destruct Hd|done].
Qed.

(** ** The allocator's invariant *)

(** Page [p] can be handed out. *)
Definition page_free (s : mm) (p : Z) : bool :=
  (0 <=? p) && (p <? pmm_max_page (pm s)) && negb (page_bit s p).

(** The bytes of the bitmap. *)
Definition in_bitmap (s : mm) (a : Z) : Prop :=
  phys (pmm_bitmap (pm s)) <= a < phys (pmm_bitmap (pm s)) + pmm_bitmap_bytes (pm s).

(** [pmm_max_page] is at most 2^20 (the pages of a 32-bit address space); the
    bitmap lies in the direct map; the counter counts the clear bits; page 0
    and the pages of the bitmap itself are never free. *)
Record bitmap_ok (s : mm) : Prop := {
  ok_max : 0 <= pmm_max_page (pm s) <= 1048576;
  ok_bytes : pmm_bitmap_bytes (pm s) = (pmm_max_page (pm s) + 7) / 8;
  ok_base : 0 <= phys (pmm_bitmap (pm s)) /\
    phys (pmm_bitmap (pm s)) + pmm_bitmap_bytes (pm s) <= VMM_DIRECT_MAP_LIMIT;
  ok_free : pmm_free_pages (pm s) = count_range (page_free s) 0 (pmm_max_page (pm s));
}.

Record pmm_inv (s : mm) : Prop := {
  inv_ok : bitmap_ok s;
  inv_page0 : page_free s 0 = false;
  inv_self : forall a, in_bitmap s a -> page_free s (a / 4096) = false;
}.

Lemma page_free_true s p :
  page_free s p = true <-> 0 <= p < pmm_max_page (pm s) /\ page_bit s p = false.
Proof. unfold page_free. rewrite !andb_true_iff, negb_true_iff, Z.leb_le, Z.ltb_lt. naive_solver. Qed.

(** The bit of a managed page is inside the bitmap. *)
Lemma bitmap_byte_in' s p :
  pmm_bitmap_bytes (pm s) = (pmm_max_page (pm s) + 7) / 8 ->
  0 <= p < pmm_max_page (pm s) -> in_bitmap s (phys (bitmap_byte s p)).
Proof.
  intros Hb Hp. unfold in_bitmap, bitmap_byte, phys. rewrite Hb.
  Z.div_mod_to_equations. lia.
Qed.

Lemma bitmap_byte_in s p :
  bitmap_ok s -> 0 <= p < pmm_max_page (pm s) -> in_bitmap s (phys (bitmap_byte s p)).
Proof. intros [Hm Hb _ _]. by apply bitmap_byte_in'. Qed.

Lemma dec_free_frame s : mem (dec_free_pages s) = mem s /\
  pmm_bitmap (pm (dec_free_pages s)) = pmm_bitmap (pm s) /\
  pmm_bitmap_bytes (pm (dec_free_pages s)) = pmm_bitmap_bytes (pm s) /\
  pmm_max_page (pm (dec_free_pages s)) = pmm_max_page (pm s).
Proof. unfold dec_free_pages. by case_if. Qed.

(** States with the same bitmap description and the same bitmap bytes. *)
Definition same_bitmap (s s' : mm) : Prop :=
  pmm_bitmap (pm s') = pmm_bitmap (pm s) /\
  pmm_bitmap_bytes (pm s') = pmm_bitmap_bytes (pm s) /\
  pmm_max_page (pm s') = pmm_max_page (pm s).

Lemma page_bit_ext s s' p :
  pmm_bitmap (pm s') = pmm_bitmap (pm s) ->
  load8 (mem s') (phys (bitmap_byte s p)) = load8 (mem s) (phys (bitmap_byte s p)) ->
  page_bit s' p = page_bit s p.
Proof.
  intros Hb Hm. unfold page_bit, rd8, bitmap_byte in *. rewrite Hb. by rewrite Hm.
Qed.

Lemma page_free_ext s s' :
  bitmap_ok s -> same_bitmap s s' ->
  (forall a, in_bitmap s a -> load8 (mem s') a = load8 (mem s) a) ->
  forall p, page_free s' p = page_free s p.
Proof.
  intros Hok (Hb & _ & Hm) Hmem p. unfold page_free. rewrite Hm.
  destruct (Z.leb_spec 0 p), (Z.ltb_spec p (pmm_max_page (pm s))); simpl; try done.
  f_equal. apply page_bit_ext; [done|]. by apply Hmem, bitmap_byte_in.
Qed.

(** Setting, respectively clearing, one bit. *)
Lemma page_free_set s p :
  0 <= p -> forall q, page_free (bitmap_set p s) q = page_free s q && negb (q =? p).
Proof.
  intros Hp q. unfold page_free. simpl.
  destruct (Z.leb_spec 0 q), (Z.ltb_spec q (pmm_max_page (pm s))); simpl; try done.
  rewrite page_bit_set by lia. by destruct (q =? p), (page_bit s q).
Qed.

Lemma page_free_clear s p :
  0 <= p < pmm_max_page (pm s) ->
  forall q, page_free (bitmap_clear p s) q = page_free s q || (q =? p).
Proof.
  intros Hp q. unfold page_free. simpl.
  destruct (Z.leb_spec 0 q), (Z.ltb_spec q (pmm_max_page (pm s))); simpl;
    try (symmetry; apply Z.eqb_neq; lia).
  rewrite page_bit_clear by lia. by destruct (q =? p), (page_bit s q).
Qed.

Lemma page_free_set_free s n p : page_free (set_free_pages n s) p = page_free s p.
Proof. done. Qed.

Lemma only_changes_bitmap_set s p :
  bitmap_ok s -> 0 <= p < pmm_max_page (pm s) ->
  only_changes (in_bitmap s) (mem s) (mem (bitmap_set p s)).
Proof. intros. apply only_changes_store8. by apply bitmap_byte_in. Qed.

Lemma only_changes_bitmap_clear s p :
  bitmap_ok s -> 0 <= p < pmm_max_page (pm s) ->
  only_changes (in_bitmap s) (mem s) (mem (bitmap_clear p s)).
Proof. intros. apply only_changes_store8. by apply bitmap_byte_in. Qed.

(** ** Taking and returning a page *)

(** Both [pmm_alloc_page] and [reserve_page] take a free page this way. *)
Definition take_page (p : Z) (s : mm) : mm := dec_free_pages (bitmap_set p s).

Lemma take_page_eq s p : bitmap_ok s -> page_free s p = true ->
  take_page p s = set_free_pages (pmm_free_pages (pm s) - 1) (bitmap_set p s).
Proof.
  intros Hok Hp. unfold take_page, dec_free_pages. case_if; [done|].
  simpl in Hif. pose proof Hp as Hp'. apply page_free_true in Hp' as [Hr _].
  pose proof (count_range_pos (page_free s) 0 (pmm_max_page (pm s)) p Hr Hp).
  rewrite (ok_free s Hok) in Hif. lia.
Qed.

Lemma take_page_free s p : bitmap_ok s -> page_free s p = true ->
  forall q, page_free (take_page p s) q = page_free s q && negb (q =? p).
Proof.
  intros Hok Hp q. rewrite take_page_eq, page_free_set_free by done.
  apply page_free_true in Hp as [? _]. apply page_free_set. lia.
Qed.

Lemma take_page_ok s p : bitmap_ok s -> page_free s p = true -> bitmap_ok (take_page p s).
Proof.
  intros Hok Hp. pose proof (take_page_free s p Hok Hp) as Hf.
  pose proof Hp as Hp'. apply page_free_true in Hp' as [Hr _].
  rewrite (take_page_eq s p Hok Hp) in *. destruct Hok as [Hm Hb Hba Hc].
  split; [done..|].
  - enough (count_range (page_free s) 0 (pmm_max_page (pm s)) = count_range (page_free
      (set_free_pages (pmm_free_pages (pm s) - 1) (bitmap_set p s))) 0 (pmm_max_page (pm s)) + 1)
      as Hcnt by (simpl in *; lia).
    apply (count_range_flip _ _ _ _ p); [done| |done|].
    + by rewrite Hf, Z.eqb_refl, andb_false_r.
    + intros i Hi Hne. rewrite Hf. apply Z.eqb_neq in Hne. by rewrite Hne, andb_true_r.
Qed.

Lemma take_page_inv s p : pmm_inv s -> page_free s p = true -> pmm_inv (take_page p s).
Proof.
  intros [Hok H0 Hself] Hp. pose proof (take_page_free s p Hok Hp) as Hf.
  split; [by apply take_page_ok|by rewrite Hf, H0|].
  intros a. unfold in_bitmap. destruct (dec_free_frame (bitmap_set p s)) as (_ & Hb & Hby & _).
  unfold take_page at 1 2 3. rewrite Hb, Hby. intros Ha. by rewrite Hf, (Hself a Ha).
Qed.

(** What [pmm_free_page] does to a page that is out. *)
Definition give_page (p : Z) (s : mm) : mm := inc_free_pages (bitmap_clear p s).

Lemma give_page_eq s p : bitmap_ok s -> 0 <= p < pmm_max_page (pm s) -> page_free s p = false ->
  give_page p s = set_free_pages (pmm_free_pages (pm s) + 1) (bitmap_clear p s).
Proof.
  intros Hok Hp Hf. unfold give_page, inc_free_pages. f_equal. simpl. apply wrap_small.
  rewrite (ok_free s Hok). pose proof (ok_max s Hok).
  pose proof (count_range_bounds (page_free s) 0 (pmm_max_page (pm s))). lia.
Qed.

Lemma give_page_ok s p :
  bitmap_ok s -> 0 <= p < pmm_max_page (pm s) -> page_free s p = false ->
  bitmap_ok (give_page p s) /\ forall q, page_free (give_page p s) q = page_free s q || (q =? p).
Proof.
  intros Hok Hp Hpf. rewrite give_page_eq by (done || lia).
  assert (Hf : forall q, page_free (set_free_pages (pmm_free_pages (pm s) + 1) (bitmap_clear p s)) q
    = page_free s q || (q =? p)) by (intros q; rewrite page_free_set_free; apply page_free_clear; lia).
  split; [|done]. destruct Hok as [Hm Hb Hba Hc]. split; [done..|].
  enough (count_range (page_free (set_free_pages (pmm_free_pages (pm s) + 1) (bitmap_clear p s)))
    0 (pmm_max_page (pm s)) = count_range (page_free s) 0 (pmm_max_page (pm s)) + 1)
    as Hcnt by (simpl in *; lia).
  apply (count_range_flip _ _ _ _ p); [lia|done| |].
  - by rewrite Hf, Z.eqb_refl, orb_true_r.
  - intros i Hi Hne. rewrite Hf. apply Z.eqb_neq in Hne. by rewrite Hne, orb_false_r.
Qed.

Lemma give_page_inv s p :
  pmm_inv s -> 0 < p < pmm_max_page (pm s) -> page_free s p = false ->
  (forall a, in_bitmap s a -> a / 4096 <> p) ->
  pmm_inv (give_page p s) /\ forall q, page_free (give_page p s) q = page_free s q || (q =? p).
Proof.
  intros [Hok H0 Hself] Hp Hpf Hself'.
  destruct (give_page_ok s p Hok) as [Hok' Hf]; [lia|done|]. split; [|done]. split; [done|..].
  - rewrite Hf, H0. apply Z.eqb_neq. lia.
  - intros a Ha. rewrite Hf, (Hself a Ha). by apply Z.eqb_neq, Hself'.
Qed.

(** ** pmm_alloc_page and pmm_free_page *)

Lemma alloc_page_cases s :
  pmm_inv s ->
  (pmm_alloc_page s = (0, s) /\ forall p, page_free s p = false) \/
  (exists p, pmm_alloc_page s = (p * 4096, take_page p s) /\ page_free s p = true /\
    0 < p < 1048576 /\ forall q, q < p -> page_free s q = false).
Proof.
  intros Hinv. pose proof (ok_max s (inv_ok s Hinv)). pose proof (inv_page0 s Hinv) as H0.
  unfold pmm_alloc_page. destruct (find_range _ _ _) as [i|] eqn:E.
  - right. apply find_range_Some in E as (Hi & Hb & Hl).
    rewrite bitmap_test_bit, negb_true_iff in Hb. exists i.
    rewrite shiftl_12, wrap_small by lia. split; [done|]. split; [by apply page_free_true; split; [lia|]|].
    split; [lia|]. intros q Hq. unfold page_free. destruct (Z.leb_spec 0 q); [|done].
    destruct (decide (q = 0)) as [->|]; [done|].
    specialize (Hl q ltac:(lia)). rewrite bitmap_test_bit, negb_false_iff in Hl. rewrite Hl.
    apply andb_false_r.
  - left. split; [done|]. intros p. rewrite find_range_None in E.
    destruct (page_free s p) eqn:Hf; [|done]. pose proof Hf as Hf'.
    apply page_free_true in Hf' as [Hp Hb]. destruct (decide (p = 0)) as [->|]; [congruence|].
    specialize (E p ltac:(lia)). rewrite bitmap_test_bit, Hb in E. done.
Qed.

Lemma free_page_cases s p :
  pmm_free_page (p * 4096) s =
  if negb (p =? 0) && (p <? pmm_max_page (pm s)) && page_bit s p then give_page p s else s.
Proof.
  unfold pmm_free_page. rewrite shiftr_12, Z.div_mul by lia.
  by rewrite bitmap_test_bit, negb_involutive.
Qed.

(** Taking and giving pages touch the bitmap and the counter, nothing else. *)
Lemma touches_take s p : bitmap_ok s -> 0 <= p < pmm_max_page (pm s) ->
  touches_only (in_bitmap s) s (take_page p s).
Proof.
  intros Hinv Hp. split; [by unfold take_page, dec_free_pages; case_if|].
  unfold take_page. rewrite (proj1 (dec_free_frame _)). by apply only_changes_bitmap_set.
Qed.

Lemma touches_give s p : bitmap_ok s -> 0 <= p < pmm_max_page (pm s) ->
  touches_only (in_bitmap s) s (give_page p s).
Proof. intros Hinv Hp. split; [done|]. by apply only_changes_bitmap_clear. Qed.

(** The bitmap allocator implements the contract of FrameAlloc.v. *)
#[export] Program Instance pmm_frame_allocator : FrameAllocator pmm_alloc_page pmm_free_page := {
  fa_inv := pmm_inv;
  avail := page_free;
  managed := fun s p => (0 <? p) && (p <? pmm_max_page (pm s));
  priv := in_bitmap;
}.
Next Obligation. intros s a Hinv. apply inv_self, Hinv. Qed.
Next Obligation.
  intros s p Hinv Hf. pose proof (inv_page0 s Hinv). pose proof (ok_max s (inv_ok s Hinv)).
  pose proof Hf as Hf'. apply page_free_true in Hf' as [? _].
  assert (p <> 0) by congruence. rewrite andb_true_iff, !Z.ltb_lt. lia.
Qed.
Next Obligation.
  intros s Hinv. destruct (alloc_page_cases s Hinv) as [?|(p & Ha & Hf & Hp & Hlow)]; [by left|right].
  pose proof Hf as Hf'. apply page_free_true in Hf' as [Hr _].
  exists p, (take_page p s). split; [done|]. split; [done|]. split; [done|]. split; [apply take_page_free; [apply Hinv|done]|].
  destruct (dec_free_frame (bitmap_set p s)) as (_ & Hb & Hby & Hmx).
  split; [intros q; unfold take_page; by rewrite Hmx|].
  split; [intros a; unfold in_bitmap, take_page; by rewrite Hb, Hby|].
  split; [by apply take_page_inv|]. apply touches_take; [apply Hinv|done].
Qed.
Next Obligation.
  intros s p Hinv Hp Hm Hf Hpriv s' <-. apply andb_true_iff in Hm as [_ Hm%Z.ltb_lt].
  rewrite free_page_cases. rewrite (proj2 (Z.eqb_neq p 0)), (proj2 (Z.ltb_lt _ _) Hm) by lia.
  unfold page_free in Hf. rewrite (proj2 (Z.leb_le 0 p)), (proj2 (Z.ltb_lt _ _) Hm) in Hf by lia.
  simpl in Hf. apply negb_false_iff in Hf as Hbit. rewrite Hbit. simpl.
  destruct (give_page_inv s p) as [Hi Hq]; [done|lia| |done|].
  { unfold page_free. by rewrite Hbit, andb_false_r. }
  split; [done|]. split; [done|]. split; [done|]. split; [done|]. apply touches_give; [apply Hinv|lia].
Qed.
Next Obligation.
  intros s s' Hinv Hpm Hmem. unfold in_bitmap in *.
  assert (Hf : forall q, page_free s' q = page_free s q).
  { apply page_free_ext; [apply Hinv| |done]. unfold same_bitmap. by rewrite Hpm. }
  rewrite Hpm. split; [|by split]. destruct Hinv as [[Hm Hb Hba Hc] H0 Hself].
  split; [split|..]; rewrite ?Hpm; try done.
  - rewrite Hc. symmetry. apply count_range_ext. intros. apply Hf.
  - by rewrite Hf.
  - intros a. unfold in_bitmap. rewrite Hpm. intros Ha. rewrite Hf. by apply Hself.
Qed.
