(* ===== verification/PmmInit.v ===== *)
(** * Reading the multiboot memory map and building the bitmap
      (src/kernel/mm/pmm.c, [pmm_init] and its helpers; boot.h)

    The multiboot structures are read from memory where the boot loader put
    them, field by field at the offsets of boot.h.  The linker symbols
    [__kernel_physical_start] and [__kernel_physical_end] are the parameters
    [kstart] and [kend].  Every walk over the memory map is bounded by
    [mmap_fuel], one more than the number of bytes of the map, and the inner
    search of [find_segment] by five iterations; [Diverge] is the result of a
    walk that does not end within its bound. *)

From S2P Require Import Prelude Memory Tty Printk Machine FrameAlloc Pmm.

Abbreviation MULTIBOOT_FLAG_MMAP := 64.
Abbreviation SIZEOF_MBI := 52.

(** ** multiboot_info and multiboot_mmap_entry *)

Definition mbi_flags (m : memory) (mbi : Z) : Z := rd32 m mbi.
Definition mbi_mods_count (m : memory) (mbi : Z) : Z := rd32 m (mbi + 20).
Definition mbi_mods_addr (m : memory) (mbi : Z) : Z := rd32 m (mbi + 24).
Definition mbi_mmap_length (m : memory) (mbi : Z) : Z := rd32 m (mbi + 44).
Definition mbi_mmap_addr (m : memory) (mbi : Z) : Z := rd32 m (mbi + 48).

Record mmap_entry := mkEntry {
  e_size : Z;
  e_addr : Z;     (** 64 bits *)
  e_len : Z;      (** 64 bits *)
  e_type : Z;
}.

Definition read_entry (m : memory) (ptr : Z) : mmap_entry :=
  mkEntry (rd32 m ptr) (load64 m (phys (ptr + 4))) (load64 m (phys (ptr + 12)))
    (rd32 m (ptr + 20)).

(** The loop all the helpers share:
    [while (ptr < end) { body; ptr += entry->size + sizeof(entry->size); }].
    The body may return from the function ([inr]). *)
Fixpoint mmap_loop {A R : Type} (fuel : nat)
    (body : mmap_entry -> A -> mm -> outcome ((A + R) * mm))
    (ptr pend : Z) (a : A) (s : mm) : outcome ((A + R) * mm) :=
  match fuel with
  | O => Diverge
  | S fuel =>
    if ptr <? pend then
      let* (r, s) := body (read_entry (mem s) ptr) a s in
      match r with
      | inr _ => Done (r, s)
      | inl a => mmap_loop fuel body (ptr +u (rd32 (mem s) ptr +u 4)) pend a s
      end
    else Done (inl a, s)
  end.

Definition mmap_fuel (mbi : Z) (s : mm) : nat :=
  S (Z.to_nat (mbi_mmap_length (mem s) mbi)).

(** The walk from [mbi->mmap_addr], for [mbi->mmap_length] bytes. *)
Definition mmap_walk {A R : Type} (mbi : Z)
    (body : mmap_entry -> A -> mm -> outcome ((A + R) * mm)) (a : A) (s : mm)
    : outcome ((A + R) * mm) :=
  let ptr := vmm_phys_to_virt (mbi_mmap_addr (mem s) mbi) in
  mmap_loop (mmap_fuel mbi s) body ptr (ptr +u mbi_mmap_length (mem s) mbi) a s.

(** ** The helpers of pmm_init *)

Definition check_mmap (mbi : Z) (s : mm) : outcome mm :=
  if Z.land (mbi_flags (mem s) mbi) MULTIBOOT_FLAG_MMAP =? 0
  then panic (ln "multiboot: mmap not present") s
  else if vmm_phys_to_virt (mbi_mmap_addr (mem s) mbi) =? NULL
  then panic (ln "multiboot: mmap is outside direct map") s
  else
    let* (_, s) := mmap_walk (R := unit) mbi (fun entry a s =>
      if e_size entry <? 20 then panic (ln "multiboot: mmap entry size too small") s
      else Done (inl a, kprint (ln "pmm: entry addr=%x%x len=%x%x type=%u")
        [VInt (Z.shiftr (e_addr entry) 32); VInt (e_addr entry);
         VInt (Z.shiftr (e_len entry) 32); VInt (e_len entry);
         VInt (e_type entry)] s)) tt s in
    Done s.

Definition clear_region (entry : mmap_entry) (usable_pages : Z) (s : mm) : Z * mm :=
  if e_type entry =? 1 then
    let start_page := u32 (Z.shiftr (e_addr entry) PMM_PAGE_SHIFT) in
    let region_pages := u32 (Z.shiftr (e_len entry) PMM_PAGE_SHIFT) in
    let end_page := start_page +u region_pages in
    if pmm_max_page (pm s) <=? start_page then (usable_pages, s)
    else
      let end_page :=
        if (pmm_max_page (pm s) <? end_page) || (end_page <? start_page)
        then pmm_max_page (pm s) else end_page in
      let s := for_range start_page end_page bitmap_clear s in
      (usable_pages +u (end_page - start_page), s)
  else (usable_pages, s).

Definition clear_usable_pages (mbi : Z) (s : mm) : outcome (Z * mm) :=
  let* (r, s) := mmap_walk (R := Empty_set) mbi (fun entry n s =>
    let '(n, s) := clear_region entry n s in Done (inl n, s)) 0 s in
  match r with inl n => Done (n, s) | inr e => match e with end end.

Definition max_page_step (entry : mmap_entry) (max_page : Z) : Z :=
  if e_type entry =? 1 then
    let entry_max_page := Z.shiftr (u64 (e_addr entry + e_len entry)) PMM_PAGE_SHIFT in
    if max_page <? entry_max_page then entry_max_page else max_page
  else max_page.

Definition find_max_page (mbi : Z) (s : mm) : outcome Z :=
  let* (r, _) := mmap_walk (R := Empty_set) mbi (fun entry n s =>
    Done (inl (max_page_step entry n), s)) 0 s in
  match r with inl n => Done (u32 n) | inr e => match e with end end.

Definition overlap_bytes (entry : mmap_entry) (start endb : Z) : Z :=
  if negb (e_type entry =? 1) then 0
  else
    let estart := e_addr entry in
    let eend := u64 (e_addr entry + e_len entry) in
    let max_start := if start <? estart then estart else start in
    let min_end := if eend <? endb then eend else endb in
    if min_end <=? max_start then 0 else min_end - max_start.

Definition ranges_overlap (a_start a_end b_start b_end : Z) : bool :=
  (a_start <? b_end) && (b_start <? a_end).

(** The inner loop of [find_segment]; [avoid] is the list of the three ranges
    it tests in order: the kernel, the multiboot info and the memory map. *)
Fixpoint segment_search (fuel : nat) (bytes eend : Z) (avoid : list (Z * Z))
    (start : Z) : outcome (option Z) :=
  match fuel with
  | O => Diverge
  | S fuel =>
    if (start +u bytes) <=? eend then
      match list_find (fun r => ranges_overlap start (start +u bytes) r.1 r.2 = true) avoid with
      | Some (_, (_, r_end)) =>
          segment_search fuel bytes eend avoid (align_up r_end PMM_PAGE_SIZE)
      | None => Done (Some start)
      end
    else Done None
  end.

Section kernel_image.
Context (kstart kend : Z).

(** The ranges of [find_segment], as it computes them. *)
Definition avoid_ranges (mbi : Z) (s : mm) : list (Z * Z) :=
  let mbi_start := vmm_virt_to_phys mbi in
  let mmap_start := mbi_mmap_addr (mem s) mbi in
  [(kstart, kend); (mbi_start, mbi_start +u SIZEOF_MBI);
   (mmap_start, mmap_start +u mbi_mmap_length (mem s) mbi)].

Definition segment_in (entry : mmap_entry) (bytes : Z) (avoid : list (Z * Z))
    : outcome (option Z) :=
  if negb (e_type entry =? 1) then Done None
  else
    let estart := if e_addr entry =? 0 then 1 else u32 (e_addr entry) in
    let eend := u32 (u64 (e_addr entry + e_len entry)) in
    segment_search 5 bytes eend avoid (align_up estart PMM_PAGE_SIZE).

Definition find_segment (mbi bytes : Z) (s : mm) : outcome Z :=
  let* (r, _) := mmap_walk mbi (fun entry (_ : unit) s =>
    let* found := segment_in entry bytes (avoid_ranges mbi s) in
    Done (match found with Some start => inr start | None => inl tt end, s)) tt s in
  match r with inr start => Done start | inl _ => Done 0 end.

Definition check_kernel_location (mbi : Z) (s : mm) : outcome unit :=
  let* (r, _) := mmap_walk (R := Empty_set) mbi (fun entry n s =>
    Done (inl (u64 (n + overlap_bytes entry kstart kend)), s)) 0 s in
  match r with
  | inl kernel_overlap =>
      if kernel_overlap <? kend - kstart
      then panic "pmm: kernel not fully located in usable RAM" s
      else Done tt
  | inr e => match e with end
  end.

(** [for (i = 0; i < pmm_bitmap_bytes; i++) pmm_bitmap[i] = 0xFF;] *)
Definition bitmap_fill (s : mm) : mm :=
  set_mem (for_range 0 (pmm_bitmap_bytes (pm s)) (fun i m =>
    wr8 m (pmm_bitmap (pm s) + i) 0xFF) (mem s)) s.

Definition set_max_page (max_page : Z) (s : mm) : mm :=
  let p := pm s in
  set_pm (mkPmm (pmm_bitmap p) ((max_page +u 7) / 8) max_page
    (pmm_total_pages p) (pmm_free_pages p)) s.
Definition set_bitmap (bitmap : Z) (s : mm) : mm :=
  let p := pm s in
  set_pm (mkPmm bitmap (pmm_bitmap_bytes p) (pmm_max_page p)
    (pmm_total_pages p) (pmm_free_pages p)) s.
Definition set_page_counts (n : Z) (s : mm) : mm :=
  let p := pm s in
  set_pm (mkPmm (pmm_bitmap p) (pmm_bitmap_bytes p) (pmm_max_page p) n n) s.

Definition pmm_init (mbi : Z) (s : mm) : outcome mm :=
  let* s := check_mmap mbi s in
  let* max_page := find_max_page mbi s in
  let s := set_max_page max_page s in
  let* bitmap_base := find_segment mbi (pmm_bitmap_bytes (pm s)) s in
  if bitmap_base =? 0 then panic (ln "pmm: pages bitmap does not fit in RAM") s
  else
    let* _ := check_kernel_location mbi s in
    let s := set_bitmap (vmm_phys_to_virt bitmap_base) s in
    if pmm_bitmap (pm s) =? NULL then panic "pmm: bitmap is outside direct map" s
    else
      let s := bitmap_fill s in
      let* (usable_pages, s) := clear_usable_pages mbi s in
      let s := set_page_counts usable_pages s in
      let s := reserve_segment bitmap_base (bitmap_base +u pmm_bitmap_bytes (pm s)) s in
      let s := reserve_segment kstart kend s in
      let s := reserve_page 0 s in
      Done (kprint (ln "pmm: pages total=%u free=%u")
        [VInt (pmm_get_total_pages s); VInt (pmm_get_free_pages s)] s).

End kernel_image.

(** ** A memory map in memory *)

(** The bytes from [ptr] up to [pend] hold exactly the entries [es]. *)
Fixpoint mmap_at (m : memory) (ptr pend : Z) (es : list mmap_entry) : Prop :=
  match es with
  | [] => ptr = pend
  | e :: es => read_entry m ptr = e /\ 20 <= e_size e /\ ptr + e_size e + 4 <= pend /\
      mmap_at m (ptr + e_size e + 4) pend es
  end.

Lemma rd32_ext m m' p :
  (forall a, phys p <= a < phys p + 4 -> load8 m' a = load8 m a) -> rd32 m' p = rd32 m p.
Proof. intros H. by apply load32_ext. Qed.

Lemma read_entry_ext m m' ptr :
  (forall a, phys ptr <= a < phys ptr + 24 -> load8 m' a = load8 m a) ->
  read_entry m' ptr = read_entry m ptr.
Proof.
  intros H. unfold read_entry, load64. f_equal; [| f_equal; [|f_equal] | f_equal; [|f_equal] |];
    (apply rd32_ext || apply load32_ext); unfold phys in *; intros; apply H; lia.
Qed.

Lemma mmap_at_ext m m' ptr pend es :
  (forall a, phys ptr <= a < phys pend -> load8 m' a = load8 m a) ->
  mmap_at m ptr pend es -> mmap_at m' ptr pend es.
Proof.
  revert ptr. induction es as [|e es IH]; intros ptr H; simpl; [done|].
  intros (He & Hs & Hle & Hes). unfold phys in *. split; [|split; [done|split; [done|]]].
  - rewrite <- He. apply read_entry_ext. unfold phys. intros a Ha. apply H. lia.
  - apply IH; [|done]. unfold phys. intros a Ha. apply H. lia.
Qed.

Lemma mmap_at_length m ptr pend es :
  mmap_at m ptr pend es -> 24 * Z.of_nat (length es) <= pend - ptr.
Proof.
  revert ptr. induction es as [|e es IH]; intros ptr; simpl; [lia|].
  intros (_ & ? & ? & H%IH). lia.
Qed.

Lemma read_entry_size m ptr : rd32 m ptr = e_size (read_entry m ptr).
Proof. done. Qed.

(** A walk whose body never returns early is a fold over the entries, as long
    as it leaves the memory map alone. *)
Lemma mmap_loop_fold {A R} (I : mm -> Prop) (f : mmap_entry -> A -> mm -> A * mm)
    (body : mmap_entry -> A -> mm -> outcome ((A + R) * mm)) m0 pend es :
  0 <= pend < 4294967296 ->
  (forall e a s, e ∈ es -> I s ->
    body e a s = Done (inl (f e a s).1, (f e a s).2) /\ I (f e a s).2) ->
  forall fuel ptr a s,
  0 <= ptr -> (length es < fuel)%nat -> mmap_at m0 ptr pend es ->
  (forall s b, I s -> phys ptr <= b < phys pend -> load8 (mem s) b = load8 m0 b) -> I s ->
  let r := foldl (fun r e => f e r.1 r.2) (a, s) es in
  mmap_loop fuel body ptr pend a s = Done (inl r.1, r.2) /\ I r.2.
Proof.
  intros Hpend. induction es as [|e es IH]; intros Hbody [|fuel] ptr a s Hptr Hfuel Hat Hmem HI;
    simpl in *; try lia.
  - subst. by rewrite Z.ltb_irrefl.
  - destruct Hat as (He & Hsz & Hle & Hat).
    rewrite (proj2 (Z.ltb_lt _ _)) by lia.
    destruct (Hbody e a s) as [Hb HI']; [set_solver|done|].
    assert (Hent : forall s, I s -> read_entry (mem s) ptr = e).
    { intros s' Hs'. rewrite <- He. apply read_entry_ext. intros b Hb'. apply Hmem; [done|].
      unfold phys in *. lia. }
    rewrite (Hent s HI), Hb. simpl. destruct (f e a s) as [a' s'] eqn:Hf. simpl in *.
    rewrite read_entry_size, (Hent s' HI'). rewrite !wrap_small by (rewrite ?wrap_small; lia).
    replace (ptr + (e_size e + 4)) with (ptr + e_size e + 4) by lia.
    apply (IH (fun e' a s Hin => Hbody e' a s (proj2 (elem_of_cons _ _ _) (or_intror Hin)))); try done.
    + lia.
    + lia.
    + intros s2 b Hs2 Hb2. apply Hmem; [done|]. unfold phys in *. lia.
Qed.

(** The first entry for which [h] answers, in map order. *)
Fixpoint first_some {R} (h : mmap_entry -> option R) (es : list mmap_entry) : option R :=
  match es with
  | [] => None
  | e :: es => match h e with Some r => Some r | None => first_some h es end
  end.

(** A walk that only reads, and returns at the first entry that answers. *)
Lemma mmap_loop_first {R} (h : mmap_entry -> option R) (s : mm)
    (body : mmap_entry -> unit -> mm -> outcome ((unit + R) * mm)) pend es :
  0 <= pend < 4294967296 ->
  (forall e, e ∈ es -> body e tt s =
    Done (match h e with Some r => inr r | None => inl tt end, s)) ->
  forall fuel ptr,
  0 <= ptr -> (length es < fuel)%nat -> mmap_at (mem s) ptr pend es ->
  mmap_loop fuel body ptr pend tt s =
  Done (match first_some h es with Some r => inr r | None => inl tt end, s).
Proof.
  intros Hpend. induction es as [|e es IH]; intros Hbody [|fuel] ptr Hptr Hfuel Hat; simpl in *; try lia.
  - subst. by rewrite Z.ltb_irrefl.
  - destruct Hat as (He & Hsz & Hle & Hat). rewrite (proj2 (Z.ltb_lt _ _)) by lia.
    rewrite He, Hbody by set_solver. simpl. destruct (h e); [done|].
    rewrite read_entry_size, He. rewrite !wrap_small by (rewrite ?wrap_small; lia).
    replace (ptr + (e_size e + 4)) with (ptr + e_size e + 4) by lia.
    apply IH; try done; [|lia..]. intros e' He'. apply Hbody. set_solver.
Qed.

(** ** Well-formed boot information *)

(** The multiboot info [mbi] (a kernel pointer) and the memory map [es] lie in
    the direct map, and the map flag is set. *)
Record mbi_wf (m : memory) (mbi : Z) (es : list mmap_entry) : Prop := {
  mbi_ptr : VMM_KERNEL_VIRTUAL_BASE <= mbi /\
    mbi + SIZEOF_MBI <= VMM_KERNEL_VIRTUAL_BASE + VMM_DIRECT_MAP_LIMIT;
  mbi_has_map : Z.land (mbi_flags m mbi) MULTIBOOT_FLAG_MMAP <> 0;
  mbi_map_in : mbi_mmap_addr m mbi + mbi_mmap_length m mbi <= VMM_DIRECT_MAP_LIMIT /\
    mbi_mmap_addr m mbi < VMM_DIRECT_MAP_LIMIT;
  mbi_map : let p := VMM_KERNEL_VIRTUAL_BASE + mbi_mmap_addr m mbi in
    mmap_at m p (p + mbi_mmap_length m mbi) es;
}.

(** The bytes of the multiboot info and of the memory map. *)
Definition boot_data (m : memory) (mbi : Z) (a : Z) : Prop :=
  phys mbi <= a < phys mbi + SIZEOF_MBI \/
  mbi_mmap_addr m mbi <= a < mbi_mmap_addr m mbi + mbi_mmap_length m mbi.

Lemma mbi_fields_ext m m' mbi :
  (forall a, phys mbi <= a < phys mbi + SIZEOF_MBI -> load8 m' a = load8 m a) ->
  mbi_flags m' mbi = mbi_flags m mbi /\ mbi_mmap_addr m' mbi = mbi_mmap_addr m mbi /\
  mbi_mmap_length m' mbi = mbi_mmap_length m mbi.
Proof.
  intros H. unfold mbi_flags, mbi_mmap_addr, mbi_mmap_length.
  repeat split; apply rd32_ext; unfold phys in *; intros; apply H; lia.
Qed.

Lemma mbi_wf_ext m m' mbi es :
  mbi_wf m mbi es -> (forall a, boot_data m mbi a -> load8 m' a = load8 m a) ->
  mbi_wf m' mbi es /\ forall a, boot_data m' mbi a <-> boot_data m mbi a.
Proof.
  intros [Hp Hf Hin Hat] H.
  destruct (mbi_fields_ext m m' mbi) as (E1 & E2 & E3); [intros; apply H; by left|].
  split; [|intros a; unfold boot_data; by rewrite E2, E3].
  split; rewrite ?E1, ?E2, ?E3; try done.
  eapply mmap_at_ext; [|done]. intros a Ha. apply H. right. unfold phys in *. lia.
Qed.

(** The walks of [pmm_init] over a well-formed map. *)

Lemma mmap_walk_fold {A R} (f : mmap_entry -> A -> mm -> A * mm)
    (body : mmap_entry -> A -> mm -> outcome ((A + R) * mm)) mbi es s a (I : mm -> Prop) :
  mbi_wf (mem s) mbi es ->
  (forall e a s, e ∈ es -> I s ->
    body e a s = Done (inl (f e a s).1, (f e a s).2) /\ I (f e a s).2) ->
  (forall s' b, I s' -> boot_data (mem s) mbi b -> load8 (mem s') b = load8 (mem s) b) -> I s ->
  let r := foldl (fun r e => f e r.1 r.2) (a, s) es in
  mmap_walk mbi body a s = Done (inl r.1, r.2) /\ I r.2.
Proof.
  intros [Hp Hfl [Hin Hin'] Hat] Hbody Hmem HI. unfold mmap_walk.
  pose proof (load32_range (mem s) (phys (mbi + 48))) as Ha.
  pose proof (load32_range (mem s) (phys (mbi + 44))) as Hl.
  fold (rd32 (mem s) (mbi + 48)) in Ha. fold (mbi_mmap_addr (mem s) mbi) in Ha.
  fold (rd32 (mem s) (mbi + 44)) in Hl. fold (mbi_mmap_length (mem s) mbi) in Hl.
  rewrite phys_to_virt_in by lia. rewrite wrap_small by lia.
  apply (mmap_loop_fold I f body (mem s)); try done; try lia.
  - unfold mmap_fuel. apply mmap_at_length in Hat. lia.
  - intros s' b HI' Hb. apply Hmem; [done|]. right. unfold phys in Hb. lia.
Qed.

Lemma mmap_walk_pure {A} (g : mmap_entry -> A -> A) mbi es s a :
  mbi_wf (mem s) mbi es ->
  mmap_walk (R := Empty_set) mbi (fun e a s => Done (inl (g e a), s)) a s =
  Done (inl (foldl (fun a e => g e a) a es), s).
Proof.
  intros Hwf.
  destruct (mmap_walk_fold (R := Empty_set) (fun e a s => (g e a, s))
    (fun e a s => Done (inl (g e a), s)) mbi es s a (fun s' => s' = s)) as [-> _]; try done.
  - by intros s' b -> _.
  - clear Hwf. revert a. induction es as [|e es IH]; intros a; simpl; [done|]. apply IH.
Qed.

Lemma mmap_walk_first {R} (h : mmap_entry -> option R)
    (body : mmap_entry -> unit -> mm -> outcome ((unit + R) * mm)) mbi es s :
  mbi_wf (mem s) mbi es ->
  (forall e, e ∈ es -> body e tt s = Done (match h e with Some r => inr r | None => inl tt end, s)) ->
  mmap_walk mbi body tt s =
  Done (match first_some h es with Some r => inr r | None => inl tt end, s).
Proof.
  intros [Hp Hfl [Hin Hin'] Hat] Hbody. unfold mmap_walk.
  pose proof (load32_range (mem s) (phys (mbi + 48))) as Ha.
  pose proof (load32_range (mem s) (phys (mbi + 44))) as Hl.
  fold (rd32 (mem s) (mbi + 48)) in Ha. fold (mbi_mmap_addr (mem s) mbi) in Ha.
  fold (rd32 (mem s) (mbi + 44)) in Hl. fold (mbi_mmap_length (mem s) mbi) in Hl.
  rewrite phys_to_virt_in by lia. rewrite wrap_small by lia.
  apply mmap_loop_first; try done; try lia.
  unfold mmap_fuel. apply mmap_at_length in Hat. lia.
Qed.

(** ** check_mmap, find_max_page *)

Lemma check_mmap_ok mbi es s :
  mbi_wf (mem s) mbi es -> exists t, check_mmap mbi s = Done (set_con t s).
Proof.
  intros Hwf. unfold check_mmap. destruct (Hwf) as [Hp Hfl [Hin Hin'] Hat].
  pose proof (load32_range (mem s) (phys (mbi + 48))) as Ha.
  fold (rd32 (mem s) (mbi + 48)) in Ha. fold (mbi_mmap_addr (mem s) mbi) in Ha.
  rewrite (proj2 (Z.eqb_neq _ _) Hfl), phys_to_virt_in by lia.
  case_if; [lia|].
  assert (Hsz : Forall (fun e => 20 <= e_size e) es).
  { clear -Hat. cbv zeta in Hat. revert Hat. generalize (VMM_KERNEL_VIRTUAL_BASE + mbi_mmap_addr (mem s) mbi) at 1.
    generalize (VMM_KERNEL_VIRTUAL_BASE + mbi_mmap_addr (mem s) mbi + mbi_mmap_length (mem s) mbi).
    intros pend. induction es as [|e es IH]; intros ptr Hat; [done|]. simpl in Hat.
    destruct Hat as (_ & ? & _ & Hat). constructor; [done|]. by eapply IH. }
  set (f := fun entry (a : unit) s => (a, kprint (ln "pmm: entry addr=%x%x len=%x%x type=%u")
    [VInt (Z.shiftr (e_addr entry) 32); VInt (e_addr entry); VInt (Z.shiftr (e_len entry) 32);
     VInt (e_len entry); VInt (e_type entry)] s)).
  match goal with |- context [mmap_walk mbi ?body tt s] =>
    destruct (mmap_walk_fold f body mbi es s tt (fun s' => exists t, s' = set_con t s))
      as [-> (t & Ht)] end;
    [exact Hwf| |by intros s' b (t & ->)|by exists (con s); destruct s|by exists t; simpl; rewrite Ht].
  intros e a s' He (t & ->). rewrite Forall_forall in Hsz. specialize (Hsz e He).
  rewrite (proj2 (Z.ltb_ge _ _)) by lia. unfold f; cbn [fst snd].
  split; [reflexivity|apply kprint_set_con].
Qed.

(** The highest page of the type 1 regions. *)
Definition max_page_of (es : list mmap_entry) : Z :=
  foldl (fun n e => max_page_step e n) 0 es.

Lemma find_max_page_ok mbi es s :
  mbi_wf (mem s) mbi es -> find_max_page mbi s = Done (u32 (max_page_of es)).
Proof. intros Hwf. unfold find_max_page. by rewrite (mmap_walk_pure max_page_step mbi es). Qed.

(** The machines considered: the RAM regions end below 4 GiB (minus room for
    one bitmap), and their pages do not overlap. *)
Definition ram (e : mmap_entry) : bool := e_type e =? 1.
Definition region_start (e : mmap_entry) : Z := e_addr e / 4096.
Definition region_end (e : mmap_entry) : Z := e_addr e / 4096 + e_len e / 4096.

Definition entry_ok (e : mmap_entry) : Prop :=
  0 <= e_addr e /\ 0 <= e_len e /\ (e_type e = 1 -> e_addr e + e_len e <= 0xFFFC0000).

Definition in_region (p : Z) (e : mmap_entry) : bool :=
  ram e && (region_start e <=? p) && (p <? region_end e).

(** Page [p] lies in a RAM region. *)
Definition usable (es : list mmap_entry) (p : Z) : bool := existsb (in_region p) es.

Lemma max_page_step_ok e n :
  entry_ok e -> max_page_step e n =
  if ram e then Z.max n ((e_addr e + e_len e) / 4096) else n.
Proof.
  intros (Ha & Hl & Hr). unfold max_page_step, ram. case_if; [|done].
  specialize (Hr Hif). rewrite shiftr_12, wrap_small by lia. case_if; lia.
Qed.

Lemma max_page_fold es n :
  Forall entry_ok es -> 0 <= n <= 0xFFFC0 ->
  let r := foldl (fun n e => max_page_step e n) n es in
  n <= r <= 0xFFFC0 /\ Forall (fun e => ram e = true -> region_end e <= r) es.
Proof.
  revert n. induction es as [|e es IH]; intros n Hok Hn; simpl; [by split; [lia|]|].
  inv Hok. rewrite max_page_step_ok by done.
  assert (Hb : ram e = true -> 0 <= (e_addr e + e_len e) / 4096 <= 0xFFFC0 /\
    region_end e <= (e_addr e + e_len e) / 4096).
  { destruct H1 as (Ha & Hl & Hr). unfold ram, region_end. intros Hif%Z.eqb_eq.
    specialize (Hr Hif). clear -Ha Hl Hr. Z.div_mod_to_equations. lia. }
  destruct (ram e) eqn:E.
  - destruct Hb as [Hb1 Hb2]; [done|].
    destruct (IH (n `max` ((e_addr e + e_len e) / 4096))) as [? ?]; [done|lia|].
    split; [lia|]. constructor; [intros; lia|done].
  - destruct (IH n) as [? ?]; [done..|]. split; [done|]. constructor; [congruence|done].
Qed.

(** ** find_segment *)

Lemma align_up_page x :
  0 <= x <= 0xFFFFF000 -> align_up x PMM_PAGE_SIZE = (x + 4095) / 4096 * 4096.
Proof.
  intros Hx. unfold align_up. rewrite (wrap_small 32 (x + 4096 - 1)) by lia.
  rewrite (land_lnot_mask 12) by lia. do 2 f_equal. lia.
Qed.

Lemma align_up_bounds x :
  0 <= x <= 0xFFFFF000 ->
  x <= align_up x PMM_PAGE_SIZE < x + 4096 /\ align_up x PMM_PAGE_SIZE mod 4096 = 0.
Proof.
  intros Hx. rewrite align_up_page by done. split; [|apply Z.mod_mul; lia].
  Z.div_mod_to_equations. lia.
Qed.

(** [align_up x] is the first page boundary at or after [x]. *)
Lemma align_up_least x y :
  0 <= x <= 0xFFFFF000 -> y mod 4096 = 0 -> x <= y -> align_up x PMM_PAGE_SIZE <= y.
Proof. intros Hx Hy Hxy. rewrite align_up_page by done. Z.div_mod_to_equations. lia. Qed.

(** A page-aligned place for [bytes] bytes that ends in the region and avoids
    the ranges of [avoid]. *)
Definition fits (bytes eend : Z) (avoid : list (Z * Z)) (st : Z) : Prop :=
  st mod 4096 = 0 /\ st + bytes <= eend /\
  Forall (fun r => ranges_overlap st (st + bytes) r.1 r.2 = false) avoid.

(** The answer of a search from [start] on: the first place that fits. *)
Definition least_fit (bytes eend : Z) (avoid : list (Z * Z)) (start : Z) (res : option Z) : Prop :=
  match res with
  | Some st => start <= st /\ fits bytes eend avoid st /\
      forall st', start <= st' < st -> ~ fits bytes eend avoid st'
  | None => forall st', start <= st' -> ~ fits bytes eend avoid st'
  end.

Lemma least_fit_skip bytes eend avoid start start' res :
  start <= start' -> (forall st', start <= st' < start' -> ~ fits bytes eend avoid st') ->
  least_fit bytes eend avoid start' res -> least_fit bytes eend avoid start res.
Proof.
  intros Hle Hskip. destruct res as [st|]; simpl.
  - intros (Hs & Hf & Hl). split; [lia|]. split; [done|]. intros st' Hst'.
    destruct (decide (st' < start')); [apply Hskip; lia|apply Hl; lia].
  - intros Hn st' Hst'. destruct (decide (st' < start')); [apply Hskip; lia|apply Hn; lia].
Qed.

Lemma ranges_overlap_true a b c d : ranges_overlap a b c d = true <-> a < d /\ c < b.
Proof. unfold ranges_overlap. by rewrite andb_true_iff, !Z.ltb_lt. Qed.

(** The inner loop ends after passing each range at most once, and finds the
    first place that fits. *)
Lemma segment_search_spec bytes eend (avoid : list (Z * Z)) :
  0 <= bytes <= 131072 -> Forall (fun r => 0 <= r.2 <= 0xFFFC0000) avoid ->
  forall fuel start,
  start mod 4096 = 0 -> 0 <= start <= 0xFFFD0000 ->
  (length (List.filter (fun r => (start <? r.2)%Z) avoid) < fuel)%nat ->
  exists res, segment_search fuel bytes eend avoid start = Done res /\
    least_fit bytes eend avoid start res.
Proof.
  intros Hb Hav. induction fuel as [|fuel IH]; intros start Hal Hst Hfuel; [lia|]. simpl.
  rewrite wrap_small by lia. case_if.
  2: { exists None. split; [done|]. intros st' Hst' (_ & Hf & _). lia. }
  destruct (list_find _ avoid) as [[i [r_start r_end]]|] eqn:E.
  - apply list_find_Some in E as (Hi & Hov & _). simpl in Hov.
    apply ranges_overlap_true in Hov as [Ho1 Ho2].
    pose proof (list_elem_of_lookup_2 _ _ _ Hi) as Hin.
    rewrite Forall_forall in Hav. pose proof (Hav _ Hin) as Hr. simpl in Hr.
    destruct (align_up_bounds r_end) as [Hab Ham]; [lia|].
    destruct (IH (align_up r_end PMM_PAGE_SIZE)) as (res & Hres & Hlf); [done|lia| |].
    + eapply Nat.lt_le_trans; [|apply Nat.lt_succ_r, Hfuel].
      apply (filter_length_lt _ _ _ (r_start, r_end)); [|done|simpl..].
      * intros y Hy. bool_simpl. apply Z.ltb_lt. lia.
      * apply Z.ltb_lt. lia.
      * apply Z.ltb_ge. lia.
    + exists res. split; [done|]. apply (least_fit_skip _ _ _ _ (align_up r_end PMM_PAGE_SIZE)); [lia| |done].
      intros st' Hst' (Hm & _ & Hc). rewrite Forall_forall in Hc. specialize (Hc _ Hin). simpl in Hc.
      assert (st' < r_end).
      { destruct (decide (st' < r_end)); [done|].
        pose proof (align_up_least r_end st' ltac:(lia) Hm ltac:(lia)). lia. }
      enough (ranges_overlap st' (st' + bytes) r_start r_end = true) by congruence.
      apply ranges_overlap_true. lia.
  - exists (Some start). split; [done|]. simpl. split; [lia|]. split; [|lia].
    split; [done|]. split; [done|]. apply list_find_None in E.
    eapply Forall_impl; [exact E|]. intros r Hr. simpl in Hr. by apply not_true_is_false.
Qed.

Section find_segment_spec.
Context (kstart kend : Z).

(** The kernel image lies in the direct map. *)
Definition kernel_ok : Prop := 0 <= kstart <= kend /\ kend <= VMM_DIRECT_MAP_LIMIT.

(** Where the search of a region starts: never at address 0. *)
Definition search_start (e : mmap_entry) : Z := align_up (Z.max 1 (e_addr e)) PMM_PAGE_SIZE.

Definition region_fits (e : mmap_entry) (bytes : Z) (avoid : list (Z * Z)) (st : Z) : Prop :=
  search_start e <= st /\ fits bytes (e_addr e + e_len e) avoid st.

Lemma avoid_ranges_ok mbi es s :
  mbi_wf (mem s) mbi es -> kernel_ok ->
  avoid_ranges kstart kend mbi s =
    [(kstart, kend); (phys mbi, phys mbi + SIZEOF_MBI);
     (mbi_mmap_addr (mem s) mbi, mbi_mmap_addr (mem s) mbi + mbi_mmap_length (mem s) mbi)] /\
  Forall (fun r => 0 <= r.2 <= 0xFFFC0000) (avoid_ranges kstart kend mbi s) /\
  length (avoid_ranges kstart kend mbi s) = 3%nat.
Proof.
  intros [Hp Hfl [Hin Hin'] Hat] Hk. unfold kernel_ok in Hk.
  pose proof (load32_range (mem s) (phys (mbi + 48))) as Ha.
  pose proof (load32_range (mem s) (phys (mbi + 44))) as Hl.
  fold (rd32 (mem s) (mbi + 48)) in Ha. fold (mbi_mmap_addr (mem s) mbi) in Ha.
  fold (rd32 (mem s) (mbi + 44)) in Hl. fold (mbi_mmap_length (mem s) mbi) in Hl.
  assert (E : vmm_virt_to_phys mbi = phys mbi).
  { unfold vmm_virt_to_phys, phys. case_if; try lia. rewrite wrap_small; lia. }
  unfold avoid_ranges. rewrite E. unfold phys in *.
  rewrite !wrap_small by lia. split; [done|]. split; [|done].
  repeat constructor; simpl; lia.
Qed.

Lemma segment_in_spec e bytes avoid :
  entry_ok e -> 0 <= bytes <= 131072 -> Forall (fun r => 0 <= r.2 <= 0xFFFC0000) avoid ->
  length avoid = 3%nat ->
  exists res, segment_in e bytes avoid = Done res /\
    (if ram e then least_fit bytes (e_addr e + e_len e) avoid (search_start e) res else res = None).
Proof.
  intros (Ha & Hl & Hr) Hb Hav Hlen. unfold segment_in, ram.
  destruct (Z.eqb_spec (e_type e) 1) as [Ht|]; cbn [negb]; [|by exists None].
  specialize (Hr Ht). rewrite !wrap_small by (rewrite ?wrap_small; lia).
  replace (if e_addr e =? 0 then 1 else e_addr e) with (Z.max 1 (e_addr e)) by (case_if; lia).
  unfold search_start. destruct (align_up_bounds (Z.max 1 (e_addr e))) as [Hab Ham]; [lia|].
  apply (segment_search_spec bytes (e_addr e + e_len e) avoid Hb Hav 5); [done|lia|].
  pose proof (List.filter_length_le (fun r => align_up (Z.max 1 (e_addr e)) PMM_PAGE_SIZE <? r.2) avoid).
  lia.
Qed.

Lemma first_some_Some {R} (h : mmap_entry -> option R) es r :
  first_some h es = Some r ->
  exists l1 e l2, es = l1 ++ e :: l2 /\ h e = Some r /\ Forall (fun e => h e = None) l1.
Proof.
  induction es as [|e es IH]; simpl; [done|]. destruct (h e) eqn:E.
  - intros [= <-]. by exists [], e, es.
  - intros (l1 & e' & l2 & -> & ? & ?)%IH. exists (e :: l1), e', l2. split; [done|]. auto.
Qed.

Lemma first_some_None {R} (h : mmap_entry -> option R) es :
  first_some h es = None -> Forall (fun e => h e = None) es.
Proof. induction es as [|e es IH]; simpl; [done|]. destruct (h e) eqn:E; [done|]. auto. Qed.

(** The regions in which nothing fits. *)
Definition no_fit (bytes : Z) (avoid : list (Z * Z)) (e : mmap_entry) : Prop :=
  ram e = true -> forall st, ~ region_fits e bytes avoid st.

(** The place [find_segment] chooses among the regions [es]. *)
Definition segment_choice (bytes : Z) (avoid : list (Z * Z)) (e : mmap_entry) : option Z :=
  match segment_in e bytes avoid with Done r => r | _ => None end.
Definition segment_of (bytes : Z) (avoid : list (Z * Z)) (es : list mmap_entry) : Z :=
  default 0 (first_some (segment_choice bytes avoid) es).

Lemma segment_choice_spec bytes avoid e :
  entry_ok e -> 0 <= bytes <= 131072 -> Forall (fun r => 0 <= r.2 <= 0xFFFC0000) avoid ->
  length avoid = 3%nat ->
  segment_in e bytes avoid = Done (segment_choice bytes avoid e) /\
  (if ram e then least_fit bytes (e_addr e + e_len e) avoid (search_start e)
     (segment_choice bytes avoid e)
   else segment_choice bytes avoid e = None).
Proof.
  intros He Hb Hav Hlen. unfold segment_choice.
  by destruct (segment_in_spec e bytes avoid He Hb Hav Hlen) as (res & -> & Hlf).
Qed.

(** [find_segment] always returns the place chosen. *)
Lemma find_segment_eq mbi bytes es s :
  mbi_wf (mem s) mbi es -> kernel_ok -> Forall entry_ok es -> 0 <= bytes <= 131072 ->
  find_segment kstart kend mbi bytes s =
  Done (segment_of bytes (avoid_ranges kstart kend mbi s) es).
Proof.
  intros Hwf Hk Hes Hb. destruct (avoid_ranges_ok mbi es s Hwf Hk) as (_ & Hav & Hlen).
  unfold find_segment.
  rewrite (mmap_walk_first (segment_choice bytes (avoid_ranges kstart kend mbi s)) _ mbi es); [|done|].
  - cbn [obind]. unfold segment_of. by destruct (first_some _ es).
  - intros e He. rewrite Forall_forall in Hes.
    destruct (segment_choice_spec bytes _ e (Hes e He) Hb Hav Hlen) as [-> _]. done.
Qed.

(** A non-zero choice is the first place that fits, in the first region that
    has one; 0 means that none has. *)
Lemma segment_of_spec bytes avoid es :
  Forall entry_ok es -> 0 <= bytes <= 131072 ->
  Forall (fun r => 0 <= r.2 <= 0xFFFC0000) avoid -> length avoid = 3%nat ->
  let base := segment_of bytes avoid es in
  (base = 0 /\ Forall (no_fit bytes avoid) es) \/
  (0 < base /\ exists l1 e l2, es = l1 ++ e :: l2 /\ ram e = true /\
    region_fits e bytes avoid base /\
    (forall st, st < base -> ~ region_fits e bytes avoid st) /\
    Forall (no_fit bytes avoid) l1).
Proof.
  intros Hes Hb Hav Hlen base. set (h := segment_choice bytes avoid).
  assert (Hh : forall e, e ∈ es -> if ram e then
    least_fit bytes (e_addr e + e_len e) avoid (search_start e) (h e) else h e = None).
  { intros e He. rewrite Forall_forall in Hes. by apply segment_choice_spec; [apply Hes|..]. }
  assert (Hnone : forall l, (forall e, e ∈ l -> e ∈ es) -> Forall (fun e => h e = None) l ->
    Forall (no_fit bytes avoid) l).
  { intros l Hl Hn. rewrite Forall_forall in *. intros e He Hram st [Hs Hf].
    pose proof (Hh e (Hl e He)) as Hlf. rewrite Hram, (Hn e He) in Hlf. by apply (Hlf st). }
  unfold base, segment_of. fold h. destruct (first_some h es) as [st|] eqn:E; simpl.
  - right. apply first_some_Some in E as (l1 & e & l2 & -> & He & Hl1).
    assert (Hin : e ∈ l1 ++ e :: l2) by (apply elem_of_app; right; by left).
    pose proof (Hh e Hin) as Hlf. pose proof (proj1 (Forall_forall _ _) Hes e Hin) as (Ha & Hl & Hr).
    destruct (ram e) eqn:Er; [|congruence]. rewrite He in Hlf. destruct Hlf as (Hge & Hf & Hmin).
    pose proof (Hr (proj1 (Z.eqb_eq _ _) Er)).
    destruct (align_up_bounds (Z.max 1 (e_addr e))) as [Hab _]; [lia|].
    split; [unfold search_start in Hge; lia|]. exists l1, e, l2.
    split; [done|]. split; [done|]. split; [done|]. split.
    + intros st' Hst [Hst' Hf']. by apply (Hmin st').
    + apply Hnone; [|done]. intros e' He'. apply elem_of_app. by left.
  - left. split; [done|]. apply Hnone; [done|by apply first_some_None].
Qed.

End find_segment_spec.
