(* ===== verification/PmmBoot.v ===== *)
(** * pmm_init establishes the allocator's invariant

    The second half of the development of pmm.c's initialisation: the bitmap is
    filled, the RAM regions are cleared in it, and the bitmap, the kernel image
    and page 0 are reserved. *)

From S2P Require Import Prelude Memory Tty Printk Machine FrameAlloc Pmm PmmInit.

(** ** Filling and clearing *)

Lemma bitmap_fill_mem s :
  mem (bitmap_fill s) = memset (mem s) (pmm_bitmap (pm s)) 0xFF (pmm_bitmap_bytes (pm s)).
Proof. done. Qed.

Lemma bitmap_fill_full s p :
  pmm_bitmap_bytes (pm s) = (pmm_max_page (pm s) + 7) / 8 -> page_free (bitmap_fill s) p = false.
Proof.
  intros Hb. unfold page_free. simpl.
  destruct (Z.leb_spec 0 p), (Z.ltb_spec p (pmm_max_page (pm s))); simpl; try done.
  apply negb_false_iff. unfold page_bit, rd8. rewrite bitmap_fill_mem.
  pose proof (bitmap_byte_in' s p Hb ltac:(lia)) as Hin. unfold in_bitmap in Hin.
  rewrite load8_memset. unfold bitmap_byte in *. simpl in *. case_decide; [|lia].
  pose proof (page_mod8 p). rewrite testbit_u8 by lia.
  change 255 with (Z.ones 8). apply Z.ones_spec_low. lia.
Qed.

(** Clearing the pages of a range. *)
Lemma clear_loop s a b :
  pmm_bitmap_bytes (pm s) = (pmm_max_page (pm s) + 7) / 8 -> 0 <= a <= b -> b <= pmm_max_page (pm s) ->
  let s' := for_range a b bitmap_clear s in
  s' = set_mem (mem s') s /\ only_changes (in_bitmap s) (mem s) (mem s') /\
  forall q, page_free s' q = page_free s q || ((a <=? q) && (q <? b)).
Proof.
  intros Hb Hab Hmax. cbv zeta.
  for_inv (fun i s' => s' = set_mem (mem s') s /\ only_changes (in_bitmap s) (mem s) (mem s') /\
    forall q, page_free s' q = page_free s q || ((a <=? q) && (q <? i))).
  - lia.
  - split; [by destruct s|]. split; [apply only_changes_refl|]. intros q.
    destruct (Z.leb_spec a q), (Z.ltb_spec q a); try lia; by rewrite orb_false_r.
  - intros i s' Hi (He & Hch & Hq).
    assert (Hpm : pm s' = pm s) by (rewrite He; done).
    split; [rewrite He at 2; unfold bitmap_clear; by rewrite He|]. split.
    + etransitivity; [exact Hch|]. apply only_changes_store8.
      pose proof (bitmap_byte_in' s i Hb ltac:(lia)) as Hin.
      unfold bitmap_byte in *. by rewrite Hpm.
    + intros q. rewrite page_free_clear by (rewrite Hpm; lia). rewrite Hq.
      destruct (page_free s q); [done|]. simpl.
      destruct (Z.leb_spec a q), (Z.ltb_spec q i), (Z.ltb_spec q (i + 1)), (Z.eqb_spec q i);
        simpl; try lia; done.
Qed.

Lemma clear_region_spec e n s :
  entry_ok e -> 0 <= pmm_max_page (pm s) <= 1048576 ->
  pmm_bitmap_bytes (pm s) = (pmm_max_page (pm s) + 7) / 8 ->
  (ram e = true -> region_end e <= pmm_max_page (pm s)) ->
  0 <= n <= 1048576 ->
  let r := clear_region e n s in
  r.1 = n + (if ram e then region_end e - region_start e else 0) /\
  r.2 = set_mem (mem r.2) s /\ only_changes (in_bitmap s) (mem s) (mem r.2) /\
  forall q, page_free r.2 q = page_free s q || in_region q e.
Proof.
  intros (Ha & Hl & Hr) Hmax Hb Hend Hn. unfold clear_region, in_region, ram in *.
  destruct (Z.eqb_spec (e_type e) 1) as [Ht|]; simpl.
  2: { split; [lia|]. split; [by destruct s|]. split; [apply only_changes_refl|].
       intros q. by rewrite orb_false_r. }
  specialize (Hr Ht). specialize (Hend eq_refl). unfold region_end, region_start in *.
  assert (H1 : 0 <= e_addr e / 4096 <= 1048576)
    by (split; [apply Z.div_pos|apply Z.div_le_upper_bound]; lia).
  assert (H2 : 0 <= e_len e / 4096 <= 1048576)
    by (split; [apply Z.div_pos|apply Z.div_le_upper_bound]; lia).
  rewrite !shiftr_12, !(wrap_small 32 (_ / _)) by lia. rewrite (wrap_small 32 (e_addr e / 4096 + e_len e / 4096)) by lia.
  case_if; simpl.
  - split; [lia|]. split; [by destruct s|]. split; [apply only_changes_refl|]. intros q.
    destruct (Z.leb_spec (e_addr e / 4096) q), (Z.ltb_spec q (e_addr e / 4096 + e_len e / 4096));
      try lia; by rewrite orb_false_r.
  - rewrite (proj2 (Z.ltb_ge (pmm_max_page (pm s)) _)), (proj2 (Z.ltb_ge _ (e_addr e / 4096))) by lia.
    simpl. rewrite wrap_small by lia. split; [done|].
    apply clear_loop; [done|lia..].
Qed.

(** No two RAM regions share a page. *)
Fixpoint regions_apart (es : list mmap_entry) : Prop :=
  match es with
  | [] => True
  | e :: es => (forall e' p, e' ∈ es -> in_region p e = true -> in_region p e' = false) /\
      regions_apart es
  end.

Lemma in_region_range p e :
  in_region p e = ram e && ((region_start e <=? p) && (p <? region_end e)).
Proof. unfold in_region. by rewrite andb_assoc. Qed.

Lemma clear_fold es n s :
  0 <= pmm_max_page (pm s) <= 1048576 ->
  pmm_bitmap_bytes (pm s) = (pmm_max_page (pm s) + 7) / 8 ->
  Forall entry_ok es -> Forall (fun e => ram e = true -> region_end e <= pmm_max_page (pm s)) es ->
  regions_apart es -> (forall e p, e ∈ es -> in_region p e = true -> page_free s p = false) ->
  n = count_range (page_free s) 0 (pmm_max_page (pm s)) ->
  let r := foldl (fun r e => clear_region e r.1 r.2) (n, s) es in
  r.1 = count_range (page_free r.2) 0 (pmm_max_page (pm s)) /\
  r.2 = set_mem (mem r.2) s /\ only_changes (in_bitmap s) (mem s) (mem r.2) /\
  forall q, page_free r.2 q = page_free s q || usable es q.
Proof.
  revert n s. induction es as [|e es IH]; intros n s Hmax Hb Hok Hend Hap Hnew Hn; simpl.
  { split; [done|]. split; [by destruct s|]. split; [apply only_changes_refl|].
    intros q. by rewrite orb_false_r. }
  apply Forall_cons in Hok as [Hoke Hoks]. apply Forall_cons in Hend as [Hende Hends].
  destruct Hap as [Hap1 Hap2].
  pose proof (count_range_bounds (page_free s) 0 (pmm_max_page (pm s)) ltac:(lia)) as Hcb.
  destruct (clear_region_spec e n s) as (H1 & H2 & H3 & H4); [done..|lia|].
  destruct (clear_region e n s) as [n' s'] eqn:E. simpl in H1, H2, H3, H4 |- *.
  assert (Hpm : pm s' = pm s) by (rewrite H2; done).
  destruct (IH n' s') as (R1 & R2 & R3 & R4); rewrite ?Hpm; try done.
  - intros e' p He' Hp. rewrite H4. rewrite (Hnew e' p) by (done || by right). simpl.
    destruct (in_region p e) eqn:E2; [|done]. rewrite (Hap1 e' p) in Hp by done. done.
  - rewrite H1. destruct (ram e) eqn:Er.
    + symmetry. destruct Hoke as (? & ? & ?).
      assert (0 <= region_start e <= region_end e).
      { unfold region_start, region_end. split; [apply Z.div_pos; lia|].
        pose proof (Z.div_pos (e_len e) 4096). lia. }
      rewrite Hn. apply count_range_add; [lia|auto| |].
      * intros i Hi. apply (Hnew e); [by left|]. rewrite in_region_range, Er. simpl.
        rewrite andb_true_iff, Z.leb_le, Z.ltb_lt. lia.
      * intros i Hi. by rewrite H4, in_region_range, Er.
    + rewrite Z.add_0_r, Hn. apply count_range_ext. intros i Hi.
      by rewrite H4, in_region_range, Er, orb_false_r.
  - rewrite Hpm in R1. split; [done|]. split; [rewrite R2; rewrite H2; done|]. split.
    + etransitivity; [exact H3|]. eapply only_changes_mono; [|exact R3].
      intros a. unfold in_bitmap. by rewrite Hpm.
    + intros q. rewrite R4, H4. by rewrite orb_assoc.
Qed.

(** ** Reserving *)

Lemma reserve_page_spec p s :
  bitmap_ok s -> 0 <= p ->
  bitmap_ok (reserve_page p s) /\ touches_only (in_bitmap s) s (reserve_page p s) /\
  same_bitmap s (reserve_page p s) /\
  forall q, page_free (reserve_page p s) q = page_free s q && negb (q =? p).
Proof.
  intros Hok Hp. unfold reserve_page.
  assert (Hskip : page_free s p = false -> bitmap_ok s /\ touches_only (in_bitmap s) s s /\
    same_bitmap s s /\ forall q, page_free s q = page_free s q && negb (q =? p)).
  { intros Hf. split; [done|]. split; [by split; [by destruct s|apply only_changes_refl]|].
    split; [done|]. intros q. destruct (Z.eqb_spec q p) as [->|]; [by rewrite Hf|by rewrite andb_true_r]. }
  case_if.
  { apply Hskip. unfold page_free. destruct (Z.ltb_spec p (pmm_max_page (pm s))); [lia|].
    by rewrite andb_false_r. }
  rewrite bitmap_test_bit. destruct (page_bit s p) eqn:E; simpl.
  { apply Hskip. unfold page_free. by rewrite E, andb_false_r. }
  assert (Hf : page_free s p = true) by (apply page_free_true; split; [lia|done]).
  split; [by apply take_page_ok|]. split; [apply touches_take; [done|lia]|].
  split; [|by apply take_page_free].
  unfold same_bitmap, dec_free_pages. by case_if.
Qed.

Lemma touches_only_trans P s1 s2 s3 :
  touches_only P s1 s2 -> touches_only P s2 s3 -> touches_only P s1 s3.
Proof.
  intros [E1 C1] [E2 C2]. split; [rewrite E2, E1; done|]. by etransitivity.
Qed.

Lemma reserve_loop a b s :
  bitmap_ok s -> 0 <= a <= b ->
  let s' := for_range a b reserve_page s in
  bitmap_ok s' /\ touches_only (in_bitmap s) s s' /\ same_bitmap s s' /\
  forall q, page_free s' q = page_free s q && negb ((a <=? q) && (q <? b)).
Proof.
  intros Hok Hab. cbv zeta.
  for_inv (fun i s' => bitmap_ok s' /\ touches_only (in_bitmap s) s s' /\ same_bitmap s s' /\
    forall q, page_free s' q = page_free s q && negb ((a <=? q) && (q <? i))).
  - lia.
  - split; [done|]. split; [by split; [by destruct s|apply only_changes_refl]|]. split; [done|].
    intros q. destruct (Z.leb_spec a q), (Z.ltb_spec q a); try lia; by rewrite andb_true_r.
  - intros i s' Hi (Hok' & Ht & Hs & Hq).
    destruct (reserve_page_spec i s' Hok') as (Hok2 & Ht2 & Hs2 & Hq2); [lia|].
    destruct Hs as (Hs1 & Hs3 & Hs4). destruct Hs2 as (? & ? & ?).
    split; [done|]. split; [|split; [by unfold same_bitmap; split_and!; congruence|]].
    + eapply touches_only_trans; [exact Ht|]. destruct Ht2 as [He Hc]. split; [done|].
      eapply only_changes_mono; [|exact Hc]. intros x. unfold in_bitmap. by rewrite Hs1, Hs3.
    + intros q. rewrite Hq2, Hq. destruct (page_free s q); [|done]. simpl.
      destruct (Z.leb_spec a q), (Z.ltb_spec q i), (Z.ltb_spec q (i + 1)), (Z.eqb_spec q i);
        simpl; try lia; done.
Qed.

(** The pages that [reserve_segment] takes. *)
Definition in_pages (a b q : Z) : bool := (a / 4096 <=? q) && (q <? (b + 4095) / 4096).

Lemma reserve_segment_spec a b s :
  bitmap_ok s -> 0 <= a <= b -> b <= VMM_DIRECT_MAP_LIMIT ->
  let s' := reserve_segment a b s in
  bitmap_ok s' /\ touches_only (in_bitmap s) s s' /\ same_bitmap s s' /\
  forall q, page_free s' q = page_free s q && negb (in_pages a b q).
Proof.
  intros Hok Hab Hlim. unfold reserve_segment. rewrite !shiftr_12.
  replace (b + PMM_PAGE_SIZE - 1) with (b + 4095) by lia. rewrite wrap_small by lia.
  apply reserve_loop; [done|]. split; [apply Z.div_pos; lia|]. apply Z.div_le_mono; lia.
Qed.

(** ** pmm_init *)

Section pmm_init_spec.
Context (kstart kend : Z).

Definition bitmap_bytes_of (es : list mmap_entry) : Z := (max_page_of es + 7) / 8.

(** The bytes of the kernel image that lie in RAM regions. *)
Definition overlap_of (es : list mmap_entry) : Z :=
  foldl (fun n e => u64 (n + overlap_bytes e kstart kend)) 0 es.

(** The pages taken at boot: page 0, the bitmap, the kernel image. *)
Definition boot_reserved (base bytes p : Z) : bool :=
  (p =? 0) || in_pages base (base + bytes) p || in_pages kstart kend p.

Lemma check_kernel_location_eq mbi es s :
  mbi_wf (mem s) mbi es ->
  check_kernel_location kstart kend mbi s =
  if overlap_of es <? kend - kstart
  then panic "pmm: kernel not fully located in usable RAM" s else Done tt.
Proof.
  intros Hwf. unfold check_kernel_location.
  by rewrite (mmap_walk_pure (fun e n => u64 (n + overlap_bytes e kstart kend)) mbi es).
Qed.

Lemma clear_region_state e n s : (clear_region e n s).2 = (clear_region e 0 s).2.
Proof. unfold clear_region. by repeat case_if. Qed.

(** Clearing the regions of a well-formed map that the bitmap does not touch. *)
Lemma clear_usable_pages_eq mbi es s :
  mbi_wf (mem s) mbi es -> 0 <= pmm_max_page (pm s) <= 1048576 ->
  pmm_bitmap_bytes (pm s) = (pmm_max_page (pm s) + 7) / 8 ->
  Forall entry_ok es -> Forall (fun e => ram e = true -> region_end e <= pmm_max_page (pm s)) es ->
  (forall a, in_bitmap s a -> ~ boot_data (mem s) mbi a) ->
  clear_usable_pages mbi s = Done (foldl (fun r e => clear_region e r.1 r.2) (0, s) es).
Proof.
  intros Hwf Hmax Hb Hes Hend Hdis. unfold clear_usable_pages.
  match goal with |- context [mmap_walk mbi ?body 0 s] =>
    destruct (mmap_walk_fold (R := Empty_set) clear_region body mbi es s 0
      (fun s' => pm s' = pm s /\ only_changes (in_bitmap s) (mem s) (mem s'))) as [-> _] end;
    [done| | |by split; [|apply only_changes_refl]|by simpl; destruct (foldl _ _ _)].
  - intros e a s' He [Hpm Hch]. split; [by destruct (clear_region e a s')|].
    rewrite clear_region_state. rewrite Forall_forall in Hes, Hend.
    destruct (clear_region_spec e 0 s') as (_ & Hs & Hc & _); rewrite ?Hpm; auto; [lia|].
    split; [rewrite Hs; done|]. etransitivity; [exact Hch|].
    eapply only_changes_mono; [|exact Hc]. intros x. unfold in_bitmap. by rewrite Hpm.
  - intros s' b [_ Hch] Hbd. apply Hch. intros Hin. by eapply Hdis.
Qed.

(** A bitmap placed by [find_segment] keeps clear of the boot information. *)
Lemma fits_boot_data mbi es s bytes eend base :
  mbi_wf (mem s) mbi es -> kernel_ok kstart kend ->
  fits bytes eend (avoid_ranges kstart kend mbi s) base ->
  forall a, base <= a < base + bytes -> ~ boot_data (mem s) mbi a /\ ~ kstart <= a < kend.
Proof.
  intros Hwf Hk (_ & _ & Hf) a Ha. destruct (avoid_ranges_ok kstart kend mbi es s Hwf Hk) as (E & _ & _).
  rewrite E in Hf. rewrite !Forall_cons in Hf. destruct Hf as (H1 & H2 & H3 & _). simpl in *.
  unfold ranges_overlap in *. unfold boot_data. bool_simpl; lia.
Qed.

(** So does the one that [pmm_init] chooses. *)
Lemma placed_clear mbi es s base :
  mbi_wf (mem s) mbi es -> kernel_ok kstart kend -> Forall entry_ok es ->
  base = segment_of (bitmap_bytes_of es) (avoid_ranges kstart kend mbi s) es -> 0 < base ->
  forall a, base <= a < base + bitmap_bytes_of es -> ~ boot_data (mem s) mbi a.
Proof.
  intros Hwf Hk Hes Hbase Hb0 a Ha. destruct (max_page_fold es 0 Hes ltac:(lia)) as [Hmax _]. fold (max_page_of es) in Hmax.
  assert (0 <= bitmap_bytes_of es <= 131072).
  { unfold bitmap_bytes_of. split; [apply Z.div_pos; lia|apply Z.div_le_upper_bound; lia]. }
  destruct (avoid_ranges_ok kstart kend mbi es s Hwf Hk) as (_ & Hav & Hlen).
  destruct (segment_of_spec (bitmap_bytes_of es) (avoid_ranges kstart kend mbi s) es)
    as [[? _]|(_ & l1 & e & l2 & _ & _ & [_ Hfit] & _)]; try done; [lia|].
  rewrite <- Hbase in Hfit. by apply (fits_boot_data mbi es s _ _ base Hwf Hk Hfit).
Qed.

(** The state right before the RAM regions are cleared. *)
Definition pmm_prepare (base : Z) (max_page : Z) (s : mm) : mm :=
  bitmap_fill (set_bitmap (vmm_phys_to_virt base) (set_max_page max_page s)).

(** The reservations at the end of [pmm_init]. *)
Definition pmm_reserve (base : Z) (s : mm) : mm :=
  reserve_page 0 (reserve_segment kstart kend
    (reserve_segment base (base +u pmm_bitmap_bytes (pm s)) s)).

Lemma pmm_reserve_spec base s :
  bitmap_ok s -> kernel_ok kstart kend -> pmm_bitmap (pm s) = vmm_phys_to_virt base ->
  0 <= base -> base + pmm_bitmap_bytes (pm s) <= VMM_DIRECT_MAP_LIMIT -> base < VMM_DIRECT_MAP_LIMIT ->
  pmm_inv (pmm_reserve base s) /\ touches_only (in_bitmap s) s (pmm_reserve base s) /\
  forall p, page_free (pmm_reserve base s) p =
    page_free s p && negb (boot_reserved base (pmm_bitmap_bytes (pm s)) p).
Proof.
  intros Hok (Hk1 & Hk2) Hbm Hb0 Hlim Hlt. unfold pmm_reserve.
  assert (Hbytes : 0 <= pmm_bitmap_bytes (pm s)).
  { rewrite (ok_bytes s Hok). pose proof (ok_max s Hok). apply Z.div_pos; lia. }
  rewrite wrap_small by lia.
  destruct (reserve_segment_spec base (base + pmm_bitmap_bytes (pm s)) s) as (O1 & T1 & (B1 & B1' & _) & F1);
    [done|lia..|].
  set (s1 := reserve_segment base _ s) in *. clearbody s1.
  destruct (reserve_segment_spec kstart kend s1) as (O2 & T2 & (B2 & B2' & _) & F2); [done|lia..|].
  set (s2 := reserve_segment kstart kend s1) in *. clearbody s2.
  destruct (reserve_page_spec 0 s2) as (O3 & T3 & (B3 & B3' & _) & F3); [done|lia|].
  set (s3 := reserve_page 0 s2) in *. clearbody s3.
  assert (HF : forall p, page_free s3 p = page_free s p && negb (boot_reserved base (pmm_bitmap_bytes (pm s)) p)).
  { intros p. rewrite F3, F2, F1. unfold boot_reserved. rewrite !negb_orb.
    destruct (page_free s p), (in_pages base _ p), (in_pages kstart kend p), (p =? 0); done. }
  split; [split; [done|..]|split; [|done]].
  - rewrite HF. unfold boot_reserved. by rewrite Z.eqb_refl, andb_false_r.
  - intros a. unfold in_bitmap. rewrite B3, B3', B2, B2', B1, B1', Hbm, phys_phys_to_virt by lia.
    intros Ha. rewrite HF. unfold boot_reserved, in_pages.
    assert (base / 4096 <= a / 4096) by (apply Z.div_le_mono; lia).
    assert (a / 4096 < (base + pmm_bitmap_bytes (pm s) + 4095) / 4096).
    { enough (a / 4096 + 1 <= (base + pmm_bitmap_bytes (pm s) + 4095) / 4096) by lia.
      rewrite <- Z.div_add by lia. apply Z.div_le_mono; lia. }
    rewrite (proj2 (Z.leb_le (base / 4096) _)), (proj2 (Z.ltb_lt _ (_ / _))) by lia.
    simpl. rewrite orb_true_r. apply andb_false_r.
  - assert (Hmono : forall s s' s'' : mm, pmm_bitmap (pm s') = pmm_bitmap (pm s) ->
      pmm_bitmap_bytes (pm s') = pmm_bitmap_bytes (pm s) ->
      touches_only (in_bitmap s') s' s'' -> touches_only (in_bitmap s) s' s'').
    { intros x y z E1 E2 [He Hc]. split; [done|]. eapply only_changes_mono; [|exact Hc].
      intros a. unfold in_bitmap. by rewrite E1, E2. }
    eapply touches_only_trans; [exact T1|]. eapply touches_only_trans.
    + by apply (Hmono s s1).
    + apply (Hmono s s2); [congruence..|done].
Qed.

(** What [pmm_init] builds from the map [es] with the bitmap at [base]. *)
Record pmm_booted (es : list mmap_entry) (base : Z) (s s' : mm) : Prop := {
  bt_inv : pmm_inv s';
  bt_max : pmm_max_page (pm s') = max_page_of es;
  bt_bitmap : pmm_bitmap (pm s') = VMM_KERNEL_VIRTUAL_BASE + base;
  bt_free : forall p, page_free s' p =
    usable es p && negb (boot_reserved base (bitmap_bytes_of es) p);
  bt_mem : only_changes (fun a => base <= a < base + bitmap_bytes_of es) (mem s) (mem s');
  bt_total : pmm_total_pages (pm s') = count_range (usable es) 0 (max_page_of es);
  bt_heap : heap_list s' = heap_list s;
}.

Lemma usable_bound es p :
  Forall entry_ok es -> Forall (fun e => ram e = true -> region_end e <= max_page_of es) es ->
  usable es p = true -> 0 <= p < max_page_of es.
Proof.
  intros Hes Hend (e & He & Hin)%existsb_exists. apply list_elem_of_In in He.
  rewrite Forall_forall in Hes, Hend. destruct (Hes e He) as (Ha & _ & _).
  specialize (Hend e He). unfold in_region in Hin. bool_simpl.
  specialize (Hend ltac:(done)). unfold region_start in *.
  assert (0 <= e_addr e / 4096) by (apply Z.div_pos; lia). lia.
Qed.

Lemma pmm_total_touch P s s' : touches_only P s s' ->
  only_changes P (mem s) (mem s').
Proof. by intros [_ H]. Qed.

Lemma reserve_page_total p s : pmm_total_pages (pm (reserve_page p s)) = pmm_total_pages (pm s).
Proof. unfold reserve_page, dec_free_pages. by repeat case_if. Qed.

Lemma reserve_loop_total a b s :
  pmm_total_pages (pm (for_range a b reserve_page s)) = pmm_total_pages (pm s).
Proof.
  destruct (decide (a <= b)); [|by rewrite for_range_nil by lia].
  for_inv (fun (_ : Z) s' => pmm_total_pages (pm s') = pmm_total_pages (pm s)); [done..|].
  intros i s' _ <-. apply reserve_page_total.
Qed.

Lemma pmm_reserve_total base s :
  pmm_total_pages (pm (pmm_reserve base s)) = pmm_total_pages (pm s).
Proof.
  unfold pmm_reserve, reserve_segment. by rewrite reserve_page_total, !reserve_loop_total.
Qed.

Lemma pmm_reserve_fields base s :
  bitmap_ok s -> kernel_ok kstart kend -> 0 <= base ->
  base + pmm_bitmap_bytes (pm s) <= VMM_DIRECT_MAP_LIMIT ->
  same_bitmap s (pmm_reserve base s).
Proof.
  intros Hok (Hk1 & Hk2) Hb0 Hlim. unfold pmm_reserve.
  assert (Hbytes : 0 <= pmm_bitmap_bytes (pm s)).
  { rewrite (ok_bytes s Hok). pose proof (ok_max s Hok). apply Z.div_pos; lia. }
  rewrite wrap_small by lia.
  destruct (reserve_segment_spec base (base + pmm_bitmap_bytes (pm s)) s) as (O1 & _ & (? & ? & ?) & _);
    [done|lia..|].
  destruct (reserve_segment_spec kstart kend _ O1) as (O2 & _ & (? & ? & ?) & _); [lia..|].
  destruct (reserve_page_spec 0 _ O2) as (_ & _ & (? & ? & ?) & _); [lia|].
  unfold same_bitmap. split_and!; congruence.
Qed.

(** The heart of [pmm_init]: from a filled bitmap at [base]. *)
Lemma pmm_build mbi es s base :
  mbi_wf (mem s) mbi es -> kernel_ok kstart kend -> Forall entry_ok es -> regions_apart es ->
  0 < base -> base + bitmap_bytes_of es <= VMM_DIRECT_MAP_LIMIT -> base < VMM_DIRECT_MAP_LIMIT ->
  (forall a, base <= a < base + bitmap_bytes_of es -> ~ boot_data (mem s) mbi a) ->
  exists n s1, clear_usable_pages mbi (pmm_prepare base (max_page_of es) s) = Done (n, s1) /\
    pmm_booted es base s (pmm_reserve base (set_page_counts n s1)).
Proof.
  intros Hwf Hk Hes Hap Hb0 Hlim Hlt Hdis.
  destruct (max_page_fold es 0 Hes ltac:(lia)) as [Hmax Hend]. fold (max_page_of es) in Hmax, Hend.
  set (s0 := pmm_prepare base (max_page_of es) s).
  assert (Hbytes : pmm_bitmap_bytes (pm s0) = bitmap_bytes_of es).
  { unfold s0, bitmap_bytes_of. simpl. by rewrite wrap_small by lia. }
  assert (Hin : forall a, in_bitmap s0 a <-> base <= a < base + bitmap_bytes_of es).
  { intros a. unfold in_bitmap. rewrite Hbytes. unfold s0. simpl. by rewrite phys_phys_to_virt by lia. }
  assert (Hch0 : only_changes (fun a => base <= a < base + bitmap_bytes_of es) (mem s) (mem s0)).
  { unfold s0, pmm_prepare. rewrite bitmap_fill_mem. apply only_changes_memset. simpl.
    rewrite phys_phys_to_virt, wrap_small by lia. done. }
  destruct (mbi_wf_ext (mem s) (mem s0) mbi es Hwf) as [Hwf0 Hbd0].
  { intros a Ha. apply Hch0. intros Ha'. by apply (Hdis a). }
  rewrite (clear_usable_pages_eq mbi es s0); try done.
  2: { simpl. lia. }
  2: { intros a Ha Hbd. apply (Hdis a); [by apply Hin|by apply Hbd0]. }
  assert (Hfull : forall p, page_free s0 p = false)
    by (intros p; apply bitmap_fill_full; simpl; by rewrite wrap_small by lia).
  destruct (clear_fold es 0 s0) as (R1 & R2 & R3 & R4); try done.
  { simpl. lia. }
  { symmetry. by apply count_range_none. }
  destruct (foldl _ (0, s0) es) as [n s1] eqn:Ef. exists n, s1. split; [done|]. simpl in R1, R2, R3, R4.
  assert (Hpm : pm s1 = pm s0) by (rewrite R2; done).
  set (s2 := set_page_counts n s1).
  assert (HF2 : forall p, page_free s2 p = usable es p) 
    by (intros p; change (page_free s2 p) with (page_free s1 p); by rewrite R4, Hfull).
  assert (Hok : bitmap_ok s2).
  { split; simpl; rewrite ?Hpm, ?Hbytes.
    - simpl. lia.
    - done.
    - simpl. rewrite phys_phys_to_virt by lia. lia.
    - done. }
  destruct (pmm_reserve_spec base s2 Hok Hk) as (Hinv & Ht & HF); simpl; rewrite ?Hpm, ?Hbytes; try done; [lia|].
  destruct (pmm_reserve_fields base s2 Hok Hk) as (B1 & B2 & B3); simpl; rewrite ?Hpm, ?Hbytes; try done; [lia|].
  split; try done.
  - rewrite B3. simpl. by rewrite Hpm.
  - rewrite B1. simpl. rewrite Hpm. simpl. by rewrite phys_to_virt_in by lia.
  - intros p. rewrite HF, HF2. simpl. by rewrite Hpm, Hbytes.
  - etransitivity; [exact Hch0|]. etransitivity.
    + eapply only_changes_mono; [|exact R3]. intros a. apply Hin.
    + eapply only_changes_mono; [|exact (pmm_total_touch _ _ _ Ht)].
      intros a Ha. apply Hin. unfold in_bitmap in *. simpl in Ha. by rewrite Hpm in Ha.
  - rewrite pmm_reserve_total. simpl. rewrite R1. simpl. apply count_range_ext.
    intros p _. by rewrite R4, Hfull.
  - rewrite (proj1 Ht). unfold s2. simpl. by rewrite R2.
Qed.

(** [pmm_init] on a well-formed boot environment. *)
Lemma pmm_init_boots mbi es s base :
  mbi_wf (mem s) mbi es -> kernel_ok kstart kend -> Forall entry_ok es -> regions_apart es ->
  base = segment_of (bitmap_bytes_of es) (avoid_ranges kstart kend mbi s) es -> 0 < base ->
  base + bitmap_bytes_of es <= VMM_DIRECT_MAP_LIMIT -> base < VMM_DIRECT_MAP_LIMIT ->
  kend - kstart <= overlap_of es ->
  exists s', pmm_init kstart kend mbi s = Done s' /\ pmm_booted es base s s'.
Proof.
  intros Hwf Hk Hes Hap Hbase Hb0 Hlim Hlt Hov. unfold pmm_init.
  destruct (check_mmap_ok mbi es s Hwf) as [t ->]. cbn [obind].
  rewrite (find_max_page_ok mbi es (set_con t s) Hwf). cbn [obind].
  destruct (max_page_fold es 0 Hes ltac:(lia)) as [Hmax Hend]. fold (max_page_of es) in Hmax, Hend.
  rewrite (wrap_small 32 (max_page_of es)) by lia.
  set (s1 := set_max_page (max_page_of es) (set_con t s)).
  assert (Hbytes : pmm_bitmap_bytes (pm s1) = bitmap_bytes_of es).
  { unfold s1, bitmap_bytes_of. simpl. by rewrite wrap_small by lia. }
  assert (0 <= bitmap_bytes_of es <= 131072).
  { unfold bitmap_bytes_of. split; [apply Z.div_pos; lia|apply Z.div_le_upper_bound; lia]. }
  rewrite Hbytes, (find_segment_eq kstart kend mbi _ es s1) by done. cbn [obind].
  change (avoid_ranges kstart kend mbi s1) with (avoid_ranges kstart kend mbi s). rewrite <- Hbase.
  rewrite (proj2 (Z.eqb_neq base 0)) by lia.
  rewrite (check_kernel_location_eq mbi es s1) by done.
  rewrite (proj2 (Z.ltb_ge _ _) Hov). cbn [obind]. cbv zeta.
  change (pmm_bitmap (pm (set_bitmap (vmm_phys_to_virt base) s1))) with (vmm_phys_to_virt base).
  assert (Hnn : (vmm_phys_to_virt base =? NULL) = false)
    by (rewrite phys_to_virt_in by lia; apply Z.eqb_neq; lia).
  rewrite Hnn.
  destruct (pmm_build mbi es (set_con t s) base) as (n & s2 & Hcl & Hbt); try done.
  { by apply placed_clear. }
  unfold pmm_prepare in Hcl. fold s1 in Hcl. rewrite Hcl. cbn [obind].
  eexists. split; [reflexivity|]. unfold pmm_reserve in Hbt. rewrite kprint_con.
  destruct Hbt as [Hi Hm Hb Hf Hc Ht Hh]. split; try done.
  by destruct Hi as [[] ? ?].
Qed.

(** C16: [pmm_init] succeeds on well-formed boot data and builds the allocator:
    the pages that are free afterwards are exactly the pages of RAM regions
    other than page 0, the bitmap's pages and the kernel's pages; the total is
    the number of RAM pages; and nothing but the bitmap is written. *)
Theorem pmm_init_done mbi es s base :
  mbi_wf (mem s) mbi es -> kernel_ok kstart kend -> Forall entry_ok es -> regions_apart es ->
  base = segment_of (bitmap_bytes_of es) (avoid_ranges kstart kend mbi s) es -> 0 < base ->
  base + bitmap_bytes_of es <= VMM_DIRECT_MAP_LIMIT -> base < VMM_DIRECT_MAP_LIMIT ->
  kend - kstart <= overlap_of es ->
  exists s', pmm_init kstart kend mbi s = Done s' /\ pmm_booted es base s s'.
Proof. apply pmm_init_boots. Qed.

End pmm_init_spec.
