(* ===== verification/PmmTheorems.v ===== *)
(** * The theorems about the page allocator *)

From S2P Require Import Prelude Memory Tty Printk Machine FrameAlloc Pmm.

(** ** One call *)

(** [pmm_alloc_page] returns the lowest free page and takes exactly that
    page, or 0 when the free-page counter is 0; it writes nothing outside the
    bitmap. *)
Theorem pmm_alloc_correct s :
  pmm_inv s ->
  let '(addr, s') := pmm_alloc_page s in
  pmm_inv s' /\ only_changes (in_bitmap s) (mem s) (mem s') /\
  ((addr = 0 /\ s' = s /\ pmm_get_free_pages s = 0) \/
   (exists p, addr = p * 4096 /\ 0 < p < 1048576 /\ page_free s p = true /\
      (forall q, q < p -> page_free s q = false) /\
      (forall q, page_free s' q = page_free s q && negb (q =? p)) /\
      pmm_get_free_pages s' = pmm_get_free_pages s - 1)).
Proof.
  intros Hinv. pose proof (inv_ok s Hinv) as Hok. unfold pmm_get_free_pages.
  destruct (alloc_page_cases s Hinv) as [[-> Hno]|(p & -> & Hf & Hp & Hlow)].
  - split; [done|]. split; [done|]. left. split; [done|]. split; [done|].
    rewrite (ok_free s Hok). by apply count_range_none.
  - split; [by apply take_page_inv|]. split; [apply touches_take; [done|by apply page_free_true]|]. right. exists p.
    do 4 (split; [done|]). split; [by apply take_page_free|]. by rewrite take_page_eq.
Qed.

(** [pmm_free_page] of any address: the page it lies in becomes free and
    the counter goes up by one when that page is managed and taken; page 0, a
    page beyond the bitmap and a page that is already free are left alone. *)
Theorem pmm_free_correct s p o :
  bitmap_ok s -> 0 <= p < 1048576 -> 0 <= o < 4096 ->
  let s' := pmm_free_page (p * 4096 + o) s in
  if negb (p =? 0) && (p <? pmm_max_page (pm s)) && negb (page_free s p)
  then bitmap_ok s' /\ (forall q, page_free s' q = page_free s q || (q =? p)) /\
       pmm_get_free_pages s' = pmm_get_free_pages s + 1 /\
       only_changes (in_bitmap s) (mem s) (mem s')
  else s' = s.
Proof.
  intros Hok Hp Ho s'.
  assert (E : s' = pmm_free_page (p * 4096) s).
  { unfold s', pmm_free_page. rewrite !shiftr_12.
    replace ((p * 4096 + o) / 4096) with (p * 4096 / 4096); [done|]. Z.div_mod_to_equations; lia. }
  rewrite E, free_page_cases. unfold page_free at 1.
  destruct (Z.eqb_spec p 0), (Z.leb_spec 0 p), (Z.ltb_spec p (pmm_max_page (pm s))); simpl; try lia; try done.
  rewrite negb_involutive. destruct (page_bit s p) eqn:Hb; [|done].
  assert (Hpf : page_free s p = false) by (unfold page_free; by rewrite Hb, andb_false_r).
  destruct (give_page_ok s p Hok) as [? ?]; [lia|done|]. split; [done|]. split; [done|].
  split; [unfold pmm_get_free_pages; rewrite give_page_eq by (done || lia); done|].
  apply touches_give; [done|lia].
Qed.

(** Setting and then clearing a clear bit of a byte. *)
Lemma set_clear_bit x k :
  0 <= x < 256 -> 0 <= k < 8 -> Z.testbit x k = false ->
  u8 (Z.land (u8 (Z.lor x (Z.shiftl 1 k))) (u32 (Z.lnot (Z.shiftl 1 k)))) = x.
Proof.
  intros Hx Hk Hb. apply Z.bits_inj'. intros i Hi. destruct (decide (i < 8)) as [Hlt|Hge]; cycle 1.
  { unfold wrap at 1. rewrite Z.mod_pow2_bits_high by lia.
    rewrite <- (Z.mod_small x (2 ^ 8)) by lia. by rewrite Z.mod_pow2_bits_high by lia. }
  rewrite testbit_u8, Z.land_spec, testbit_u8, Z.lor_spec, testbit_one by lia.
  unfold wrap. rewrite Z.mod_pow2_bits_low, Z.lnot_spec, testbit_one by lia.
  destruct (Z.eqb_spec i k) as [->|]; simpl; [by rewrite Hb|]. by rewrite orb_false_r, andb_true_r.
Qed.

(** Freeing a page that was just allocated restores the allocator: every
    byte of memory and every variable is as before. *)
Theorem pmm_alloc_free_roundtrip s addr s' :
  pmm_inv s -> pmm_alloc_page s = (addr, s') -> addr <> 0 ->
  pm (pmm_free_page addr s') = pm s /\ mem (pmm_free_page addr s') ≡ₘ mem s.
Proof.
  intros Hinv Ha Hne. pose proof (inv_ok s Hinv) as Hok.
  destruct (alloc_page_cases s Hinv) as [[E _]|(p & E & Hf & Hp & _)]; rewrite Ha in E; injection E as -> ->; [done|].
  pose proof (take_page_free s p Hok Hf p) as Hf'. rewrite Hf, Z.eqb_refl in Hf'. simpl in Hf'.
  pose proof (take_page_ok s p Hok Hf) as Hok'.
  rewrite take_page_eq in * by done. set (s1 := set_free_pages _ _) in *.
  apply page_free_true in Hf as [Hr Hb].
  assert (Hmax : pmm_max_page (pm s1) = pmm_max_page (pm s)) by done.
  assert (Hbit : page_bit s1 p = true).
  { unfold page_free in Hf'. rewrite Hmax, (proj2 (Z.leb_le 0 p)), (proj2 (Z.ltb_lt _ _)) in Hf' by lia.
    simpl in Hf'. by apply negb_false_iff in Hf'. }
  rewrite free_page_cases, Hmax, Hbit, (proj2 (Z.eqb_neq p 0)), (proj2 (Z.ltb_lt p _)) by lia. cbn [negb andb].
  rewrite give_page_eq by (done || lia). split.
  - simpl. destruct (pm s). simpl. f_equal. lia.
  - intros a. simpl. unfold bitmap_byte, wr8, rd8. simpl. rewrite load8_store8. case_decide as Hd; cycle 1.
    { by rewrite load8_store8_ne. }
    rewrite load8_store8_eq, <- Hd. apply set_clear_bit; [apply load8_range|apply page_mod8|done].
Qed.

(** ** Histories *)

(** The pages a client holds, while it allocates and gives back. *)
Inductive pmm_call : mm * list Z -> mm * list Z -> Prop :=
  | pc_alloc s L p s' : p <> 0 -> pmm_alloc_page s = (p * 4096, s') -> pmm_call (s, L) (s', p :: L)
  | pc_alloc_failed s L s' : pmm_alloc_page s = (0, s') -> pmm_call (s, L) (s', L)
  | pc_free s L p L' : L ≡ₚ p :: L' -> pmm_call (s, L) (pmm_free_page (p * 4096) s, L').

(** The client's pages are distinct, managed, taken, and none of them carries
    the bitmap. *)
Record client_ok (s : mm) (L : list Z) : Prop := {
  co_inv : pmm_inv s;
  co_nodup : NoDup L;
  co_page p : p ∈ L -> 0 < p < pmm_max_page (pm s) /\ page_free s p = false /\
    forall a, in_bitmap s a -> a / 4096 <> p;
}.


Lemma take_page_vars s p : pmm_max_page (pm (take_page p s)) = pmm_max_page (pm s) /\
  forall a, in_bitmap (take_page p s) a <-> in_bitmap s a.
Proof.
  unfold take_page. destruct (dec_free_frame (bitmap_set p s)) as (_ & Hb & Hy & Hm).
  unfold in_bitmap. by rewrite Hm, Hb, Hy.
Qed.

Lemma pmm_call_step a b :
  pmm_call a b -> client_ok a.1 a.2 ->
  client_ok b.1 b.2 /\
  pmm_get_free_pages b.1 + Z.of_nat (length b.2) = pmm_get_free_pages a.1 + Z.of_nat (length a.2).
Proof.
  unfold pmm_get_free_pages.
  intros [s L p s' Hne Ha|s L s' Ha|s L p L' HL] [Hinv Hnd Hco]; simpl in *.
  - pose proof (inv_ok s Hinv) as Hok.
    destruct (alloc_page_cases s Hinv) as [[E _]|(q & E & Hf & Hq & _)]; rewrite Ha in E; injection E as E ->; [lia|].
    assert (q = p) as -> by lia. destruct (take_page_vars s p) as [Hm Hin].
    pose proof (take_page_free s p Hok Hf) as Hf'. split; [split|].
    + by apply take_page_inv.
    + constructor; [|done]. intros Hp. destruct (Hco p Hp) as (_ & ? & _). congruence.
    + intros q [->|Hq']%elem_of_cons; rewrite Hm, Hf'.
      * split; [apply page_free_true in Hf; lia|]. rewrite Z.eqb_refl, andb_false_r. split; [done|].
        intros x Hx%Hin <-. pose proof (inv_self s Hinv x Hx). congruence.
      * destruct (Hco q Hq') as (? & -> & Hbm). split; [done|]. split; [done|]. intros x. rewrite Hin. apply Hbm.
    + rewrite take_page_eq by done. simpl. lia.
  - destruct (alloc_page_cases s Hinv) as [[E _]|(q & E & _ & Hq & _)]; rewrite Ha in E; inversion E; subst; [done|lia].
  - destruct (Hco p) as (Hp & Hpf & Hbm); [rewrite HL; by left|].
    rewrite HL in Hnd. apply NoDup_cons in Hnd as [Hnp Hnd].
    assert (Hbit : page_bit s p = true).
    { unfold page_free in Hpf. rewrite (proj2 (Z.leb_le 0 p)), (proj2 (Z.ltb_lt _ _)) in Hpf by lia.
      simpl in Hpf. by apply negb_false_iff in Hpf. }
    rewrite free_page_cases, Hbit, (proj2 (Z.eqb_neq p 0)), (proj2 (Z.ltb_lt p _)) by lia. cbn [negb andb].
    destruct (give_page_inv s p Hinv Hp Hpf Hbm) as [Hinv' Hf']. split; [split; [done|done|]|].
    + intros q Hq. destruct (Hco q) as (Hqr & Hqf & Hqb); [rewrite HL; by right|].
      split; [done|]. split; [|done]. rewrite Hf', Hqf. apply Z.eqb_neq. by intros ->.
    + rewrite give_page_eq by (apply Hinv || done || lia). simpl. rewrite HL. simpl. lia.
Qed.

(** C17: Over any history of allocations and frees of held pages, no page is
    handed out twice, none carries the bitmap or is page 0, and the free-page
    counter plus the pages held is constant. *)
Theorem pmm_history a b :
  rtc pmm_call a b -> client_ok a.1 a.2 ->
  client_ok b.1 b.2 /\
  pmm_get_free_pages b.1 + Z.of_nat (length b.2) = pmm_get_free_pages a.1 + Z.of_nat (length a.2).
Proof.
  induction 1 as [a|a c b Hc _ IH]; intros Hok; [done|].
  destruct (pmm_call_step a c Hc Hok) as [Hok' <-]. by apply IH.
Qed.

(** ** Memory above 4 GiB *)

(** C40: On a machine with RAM above 4 GiB the shift in [pmm_alloc_page] drops
    the upper bits: when the lowest free page is page 2^20 + [p], the caller
    gets the address of page [p], which is taken (and 0, the error value, for
    [p] = 0). *)
Theorem pmm_alloc_above_4gib s p :
  0 <= p < 1048576 -> 1048576 + p < pmm_max_page (pm s) ->
  (forall q, 1 <= q < 1048576 + p -> page_bit s q = true) -> page_bit s (1048576 + p) = false ->
  (pmm_alloc_page s).1 = p * 4096 /\ page_bit s (1048576 + p) = false /\
  page_bit (pmm_alloc_page s).2 (1048576 + p) = true.
Proof.
  intros Hp Hmax Htaken Hfree. unfold pmm_alloc_page.
  assert (E : find_range 1 (pmm_max_page (pm s)) (fun i => bitmap_test i s =? 0) = Some (1048576 + p)).
  { apply find_range_Some. rewrite bitmap_test_bit, Hfree. split; [lia|]. split; [done|].
    intros j Hj. by rewrite bitmap_test_bit, Htaken. }
  rewrite E. cbn [fst snd]. split; [|split; [done|]].
  - rewrite shiftl_12. ulia.
  - assert (Hb : page_bit (bitmap_set (1048576 + p) s) (1048576 + p) = true)
      by (rewrite page_bit_set by lia; by rewrite Z.eqb_refl).
    unfold dec_free_pages. by case_if.
Qed.
