(* ===== verification/Vmm.v ===== *)
(** * Virtual memory (src/kernel/mm/vmm.c)

    Two-level i386 page tables, stored in physical frames that come from the
    page allocator and reached through the direct map.  [vmm_get_paddr_in]
    takes the pointer [paddr] for its NULL test; the value stored through it is
    the [Some] of the result, and -1 is [None]. *)

From S2P Require Import Prelude Memory Tty Printk Machine FrameAlloc Pmm.

Abbreviation PAGE_TABLE_SPAN := 0x400000.
Abbreviation KERNEL_PDE_INDEX := 768.
Abbreviation VMM_PAGE_PRESENT := 1.
Abbreviation VMM_PAGE_WRITABLE := 2.
Abbreviation VMM_PAGE_USER := 4.

Definition VMM_PDE_INDEX (vaddr : Z) : Z := Z.land (Z.shiftr vaddr 22) 0x3ff.
Definition VMM_PTE_INDEX (vaddr : Z) : Z := Z.land (Z.shiftr vaddr 12) 0x3ff.

(** [p[i]] for [uint32_t *p]. *)
Definition rdw (m : memory) (p i : Z) : Z := rd32 m (p + 4 * i).
Definition wrw (p i v : Z) (s : mm) : mm := set_mem (wr32 (mem s) (p + 4 * i) v) s.

(** ** vmm_init *)

(** The inner loop of [vmm_init]: table [i] maps the frames of its span. *)
Definition fill_page_table (kernel_pt_ptr i : Z) (s : mm) : mm :=
  for_range 0 1024 (fun j s =>
    let frame := (i *u PAGE_TABLE_SPAN) +u (j *u PMM_PAGE_SIZE) in
    wrw kernel_pt_ptr j (Z.lor frame 0x3) s) s.

(** The body of the outer loop. *)
Definition vmm_init_table (pd_ptr i : Z) (s : mm) : outcome mm :=
  let '(kernel_page_table, s) := pmm_alloc_page s in
  if kernel_page_table =? 0 then panic "vmm: page table allocation failed" s
  else
    let kernel_pt_ptr := vmm_phys_to_virt kernel_page_table in
    if kernel_pt_ptr =? NULL then panic "vmm: page table is outside direct map" s
    else
      let s := set_mem (memset (mem s) kernel_pt_ptr 0 PMM_PAGE_SIZE) s in
      let s := fill_page_table kernel_pt_ptr i s in
      Done (wrw pd_ptr (KERNEL_PDE_INDEX + i) (Z.lor kernel_page_table 0x3) s).

Definition vmm_init (limit : Z) (s : mm) : outcome mm :=
  if limit <? 1 then panic "vmm: limit must be more than 0" s
  else if negb (limit mod PAGE_TABLE_SPAN =? 0)
  then panic "vmm: limit must be a multiple of page table span" s
  else
    let '(kpd, s) := pmm_alloc_page s in
    let s := set_kpd kpd s in
    if kpd =? 0 then panic "vmm: page directory allocation failed" s
    else
      let pd_ptr := vmm_phys_to_virt kpd in
      if pd_ptr =? NULL then panic "vmm: page directory is outside direct map" s
      else
        let s := set_mem (memset (mem s) pd_ptr 0 PMM_PAGE_SIZE) s in
        let* s := for_range 0 (limit / PAGE_TABLE_SPAN) (fun i c =>
          let* s := c in vmm_init_table pd_ptr i s) (Done s) in
        Done (paging_enable (paging_load_directory kpd s)).

Definition vmm_get_kernel_address_space (s : mm) : Z := kernel_page_directory s.

(** ** Address spaces *)

(** The loop of [vmm_create_address_space] that shares the kernel half. *)
Definition copy_kernel_pdes (new_pd current_pd : Z) (s : mm) : mm :=
  for_range KERNEL_PDE_INDEX 1024 (fun i s =>
    wrw new_pd i (rdw (mem s) current_pd i) s) s.

Definition vmm_create_address_space (s : mm) : Z * mm :=
  let '(address_space, s) := pmm_alloc_page s in
  if address_space =? 0 then (0, s)
  else
    let new_pd := vmm_phys_to_virt address_space in
    if new_pd =? NULL then (0, pmm_free_page address_space s)
    else
      let s := set_mem (memset (mem s) new_pd 0 PMM_PAGE_SIZE) s in
      let current_pd := vmm_phys_to_virt (kernel_page_directory s) in
      (address_space, copy_kernel_pdes new_pd current_pd s).

(** The loop of [vmm_destroy_address_space]. *)
Definition free_page_tables (pd_ptr : Z) (s : mm) : mm :=
  for_range 0 KERNEL_PDE_INDEX (fun i s =>
    let pde := rdw (mem s) pd_ptr i in
    if negb (Z.land pde VMM_PAGE_PRESENT =? 0)
    then pmm_free_page (Z.land pde 0xfffff000) s else s) s.

Definition vmm_destroy_address_space (address_space : Z) (s : mm) : mm :=
  if (address_space =? 0) || (address_space =? kernel_page_directory s) then s
  else
    let pd_ptr := vmm_phys_to_virt address_space in
    if pd_ptr =? NULL then s
    else pmm_free_page address_space (free_page_tables pd_ptr s).

(** ** Mapping *)

Definition vmm_get_page_table_in (address_space vaddr : Z) (s : mm) : Z :=
  if address_space =? 0 then NULL
  else
    let pd_ptr := vmm_phys_to_virt address_space in
    if pd_ptr =? NULL then NULL
    else
      let pde := rdw (mem s) pd_ptr (VMM_PDE_INDEX vaddr) in
      if Z.land pde 0x1 =? 0 then NULL
      else vmm_phys_to_virt (Z.land pde 0xfffff000).

(** The page table [vmm_map_page_in] writes to: the one of the directory entry,
    or a fresh one; [None] is the early [return -1]. *)
Definition map_page_table (pd_ptr pd_idx : Z) (s : mm) : option Z * mm :=
  let pde := rdw (mem s) pd_ptr pd_idx in
  if negb (Z.land pde VMM_PAGE_PRESENT =? 0) then
    let pt_ptr := vmm_phys_to_virt (Z.land pde 0xfffff000) in
    if pt_ptr =? NULL then (None, s) else (Some pt_ptr, s)
  else
    let '(page_table, s) := pmm_alloc_page s in
    if page_table =? 0 then (None, s)
    else
      let pt_ptr := vmm_phys_to_virt page_table in
      if pt_ptr =? NULL then (None, pmm_free_page page_table s)
      else
        let s := set_mem (memset (mem s) pt_ptr 0 PMM_PAGE_SIZE) s in
        (Some pt_ptr, wrw pd_ptr pd_idx (Z.lor page_table VMM_PAGE_PRESENT) s).

Definition vmm_map_page_in (address_space vaddr paddr flags : Z) (s : mm) : Z * mm :=
  if (address_space =? 0) || negb (Z.land vaddr (PMM_PAGE_SIZE - 1) =? 0) then (-1, s)
  else if negb (Z.land paddr (PMM_PAGE_SIZE - 1) =? 0) then (-1, s)
  else
    let pd_idx := VMM_PDE_INDEX vaddr in
    if negb (address_space =? kernel_page_directory s) && (KERNEL_PDE_INDEX <=? pd_idx)
    then (-1, s)
    else
      let pd_ptr := vmm_phys_to_virt address_space in
      if pd_ptr =? NULL then (-1, s)
      else
        match map_page_table pd_ptr pd_idx s with
        | (None, s) => (-1, s)
        | (Some pt_ptr, s) =>
          let pt_idx := VMM_PTE_INDEX vaddr in
          if negb (Z.land (rdw (mem s) pt_ptr pt_idx) VMM_PAGE_PRESENT =? 0) then (-1, s)
          else
            let s := wrw pd_ptr pd_idx (Z.lor (rdw (mem s) pd_ptr pd_idx)
              (Z.land flags (Z.lor VMM_PAGE_WRITABLE VMM_PAGE_USER))) s in
            let s := wrw pt_ptr pt_idx (Z.lor paddr (Z.land flags 0xfff)) s in
            (0, paging_tlb_invalidate vaddr s)
        end.

Definition vmm_map_page (vaddr paddr flags : Z) (s : mm) : Z * mm :=
  if negb (Z.land vaddr (PMM_PAGE_SIZE - 1) =? 0)
     || negb (Z.land paddr (PMM_PAGE_SIZE - 1) =? 0) then (-1, s)
  else
    let pt_ptr := vmm_get_page_table_in (kernel_page_directory s) vaddr s in
    let s := if negb (pt_ptr =? NULL) then wrw pt_ptr (VMM_PTE_INDEX vaddr) 0 s else s in
    vmm_map_page_in (kernel_page_directory s) vaddr paddr flags s.

Definition vmm_unmap_page_in (address_space vaddr : Z) (s : mm) : Z * mm :=
  if (address_space =? 0) || negb (Z.land vaddr (PMM_PAGE_SIZE - 1) =? 0) then (-1, s)
  else if negb (address_space =? kernel_page_directory s)
     && (KERNEL_PDE_INDEX <=? VMM_PDE_INDEX vaddr) then (-1, s)
  else
    let pt_ptr := vmm_get_page_table_in address_space vaddr s in
    if pt_ptr =? NULL then (-1, s)
    else
      let pt_idx := VMM_PTE_INDEX vaddr in
      if Z.land (rdw (mem s) pt_ptr pt_idx) VMM_PAGE_PRESENT =? 0 then (-1, s)
      else (0, paging_tlb_invalidate vaddr (wrw pt_ptr pt_idx 0 s)).

Definition vmm_unmap_page (vaddr : Z) (s : mm) : Z * mm :=
  vmm_unmap_page_in (kernel_page_directory s) vaddr s.

Definition vmm_get_paddr_in (address_space vaddr paddr : Z) (s : mm) : option Z :=
  let pt_ptr := vmm_get_page_table_in address_space vaddr s in
  if (paddr =? NULL) || (pt_ptr =? NULL) then None
  else
    let pte := rdw (mem s) pt_ptr (VMM_PTE_INDEX vaddr) in
    if Z.land pte VMM_PAGE_PRESENT =? 0 then None
    else Some (Z.lor (Z.land pte 0xfffff000) (Z.land vaddr 0xfff)).

Definition vmm_get_paddr (vaddr paddr : Z) (s : mm) : option Z :=
  vmm_get_paddr_in (kernel_page_directory s) vaddr paddr s.
