(* ===== verification/VmmSpec.v ===== *)
(** * What the page tables mean

    [walk] is the address translation of the i386 MMU, on physical memory; it
    is the abstract view of an address space.  [vm_inv] is the invariant of
    all the page directories of the system.  The lemmas say what one write to
    a directory or to a table does to both; VmmProof.v composes them into the
    contracts of the functions of vmm.c. *)

From S2P Require Import Prelude Memory Tty Printk Machine FrameAlloc Pmm Vmm.

(** ** Entries *)

Definition present (e : Z) : bool := Z.testbit e 0.
Definition writable (e : Z) : bool := Z.testbit e 1.
Definition user (e : Z) : bool := Z.testbit e 2.
Definition frame (e : Z) : Z := e / 4096.

(** The rights [a] are among the rights [b]. *)
Definition rights_le (a b : Z) : Prop :=
  (writable a = true -> writable b = true) /\ (user a = true -> user b = true).

(** Word [i] of physical frame [p]. *)
Definition entry (m : memory) (p i : Z) : Z := load32 m (p * 4096 + 4 * i).

Definition pd_index (v : Z) : Z := v / 4194304.
Definition pt_index (v : Z) : Z := (v / 4096) mod 1024.

(** The MMU's two-level walk from the directory in frame [d]: the physical
    address, and whether user mode may write and may access at all. *)
Definition walk (m : memory) (d v : Z) : option (Z * bool * bool) :=
  let pde := entry m d (pd_index v) in
  if present pde then
    let pte := entry m (frame pde) (pt_index v) in
    if present pte then
      Some (frame pte * 4096 + v mod 4096, writable pde && writable pte, user pde && user pte)
    else None
  else None.

Definition vaddr_ok (v : Z) : Prop := 0 <= v < 4294967296.

(** ** Bit-level lemmas *)

Lemma present_land e : (Z.land e 1 =? 0) = negb (present e).
Proof.
  unfold present. rewrite land_1, Z.bit0_eqb. pose proof (Z.mod_pos_bound e 2).
  by destruct (Z.eqb_spec (e mod 2) 0), (Z.eqb_spec (e mod 2) 1); simpl; lia || done.
Qed.

Lemma frame_land e : 0 <= e < 4294967296 -> Z.land e 0xfffff000 = frame e * 4096.
Proof.
  intros. rewrite land_fffff000. unfold frame. f_equal. apply Z.mod_small.
  split; [apply Z.div_pos; lia|]. apply Z.div_lt_upper_bound; lia.
Qed.

Lemma lor_range a b :
  0 <= a < 4294967296 -> 0 <= b < 4294967296 -> 0 <= Z.lor a b < 4294967296.
Proof.
  intros. split; [apply Z.lor_nonneg; lia|].
  destruct (decide (Z.lor a b = 0)); [lia|]. apply (Z.log2_lt_pow2 _ 32).
  { pose proof (proj2 (Z.lor_nonneg a b)). lia. }
  rewrite Z.log2_lor by lia.
  apply Z.max_lub_lt; [destruct (decide (a = 0)) as [->|]|destruct (decide (b = 0)) as [->|]];
    try (apply Z.log2_lt_pow2; lia); done.
Qed.

Lemma testbit_page p k : 0 <= k < 12 -> Z.testbit (p * 4096) k = false.
Proof. intros. change 4096 with (2 ^ 12). apply Z.mul_pow2_bits_low; lia. Qed.

Lemma frame_lor a b : 0 <= b < 4096 -> frame (Z.lor a b) = frame a.
Proof.
  intros. unfold frame. rewrite <- !shiftr_12, Z.shiftr_lor.
  rewrite (shiftr_12 b), Z.div_small, Z.lor_0_r by done. done.
Qed.

Lemma frame_page p : frame (p * 4096) = p.
Proof. unfold frame. by rewrite Z.div_mul. Qed.

Lemma land_6_range flags : 0 <= Z.land flags 6 < 4096.
Proof.
  rewrite (land_field flags 1 2 6) by done.
  pose proof (Z.mod_pos_bound (flags / 2 ^ 1) (2 ^ 2)). lia.
Qed.

Lemma land_fff_range flags : 0 <= Z.land flags 4095 < 4096.
Proof. rewrite land_4095. apply Z.mod_pos_bound. lia. Qed.

Lemma pd_index_of v : vaddr_ok v -> VMM_PDE_INDEX v = pd_index v /\ 0 <= pd_index v < 1024.
Proof.
  intros Hv. unfold VMM_PDE_INDEX, pd_index, vaddr_ok in *. rewrite shiftr_22, land_1023.
  assert (0 <= v / 4194304 < 1024) by (split; [apply Z.div_pos|apply Z.div_lt_upper_bound]; lia).
  split; [by apply Z.mod_small|done].
Qed.

Lemma pt_index_of v : VMM_PTE_INDEX v = pt_index v /\ 0 <= pt_index v < 1024.
Proof.
  unfold VMM_PTE_INDEX, pt_index. rewrite shiftr_12, land_1023.
  split; [done|]. by apply Z.mod_pos_bound.
Qed.

(** The two indices name the page. *)
Lemma page_indices v v' :
  pd_index v = pd_index v' -> pt_index v = pt_index v' -> v / 4096 = v' / 4096.
Proof. unfold pd_index, pt_index. intros. Z.div_mod_to_equations; lia. Qed.

Lemma same_page_indices v v' :
  v / 4096 = v' / 4096 -> pd_index v = pd_index v' /\ pt_index v = pt_index v'.
Proof.
  unfold pd_index, pt_index. intros E. rewrite E. split; [|done].
  change 4194304 with (4096 * 1024). rewrite <- !Z.div_div by lia. by rewrite E.
Qed.

Lemma kernel_half v : vaddr_ok v -> 768 <= pd_index v <-> VMM_KERNEL_VIRTUAL_BASE <= v.
Proof. unfold pd_index, vaddr_ok. intros. split; intros; Z.div_mod_to_equations; lia. Qed.

(** ** Frames of memory *)

Lemma entry_range m p i : 0 <= entry m p i < 4294967296.
Proof. apply load32_range. Qed.
#[export] Hint Resolve entry_range : cint.

Lemma entry_same m m' p i : same_frame m m' p -> 0 <= i < 1024 -> entry m' p i = entry m p i.
Proof. intros Hs Hi. apply load32_ext. intros b Hb. apply Hs. Z.div_mod_to_equations; lia. Qed.

Lemma frame_of_entry p i b : 0 <= i < 1024 -> 4 * i <= b - p * 4096 < 4 * i + 4 -> b / 4096 = p.
Proof. intros. Z.div_mod_to_equations; lia. Qed.

(** A word written through the direct map. *)
Lemma rdw_entry m p i : 0 <= p < 4096 -> rdw m (vmm_phys_to_virt (p * 4096)) i = entry m p i.
Proof.
  intros. unfold rdw, rd32, entry. rewrite phys_to_virt_in by lia. f_equal. unfold phys. lia.
Qed.

Definition put (p i e : Z) (s : mm) : mm := set_mem (store32 (mem s) (p * 4096 + 4 * i) e) s.

Lemma wrw_put p i e s : 0 <= p < 4096 -> wrw (vmm_phys_to_virt (p * 4096)) i e s = put p i e s.
Proof.
  intros. unfold wrw, put, wr32. rewrite phys_to_virt_in by lia.
  do 2 f_equal. unfold phys. lia.
Qed.

Lemma entry_put p i e s q j :
  0 <= i < 1024 -> 0 <= j < 1024 -> 0 <= e < 4294967296 ->
  entry (mem (put p i e s)) q j =
  if decide (p = q /\ i = j) then e else entry (mem s) q j.
Proof.
  intros Hi Hj He. unfold entry, put. simpl. case_decide as Hd.
  - destruct Hd as [-> ->]. rewrite load32_store32_eq. by apply wrap_small.
  - apply load32_store32_ne. destruct (decide (p = q)) as [->|]; [|lia].
    assert (i <> j) by (intros ->; by apply Hd). lia.
Qed.

Lemma put_same_frame p i e s q : 0 <= i < 1024 -> p <> q -> same_frame (mem s) (mem (put p i e s)) q.
Proof.
  intros Hi Hpq a Ha. simpl. apply load8_store32_ne. Z.div_mod_to_equations; lia.
Qed.

(** A walk reads one word of the directory and one of a table. *)
Lemma walk_eq m m' d v :
  vaddr_ok v -> same_frame m m' d ->
  (present (entry m d (pd_index v)) = true -> same_frame m m' (frame (entry m d (pd_index v)))) ->
  walk m' d v = walk m d v.
Proof.
  intros Hv Hd Ht. unfold walk. destruct (pd_index_of v Hv) as [_ Hi], (pt_index_of v) as [_ Hj].
  rewrite (entry_same m m' d) by done.
  destruct (present _) eqn:E; [|done]. by rewrite (entry_same m m' _ _ (Ht eq_refl)).
Qed.

(** ** The invariant of the directories *)

Section invariant.
Context `{FA : !FrameAllocator alloc free}.

Definition kernel_dir (s : mm) (d : Z) : Prop := kernel_page_directory s = d * 4096.

(** The directory entries whose tables belong to the address space [d]: all of
    them for the kernel's, the user half for the others. *)
Definition own_index (s : mm) (d i : Z) : Prop :=
  0 <= i < 1024 /\ (i < 768 \/ kernel_dir s d).

(** Frame [p] is the table of entry [i] of directory [d]. *)
Definition table (s : mm) (d i p : Z) : Prop :=
  present (entry (mem s) d i) = true /\ frame (entry (mem s) d i) = p.

Record vm_inv (s : mm) (dirs : gset Z) : Prop := {
  vm_fa : fa_inv s;
  vm_kernel : exists k, kernel_dir s k /\ k ∈ dirs;
  vm_dir d : d ∈ dirs -> held s d;
  (** tables are frames of their own, each reached from one directory *)
  vm_table d i p : d ∈ dirs -> own_index s d i -> table s d i p -> held s p /\ p ∉ dirs;
  vm_inj d i d' i' p : d ∈ dirs -> d' ∈ dirs -> own_index s d i -> own_index s d' i' ->
    table s d i p -> table s d' i' p -> d = d' /\ i = i';
  (** a directory entry grants what any page below it grants *)
  vm_rights d i p j : d ∈ dirs -> own_index s d i -> table s d i p -> 0 <= j < 1024 ->
    present (entry (mem s) p j) = true -> rights_le (entry (mem s) p j) (entry (mem s) d i);
  (** the kernel half of every directory points into the kernel's tables *)
  vm_shared d k i p : d ∈ dirs -> kernel_dir s k -> 768 <= i < 1024 ->
    table s d i p -> table s k i p;
}.

(** A frame that some directory uses. *)
Definition used (s : mm) (dirs : gset Z) (p : Z) : Prop :=
  p ∈ dirs \/ exists d i, d ∈ dirs /\ own_index s d i /\ table s d i p.

(** The entries of two directories that lead to the same page: entry [i] of
    [d'] leads to the table of entry [i] of [d]. *)
Definition reaches (s : mm) (d i d' i' : Z) : Prop :=
  i = i' /\ (d = d' \/ kernel_dir s d /\ 768 <= i).

Lemma used_held s dirs p : vm_inv s dirs -> used s dirs p -> held s p.
Proof. intros Hinv [?|(d & i & ? & ? & ?)]; [by apply (vm_dir _ _ Hinv)|by eapply (vm_table _ _ Hinv)]. Qed.

(** Any table a directory leads to is owned by it or by the kernel. *)
Lemma table_owner s dirs d i p :
  vm_inv s dirs -> d ∈ dirs -> 0 <= i < 1024 -> table s d i p ->
  exists e, e ∈ dirs /\ own_index s e i /\ table s e i p /\ (e = d \/ kernel_dir s e /\ 768 <= i).
Proof.
  intros Hinv Hd Hi Ht. destruct (decide (i < 768)).
  { exists d. split; [done|]. split; [split; [done|by left]|]. auto. }
  destruct (vm_kernel _ _ Hinv) as (k & Hk & Hkd). exists k.
  split; [done|]. split; [split; [done|by right]|]. split; [|right; split; [done|lia]].
  apply (vm_shared _ _ Hinv d k); [done..|lia|done].
Qed.

Lemma table_used s dirs d i p :
  vm_inv s dirs -> d ∈ dirs -> 0 <= i < 1024 -> table s d i p -> used s dirs p.
Proof. intros Hinv Hd Hi Ht. right. destruct (table_owner _ _ _ _ _ Hinv Hd Hi Ht) as (e & ? & ? & ? & _). eauto. Qed.

Lemma kernel_dir_inj s k k' : kernel_dir s k -> kernel_dir s k' -> k = k'.
Proof. unfold kernel_dir. lia. Qed.

(** Two entries that lead to the same table. *)
Lemma table_reaches s dirs d i d' i' p :
  vm_inv s dirs -> d ∈ dirs -> d' ∈ dirs -> own_index s d i -> 0 <= i' < 1024 ->
  table s d i p -> table s d' i' p -> reaches s d i d' i'.
Proof.
  intros Hinv Hd Hd' Ho Hi' Ht Ht'.
  destruct (table_owner _ _ _ _ _ Hinv Hd' Hi' Ht') as (e & He & Hoe & Hte & Hor).
  destruct (vm_inj _ _ Hinv d i e i' p) as [-> ->]; try done.
Qed.

(** Steps that leave the used frames alone. *)
Lemma vm_inv_stable s s' dirs :
  vm_inv s dirs -> fa_inv s' -> kernel_page_directory s' = kernel_page_directory s ->
  (forall p, used s dirs p -> held s' p /\ same_frame (mem s) (mem s') p) ->
  vm_inv s' dirs /\
  (forall d v, d ∈ dirs -> vaddr_ok v -> walk (mem s') d v = walk (mem s) d v) /\
  (forall p, used s' dirs p <-> used s dirs p) /\
  (forall d i p, d ∈ dirs -> 0 <= i < 1024 -> table s' d i p <-> table s d i p).
Proof.
  intros Hinv Hfa Hk Hs.
  assert (Hown : forall d i, own_index s' d i <-> own_index s d i)
    by (intros; unfold own_index, kernel_dir; by rewrite Hk).
  assert (Hent : forall d i, d ∈ dirs -> 0 <= i < 1024 -> entry (mem s') d i = entry (mem s) d i).
  { intros d i Hd Hi. apply entry_same; [apply Hs; by left|done]. }
  assert (Htab : forall d i p, d ∈ dirs -> 0 <= i < 1024 -> table s' d i p <-> table s d i p)
    by (intros; unfold table; by rewrite Hent).
  assert (Hi : forall d i, own_index s d i -> 0 <= i < 1024) by (intros ?? [? _]; done).
  split; [|split; [|split; [|done]]].
  - destruct Hinv as [_ Hker Hdir Htable Hinj Hrights Hsh]. split; [done|..].
    + destruct Hker as (k & ? & ?). exists k. by split; [unfold kernel_dir; rewrite Hk|].
    + intros d Hd. apply Hs. by left.
    + intros d i p Hd Ho Ht. rewrite Hown in Ho. rewrite Htab in Ht by eauto.
      split; [apply Hs; right; eauto|by eapply Htable].
    + intros d i d' i' p Hd Hd' Ho Ho'. rewrite Hown in Ho, Ho'. rewrite !Htab by eauto. by apply Hinj.
    + intros d i p j Hd Ho Ht Hj. rewrite Hown in Ho. rewrite Htab in Ht by eauto.
      rewrite (Hent d i), (entry_same (mem s) (mem s') p j); [|apply Hs; right; eauto|eauto..].
      exact (Hrights d i p j Hd Ho Ht Hj).
    + intros d k i p Hd Hkd Hii. unfold kernel_dir in Hkd. rewrite Hk in Hkd.
      rewrite !Htab by (done || lia || (destruct Hker as (k' & ? & ?); by rewrite (kernel_dir_inj s k k'))).
      eauto.
  - intros d v Hd Hv. apply walk_eq; [done|apply Hs; by left|]. intros Hp. apply Hs.
    eapply table_used; [done..| |by split]. by apply pd_index_of.
  - intros p. unfold used. split; (intros [?|(d & i & Hd & Ho & Ht)]; [by left|right; exists d, i]).
    + rewrite Hown in Ho. rewrite Htab in Ht by eauto. done.
    + rewrite Hown, Htab by eauto. done.
Qed.

(** What a step that is invisible to the address spaces leaves as it was. *)
Record same_spaces (s s' : mm) (dirs : gset Z) : Prop := {
  ss_inv : vm_inv s' dirs;
  ss_kpd : kernel_page_directory s' = kernel_page_directory s;
  ss_walk d v : d ∈ dirs -> vaddr_ok v -> walk (mem s') d v = walk (mem s) d v;
  ss_used p : used s' dirs p <-> used s dirs p;
  ss_entry d i : d ∈ dirs -> 0 <= i < 1024 -> entry (mem s') d i = entry (mem s) d i;
  ss_table d i p : d ∈ dirs -> 0 <= i < 1024 -> table s' d i p <-> table s d i p;
}.

Lemma stable_spaces s s' dirs :
  vm_inv s dirs -> fa_inv s' -> kernel_page_directory s' = kernel_page_directory s ->
  (forall p, used s dirs p -> held s' p /\ same_frame (mem s) (mem s') p) ->
  same_spaces s s' dirs.
Proof.
  intros Hinv Hfa Hk Hs. destruct (vm_inv_stable s s' dirs) as (? & ? & ? & ?); try done.
  split; try done. intros d i Hd Hi. apply entry_same; [apply Hs; by left|done].
Qed.

(** ** Writing to a held frame *)

Lemma put_only p i e s : 0 <= i < 1024 -> only_changes (fun a => a / 4096 = p) (mem s) (mem (put p i e s)).
Proof. intros. apply only_changes_store32. intros b Hb. apply (frame_of_entry p i); lia. Qed.

Lemma held_put s p i e :
  fa_inv s -> held s p -> 0 <= i < 1024 ->
  fa_inv (put p i e s) /\ fa_same s (put p i e s) /\
  (forall q, held s q -> held (put p i e s) q).
Proof. intros. apply (held_write s _ p); [done..|]. by apply put_only. Qed.

Definition zero_frame (p : Z) (s : mm) : mm :=
  set_mem (memset (mem s) (vmm_phys_to_virt (p * 4096)) 0 4096) s.

(** Filling a frame that no directory uses yet. *)
Lemma unused_write s dirs p m' :
  vm_inv s dirs -> held s p -> ~ used s dirs p ->
  only_changes (fun a => a / 4096 = p) (mem s) m' ->
  same_spaces s (set_mem m' s) dirs /\ held (set_mem m' s) p /\ fa_same s (set_mem m' s).
Proof.
  intros Hinv Hp Hu Hm. destruct (held_write s m' p) as (Hfa & Ha & Hh); [apply Hinv|done..|].
  split; [|split; [by apply Hh|done]].
  apply stable_spaces; [done..|]. intros q Hq. split; [by apply Hh, (used_held s dirs)|].
  apply (only_changes_frame _ _ _ _ Hm). intros a -> ->. done.
Qed.

Lemma zero_frame_spec s dirs p :
  vm_inv s dirs -> held s p -> ~ used s dirs p ->
  same_spaces s (zero_frame p s) dirs /\ held (zero_frame p s) p /\
  fa_same s (zero_frame p s) /\
  (forall j, 0 <= j < 1024 -> entry (mem (zero_frame p s)) p j = 0) /\
  only_changes (fun a => a / 4096 = p) (mem s) (mem (zero_frame p s)).
Proof.
  intros Hinv Hp Hu. pose proof (held_range _ _ Hp).
  assert (Hm : only_changes (fun a => a / 4096 = p) (mem s) (mem (zero_frame p s))).
  { apply only_changes_memset. rewrite phys_phys_to_virt by lia. intros. Z.div_mod_to_equations; lia. }
  destruct (unused_write s dirs p (mem (zero_frame p s))) as (? & ? & ?); [done..|].
  do 3 (split; [done|]). split; [|done].
  intros j Hj. apply load32_memset0; rewrite phys_phys_to_virt; lia.
Qed.

(** Writing a table entry: only the pages it translates change. *)
Lemma put_pte_inv s dirs d i p j e :
  vm_inv s dirs -> d ∈ dirs -> own_index s d i -> table s d i p -> 0 <= j < 1024 ->
  0 <= e < 4294967296 -> (present e = true -> rights_le e (entry (mem s) d i)) ->
  vm_inv (put p j e s) dirs.
Proof.
  intros Hinv Hd Ho Ht Hj He Hr. destruct (vm_table _ _ Hinv d i p) as [Hp Hpd]; [done..|].
  destruct (held_put s p j e) as (Hfa & _ & Hh); [apply Hinv|done..|].
  assert (Hent : forall d' i', d' ∈ dirs -> 0 <= i' < 1024 ->
    entry (mem (put p j e s)) d' i' = entry (mem s) d' i').
  { intros d' i' Hd' Hi'. apply entry_same; [|done]. apply put_same_frame; [done|]. by intros ->. }
  assert (Htab : forall d' i' p', d' ∈ dirs -> 0 <= i' < 1024 ->
    table (put p j e s) d' i' p' <-> table s d' i' p') by (intros; unfold table; by rewrite Hent).
  assert (Hi : forall d i, own_index s d i -> 0 <= i < 1024) by (intros ?? [? _]; done).
  pose proof Hinv as [_ Hker Hdir Htable Hinj Hrights Hsh]. split; [done|done|..].
  - intros d' Hd'. apply Hh; auto.
  - intros d' i' p' Hd' Ho'. rewrite Htab by eauto. intros Ht'.
    destruct (Htable d' i' p') as [? ?]; try done. split; [by apply Hh|done].
  - intros d1 i1 d2 i2 p' Hd1 Hd2 Ho1 Ho2. rewrite !Htab by eauto. by apply Hinj.
  - intros d' i' p' j' Hd' Ho' Ht' Hj'. rewrite Htab in Ht' by eauto. rewrite (Hent d' i') by eauto.
    rewrite entry_put by done. case_decide as Hpj; [|by apply Hrights].
    destruct Hpj as [-> ->]. destruct (Hinj d' i' d i p') as [-> ->]; done.
  - intros d' k i' p' Hd' Hk Hi'.
    assert (k ∈ dirs) by (destruct Hker as (k' & Hk' & ?); by rewrite (kernel_dir_inj s k k')).
    rewrite !Htab by (done || lia). by apply Hsh.
Qed.

Lemma put_pte_walk s dirs d i p j e :
  vm_inv s dirs -> d ∈ dirs -> own_index s d i -> table s d i p -> 0 <= j < 1024 ->
  0 <= e < 4294967296 ->
  (forall d' v, d' ∈ dirs -> vaddr_ok v -> ~ (reaches s d i d' (pd_index v) /\ pt_index v = j) ->
    walk (mem (put p j e s)) d' v = walk (mem s) d' v) /\
  (forall v, pd_index v = i -> pt_index v = j ->
    walk (mem (put p j e s)) d v =
    if present e then Some (frame e * 4096 + v mod 4096,
      writable (entry (mem s) d i) && writable e, user (entry (mem s) d i) && user e) else None).
Proof.
  intros Hinv Hd Ho Ht Hj He. destruct (vm_table _ _ Hinv d i p) as [Hp Hpd]; [done..|].
  assert (Hi : 0 <= i < 1024) by apply Ho.
  assert (Hent : forall d' i', d' ∈ dirs -> 0 <= i' < 1024 ->
    entry (mem (put p j e s)) d' i' = entry (mem s) d' i').
  { intros d' i' Hd' Hi'. apply entry_same; [|done]. apply put_same_frame; [done|]. by intros ->. }
  split.
  - intros d' v Hd' Hv Hn. unfold walk. destruct (pd_index_of v Hv) as [_ Hpi], (pt_index_of v) as [_ Hpj].
    rewrite Hent by done. destruct (present _) eqn:E; [|done].
    rewrite entry_put by done. case_decide as Hdc; [|done]. destruct Hdc as [Hf ->].
    destruct Hn. split; [|done]. apply (table_reaches s dirs d i d' _ p); try done.
  - intros v <- <-. unfold walk. rewrite Hent by done. destruct Ht as [-> <-].
    rewrite entry_put by done. case_decide as Hdc; [done|]. by destruct Hdc.
Qed.

(** Widening the rights of a directory entry changes no translation: what a
    page below it may do was already bounded by its table entry. *)
Lemma grant_spec s dirs d i p flags :
  vm_inv s dirs -> d ∈ dirs -> own_index s d i -> table s d i p ->
  let e := Z.lor (entry (mem s) d i) (Z.land flags 6) in
  vm_inv (put d i e s) dirs /\
  (forall d' v, d' ∈ dirs -> vaddr_ok v -> walk (mem (put d i e s)) d' v = walk (mem s) d' v) /\
  (forall d' i' q, d' ∈ dirs -> 0 <= i' < 1024 -> table (put d i e s) d' i' q <-> table s d' i' q) /\
  (forall q j, q <> d -> 0 <= j < 1024 -> entry (mem (put d i e s)) q j = entry (mem s) q j).
Proof.
  intros Hinv Hd Ho Ht e. pose proof (land_6_range flags) as H6.
  assert (He : 0 <= e < 4294967296) by (apply lor_range; [apply entry_range|lia]).
  assert (Hfr : frame e = frame (entry (mem s) d i)) by by apply frame_lor.
  assert (Hpr : present e = present (entry (mem s) d i)).
  { unfold e, present. rewrite Z.lor_spec, Z.land_spec. simpl. by rewrite andb_false_r, orb_false_r. }
  assert (Hle : rights_le (entry (mem s) d i) e).
  { unfold e, rights_le, writable, user. rewrite !Z.lor_spec. by split; intros ->. }
  destruct (held_put s d i e) as (Hfa & _ & Hh); [apply Hinv|by apply (vm_dir _ _ Hinv)|apply Ho|].
  assert (Hi : forall d i, own_index s d i -> 0 <= i < 1024) by (intros ?? [? _]; done).
  assert (Htab : forall d' i' q, d' ∈ dirs -> 0 <= i' < 1024 ->
    table (put d i e s) d' i' q <-> table s d' i' q).
  { intros. unfold table. rewrite entry_put by eauto. case_decide as Hc; [|done].
    destruct Hc as [<- <-]. by rewrite Hfr, Hpr. }
  assert (Hoth : forall q j, q <> d -> 0 <= j < 1024 -> entry (mem (put d i e s)) q j = entry (mem s) q j).
  { intros q j Hq Hj. apply entry_same; [|done]. apply put_same_frame; [eauto|done]. }
  assert (Hpt : forall d' i' q, d' ∈ dirs -> 0 <= i' < 1024 -> table s d' i' q -> q <> d).
  { intros d' i' q Hd' Hi' Hq ->.
    destruct (table_owner s dirs d' i' d) as (o & ? & ? & ? & _); [done..|].
    by destruct (vm_table _ _ Hinv o i' d) as [_ ?]. }
  assert (Hge : forall q j, 0 <= j < 1024 -> rights_le (entry (mem s) q j) (entry (mem (put d i e s)) q j)).
  { intros q j Hj. rewrite entry_put by eauto. case_decide as Hc; [by destruct Hc as [<- <-]|by split]. }
  pose proof Hinv as [_ Hker Hdir Htable Hinj Hrights Hsh]. split; [|split; [|done]].
  - split; [done|done|..].
    + intros d' Hd'. apply Hh; auto.
    + intros d' i' p' Hd' Ho'. rewrite Htab by eauto. intros Ht'.
      destruct (Htable d' i' p') as [? ?]; try done. split; [by apply Hh|done].
    + intros d1 i1 d2 i2 p' Hd1 Hd2 Ho1 Ho2. rewrite !Htab by eauto. by apply Hinj.
    + intros d' i' p' j' Hd' Ho' Ht' Hj'. rewrite Htab in Ht' by eauto.
      rewrite (Hoth p' j') by eauto. intros Hp.
      destruct (Hrights d' i' p' j') as [Hw Hu], (Hge d' i') as [Hw' Hu']; eauto. split; auto.
    + intros d' k i' p' Hd' Hk Hi'.
      assert (k ∈ dirs) by (destruct Hker as (k' & Hk' & ?); by rewrite (kernel_dir_inj s k k')).
      rewrite !Htab by (done || lia). by apply Hsh.
  - intros d' v Hd' Hv. unfold walk. destruct (pd_index_of v Hv) as [_ Hpi], (pt_index_of v) as [_ Hpj].
    rewrite (entry_put d i e s d') by eauto. case_decide as Hc; cycle 1.
    { destruct (present (entry (mem s) d' (pd_index v))) eqn:E; [|done]. rewrite Hoth; [done| |done]. by apply (Hpt d' (pd_index v)). }
    destruct Hc as [<- <-]. rewrite Hpr, Hfr. pose proof Ht as [Hta Htb]. rewrite Hta, Htb.
    rewrite Hoth; [|apply (Hpt d i); eauto|done].
    destruct (present (entry (mem s) p _)) eqn:E; [|done].
    destruct (Hrights d i p (pt_index v)) as [Hw Hu]; try done.
    destruct Hle as [Hlw Hlu]. do 2 f_equal; [f_equal|].
    + destruct (writable (entry (mem s) p _)); [|by rewrite !andb_false_r]. by rewrite Hlw, Hw by auto.
    + destruct (user (entry (mem s) p _)); [|by rewrite !andb_false_r]. by rewrite Hlu, Hu by auto.
Qed.

(** Linking a table into a directory: only the addresses below the new entry
    change, to what the table says. *)
Lemma link_spec s dirs d i p e :
  vm_inv s dirs -> d ∈ dirs -> own_index s d i -> present (entry (mem s) d i) = false ->
  held s p -> ~ used s dirs p ->
  (forall j, 0 <= j < 1024 -> present (entry (mem s) p j) = true -> rights_le (entry (mem s) p j) e) ->
  0 <= e < 4294967296 -> present e = true -> frame e = p ->
  vm_inv (put d i e s) dirs /\ table (put d i e s) d i p /\
  (forall q, used (put d i e s) dirs q <-> used s dirs q \/ q = p) /\
  (forall d' v, d' ∈ dirs -> vaddr_ok v -> ~ (d' = d /\ pd_index v = i) ->
    walk (mem (put d i e s)) d' v = walk (mem s) d' v) /\
  (forall v, pd_index v = i -> walk (mem (put d i e s)) d v =
    let pte := entry (mem s) p (pt_index v) in
    if present pte then Some (frame pte * 4096 + v mod 4096,
      writable e && writable pte, user e && user pte) else None).
Proof.
  intros Hinv Hd Ho Hnp Hp Hu Hz He Hpe Hfe.
  assert (Hii : 0 <= i < 1024) by apply Ho.
  destruct (held_put s d i e) as (Hfa & _ & Hh); [apply Hinv|by apply (vm_dir _ _ Hinv)|apply Ho|].
  assert (Hi : forall d i, own_index s d i -> 0 <= i < 1024) by (intros ?? [? _]; done).
  assert (Hpd : p ∉ dirs) by (intros ?; apply Hu; by left).
  assert (Htab : forall d' i' q, 0 <= i' < 1024 ->
    table (put d i e s) d' i' q <-> table s d' i' q \/ (d' = d /\ i' = i /\ q = p)).
  { intros d' i' q Hi'. unfold table. rewrite entry_put by done. case_decide as Hc.
    - destruct Hc as [<- <-]. rewrite Hnp, Hpe, Hfe. split; [intros [_ <-]; by right|by intros [[? _]|(_ & _ & ->)]].
    - split; [by left|]. intros [?|(-> & -> & _)]; [done|by destruct Hc]. }
  assert (Hoth : forall q j, q <> d -> 0 <= j < 1024 -> entry (mem (put d i e s)) q j = entry (mem s) q j).
  { intros q j Hq Hj. apply entry_same; [|done]. by apply put_same_frame. }
  assert (Hpt : forall d' i' q, d' ∈ dirs -> 0 <= i' < 1024 -> table s d' i' q -> q <> d).
  { intros d' i' q Hd' Hi' Hq ->.
    destruct (table_owner s dirs d' i' d) as (o & ? & ? & ? & _); [done..|].
    by destruct (vm_table _ _ Hinv o i' d) as [_ ?]. }
  assert (Hnew : forall d' i', d' ∈ dirs -> own_index s d' i' -> ~ table s d' i' p).
  { intros d' i' Hd' Ho' Ht. apply Hu. right. eauto. }
  assert (Hdp : p <> d) by (by intros ->).
  pose proof Hinv as [_ Hker Hdir Htable Hinj Hrights Hsh].
  split; [|split; [apply Htab; [done|by right]|split; [|split]]].
  - split; [done|done|..].
    + intros d' Hd'. apply Hh; auto.
    + intros d' i' p' Hd' Ho'. rewrite Htab by eauto. intros [Ht'|(-> & -> & ->)]; [|by split; [apply Hh|]].
      destruct (Htable d' i' p') as [? ?]; try done. split; [by apply Hh|done].
    + intros d1 i1 d2 i2 p' Hd1 Hd2 Ho1 Ho2. rewrite !Htab by eauto.
      intros [?|(-> & -> & ->)] [?|(-> & -> & ?)]; [by eapply Hinj| | |done]; subst; exfalso;
        (eapply Hnew; [..|eassumption]); done.
    + intros d' i' p' j' Hd' Ho'. rewrite Htab by eauto. intros [Ht'|(-> & -> & ->)] Hj'.
      * rewrite (Hoth p' j') by eauto. rewrite entry_put by eauto.
        case_decide as Hc; [|by apply Hrights]. destruct Hc as [<- <-], Ht' as [? _]. congruence.
      * rewrite Hoth by done. rewrite entry_put, decide_True by done. by apply Hz.
    + intros d' k i' p' Hd' Hk Hi'. rewrite !Htab by lia.
      intros [?|(-> & -> & ->)]; [left; by apply (Hsh d')|right].
      split; [|done]. destruct Ho as [_ [?|?]]; [lia|by apply (kernel_dir_inj s)].
  - intros q. split.
    + intros [?|(d' & i' & Hd' & Ho' & Hq)]; [left; by left|].
      apply Htab in Hq as [?|(_ & _ & ->)]; [|by right|apply Ho']. left. right. eauto.
    + intros [[?|(d' & i' & Hd' & Ho' & Hq)]| ->]; [by left|right; exists d', i'|right; exists d, i].
      * split; [done|]. split; [done|]. apply Htab; [apply Ho'|by left].
      * split; [done|]. split; [done|]. apply Htab; [done|by right].
  - intros d' v Hd' Hv Hn. unfold walk. destruct (pd_index_of v Hv) as [_ Hpi], (pt_index_of v) as [_ Hpj].
    rewrite (entry_put d i e s d') by done. case_decide as Hc; [by destruct Hn, Hc|].
    destruct (present (entry (mem s) d' (pd_index v))) eqn:E; [|done].
    rewrite Hoth; [done| |done]. by apply (Hpt d' (pd_index v)).
  - intros v Hv. unfold walk. rewrite Hv. destruct (pt_index_of v) as [_ Hpj].
    rewrite (entry_put d i e s d), decide_True by done. by rewrite Hpe, Hfe, Hoth.
Qed.

(** ** Allocating and freeing frames *)

Lemma alloc_frame_spec s dirs :
  vm_inv s dirs ->
  (alloc s = (0, s) /\ forall p, avail s p = false) \/
  (exists p s', alloc s = (p * 4096, s') /\ avail s p = true /\ 0 < p < 1048576 /\
    (forall q, q < p -> avail s q = false) /\
    (forall q, avail s' q = avail s q && negb (q =? p)) /\
    same_spaces s s' dirs /\ ~ used s' dirs p /\ (p < 4096 -> held s' p) /\
    managed s p = true /\ (forall q, managed s' q = managed s q) /\
    (forall a, priv s' a <-> priv s a) /\ (forall a, priv s' a -> a / 4096 <> p) /\
    touches_only (priv s) s s').
Proof.
  intros Hinv. destruct (alloc_spec s (vm_fa _ _ Hinv)) as [?|(p & s' & Ha & Hav & Hlow & Hq & Hm & Hpr & Hfa & Hst & Hoc)];
    [by left|right].
  destruct (avail_managed s p (vm_fa _ _ Hinv) Hav) as [Hmp Hp].
  assert (Hu : ~ used s dirs p).
  { intros Hu. apply (used_held s dirs p Hinv) in Hu. pose proof (held_taken _ _ Hu). congruence. }
  assert (Hpv : forall a, priv s' a -> a / 4096 <> p).
  { intros a Hap <-. apply Hpr in Hap. pose proof (priv_unavail s a (vm_fa _ _ Hinv) Hap). congruence. }
  assert (Hh : forall q, held s q -> held s' q).
  { intros q [Hr Hmq Ht Hpq]. split; [done|by rewrite Hm|by rewrite Hq, Ht|]. intros a. rewrite Hpr. apply Hpq. }
  assert (Hss : same_spaces s s' dirs).
  { apply stable_spaces; [done..|by rewrite Hst|]. intros q Hqu. apply (used_held _ _ _ Hinv) in Hqu.
    split; [by apply Hh|]. apply (only_changes_frame _ _ _ _ Hoc), Hqu. }
  exists p, s'. do 6 (split; [done|]). split; [by rewrite (ss_used _ _ _ Hss)|].
  split; [|done]. intros Hlt.
  split; [lia|by rewrite Hm|by rewrite Hq, Z.eqb_refl, andb_false_r|done].
Qed.

Lemma free_frame_spec s dirs p :
  vm_inv s dirs -> 0 < p -> managed s p = true -> avail s p = false ->
  (forall a, priv s a -> a / 4096 <> p) -> ~ used s dirs p ->
  same_spaces s (free (p * 4096) s) dirs /\
  (forall q, avail (free (p * 4096) s) q = avail s q || (q =? p)) /\
  (forall q, managed (free (p * 4096) s) q = managed s q) /\
  (forall a, priv (free (p * 4096) s) a <-> priv s a) /\
  (forall q, q <> p -> held s q -> held (free (p * 4096) s) q) /\
  touches_only (priv s) s (free (p * 4096) s).
Proof.
  intros Hinv Hp Hm Ha Hpv Hu.
  destruct (free_spec s p (vm_fa _ _ Hinv) Hp Hm Ha Hpv _ eq_refl) as (Hq & Hmq & Hpr & Hfa & Hst & Hoc).
  assert (Hh : forall q, q <> p -> held s q -> held (free (p * 4096) s) q).
  { intros q Hqp [Hr Hmq' Ht Hpq]. split; [done|by rewrite Hmq| |].
    - rewrite Hq, Ht. by apply Z.eqb_neq.
    - intros a. rewrite Hpr. apply Hpq. }
  split; [|done].
  apply stable_spaces; [done..|by rewrite Hst|]. intros q Hqu.
  assert (q <> p) by (by intros ->). apply (used_held _ _ _ Hinv) in Hqu.
  split; [by apply Hh|]. apply (only_changes_frame _ _ _ _ Hoc), Hqu.
Qed.

(** ** Adding and removing a directory *)

Lemma vm_inv_add s dirs k d :
  vm_inv s dirs -> kernel_dir s k -> k ∈ dirs -> held s d -> ~ used s dirs d ->
  (forall i, 0 <= i < 768 -> present (entry (mem s) d i) = false) ->
  (forall i, 768 <= i < 1024 -> entry (mem s) d i = entry (mem s) k i) ->
  vm_inv s ({[d]} ∪ dirs) /\ forall q, used s ({[d]} ∪ dirs) q <-> used s dirs q \/ q = d.
Proof.
  intros Hinv Hk Hkd Hd Hu Hlow Hhigh.
  assert (Hdk : d <> k) by (intros ->; apply Hu; by left).
  assert (Hown : forall i p, own_index s d i -> ~ table s d i p).
  { intros i p [Hi [?|?]] [Hp _]; [rewrite Hlow in Hp by lia; done|].
    by destruct Hdk; apply (kernel_dir_inj s). }
  split; cycle 1.
  { intros q. split.
    - intros [[->%elem_of_singleton|?]%elem_of_union|(d' & i & Hd' & Ho & Ht)]; [by right|left; by left|].
      apply elem_of_union in Hd' as [->%elem_of_singleton|Hd']; [by destruct (Hown i q)|].
      left. right. eauto.
    - intros [[?|(d' & i & Hd' & Ho & Ht)]| ->]; [left; set_solver|right|left; set_solver].
      exists d', i. split; [set_solver|done]. }
  pose proof Hinv as [Hfa Hker Hdir Htable Hinj Hrights Hsh]. split; [done|..].
  - exists k. set_solver.
  - intros d' [->%elem_of_singleton|?]%elem_of_union; auto.
  - intros d' i p [->%elem_of_singleton|Hd']%elem_of_union Ho Ht; [by destruct (Hown i p)|].
    destruct (Htable d' i p) as [? ?]; [done..|]. split; [done|].
    intros [->%elem_of_singleton|?]%elem_of_union; [|done]. apply Hu. right. eauto.
  - intros d1 i1 d2 i2 p [->%elem_of_singleton|Hd1]%elem_of_union
      [->%elem_of_singleton|Hd2]%elem_of_union Ho1 Ho2 Ht1 Ht2;
      try (by edestruct Hown); by apply (Hinj d1 i1 d2 i2 p).
  - intros d' i p j [->%elem_of_singleton|Hd']%elem_of_union Ho Ht; [by destruct (Hown i p)|].
    by apply Hrights.
  - intros d' k' i p Hd' Hk' Hi Ht. rewrite (kernel_dir_inj s k' k) by done.
    apply elem_of_union in Hd' as [->%elem_of_singleton|Hd']; [|by apply (Hsh d')].
    unfold table in *. by rewrite <- Hhigh.
Qed.

Lemma vm_inv_remove s dirs d :
  vm_inv s dirs -> d ∈ dirs -> ~ kernel_dir s d ->
  vm_inv s (dirs ∖ {[d]}) /\ ~ used s (dirs ∖ {[d]}) d /\
  (forall i p, 0 <= i < 768 -> table s d i p -> ~ used s (dirs ∖ {[d]}) p).
Proof.
  intros Hinv Hd Hnk. pose proof Hinv as [Hfa Hker Hdir Htable Hinj Hrights Hsh].
  assert (Hsub : forall x, x ∈ dirs ∖ {[d]} <-> x ∈ dirs /\ x <> d) by set_solver.
  split; [|split].
  - split; [done|..].
    + destruct Hker as (k & Hk & Hkd). exists k. split; [done|]. apply Hsub. split; [done|]. by intros ->.
    + intros d' [Hd' _]%Hsub. auto.
    + intros d' i p [Hd' _]%Hsub Ho Ht. destruct (Htable d' i p) as [? Hp]; [done..|].
      split; [done|]. by intros [? _]%Hsub.
    + intros d1 i1 d2 i2 p [? _]%Hsub [? _]%Hsub. eauto.
    + intros d' i p j [? _]%Hsub. eauto.
    + intros d' k i p [? _]%Hsub. eauto.
  - intros [[_ Hn]%Hsub|(d' & i & [Hd' _]%Hsub & Ho & Ht)]; [done|].
    by destruct (Htable d' i d) as [_ ?].
  - intros i p Hi Ht. assert (Ho : own_index s d i) by (split; [lia|left; lia]).
    intros [[Hp _]%Hsub|(d' & i' & [Hd' Hne]%Hsub & Ho' & Ht')].
    + by destruct (Htable d i p) as [_ ?].
    + by destruct (Hinj d i d' i' p) as [<- _].
Qed.

(** A cleared kernel directory. *)
Lemma vm_inv_first s k :
  fa_inv s -> kernel_dir s k -> held s k ->
  (forall i, 0 <= i < 1024 -> entry (mem s) k i = 0) -> vm_inv s {[k]}.
Proof.
  intros Hfa Hk Hh Hz.
  assert (Hn : forall d i p, d ∈ ({[k]} : gset Z) -> 0 <= i < 1024 -> ~ table s d i p).
  { intros d i p ->%elem_of_singleton Hi [Hp _]. by rewrite Hz in Hp. }
  split; [done|..].
  - exists k. split; [done|]. set_solver.
  - by intros d ->%elem_of_singleton.
  - intros d i p Hd [Hi _] Ht. by destruct (Hn d i p).
  - intros d i d' i' p Hd _ [Hi _] _ Ht. by destruct (Hn d i p).
  - intros d i p j Hd [Hi _] Ht. by destruct (Hn d i p).
  - intros d k' i p Hd _ Hi Ht. destruct (Hn d i p); [done|lia|done].
Qed.

(** ** Steps of the paging code

    What every step of mapping and unmapping preserves: it only takes frames,
    the tables it adds are exactly the frames it took, and no frame of a client (allocated
    and not a table) is written. *)
Record vm_step (dirs : gset Z) (s s' : mm) : Prop := {
  vs_inv : vm_inv s' dirs;
  vs_kpd : kernel_page_directory s' = kernel_page_directory s;
  vs_avail q : avail s' q = true -> avail s q = true;
  vs_managed q : managed s' q = managed s q;
  vs_priv a : priv s' a <-> priv s a;
  vs_used q : used s' dirs q -> used s dirs q \/ avail s q = true;
  vs_kept q : used s dirs q -> used s' dirs q;
  vs_taken q : avail s q = true -> avail s' q = true \/ used s' dirs q;
  vs_data q : avail s q = false -> ~ used s dirs q -> (forall a, priv s a -> a / 4096 <> q) ->
    same_frame (mem s) (mem s') q;
}.

Lemma vm_step_refl dirs s : vm_inv s dirs -> vm_step dirs s s.
Proof. intros. split; try done; auto. Qed.

Lemma vm_step_trans dirs s1 s2 s3 : vm_step dirs s1 s2 -> vm_step dirs s2 s3 -> vm_step dirs s1 s3.
Proof.
  intros [I1 K1 A1 M1 P1 U1 V1 T1 D1] [I2 K2 A2 M2 P2 U2 V2 T2 D2]. split; [done|congruence|auto|..].
  - intros q. by rewrite M2.
  - intros a. by rewrite P2.
  - intros q Hq. destruct (U2 q Hq) as [?|?]; auto.
  - auto.
  - intros q Hq. destruct (T1 q Hq) as [?|?]; auto.
  - intros q Ha Hu Hp a Hq. rewrite (D2 q), (D1 q); try done.
    + destruct (avail s2 q) eqn:E; [|done]. apply A1 in E. congruence.
    + intros Hu2. destruct (U1 q Hu2); [done|congruence].
    + intros b. rewrite P1. apply Hp.
Qed.

(** A write to a frame in use. *)
Lemma vm_step_put dirs s p i e :
  vm_inv s dirs -> used s dirs p -> 0 <= i < 1024 -> vm_inv (put p i e s) dirs ->
  (forall q, used (put p i e s) dirs q <-> used s dirs q) -> vm_step dirs s (put p i e s).
Proof.
  intros Hinv Hp Hi Hinv' Hu.
  destruct (held_put s p i e) as (_ & (Ha & Hm & Hpr) & _); [apply Hinv|by apply (used_held s dirs)|done|].
  split; [done|done|..|]; try done.
  - intros q. by rewrite Ha.
  - by left; apply Hu.
  - intros q. by apply Hu.
  - intros q. rewrite Ha. by left.
  - intros q _ Hq _. apply put_same_frame; [done|]. by intros ->.
Qed.

Lemma used_put_table s dirs p i e :
  (forall d i' q, d ∈ dirs -> 0 <= i' < 1024 -> table (put p i e s) d i' q <-> table s d i' q) ->
  forall q, used (put p i e s) dirs q <-> used s dirs q.
Proof.
  intros Ht q. split; (intros [?|(d & i' & Hd & Ho & Hq)]; [by left|right]); exists d, i';
    (split; [done|]; split; [done|]); apply Ht; [done|apply Ho|done|done|apply Ho|done].
Qed.
End invariant.
