(* ===== verification/VmmProof.v ===== *)
(** * Contracts of the functions of vmm.c

    Proved against the page-allocator interface of FrameAlloc.v and the MMU
    walk of VmmSpec.v. *)

From S2P Require Import Prelude Memory Tty Printk Machine FrameAlloc Pmm Vmm VmmSpec.

Section contracts.
Context {FA : FrameAllocator pmm_alloc_page pmm_free_page}.

(** Addresses of directory [d] and virtual address [v] that the code accepts. *)
Definition space_ok (s : mm) (dirs : gset Z) (d v : Z) : Prop :=
  d ∈ dirs /\ vaddr_ok v /\ v mod 4096 = 0 /\ (v < VMM_KERNEL_VIRTUAL_BASE \/ kernel_dir s d).

(** Directory [d'] sees the page of [v] through the entry that [d] owns. *)
Definition sees (s : mm) (d v d' v' : Z) : Prop :=
  v' / 4096 = v / 4096 /\ (d' = d \/ kernel_dir s d /\ VMM_KERNEL_VIRTUAL_BASE <= v).

Lemma space_own s dirs d v : space_ok s dirs d v -> own_index s d (pd_index v).
Proof.
  intros (_ & Hv & _ & Hk). destruct (pd_index_of v Hv) as [_ Hi]. split; [done|].
  destruct Hk as [?|?]; [left|by right]. pose proof (kernel_half v Hv). lia.
Qed.

Lemma reaches_sees s d v d' v' :
  vaddr_ok v -> reaches s d (pd_index v) d' (pd_index v') -> pt_index v' = pt_index v ->
  sees s d v d' v'.
Proof.
  intros Hv [Hi Hr] Hj. split; [by apply page_indices|].
  rewrite kernel_half in Hr by done. destruct Hr as [->|?]; [by left|by right].
Qed.

Lemma dir_ptr s dirs d : vm_inv s dirs -> d ∈ dirs ->
  0 < d < 4096 /\ (d * 4096 =? 0) = false /\ (vmm_phys_to_virt (d * 4096) =? NULL) = false.
Proof.
  intros Hinv Hd. pose proof (held_range _ _ (vm_dir _ _ Hinv d Hd)). split; [done|].
  rewrite phys_to_virt_in by lia. split; apply Z.eqb_neq; lia.
Qed.

(** ** Looking up *)

Lemma get_page_table_spec s dirs d v :
  vm_inv s dirs -> d ∈ dirs -> vaddr_ok v ->
  (present (entry (mem s) d (pd_index v)) = false /\ vmm_get_page_table_in (d * 4096) v s = NULL) \/
  (exists p, table s d (pd_index v) p /\ 0 < p < 4096 /\
    vmm_get_page_table_in (d * 4096) v s = vmm_phys_to_virt (p * 4096) /\
    (vmm_phys_to_virt (p * 4096) =? NULL) = false).
Proof.
  intros Hinv Hd Hv. unfold vmm_get_page_table_in.
  destruct (dir_ptr s dirs d) as (Hr & -> & ->); [done..|].
  destruct (pd_index_of v Hv) as [-> Hi]. rewrite rdw_entry, present_land by lia.
  destruct (present _) eqn:E; simpl; [right|by left].
  exists (frame (entry (mem s) d (pd_index v))).
  assert (Ht : table s d (pd_index v) (frame (entry (mem s) d (pd_index v)))) by done.
  apply (table_used s dirs) in Ht as Hu; [|done..].
  pose proof (held_range _ _ (used_held _ _ _ Hinv Hu)).
  split; [done|]. split; [done|]. rewrite frame_land by auto with cint. split; [done|].
  rewrite phys_to_virt_in by lia. apply Z.eqb_neq. lia.
Qed.

Lemma get_paddr_walk s dirs d v paddr :
  vm_inv s dirs -> d ∈ dirs -> vaddr_ok v -> paddr <> NULL ->
  vmm_get_paddr_in (d * 4096) v paddr s = fst ∘ fst <$> walk (mem s) d v.
Proof.
  intros Hinv Hd Hv Hp. unfold vmm_get_paddr_in. rewrite (proj2 (Z.eqb_neq _ _) Hp). unfold walk.
  destruct (get_page_table_spec s dirs d v) as [[-> ->]|(p & [-> ->] & Hr & -> & ->)]; [done..|].
  destruct (pt_index_of v) as [-> Hj]. simpl. rewrite rdw_entry, present_land by lia.
  destruct (present _); simpl; [|done]. rewrite frame_land, land_4095, lor_page by
    (auto with cint; apply Z.mod_pos_bound; lia). done.
Qed.

(** ** Unmapping *)

Lemma unmap_refused address_space v s :
  (address_space = 0 \/ v mod 4096 <> 0 \/
   address_space <> kernel_page_directory s /\ VMM_KERNEL_VIRTUAL_BASE <= v) -> vaddr_ok v ->
  vmm_unmap_page_in address_space v s = (-1, s).
Proof.
  intros H Hv. unfold vmm_unmap_page_in. rewrite land_4095.
  destruct (pd_index_of v Hv) as [-> _]. pose proof (kernel_half v Hv).
  repeat case_if; try done; exfalso; destruct H as [?|[?|?]]; lia.
Qed.

Lemma kernel_dir_eqb s d : kernel_dir s d -> (d * 4096 =? kernel_page_directory s) = true.
Proof. intros ->. apply Z.eqb_refl. Qed.

(** The guard against user code touching the kernel half lets a [space_ok]
    request through. *)
Lemma guard_open s dirs d v :
  space_ok s dirs d v ->
  negb (d * 4096 =? kernel_page_directory s) && (KERNEL_PDE_INDEX <=? pd_index v) = false.
Proof.
  intros (_ & Hv & _ & Hk). pose proof (kernel_half v Hv). apply andb_false_iff.
  destruct Hk as [?|Hk]; [right; apply Z.leb_gt; lia|left; by rewrite kernel_dir_eqb].
Qed.

(** Clearing or writing the entry of a page through its table. *)
Lemma put_entry_spec s dirs d v p e :
  vm_inv s dirs -> space_ok s dirs d v -> table s d (pd_index v) p ->
  0 <= e < 4294967296 -> (present e = true -> rights_le e (entry (mem s) d (pd_index v))) ->
  let s' := put p (pt_index v) e s in
  vm_step dirs s s' /\
  (forall d' v', d' ∈ dirs -> vaddr_ok v' -> ~ sees s d v d' v' ->
    walk (mem s') d' v' = walk (mem s) d' v') /\
  (forall o, 0 <= o < 4096 -> walk (mem s') d (v + o) =
    if present e then Some (frame e * 4096 + o, writable e, user e) else None).
Proof.
  intros Hinv Hok Ht He Hr s'. pose proof (space_own _ _ _ _ Hok) as Ho.
  destruct Hok as (Hd & Hv & Hal & Hk). destruct (pt_index_of v) as [_ Hj], (pd_index_of v Hv) as [_ Hi].
  pose proof (put_pte_inv s dirs d _ p (pt_index v) e Hinv Hd Ho Ht Hj He Hr) as Hinv'.
  destruct (put_pte_walk s dirs d _ p (pt_index v) e Hinv Hd Ho Ht Hj He) as [Hoth Hsame].
  assert (Hu : used s dirs p) by (by eapply table_used).
  assert (Hpd : p ∉ dirs) by (by eapply (vm_table _ _ Hinv)).
  split; [|split].
  - apply vm_step_put; [done..|]. apply used_put_table. intros d' i' q Hd' Hi'. unfold table.
    rewrite (entry_same (mem s)); [done| |done]. apply put_same_frame; [done|]. by intros ->.
  - intros d' v' Hd' Hv' Hn. apply Hoth; [done..|]. intros [Hre Hpt]. apply Hn. by apply reaches_sees.
  - intros o Hoo. destruct (same_page_indices (v + o) v) as [Hpi Hpj]; [Z.div_mod_to_equations; lia|].
    rewrite Hsame by done. destruct (present e) eqn:E; [|done]. destruct (Hr eq_refl) as [Hw Hus].
    do 2 f_equal; [f_equal|].
    + f_equal. Z.div_mod_to_equations; lia.
    + destruct (writable e); [by rewrite Hw|by rewrite andb_false_r].
    + destruct (user e); [by rewrite Hus|by rewrite andb_false_r].
Qed.

Lemma vm_step_invlpg dirs s s' v : vm_step dirs s s' -> vm_step dirs s (paging_tlb_invalidate v s').
Proof.
  intros [I K A M P U V T D].
  destruct (fa_frame s' (paging_tlb_invalidate v s')) as (Hf & Ha & Hm & Hp); [apply I|done..|].
  assert (Hs : fa_same s' (paging_tlb_invalidate v s')) by done.
  split; [|done|intros q; rewrite Ha; auto|intros q; by rewrite Hm|intros a; by rewrite Hp|done|done| |done];
    [|intros q Hq; rewrite Ha; by apply T].
  apply (stable_spaces s'); [done..|]. intros p Hp'.
  split; [|done]. by apply (held_fa_same s'), (used_held s' dirs).
Qed.

Lemma unmap_cases s dirs d v :
  vm_inv s dirs -> space_ok s dirs d v ->
  (walk (mem s) d v = None /\ vmm_unmap_page_in (d * 4096) v s = (-1, s)) \/
  (exists s', vmm_unmap_page_in (d * 4096) v s = (0, s') /\ walk (mem s) d v <> None /\
    vm_step dirs s s' /\ invlpg s' = v :: invlpg s /\
    (forall d' v', d' ∈ dirs -> vaddr_ok v' -> ~ sees s d v d' v' ->
      walk (mem s') d' v' = walk (mem s) d' v') /\
    (forall o, 0 <= o < 4096 -> walk (mem s') d (v + o) = None)).
Proof.
  intros Hinv Hok. pose proof Hok as (Hd & Hv & Hal & _). unfold vmm_unmap_page_in.
  destruct (dir_ptr s dirs d) as (Hr & -> & _); [done..|].
  destruct (pd_index_of v Hv) as [-> _], (pt_index_of v) as [-> _].
  rewrite land_4095, Hal, (guard_open s dirs d v Hok). simpl. unfold walk at 1 2.
  destruct (get_page_table_spec s dirs d v) as [[-> ->]|(p & Ht & Hp & -> & ->)]; [done..|by left|].
  rewrite rdw_entry, present_land by lia. pose proof Ht as [Hpr Hfr]. rewrite Hpr, Hfr.
  destruct (present (entry (mem s) p _)); simpl; [right|by left].
  rewrite wrw_put by lia.
  destruct (put_entry_spec s dirs d v p 0) as (Hst & Hoth & Hw); [done..|].
  eexists. split; [done|]. split; [done|]. split; [by apply vm_step_invlpg|]. done.
Qed.

(** ** Mapping *)

Lemma map_refused address_space v paddr flags s :
  (address_space = 0 \/ v mod 4096 <> 0 \/ paddr mod 4096 <> 0 \/
   address_space <> kernel_page_directory s /\ VMM_KERNEL_VIRTUAL_BASE <= v) -> vaddr_ok v ->
  vmm_map_page_in address_space v paddr flags s = (-1, s).
Proof.
  intros H Hv. unfold vmm_map_page_in. rewrite !land_4095.
  destruct (pd_index_of v Hv) as [-> _]. pose proof (kernel_half v Hv).
  repeat case_if; try done; exfalso; destruct H as [?|[?|[?|?]]]; lia.
Qed.

(** No translation of any address space differs between [s] and [s']. *)
Definition same_walks (dirs : gset Z) (s s' : mm) : Prop :=
  forall d v, d ∈ dirs -> vaddr_ok v -> walk (mem s') d v = walk (mem s) d v.

(** The frame handed out is of no use when it lies above the direct map. *)
Definition no_low_frame (s : mm) : Prop := forall q, q < 4096 -> avail s q = false.

(** Taking a frame and giving it back is invisible. *)
Lemma alloc_free_step dirs s p s' :
  vm_inv s dirs -> pmm_alloc_page s = (p * 4096, s') -> p <> 0 ->
  vm_step dirs s (pmm_free_page (p * 4096) s') /\
  same_walks dirs s (pmm_free_page (p * 4096) s') /\ invlpg (pmm_free_page (p * 4096) s') = invlpg s /\
  (forall q, avail (pmm_free_page (p * 4096) s') q = avail s q).
Proof.
  intros Hinv Ha Hp0. destruct (alloc_frame_spec s dirs Hinv) as
    [[E _]|(p' & s1 & E & Hav & Hr & _ & Hq & Hss & Hu & _ & Hmp & Hm & Hpr & Hpv & [Hto Hoc])];
    rewrite Ha in E; injection E as E ?; [lia|].
  assert (p' = p) as -> by lia. subst s1.
  destruct (free_frame_spec s' dirs p) as (Hss' & Hq' & Hm' & Hpr' & _ & [Hto' Hoc']);
    [apply Hss|lia|by rewrite Hm|by rewrite Hq, Z.eqb_refl, andb_false_r|done|done|].
  assert (Hav' : forall q, avail (pmm_free_page (p * 4096) s') q = avail s q).
  { intros q. rewrite Hq', Hq. destruct (Z.eqb_spec q p) as [->|]; simpl; [by rewrite Hav, orb_true_r|].
    by rewrite andb_true_r, orb_false_r. }
  split; [|split; [|split; [by rewrite Hto', Hto|done]]].
  - destruct Hss as [_ K W U _ _], Hss' as [I' K' W' U' _ _]. split; [done|congruence|..].
    + intros q. by rewrite Hav'.
    + intros q. by rewrite Hm'.
    + intros a. by rewrite Hpr'.
    + intros q. rewrite U', U. by left.
    + intros q. by rewrite U', U.
    + intros q. rewrite Hav'. by left.
    + intros q _ _ Hpq a Hqa. rewrite (only_changes_frame _ _ _ q Hoc'), (only_changes_frame _ _ _ q Hoc); try done.
      intros b Hb. apply Hpq. by apply Hpr.
  - intros d v Hd Hv. rewrite (ss_walk _ _ _ Hss'), (ss_walk _ _ _ Hss) by done. done.
Qed.

(** A fresh table: allocated, cleared and linked. *)
Lemma fresh_table_spec s dirs d i p s1 :
  vm_inv s dirs -> d ∈ dirs -> own_index s d i -> present (entry (mem s) d i) = false ->
  pmm_alloc_page s = (p * 4096, s1) -> 0 < p < 4096 ->
  let s' := put d i (Z.lor (p * 4096) VMM_PAGE_PRESENT) (zero_frame p s1) in
  vm_step dirs s s' /\ same_walks dirs s s' /\ invlpg s' = invlpg s /\ table s' d i p /\
  forall j, 0 <= j < 1024 -> entry (mem s') p j = 0.
Proof.
  intros Hinv Hd Ho Hnp Ha Hp. set (e := Z.lor (p * 4096) VMM_PAGE_PRESENT). intros s'.
  destruct (alloc_frame_spec s dirs Hinv) as
    [[E _]|(p' & s1' & E & Hav & Hr & _ & Hq & Hss & Hu & Hh & Hmp & Hm & Hpr & Hpv & [Hto Hoc])];
    rewrite Ha in E; injection E as E ?; [lia|].
  assert (p' = p) as -> by lia. subst s1'. specialize (Hh ltac:(lia)).
  destruct (zero_frame_spec s1 dirs p) as (Hss2 & Hh2 & (A2 & M2 & P2) & Hz & Hoc2); [apply Hss|done..|].
  assert (Hi : 0 <= i < 1024) by apply Ho.
  assert (Hk : kernel_page_directory (zero_frame p s1) = kernel_page_directory s)
    by (rewrite (ss_kpd _ _ _ Hss2); apply Hss).
  assert (Hu2 : forall q, used (zero_frame p s1) dirs q <-> used s dirs q)
    by (intros; rewrite (ss_used _ _ _ Hss2); apply Hss).
  destruct (link_spec (zero_frame p s1) dirs d i p e) as (I3 & T3 & U3 & W3 & N3);
    [apply Hss2|exact Hd| | |exact Hh2| | | | | |].
  { unfold own_index, kernel_dir in *. by rewrite Hk. }
  { by rewrite (ss_entry _ _ _ Hss2), (ss_entry _ _ _ Hss). }
  { by rewrite (ss_used _ _ _ Hss2). }
  { intros j Hj. by rewrite Hz. }
  { apply lor_range; lia. }
  { unfold e, present. by rewrite Z.lor_spec, testbit_page by lia. }
  { unfold e. rewrite frame_lor by lia. apply frame_page. }
  assert (Hdp : d <> p) by (intros ->; apply Hu; by left).
  destruct (held_put (zero_frame p s1) d i e) as (_ & (A3 & M3 & P3) & _);
    [apply Hss2|apply (vm_dir _ _ (ss_inv _ _ _ Hss2)), Hd|done|].
  split; [split|split; [|split; [|split; [done|]]]].
  - done.
  - done.
  - intros q. unfold s'. rewrite A3, A2, Hq. by intros [? _]%andb_prop.
  - intros q. unfold s'. by rewrite M3, M2.
  - intros a. unfold s'. by rewrite P3, P2.
  - intros q Hqu. apply U3 in Hqu as [?| ->]; [left; by apply Hu2|by right].
  - intros q Hqu. apply U3. left. by apply Hu2.
  - intros q Hqa. destruct (decide (q = p)) as [->|Hne]; [right; apply U3; by right|left].
    unfold s'. rewrite A3, A2, Hq, Hqa. simpl. apply negb_true_iff. by apply Z.eqb_neq.
  - intros q Hqa Hqu Hpq a Hqb. assert (q <> p) by congruence. assert (q <> d) by (intros ->; apply Hqu; by left).
    unfold s'. rewrite (put_same_frame d i e _ q), (only_changes_frame _ _ _ q Hoc2), (only_changes_frame _ _ _ q Hoc); congruence || done.
  - intros d' v Hd' Hv. rewrite <- (ss_walk _ _ _ Hss), <- (ss_walk _ _ _ Hss2) by done.
    destruct (decide (d' = d /\ pd_index v = i)) as [[-> Hiv]|]; [|by apply W3].
    unfold s'. rewrite N3 by done. destruct (pt_index_of v) as [_ Hpj]. rewrite Hz by done.
    unfold walk. by rewrite Hiv, (ss_entry _ _ _ Hss2), (ss_entry _ _ _ Hss), Hnp by done.
  - change (invlpg s1 = invlpg s). by rewrite Hto.
  - intros j Hj. unfold s'. rewrite (entry_same (mem (zero_frame p s1))); [by apply Hz| |done].
    by apply put_same_frame.
Qed.

(** The table of [map_page_table]: afterwards the directory entry is present
    and no translation has changed. *)
Lemma map_page_table_spec s dirs d i :
  vm_inv s dirs -> d ∈ dirs -> own_index s d i ->
  match map_page_table (vmm_phys_to_virt (d * 4096)) i s with
  | (None, s') => vm_step dirs s s' /\ same_walks dirs s s' /\ invlpg s' = invlpg s /\
      no_low_frame s /\ present (entry (mem s) d i) = false /\
      (forall q, avail s' q = avail s q)
  | (Some pt_ptr, s') => vm_step dirs s s' /\ same_walks dirs s s' /\ invlpg s' = invlpg s /\
      exists p, pt_ptr = vmm_phys_to_virt (p * 4096) /\ 0 < p < 4096 /\ table s' d i p /\
        (s' = s \/ forall j, 0 <= j < 1024 -> entry (mem s') p j = 0)
  end.
Proof.
  intros Hinv Hd Ho. pose proof (held_range _ _ (vm_dir _ _ Hinv d Hd)) as Hdr.
  unfold map_page_table. rewrite rdw_entry, present_land, negb_involutive by lia.
  assert (Hi : 0 <= i < 1024) by apply Ho.
  destruct (present (entry (mem s) d i)) eqn:E.
  { assert (Ht : table s d i (frame (entry (mem s) d i))) by done.
    apply (table_used s dirs) in Ht as Hu; [|done..].
    pose proof (held_range _ _ (used_held _ _ _ Hinv Hu)).
    rewrite frame_land by auto with cint. rewrite (proj2 (Z.eqb_neq _ _)) by (rewrite phys_to_virt_in; lia).
    split; [by apply vm_step_refl|]. split; [done|]. split; [done|]. eexists; eauto. }
  destruct (alloc_frame_spec s dirs Hinv) as [[-> Hno]|(p & s1 & Ha & _ & Hr & Hlow & _)].
  { simpl. split; [by apply vm_step_refl|]. do 2 (split; [done|]). split; [by intros q _|done]. }
  rewrite Ha, (proj2 (Z.eqb_neq (p * 4096) 0)) by lia. destruct (decide (p < 4096)) as [Hlt|Hge].
  - rewrite (proj2 (Z.eqb_neq (vmm_phys_to_virt (p * 4096)) _)) by (rewrite phys_to_virt_in; lia).
    fold (zero_frame p s1). rewrite wrw_put by lia.
    destruct (fresh_table_spec s dirs d i p s1) as (? & ? & ? & ? & ?); [done..|lia|].
    do 3 (split; [done|]). exists p. split; [done|]. split; [lia|]. by split; [|right].
  - rewrite phys_to_virt_out by lia. rewrite Z.eqb_refl.
    destruct (alloc_free_step dirs s p s1) as (? & ? & ? & ?); [done..|lia|].
    do 3 (split; [done|]). split; [|done]. intros q Hq. apply Hlow. lia.
Qed.

(** The entry that is written grants what [flags] ask for. *)
Lemma new_entry p flags :
  0 <= p < 1048576 -> let e := Z.lor (p * 4096) (Z.land flags 0xfff) in
  0 <= e < 4294967296 /\ frame e = p /\ present e = present flags /\
  writable e = writable flags /\ user e = user flags.
Proof.
  intros Hp e. pose proof (land_fff_range flags). unfold e, present, writable, user.
  split; [apply lor_range; lia|]. rewrite frame_lor, frame_page by done. split; [done|].
  rewrite !Z.lor_spec, !Z.land_spec, !testbit_page by lia. simpl. by rewrite !andb_true_r.
Qed.

Lemma grant_step s dirs d i p flags :
  vm_inv s dirs -> d ∈ dirs -> own_index s d i -> table s d i p ->
  let s' := put d i (Z.lor (entry (mem s) d i) (Z.land flags 6)) s in
  vm_step dirs s s' /\ same_walks dirs s s' /\ table s' d i p /\
  rights_le flags (entry (mem s') d i) /\
  (forall j, 0 <= j < 1024 -> entry (mem s') p j = entry (mem s) p j).
Proof.
  intros Hinv Hd Ho Ht s'. destruct (grant_spec s dirs d i p flags) as (I & W & T & E); [done..|].
  assert (Hi : 0 <= i < 1024) by apply Ho. pose proof (land_6_range flags).
  split; [|split; [done|split; [by apply T|split]]].
  - apply vm_step_put; [done|by left|done|done|]. apply used_put_table. intros d' i' q ??. by apply T.
  - unfold s'. rewrite entry_put, decide_True; [|done..|apply lor_range; [apply entry_range|lia]].
    unfold rights_le, writable, user. rewrite !Z.lor_spec, !Z.land_spec. simpl.
    rewrite !andb_true_r. split; intros ->; apply orb_true_r.
  - intros j Hj. apply E; [|done]. intros ->. by destruct (vm_table _ _ Hinv d i d) as [_ ?].
Qed.

(** What a successful mapping of [v] to frame [p] does. *)
Definition mapped (dirs : gset Z) (d v p flags : Z) (s s' : mm) : Prop :=
  invlpg s' = v :: invlpg s /\
  (forall d' v', d' ∈ dirs -> vaddr_ok v' -> ~ sees s d v d' v' ->
    walk (mem s') d' v' = walk (mem s) d' v') /\
  (forall o, 0 <= o < 4096 -> walk (mem s') d (v + o) =
    if present flags then Some (p * 4096 + o, writable flags, user flags) else None).

Lemma sees_kpd s s' d v d' v' :
  kernel_page_directory s' = kernel_page_directory s -> sees s' d v d' v' <-> sees s d v d' v'.
Proof. intros E. unfold sees, kernel_dir. by rewrite E. Qed.

Lemma write_entry_spec s dirs d v p q flags :
  vm_inv s dirs -> space_ok s dirs d v -> table s d (pd_index v) q -> 0 <= p < 1048576 ->
  let s1 := put d (pd_index v) (Z.lor (entry (mem s) d (pd_index v)) (Z.land flags 6)) s in
  let s2 := put q (pt_index v) (Z.lor (p * 4096) (Z.land flags 0xfff)) s1 in
  vm_step dirs s (paging_tlb_invalidate v s2) /\ mapped dirs d v p flags s (paging_tlb_invalidate v s2).
Proof.
  intros Hinv Hok Ht Hp s1 s2. pose proof (space_own _ _ _ _ Hok) as Ho.
  destruct (grant_step s dirs d (pd_index v) q flags) as (S1 & W1 & T1 & R1 & E1); [done|apply Hok|done..|].
  destruct (new_entry p flags Hp) as (He & Hf & Hpr & Hw & Hus).
  destruct (put_entry_spec s1 dirs d v q (Z.lor (p * 4096) (Z.land flags 0xfff))) as (S2 & W2 & N2);
    [apply S1|done..| |].
  { intros _. unfold rights_le in *. rewrite Hw, Hus. done. }
  split; [apply vm_step_invlpg; by eapply vm_step_trans|]. split; [done|]. split.
  - intros d' v' Hd' Hv' Hn. transitivity (walk (mem s1) d' v'); [|by apply W1].
    apply W2; [done..|]. by rewrite sees_kpd.
  - intros o Hoo. rewrite Hf, Hpr, Hw, Hus in N2. by apply N2.
Qed.

Lemma map_cases s dirs d v p flags :
  vm_inv s dirs -> space_ok s dirs d v -> 0 <= p < 1048576 ->
  match vmm_map_page_in (d * 4096) v (p * 4096) flags s with
  | (r, s') => vm_step dirs s s' /\
    ((r = 0 /\ walk (mem s) d v = None /\ mapped dirs d v p flags s s') \/
     (r = -1 /\ same_walks dirs s s' /\ invlpg s' = invlpg s /\
      (forall q, avail s' q = avail s q) /\
      (walk (mem s) d v <> None \/ present (entry (mem s) d (pd_index v)) = false /\ no_low_frame s)))
  end.
Proof.
  intros Hinv Hok Hp. pose proof Hok as (Hd & Hv & Hal & _). unfold vmm_map_page_in.
  destruct (dir_ptr s dirs d) as (Hr & -> & ->); [done..|].
  destruct (pd_index_of v Hv) as [-> Hi], (pt_index_of v) as [-> Hj].
  change (PMM_PAGE_SIZE - 1) with 4095. rewrite (land_4095 v), (land_4095 (p * 4096)), Hal, Z.mod_mul, (guard_open s dirs d v Hok) by lia. cbn [negb orb andb].
  pose proof (map_page_table_spec s dirs d (pd_index v) Hinv Hd (space_own _ _ _ _ Hok)) as Hmt.
  rewrite !Z.eqb_refl. cbn [negb orb].
  destruct (map_page_table _ _ _) as [[pt|] s1]; cycle 1.
  { destruct Hmt as (S1 & W1 & Hin & Hno & Hnp & Hav). split; [done|right]. do 4 (split; [done|]).
    by right. }
  destruct Hmt as (S1 & W1 & Hin & q & -> & Hq & Ht & Hor).
  rewrite rdw_entry, present_land, negb_involutive by lia.
  assert (Hw : walk (mem s1) d v = walk (mem s) d v) by (by apply W1).
  unfold walk at 1 in Hw. pose proof Ht as [Htp Htf]. rewrite Htp, Htf in Hw.
  destruct (present (entry (mem s1) q _)) eqn:E.
  - destruct Hor as [->|Hz]; [|by rewrite Hz in E].
    split; [by apply vm_step_refl|right]. do 4 (split; [done|]). left. by rewrite <- Hw.
  - rewrite (rdw_entry (mem s1) d), (wrw_put d), (wrw_put q) by lia.
    destruct (write_entry_spec s1 dirs d v p q flags) as [S2 (Hinv2 & W2 & N2)]; [apply S1| |done..|].
    { unfold space_ok, kernel_dir in *. by rewrite (vs_kpd _ _ _ S1). }
    split; [by apply (vm_step_trans dirs s s1)|left]. split; [done|]. split; [done|]. split; [exact (eq_trans Hinv2 (f_equal (cons v) Hin))|].
    split; [|done]. intros d' v' Hd' Hv' Hn. rewrite W2; [by apply W1|done..|].
    rewrite sees_kpd; [done|apply S1].
Qed.

(** [vmm_map_page] replaces the translation of a kernel page, if there is one. *)
Lemma map_page_cases s dirs d v p flags :
  vm_inv s dirs -> d ∈ dirs -> kernel_dir s d -> vaddr_ok v -> v mod 4096 = 0 -> 0 <= p < 1048576 ->
  match vmm_map_page v (p * 4096) flags s with
  | (r, s') => vm_step dirs s s' /\
    ((r = 0 /\ mapped dirs d v p flags s s') \/
     (r = -1 /\ same_walks dirs s s' /\ present (entry (mem s) d (pd_index v)) = false /\ no_low_frame s))
  end.
Proof.
  intros Hinv Hd Hk Hv Hal Hp. unfold vmm_map_page.
  change (PMM_PAGE_SIZE - 1) with 4095. rewrite !land_4095, Hal, Z.mod_mul by lia. cbn [negb orb].
  assert (Hok : space_ok s dirs d v) by (split; [done|]; split; [done|]; split; [done|by right]).
  rewrite Hk. destruct (pt_index_of v) as [-> Hj].
  destruct (get_page_table_spec s dirs d v) as [[Hnp ->]|(q & Ht & Hq & -> & ->)]; [done..| |].
  - cbn [negb Z.eqb]. rewrite Hk. pose proof (map_cases s dirs d v p flags Hinv Hok Hp) as Hm.
    destruct (vmm_map_page_in _ _ _ _ _) as [r s']. destruct Hm as [Hst [(? & _ & ?)|(? & ? & _ & _ & Hor)]].
    + split; [done|]. by left.
    + split; [done|right]. destruct Hor as [Hw|?]; [|done]. unfold walk in Hw. by rewrite Hnp in Hw.
  - cbn [negb]. rewrite wrw_put by lia.
    destruct (put_entry_spec s dirs d v q 0) as (S1 & W1 & N1); [done..|].
    set (s1 := put q (pt_index v) 0 s) in *.
    replace (kernel_page_directory s1) with (d * 4096) by (by rewrite (vs_kpd _ _ _ S1)).
    assert (Hok1 : space_ok s1 dirs d v) by (unfold space_ok, kernel_dir in *; by rewrite (vs_kpd _ _ _ S1)).
    pose proof (map_cases s1 dirs d v p flags (vs_inv _ _ _ S1) Hok1 Hp) as Hm.
    assert (Hw : walk (mem s1) d v = None) by (rewrite <- (Z.add_0_r v); by apply N1).
    assert (Hpr : present (entry (mem s1) d (pd_index v)) = true).
    { unfold s1. rewrite entry_put by (done || lia || by apply pd_index_of). rewrite decide_False; [apply Ht|].
      intros [-> _]. by destruct (vm_table _ _ Hinv d (pd_index v) d (proj1 Hok) (space_own _ _ _ _ Hok) Ht) as [_ ?]. }
    destruct (vmm_map_page_in _ _ _ _ _) as [r s'].
    destruct Hm as [Hst [(? & _ & Hi & W2 & N2)|(_ & _ & _ & _ & [?|[? _]])]]; [|congruence..].
    split; [by apply (vm_step_trans dirs s s1)|left]. split; [done|]. split; [done|]. split; [|done].
    intros d' v' Hd' Hv' Hn. rewrite W2; [by apply W1|done..|]. by rewrite sees_kpd.
Qed.

(** ** Creating an address space *)

Lemma copy_kernel_half s d k :
  0 < d < 4096 -> 0 < k < 4096 -> d <> k ->
  let s' := copy_kernel_pdes (vmm_phys_to_virt (d * 4096)) (vmm_phys_to_virt (k * 4096)) s in
  s' = set_mem (mem s') s /\ only_changes (fun a => a / 4096 = d) (mem s) (mem s') /\
  forall i, 0 <= i < 1024 ->
    entry (mem s') d i = if i <? 768 then entry (mem s) d i else entry (mem s) k i.
Proof.
  intros Hd Hk Hdk s'.
  enough (s' = set_mem (mem s') s /\ only_changes (fun a => a / 4096 = d) (mem s) (mem s') /\
    forall i, 0 <= i < 1024 -> entry (mem s') d i =
      if (768 <=? i) && (i <? 1024) then entry (mem s) k i else entry (mem s) d i) as (? & ? & He).
  { split; [done|]. split; [done|]. intros i Hi. rewrite He by done.
    destruct (Z.leb_spec 768 i), (Z.ltb_spec i 768), (Z.ltb_spec i 1024); simpl; lia || done. }
  unfold s'. clear s'. unfold copy_kernel_pdes.
  for_inv (fun n s' => s' = set_mem (mem s') s /\ only_changes (fun a => a / 4096 = d) (mem s) (mem s') /\
    forall i, 0 <= i < 1024 -> entry (mem s') d i =
      if (768 <=? i) && (i <? n) then entry (mem s) k i else entry (mem s) d i); [lia|..].
  - split; [by destruct s|]. split; [done|]. intros i Hi.
    destruct (Z.leb_spec 768 i), (Z.ltb_spec i 768); simpl; lia || done.
  - intros n s' Hn (Hs & Hoc & He). rewrite wrw_put, rdw_entry by lia.
    assert (Hke : entry (mem s') k n = entry (mem s) k n).
    { apply entry_same; [|lia]. apply (only_changes_frame _ _ _ _ Hoc). by intros a ->. }
    split; [|split].
    + unfold put. rewrite Hs. reflexivity.
    + eapply only_changes_trans; [done|]. apply put_only. lia.
    + intros i Hi. rewrite entry_put by (auto with cint; lia). rewrite Hke, He by done.
      case_decide as Hc.
      * destruct Hc as [_ <-]. destruct (Z.leb_spec 768 n), (Z.ltb_spec n (n + 1)); simpl; lia || done.
      * assert (n <> i) by (intros ->; by destruct Hc).
        destruct (Z.leb_spec 768 i), (Z.ltb_spec i n), (Z.ltb_spec i (n + 1)); simpl; lia || done.
Qed.

(** The new directory: cleared, then given the kernel half. *)
Definition copy_dir (d k : Z) (s : mm) : mm :=
  copy_kernel_pdes (vmm_phys_to_virt (d * 4096)) (vmm_phys_to_virt (k * 4096)) (zero_frame d s).

Lemma copy_dir_spec s dirs d k :
  vm_inv s dirs -> kernel_dir s k -> k ∈ dirs -> held s d -> ~ used s dirs d ->
  vm_inv (copy_dir d k s) ({[d]} ∪ dirs) /\ kernel_dir (copy_dir d k s) k /\
  same_walks dirs s (copy_dir d k s) /\ fa_same s (copy_dir d k s) /\
  (forall q, used (copy_dir d k s) ({[d]} ∪ dirs) q <-> used s dirs q \/ q = d) /\
  (forall v, vaddr_ok v -> walk (mem (copy_dir d k s)) d v =
    if v <? VMM_KERNEL_VIRTUAL_BASE then None else walk (mem s) k v).
Proof.
  intros Hinv Hk Hkd Hh Hu. pose proof (held_range _ _ Hh) as Hr.
  assert (Hdk : d <> k) by (intros ->; apply Hu; by left).
  destruct (zero_frame_spec s dirs d) as (Hss2 & Hh2 & F2 & Hz & _); [done..|].
  destruct (copy_kernel_half (zero_frame d s) d k) as (Hs3 & Hoc3 & He3);
    [lia|apply (vm_dir _ _ Hinv k Hkd)|done|].
  unfold copy_dir. set (s3 := copy_kernel_pdes _ _ _) in *. clearbody s3.
  destruct (unused_write (zero_frame d s) dirs d (mem s3)) as (Hss3 & Hh3 & F3);
    [apply Hss2|done|by rewrite (ss_used _ _ _ Hss2)|done|].
  rewrite <- Hs3 in Hss3, Hh3, F3.
  assert (Hw3 : same_walks dirs s s3).
  { intros d' v Hd' Hv. by rewrite (ss_walk _ _ _ Hss3), (ss_walk _ _ _ Hss2). }
  assert (Hlow3 : forall i, 0 <= i < 768 -> present (entry (mem s3) d i) = false).
  { intros i Hi. rewrite He3 by lia. rewrite (proj2 (Z.ltb_lt i 768)), Hz by lia. done. }
  assert (Hhigh3 : forall i, 768 <= i < 1024 -> entry (mem s3) d i = entry (mem s3) k i).
  { intros i Hi. rewrite He3, (proj2 (Z.ltb_ge i 768)) by lia.
    rewrite (ss_entry _ _ _ Hss3), (ss_entry _ _ _ Hss2); [done|done|lia|done|lia]. }
  assert (Hk3 : kernel_dir s3 k).
  { unfold kernel_dir. by rewrite (ss_kpd _ _ _ Hss3), (ss_kpd _ _ _ Hss2). }
  assert (Hu3 : forall q, used s3 dirs q <-> used s dirs q)
    by (intros; by rewrite (ss_used _ _ _ Hss3), (ss_used _ _ _ Hss2)).
  destruct (vm_inv_add s3 dirs k d) as [I3 U3]; try done; [apply Hss3|by rewrite Hu3|].
  do 3 (split; [done|]). split; [by apply (fa_same_trans s (zero_frame d s))|].
  split; [intros q; by rewrite U3, Hu3|].
  intros v Hv. destruct (pd_index_of v Hv) as [_ Hi]. pose proof (kernel_half v Hv).
  destruct (Z.ltb_spec v VMM_KERNEL_VIRTUAL_BASE).
  - unfold walk. rewrite Hlow3 by lia. done.
  - rewrite <- (Hw3 k v) by done. unfold walk. rewrite Hhigh3 by lia. done.
Qed.

Lemma create_fresh s d s1 k :
  pmm_alloc_page s = (d * 4096, s1) -> 0 < d < 4096 -> kernel_dir s1 k ->
  vmm_create_address_space s = (d * 4096, copy_dir d k s1).
Proof.
  intros Ha Hd Hk. unfold vmm_create_address_space, copy_dir, zero_frame. rewrite Ha, <- Hk.
  rewrite (proj2 (Z.eqb_neq (d * 4096) 0)) by lia.
  by rewrite (proj2 (Z.eqb_neq (vmm_phys_to_virt (d * 4096)) _)) by (rewrite phys_to_virt_in; lia).
Qed.

Lemma copy_dir_only d k s :
  0 < d < 4096 -> 0 < k < 4096 -> d <> k -> only_changes (fun a => a / 4096 = d) (mem s) (mem (copy_dir d k s)).
Proof.
  intros Hd Hk Hdk. destruct (copy_kernel_half (zero_frame d s) d k Hd Hk Hdk) as (_ & Hoc & _).
  eapply only_changes_trans; [|exact Hoc]. unfold zero_frame. cbn [mem set_mem]. intros a Ha.
  rewrite phys_to_virt_in, load8_memset by lia. apply decide_False. unfold phys. intros Hin. apply Ha.
  Z.div_mod_to_equations; lia.
Qed.
#[local] Opaque copy_dir.

(** The other directories do not change. *)
Lemma create_dirs s dirs k d' :
  vm_inv s dirs -> kernel_dir s k -> k ∈ dirs -> d' ∈ dirs ->
  same_frame (mem s) (mem (vmm_create_address_space s).2) d'.
Proof.
  intros Hinv Hk Hkd Hd'. pose proof (vm_dir _ _ Hinv d' Hd') as Hh.
  destruct (alloc_taken s (vm_fa _ _ Hinv)) as [[Ha _]|(d & s1 & Ha & Ht)].
  { unfold vmm_create_address_space. by rewrite Ha. }
  pose proof (ft_range _ _ _ Ht) as Hr. destruct (decide (d < 4096)) as [Hlt|Hge]; cycle 1.
  { unfold vmm_create_address_space. rewrite Ha, (proj2 (Z.eqb_neq (d * 4096) 0)) by lia.
    rewrite phys_to_virt_out, Z.eqb_refl by lia. cbn [snd].
    destruct (alloc_free s d s1 (vm_fa _ _ Hinv) Ha) as (_ & _ & _ & Hoc); [lia|].
    apply (only_changes_frame _ _ _ _ Hoc), Hh. }
  pose proof (ft_avail _ _ _ Ht) as Hav. assert (Hne : forall x, held s x -> d <> x).
  { intros x Hx ->. pose proof (held_taken _ _ Hx). congruence. }
  destruct (ft_touch _ _ _ Ht) as [Hto _].
  rewrite (create_fresh s d s1 k); [|done|lia|unfold kernel_dir; by rewrite Hto]. cbn [snd].
  intros a Haf. rewrite (copy_dir_only d k s1); [|lia|apply (vm_dir _ _ Hinv k Hkd)|by apply Hne, (vm_dir _ _ Hinv)|].
  { by apply (ft_other _ _ _ Ht d' Hh). }
  rewrite Haf. by apply not_eq_sym, Hne.
Qed.

Lemma create_cases s dirs k :
  vm_inv s dirs -> kernel_dir s k -> k ∈ dirs ->
  match vmm_create_address_space s with
  | (r, s') => (r = 0 /\ vm_step dirs s s' /\ same_walks dirs s s' /\ no_low_frame s) \/
    (exists d, r = d * 4096 /\ (d ∉ dirs) /\ avail s d = true /\ 0 < d < 4096 /\
      vm_inv s' ({[d]} ∪ dirs) /\ kernel_dir s' k /\ same_walks dirs s s' /\
      (forall q, avail s' q = avail s q && negb (q =? d)) /\
      (forall q, used s' ({[d]} ∪ dirs) q <-> used s dirs q \/ q = d) /\
      (forall v, vaddr_ok v -> walk (mem s') d v =
        if v <? VMM_KERNEL_VIRTUAL_BASE then None else walk (mem s) k v))
  end.
Proof.
  intros Hinv Hk Hkd. destruct (alloc_frame_spec s dirs Hinv) as
    [[Ha Hno]|(d & s1 & Ha & Hav & Hr & Hlow & Hq & Hss & Hu & Hh & _)].
  { unfold vmm_create_address_space. rewrite Ha. left.
    split; [done|]. split; [by apply vm_step_refl|]. split; [done|]. intros q _. apply Hno. }
  destruct (decide (d < 4096)) as [Hlt|Hge]; cycle 1.
  { unfold vmm_create_address_space. rewrite Ha, (proj2 (Z.eqb_neq (d * 4096) 0)) by lia.
    rewrite phys_to_virt_out, Z.eqb_refl by lia. left.
    destruct (alloc_free_step dirs s d s1) as (? & ? & _ & _); [done..|lia|].
    do 3 (split; [done|]). intros q Hq'. apply Hlow. lia. }
  assert (Hk1 : kernel_dir s1 k) by (unfold kernel_dir; by rewrite (ss_kpd _ _ _ Hss)).
  rewrite (create_fresh s d s1 k) by (done || lia).
  destruct (copy_dir_spec s1 dirs d k) as (I & K & W & (A & _) & U & N); [apply Hss|by auto..|].
  right. exists d. split; [done|]. split; [intros ?; apply Hu; by left|]. split; [done|]. split; [lia|].
  do 2 (split; [done|]). split; [|split; [intros q; by rewrite A, Hq|split; [intros q; by rewrite U, (ss_used _ _ _ Hss)|]]].
  - intros d' v Hd' Hv. by rewrite W, (ss_walk _ _ _ Hss).
  - intros v Hv. by rewrite N, (ss_walk _ _ _ Hss).
Qed.

(** ** Destroying an address space *)

(** The state after the tables of entries below [n] are freed. *)
Record freed_below (s : mm) (dirs : gset Z) (d n : Z) (s' : mm) : Prop := {
  fb_inv : vm_inv s' (dirs ∖ {[d]});
  fb_walks : same_walks (dirs ∖ {[d]}) s s';
  fb_used q : used s' (dirs ∖ {[d]}) q <-> used s (dirs ∖ {[d]}) q;
  fb_dir d' : d' ∈ dirs -> held s' d' /\ same_frame (mem s) (mem s') d';
  fb_avail q : avail s' q = true <-> avail s q = true \/ exists i, 0 <= i < n /\ table s d i q;
  fb_left i q : n <= i < 768 -> table s d i q -> held s' q;
}.

Lemma free_table_step s dirs d n s' p :
  vm_inv s dirs -> d ∈ dirs -> ~ kernel_dir s d -> 0 <= n < 768 -> table s d n p ->
  freed_below s dirs d n s' -> freed_below s dirs d (n + 1) (pmm_free_page (p * 4096) s').
Proof.
  intros Hinv Hd Hnk Hn Ht [I W U Hdir A L].
  assert (Hown : forall i, 0 <= i < 768 -> own_index s d i) by (intros i Hi; split; [lia|left; lia]).
  destruct (vm_inv_remove s dirs d) as (_ & _ & Hpu); [done..|].
  pose proof (L n p ltac:(lia) Ht) as [Hpr Hpm Hpt Hpp].
  destruct (free_frame_spec s' (dirs ∖ {[d]}) p) as (Hss & Hav & _ & _ & Hh & [_ Hoc]); try done; [lia| |].
  { rewrite U. by apply (Hpu n). }
  destruct (vm_table _ _ Hinv d n p Hd (Hown n Hn) Ht) as [_ Hpd].
  split.
  - apply Hss.
  - intros d' v Hd' Hv. by rewrite (ss_walk _ _ _ Hss), W.
  - intros q. by rewrite (ss_used _ _ _ Hss).
  - intros d' Hd'. destruct (Hdir d' Hd') as [Hdh Hdf]. split; [apply Hh; [by intros ->|done]|]. intros a Ha.
    rewrite (only_changes_frame _ _ _ d' Hoc) by (done || apply Hdh). by apply Hdf.
  - intros q. rewrite Hav, orb_true_iff, A, Z.eqb_eq. split.
    + intros [[?|(i & ? & ?)]| ->]; [by left|right; exists i; split; [lia|done]|right; exists n; split; [lia|done]].
    + intros [?|(i & Hi & Hti)]; [by do 2 left|]. destruct (decide (i = n)) as [->|].
      * right. destruct Ht as [_ <-], Hti as [_ <-]. done.
      * left. right. exists i. split; [lia|done].
  - intros i q Hi Hq. apply Hh; [|apply (L i); [lia|done]]. intros ->.
    destruct (vm_inj _ _ Hinv d i d n p) as [_ ?]; [done|done|apply Hown; lia..|done|done|lia].
Qed.

Lemma free_page_tables_spec s dirs d :
  vm_inv s dirs -> d ∈ dirs -> ~ kernel_dir s d ->
  freed_below s dirs d 768 (free_page_tables (vmm_phys_to_virt (d * 4096)) s).
Proof.
  intros Hinv Hd Hnk. pose proof (held_range _ _ (vm_dir _ _ Hinv d Hd)) as Hr.
  destruct (vm_inv_remove s dirs d) as (I & _ & _); [done..|]. unfold free_page_tables.
  for_inv (freed_below s dirs d); [lia|..].
  - split; try done.
    + intros d' Hd'. split; [by apply (vm_dir _ _ Hinv)|done].
    + intros q. split; [by left|]. intros [?|(i & ? & _)]; [done|lia].
    + intros i q Hi Ht. apply (vm_table _ _ Hinv d i); [done| |done]. split; [lia|left; lia].
  - intros n s' Hn Hfb. rewrite rdw_entry, present_land, negb_involutive by lia.
    assert (He : entry (mem s') d n = entry (mem s) d n)
      by (apply entry_same; [by apply Hfb|lia]). rewrite He.
    destruct (present (entry (mem s) d n)) eqn:E.
    + rewrite frame_land by auto with cint. by apply free_table_step.
    + destruct Hfb as [I' W U Hdh A L]. split; try done.
      * intros q. rewrite A. split; (intros [?|(i & Hi & Ht)]; [by left|right; exists i]); [split; [lia|done]|].
        split; [|done]. assert (i <> n) by (intros ->; destruct Ht; congruence). lia.
      * intros i q Hi. apply L. lia.
Qed.

Lemma destroy_spec s dirs d :
  vm_inv s dirs -> d ∈ dirs -> ~ kernel_dir s d ->
  let s' := vmm_destroy_address_space (d * 4096) s in
  vm_inv s' (dirs ∖ {[d]}) /\ same_walks (dirs ∖ {[d]}) s s' /\
  (forall q, used s' (dirs ∖ {[d]}) q <-> used s (dirs ∖ {[d]}) q) /\
  (forall q, avail s' q = true <->
    avail s q = true \/ q = d \/ exists i, 0 <= i < 768 /\ table s d i q) /\
  (forall d', d' ∈ dirs -> same_frame (mem s) (mem s') d').
Proof.
  intros Hinv Hd Hnk s'. unfold s', vmm_destroy_address_space.
  destruct (dir_ptr s dirs d) as (Hr & -> & ->); [done..|].
  rewrite (proj2 (Z.eqb_neq (d * 4096) _)) by (unfold kernel_dir in Hnk; lia). cbn [orb].
  destruct (free_page_tables_spec s dirs d) as [I W U Hdir A _]; [done..|]. destruct (Hdir d Hd) as [[_ Hm Ht Hp] _].
  destruct (vm_inv_remove s dirs d) as (_ & Hu & _); [done..|].
  set (s1 := free_page_tables _ _) in *. clearbody s1.
  destruct (free_frame_spec s1 (dirs ∖ {[d]}) d) as (Hss & Hav & _ & _ & _ & [_ Hoc]); [done|lia|done..|by rewrite U|].
  split; [apply Hss|split; [|split; [|split]]].
  - intros d' v Hd' Hv. by rewrite (ss_walk _ _ _ Hss), W.
  - intros q. by rewrite (ss_used _ _ _ Hss), U.
  - intros q. rewrite Hav, orb_true_iff, A, Z.eqb_eq. tauto.
  - intros d' Hd'. destruct (Hdir d' Hd') as [Hh Hf]. intros a Ha.
    rewrite (only_changes_frame _ _ _ d' Hoc) by (done || apply Hh). by apply Hf.
Qed.

(** ** vmm_init *)

(** Frames that can be handed out inside the direct map. *)
Definition low_frames (s : mm) : Z := count_range (avail s) 0 4096.

Lemma alloc_low s :
  fa_inv s -> 0 < low_frames s ->
  exists p s', pmm_alloc_page s = (p * 4096, s') /\ 0 < p < 4096 /\ fa_inv s' /\ held s' p /\
    low_frames s' = low_frames s - 1 /\ touches_only (priv s) s s'.
Proof.
  intros Hfa Hc. destruct (alloc_spec s Hfa) as [[_ Hno]|(p & s' & Ha & Hav & Hlow & Hq & Hm & Hpr & Hfa' & Hto)].
  { unfold low_frames in Hc. rewrite count_range_none in Hc; [lia|done]. }
  destruct (avail_managed s p Hfa Hav) as [Hmp Hp].
  assert (Hlt : p < 4096).
  { destruct (decide (p < 4096)); [done|]. unfold low_frames in Hc.
    rewrite count_range_none in Hc; [lia|]. intros q Hq'. apply Hlow. lia. }
  exists p, s'. split; [done|]. split; [lia|]. split; [done|]. split; [|split; [|done]].
  - split; [lia|by rewrite Hm|by rewrite Hq, Z.eqb_refl, andb_false_r|].
    intros a Hap <-. apply Hpr in Hap. pose proof (priv_unavail s a Hfa Hap). congruence.
  - unfold low_frames. rewrite (count_range_flip (avail s') (avail s) 0 4096 p); [lia|lia| |done|].
    + by rewrite Hq, Z.eqb_refl, andb_false_r.
    + intros q _ Hne. rewrite Hq. destruct (Z.eqb_spec q p); [done|]. by rewrite andb_true_r.
Qed.

Lemma fill_page_table_spec s q i :
  0 < q < 4096 -> 0 <= i < 256 ->
  let s' := fill_page_table (vmm_phys_to_virt (q * 4096)) i s in
  s' = set_mem (mem s') s /\ only_changes (fun a => a / 4096 = q) (mem s) (mem s') /\
  forall j, 0 <= j < 1024 -> entry (mem s') q j = (i * 1024 + j) * 4096 + 3.
Proof.
  intros Hq Hi s'. unfold s', fill_page_table. clear s'.
  for_inv (fun n s' => s' = set_mem (mem s') s /\ only_changes (fun a => a / 4096 = q) (mem s) (mem s') /\
    forall j, 0 <= j < n -> entry (mem s') q j = (i * 1024 + j) * 4096 + 3); [lia|..].
  - split; [by destruct s|]. split; [done|]. lia.
  - intros n s' Hn (Hs & Hoc & He). rewrite wrw_put by lia.
    rewrite (wrap_small 32 (i * _)), (wrap_small 32 (n * _)), wrap_small by lia.
    replace (i * 4194304 + n * 4096) with ((i * 1024 + n) * 4096) by lia. rewrite lor_page by lia.
    split; [|split].
    + unfold put. rewrite Hs. reflexivity.
    + eapply only_changes_trans; [done|]. apply put_only. lia.
    + intros j Hj. rewrite entry_put by lia. case_decide as Hc; [by destruct Hc as [_ <-]|].
      apply He. assert (n <> j) by (intros ->; by destruct Hc). lia.
Qed.

(** The direct map as the MMU sees it: [limit] bytes of physical memory at the
    kernel base, writable, for the kernel only. *)
Definition direct_map (limit v : Z) : option (Z * bool * bool) :=
  if (VMM_KERNEL_VIRTUAL_BASE <=? v) && (v <? VMM_KERNEL_VIRTUAL_BASE + limit)
  then Some (v - VMM_KERNEL_VIRTUAL_BASE, true, false) else None.

Record init_upto (k total n : Z) (s : mm) : Prop := {
  iu_inv : vm_inv s {[k]};
  iu_kernel : kernel_dir s k;
  iu_low : total - n <= low_frames s;
  iu_walk v : vaddr_ok v -> walk (mem s) k v = direct_map (n * 4194304) v;
  iu_empty i : 768 + n <= i < 1024 -> present (entry (mem s) k i) = false;
}.

(** The table that [vmm_init_table] links maps its span. *)
Lemma filled_walk i v :
  vaddr_ok v -> pd_index v = 768 + i -> 0 <= i ->
  let pte := (i * 1024 + pt_index v) * 4096 + 3 in
  present pte = true /\ frame pte * 4096 + v mod 4096 = v - VMM_KERNEL_VIRTUAL_BASE /\
  writable pte = true /\ user pte = false.
Proof.
  intros Hv Hi Hi0 pte. unfold pte. rewrite <- lor_page by lia. unfold present, writable, user.
  rewrite frame_lor, frame_page, !Z.lor_spec, !testbit_page by lia. split; [done|]. split; [|done].
  unfold pt_index, pd_index, vaddr_ok in *. Z.div_mod_to_equations; lia.
Qed.

Lemma direct_map_next n v :
  vaddr_ok v -> 0 <= n -> direct_map ((n + 1) * 4194304) v =
  if pd_index v =? 768 + n then Some (v - VMM_KERNEL_VIRTUAL_BASE, true, false)
  else direct_map (n * 4194304) v.
Proof.
  unfold direct_map, vaddr_ok, pd_index. intros Hv Hn. destruct (Z.eqb_spec (v / 4194304) (768 + n)).
  - rewrite (proj2 (Z.leb_le _ _)), (proj2 (Z.ltb_lt _ _)) by (Z.div_mod_to_equations; lia). done.
  - destruct (Z.leb_spec VMM_KERNEL_VIRTUAL_BASE v); [|done].
    destruct (Z.ltb_spec v (3221225472 + (n + 1) * 4194304)), (Z.ltb_spec v (3221225472 + n * 4194304));
      try done; exfalso; Z.div_mod_to_equations; lia.
Qed.

Lemma low_frames_same s s' : fa_same s s' -> low_frames s' = low_frames s.
Proof. intros [A _]. apply count_range_ext. intros i _. apply A. Qed.

Lemma link_filled k total n s q :
  0 <= n < 256 -> init_upto k (total - 1) n s -> held s q -> ~ used s {[k]} q ->
  (forall j, 0 <= j < 1024 -> entry (mem s) q j = (n * 1024 + j) * 4096 + 3) ->
  init_upto k total (n + 1) (put k (768 + n) (q * 4096 + 3) s).
Proof.
  intros Hn [Hinv Hk Hlow Hw Hemp] Hh Hu He. pose proof (held_range _ _ Hh) as Hq.
  assert (Hkd : k ∈ ({[k]} : gset Z)) by set_solver.
  assert (He3 : forall p, p * 4096 + 3 = Z.lor (p * 4096) 3) by (intros; by rewrite lor_page).
  assert (Hb : forall p, present (p * 4096 + 3) = true /\ writable (p * 4096 + 3) = true /\ user (p * 4096 + 3) = false).
  { intros p. rewrite He3. unfold present, writable, user. by rewrite !Z.lor_spec, !testbit_page by lia. }
  destruct (Hb q) as (Bp & Bw & Bu).
  destruct (link_spec s {[k]} k (768 + n) q (q * 4096 + 3)) as (I & T & U & W & N); try done.
  { split; [lia|by right]. }
  { apply Hemp. lia. }
  { intros j Hj _. rewrite He by done. destruct (Hb (n * 1024 + j)) as (_ & ? & ?). split; congruence. }
  { lia. }
  { rewrite He3, frame_lor by lia. apply frame_page. }
  destruct (held_put s k (768 + n) (q * 4096 + 3)) as (_ & F & _); [apply Hinv|by apply (vm_dir _ _ Hinv)|lia|].
  split; [done|done|..].
  - rewrite (low_frames_same _ _ F). lia.
  - intros v Hv. rewrite direct_map_next by (done || lia). destruct (Z.eqb_spec (pd_index v) (768 + n)) as [Hv'|Hv'].
    + rewrite N by done. cbv zeta. destruct (pt_index_of v) as [_ Hj]. rewrite He by done.
      destruct (filled_walk n v) as (-> & -> & -> & ->); [done|lia|lia|]. by rewrite Bw, Bu.
    + rewrite W by (done || by intros [_ ?]). by apply Hw.
  - intros i Hi. rewrite entry_put by lia. rewrite decide_False by lia. apply Hemp. lia.
Qed.

Lemma init_table_step k total n s :
  0 <= n < 256 -> n < total -> init_upto k total n s ->
  exists s', vmm_init_table (vmm_phys_to_virt (k * 4096)) n s = Done s' /\ init_upto k total (n + 1) s'.
Proof.
  intros Hn Htot [Hinv Hk Hlow Hw Hemp]. unfold vmm_init_table.
  assert (Hkd : k ∈ ({[k]} : gset Z)) by set_solver.
  pose proof (held_range _ _ (vm_dir _ _ Hinv k Hkd)) as Hkr.
  destruct (alloc_low s) as (q & s1 & Ha & Hq & Hfa1 & Hh1 & Hlow1 & Hto1); [apply Hinv|lia|].
  destruct (alloc_frame_spec s {[k]} Hinv) as
    [[E _]|(q' & s1' & E & _ & _ & _ & _ & Hss1 & Hu1 & _)]; rewrite Ha in E; injection E as E ?; [lia|].
  assert (q' = q) as -> by lia. subst s1'.
  rewrite Ha, (proj2 (Z.eqb_neq (q * 4096) 0)) by lia.
  rewrite (proj2 (Z.eqb_neq (vmm_phys_to_virt (q * 4096)) _)) by (rewrite phys_to_virt_in; lia).
  destruct (zero_frame_spec s1 {[k]} q) as (Hss2 & Hh2 & F2 & _ & _); [apply Hss1|done..|].
  fold (zero_frame q s1). set (s2 := zero_frame q s1) in *. clearbody s2.
  destruct (fill_page_table_spec s2 q n) as (Hs3 & Hoc3 & He3); [done..|].
  set (s3 := fill_page_table _ _ _) in *. clearbody s3.
  destruct (unused_write s2 {[k]} q (mem s3)) as (Hss3 & Hh3 & F3);
    [apply Hss2|done|by rewrite (ss_used _ _ _ Hss2)|done|]. rewrite <- Hs3 in Hss3, Hh3, F3.
  eexists. split; [done|]. rewrite wrw_put by lia. rewrite lor_page by lia.
  apply link_filled; try done; cycle 1.
  { by rewrite (ss_used _ _ _ Hss3), (ss_used _ _ _ Hss2). }
  split; [apply Hss3|..].
  - unfold kernel_dir. by rewrite (ss_kpd _ _ _ Hss3), (ss_kpd _ _ _ Hss2), (ss_kpd _ _ _ Hss1).
  - rewrite (low_frames_same _ _ F3), (low_frames_same _ _ F2). lia.
  - intros v Hv. by rewrite (ss_walk _ _ _ Hss3), (ss_walk _ _ _ Hss2), (ss_walk _ _ _ Hss1), Hw.
  - intros i Hi. rewrite (ss_entry _ _ _ Hss3), (ss_entry _ _ _ Hss2), (ss_entry _ _ _ Hss1); auto; lia.
Qed.

(** The directory before the first table. *)
Lemma init_dir_spec s k total :
  fa_inv s -> held s k -> total <= low_frames s ->
  init_upto k total 0 (zero_frame k (set_kpd (k * 4096) s)).
Proof.
  intros Hfa Hh Hlow. pose proof (held_range _ _ Hh) as Hr. set (s1 := set_kpd (k * 4096) s).
  destruct (fa_frame s s1) as (Hfa1 & F1); [done..|]. assert (Hh1 : held s1 k) by (by apply (held_fa_same s)).
  assert (Hm : only_changes (fun a => a / 4096 = k) (mem s1) (mem (zero_frame k s1))).
  { apply only_changes_memset. rewrite phys_phys_to_virt by lia. intros. Z.div_mod_to_equations; lia. }
  destruct (held_write s1 (mem (zero_frame k s1)) k) as (Hfa2 & F2 & Hh2); [done..|].
  change (set_mem (mem (zero_frame k s1)) s1) with (zero_frame k s1) in *.
  assert (Hz : forall j, 0 <= j < 1024 -> entry (mem (zero_frame k s1)) k j = 0).
  { intros j Hj. apply load32_memset0; rewrite phys_phys_to_virt; lia. }
  split; [apply vm_inv_first; auto; done|done|..].
  - rewrite (low_frames_same _ _ F2), (low_frames_same s s1) by done. lia.
  - intros v Hv. destruct (pd_index_of v Hv) as [_ Hi]. unfold walk. rewrite Hz by done.
    unfold direct_map. destruct (Z.leb_spec VMM_KERNEL_VIRTUAL_BASE v), (Z.ltb_spec v (VMM_KERNEL_VIRTUAL_BASE + 0 * 4194304));
      done || lia.
  - intros i Hi. by rewrite Hz by lia.
Qed.

Lemma vmm_init_spec limit s :
  fa_inv s -> 0 < limit <= 0x40000000 -> limit mod PAGE_TABLE_SPAN = 0 ->
  1 + limit / PAGE_TABLE_SPAN <= low_frames s ->
  exists k s', vmm_init limit s = Done s' /\ kernel_page_directory s' = k * 4096 /\
    cr3 s' = k * 4096 /\ cr0_pg s' = true /\ vm_inv s' {[k]} /\
    forall v, vaddr_ok v -> walk (mem s') k v = direct_map limit v.
Proof.
  intros Hfa Hl Hm Hc. unfold vmm_init. rewrite (proj2 (Z.ltb_ge limit 1)), Hm by lia. rewrite Z.eqb_refl. cbn [negb].
  assert (Ht : 0 <= limit / 4194304 <= 256 /\ limit = limit / 4194304 * 4194304) by (Z.div_mod_to_equations; lia).
  destruct (alloc_low s) as (k & s1 & Ha & Hk & Hfa1 & Hh1 & Hlow1 & Hto1); [done|lia|].
  rewrite Ha, (proj2 (Z.eqb_neq (k * 4096) 0)) by lia.
  rewrite (proj2 (Z.eqb_neq (vmm_phys_to_virt (k * 4096)) _)) by (rewrite phys_to_virt_in; lia).
  fold (zero_frame k (set_kpd (k * 4096) s1)).
  assert (Hloop : exists s', for_range 0 (limit / PAGE_TABLE_SPAN) (fun i c =>
    let* s := c in vmm_init_table (vmm_phys_to_virt (k * 4096)) i s)
      (Done (zero_frame k (set_kpd (k * 4096) s1))) = Done s' /\
    init_upto k (limit / PAGE_TABLE_SPAN) (limit / PAGE_TABLE_SPAN) s').
  { for_inv (fun n (c : outcome mm) => exists s', c = Done s' /\ init_upto k (limit / PAGE_TABLE_SPAN) n s'); [lia|..].
    - eexists. split; [done|]. apply init_dir_spec; [done..|lia].
    - intros n c Hn (s' & -> & Hu). simpl. apply init_table_step; [lia|lia|done]. }
  destruct Hloop as (s' & Hloop & [I K _ W _]). rewrite Hloop. cbn [obind]. exists k. eexists. split; [done|].
  split; [done|]. split; [done|]. split; [done|]. destruct Ht as [_ Ht]. rewrite <- Ht in W. split; [|done].
  destruct (fa_frame s' (paging_enable (paging_load_directory (k * 4096) s'))) as (Hf & F); [apply I|done..|].
  apply (stable_spaces s'); [done..|]. intros p Hp. split; [|done].
  by apply (held_fa_same s'), (used_held s' {[k]}).
Qed.

(** [vmm_init] succeeds when the direct map has a frame for the directory
    and one per table, and turns paging on with exactly the direct map: kernel
    base + [a] translates to [a] for every [a] below [limit], writable and for
    the kernel only, and no other address translates. *)
Theorem vmm_init_direct_map limit s :
  fa_inv s -> 0 < limit <= 0x40000000 -> limit mod PAGE_TABLE_SPAN = 0 ->
  1 + limit / PAGE_TABLE_SPAN <= low_frames s ->
  exists k s', vmm_init limit s = Done s' /\ kernel_page_directory s' = k * 4096 /\
    cr3 s' = k * 4096 /\ cr0_pg s' = true /\ vm_inv s' {[k]} /\
    forall v, vaddr_ok v -> walk (mem s') k v = direct_map limit v.
Proof. apply vmm_init_spec. Qed.
End contracts.
