(* ===== verification/VmmTheorems.v ===== *)
(** * The theorems about virtual memory

    Round trips, isolation of address spaces over any sequence of calls, and
    the absence of leaks.  The calls that change page tables are the steps of
    [vm_call]; [rtc] over them is any history of the kernel's paging code. *)

From S2P Require Import Prelude Memory Tty Printk Machine FrameAlloc Pmm Vmm VmmSpec VmmProof.

Section theorems.
Context {FA : FrameAllocator pmm_alloc_page pmm_free_page}.

(** ** Histories *)

(** A state together with the directories that exist in it. *)
Definition vm_state : Type := mm * gset Z.

(** One call of vmm.c on directory [d] ([None] for a call on no existing
    address space), with any arguments the caller likes. *)
Inductive vm_call : option Z -> vm_state -> vm_state -> Prop :=
  | call_map s dirs d v paddr flags r s' :
      d ∈ dirs -> vaddr_ok v -> 0 <= paddr < 4294967296 ->
      vmm_map_page_in (d * 4096) v paddr flags s = (r, s') ->
      vm_call (Some d) (s, dirs) (s', dirs)
  | call_map_kernel s dirs k v paddr flags r s' :
      kernel_dir s k -> vaddr_ok v -> 0 <= paddr < 4294967296 ->
      vmm_map_page v paddr flags s = (r, s') ->
      vm_call (Some k) (s, dirs) (s', dirs)
  | call_unmap s dirs d v r s' :
      d ∈ dirs -> vaddr_ok v -> vmm_unmap_page_in (d * 4096) v s = (r, s') ->
      vm_call (Some d) (s, dirs) (s', dirs)
  | call_create_failed s dirs s' :
      vmm_create_address_space s = (0, s') -> vm_call None (s, dirs) (s', dirs)
  | call_create s dirs d s' :
      d <> 0 -> vmm_create_address_space s = (d * 4096, s') ->
      vm_call None (s, dirs) (s', {[d]} ∪ dirs)
  | call_destroy s dirs d :
      d ∈ dirs -> ~ kernel_dir s d ->
      vm_call (Some d) (s, dirs) (vmm_destroy_address_space (d * 4096) s, dirs ∖ {[d]})
  | call_destroy_kernel s dirs k :
      kernel_dir s k ->
      vm_call (Some k) (s, dirs) (vmm_destroy_address_space (k * 4096) s, dirs).

(** The user half of directory [d] translates alike in [s] and [s']. *)
Definition same_user_half (d : Z) (s s' : mm) : Prop :=
  forall v, 0 <= v < VMM_KERNEL_VIRTUAL_BASE -> walk (mem s') d v = walk (mem s) d v.

Lemma user_vaddr v : 0 <= v < VMM_KERNEL_VIRTUAL_BASE -> vaddr_ok v.
Proof. unfold vaddr_ok. lia. Qed.

Lemma same_walks_user dirs s s' d : same_walks dirs s s' -> d ∈ dirs -> same_user_half d s s'.
Proof. intros H Hd v Hv. by apply H, user_vaddr. Qed.

Lemma page_multiple v : v mod 4096 = 0 -> v = v / 4096 * 4096.
Proof. intros. Z.div_mod_to_equations; lia. Qed.

(** A mapping request is either refused outright or [space_ok]. *)
Lemma map_request s dirs d v paddr flags :
  vm_inv s dirs -> d ∈ dirs -> vaddr_ok v ->
  vmm_map_page_in (d * 4096) v paddr flags s = (-1, s) \/ space_ok s dirs d v /\ paddr mod 4096 = 0.
Proof.
  intros Hinv Hd Hv. destruct (decide (v mod 4096 = 0)); [|left; apply map_refused; auto].
  destruct (decide (paddr mod 4096 = 0)); [|left; apply map_refused; auto].
  destruct (decide (VMM_KERNEL_VIRTUAL_BASE <= v)), (decide (kernel_page_directory s = d * 4096)).
  - right. split; [|done]. do 3 (split; [done|]). by right.
  - left. apply map_refused; [|done]. do 3 right. lia.
  - right. split; [|done]. do 3 (split; [done|]). by right.
  - right. split; [|done]. do 3 (split; [done|]). left. lia.
Qed.

Lemma unmap_request s dirs d v :
  d ∈ dirs -> vaddr_ok v -> vmm_unmap_page_in (d * 4096) v s = (-1, s) \/ space_ok s dirs d v.
Proof.
  intros Hd Hv. destruct (decide (v mod 4096 = 0)); [|left; apply unmap_refused; auto].
  destruct (decide (VMM_KERNEL_VIRTUAL_BASE <= v)), (decide (kernel_page_directory s = d * 4096)).
  - right. do 3 (split; [done|]). by right.
  - left. apply unmap_refused; [|done]. do 2 right. lia.
  - right. do 3 (split; [done|]). by right.
  - right. do 3 (split; [done|]). left. lia.
Qed.

(** Two directories never share a user page. *)
Lemma sees_user s d v d' v' :
  d <> d' -> vaddr_ok v -> v' < VMM_KERNEL_VIRTUAL_BASE -> ~ sees s d v d' v'.
Proof. intros Hne Hv Hv' [Hp [->|[_ ?]]]; [done|]. Z.div_mod_to_equations; lia. Qed.

(** Frame [q] is either available or a directory or table. *)
Definition accounted (s : mm) (dirs : gset Z) (q : Z) : Prop := avail s q = true \/ used s dirs q.

(** What a call on [t] does: it keeps the invariant, the user halves of the
    other directories and the frames that are accounted for. *)
Record call_effect (t : option Z) (s : mm) (dirs : gset Z) (s' : mm) (dirs' : gset Z) : Prop := {
  ce_inv : vm_inv s' dirs';
  ce_others d : d ∈ dirs -> t <> Some d -> d ∈ dirs' /\ same_user_half d s s';
  ce_frames q : accounted s' dirs' q <-> accounted s dirs q;
  ce_dirs d : d ∈ dirs -> t <> Some d -> same_frame (mem s) (mem s') d;
}.

Lemma step_effect t s dirs s' :
  vm_step dirs s s' -> (forall d, d ∈ dirs -> t <> Some d -> same_user_half d s s') ->
  (forall d, d ∈ dirs -> t <> Some d -> same_frame (mem s) (mem s') d) ->
  call_effect t s dirs s' dirs.
Proof.
  intros [I _ A _ _ U V T _] H Hd. split; [done|auto| |done]. intros q. unfold accounted.
  split; intros [?|Hq]; auto. destruct (U q Hq); auto.
Qed.

(** ** The other directories

    A call on one directory does not write to the frame of another one. *)
Section other_dirs.
Context (s : mm) (dirs : gset Z) (d d' : Z) (Hinv : vm_inv s dirs) (Hd : d ∈ dirs) (Hd' : d' ∈ dirs) (Hne : d' <> d).

Lemma alloc_dir : same_frame (mem s) (mem (pmm_alloc_page s).2) d'.
Proof using Hinv Hd'.
  destruct (alloc_taken s (vm_fa _ _ Hinv)) as [[-> _]|(p & s' & -> & Ht)]; [done|].
  apply Ht. by apply (vm_dir _ _ Hinv).
Qed.

Lemma map_table_dir i :
  own_index s d i -> same_frame (mem s) (mem (map_page_table (vmm_phys_to_virt (d * 4096)) i s).2) d'.
Proof using All.
  intros Ho. pose proof (vm_dir _ _ Hinv d' Hd') as Hh. pose proof (held_range _ _ (vm_dir _ _ Hinv d Hd)) as Hr.
  unfold map_page_table. case_if; [case_if; done|].
  destruct (alloc_taken s (vm_fa _ _ Hinv)) as [[-> _]|(p & s1 & Ha & Ht)]; [done|]. rewrite Ha.
  pose proof (ft_range _ _ _ Ht) as Hp. rewrite (proj2 (Z.eqb_neq (p * 4096) 0)) by lia.
  pose proof (ft_other _ _ _ Ht d' Hh) as Hf. case_if; cbn [snd].
  - destruct (alloc_free s p s1 (vm_fa _ _ Hinv) Ha) as (_ & _ & _ & Hoc); [lia|].
    apply (only_changes_frame _ _ _ _ Hoc), Hh.
  - destruct (decide (p < 4096)) as [Hlt|Hge]; [|by rewrite phys_to_virt_out in * by lia].
    rewrite wrw_put by lia. intros a Haf. rewrite (put_same_frame d i _ _ d' (proj1 Ho)) by congruence.
    rewrite <- Hf by done. cbn [mem set_mem]. rewrite phys_to_virt_in, load8_memset by lia. apply decide_False.
    pose proof (ft_avail _ _ _ Ht). pose proof (held_taken _ _ Hh). unfold phys. intros Hin.
    assert (p = d') by (Z.div_mod_to_equations; lia). congruence.
Qed.

Lemma map_dir v paddr flags :
  vaddr_ok v -> same_frame (mem s) (mem (vmm_map_page_in (d * 4096) v paddr flags s).2) d'.
Proof using All.
  intros Hv. destruct (map_request s dirs d v paddr flags) as [->|[Hok Hal]]; [done..|].
  unfold vmm_map_page_in. destruct (_ || _); [done|]. destruct (negb _); [done|]. destruct (_ && _); [done|].
  destruct (_ =? NULL); [done|]. destruct (pd_index_of v Hv) as [-> Hi].
  pose proof (map_table_dir (pd_index v) (space_own _ _ _ _ Hok)) as Hf.
  pose proof (map_page_table_spec s dirs d (pd_index v) Hinv Hd (space_own _ _ _ _ Hok)) as Hmt.
  destruct (map_page_table _ _ _) as [[pt|] s1]; [|exact Hf]. cbn [snd] in Hf.
  destruct Hmt as (S1 & _ & _ & q & -> & Hq & Ht & _). case_if; [exact Hf|]. cbn [snd].
  pose proof (held_range _ _ (vm_dir _ _ Hinv d Hd)) as Hr. destruct (pt_index_of v) as [-> Hj].
  assert (Ho1 : own_index s1 d (pd_index v)).
  { pose proof (space_own _ _ _ _ Hok) as Ho. unfold own_index, kernel_dir in *. by rewrite (vs_kpd _ _ _ S1). }
  destruct (vm_table _ _ (vs_inv _ _ _ S1) d _ q Hd Ho1 Ht) as [_ Hqn].
  rewrite (wrw_put d), (wrw_put q) by lia. intros a Ha. cbn [mem paging_tlb_invalidate].
  rewrite (put_same_frame q _ _ _ d'), (put_same_frame d _ _ _ d') by (done || congruence). by apply Hf.
Qed.

Lemma unmap_dir v : vaddr_ok v -> same_frame (mem s) (mem (vmm_unmap_page_in (d * 4096) v s).2) d'.
Proof using Hinv Hd Hd'.
  intros Hv. destruct (unmap_request s dirs d v) as [->|Hok]; [done..|].
  unfold vmm_unmap_page_in. destruct (_ || _); [done|]. destruct (_ && _); [done|].
  destruct (get_page_table_spec s dirs d v) as [[_ E]|(q & Ht & Hq & E & _)]; [done..|by rewrite E|].
  rewrite E. destruct (_ =? NULL); [done|]. destruct (_ =? 0); [done|]. destruct (vm_table _ _ Hinv d _ q Hd (space_own _ _ _ _ Hok) Ht) as [_ Hqn].
  destruct (pt_index_of v) as [-> Hj]. rewrite wrw_put by lia. cbn [snd]. apply put_same_frame; [done|]. by intros ->.
Qed.
End other_dirs.

Lemma map_kernel_dir s dirs d d' v paddr flags :
  vm_inv s dirs -> d ∈ dirs -> d' ∈ dirs -> d' <> d -> vaddr_ok v -> kernel_dir s d ->
  same_frame (mem s) (mem (vmm_map_page v paddr flags s).2) d'.
Proof.
  intros Hinv Hd Hd' Hne Hv Hk. unfold vmm_map_page. destruct (_ || _) eqn:Hal; [done|]. change (PMM_PAGE_SIZE - 1) with 4095 in Hal.
  rewrite !land_4095 in Hal. bool_simpl.
  destruct (get_page_table_spec s dirs d v) as [[_ E]|(q & Ht & Hq & E & E')]; [done..| |];
    (rewrite <- Hk in E; rewrite !E; clear E).
  - cbn [negb Z.eqb]. rewrite Hk. by apply (map_dir s dirs).
  - rewrite E'. cbn [negb]. destruct (pt_index_of v) as [-> Hj]. rewrite wrw_put by lia.
    assert (Hok : space_ok s dirs d v) by (split; [done|]; split; [done|]; split; [lia|by right]).
    destruct (vm_table _ _ Hinv d _ q Hd (space_own _ _ _ _ Hok) Ht) as [_ Hqn].
    destruct (put_entry_spec s dirs d v q 0) as (S1 & _ & _); [done..|].
    set (s1 := put q (pt_index v) 0 s) in *. replace (kernel_page_directory s1) with (d * 4096) by (by rewrite (vs_kpd _ _ _ S1)).
    pose proof (map_dir s1 dirs d d' (vs_inv _ _ _ S1) Hd Hd' Hne v paddr flags Hv) as Hf.
    intros a Ha. rewrite Hf by done. unfold s1. apply (put_same_frame q _ _ s d'); [done|by intros ->|done].
Qed.

(** Unmapping takes and frees no frame. *)
Lemma unmap_avail s dirs d v q :
  vm_inv s dirs -> d ∈ dirs -> vaddr_ok v -> avail (vmm_unmap_page_in (d * 4096) v s).2 q = avail s q.
Proof.
  intros Hinv Hd Hv. destruct (unmap_request s dirs d v) as [->|Hok]; [done..|].
  unfold vmm_unmap_page_in. destruct (_ || _); [done|]. destruct (_ && _); [done|].
  destruct (get_page_table_spec s dirs d v) as [[_ E]|(p & Ht & Hp & E & _)]; [done..|by rewrite E|].
  rewrite E. destruct (_ =? NULL); [done|]. destruct (_ =? 0); [done|]. cbn [snd].
  destruct (vm_table _ _ Hinv d _ p Hd (space_own _ _ _ _ Hok) Ht) as [Hh _]. destruct (pt_index_of v) as [-> Hj].
  rewrite wrw_put by lia. destruct (held_put s p (pt_index v) 0 (vm_fa _ _ Hinv) Hh Hj) as (Hfa & (Ha & _) & _).
  destruct (fa_frame _ (paging_tlb_invalidate v (put p (pt_index v) 0 s)) Hfa) as (_ & Ha' & _); [done..|].
  by rewrite Ha', Ha.
Qed.

Lemma refl_effect t s dirs : vm_inv s dirs -> call_effect t s dirs s dirs.
Proof. intros. split; done. Qed.

Lemma mapped_others dirs d v p flags s s' d' :
  mapped dirs d v p flags s s' -> vaddr_ok v -> d' ∈ dirs -> Some d <> Some d' -> same_user_half d' s s'.
Proof.
  intros (_ & Hw & _) Hv Hd' Hne v' Hv'. apply Hw; [done|by apply user_vaddr|].
  apply sees_user; [congruence|done|lia].
Qed.

Lemma page_range paddr : 0 <= paddr < 4294967296 -> 0 <= paddr / 4096 < 1048576.
Proof. intros. split; [apply Z.div_pos|apply Z.div_lt_upper_bound]; lia. Qed.

Lemma map_effect s dirs d v paddr flags r s' :
  vm_inv s dirs -> d ∈ dirs -> vaddr_ok v -> 0 <= paddr < 4294967296 ->
  vmm_map_page_in (d * 4096) v paddr flags s = (r, s') -> call_effect (Some d) s dirs s' dirs.
Proof.
  intros Hinv Hd Hv Hp Hm. destruct (map_request s dirs d v paddr flags) as [E|[Hok Ha]]; [done..| |].
  { rewrite E in Hm. injection Hm as _ <-. by apply refl_effect. }
  pose proof (map_cases s dirs d v (paddr / 4096) flags Hinv Hok (page_range _ Hp)) as Hcs.
  rewrite <- page_multiple, Hm in Hcs by done. destruct Hcs as [Hst Hcs]. apply step_effect; [done| |].
  - intros d' Hd' Hne. destruct Hcs as [(_ & _ & Hw)|(_ & Hw & _)]; [by eapply mapped_others|].
    by apply (same_walks_user dirs).
  - intros d' Hd' Hne. pose proof (map_dir s dirs d d' Hinv Hd Hd' ltac:(congruence) v paddr flags Hv) as Hf.
    by rewrite Hm in Hf.
Qed.

Lemma map_kernel_effect s dirs k v paddr flags r s' :
  vm_inv s dirs -> kernel_dir s k -> vaddr_ok v -> 0 <= paddr < 4294967296 ->
  vmm_map_page v paddr flags s = (r, s') -> call_effect (Some k) s dirs s' dirs.
Proof.
  intros Hinv Hk Hv Hp Hm. destruct (vm_kernel _ _ Hinv) as (k' & Hk' & Hkd).
  rewrite <- (kernel_dir_inj s k k') in Hkd by done.
  destruct (decide (v mod 4096 = 0 /\ paddr mod 4096 = 0)) as [[Hva Hpa]|Hn]; cycle 1.
  { unfold vmm_map_page in Hm. change (PMM_PAGE_SIZE - 1) with 4095 in Hm. rewrite !land_4095 in Hm.
    case_if_in Hm; [injection Hm as _ <-; by apply refl_effect..|]. tauto. }
  pose proof (map_page_cases s dirs k v (paddr / 4096) flags Hinv Hkd Hk Hv Hva (page_range _ Hp)) as Hcs.
  rewrite <- page_multiple, Hm in Hcs by done. destruct Hcs as [Hst Hcs]. apply step_effect; [done| |].
  - intros d' Hd' Hne. destruct Hcs as [(_ & Hw)|(_ & Hw & _)]; [by eapply mapped_others|].
    by apply (same_walks_user dirs).
  - intros d' Hd' Hne. pose proof (map_kernel_dir s dirs k d' v paddr flags Hinv Hkd Hd' ltac:(congruence) Hv Hk) as Hf.
    by rewrite Hm in Hf.
Qed.

Lemma unmap_effect s dirs d v r s' :
  vm_inv s dirs -> d ∈ dirs -> vaddr_ok v -> vmm_unmap_page_in (d * 4096) v s = (r, s') ->
  call_effect (Some d) s dirs s' dirs.
Proof.
  intros Hinv Hd Hv Hm. destruct (unmap_request s dirs d v) as [E|Hok]; [done..| |].
  { rewrite E in Hm. injection Hm as _ <-. by apply refl_effect. }
  destruct (unmap_cases s dirs d v Hinv Hok) as [[_ E]|(s1 & E & _ & Hst & _ & Hw & _)];
    rewrite E in Hm; injection Hm as _ <-; [by apply refl_effect|]. apply step_effect; [done| |].
  - intros d' Hd' Hne v' Hv'. apply Hw; [done|by apply user_vaddr|]. apply sees_user; [congruence|done|lia].
  - intros d' Hd' Hne. pose proof (unmap_dir s dirs d d' Hinv Hd Hd' v Hv) as Hf. by rewrite E in Hf.
Qed.

Lemma create_effect s dirs r s' :
  vm_inv s dirs -> vmm_create_address_space s = (r, s') ->
  (r = 0 -> call_effect None s dirs s' dirs) /\
  (forall d, d <> 0 -> r = d * 4096 -> call_effect None s dirs s' ({[d]} ∪ dirs)).
Proof.
  intros Hinv Hm. destruct (vm_kernel _ _ Hinv) as (k & Hk & Hkd).
  pose proof (create_cases s dirs k Hinv Hk Hkd) as Hcs. rewrite Hm in Hcs.
  assert (Hf : forall d, d ∈ dirs -> same_frame (mem s) (mem s') d).
  { intros d Hd. pose proof (create_dirs s dirs k d Hinv Hk Hkd Hd) as Hf. by rewrite Hm in Hf. }
  destruct Hcs as [(-> & Hst & Hw & _)|(d & -> & Hnd & Hav & ? & Hi & _ & Hw & Ha & Hu & _)]; (split; [|intros d']).
  - intros _. apply step_effect; [done| |auto]. intros d' Hd' _. by apply (same_walks_user dirs).
  - lia.
  - lia.
  - intros _ E. assert (d' = d) as -> by lia. split; [done|..].
    + intros d'' Hd'' _. split; [set_solver|]. by apply (same_walks_user dirs).
    + intros q. unfold accounted. rewrite Hu, Ha, andb_true_iff, negb_true_iff, Z.eqb_neq.
      destruct (decide (q = d)) as [->|]; naive_solver.
    + auto.
Qed.

Lemma destroy_effect s dirs d :
  vm_inv s dirs -> d ∈ dirs -> ~ kernel_dir s d ->
  call_effect (Some d) s dirs (vmm_destroy_address_space (d * 4096) s) (dirs ∖ {[d]}).
Proof.
  intros Hinv Hd Hnk. destruct (destroy_spec s dirs d Hinv Hd Hnk) as (Hi & Hw & Hu & Ha & Hf). split; [done|..|auto].
  - intros d' Hd' Hne. assert (d' ∈ dirs ∖ {[d]}) by set_solver. split; [done|].
    by apply (same_walks_user (dirs ∖ {[d]})).
  - intros q. unfold accounted. rewrite Ha, Hu. unfold used. split.
    + intros [[?|[->|(i & Hi' & Ht)]]|[?|(d' & i & Hd' & ? & ?)]]; [by left|right; by left| |right; left; set_solver|].
      * right. right. exists d, i. split; [done|]. split; [split; [lia|left; lia]|done].
      * right. right. exists d', i. split; [set_solver|done].
    + intros [?|[?|(d' & i & Hd' & Ho & Ht)]]; [by do 2 left|..].
      * destruct (decide (q = d)) as [->|]; [left; right; by left|right; left; set_solver].
      * destruct (decide (d' = d)) as [->|]; [|right; right; exists d', i; split; [set_solver|done]].
        left. right. right. exists i. destruct Ho as [Hir [?|?]]; [split; [lia|done]|done].
Qed.

Lemma vm_call_effect t s dirs s' dirs' :
  vm_call t (s, dirs) (s', dirs') -> vm_inv s dirs -> call_effect t s dirs s' dirs'.
Proof.
  intros Hc Hinv. inversion Hc as [? ? d v paddr flags r|? ? k v paddr flags r|? ? d v r|? ? ?|? ? d ? Hd|? ? d|? ? k]; subst; clear Hc.
  - by apply (map_effect s dirs' d v paddr flags r s').
  - by apply (map_kernel_effect s dirs' k v paddr flags r s').
  - by apply (unmap_effect s dirs' d v r s').
  - by apply (create_effect s dirs' 0 s').
  - by apply (create_effect s dirs (d * 4096) s').
  - by apply destroy_effect.
  - unfold vmm_destroy_address_space. rewrite (kernel_dir_eqb s k) by done. rewrite orb_true_r.
    by apply refl_effect.
Qed.

(** Any call, and any call on another address space than [d]. *)
Definition vm_any (a b : vm_state) : Prop := exists t, vm_call t a b.
Definition vm_other (d : Z) (a b : vm_state) : Prop := exists t, t <> Some d /\ vm_call t a b.

(** C23: Every history of the paging calls, whatever their arguments and results,
    keeps the page tables well formed: tables are allocated frames of the
    direct map, no table is shared by two directories outside the kernel half,
    and rights of directory entries cover their pages. *)
Theorem vm_history_inv a b : rtc vm_any a b -> vm_inv a.1 a.2 -> vm_inv b.1 b.2.
Proof.
  induction 1 as [|[s dirs] [s' dirs'] b [t Hc] _ IH]; [done|]. intros Hinv.
  apply IH. by apply (vm_call_effect t s dirs s' dirs').
Qed.

(** C7: Isolation.  No history of calls on other address spaces, or creating
    and destroying them, changes what any user address of [d] translates to or
    the rights it has. *)
Theorem vm_isolation d a b :
  rtc (vm_other d) a b -> vm_inv a.1 a.2 -> d ∈ a.2 -> d ∈ b.2 /\ same_user_half d a.1 b.1.
Proof.
  induction 1 as [|[s dirs] [s' dirs'] b (t & Ht & Hc) _ IH]; intros Hinv Hd; [done|].
  destruct (vm_call_effect t s dirs s' dirs' Hc Hinv) as [Hinv' Hoth _].
  destruct (Hoth d Hd Ht) as [Hd' Hsame]. destruct IH as [Hb Hw]; [done..|]. split; [done|].
  intros v Hv. rewrite Hw by done. by apply Hsame.
Qed.

(** C8: No leak.  Over any history of paging calls, the frames that are
    available or in use as a directory or table are always the same ones:
    every frame taken for a table is in some directory, and destroying the
    address space gives every one of them back. *)
Theorem vm_no_leak a b q :
  rtc vm_any a b -> vm_inv a.1 a.2 -> accounted b.1 b.2 q <-> accounted a.1 a.2 q.
Proof.
  induction 1 as [|[s dirs] [s' dirs'] b [t Hc] _ IH]; [done|]. intros Hinv.
  destruct (vm_call_effect t s dirs s' dirs' Hc Hinv) as [Hinv' _ Hf].
  rewrite IH by done. apply Hf.
Qed.

(** ** Mapping *)

(** C24: [vmm_map_page_in] maps the page, and only it: after a call that returns
    0 and whose flags have VMM_PAGE_PRESENT, [vmm_get_paddr_in] finds every byte
    of the page at its frame; without that flag the call returns 0 as well, but
    every lookup of the page fails.  In both cases every lookup of any other
    page, in any address space, answers as before. *)
Theorem vmm_map_get_roundtrip s dirs d v p flags out s' :
  vm_inv s dirs -> space_ok s dirs d v -> 0 <= p < 1048576 -> out <> NULL ->
  vmm_map_page_in (d * 4096) v (p * 4096) flags s = (0, s') ->
  (forall o, 0 <= o < 4096 -> vmm_get_paddr_in (d * 4096) (v + o) out s' =
    if present flags then Some (p * 4096 + o) else None) /\
  (forall d' v', d' ∈ dirs -> vaddr_ok v' -> ~ sees s d v d' v' ->
    vmm_get_paddr_in (d' * 4096) v' out s' = vmm_get_paddr_in (d' * 4096) v' out s).
Proof.
  intros Hinv Hok Hp Hout Hm. pose proof (map_cases s dirs d v p flags Hinv Hok Hp) as Hc.
  rewrite Hm in Hc. destruct Hc as [Hst [(_ & _ & _ & Hw & Hn)|(? & _)]]; [|done].
  destruct Hok as (Hd & Hv & Hal & _). split.
  - intros o Ho. rewrite (get_paddr_walk s' dirs); [|apply Hst|done| |done].
    + rewrite Hn by done. by destruct (present flags).
    + unfold vaddr_ok in *. Z.div_mod_to_equations; lia.
  - intros d' v' Hd' Hv' Hns. rewrite !(get_paddr_walk _ dirs) by (done || apply Hst). by rewrite Hw.
Qed.

(** C38: When [vmm_map_page_in] succeeds.  On an unmapped page it returns 0
    whenever the page has a table or a frame of the direct map is left for
    one, with exactly the rights of [flags]; on a mapped page it returns -1 and
    changes no translation of any address space. *)
Theorem vmm_map_outcome s dirs d v p flags :
  vm_inv s dirs -> space_ok s dirs d v -> 0 <= p < 1048576 ->
  (walk (mem s) d v = None ->
    (present (entry (mem s) d (pd_index v)) = true \/ exists q, q < 4096 /\ avail s q = true) ->
    exists s', vmm_map_page_in (d * 4096) v (p * 4096) flags s = (0, s') /\
      invlpg s' = v :: invlpg s /\ forall o, 0 <= o < 4096 -> walk (mem s') d (v + o) =
        if present flags then Some (p * 4096 + o, writable flags, user flags) else None) /\
  (walk (mem s) d v <> None ->
    exists s', vmm_map_page_in (d * 4096) v (p * 4096) flags s = (-1, s') /\ same_walks dirs s s').
Proof.
  intros Hinv Hok Hp. pose proof (map_cases s dirs d v p flags Hinv Hok Hp) as Hc.
  destruct (vmm_map_page_in _ _ _ _ _) as [r s']. destruct Hc as [_ Hc]. split.
  - intros Hn Hroom. exists s'. destruct Hc as [(-> & _ & ? & _ & ?)|(_ & _ & _ & _ & [?|[Hnp Hno]])]; try done.
    destruct Hroom as [?|(q & Hq & Hav)]; [congruence|]. by rewrite Hno in Hav.
  - intros Hm. exists s'. destruct Hc as [(_ & ? & _)|(-> & ? & _)]; [done|]. done.
Qed.

(** Requests that must not reach the tables are refused and change
    nothing: no address space, an address that is not page aligned, or the
    kernel half through a directory other than the kernel's. *)
Theorem vmm_guards address_space v paddr flags s :
  vaddr_ok v ->
  (address_space = 0 \/ v mod 4096 <> 0 \/
   address_space <> kernel_page_directory s /\ VMM_KERNEL_VIRTUAL_BASE <= v) ->
  vmm_map_page_in address_space v paddr flags s = (-1, s) /\
  vmm_unmap_page_in address_space v s = (-1, s).
Proof.
  intros Hv H. split; [|by apply unmap_refused]. apply map_refused; [|done].
  destruct H as [?|[?|?]]; auto.
Qed.

(** A kernel page the kernel has not mapped is mapped in no address space. *)
Lemma shared_walk s dirs k d v :
  vm_inv s dirs -> d ∈ dirs -> kernel_dir s k -> vaddr_ok v -> VMM_KERNEL_VIRTUAL_BASE <= v ->
  walk (mem s) k v = None -> walk (mem s) d v = None.
Proof.
  intros Hinv Hd Hk Hv Hge Hn. pose proof (kernel_half v Hv). destruct (pd_index_of v Hv) as [_ Hi].
  unfold walk in *. destruct (present (entry (mem s) d (pd_index v))) eqn:E; [|done].
  destruct (vm_shared _ _ Hinv d k (pd_index v) (frame (entry (mem s) d (pd_index v)))) as [Ep Ef];
    [done|done|lia|done|]. rewrite Ep, Ef in Hn. by destruct (present (entry (mem s) (frame _) _)).
Qed.

Lemma walk_none_page m d v u :
  v / 4096 = u / 4096 -> walk m d v = None -> walk m d u = None.
Proof.
  intros Hp. unfold walk. destruct (same_page_indices v u Hp) as [-> ->].
  destruct (present (entry m d (pd_index u))); [|done].
  by destruct (present (entry m (frame (entry m d (pd_index u))) (pt_index u))).
Qed.

(** Unmapping undoes mapping: after a successful map and an unmap of the
    same page, every address of every address space translates as it did. *)
Theorem vmm_map_unmap_roundtrip s dirs d v p flags s1 :
  vm_inv s dirs -> space_ok s dirs d v -> 0 <= p < 1048576 -> present flags = true ->
  vmm_map_page_in (d * 4096) v (p * 4096) flags s = (0, s1) ->
  exists s2, vmm_unmap_page_in (d * 4096) v s1 = (0, s2) /\ vm_inv s2 dirs /\ same_walks dirs s s2.
Proof.
  intros Hinv Hok Hp Hf Hm. pose proof (map_cases s dirs d v p flags Hinv Hok Hp) as Hc.
  rewrite Hm in Hc. destruct Hc as [S1 [(_ & Hnone & _ & W1 & N1)|(? & _)]]; [|done].
  assert (Hk1 : forall k, kernel_dir s1 k <-> kernel_dir s k) by (intros; unfold kernel_dir; by rewrite (vs_kpd _ _ _ S1)).
  assert (Hok1 : space_ok s1 dirs d v) by (unfold space_ok in *; by rewrite Hk1).
  destruct (unmap_cases s1 dirs d v (vs_inv _ _ _ S1) Hok1) as [[Hw _]|(s2 & Hu & _ & S2 & _ & W2 & N2)].
  { specialize (N1 0 ltac:(lia)). rewrite Z.add_0_r, Hf, Hw in N1. done. }
  exists s2. split; [done|]. split; [apply S2|]. pose proof Hok as (Hd & Hv & Hal & _).
  pose proof (vm_step_trans _ _ _ _ S1 S2) as S12.
  assert (Hgone : forall u, u / 4096 = v / 4096 -> walk (mem s2) d u = None).
  { intros u Hp'. replace u with (v + u mod 4096) by (Z.div_mod_to_equations; lia).
    apply N2, Z.mod_pos_bound. lia. }
  intros d' v' Hd' Hv'. destruct (decide (v' / 4096 = v / 4096)) as [Hpg|Hpg]; cycle 1.
  { rewrite W2, W1; try done; by intros [? _]. }
  assert (Hwd : walk (mem s) d v' = None) by (by apply (walk_none_page _ _ v)).
  destruct (decide (d' = d)) as [->|Hne]; [by rewrite Hwd, Hgone|].
  destruct (decide (kernel_page_directory s = d * 4096 /\ VMM_KERNEL_VIRTUAL_BASE <= v)) as [[Hk Hge]|Hn].
  - assert (VMM_KERNEL_VIRTUAL_BASE <= v') by (Z.div_mod_to_equations; lia).
    rewrite (shared_walk s dirs d), (shared_walk s2 dirs d); try done; [apply S2| |by apply Hgone].
    unfold kernel_dir. by rewrite (vs_kpd _ _ _ S12).
  - rewrite W2, W1; try done; intros [_ [?|[Hk ?]]]; try done; apply Hn; [done|by rewrite Hk1 in Hk].
Qed.

(** ** Creating and destroying *)

(** A new address space starts with an empty user half and the kernel half
    of the kernel's directory; no other address space changes; and its
    directory is a frame nobody held. *)
Theorem vmm_create_spec s dirs k d s' :
  vm_inv s dirs -> kernel_dir s k -> d <> 0 ->
  vmm_create_address_space s = (d * 4096, s') ->
  avail s d = true /\ ~ used s dirs d /\ vm_inv s' ({[d]} ∪ dirs) /\ same_walks dirs s s' /\
  forall v, vaddr_ok v -> walk (mem s') d v =
    if v <? VMM_KERNEL_VIRTUAL_BASE then None else walk (mem s) k v.
Proof.
  intros Hinv Hk Hd Hm. destruct (vm_kernel _ _ Hinv) as (k' & Hk' & Hkd).
  rewrite <- (kernel_dir_inj s k k') in Hkd by done.
  pose proof (create_cases s dirs k Hinv Hk Hkd) as Hc. rewrite Hm in Hc.
  destruct Hc as [(? & _)|(d' & ? & _ & Hav & _ & ? & _ & ? & _ & _ & ?)]; [lia|].
  assert (d' = d) as -> by lia. split; [done|]. split; [|done].
  intros Hu. pose proof (held_taken _ _ (used_held _ _ _ Hinv Hu)). congruence.
Qed.

End theorems.
