(* ===== verification/Kmalloc.v ===== *)
(** * The kernel heap (src/kernel/mm/kmalloc.c)

    Blocks are chained through headers [heap_block] that live in the pages
    they describe: [size] at offset 0, the byte [free] at offset 4 and [next]
    at offset 8, 12 bytes in all on i386.  [list] is [heap_list] of the machine
    state.  The two list walks run under a bound of 2^24 rounds, more than the
    headers that fit into the direct map; [Diverge] is what a circular list
    would give. *)

From S2P Require Import Prelude Memory Tty Printk Machine FrameAlloc Pmm.

Abbreviation KMALLOC_ALIGN := 8.
Abbreviation SIZEOF_HEAP_BLOCK := 12.
Abbreviation HEAP_WALK_BITS := 24%nat.

Definition blk_size (m : memory) (b : Z) : Z := rd32 m b.
Definition blk_free (m : memory) (b : Z) : Z := rd8 m (b + 4).
Definition blk_next (m : memory) (b : Z) : Z := rd32 m (b + 8).
Definition set_blk_size (b v : Z) (s : mm) : mm := set_mem (wr32 (mem s) b v) s.
Definition set_blk_free (b v : Z) (s : mm) : mm := set_mem (wr8 (mem s) (b + 4) v) s.
Definition set_blk_next (b v : Z) (s : mm) : mm := set_mem (wr32 (mem s) (b + 8) v) s.

(** [block + 1] *)
Definition blk_data (b : Z) : Z := b +u SIZEOF_HEAP_BLOCK.

Definition align_size (size : Z) : option Z :=
  if size =? 0 then None
  else if 0xffffffff - (KMALLOC_ALIGN - 1) <? size then None
  else Some (Z.land ((size +u KMALLOC_ALIGN) -u 1) (u32 (Z.lnot (KMALLOC_ALIGN - 1)))).

Definition new_block (s : mm) : Z * mm :=
  let '(paddr, s) := pmm_alloc_page s in
  if paddr =? 0 then (NULL, s)
  else
    let block := vmm_phys_to_virt paddr in
    if block =? NULL then (NULL, pmm_free_page paddr s)
    else
      let s := set_blk_size block (PMM_PAGE_SIZE - SIZEOF_HEAP_BLOCK) s in
      let s := set_blk_free block 1 s in
      let s := set_blk_next block NULL s in
      (block, s).

Definition alloc_from_block (block size : Z) (s : mm) : Z * mm :=
  let remaining := blk_size (mem s) block -u size in
  let s :=
    if SIZEOF_HEAP_BLOCK + KMALLOC_ALIGN <=? remaining then
      let next := blk_data block +u size in
      let s := set_blk_free next 1 s in
      let s := set_blk_size next (remaining -u SIZEOF_HEAP_BLOCK) s in
      let s := set_blk_next next (blk_next (mem s) block) s in
      set_blk_next block next s
    else s in
  let s := set_blk_free block 0 s in
  let s := set_blk_size block size s in
  (blk_data block, s).

(** One round of [coalesce_next]; [inr] when the condition of the loop fails. *)
Definition coalesce_step (block : Z) (s : mm) : mm + mm :=
  let next := blk_next (mem s) block in
  if negb (next =? NULL) && negb (blk_free (mem s) next =? 0)
     && (blk_data block +u blk_size (mem s) block =? next)
  then
    let s := set_blk_size block
      (blk_size (mem s) block +u (SIZEOF_HEAP_BLOCK +u blk_size (mem s) next)) s in
    inl (set_blk_next block (blk_next (mem s) (blk_next (mem s) block)) s)
  else inr s.

Definition coalesce_next (block : Z) (s : mm) : outcome mm :=
  match while_pow HEAP_WALK_BITS (coalesce_step block) s with
  | inr s => Done s
  | inl _ => Diverge
  end.

(** One round of the search of [kmalloc] on [(current, last)]: the block that
    fits, or the last block of the list. *)
Definition search_step (m : memory) (asize : Z) (st : Z * Z) : (Z * Z) + (Z + Z) :=
  let '(current, last) := st in
  if current =? NULL then inr (inr last)
  else if negb (blk_free m current =? 0) && (asize <=? blk_size m current)
  then inr (inl current)
  else inl (blk_next m current, current).

Definition kmalloc (size : Z) (s : mm) : outcome (Z * mm) :=
  match align_size size with
  | None => Done (NULL, s)
  | Some asize =>
    if PMM_PAGE_SIZE - SIZEOF_HEAP_BLOCK <? asize then Done (NULL, s)
    else
      let s := if heap_list s =? NULL
               then let '(block, s) := new_block s in set_heap_list block s else s in
      if heap_list s =? NULL then Done (NULL, s)
      else
        match while_pow HEAP_WALK_BITS (search_step (mem s) asize) (heap_list s, NULL) with
        | inl _ => Diverge
        | inr (inl current) => Done (alloc_from_block current asize s)
        | inr (inr last) =>
          let '(current, s) := new_block s in
          if current =? NULL then Done (NULL, s)
          else Done (alloc_from_block current asize (set_blk_next last current s))
        end
  end.

Definition kfree (ptr : Z) (s : mm) : outcome mm :=
  if ptr =? NULL then Done s
  else
    let block := ptr -u SIZEOF_HEAP_BLOCK in
    let s := set_blk_free block 1 s in
    coalesce_next block s.
