(* ===== verification/KmallocProof.v ===== *)
(** * Correctness of the kernel heap

    The abstract heap is the list of its blocks in chain order.  [heap_inv]
    relates it to memory; each operation of kmalloc.c is an operation on the
    list.  Live blocks never overlap, and no operation writes into the payload
    of a block that is live before and after it. *)

From S2P Require Import Prelude Memory Tty Printk Machine FrameAlloc Pmm Kmalloc.

(** ** The abstract heap *)

Record blk := mkBlk { b_addr : Z; b_size : Z; b_free : bool }.

#[export] Instance blk_eq_dec : EqDecision blk.
Proof. solve_decision. Defined.

(** The byte addresses (physical) of a block, header included, of its header
    and of its payload. *)
Definition in_blk (b : blk) (a : Z) : Prop :=
  phys (b_addr b) <= a < phys (b_addr b) + 12 + b_size b.
Definition in_header (b : blk) (a : Z) : Prop := phys (b_addr b) <= a < phys (b_addr b) + 12.
Definition in_data (b : blk) (a : Z) : Prop :=
  phys (b_addr b) + 12 <= a < phys (b_addr b) + 12 + b_size b.

Definition apart (b c : blk) : Prop := forall a, in_blk b a -> in_blk c a -> False.

(** Pairwise disjoint blocks. *)
Fixpoint all_apart (bs : list blk) : Prop :=
  match bs with
  | [] => True
  | b :: bs => Forall (apart b) bs /\ all_apart bs
  end.

(** The chain from pointer [p] to pointer [q] holds the headers of [bs]. *)
Fixpoint chain (m : memory) (p : Z) (bs : list blk) (q : Z) : Prop :=
  match bs with
  | [] => p = q
  | b :: bs => p = b_addr b /\ blk_size m p = b_size b /\
      blk_free m p = (if b_free b then 1 else 0) /\ chain m (blk_next m p) bs q
  end.

(** The allocations: address and size of every block that is not free. *)
Fixpoint live (bs : list blk) : list (Z * Z) :=
  match bs with
  | [] => []
  | b :: bs => if b_free b then live bs else (b_addr b + 12, b_size b) :: live bs
  end.

(** ** Lists of blocks *)

Lemma apart_sym b c : apart b c -> apart c b.
Proof. intros H a ? ?. by apply (H a). Qed.

Lemma all_apart_app l1 l2 :
  all_apart (l1 ++ l2) <-> all_apart l1 /\ all_apart l2 /\ forall b c, b ∈ l1 -> c ∈ l2 -> apart b c.
Proof.
  induction l1 as [|x l1 IH]; simpl; [set_solver|]. rewrite IH, Forall_app, !Forall_forall. set_solver.
Qed.

Lemma live_app l1 l2 : live (l1 ++ l2) = live l1 ++ live l2.
Proof. induction l1 as [|b l1 IH]; simpl; [done|]. rewrite IH. by destruct (b_free b). Qed.

Lemma live_in bs p n : (p, n) ∈ live bs <-> exists b, b ∈ bs /\ b_free b = false /\ p = b_addr b + 12 /\ n = b_size b.
Proof.
  induction bs as [|b bs IH]; simpl; [set_solver|]. destruct (b_free b) eqn:E.
  - rewrite IH. split; intros (c & Hc & ?); exists c; [set_solver|].
    apply elem_of_cons in Hc as [->|?]; [|done]. destruct H; congruence.
  - rewrite elem_of_cons, IH. split.
    + intros [[= -> ->]|(c & ? & ?)]; [exists b; set_solver|exists c; set_solver].
    + intros (c & [->|?]%elem_of_cons & ? & -> & ->); [by left|right; eauto].
Qed.

(** Replacing a block by blocks inside it keeps the blocks apart. *)
Lemma all_apart_replace l1 b bs' l2 :
  (forall c a, c ∈ bs' -> in_blk c a -> in_blk b a) -> all_apart bs' ->
  all_apart (l1 ++ b :: l2) -> all_apart (l1 ++ bs' ++ l2).
Proof.
  intros Hin Hbs'. rewrite !all_apart_app. simpl. rewrite Forall_forall.
  intros (H1 & [Hb H2] & H12). split; [done|]. split; [split; [done|split; [done|]]|].
  - intros c d Hc Hd a Ha Ha'. apply (Hb d Hd a); eauto.
  - intros c d Hc [Hd|Hd]%elem_of_app a Ha Ha'.
    + apply (H12 c b Hc ltac:(set_solver) a); eauto.
    + apply (H12 c d Hc ltac:(set_solver) a); eauto.
Qed.

(** ** Chains *)

Lemma chain_app m p l1 l2 q : chain m p (l1 ++ l2) q <-> exists r, chain m p l1 r /\ chain m r l2 q.
Proof.
  revert p. induction l1 as [|b l1 IH]; intros p; simpl.
  - split; [eauto|]. by intros (r & -> & ?).
  - rewrite IH. naive_solver.
Qed.

(** A chain depends on its headers only. *)
Lemma header_ext m m' b :
  (forall a, in_header b a -> load8 m' a = load8 m a) ->
  blk_size m' (b_addr b) = blk_size m (b_addr b) /\
  blk_free m' (b_addr b) = blk_free m (b_addr b) /\ blk_next m' (b_addr b) = blk_next m (b_addr b).
Proof.
  unfold in_header, blk_size, blk_free, blk_next, rd32, rd8, phys. intros H.
  split; [|split]; [apply load32_ext|apply H; lia|apply load32_ext]; intros; apply H; lia.
Qed.

Lemma chain_ext m m' p bs q :
  (forall b a, b ∈ bs -> in_header b a -> load8 m' a = load8 m a) -> chain m p bs q -> chain m' p bs q.
Proof.
  revert p. induction bs as [|b bs IH]; intros p H; simpl; [done|]. intros (-> & Hs & Hf & Hc).
  destruct (header_ext m m' b) as (E1 & E2 & E3); [intros; apply (H b); set_solver|].
  rewrite E1, E2, E3. do 3 (split; [done|]). apply IH; [|done]. intros c a Hc'. apply (H c). set_solver.
Qed.

Lemma in_header_blk b a : 0 <= b_size b -> in_header b a -> in_blk b a.
Proof. unfold in_header, in_blk. lia. Qed.
Lemma in_data_blk b a : in_data b a -> in_blk b a.
Proof. unfold in_data, in_blk. lia. Qed.

(** ** Writes to headers *)

(** The effect of [alloc_from_block] on a block of size [n] at [b]. *)
Lemma alloc_from_block_split b n size s :
  VMM_KERNEL_VIRTUAL_BASE <= b -> b + 12 + n < 4294967296 -> blk_size (mem s) b = n ->
  8 <= size -> 20 <= n - size ->
  let c := b + 12 + size in let '(r, s') := alloc_from_block b size s in
  r = b + 12 /\ s' = set_mem (mem s') s /\
  only_changes (fun a => phys b <= a < phys b + 12 + n) (mem s) (mem s') /\
  blk_size (mem s') b = size /\ blk_free (mem s') b = 0 /\ blk_next (mem s') b = c /\
  blk_size (mem s') c = n - size - 12 /\ blk_free (mem s') c = 1 /\
  blk_next (mem s') c = blk_next (mem s) b.
Proof.
  intros Hb Hn Hs Hsz Hr c. unfold alloc_from_block. rewrite Hs.
  rewrite (wrap_small 32 (n - size)) by lia. rewrite (proj2 (Z.leb_le _ _)) by lia.
  unfold blk_data. rewrite (wrap_small 32 (b + 12)), (wrap_small 32 (b + 12 + size)), (wrap_small 32 (n - size - 12)) by lia.
  fold c. unfold set_blk_free, set_blk_size, set_blk_next, blk_size, blk_free, blk_next, wr8, wr32, rd8, rd32.
  cbn [mem set_mem]. assert (Hc : c = b + 12 + size) by done. clearbody c. unfold phys.
  split; [done|]. split; [done|]. split; [|split; [|split; [|split; [|split; [|split]]]]].
  - repeat (etransitivity; [|apply only_changes_store32 || apply only_changes_store8]); try done; lia.
  - rewrite load32_store32_eq. apply wrap_small. lia.
  - rewrite load8_store32_ne, load8_store8_eq by lia. done.
  - rewrite load32_store32_ne, load32_store8_ne, load32_store32_eq by lia. apply wrap_small. lia.
  - rewrite load32_store32_ne, load32_store8_ne, !load32_store32_ne, load32_store32_eq by lia.
    apply wrap_small. lia.
  - rewrite load8_store32_ne, load8_store8_ne, !load8_store32_ne, load8_store8_eq by lia. done.
  - rewrite load32_store32_ne, load32_store8_ne, load32_store32_ne, load32_store32_eq by lia.
    rewrite load32_store32_ne, load32_store8_ne by lia. apply wrap_small, load32_range.
Qed.

Lemma alloc_from_block_whole b n size s :
  VMM_KERNEL_VIRTUAL_BASE <= b -> b + 12 + n < 4294967296 -> blk_size (mem s) b = n ->
  0 <= size <= n -> n - size < 20 ->
  let '(r, s') := alloc_from_block b size s in
  r = b + 12 /\ s' = set_mem (mem s') s /\
  only_changes (fun a => phys b <= a < phys b + 12) (mem s) (mem s') /\
  blk_size (mem s') b = size /\ blk_free (mem s') b = 0 /\ blk_next (mem s') b = blk_next (mem s) b.
Proof.
  intros Hb Hn Hs Hsz Hr. unfold alloc_from_block. rewrite Hs.
  rewrite (wrap_small 32 (n - size)) by lia. rewrite (proj2 (Z.leb_gt _ _)) by lia.
  unfold blk_data. rewrite (wrap_small 32 (b + 12)) by lia.
  unfold set_blk_free, set_blk_size, blk_size, blk_free, blk_next, wr8, wr32, rd8, rd32.
  cbn [mem set_mem]. unfold phys.
  split; [done|]. split; [done|]. split; [|split; [|split]].
  - repeat (etransitivity; [|apply only_changes_store32 || apply only_changes_store8]); try done; lia.
  - rewrite load32_store32_eq. apply wrap_small. lia.
  - rewrite load8_store32_ne, load8_store8_eq by lia. done.
  - rewrite load32_store32_ne, load32_store8_ne by lia. done.
Qed.

(** ** The invariant *)

Section heap.
Context {FA : FrameAllocator pmm_alloc_page pmm_free_page}.

(** A block has a word-aligned header and payload, in frames the heap holds. *)
Record blk_ok (s : mm) (b : blk) : Prop := {
  bk_size : 0 < b_size b;
  bk_addr4 : b_addr b mod 4 = 0;
  bk_size4 : b_size b mod 4 = 0;
  bk_held a : in_blk b a -> held s (a / 4096);
}.

Record heap_inv (s : mm) (bs : list blk) : Prop := {
  hp_fa : fa_inv s;
  hp_chain : chain (mem s) (heap_list s) bs NULL;
  hp_ok b : b ∈ bs -> blk_ok s b;
  hp_apart : all_apart bs;
}.

Lemma blk_range s b : blk_ok s b ->
  VMM_KERNEL_VIRTUAL_BASE < b_addr b /\
  b_addr b + 12 + b_size b <= VMM_KERNEL_VIRTUAL_BASE + VMM_DIRECT_MAP_LIMIT.
Proof.
  intros [Hs _ _ Hh]. unfold in_blk, phys in Hh.
  pose proof (held_range _ _ (Hh (b_addr b - VMM_KERNEL_VIRTUAL_BASE) ltac:(lia))).
  pose proof (held_range _ _ (Hh (b_addr b - VMM_KERNEL_VIRTUAL_BASE + 12 + b_size b - 1) ltac:(lia))).
  split; Z.div_mod_to_equations; lia.
Qed.

Lemma blk_ok_same s s' b : fa_same s s' -> blk_ok s b -> blk_ok s' b.
Proof. intros Hs [? ? ? Hh]. split; try done. intros a Ha. by apply (held_fa_same s), Hh. Qed.

(** The payload of the live blocks of [bs] is the same in [s] and [s']. *)
Definition keeps_data (bs : list blk) (s s' : mm) : Prop :=
  forall b a, b ∈ bs -> b_free b = false -> in_data b a -> load8 (mem s') a = load8 (mem s) a.

(** Replacing block [b] by blocks inside it, with a write inside [b]. *)
Lemma heap_update s l1 b bs' l2 m' :
  heap_inv s (l1 ++ b :: l2) -> only_changes (in_blk b) (mem s) m' ->
  chain m' (b_addr b) bs' (blk_next (mem s) (b_addr b)) -> all_apart bs' ->
  (forall c, c ∈ bs' -> 0 < b_size c /\ b_addr c mod 4 = 0 /\ b_size c mod 4 = 0 /\
    forall a, in_blk c a -> in_blk b a) ->
  heap_inv (set_mem m' s) (l1 ++ bs' ++ l2) /\ fa_same s (set_mem m' s) /\
  keeps_data (l1 ++ l2) s (set_mem m' s) /\ only_changes (in_blk b) (mem s) m'.
Proof.
  intros [Hfa Hc Hok Hap] Hm Hbs' Hap' Hin.
  assert (Hb : blk_ok s b) by (apply Hok; set_solver).
  destruct (held_writes s m' (in_blk b)) as [Hfa' Hsame]; [done|apply Hb|done|].
  pose proof Hap as Hap0. apply all_apart_app in Hap0 as (_ & [Hb2 _] & Hb1). rewrite Forall_forall in Hb2.
  assert (Hoth : forall c, c ∈ l1 ++ l2 -> apart c b).
  { intros c [Hc'|Hc']%elem_of_app; [apply Hb1; [done|set_solver]|apply apart_sym; auto]. }
  assert (Hkeep : forall c a, c ∈ l1 ++ l2 -> in_blk c a -> load8 m' a = load8 (mem s) a).
  { intros c a Hc' Ha. apply Hm. intros Hab. by apply (Hoth c Hc' a). }
  assert (Hext : forall p l q, (forall c, c ∈ l -> c ∈ l1 ++ l2) -> chain (mem s) p l q -> chain m' p l q).
  { intros p l q Hl. apply chain_ext. intros c a Hcl Ha. apply (Hkeep c); [auto|].
    apply in_header_blk; [|done]. pose proof (bk_size s c (Hok c ltac:(set_solver))). lia. }
  split; [split|split; [done|split; [|done]]].
  - done.
  - apply chain_app in Hc as (r & H1 & Hr). simpl in Hr. destruct Hr as (-> & _ & _ & H2).
    apply chain_app. exists (b_addr b). split; [apply (Hext _ l1); [set_solver|done]|].
    apply chain_app. exists (blk_next (mem s) (b_addr b)). split; [done|]. apply (Hext _ l2); [set_solver|done].
  - intros c [Hc'|[Hc'|Hc']%elem_of_app]%elem_of_app; [apply (blk_ok_same s); [done|apply Hok; set_solver]| |
      apply (blk_ok_same s); [done|apply Hok; set_solver]].
    destruct (Hin c Hc') as (? & ? & ? & Ha). split; try done.
    intros a Hca. apply (held_fa_same s); [done|]. apply Hb. auto.
  - apply (all_apart_replace l1 b); [|done..]. intros c a Hc' Ha. by apply (Hin c Hc').
  - intros c a Hc' _ Ha. apply (Hkeep c a Hc'). by apply in_data_blk.
Qed.

(** [alloc_from_block] on a free block that is large enough. *)
Lemma alloc_block_spec s l1 b l2 size :
  heap_inv s (l1 ++ b :: l2) -> 8 <= size <= b_size b -> size mod 8 = 0 ->
  let '(r, s') := alloc_from_block (b_addr b) size s in
  r = b_addr b + 12 /\ heap_list s' = heap_list s /\
  exists bs', live bs' = [(r, size)] /\ b_addr b ∈ b_addr <$> bs' /\ heap_inv s' (l1 ++ bs' ++ l2) /\ fa_same s s' /\
    keeps_data (l1 ++ l2) s s' /\ only_changes (in_blk b) (mem s) (mem s').
Proof.
  intros Hinv Hsz H8. assert (Hb : blk_ok s b) by (apply (hp_ok _ _ Hinv); set_solver).
  pose proof (blk_range s b Hb) as Hr. pose proof (hp_chain _ _ Hinv) as Hc.
  apply chain_app in Hc as (r & _ & (-> & Hs & Hf & _)). destruct Hb as [Hpos Ha4 Hs4 _].
  destruct (decide (20 <= b_size b - size)) as [Hge|Hlt].
  - pose proof (alloc_from_block_split (b_addr b) (b_size b) size s ltac:(lia) ltac:(lia) Hs ltac:(lia) Hge) as Hspec.
    destruct (alloc_from_block _ _ _) as [r s']. destruct Hspec as (-> & Hs' & Hoc & E1 & E2 & E3 & E4 & E5 & E6).
    split; [done|]. split; [by rewrite Hs'|].
    exists [mkBlk (b_addr b) size false; mkBlk (b_addr b + 12 + size) (b_size b - size - 12) true].
    split; [done|]. split; [by left|]. rewrite Hs'. cbn [mem set_mem].
    apply heap_update; [done|done|..].
    + simpl. rewrite E3. done.
    + simpl. unfold apart, in_blk, phys. rewrite Forall_singleton. simpl.
      split; [intros a; lia|]. done.
    + intros c Hc. rewrite !elem_of_cons, elem_of_nil in Hc. unfold in_blk, phys.
      destruct Hc as [->|[->|[]]]; simpl; (split; [lia|]; split; [|split]); try lia; Z.div_mod_to_equations; lia.
  - pose proof (alloc_from_block_whole (b_addr b) (b_size b) size s ltac:(lia) ltac:(lia) Hs ltac:(lia) ltac:(lia)) as Hspec.
    destruct (alloc_from_block _ _ _) as [r s']. destruct Hspec as (-> & Hs' & Hoc & E1 & E2 & E3).
    assert (Hoc' : only_changes (in_blk b) (mem s) (mem s')).
    { eapply only_changes_mono; [|done]. unfold in_blk, phys. intros a. simpl. lia. }
    split; [done|]. split; [by rewrite Hs'|]. exists [mkBlk (b_addr b) size false].
    split; [done|]. split; [by left|]. rewrite Hs'. cbn [mem set_mem].
    apply heap_update; [done|done|..].
    + simpl. done.
    + simpl. by rewrite Forall_nil.
    + intros c ->%list_elem_of_singleton. unfold in_blk, phys. simpl.
      split; [lia|]; split; [|split]; try lia; Z.div_mod_to_equations; lia.
Qed.

(** ** Growing the heap *)

Definition fresh_blk (p : Z) : blk := mkBlk (VMM_KERNEL_VIRTUAL_BASE + p * 4096) 4084 true.

(** No frame of the direct map is left. *)
Definition no_frame_left (s : mm) : Prop := forall q, q < 4096 -> avail s q = false.

(** Frame [p], taken from the allocator, holds one free block. *)
Record grown (s : mm) (p : Z) (s' : mm) : Prop := {
  gr_range : 0 < p < 4096;
  gr_avail : avail s p = true;
  gr_takes : takes {[p]} s s';
  gr_fa : fa_inv s';
  gr_list : heap_list s' = heap_list s;
  gr_blk : chain (mem s') (b_addr (fresh_blk p)) [fresh_blk p] NULL;
  gr_held q : held s q -> held s' q /\ same_frame (mem s) (mem s') q;
  gr_new a : in_blk (fresh_blk p) a -> a / 4096 = p /\ held s' p;
}.

Lemma new_block_spec s :
  fa_inv s ->
  let '(r, s') := new_block s in
  (r = NULL /\ no_frame_left s /\ fa_inv s' /\ fa_same s s' /\ touches_only (priv s) s s') \/
  (exists p, r = b_addr (fresh_blk p) /\ grown s p s').
Proof.
  intros Hfa. unfold new_block.
  destruct (alloc_taken s Hfa) as [[-> Hno]|(p & s1 & Ha & [Hav Hr Hlow Hrest Hmp1 Hpv1 Hfa1 Hheld1 Hh Hsf [Hto Hoc]])].
  { left. split; [done|]. split; [intros q _; apply Hno|]. split; [done|]. split; [done|]. by destruct s. }
  rewrite Ha, (proj2 (Z.eqb_neq (p * 4096) 0)) by lia. destruct (decide (p < 4096)) as [Hlt|Hge]; cycle 1.
  { rewrite phys_to_virt_out, Z.eqb_refl by lia. left.
    destruct (alloc_free s p s1 Hfa Ha) as (? & ? & ?); [lia|]. split; [done|]. split; [|done].
    intros q Hq. apply Hlow. lia. }
  rewrite phys_to_virt_in by lia. rewrite (proj2 (Z.eqb_neq _ _)) by lia. right. exists p.
  split; [done|]. specialize (Hheld1 Hlt).
  set (s2 := set_blk_next _ _ _).
  assert (Hm : only_changes (fun a => a / 4096 = p) (mem s1) (mem s2)).
  { unfold s2, set_blk_next, set_blk_free, set_blk_size, wr8, wr32, phys. cbn [mem set_mem].
    repeat (etransitivity; [|apply only_changes_store32 || apply only_changes_store8]); try done; intros; Z.div_mod_to_equations; lia. }
  assert (Hs2 : s2 = set_mem (mem s2) s1) by done.
  destruct (held_write s1 (mem s2) p) as (Hfa2 & Hfs2 & Hh2); [done..|]. rewrite <- Hs2 in Hfa2, Hfs2, Hh2.
  assert (Ht1 : takes {[p]} s s1).
  { split; [intros q ->%elem_of_singleton; split; [done|lia]|]. split; [|done]. intros q. rewrite Hrest. do 2 f_equal.
    destruct (Z.eqb_spec q p); by case_bool_decide; set_solver. }
  split; [lia|done|rewrite <- (union_empty_r_L {[p]}); by eapply takes_trans, fa_same_takes|done|rewrite Hs2; cbn; by rewrite Hto|..].
  - unfold s2, set_blk_next, set_blk_free, set_blk_size. simpl.
    unfold blk_size, blk_free, blk_next, wr8, wr32, rd8, rd32, phys. split; [done|]. split; [|split].
    + rewrite load32_store32_ne, load32_store8_ne, load32_store32_eq by lia. done.
    + rewrite load8_store32_ne, load8_store8_eq by lia. done.
    + rewrite load32_store32_eq. done.
  - intros q Hq. split; [auto|]. intros a Haq. rewrite Hm, (Hsf q Hq a Haq); [done|].
    intros E. rewrite E in Haq. subst q. pose proof (held_taken _ _ Hq). congruence.
  - unfold in_blk, fresh_blk, phys. simpl. intros a Ha'. split; [Z.div_mod_to_equations; lia|auto].
Qed.

(** The frames of the heap survive while it grows. *)
Lemma grown_blk s p s' b : grown s p s' -> blk_ok s b ->
  blk_ok s' b /\ apart b (fresh_blk p) /\ forall a, in_blk b a -> load8 (mem s') a = load8 (mem s) a.
Proof.
  intros [_ Hav _ _ _ _ Hh Hn] [? ? ? Hb]. split; [split; try done; intros a Ha; by apply Hh, Hb|]. split.
  - intros a Ha Ha'. destruct (Hn a Ha') as [E _]. pose proof (held_taken _ _ (Hb a Ha)). congruence.
  - intros a Ha. by apply (Hh (a / 4096)); [apply Hb|].
Qed.

Lemma fresh_blk_ok s p s' : grown s p s' -> blk_ok s' (fresh_blk p).
Proof.
  intros [Hr _ _ _ _ _ _ Hn]. split; simpl; [lia|Z.div_mod_to_equations; lia|done|].
  intros a Ha. by destruct (Hn a Ha) as [-> ?].
Qed.

(** The first block. *)
Lemma heap_first s p s' :
  heap_inv s [] -> grown s p s' -> heap_inv (set_heap_list (b_addr (fresh_blk p)) s') [fresh_blk p].
Proof.
  intros Hinv Hg. destruct (fa_frame s' (set_heap_list (b_addr (fresh_blk p)) s')) as [Hfa Hs]; [apply Hg|done..|].
  split; [done|apply Hg| |simpl; by rewrite Forall_nil].
  intros b ->%list_elem_of_singleton. apply (blk_ok_same s'); [done|]. by apply (fresh_blk_ok s p).
Qed.

Lemma grown_inv s bs p s' :
  heap_inv s bs -> grown s p s' ->
  heap_inv s' bs /\ (forall b, b ∈ bs -> apart b (fresh_blk p)) /\ keeps_data bs s s'.
Proof.
  intros [Hfa Hc Hok Hap] Hg. split; [split|split].
  - apply Hg.
  - rewrite (gr_list _ _ _ Hg). apply (chain_ext (mem s)); [|done]. intros b a Hb Ha.
    apply (grown_blk s p s' b Hg (Hok b Hb)). apply in_header_blk; [|done].
    pose proof (bk_size s b (Hok b Hb)). lia.
  - intros b Hb. by apply (grown_blk s p s'); [|apply Hok].
  - done.
  - intros b Hb. by apply (grown_blk s p s'); [|apply Hok].
  - intros b a Hb _ Ha. apply (grown_blk s p s' b Hg (Hok b Hb)). by apply in_data_blk.
Qed.

Lemma all_apart_snoc l b : all_apart l -> (forall c, c ∈ l -> apart c b) -> all_apart (l ++ [b]).
Proof.
  intros Hl Hb. apply all_apart_app. split; [done|]. split; [simpl; by rewrite Forall_nil|].
  intros c d Hc ->%list_elem_of_singleton. auto.
Qed.

(** The last block is linked to the new one. *)
Lemma heap_append s l b p s' :
  heap_inv s (l ++ [b]) -> grown s p s' ->
  let s2 := set_blk_next (b_addr b) (b_addr (fresh_blk p)) s' in
  heap_inv s2 ((l ++ [b]) ++ [fresh_blk p]) /\ fa_same s' s2 /\ keeps_data (l ++ [b]) s s2.
Proof.
  intros Hinv0 Hg s2. destruct (grown_inv s (l ++ [b]) p s' Hinv0 Hg) as ([Hfa Hc Hok Hap] & Hnew & Hkd).
  assert (Hb : blk_ok s' b) by (apply Hok; set_solver). pose proof (blk_range _ _ Hb) as Hr.
  pose proof (bk_size _ _ Hb). pose proof (gr_range _ _ _ Hg) as Hp.
  assert (Hm : only_changes (in_header b) (mem s') (mem s2)).
  { apply only_changes_store32. unfold in_header, phys. lia. }
  destruct (held_writes s' (mem s2) (in_header b)) as [Hfa2 Hsame]; [done| |done|].
  { intros a Ha. apply Hb, in_header_blk; [lia|done]. }
  change (set_mem (mem s2) s') with s2 in *.
  assert (Hkeep : forall c a, apart c b -> in_blk c a -> load8 (mem s2) a = load8 (mem s') a).
  { intros c a Hcb Ha. apply Hm. intros Hh. apply (Hcb a Ha). apply in_header_blk; [lia|done]. }
  pose proof Hap as Hap0. apply all_apart_app in Hap0 as (_ & _ & Hlb).
  split; [split|split; [done|]].
  - done.
  - apply chain_app in Hc as (r & Hl & (-> & Hs & Hf & Hn)). cbn [chain] in Hn.
    apply chain_app. exists (b_addr (fresh_blk p)). split; [apply chain_app; exists (b_addr b); split|].
    + apply (chain_ext (mem s')); [|done]. intros c a Hcl Ha. apply (Hkeep c); [apply Hlb; set_solver|].
      apply in_header_blk; [|done]. pose proof (bk_size _ _ (Hok c ltac:(set_solver))). lia.
    + unfold s2, set_blk_next. cbn [chain mem set_mem].
      unfold blk_size, blk_free, blk_next, wr32, rd8, rd32, phys in *. simpl.
      rewrite load32_store32_ne, load8_store32_ne, load32_store32_eq by lia.
      do 3 (split; [done|]). apply wrap_small. lia.
    + apply (chain_ext (mem s')); [|apply Hg]. intros c a ->%list_elem_of_singleton Ha.
      apply (Hkeep (fresh_blk p)); [apply apart_sym, Hnew; set_solver|]. by apply in_header_blk.
  - intros c [Hc'|Hc'%list_elem_of_singleton]%elem_of_app; apply (blk_ok_same s'); try done; [by apply Hok|].
    subst c. by apply (fresh_blk_ok s p).
  - by apply all_apart_snoc.
  - intros c a Hcl Hcf Ha. rewrite <- (Hkd c a) by done.
    apply elem_of_app in Hcl as [Hcl|Hcl%list_elem_of_singleton].
    + apply (Hkeep c); [apply Hlb; set_solver|by apply in_data_blk].
    + subst c. apply Hm. unfold in_header, in_data in *. lia.
Qed.

(** ** The search *)

Definition blk_fits (size : Z) (b : blk) : bool := b_free b && (size <=? b_size b).

Lemma search_spec m size bs p last :
  chain m p bs NULL -> (forall b, b ∈ bs -> b_addr b <> NULL) ->
  exists r, ends_in (search_step m size) (S (length bs)) (p, last) r /\
    ((exists l1 b l2, bs = l1 ++ b :: l2 /\ blk_fits size b = true /\ r = inl (b_addr b) /\
        Forall (fun c => blk_fits size c = false) l1) \/
     (Forall (fun c => blk_fits size c = false) bs /\ r = inr (default last (b_addr <$> list.last bs)))).
Proof.
  revert p last. induction bs as [|b bs IH]; intros p last Hc Hnn; cbn [chain] in Hc.
  - subst p. exists (inr last). split; [by apply ends_now|]. right. by split.
  - destruct Hc as (-> & Hs & Hf & Hc). pose proof (Hnn b ltac:(set_solver)) as Hb.
    assert (Hstep : search_step m size (b_addr b, last) =
      if blk_fits size b then inr (inl (b_addr b)) else inl (blk_next m (b_addr b), b_addr b)).
    { unfold search_step, blk_fits. rewrite (proj2 (Z.eqb_neq _ _) Hb), Hs, Hf. by destruct (b_free b). }
    destruct (blk_fits size b) eqn:E.
    + exists (inl (b_addr b)). split; [by apply ends_now|]. left. exists [], b, bs. done.
    + destruct (IH (blk_next m (b_addr b)) (b_addr b) Hc) as (r & Hr & Hor); [intros; apply Hnn; set_solver|].
      exists r. split; [by eapply ends_later|]. destruct Hor as [(l1 & c & l2 & -> & Hfc & -> & Hl1)|[Hn ->]].
      * left. exists (b :: l1), c, l2. do 3 (split; [done|]). by constructor.
      * right. split; [by constructor|]. rewrite last_cons. by destruct (list.last bs).
Qed.

(** Headers are distinct words of the direct map: there are fewer than 2^24. *)
Lemma heap_length s bs : heap_inv s bs -> (length bs < 2 ^ HEAP_WALK_BITS)%nat.
Proof.
  intros [_ _ Hok Hap].
  assert (Hnd : NoDup (b_addr <$> bs)).
  { clear -Hok Hap. induction bs as [|b bs IH]; simpl; [constructor|]. destruct Hap as [Hb Hap]. constructor.
    - intros (c & Hc & Hin)%list_elem_of_fmap. rewrite Forall_forall in Hb. apply (Hb c Hin (phys (b_addr b)));
        unfold in_blk; [pose proof (bk_size _ _ (Hok b ltac:(set_solver)))|pose proof (bk_size _ _ (Hok c ltac:(set_solver)))];
        rewrite ?Hc; lia.
    - apply IH; [|done]. intros c Hc. apply Hok. set_solver. }
  assert (Hsub : forall x, x ∈ b_addr <$> bs -> x ∈ seqZ (VMM_KERNEL_VIRTUAL_BASE + 1) (VMM_DIRECT_MAP_LIMIT - 1)).
  { intros x (b & -> & Hb)%list_elem_of_fmap. pose proof (blk_range s b (Hok b Hb)).
    pose proof (bk_size _ _ (Hok b Hb)). apply elem_of_seqZ. lia. }
  pose proof (submseteq_length _ _ (NoDup_submseteq _ _ Hnd Hsub)) as Hl.
  rewrite length_fmap, length_seqZ in Hl. apply Nat2Z.inj_lt. rewrite Nat2Z.inj_pow.
  change (Z.of_nat 2 ^ Z.of_nat 24) with 16777216. lia.
Qed.

(** ** kmalloc *)

Lemma align_size_spec size :
  0 <= size < 4294967296 ->
  match align_size size with
  | None => size = 0 \/ 4080 < size
  | Some n => 0 < size /\ size <= n < size + 8 /\ n mod 8 = 0 /\ 8 <= n
  end.
Proof.
  intros Hs. unfold align_size. case_if; [by left|]. case_if; [right; lia|].
  assert (E : ((size +u 8) -u 1) = size + 7) by ulia. rewrite E, (land_lnot_mask 3) by lia.
  change (2 ^ 3) with 8. Z.div_mod_to_equations; lia.
Qed.

Lemma keeps_data_trans bs s1 s2 s3 : keeps_data bs s1 s2 -> keeps_data bs s2 s3 -> keeps_data bs s1 s3.
Proof. intros H1 H2 b a Hb Hf Ha. by rewrite (H2 b a), (H1 b a). Qed.

Lemma keeps_data_free l1 b l2 s s' :
  b_free b = true -> keeps_data (l1 ++ l2) s s' -> keeps_data (l1 ++ b :: l2) s s'.
Proof.
  intros Hb H c a Hc Hf. apply (H c a); [|done]. apply elem_of_app in Hc as [?|[->|?]%elem_of_cons]; [set_solver|congruence|set_solver].
Qed.

Lemma touch_inv s bs s' :
  heap_inv s bs -> fa_inv s' -> fa_same s s' -> touches_only (priv s) s s' ->
  heap_inv s' bs /\ keeps_data bs s s'.
Proof.
  intros [Hfa Hc Hok Hap] Hfa' Hs [Hto Hoc].
  assert (Hk : forall b a, b ∈ bs -> in_blk b a -> load8 (mem s') a = load8 (mem s) a).
  { intros b a Hb Ha. apply Hoc. intros Hp. by apply (held_priv _ _ (bk_held _ _ (Hok b Hb) a Ha) a). }
  split; [split|].
  - done.
  - replace (heap_list s') with (heap_list s) by (by rewrite Hto). apply (chain_ext (mem s)); [|done].
    intros b a Hb Ha. apply (Hk b); [done|]. apply in_header_blk; [|done]. pose proof (bk_size _ _ (Hok b Hb)). lia.
  - intros b Hb. by apply (blk_ok_same s), Hok.
  - done.
  - intros b a Hb _ Ha. apply (Hk b); [done|]. by apply in_data_blk.
Qed.

Lemma heap_empty s bs : heap_inv s bs -> heap_list s = NULL <-> bs = [].
Proof.
  intros [_ Hc Hok _]. destruct bs as [|b bs]; cbn [chain] in Hc; [done|].
  destruct Hc as (-> & _). pose proof (blk_range _ _ (Hok b ltac:(set_solver))). split; [lia|done].
Qed.

(** Where the blocks start. *)
Abbreviation starts bs := (b_addr <$> bs).

(** What [kmalloc] of an aligned size [n] may answer on the heap [bs]: a live
    block more, in a heap where the old blocks still start where they did; each
    frame it took starts a block. *)
Record allocated (bs : list blk) (n : Z) (s : mm) (r : Z) (s' : mm) : Prop := {
  al_data : keeps_data bs s s';
  al_heap : exists bs' P, heap_inv s' bs' /\ live bs' ≡ₚ (r, n) :: live bs /\ starts bs ⊆ starts bs' /\
    takes P s s' /\ forall p, p ∈ P -> b_addr (fresh_blk p) ∈ starts bs';
}.

Lemma alloc_in_place s l1 b l2 n :
  heap_inv s (l1 ++ b :: l2) -> blk_fits n b = true -> 8 <= n -> n mod 8 = 0 ->
  exists r s', alloc_from_block (b_addr b) n s = (r, s') /\ r <> NULL /\ allocated (l1 ++ b :: l2) n s r s'.
Proof.
  intros Hinv Hfit Hn H8. unfold blk_fits in Hfit. bool_simpl.
  pose proof (blk_range _ _ (hp_ok _ _ Hinv b ltac:(set_solver))).
  pose proof (alloc_block_spec s l1 b l2 n Hinv ltac:(lia) H8) as Hspec.
  destruct (alloc_from_block _ _ _) as [r s']. destruct Hspec as (-> & _ & bs' & Hlive & Hst & Hinv' & Hfs & Hk & _).
  exists (b_addr b + 12), s'. split; [done|]. split; [lia|]. split; [by apply keeps_data_free|].
  exists (l1 ++ bs' ++ l2), ∅. split; [done|]. split; [|split; [|split; [by apply fa_same_takes|set_solver]]].
  - rewrite !live_app, Hlive. simpl. destruct (b_free b); [|done]. by rewrite Permutation_middle.
  - rewrite !fmap_app, fmap_cons. set_solver.
Qed.

(** The search on a non-empty heap. *)
Lemma kmalloc_search s bs n :
  heap_inv s bs -> bs <> [] -> 8 <= n <= 4084 -> n mod 8 = 0 ->
  exists r s', match while_pow HEAP_WALK_BITS (search_step (mem s) n) (heap_list s, NULL) with
    | inl _ => Diverge
    | inr (inl current) => Done (alloc_from_block current n s)
    | inr (inr last) =>
      let '(current, s) := new_block s in
      if current =? NULL then Done (NULL, s)
      else Done (alloc_from_block current n (set_blk_next last current s))
    end = Done (r, s') /\
  ((r = NULL /\ heap_inv s' bs /\ keeps_data bs s s' /\ fa_same s s' /\
      Forall (fun c => blk_fits n c = false) bs /\ no_frame_left s) \/
   r <> NULL /\ allocated bs n s r s').
Proof.
  intros Hinv Hne Hn H8. pose proof (heap_length s bs Hinv) as Hlen.
  destruct (search_spec (mem s) n bs (heap_list s) NULL) as (r & Hr & Hor); [apply Hinv| |].
  { intros b Hb. pose proof (blk_range _ _ (hp_ok _ _ Hinv b Hb)). lia. }
  rewrite (while_pow_ends _ HEAP_WALK_BITS _ _ _ Hr Hlen). clear Hlen Hr.
  destruct Hor as [(l1 & b & l2 & -> & Hfit & -> & _)|[Hno ->]].
  - destruct (alloc_in_place s l1 b l2 n) as (r & s' & -> & ? & ?); [done|done|lia|done|]. eauto 6.
  - pose proof (new_block_spec s (hp_fa _ _ Hinv)) as Hnew.
    destruct (new_block s) as [r s']. destruct Hnew as [(-> & Hnf & Hfa & Hs & Ht)|(p & -> & Hg)].
    { simpl. exists NULL, s'. split; [done|]. left. destruct (touch_inv s bs s' Hinv Hfa Hs Ht). done. }
    pose proof (gr_range _ _ _ Hg) as Hp. rewrite (proj2 (Z.eqb_neq _ _)) by (simpl; lia).
    destruct (exists_last Hne) as (l & b & ->). rewrite last_snoc. simpl default.
    destruct (heap_append s l b p s' Hinv Hg) as (Hinv2 & Hfs2 & Hk2).
    set (s2 := set_blk_next _ _ _) in *.
    destruct (alloc_in_place s2 (l ++ [b]) (fresh_blk p) [] n) as (r & s3 & -> & Hr0 & [Hk3 (bs' & P & Hinv3 & Hl & Hst & HP & Hnew)]); [done| |lia|done|].
    { unfold blk_fits. simpl. lia. }
    exists r, s3. split; [done|]. right. split; [done|]. rewrite fmap_app in Hst. split.
    { eapply keeps_data_trans; [done|]. intros c a Hc. apply Hk3. set_solver. }
    exists bs', ({[p]} ∪ (∅ ∪ P)). split; [done|]. split; [|split; [|split]].
    + rewrite Hl, !live_app. simpl. by rewrite app_nil_r.
    + intros x Hx. apply Hst, elem_of_app. by left.
    + eapply takes_trans; [apply Hg|]. eapply takes_trans; [by apply fa_same_takes|done].
    + intros q [->%elem_of_singleton|[[]%elem_of_empty|Hq]%elem_of_union]%elem_of_union; [|by apply Hnew].
      apply Hst, elem_of_app. right. by left.
Qed.

(** When [kmalloc] answers NULL on the heap [bs]. *)
Definition no_room (size : Z) (bs : list blk) (s : mm) : Prop :=
  size = 0 \/ 4080 < size \/
  (forall n, size <= n < size + 8 -> n mod 8 = 0 ->
    Forall (fun c => blk_fits n c = false) bs) /\ no_frame_left s.

Lemma aligned_unique size n n' :
  size <= n < size + 8 -> n mod 8 = 0 -> size <= n' < size + 8 -> n' mod 8 = 0 -> n = n'.
Proof. intros. Z.div_mod_to_equations; lia. Qed.

Lemma kmalloc_cases s bs size :
  heap_inv s bs -> 0 <= size < 4294967296 ->
  exists r s', kmalloc size s = Done (r, s') /\
    ((r = NULL /\ heap_inv s' bs /\ keeps_data bs s s' /\ fa_same s s' /\ no_room size bs s) \/
     (exists n, r <> NULL /\ 0 < size <= 4080 /\ size <= n < size + 8 /\ n mod 8 = 0 /\ allocated bs n s r s')).
Proof.
  intros Hinv Hs. unfold kmalloc. pose proof (align_size_spec size Hs) as Ha.
  destruct (align_size size) as [n|]; cycle 1.
  { exists NULL, s. split; [done|]. left. do 4 (split; [done|]).
    destruct Ha; [by left|by right; left]. }
  destruct Ha as (Hpos & Hn & H8 & Hn8). case_if.
  { exists NULL, s. split; [done|]. left. do 4 (split; [done|]). right. left. Z.div_mod_to_equations; lia. }
  assert (Hn' : n <= 4080) by (Z.div_mod_to_equations; lia).
  pose proof (heap_empty s bs Hinv) as Hemp. destruct (Z.eqb_spec (heap_list s) NULL) as [Hz|Hz].
  - assert (bs = []) as -> by (by apply Hemp).
    pose proof (new_block_spec s (hp_fa _ _ Hinv)) as Hnew. destruct (new_block s) as [r s'].
    destruct Hnew as [(-> & Hnf & Hfa & Hsame & Ht)|(p & -> & Hg)].
    { simpl. exists NULL, (set_heap_list NULL s'). split; [done|]. left. split; [done|].
      destruct (touch_inv s [] s' Hinv Hfa Hsame Ht) as [_ Hk].
      destruct (fa_frame s' (set_heap_list NULL s')) as [Hf Hfs]; [done..|].
      split; [by split; [| |intros b Hb; by apply elem_of_nil in Hb|]|]. split; [done|].
      split; [by apply (fa_same_trans s s')|]. right. right. split; [|done].
      intros n' _ _. by rewrite Forall_nil. }
    pose proof (gr_range _ _ _ Hg) as Hp. cbn [heap_list set_heap_list].
    rewrite (proj2 (Z.eqb_neq _ _)) by (simpl; lia).
    pose proof (heap_first s p s' Hinv Hg) as Hinv'. set (s1 := set_heap_list _ s') in *.
    destruct (kmalloc_search s1 [fresh_blk p] n) as (r & s2 & Heq & Hor); [done|done|lia|done|].
    exists r, s2. split; [exact Heq|]. right. exists n. destruct Hor as [(_ & _ & _ & _ & Hno & _)|[Hr [Hk (bs' & P & ? & Hl & Hst & HP & Hnew)]]].
    + inversion Hno as [|? ? Hf _]; subst. change ((n <=? 4084) = false) in Hf. lia.
    + split; [done|]. split; [lia|]. do 2 (split; [done|]). split; [intros b a Hb; by apply elem_of_nil in Hb|].
      destruct (fa_frame s' s1) as (_ & Hfs); [apply Hg|done..|].
      exists bs', ({[p]} ∪ (∅ ∪ P)). split; [done|]. split; [exact Hl|]. split; [apply list_subseteq_nil|]. split.
      * eapply takes_trans; [apply Hg|]. eapply takes_trans; [by apply fa_same_takes|done].
      * intros q [->%elem_of_singleton|[[]%elem_of_empty|Hq]%elem_of_union]%elem_of_union; [apply Hst; by left|by apply Hnew].
  - rewrite (proj2 (Z.eqb_neq _ _)) by done.
    destruct (kmalloc_search s bs n Hinv) as (r & s2 & Heq & Hor); [by rewrite <- Hemp|lia|done|].
    exists r, s2. split; [exact Heq|]. destruct Hor as [(-> & ? & ? & ? & Hno & Hnf)|[Hr ?]].
    + left. do 4 (split; [done|]). right. right. split; [|done]. intros n' Hn1 Hn2.
      by rewrite (aligned_unique size n' n).
    + right. exists n. split; [done|]. split; [lia|]. done.
Qed.

(** ** kfree *)

(** What [coalesce_next] does to the list. *)
Fixpoint merge (b : blk) (bs : list blk) : blk * list blk :=
  match bs with
  | c :: bs' =>
    if b_free c && (b_addr b + 12 + b_size b =? b_addr c)
    then merge (mkBlk (b_addr b) (b_size b + 12 + b_size c) (b_free b)) bs'
    else (b, bs)
  | [] => (b, [])
  end.

Lemma merge_live b bs : b_free (merge b bs).1 = b_free b /\ live (merge b bs).2 = live bs.
Proof.
  revert b. induction bs as [|c bs IH]; intros b; simpl; [done|].
  destruct (b_free c) eqn:E; simpl; [|by rewrite E]. case_if; simpl; [|by rewrite E].
  by destruct (IH (mkBlk (b_addr b) (b_size b + 12 + b_size c) (b_free b))) as [-> ->].
Qed.

(** Merging two neighbours. *)
Lemma heap_merge s l1 b c l2 m' :
  heap_inv s (l1 ++ b :: c :: l2) -> b_addr c = b_addr b + 12 + b_size b ->
  only_changes (in_header b) (mem s) m' ->
  blk_size m' (b_addr b) = b_size b + 12 + b_size c ->
  blk_free m' (b_addr b) = blk_free (mem s) (b_addr b) ->
  blk_next m' (b_addr b) = blk_next (mem s) (b_addr c) ->
  heap_inv (set_mem m' s) (l1 ++ mkBlk (b_addr b) (b_size b + 12 + b_size c) (b_free b) :: l2) /\
  keeps_data (l1 ++ b :: c :: l2) s (set_mem m' s) /\ fa_same s (set_mem m' s).
Proof.
  intros [Hfa Hc Hok Hap] Hadj Hm Es Ef En.
  assert (Hb : blk_ok s b) by (apply Hok; set_solver). assert (Hcc : blk_ok s c) by (apply Hok; set_solver).
  pose proof (bk_size _ _ Hb). pose proof (bk_size _ _ Hcc).
  destruct (held_writes s m' (in_header b)) as [Hfa' Hsame]; [done| |done|].
  { intros a Ha. apply Hb, in_header_blk; [lia|done]. }
  set (d := mkBlk _ _ _).
  assert (Hd : forall a, in_blk d a <-> in_blk b a \/ in_blk c a).
  { intros a. unfold in_blk, phys, d. simpl. rewrite Hadj. lia. }
  pose proof Hap as Hap0. apply all_apart_app in Hap0 as (Ha1 & (Hb2 & Hc2 & Ha2) & Hb1).
  rewrite Forall_forall in Hb2, Hc2.
  assert (Hkeep : forall x a, x ∈ l1 ++ c :: l2 -> in_blk x a -> load8 m' a = load8 (mem s) a).
  { intros x a Hx Ha. apply Hm. intros Hh. apply in_header_blk in Hh; [|lia].
    apply elem_of_app in Hx as [Hx|Hx]; [apply (Hb1 x b Hx ltac:(set_solver) a); done|].
    apply (Hb2 x Hx a); done. }
  assert (Hext : forall p l q, (forall x, x ∈ l -> x ∈ l1 ++ l2) -> chain (mem s) p l q -> chain m' p l q).
  { intros p l q Hl. apply chain_ext. intros x a Hx Ha. specialize (Hl x Hx). apply (Hkeep x); [set_solver|].
    apply in_header_blk; [|done]. pose proof (bk_size _ _ (Hok x ltac:(set_solver))). lia. }
  split; [split|split; [|done]].
  - done.
  - apply chain_app in Hc as (r & H1 & Hr). cbn [chain] in Hr. destruct Hr as (-> & _ & Hfb & Hnc & _ & _ & H2).
    rewrite Hnc in H2. apply chain_app. exists (b_addr b). split; [apply (Hext _ l1); [set_solver|done]|].
    cbn [chain]. simpl. rewrite Es, Ef, En. do 3 (split; [done|]). apply (Hext _ l2); [set_solver|done].
  - intros x Hx. apply (blk_ok_same s); [done|].
    apply elem_of_app in Hx as [Hx|[->|Hx]%elem_of_cons];
      [apply Hok, elem_of_app; by left| |apply Hok, elem_of_app; right; by do 2 right].
    split; simpl; [lia|apply Hb| |].
    + pose proof (bk_size4 _ _ Hb). pose proof (bk_size4 _ _ Hcc). Z.div_mod_to_equations; lia.
    + intros a [Ha|Ha]%Hd; [by apply Hb|by apply Hcc].
  - apply all_apart_app. split; [done|]. split; [split; [|done]|].
    + apply Forall_forall. intros x Hx a [Ha|Ha]%Hd Hxa; [apply (Hb2 x ltac:(set_solver) a)|apply (Hc2 x Hx a)]; done.
    + intros x y Hx [->|Hy]%elem_of_cons; [|apply Hb1; set_solver].
      intros a Hxa [Ha|Ha]%Hd; [apply (Hb1 x b Hx ltac:(set_solver) a)|apply (Hb1 x c Hx ltac:(set_solver) a)]; done.
  - intros x a Hx _ Ha. destruct (decide (x ∈ l1 ++ c :: l2)) as [Hin|Hin].
    + apply (Hkeep x); [done|by apply in_data_blk].
    + assert (x = b) as -> by set_solver. apply Hm. unfold in_header, in_data in *. lia.
Qed.

(** One round of [coalesce_next] on block [b] of the heap. *)
Lemma coalesce_step_spec s l1 b l2 :
  heap_inv s (l1 ++ b :: l2) ->
  match l2 with
  | c :: l2' =>
    if b_free c && (b_addr b + 12 + b_size b =? b_addr c) then
      exists s', coalesce_step (b_addr b) s = inl s' /\
        heap_inv s' (l1 ++ mkBlk (b_addr b) (b_size b + 12 + b_size c) (b_free b) :: l2') /\
        keeps_data (l1 ++ b :: l2) s s' /\ fa_same s s'
    else coalesce_step (b_addr b) s = inr s
  | [] => coalesce_step (b_addr b) s = inr s
  end.
Proof.
  intros Hinv. assert (Hb : blk_ok s b) by (apply (hp_ok _ _ Hinv); set_solver).
  pose proof (blk_range _ _ Hb) as Hr. pose proof (bk_size _ _ Hb) as Hsz.
  pose proof (hp_chain _ _ Hinv) as Hc. apply chain_app in Hc as (p & _ & (-> & Hs & Hf & Hc)).
  unfold coalesce_step. rewrite Hs.
  assert (Hd : blk_data (b_addr b) +u b_size b = b_addr b + 12 + b_size b).
  { unfold blk_data. rewrite (wrap_small 32 (b_addr b + 12)), wrap_small by lia. done. }
  rewrite Hd. destruct l2 as [|c l2]; cbn [chain] in Hc; [by rewrite Hc|].
  destruct Hc as (Hn & Hsc & Hfc & _). rewrite Hn in *.
  assert (Hcok : blk_ok s c) by (apply (hp_ok _ _ Hinv); set_solver).
  pose proof (blk_range _ _ Hcok) as Hrc. pose proof (bk_size _ _ Hcok) as Hszc.
  rewrite (proj2 (Z.eqb_neq (b_addr c) _)), Hfc, Hsc by lia.
  destruct (b_free c); simpl; [|done]. destruct (Z.eqb_spec (b_addr b + 12 + b_size b) (b_addr c)) as [Hadj|]; [|done].
  rewrite (wrap_small 32 (12 + b_size c)), (wrap_small 32 (b_size b + _)) by lia.
  set (n := b_size b + (12 + b_size c)). eexists. split; [reflexivity|].
  unfold set_blk_next, set_blk_size. cbn [mem set_mem]. set (m1 := wr32 (mem s) (b_addr b) n).
  assert (Hn1 : blk_next m1 (b_addr b) = b_addr c).
  { rewrite <- Hn. unfold blk_next, m1, wr32, rd32, phys. apply load32_store32_ne. lia. }
  assert (Hnc : blk_next m1 (b_addr c) = blk_next (mem s) (b_addr c)).
  { unfold blk_next, m1, wr32, rd32, phys. apply load32_store32_ne. lia. }
  rewrite Hn1, Hnc. change (set_mem ?m (set_mem m1 s)) with (set_mem m s).
  replace (b_size b + 12 + b_size c) with n by (unfold n; lia).
  assert (En : n = b_size b + 12 + b_size c) by (unfold n; lia). clearbody n. rewrite En.
  apply heap_merge; [done|done|..]; unfold blk_size, blk_free, blk_next, m1, wr32, rd8, rd32, phys.
  - unfold in_header. etransitivity; apply only_changes_store32; unfold phys; lia.
  - rewrite load32_store32_ne, load32_store32_eq by lia. rewrite wrap_small; lia.
  - rewrite !load8_store32_ne by lia. done.
  - rewrite load32_store32_eq. apply wrap_small, load32_range.
Qed.

(** The loop runs at most once per following block. *)
Lemma coalesce_ends s l1 b l2 :
  heap_inv s (l1 ++ b :: l2) ->
  exists s', ends_in (coalesce_step (b_addr b)) (S (length l2)) s s' /\
    heap_inv s' (l1 ++ (merge b l2).1 :: (merge b l2).2) /\ keeps_data (l1 ++ l2) s s' /\ fa_same s s'.
Proof.
  revert s b. induction l2 as [|c l2 IH]; intros s b Hinv;
    pose proof (coalesce_step_spec s l1 b _ Hinv) as Hst; cbn [merge].
  { exists s. split; [by apply ends_now|]. done. }
  cbn beta iota in Hst. destruct (b_free c && (b_addr b + 12 + b_size b =? b_addr c)) eqn:E; rewrite ?E in Hst; cycle 1.
  { exists s. split; [by apply ends_now|]. done. }
  destruct Hst as (s1 & Hs1 & Hinv1 & Hk1 & Hfs1). bool_simpl.
  destruct (IH s1 (mkBlk (b_addr b) (b_size b + 12 + b_size c) (b_free b)) Hinv1) as (s2 & Hs2 & Hinv2 & Hk2 & Hfs2).
  exists s2. split; [by eapply ends_later|]. split; [done|]. split; [|by apply (fa_same_trans s s1)].
  eapply keeps_data_trans; [intros x a Hx; apply Hk1; set_solver|]. by apply keeps_data_free.
Qed.

Lemma kfree_cases s l1 b l2 :
  heap_inv s (l1 ++ b :: l2) -> b_free b = false ->
  exists s' bs', kfree (b_addr b + 12) s = Done s' /\ heap_inv s' bs' /\
    live bs' = live (l1 ++ l2) /\ keeps_data (l1 ++ l2) s s' /\ fa_same s s'.
Proof.
  intros Hinv Hfree. assert (Hb : blk_ok s b) by (apply (hp_ok _ _ Hinv); set_solver).
  pose proof (blk_range _ _ Hb) as Hr. pose proof (bk_size _ _ Hb) as Hsz. unfold kfree.
  rewrite (proj2 (Z.eqb_neq _ _)), wrap_small by lia. replace (b_addr b + 12 - 12) with (b_addr b) by lia.
  pose proof (hp_chain _ _ Hinv) as Hc. apply chain_app in Hc as (p & _ & (-> & Hs & Hf & Hc)).
  set (b' := mkBlk (b_addr b) (b_size b) true).
  destruct (heap_update s l1 b [b'] l2 (wr8 (mem s) (b_addr b + 4) 1)) as (Hinv1 & Hfs1 & Hk1 & _); [done|..].
  - apply only_changes_store8. unfold in_blk, phys. lia.
  - simpl. unfold blk_size, blk_free, blk_next, wr8, rd8, rd32, phys in *.
    rewrite !load32_store8_ne, load8_store8_eq by lia. done.
  - simpl. by rewrite Forall_nil.
  - intros c ->%list_elem_of_singleton. by destruct Hb.
  - destruct (coalesce_ends _ l1 b' l2 Hinv1) as (s2 & Hs2 & Hinv2 & Hk2 & Hfs2).
    destruct (merge_live b' l2) as [Hmf Hml]. assert (Hle : (S (length l2) <= length (l1 ++ [b'] ++ l2))%nat) by (rewrite !length_app; simpl; lia).
    pose proof (Nat.le_trans _ _ _ Hle (Nat.lt_le_incl _ _ (heap_length _ _ Hinv1))) as Hlen.
    exists s2. eexists. split; [|split; [exact Hinv2|split; [|split; [by eapply keeps_data_trans|by eapply fa_same_trans]]]].
    + unfold coalesce_next. change (coalesce_step (b_addr b')) with (coalesce_step (b_addr b)) in Hs2.
      unfold set_blk_free. by rewrite (while_pow_ends _ HEAP_WALK_BITS _ _ _ Hs2 Hlen).
    + rewrite !live_app. simpl. rewrite Hmf, Hml. done.
Qed.

(** ** The contract of the heap

    What a client sees is the list [L] of its allocations. *)

Definition separate (x y : Z * Z) : Prop := x.1 + x.2 <= y.1 \/ y.1 + y.2 <= x.1.

Definition heap_rep (s : mm) (L : list (Z * Z)) : Prop :=
  exists bs, heap_inv s bs /\ live bs ≡ₚ L.

#[export] Instance heap_rep_proper s : Proper (Permutation ==> iff) (heap_rep s).
Proof.
  intros L L' HL. split; intros (bs & Hinv & Hl); exists bs; (split; [done|]).
  - by rewrite Hl.
  - by rewrite Hl, HL.
Qed.

(** The byte [a] of memory belongs to allocation [x]. *)
Definition in_alloc (x : Z * Z) (a : Z) : Prop := phys x.1 <= a < phys x.1 + x.2.

(** Every allocation of [L] keeps its bytes from [s] to [s']. *)
Definition keeps (L : list (Z * Z)) (s s' : mm) : Prop :=
  forall x a, x ∈ L -> in_alloc x a -> load8 (mem s') a = load8 (mem s) a.

Lemma live_block bs x : x ∈ live bs -> exists b, b ∈ bs /\ b_free b = false /\ x = (b_addr b + 12, b_size b).
Proof. destruct x as [p n]. intros (b & ? & ? & -> & ->)%live_in. eauto. Qed.

Lemma keeps_live bs s s' : keeps_data bs s s' -> keeps (live bs) s s'.
Proof.
  intros H x a (b & Hb & Hf & ->)%live_block Ha. apply (H b a Hb Hf).
  unfold in_alloc, in_data, phys in *. simpl in *. lia.
Qed.

Lemma heap_rep_ok s L x : heap_rep s L -> x ∈ L ->
  VMM_KERNEL_VIRTUAL_BASE < x.1 /\ x.1 + x.2 <= VMM_KERNEL_VIRTUAL_BASE + VMM_DIRECT_MAP_LIMIT /\
  0 < x.2 /\ x.1 mod 4 = 0.
Proof.
  intros (bs & Hinv & Hl) Hx. rewrite <- Hl in Hx. apply live_block in Hx as (b & Hb & _ & ->). simpl.
  pose proof (hp_ok _ _ Hinv b Hb) as Hok. pose proof (blk_range _ _ Hok). destruct Hok as [? H4 _ _].
  repeat split; try lia. Z.div_mod_to_equations; lia.
Qed.

(** Two different allocations do not overlap. *)
Lemma heap_rep_separate s x L : heap_rep s (x :: L) -> forall y, y ∈ L -> separate x y.
Proof.
  intros (bs & Hinv & Hl) y Hy. pose proof (hp_apart _ _ Hinv) as Hap.
  pose proof (hp_ok _ _ Hinv) as Hok. clear Hinv.
  assert (Hgen : forall L0, live bs ≡ₚ L0 -> forall l1 l2, L0 = l1 ++ x :: l2 -> forall y, y ∈ l1 ++ l2 -> separate x y).
  { clear Hl Hy y L. revert Hap Hok. induction bs as [|b bs IH]; intros Hap Hok L0 HL l1 l2 -> y Hy.
    { apply Permutation_nil in HL. by destruct l1. }
    destruct Hap as [Hb Hap]. cbn [live] in HL. destruct (b_free b) eqn:Ef.
    { eapply IH; eauto. intros c Hc. apply Hok. set_solver. }
    rewrite Forall_forall in Hb. rewrite <- Permutation_middle in HL.
    assert (Hsep : forall z, z ∈ live bs -> separate (b_addr b + 12, b_size b) z).
    { intros z (c & Hc & _ & ->)%live_block. unfold separate. simpl. specialize (Hb c Hc).
      pose proof (bk_size _ _ (Hok b ltac:(set_solver))). pose proof (bk_size _ _ (Hok c ltac:(set_solver))).
      unfold apart, in_blk, phys in Hb.
      destruct (decide (b_addr b <= b_addr c)).
      - specialize (Hb (b_addr c - VMM_KERNEL_VIRTUAL_BASE)). lia.
      - specialize (Hb (b_addr b - VMM_KERNEL_VIRTUAL_BASE)). lia. }
    destruct (decide (x = (b_addr b + 12, b_size b))) as [->|Hne].
    - apply Permutation_cons_inv in HL. rewrite <- HL in Hy. by apply Hsep.
    - assert (Hx : x ∈ live bs).
      { assert (x ∈ (b_addr b + 12, b_size b) :: live bs) as [?|?]%elem_of_cons by (rewrite HL; set_solver); done. }
      destruct (decide (y = (b_addr b + 12, b_size b))) as [->|Hny].
      { destruct (Hsep x Hx) as [?|?]; [by right|by left]. }
      assert (Hb' : (b_addr b + 12, b_size b) ∈ l1 ++ l2).
      { assert ((b_addr b + 12, b_size b) ∈ x :: l1 ++ l2) as [?|?]%elem_of_cons by (rewrite <- HL; set_solver); done. }
      apply list_elem_of_split in Hb' as (k1 & k2 & Hk). rewrite Hk in HL, Hy.
      rewrite <- Permutation_middle, Permutation_swap in HL. apply Permutation_cons_inv in HL.
      apply (IH Hap (fun c Hc => Hok c ltac:(set_solver)) (x :: k1 ++ k2) HL [] (k1 ++ k2) eq_refl). set_solver. }
  by apply (Hgen (x :: L) Hl [] L).
Qed.

Lemma kmalloc_rep s bs size :
  heap_inv s bs -> 0 <= size < 4294967296 ->
  exists r s', kmalloc size s = Done (r, s') /\ keeps (live bs) s s' /\
    ((r = NULL /\ heap_rep s' (live bs) /\ no_room size bs s) \/
     (exists n, r <> NULL /\ 0 < size <= n /\ n < size + 8 /\ n mod 8 = 0 /\
        heap_rep s' ((r, n) :: live bs))).
Proof.
  intros Hinv Hs. destruct (kmalloc_cases s bs size Hinv Hs) as (r & s' & Hk & Hor). exists r, s'.
  split; [done|]. destruct Hor as [(-> & Hinv' & Hd & _ & Hn)|(n & Hr & ? & ? & ? & [Hd (bs' & P & Hinv' & Hl & _)])].
  - split; [by apply keeps_live|]. left. split; [done|]. split; [by exists bs|done].
  - split; [by apply keeps_live|]. right. exists n. split; [done|]. do 2 (split; [lia|]). split; [done|]. by exists bs'.
Qed.

Lemma kfree_rep s L p n :
  heap_rep s ((p, n) :: L) -> exists s', kfree p s = Done s' /\ heap_rep s' L /\ keeps L s s'.
Proof.
  intros (bs & Hinv & Hl).
  assert (Hin : (p, n) ∈ live bs) by (rewrite Hl; set_solver).
  apply live_in in Hin as (b & Hb & Hf & -> & ->). apply list_elem_of_split in Hb as (l1 & l2 & ->).
  destruct (kfree_cases s l1 b l2 Hinv Hf) as (s' & bs' & Hk & Hinv' & Hl' & Hd & _).
  assert (HL : live (l1 ++ l2) ≡ₚ L).
  { rewrite !live_app in Hl. simpl in Hl. rewrite Hf, <- Permutation_middle in Hl.
    apply Permutation_cons_inv in Hl. by rewrite live_app. }
  exists s'. split; [done|]. split; [exists bs'; by rewrite Hl'|].
  intros x a Hx. apply (keeps_live (l1 ++ l2) s s' Hd). by rewrite HL.
Qed.

(** A client writing into its own allocation does not disturb the heap. *)
Lemma write_rep s L x a v :
  heap_rep s L -> x ∈ L -> in_alloc x a -> heap_rep (set_mem (store8 (mem s) a v) s) L.
Proof.
  intros (bs & Hinv & Hl) Hx Ha. rewrite <- Hl in Hx. apply live_block in Hx as (b & Hb & Hf & ->).
  apply list_elem_of_split in Hb as (l1 & l2 & ->). exists (l1 ++ [b] ++ l2). split; [|by rewrite <- Hl].
  pose proof (hp_ok _ _ Hinv b ltac:(set_solver)) as Hok. pose proof (bk_size _ _ Hok).
  unfold in_alloc, phys in Ha. simpl in Ha. apply (heap_update s l1 b [b] l2); [done|..].
  - apply only_changes_store8. unfold in_blk, phys. lia.
  - pose proof (hp_chain _ _ Hinv) as Hc. apply chain_app in Hc as (p & _ & (-> & Hs & Hfr & _)).
    destruct (header_ext (mem s) (store8 (mem s) a v) b) as (E1 & E2 & E3).
    { unfold in_header, phys. intros c Hc. apply load8_store8_ne. lia. }
    simpl. rewrite E1, E2, E3. done.
  - simpl. by rewrite Forall_nil.
  - intros c ->%list_elem_of_singleton. by destruct Hok.
Qed.

(** ** Theorems *)

(** [kmalloc] always returns.  Either NULL, and then the size is 0 or above
    4080 bytes, or no free block is large enough and no frame of the direct
    map is left; or a word-aligned block of at least [size] bytes that
    overlaps no live allocation.  The bytes of all live allocations are
    unchanged, and the heap stays well formed. *)
Theorem kmalloc_correct s bs size :
  heap_inv s bs -> 0 <= size < 4294967296 ->
  exists r s', kmalloc size s = Done (r, s') /\ keeps (live bs) s s' /\
    ((r = NULL /\ heap_rep s' (live bs) /\ no_room size bs s) \/
     (exists n, r mod 4 = 0 /\ r <> NULL /\ size <= n < size + 8 /\
        heap_rep s' ((r, n) :: live bs) /\ forall y, y ∈ live bs -> separate (r, n) y)).
Proof.
  intros Hinv Hs. destruct (kmalloc_rep s bs size Hinv Hs) as (r & s' & Hk & Hd & Hor). exists r, s'.
  do 2 (split; [done|]). destruct Hor as [?|(n & Hr & ? & ? & _ & Hrep)]; [by left|right]. exists n.
  destruct (heap_rep_ok s' _ (r, n) Hrep) as (_ & _ & _ & H4); [set_solver|].
  split; [done|]. split; [done|]. split; [lia|]. split; [done|]. by apply (heap_rep_separate s').
Qed.

(** [kfree] of a live allocation always returns, removes exactly that
    allocation and leaves the bytes of all the others alone. *)
Theorem kfree_correct s L p n :
  heap_rep s ((p, n) :: L) ->
  exists s', kfree p s = Done s' /\ heap_rep s' L /\ keeps L s s'.
Proof. apply kfree_rep. Qed.

(** ** Histories *)

(** A client's history: calls, and writes into its own allocations. *)
Inductive heap_call : mm * list (Z * Z) -> mm * list (Z * Z) -> Prop :=
  | hc_malloc s L size r s' n :
      0 <= size < 4294967296 -> kmalloc size s = Done (r, s') -> r <> NULL ->
      size <= n < size + 8 -> n mod 8 = 0 -> heap_call (s, L) (s', (r, n) :: L)
  | hc_malloc_null s L size s' :
      0 <= size < 4294967296 -> kmalloc size s = Done (NULL, s') -> heap_call (s, L) (s', L)
  | hc_free s L p n L' s' :
      L ≡ₚ (p, n) :: L' -> kfree p s = Done s' -> heap_call (s, L) (s', L')
  | hc_write s L x a v :
      x ∈ L -> in_alloc x a -> heap_call (s, L) (set_mem (store8 (mem s) a v) s, L).

Lemma heap_call_step a b : heap_call a b -> heap_rep a.1 a.2 -> heap_rep b.1 b.2.
Proof.
  intros [s L size r s' n Hs Hk Hr Hn H8|s L size s' Hs Hk|s L p n L' s' HL Hk|s L x c v Hx Hc] Hrep; simpl in *.
  - destruct Hrep as (bs & Hinv & Hl). destruct (kmalloc_rep s bs size Hinv Hs) as (r' & s1 & Hk' & _ & Hor).
    rewrite Hk in Hk'. injection Hk' as <- <-. destruct Hor as [(? & _)|(n' & _ & ? & ? & H8' & Hrep')]; [done|].
    rewrite (aligned_unique size n n') by (done || lia). by rewrite <- Hl.
  - destruct Hrep as (bs & Hinv & Hl). destruct (kmalloc_rep s bs size Hinv Hs) as (r' & s1 & Hk' & _ & Hor).
    rewrite Hk in Hk'. injection Hk' as <- <-. destruct Hor as [(_ & Hrep' & _)|(n' & ? & _)]; [|done].
    by rewrite <- Hl.
  - rewrite HL in Hrep. destruct (kfree_rep s L' p n Hrep) as (s1 & Hk' & Hrep' & _).
    rewrite Hk in Hk'. by injection Hk' as <-.
  - by apply (write_rep s L x).
Qed.

(** C18: Over any history of allocations, frees of live pointers and writes
    into live allocations, the heap stays well formed, and at its end any two
    live allocations are apart. *)
Theorem heap_history a b l1 x l2 y :
  rtc heap_call a b -> heap_rep a.1 a.2 ->
  heap_rep b.1 b.2 /\ (b.2 = l1 ++ x :: l2 -> y ∈ l1 ++ l2 -> separate x y).
Proof.
  intros Hrtc. induction Hrtc as [a|a c b Hc _ IH]; intros Hrep; [|by apply IH, (heap_call_step a)].
  split; [done|]. intros HL Hy. rewrite HL, <- Permutation_middle in Hrep.
  by apply (heap_rep_separate a.1 x (l1 ++ l2)).
Qed.

(** ** Limits *)

(** The alignment of [kmalloc] is 4, not KMALLOC_ALIGN: the 12-byte header
    puts the first allocation of a heap page 4 bytes past an 8-byte boundary. *)
Theorem kmalloc_first_alignment s size :
  heap_inv s [] -> 0 < size <= 4080 -> (exists q, q < 4096 /\ avail s q = true) ->
  exists r s', kmalloc size s = Done (r, s') /\ r <> NULL /\ r mod KMALLOC_ALIGN = 4.
Proof.
  intros Hinv Hs (q & Hq & Hav). unfold kmalloc. pose proof (align_size_spec size ltac:(lia)) as Ha.
  destruct (align_size size) as [n|]; [|lia]. destruct Ha as (_ & Hn & H8 & Hn8).
  rewrite (proj2 (Z.ltb_ge _ n)) by (Z.div_mod_to_equations; lia).
  rewrite (proj2 (heap_empty s [] Hinv) eq_refl). cbn [Z.eqb].
  pose proof (new_block_spec s (hp_fa _ _ Hinv)) as Hnew. destruct (new_block s) as [r s1].
  destruct Hnew as [(_ & Hno & _)|(p & -> & Hg)]; [by rewrite (Hno q Hq) in Hav|].
  pose proof (gr_range _ _ _ Hg) as Hp. cbn [heap_list set_heap_list].
  rewrite (proj2 (Z.eqb_neq _ _)) by (simpl; lia). cbn [mem set_heap_list].
  destruct (search_spec (mem s1) n [fresh_blk p] (b_addr (fresh_blk p)) NULL) as (r & Hr & Hor);
    [apply Hg|intros b ->%list_elem_of_singleton; simpl; lia|].
  rewrite (while_pow_ends _ HEAP_WALK_BITS _ _ _ Hr (Nat.pow_le_mono_r 2 1 24 ltac:(lia) ltac:(lia))).
  clear Hr. destruct Hor as [(l1 & b & l2 & Hl & _ & -> & _)|[Hno _]]; cycle 1.
  { inversion Hno as [|? ? Hf _]; subst. change ((n <=? 4084) = false) in Hf. Z.div_mod_to_equations; lia. }
  assert (b = fresh_blk p) as -> by (destruct l1 as [|? [|]]; by inversion Hl).
  eexists _, _. split; [by rewrite (surjective_pairing (alloc_from_block _ _ _))|].
  change (alloc_from_block (b_addr (fresh_blk p)) n _).1 with (blk_data (b_addr (fresh_blk p))).
  unfold blk_data. simpl. rewrite wrap_small by lia. split; [lia|]. Z.div_mod_to_equations; lia.
Qed.

(** A block that is handed out whole shrinks to the request for good: the
    up to 19 bytes that are too few for a block of their own come back neither
    when it is freed nor by merging. *)
Theorem kmalloc_slack_lost s b n size r s1 :
  VMM_KERNEL_VIRTUAL_BASE <= b -> b + 12 + n < 4294967296 -> blk_size (mem s) b = n ->
  blk_next (mem s) b = NULL -> 0 <= size <= n -> n - size < 20 ->
  alloc_from_block b size s = (r, s1) ->
  exists s2, kfree r s1 = Done s2 /\ blk_size (mem s2) b = size.
Proof.
  intros Hb Hn Hs Hnext Hsz Hr Ha. pose proof (alloc_from_block_whole b n size s Hb Hn Hs Hsz Hr) as Hspec.
  rewrite Ha in Hspec. destruct Hspec as (-> & _ & _ & E1 & E2 & E3).
  unfold kfree. rewrite (proj2 (Z.eqb_neq _ _)), wrap_small by lia. replace (b + 12 - 12) with b by lia.
  set (s2 := set_blk_free b 1 s1).
  assert (Hst : coalesce_step b s2 = inr s2).
  { unfold coalesce_step. replace (blk_next (mem s2) b) with NULL; [done|].
    rewrite <- Hnext, <- E3. unfold s2, blk_next, set_blk_free, wr8, rd32, phys. simpl.
    symmetry. apply load32_store8_ne. lia. }
  exists s2. split.
  - unfold coalesce_next. rewrite (while_pow_ends _ HEAP_WALK_BITS 1 s2 s2); [done|by apply ends_now|].
    apply (Nat.pow_le_mono_r 2 0 24); lia.
  - rewrite <- E1. unfold s2, blk_size, set_blk_free, wr8, rd32, phys. simpl. apply load32_store8_ne. lia.
Qed.
End heap.
