(* ===== verification/Initramfs.v ===== *)
(** * Boot modules and the initial file archive

    src/kernel/boot.c finds the first multiboot module; src/kernel/initramfs.c
    looks files up in it.  The module is an EMXA archive: an 8-byte header
    ("EMXA" and the number of files), one 40-byte entry per file (a path of 32
    bytes, offset and size) and the contents.  [mkemxa] is the builder of
    src/scripts/mkemxa.py.  A [char *] argument is the function from index to
    byte, [None] for NULL; the values stored through the out-pointers are the
    [Some] of the result and -1 is [None]. *)

From S2P Require Import Prelude Memory Tty Printk Machine PmmInit.

(** ** boot.c *)

Record boot_vars := mkBoot { module_start : Z; module_size : Z }.

Abbreviation MULTIBOOT_FLAG_MODS := 8.

Definition boot_init (mbi : Z) (s : mm) : boot_vars * mm :=
  let m := mem s in
  if (Z.land (mbi_flags m mbi) MULTIBOOT_FLAG_MODS =? 0) || (mbi_mods_count m mbi =? 0)
  then (mkBoot NULL 0, kprint (ln "boot: no modules") [] s)
  else
    let mods := vmm_phys_to_virt (mbi_mods_addr m mbi) in
    if mods =? NULL
    then (mkBoot NULL 0, kprint (ln "boot: module list is outside direct map") [] s)
    else
      let start := vmm_phys_to_virt (rd32 m mods) in
      if start =? NULL
      then (mkBoot NULL 0, kprint (ln "boot: module is outside direct map") [] s)
      else
        let size := rd32 m (mods + 4) -u rd32 m mods in
        (mkBoot start size, kprint (ln "boot: module start=%x size=%x") [VInt start; VInt size] s).

Definition boot_module_start (bv : boot_vars) : Z := module_start bv.
Definition boot_module_size (bv : boot_vars) : Z := module_size bv.

(** ** initramfs.c *)

Abbreviation EMXA_HEADER_SIZE := 8.
Abbreviation EMXA_ENTRY_SIZE := 40.
Abbreviation EMXA_PATH_SIZE := 32.

(** [(archive, size, count)] *)
Definition initramfs_header (m : memory) (bv : boot_vars) : option (Z * Z * Z) :=
  let archive := boot_module_start bv in
  let size := boot_module_size bv in
  if (archive =? NULL) || (size <? EMXA_HEADER_SIZE) then None
  else if negb (rd8 m archive =? 69) || negb (rd8 m (archive +u 1) =? 77)
       || negb (rd8 m (archive +u 2) =? 88) || negb (rd8 m (archive +u 3) =? 65) then None
  else
    let count := read_le32 (at_ptr m (archive +u 4)) in
    if (size - EMXA_HEADER_SIZE) / EMXA_ENTRY_SIZE <? count then None
    else Some (archive, size, count).

(** The loop returns at the first index where the bytes differ (0) or where
    the path ends (1). *)
Definition path_matches (entry_path path : Z -> Z) : bool :=
  match find_range 0 EMXA_PATH_SIZE (fun i => negb (entry_path i =? u8 (path i)) || (path i =? 0)) with
  | Some i => entry_path i =? u8 (path i)
  | None => false
  end.

Definition entry_ptr (archive i : Z) : Z := archive +u (EMXA_HEADER_SIZE + (i *u EMXA_ENTRY_SIZE)).

Definition initramfs_find (path : option (Z -> Z)) (data size : Z) (m : memory) (bv : boot_vars)
    : option (Z * Z) :=
  match path with
  | None => None
  | Some path =>
    if (data =? NULL) || (size =? NULL) then None
    else
      match initramfs_header m bv with
      | None => None
      | Some (archive, archive_size, file_count) =>
        match find_range 0 file_count (fun i =>
                path_matches (at_ptr m (entry_ptr archive i)) path) with
        | None => None
        | Some i =>
          let entry := entry_ptr archive i in
          let offset := read_le32 (at_ptr m (entry +u EMXA_PATH_SIZE)) in
          let file_size := read_le32 (at_ptr m (entry +u (EMXA_PATH_SIZE + 4))) in
          if (archive_size <? offset) || (archive_size - offset <? file_size) then None
          else Some (archive +u offset, file_size)
        end
      end
  end.

(** The inner loop of [initramfs_list] prints the path up to its NUL. *)
Definition list_path (m : memory) (entry : Z) (s : mm) : mm :=
  let len := match find_range 0 EMXA_PATH_SIZE (fun j => at_ptr m entry j =? 0) with
             | Some j => j
             | None => EMXA_PATH_SIZE
             end in
  for_range 0 len (fun j s => kprint "%c" [VInt (at_ptr m entry j)] s) s.

Definition initramfs_list (bv : boot_vars) (s : mm) : mm :=
  let m := mem s in
  match initramfs_header m bv with
  | None => kprint (ln "initramfs: invalid module") [] s
  | Some (archive, archive_size, file_count) =>
    let s := kprint (ln "initramfs: files=%x size=%x") [VInt file_count; VInt archive_size] s in
    for_range 0 file_count (fun i s =>
      let entry := entry_ptr archive i in
      let offset := read_le32 (at_ptr m (entry +u EMXA_PATH_SIZE)) in
      let file_size := read_le32 (at_ptr m (entry +u (EMXA_PATH_SIZE + 4))) in
      let s := kprint "- " [] s in
      let s := list_path m entry s in
      kprint (ln " offset=%x size=%x") [VInt offset; VInt file_size] s) s
  end.

(** ** scripts/mkemxa.py *)

(** [struct.pack] of one little-endian word. *)
Definition le32 (v : Z) : list Z := [u8 v; u8 (v / 256); u8 (v / 65536); u8 (v / 16777216)].

Definition emxa_entry (path : list Z) (offset size : Z) : list Z :=
  path ++ replicate (32 - length path)%nat 0 ++ le32 offset ++ le32 size.

(** The loop that appends the entries; [off] is [data_offset + len(data)]. *)
Fixpoint emxa_entries (off : Z) (files : list (list Z * list Z)) : list Z :=
  match files with
  | [] => []
  | (path, contents) :: files =>
    emxa_entry path off (Z.of_nat (length contents))
      ++ emxa_entries (off + Z.of_nat (length contents)) files
  end.

Definition mkemxa (files : list (list Z * list Z)) : option (list Z) :=
  if existsb (fun f => EMXA_PATH_SIZE <=? Z.of_nat (length f.1)) files then None
  else
    let data_offset := EMXA_HEADER_SIZE + EMXA_ENTRY_SIZE * Z.of_nat (length files) in
    Some ([69; 77; 88; 65] ++ le32 (Z.of_nat (length files))
      ++ emxa_entries data_offset files ++ concat (snd <$> files)).

(** ** Bounds, for any contents of the module *)

Lemma header_Some m bv archive size count :
  initramfs_header m bv = Some (archive, size, count) ->
  archive = module_start bv /\ size = module_size bv /\ archive <> NULL /\
  8 <= size /\ 0 <= count /\ 8 + 40 * count <= size.
Proof.
  unfold initramfs_header, boot_module_start, boot_module_size. intros H.
  case_if_in H; try done. case_if_in H; try done. case_if_in H; try done. injection H as <- <- <-.
  rewrite read_le32_load in *. pose proof (load32_range m (phys (module_start bv +u 4))) as Hc.
  unfold rd32 in *. do 2 (split; [done|]). split; [done|]. split; [lia|].
  split; [lia|]. Z.div_mod_to_equations; lia.
Qed.

Lemma find_bounds path data size m bv d n :
  0 <= module_start bv -> module_start bv + module_size bv < 4294967296 ->
  initramfs_find path data size m bv = Some (d, n) ->
  module_start bv <= d /\ d + n <= module_start bv + module_size bv /\ 0 <= n.
Proof.
  intros Hs Hb H. unfold initramfs_find in H. destruct path as [path|]; [|done].
  case_if_in H; try done. destruct (initramfs_header m bv) as [[[archive asize] count]|] eqn:Hh; [|done].
  apply header_Some in Hh as (-> & -> & _ & Hsz & _). destruct (find_range _ _ _) as [i|]; [|done].
  rewrite !read_le32_load in H. set (off := rd32 m _) in H. set (fsz := rd32 m _) in H.
  assert (0 <= off) by apply load32_range. assert (0 <= fsz) by apply load32_range.
  case_if_in H; try done. injection H as <- <-. rewrite wrap_small by lia. lia.
Qed.

(** Two memories with the same bytes in the module. *)
Definition same_module (bv : boot_vars) (m m' : memory) : Prop :=
  forall p, module_start bv <= p < module_start bv + module_size bv -> rd8 m' p = rd8 m p.

Lemma same_le32 bv m m' p :
  same_module bv m m' -> module_start bv <= p -> p + 4 <= module_start bv + module_size bv ->
  read_le32 (at_ptr m' p) = read_le32 (at_ptr m p).
Proof. intros H Hl Hh. unfold read_le32, at_ptr. by rewrite !H by lia. Qed.

Lemma path_matches_entry (ep ep' path : Z -> Z) :
  (forall i, 0 <= i < 32 -> ep' i = ep i) -> path_matches ep' path = path_matches ep path.
Proof.
  intros H. unfold path_matches. rewrite (find_range_ext _ _ _ (fun i => negb (ep i =? u8 (path i)) || (path i =? 0))).
  - destruct (find_range _ _ _) as [i|] eqn:Hf; [|done]. apply find_range_Some in Hf as (Hi & _). by rewrite H.
  - intros i Hi. by rewrite H.
Qed.

Lemma header_same bv m m' :
  0 <= module_start bv -> module_start bv + module_size bv < 4294967296 -> same_module bv m m' ->
  initramfs_header m' bv = initramfs_header m bv.
Proof.
  intros Hs Hb H. unfold initramfs_header, boot_module_start, boot_module_size.
  destruct (_ || (_ <? EMXA_HEADER_SIZE)) eqn:Hg; [done|]. bool_simpl. rewrite !(wrap_small 32 (_ + _)) by lia.
  by rewrite (same_le32 bv m m'), !H by (done || lia).
Qed.

(** The entries that the loops look at are in the module. *)
Lemma entries_inside m bv archive size count i :
  0 <= module_start bv -> module_start bv + module_size bv < 4294967296 ->
  initramfs_header m bv = Some (archive, size, count) -> 0 <= i < count ->
  module_start bv + EMXA_HEADER_SIZE <= entry_ptr archive i /\
  entry_ptr archive i + EMXA_ENTRY_SIZE <= module_start bv + module_size bv.
Proof.
  intros Hs Hb Hh Hi. apply header_Some in Hh as (-> & -> & _ & ? & ? & ?). unfold entry_ptr.
  rewrite (wrap_small 32 (i * _)), wrap_small by lia. lia.
Qed.

Lemma find_same path data size bv m m' :
  0 <= module_start bv -> module_start bv + module_size bv < 4294967296 -> same_module bv m m' ->
  initramfs_find path data size m' bv = initramfs_find path data size m bv.
Proof.
  intros Hs Hb H. unfold initramfs_find. destruct path as [path|]; [|done]. destruct (_ || _); [done|].
  rewrite (header_same bv m m') by done. destruct (initramfs_header m bv) as [[[archive asize] count]|] eqn:Hh; [|done].
  pose proof (fun i => entries_inside m bv archive asize count i Hs Hb Hh) as Hin.
  rewrite (find_range_ext _ _ _ (fun i => path_matches (at_ptr m (entry_ptr archive i)) path)).
  - destruct (find_range _ _ _) as [i|] eqn:Hf; [|done]. apply find_range_Some in Hf as (Hi & _).
    specialize (Hin i Hi). rewrite !(wrap_small 32 (entry_ptr archive i + _)) by lia.
    by rewrite !(same_le32 bv m m') by (done || lia).
  - intros i Hi. specialize (Hin i Hi). apply path_matches_entry. intros j Hj. apply H. lia.
Qed.

(** C33: Whatever bytes the boot loader left in the module, [initramfs_find]
    keeps to it.  Every entry below the file count that the header announces
    lies in the module; the bytes outside it make no difference to the answer;
    and a file that is returned lies inside it.  So a bad archive does not make
    the kernel look at, or hand out, memory beyond the module. *)
Theorem initramfs_find_bounds path data size m bv :
  0 <= module_start bv -> module_start bv + module_size bv < 4294967296 ->
  (forall archive asize count i, initramfs_header m bv = Some (archive, asize, count) -> 0 <= i < count ->
     module_start bv + EMXA_HEADER_SIZE <= entry_ptr archive i /\
     entry_ptr archive i + EMXA_ENTRY_SIZE <= module_start bv + module_size bv) /\
  (forall m', same_module bv m m' -> initramfs_find path data size m' bv = initramfs_find path data size m bv) /\
  (forall d n, initramfs_find path data size m bv = Some (d, n) ->
     module_start bv <= d /\ d + n <= module_start bv + module_size bv /\ 0 <= n).
Proof.
  intros Hs Hb. split; [|split].
  - intros archive asize count i. by apply entries_inside.
  - intros m'. by apply find_same.
  - intros d n. by apply find_bounds.
Qed.

(** ** Round trip with the archive builder *)

(** [m] holds the bytes [l] at pointer [p]. *)
Definition holds (m : memory) (p : Z) (l : list Z) : Prop :=
  forall i c, l !! i = Some c -> rd8 m (p + Z.of_nat i) = c.

Lemma holds_app m p l1 l2 :
  holds m p (l1 ++ l2) <-> holds m p l1 /\ holds m (p + Z.of_nat (length l1)) l2.
Proof.
  unfold holds. split.
  - intros H. split; intros i c Hi.
    + apply H. by apply lookup_app_l_Some.
    + rewrite <- Z.add_assoc, <- Nat2Z.inj_add. apply H. rewrite lookup_app_r by lia.
      by replace (length l1 + i - length l1)%nat with i by lia.
  - intros [H1 H2] i c Hi. apply lookup_app_Some in Hi as [Hi|[Hle Hi]]; [by apply H1|].
    specialize (H2 _ _ Hi). rewrite <- H2. f_equal. lia.
Qed.

Lemma holds_le32 m p v : 0 <= v < 4294967296 -> holds m p (le32 v) -> rd32 m p = v.
Proof.
  intros Hv H. pose proof (H 0%nat _ eq_refl) as H0. pose proof (H 1%nat _ eq_refl) as H1.
  pose proof (H 2%nat _ eq_refl) as H2. pose proof (H 3%nat _ eq_refl) as H3.
  unfold rd32, load32, rd8, phys in *.
  replace (p + Z.of_nat 0 - VMM_KERNEL_VIRTUAL_BASE) with (p - VMM_KERNEL_VIRTUAL_BASE) in H0 by lia.
  replace (p + Z.of_nat 1 - VMM_KERNEL_VIRTUAL_BASE) with (p - VMM_KERNEL_VIRTUAL_BASE + 1) in H1 by lia.
  replace (p + Z.of_nat 2 - VMM_KERNEL_VIRTUAL_BASE) with (p - VMM_KERNEL_VIRTUAL_BASE + 2) in H2 by lia.
  replace (p + Z.of_nat 3 - VMM_KERNEL_VIRTUAL_BASE) with (p - VMM_KERNEL_VIRTUAL_BASE + 3) in H3 by lia.
  rewrite H0, H1, H2, H3, bytes_u32. by apply wrap_small.
Qed.

(** A path the kernel can be asked for: a C string without NUL inside. *)
Definition path_ok (q : list Z) : Prop := (length q < 32)%nat /\ Forall (fun c => 0 < c < 256) q.
Definition cstr (q : list Z) : Z -> Z := at_arr (q ++ [0]).

Lemma cstr_in q i : 0 <= i < Z.of_nat (length q) -> q !! Z.to_nat i = Some (cstr q i).
Proof.
  intros Hi. unfold cstr, at_arr. rewrite lookup_app_l by lia.
  destruct (lookup_lt_is_Some_2 q (Z.to_nat i)) as [c Hc]; [lia|]. by rewrite Hc.
Qed.

Lemma cstr_out q i : Z.of_nat (length q) <= i -> cstr q i = 0.
Proof.
  intros Hi. unfold cstr, at_arr. rewrite lookup_app_r by lia.
  destruct (Z.to_nat i - length q)%nat as [|k]; [done|]. by destruct k.
Qed.

Lemma cstr_range q i : path_ok q -> 0 <= i -> 0 <= cstr q i < 256 /\ (cstr q i = 0 <-> Z.of_nat (length q) <= i).
Proof.
  intros [_ Hq] Hi. destruct (decide (i < Z.of_nat (length q))) as [Hlt|Hge].
  - rewrite Forall_lookup in Hq. specialize (Hq _ _ (cstr_in q i ltac:(lia))). lia.
  - rewrite cstr_out by lia. lia.
Qed.

Lemma path_matches_spec (ep : Z -> Z) p q :
  path_ok p -> path_ok q -> (forall i, 0 <= i < 32 -> ep i = cstr p i) ->
  path_matches ep (cstr q) = bool_decide (p = q).
Proof.
  intros Hp Hq Hep. unfold path_matches.
  assert (Hu : forall i, 0 <= i -> u8 (cstr q i) = cstr q i)
    by (intros i Hi; apply wrap_small; by apply cstr_range).
  destruct (find_range _ _ _) as [i|] eqn:E.
  - apply find_range_Some in E as (Hi & Ht & Hbefore). rewrite Hep, Hu in * by lia.
    assert (Hsame : forall j, 0 <= j < i -> cstr p j = cstr q j /\ cstr q j <> 0).
    { intros j Hj. specialize (Hbefore j Hj). rewrite Hep, Hu in Hbefore by lia. clear Ht. by bool_simpl. }
    destruct (Z.eqb_spec (cstr p i) (cstr q i)) as [Heq|Hne]; symmetry; [apply bool_decide_eq_true|apply bool_decide_eq_false].
    + simpl in Ht. apply Z.eqb_eq in Ht. rewrite Ht in Heq.
      destruct (cstr_range p i Hp) as [_ Hpi], (cstr_range q i Hq) as [_ Hqi]; [lia..|].
      apply Hpi in Heq. apply Hqi in Ht.
      assert (Hlen : forall r : list Z, path_ok r -> Z.of_nat (length r) <= i ->
        (forall j, 0 <= j < i -> cstr r j <> 0) -> Z.of_nat (length r) = i).
      { intros r Hr Hle Hnz. destruct (decide (Z.of_nat (length r) = i)); [done|].
        destruct (Hnz (Z.of_nat (length r))); [lia|]. by apply cstr_out. }
      assert (Z.of_nat (length p) = i).
      { apply Hlen; [done|done|]. intros j Hj. destruct (Hsame j Hj) as [-> ?]. done. }
      assert (Z.of_nat (length q) = i) by (apply Hlen; [done|done|]; intros j Hj; by apply Hsame).
      apply list_eq. intros k. destruct (decide (Z.of_nat k < i)) as [Hk|Hk]; [|rewrite !lookup_ge_None_2 by lia; done].
      pose proof (cstr_in p (Z.of_nat k) ltac:(lia)) as E1. pose proof (cstr_in q (Z.of_nat k) ltac:(lia)) as E2.
      rewrite Nat2Z.id in E1, E2. rewrite E1, E2. f_equal. apply Hsame. lia.
    + by intros ->.
  - rewrite find_range_None in E. destruct Hq as [Hql Hqf].
    specialize (E (Z.of_nat (length q)) ltac:(lia)). rewrite cstr_out in E by lia. by rewrite orb_true_r in E.
Qed.

Lemma length_entry path off n : (length path < 32)%nat -> length (emxa_entry path off n) = 40%nat.
Proof. intros. unfold emxa_entry. rewrite !length_app, length_replicate. simpl. lia. Qed.

Lemma length_entries files off :
  Forall (fun f => path_ok f.1) files -> length (emxa_entries off files) = (40 * length files)%nat.
Proof.
  intros H. revert off. induction H as [|[path contents] files [Hl _] _ IH]; intros off; simpl; [done|].
  rewrite length_app, length_entry, IH by done. lia.
Qed.

(** The size of the first [i] files. *)
Definition size_before (files : list (list Z * list Z)) (i : nat) : Z :=
  Z.of_nat (length (concat (snd <$> take i files))).

(** One entry, read back. *)
Lemma entry_at m p path off n :
  path_ok path -> 0 <= off < 4294967296 -> 0 <= n < 4294967296 -> holds m p (emxa_entry path off n) ->
  (forall j, 0 <= j < 32 -> rd8 m (p + j) = cstr path j) /\ rd32 m (p + 32) = off /\ rd32 m (p + 36) = n.
Proof.
  intros [Hl _] Ho Hn H. unfold emxa_entry in H. rewrite !holds_app in H. destruct H as (H1 & H2 & H3 & H4).
  rewrite length_replicate in *. split; [|split].
  - intros j Hj. destruct (decide (j < Z.of_nat (length path))) as [Hlt|Hge].
    + specialize (H1 _ _ (cstr_in path j ltac:(lia))). by rewrite Z2Nat.id in H1 by lia.
    + rewrite cstr_out by lia.
      specialize (H2 (Z.to_nat j - length path)%nat 0). rewrite lookup_replicate_2 in H2 by lia.
      rewrite <- H2 by done. f_equal. lia.
  - apply holds_le32; [done|]. by replace (p + 32) with (p + Z.of_nat (length path) + Z.of_nat (32 - length path)) by lia.
  - apply holds_le32; [done|]. simpl length in H4.
    by replace (p + 36) with (p + Z.of_nat (length path) + Z.of_nat (32 - length path) + Z.of_nat 4) by lia.
Qed.

Lemma entries_at m files p off i path contents :
  Forall (fun f => path_ok f.1) files -> holds m p (emxa_entries off files) ->
  0 <= off -> off + Z.of_nat (length (concat (snd <$> files))) < 4294967296 ->
  files !! i = Some (path, contents) ->
  let e := p + 40 * Z.of_nat i in
  (forall j, 0 <= j < 32 -> rd8 m (e + j) = cstr path j) /\
  rd32 m (e + 32) = off + size_before files i /\ rd32 m (e + 36) = Z.of_nat (length contents).
Proof.
  intros Hok. revert p off i. induction Hok as [|[path0 contents0] files Hp _ IH]; intros p off i Hh Ho Hlt Hi; [done|].
  cbn [emxa_entries] in Hh. apply holds_app in Hh as [He Hrest]. rewrite length_entry in Hrest by apply Hp.
  rewrite fmap_cons in Hlt. simpl in Hlt. rewrite length_app, Nat2Z.inj_add in Hlt. unfold size_before.
  destruct i as [|i]; simpl in Hi.
  - injection Hi as -> ->. simpl. replace (p + 40 * Z.of_nat 0) with p by lia.
    destruct (entry_at m p path off (Z.of_nat (length contents))) as (? & ? & ?); [done|lia|lia|done|].
    split; [done|]. split; [lia|done].
  - destruct (IH (p + 40) (off + Z.of_nat (length contents0)) i) as (H1 & H2 & H3); [done|lia|lia|done|].
    replace (p + 40 * Z.of_nat (S i)) with (p + 40 + 40 * Z.of_nat i) by lia.
    split; [done|]. split; [|done]. rewrite H2. unfold size_before.
    change (concat (snd <$> take (S i) ((path0, contents0) :: files)))
      with (contents0 ++ concat (snd <$> take i files)). rewrite length_app. lia.
Qed.

Lemma contents_at m files p i path contents :
  holds m p (concat (snd <$> files)) -> files !! i = Some (path, contents) ->
  holds m (p + size_before files i) contents /\
  size_before files i + Z.of_nat (length contents) <= Z.of_nat (length (concat (snd <$> files))).
Proof.
  intros Hh Hi. pose proof (take_drop_middle files i _ Hi) as Hs.
  assert (Hc : concat (snd <$> files) = concat (snd <$> take i files) ++ contents ++ concat (snd <$> drop (S i) files)).
  { rewrite <- Hs at 1. rewrite fmap_app, fmap_cons, concat_app. done. }
  rewrite Hc in *. rewrite !holds_app in Hh. rewrite !length_app. unfold size_before. split; [apply Hh|lia].
Qed.

Lemma mkemxa_Some files l : mkemxa files = Some l ->
  l = [69; 77; 88; 65] ++ le32 (Z.of_nat (length files)) ++
    emxa_entries (8 + 40 * Z.of_nat (length files)) files ++ concat (snd <$> files).
Proof. unfold mkemxa. case_if; [done|]. by intros [= <-]. Qed.

(** The header of a built archive is accepted. *)
Lemma header_of_built m bv files l :
  mkemxa files = Some l -> Forall (fun f => path_ok f.1) files ->
  holds m (module_start bv) l -> module_size bv = Z.of_nat (length l) ->
  0 < module_start bv -> module_start bv + Z.of_nat (length l) < 4294967296 ->
  initramfs_header m bv = Some (module_start bv, module_size bv, Z.of_nat (length files)) /\
  Z.of_nat (length l) = 8 + 40 * Z.of_nat (length files) + Z.of_nat (length (concat (snd <$> files))).
Proof.
  intros Hl Hok Hh Hsz Hs Hlt. apply mkemxa_Some in Hl.
  assert (Hlen : Z.of_nat (length l) = 8 + 40 * Z.of_nat (length files) + Z.of_nat (length (concat (snd <$> files)))).
  { rewrite Hl, !length_app, length_entries by done. simpl. lia. }
  split; [|done]. rewrite Hl in Hh. apply holds_app in Hh as [Hmg Hh]. apply holds_app in Hh as [Hc _].
  unfold initramfs_header, boot_module_start, boot_module_size. set (st := module_start bv) in *.
  rewrite (proj2 (Z.eqb_neq st NULL)), (proj2 (Z.ltb_ge (module_size bv) 8)) by lia. cbn [orb].
  pose proof (Hmg 0%nat _ eq_refl) as M0. pose proof (Hmg 1%nat _ eq_refl) as M1.
  pose proof (Hmg 2%nat _ eq_refl) as M2. pose proof (Hmg 3%nat _ eq_refl) as M3.
  rewrite !(wrap_small 32 (st + _)) by lia. rewrite Z.add_0_r in M0.
  change (Z.of_nat 1) with 1 in M1. change (Z.of_nat 2) with 2 in M2. change (Z.of_nat 3) with 3 in M3.
  rewrite M0, M1, M2, M3. cbn [negb orb Z.eqb Pos.eqb].
  rewrite read_le32_load, (holds_le32 m (st + 4) (Z.of_nat (length files))) by (lia || exact Hc).
  rewrite (proj2 (Z.ltb_ge _ _)); [done|]. rewrite Hsz, Hlen. Z.div_mod_to_equations; lia.
Qed.

(** The entries of a built archive, as [initramfs_find] reads them. *)
Lemma built_entries files l m bv i path contents :
  mkemxa files = Some l -> Forall (fun f => path_ok f.1) files ->
  holds m (module_start bv) l -> 0 < module_start bv ->
  module_start bv + Z.of_nat (length l) < 4294967296 ->
  files !! i = Some (path, contents) ->
  let e := entry_ptr (module_start bv) (Z.of_nat i) in
  let off := 8 + 40 * Z.of_nat (length files) + size_before files i in
  (forall j, 0 <= j < 32 -> at_ptr m e j = cstr path j) /\
  read_le32 (at_ptr m (e +u EMXA_PATH_SIZE)) = off /\
  read_le32 (at_ptr m (e +u (EMXA_PATH_SIZE + 4))) = Z.of_nat (length contents) /\
  holds m (module_start bv + off) contents /\ 0 <= off /\
  off + Z.of_nat (length contents) <= Z.of_nat (length l).
Proof.
  intros Hl Hok Hh Hs Hlt Hi. apply mkemxa_Some in Hl. pose proof (lookup_lt_Some _ _ _ Hi) as Hil.
  assert (Hlen : Z.of_nat (length l) = 8 + 40 * Z.of_nat (length files) + Z.of_nat (length (concat (snd <$> files)))).
  { rewrite Hl, !length_app, length_entries by done. simpl. lia. }
  rewrite Hl in Hh. apply holds_app in Hh as [_ Hh]. apply holds_app in Hh as [_ Hh].
  apply holds_app in Hh as [Hent Hdat]. rewrite length_entries in Hdat by done. simpl length in Hent, Hdat.
  set (st := module_start bv) in *.
  replace (st + Z.of_nat 4 + Z.of_nat 4) with (st + 8) in Hent by lia.
  replace (st + Z.of_nat 4 + Z.of_nat 4 + Z.of_nat (40 * length files))
    with (st + (8 + 40 * Z.of_nat (length files))) in Hdat by lia.
  destruct (contents_at m files _ i path contents Hdat Hi) as [Hcont Hsum].
  assert (0 <= size_before files i) by (unfold size_before; lia).
  intros e off. unfold e, off, entry_ptr.
  rewrite (wrap_small 32 (Z.of_nat i * 40)), (wrap_small 32 (st + _)) by lia.
  rewrite !(wrap_small 32 (st + _ + _)), !read_le32_load by lia. unfold at_ptr.
  replace (st + (8 + Z.of_nat i * 40)) with (st + 8 + 40 * Z.of_nat i) by lia.
  destruct (entries_at m files (st + 8) (8 + 40 * Z.of_nat (length files)) i path contents) as (? & ? & ?);
    [done|done|lia|lia|done|].
  do 3 (split; [done|]). split; [by rewrite Z.add_assoc|]. lia.
Qed.

(** C32: An archive built by scripts/mkemxa.py and loaded as the boot module is
    read back by [initramfs_find]: every path gives the contents of the first
    file added under it, byte for byte, and a path that was not added is not
    found. *)
Theorem emxa_roundtrip files l m bv q data size :
  mkemxa files = Some l -> Forall (fun f => path_ok f.1) files -> path_ok q ->
  holds m (module_start bv) l -> module_size bv = Z.of_nat (length l) ->
  0 < module_start bv -> module_start bv + Z.of_nat (length l) < 4294967296 ->
  data <> NULL -> size <> NULL ->
  match list_find (fun f => f.1 = q) files with
  | Some (_, (_, contents)) => exists d,
      initramfs_find (Some (cstr q)) data size m bv = Some (d, Z.of_nat (length contents)) /\
      holds m d contents
  | None => initramfs_find (Some (cstr q)) data size m bv = None
  end.
Proof.
  intros Hl Hok Hq Hh Hsz Hs Hlt Hd Hsize. unfold initramfs_find.
  rewrite (proj2 (Z.eqb_neq data NULL)), (proj2 (Z.eqb_neq size NULL)) by done. cbn [orb].
  destruct (header_of_built m bv files l) as [-> Hlen]; [done..|].
  assert (Hmatch : forall i path contents, files !! i = Some (path, contents) ->
    path_matches (at_ptr m (entry_ptr (module_start bv) (Z.of_nat i))) (cstr q) = bool_decide (path = q)).
  { intros i path contents Hi. apply path_matches_spec; [|done|by apply (built_entries files l m bv i path contents)].
    rewrite Forall_lookup in Hok. by apply (Hok i _ Hi). }
  destruct (list_find _ files) as [[i [path contents]]|] eqn:Ef.
  - apply list_find_Some in Ef as (Hi & Hpq & Hbefore). simpl in Hpq. subst path.
    pose proof (lookup_lt_Some _ _ _ Hi) as Hil.
    assert (Hfr : find_range 0 (Z.of_nat (length files)) (fun i =>
      path_matches (at_ptr m (entry_ptr (module_start bv) i)) (cstr q)) = Some (Z.of_nat i)).
    { apply find_range_Some. split; [lia|]. split; [rewrite (Hmatch i q contents) by done; by apply bool_decide_eq_true|].
      intros j Hj. destruct (lookup_lt_is_Some_2 files (Z.to_nat j)) as [[p c] Hp]; [lia|].
      rewrite <- (Z2Nat.id j) by lia. rewrite (Hmatch _ p c Hp). apply bool_decide_eq_false.
      by apply (Hbefore _ _ Hp); lia. }
    rewrite Hfr. destruct (built_entries files l m bv i q contents) as (_ & -> & -> & Hcont & Hoff & Hsum); [done..|].
    rewrite Hsz, (proj2 (Z.ltb_ge _ _)), (proj2 (Z.ltb_ge _ _)) by lia. cbn [orb].
    eexists. split; [reflexivity|]. by rewrite wrap_small by lia.
  - apply list_find_None in Ef. rewrite (proj2 (find_range_None _ _ _)); [done|].
    intros j Hj. destruct (lookup_lt_is_Some_2 files (Z.to_nat j)) as [[p c] Hp]; [lia|].
    rewrite <- (Z2Nat.id j) by lia. rewrite (Hmatch _ p c Hp). apply bool_decide_eq_false.
    rewrite Forall_lookup in Ef. apply (Ef _ _ Hp).
Qed.
