(* ===== verification/Sharing.v ===== *)
(** * Several owners of physical frames

    The page tables, the heap and the user pages share one page allocator and
    one memory.  [restricted X m0] is the allocator as a component sees it
    while the frames of [X] belong to somebody else: they can neither be handed
    out nor freed, and they must keep the bytes they have in [m0].  It has the
    contract of FrameAlloc.v again, so every theorem proved against that
    contract (for vmm.c and for kmalloc.c) also says that the component leaves
    the frames of the others alone.  [kmem] is the invariant of the three
    owners together, and its lemmas are the contracts of the memory functions
    as the scheduler and the process code use them. *)

From S2P Require Import Prelude Memory Machine FrameAlloc.

Section restricted.
Context `{FA : !FrameAllocator alloc free}.
Variables (X : Z -> Prop) (m0 : memory).

(** The frames of [X] are allocated and hold the bytes of [m0]. *)
Definition kept (s : mm) : Prop := forall q, X q -> held s q /\ same_frame m0 (mem s) q.

Lemma kept_stable s s' :
  kept s -> (forall q, X q -> held s q -> held s' q /\ same_frame (mem s) (mem s') q) -> kept s'.
Proof.
  intros Hk Hs q Hq. destruct (Hk q Hq) as [Hh Hf]. destruct (Hs q Hq Hh) as [Hh' Hf'].
  split; [done|]. intros a Ha. by rewrite (Hf' a Ha), (Hf a Ha).
Qed.

Definition restricted_priv (s : mm) (a : Z) : Prop := priv s a \/ X (a / 4096).

Lemma restricted_alloc s :
  fa_inv s /\ kept s ->
  (alloc s = (0, s) /\ forall p, avail s p = false) \/
  (exists p s', alloc s = (p * 4096, s') /\ avail s p = true /\
    (forall q, q < p -> avail s q = false) /\
    (forall q, avail s' q = avail s q && negb (q =? p)) /\
    (forall q, managed s' q = managed s q) /\
    (forall a, restricted_priv s' a <-> restricted_priv s a) /\
    (fa_inv s' /\ kept s') /\ touches_only (restricted_priv s) s s').
Proof.
  intros [Hfa Hk]. destruct (alloc_spec s Hfa) as [?|(p & s' & Ha & Hav & Hlow & Hq & Hm & Hpr & Hfa' & Ht)];
    [by left|right]. exists p, s'. do 5 (split; [done|]). split; [|split; [split; [done|]|]].
  - intros a. unfold restricted_priv. by rewrite Hpr.
  - apply (kept_stable s); [done|]. intros q _ [Hr Hmq Htk Hp]. split; [|by apply (only_changes_frame _ _ _ _ (proj2 Ht))].
    split; [done|by rewrite Hm|by rewrite Hq, Htk|]. intros a. rewrite Hpr. apply Hp.
  - destruct Ht as [? Ht]. split; [done|]. eapply only_changes_mono; [|exact Ht]. by left.
Qed.

Lemma restricted_free s p :
  fa_inv s /\ kept s -> 0 < p -> managed s p = true -> avail s p = false ->
  (forall a, restricted_priv s a -> a / 4096 <> p) ->
  forall s', free (p * 4096) s = s' ->
  (forall q, avail s' q = avail s q || (q =? p)) /\ (forall q, managed s' q = managed s q) /\
  (forall a, restricted_priv s' a <-> restricted_priv s a) /\
  (fa_inv s' /\ kept s') /\ touches_only (restricted_priv s) s s'.
Proof.
  intros [Hfa Hk] Hp Hm Ha Hpv s' Hs'.
  destruct (free_spec s p Hfa Hp Hm Ha (fun a H => Hpv a (or_introl H)) s' Hs') as (Hq & Hmq & Hpr & Hfa' & Ht).
  assert (Hnx : ~ X p). { intros HX. apply (Hpv (p * 4096)); [right|]; by rewrite Z.div_mul. }
  split; [done|]. split; [done|]. split; [intros a; unfold restricted_priv; by rewrite Hpr|].
  split; [split; [done|]|destruct Ht as [? Ht]; split; [done|]; eapply only_changes_mono; [|exact Ht]; by left].
  apply (kept_stable s); [done|]. intros q HX [Hr Hmq' Htk Hpq].
  split; [|by apply (only_changes_frame _ _ _ _ (proj2 Ht))].
  split; [done|by rewrite Hmq| |intros a; rewrite Hpr; apply Hpq].
  rewrite Hq, Htk. apply Z.eqb_neq. by intros ->.
Qed.

Lemma restricted_frame s s' :
  fa_inv s /\ kept s -> pm s' = pm s ->
  (forall a, restricted_priv s a -> load8 (mem s') a = load8 (mem s) a) ->
  (fa_inv s' /\ kept s') /\ (forall q, avail s' q = avail s q) /\
  (forall q, managed s' q = managed s q) /\ (forall a, restricted_priv s' a <-> restricted_priv s a).
Proof.
  intros [Hfa Hk] Hpm Hm.
  destruct (fa_frame s s' Hfa Hpm (fun a H => Hm a (or_introl H))) as (Hfa' & Ha & Hmq & Hpr).
  split; [split; [done|]|split; [done|split; [done|intros a; unfold restricted_priv; by rewrite Hpr]]].
  apply (kept_stable s); [done|]. intros q HX Hh. split; [by apply (held_fa_same s)|].
  intros a Haq. apply Hm. right. by rewrite Haq.
Qed.

Lemma restricted_unavail s a : fa_inv s /\ kept s -> restricted_priv s a -> avail s (a / 4096) = false.
Proof. intros [Hfa Hk] [Ha|HX]; [by apply priv_unavail|by apply Hk]. Qed.

Definition restricted : FrameAllocator alloc free := {|
  fa_inv s := fa_inv s /\ kept s;
  avail := avail; managed := managed; priv := restricted_priv;
  priv_unavail := restricted_unavail;
  avail_managed s p H := avail_managed s p (proj1 H);
  alloc_spec := restricted_alloc;
  free_spec := restricted_free;
  fa_frame := restricted_frame;
|}.

(** A frame held under the restriction is held and belongs to nobody else. *)
Lemma held_restricted s p : held (FA := restricted) s p <-> held s p /\ ~ X p.
Proof.
  split.
  - intros [Hr Hm Ht Hp]. split; [split; [done..|]|].
    + intros a Ha. apply Hp. by left.
    + intros HX. apply (Hp (p * 4096)); [right|]; by rewrite Z.div_mul.
  - intros [[Hr Hm Ht Hp] HX]. split; [done..|]. intros a [Ha|Ha]; [by apply Hp|]. by intros <-.
Qed.
End restricted.
