(* ===== verification/Kmem.v ===== *)
(** * The memory of the kernel and its three owners

    [own] is the abstract view of who holds which frame: the page directories,
    the heap (its allocations and its pages) and the pages given to user
    processes.  Only [kmalloc] adds frames to the heap, and each of them holds a
    block when it does ([kmem_kmalloc]); all other calls leave [o_heap] alone.
    [kmem s o] says that the page tables, the heap and the user pages of the
    machine are well formed and disjoint; [kstep] is what a call of the memory
    functions may do to it.  The contracts below are the ones the
    scheduler (Sched.v) and the process code (User.v) rely on. *)

From S2P Require Import Prelude Memory Tty Printk Machine FrameAlloc Sharing Pmm Vmm VmmSpec VmmProof VmmTheorems Kmalloc KmallocProof.

(** ** What the memory functions leave alone *)

(** The console, the serial line, the paging registers and [kernel_page_directory]. *)
Definition core (s : mm) : tty * list Z * Z * bool * Z :=
  (con s, serial s, cr3 s, cr0_pg s, kernel_page_directory s).

Definition quiet (s s' : mm) : Prop := core s' = core s /\ heap_list s' = heap_list s.

#[export] Instance quiet_preorder : PreOrder quiet.
Proof.
  split; [by split|]. intros x y z [? ?] [? ?]. split; congruence.
Qed.

Lemma quiet_set_mem m s : quiet s (set_mem m s).
Proof. done. Qed.
Lemma quiet_set_pm p s : quiet s (set_pm p s).
Proof. done. Qed.

Lemma quiet_for_range {lo hi body} s :
  (forall i s, quiet s (body i s)) -> quiet s (for_range lo hi body s).
Proof.
  intros Hb. destruct (decide (lo <= hi)); [|by rewrite for_range_nil by lia].
  for_inv (fun (_ : Z) s' => quiet s s'); [lia|done|]. intros i s' _ Hs. etransitivity; [done|apply Hb].
Qed.

Lemma quiet_alloc s : quiet s (pmm_alloc_page s).2.
Proof. unfold pmm_alloc_page, dec_free_pages. destruct (find_range _ _ _); [simpl; case_if|]; split; reflexivity. Qed.

Lemma quiet_free a s : quiet s (pmm_free_page a s).
Proof. unfold pmm_free_page. case_if; split; reflexivity. Qed.

Lemma quiet_map_page_table pd i s : quiet s (map_page_table pd i s).2.
Proof.
  unfold map_page_table. pose proof (quiet_alloc s) as Ha. destruct (pmm_alloc_page s) as [p s1]. simpl in Ha.
  repeat case_if; simpl; try done. etransitivity; [done|apply quiet_free].
Qed.

Lemma quiet_map d v p flags s : quiet s (vmm_map_page_in d v p flags s).2.
Proof.
  unfold vmm_map_page_in. pose proof (quiet_map_page_table (vmm_phys_to_virt d) (VMM_PDE_INDEX v) s) as Hq.
  destruct (map_page_table _ _ _) as [[pt|] s1]; simpl in Hq; by repeat (case_if; try done).
Qed.

Lemma quiet_unmap d v s : quiet s (vmm_unmap_page_in d v s).2.
Proof. unfold vmm_unmap_page_in. by repeat case_if. Qed.

Lemma quiet_create s : quiet s (vmm_create_address_space s).2.
Proof.
  unfold vmm_create_address_space. pose proof (quiet_alloc s) as Ha. destruct (pmm_alloc_page s) as [p s1].
  simpl in Ha. case_if; [done|]. case_if; [etransitivity; [done|apply quiet_free]|].
  etransitivity; [done|]. etransitivity; [apply quiet_set_mem|]. by apply quiet_for_range.
Qed.

Lemma quiet_destroy d s : quiet s (vmm_destroy_address_space d s).
Proof.
  unfold vmm_destroy_address_space. destruct (_ || _); [done|]. case_if; [done|].
  etransitivity; [|apply quiet_free]. apply quiet_for_range. intros i s1. cbv zeta.
  destruct (negb _); [apply quiet_free|done].
Qed.

Lemma core_new_block s : quiet s (new_block s).2.
Proof.
  unfold new_block. pose proof (quiet_alloc s) as Ha. destruct (pmm_alloc_page s) as [p s1]. simpl in Ha.
  repeat case_if; simpl; try done. etransitivity; [done|apply quiet_free].
Qed.

Lemma core_alloc_from_block b n s : quiet s (alloc_from_block b n s).2.
Proof. unfold alloc_from_block. by case_if. Qed.

Lemma core_kmalloc size s r s' : kmalloc size s = Done (r, s') -> core s' = core s.
Proof.
  unfold kmalloc. destruct (align_size size) as [n|]; [|by intros [= _ <-]]. case_if; [by intros [= _ <-]|].
  set (s1 := if heap_list s =? NULL then _ else s).
  assert (H1 : core s1 = core s).
  { unfold s1. case_if; [|done]. pose proof (core_new_block s) as [? _]. by destruct (new_block s). }
  clearbody s1. rewrite <- H1. clear H1. case_if; [by intros [= _ <-]|].
  destruct (while_pow _ _ _) as [|[b|l]]; [done| |].
  - intros Hd. assert (E : alloc_from_block b n s1 = (r, s')) by congruence.
    pose proof (core_alloc_from_block b n s1) as [H _]. by rewrite E in H.
  - pose proof (core_new_block s1) as [H2 _]. destruct (new_block s1) as [b s2]. simpl in H2. rewrite <- H2.
    case_if; [by intros [= _ <-]|]. intros Hd.
    assert (E : alloc_from_block b n (set_blk_next l b s2) = (r, s')) by congruence.
    pose proof (core_alloc_from_block b n (set_blk_next l b s2)) as [H _]. by rewrite E in H.
Qed.

Lemma quiet_coalesce b s :
  match while_pow HEAP_WALK_BITS (coalesce_step b) s with inl s' => quiet s s' | inr s' => quiet s s' end.
Proof.
  apply (while_pow_inv (quiet s) (quiet s)); [|done]. intros s1 Hs. unfold coalesce_step.
  case_if; (etransitivity; [exact Hs|done]).
Qed.

Lemma quiet_kfree p s s' : kfree p s = Done s' -> quiet s s'.
Proof.
  unfold kfree, coalesce_next. case_if; [by intros [= <-]|].
  pose proof (quiet_coalesce (p -u SIZEOF_HEAP_BLOCK) (set_blk_free (p -u SIZEOF_HEAP_BLOCK) 1 s)) as H.
  destruct (while_pow _ _ _) as [?|s1]; [done|]. intros [= <-]. etransitivity; [|exact H]. done.
Qed.

(** ** Ownership *)

Record own := mkOwn {
  o_dirs : gset Z;               (** page directories, the kernel's included *)
  o_allocs : list (Z * Z);       (** live heap allocations: address and size *)
  o_heap : gset Z;               (** frames of the heap *)
  o_pages : gset Z;              (** frames of user processes *)
}.

Section kmem.
Context {FA : FrameAllocator pmm_alloc_page pmm_free_page}.

(** Some block of the heap reaches into frame [p]. *)
Definition heap_frame (bs : list blk) (p : Z) : Prop :=
  exists b a, b ∈ bs /\ in_blk b a /\ a / 4096 = p.

(** A block of the list that starts at [list] and ends with NULL reaches into
    frame [q]. *)
Definition in_heap (s : mm) (q : Z) : Prop :=
  exists bs, chain (mem s) (heap_list s) bs NULL /\ (NULL ∉ b_addr <$> bs) /\ heap_frame bs q.

(** The list is determined by the memory. *)
Lemma chain_det m p bs bs' :
  NULL ∉ b_addr <$> bs -> NULL ∉ b_addr <$> bs' -> chain m p bs NULL -> chain m p bs' NULL -> bs' = bs.
Proof.
  revert p bs'. induction bs as [|b bs IH]; intros p [|b' bs'] Hn Hn'; cbn [chain].
  - done.
  - intros -> (E & _). destruct Hn'. rewrite fmap_cons, <- E. by left.
  - intros (E & _) E'. destruct Hn. rewrite fmap_cons, <- E, E'. by left.
  - intros (E1 & S1 & F1 & C1) (E2 & S2 & F2 & C2). rewrite fmap_cons, not_elem_of_cons in Hn, Hn'.
    destruct Hn as [_ Hn], Hn' as [_ Hn']. f_equal; [|by apply (IH (blk_next m p))]. destruct b as [a n f], b' as [a' n' f']. simpl in *.
    f_equal; [congruence..|]. rewrite F1 in F2. by destruct f, f'.
Qed.

Lemma heap_not_null s bs : heap_inv s bs -> NULL ∉ b_addr <$> bs.
Proof.
  intros Hh (b & Hb & Hin)%list_elem_of_fmap. pose proof (blk_range _ _ (hp_ok _ _ Hh b Hin)). lia.
Qed.

Lemma in_heap_iff s bs q : heap_inv s bs -> in_heap s q <-> heap_frame bs q.
Proof.
  intros Hh. pose proof (heap_not_null s bs Hh) as Hn. split.
  - intros (bs' & Hc & Hn' & Hf). by rewrite (chain_det _ _ bs bs' Hn Hn' (hp_chain _ _ Hh) Hc) in Hf.
  - intros Hf. exists bs. split; [apply Hh|done].
Qed.

Record kmem_at (bs : list blk) (s : mm) (o : own) : Prop := {
  kb_vm : vm_inv s (o_dirs o);
  kb_heap : heap_inv s bs;
  kb_live : live bs ≡ₚ o_allocs o;
  kb_frames p : heap_frame bs p -> p ∈ o_heap o;
  kb_pool p : p ∈ o_heap o -> held s p;
  kb_user p : p ∈ o_pages o -> held s p;
  kb_vh p : used s (o_dirs o) p -> p ∉ o_heap o;
  kb_vu p : used s (o_dirs o) p -> p ∉ o_pages o;
  kb_hu p : p ∈ o_heap o -> p ∉ o_pages o;
}.

Definition kmem (s : mm) (o : own) : Prop := exists bs, kmem_at bs s o.

(** Frame [q] is available or has an owner. *)
Definition acct (s : mm) (o : own) (q : Z) : Prop :=
  avail s q = true \/ used s (o_dirs o) q \/ q ∈ o_heap o \/ q ∈ o_pages o.

(** The frames that the heap has in [o'] and did not have in [o] hold blocks.
    (A frame can lose its last block later, to the slack that [alloc_from_block]
    drops, so that the frames of the heap are not a function of the state.) *)
Definition heap_grows (o : own) (s' : mm) (o' : own) : Prop :=
  forall q, q ∈ o_heap o' -> q ∈ o_heap o \/ in_heap s' q.

Lemma heap_grows_same o s' o' : o_heap o' = o_heap o -> heap_grows o s' o'.
Proof. intros H q. rewrite H. by left. Qed.

(** What a call that works on the frames of [T] and the allocations of [A] does
    to the rest: every other address space translates its user half as before
    and keeps its directory, every other user page and allocation keeps its
    bytes, and no frame is lost or appears. *)
Record kstep (T : Z -> Prop) (A : Z * Z -> Prop) (s : mm) (o : own) (s' : mm) (o' : own) : Prop := {
  ks_inv : kmem s' o';
  ks_kpd : kernel_page_directory s' = kernel_page_directory s;
  ks_acct q : acct s' o' q <-> acct s o q;
  ks_space d : d ∈ o_dirs o -> ~ T d -> d ∈ o_dirs o' /\ same_user_half d s s';
  ks_page p : p ∈ o_pages o -> ~ T p -> p ∈ o_pages o' /\ same_frame (mem s) (mem s') p;
  ks_alloc x : x ∈ o_allocs o -> ~ A x -> x ∈ o_allocs o' /\
    forall a, in_alloc x a -> load8 (mem s') a = load8 (mem s) a;
  ks_dir d : d ∈ o_dirs o -> ~ T d -> same_frame (mem s) (mem s') d;
}.

(** The frames of an address space: its directory and its tables. *)
Definition space_frame (s : mm) (d q : Z) : Prop := q = d \/ exists i, own_index s d i /\ table s d i q.

Lemma used_space s dirs q : used s dirs q <-> exists d, d ∈ dirs /\ space_frame s d q.
Proof.
  unfold used, space_frame. split.
  - intros [?|(d & i & ? & ? & ?)]; [exists q; auto|exists d; eauto].
  - intros (d & Hd & [->|(i & ? & ?)]); [by left|right; eauto].
Qed.

Lemma space_frame_same s s' d q :
  kernel_page_directory s' = kernel_page_directory s -> same_frame (mem s) (mem s') d ->
  space_frame s' d q <-> space_frame s d q.
Proof.
  intros Hk Hf. unfold space_frame, own_index, kernel_dir, table. rewrite Hk.
  split; (intros [?|(i & Hi & Ht)]; [by left|right; exists i; split; [done|]]).
  - by rewrite (entry_same (mem s)) in Ht by (done || apply Hi).
  - by rewrite (entry_same (mem s)) by (done || apply Hi).
Qed.

Lemma space_frame_inj s dirs d d' q :
  vm_inv s dirs -> d ∈ dirs -> d' ∈ dirs -> space_frame s d q -> space_frame s d' q -> d' = d.
Proof.
  intros Hv Hd Hd' [->|(i & Ho & Ht)] [?|(i' & Ho' & Ht')].
  - done.
  - by destruct (vm_table _ _ Hv d' i' d Hd' Ho' Ht').
  - subst q. by destruct (vm_table _ _ Hv d i d' Hd Ho Ht).
  - by destruct (vm_inj _ _ Hv d' i' d i q Hd' Hd Ho' Ho Ht' Ht).
Qed.

Definition none {X : Type} (_ : X) : Prop := False.

Lemma kstep_refl T A s o : kmem s o -> kstep T A s o s o.
Proof. intros. by split. Qed.

Lemma kstep_trans T A s o s1 o1 s2 o2 :
  kstep T A s o s1 o1 -> kstep T A s1 o1 s2 o2 -> kstep T A s o s2 o2.
Proof.
  intros [I1 C1 F1 D1 P1 A1 E1] [I2 C2 F2 D2 P2 A2 E2]. split; [done|congruence|intros q; by rewrite F2|..].
  - intros d Hd Ht. destruct (D1 d Hd Ht) as [Hd1 W1]. destruct (D2 d Hd1 Ht) as [Hd2 W2].
    split; [done|]. intros v Hv. by rewrite W2, W1.
  - intros p Hp Ht. destruct (P1 p Hp Ht) as [Hp1 W1]. destruct (P2 p Hp1 Ht) as [Hp2 W2].
    split; [done|]. intros a Ha. by rewrite W2, W1.
  - intros x Hx Ht. destruct (A1 x Hx Ht) as [Hx1 W1]. destruct (A2 x Hx1 Ht) as [Hx2 W2].
    split; [done|]. intros a Ha. by rewrite W2, W1.
  - intros d Hd Ht a Ha. destruct (D1 d Hd Ht) as [Hd1 _]. by rewrite (E2 d Hd1 Ht), (E1 d Hd Ht).
Qed.

Lemma kstep_mono (T T' : Z -> Prop) (A A' : Z * Z -> Prop) s o s' o' :
  kstep T A s o s' o' -> (forall q, T q -> T' q) -> (forall x, A x -> A' x) -> kstep T' A' s o s' o'.
Proof.
  intros [I C F D P L K] HT HA. split; [done..| | | |].
  - intros d Hd Ht. apply D; auto.
  - intros p Hp Ht. apply P; auto.
  - intros x Hx Ht. apply L; auto.
  - intros d Hd Ht. apply K; auto.
Qed.

(** Frames and allocations the caller does not own do not count. *)
Lemma kstep_narrow (T T' : Z -> Prop) (A A' : Z * Z -> Prop) s o s' o' :
  kstep T A s o s' o' ->
  (forall q, q ∈ o_dirs o \/ q ∈ o_pages o -> T q -> T' q) ->
  (forall x, x ∈ o_allocs o -> A x -> A' x) -> kstep T' A' s o s' o'.
Proof.
  intros [I C F D P L K] HT HA. split; [done..| | | |].
  - intros d Hd Ht. apply D; auto.
  - intros p Hp Ht. apply P; auto.
  - intros x Hx Ht. apply L; auto.
  - intros d Hd Ht. apply K; auto.
Qed.

(** ** Switching to the restricted allocator and back *)

Lemma vm_restrict X m0 s dirs :
  vm_inv s dirs -> kept X m0 s -> (forall p, used s dirs p -> ~ X p) ->
  vm_inv (FA := restricted X m0) s dirs.
Proof.
  intros Hinv Hk Hx. pose proof Hinv as [Hfa Hker Hdir Htab Hinj Hr Hsh]. split; try done.
  - intros d Hd. apply held_restricted. split; [auto|]. apply Hx. by left.
  - intros d i p Hd Ho Ht. destruct (Htab d i p Hd Ho Ht) as [? ?]. split; [|done].
    apply held_restricted. split; [done|]. apply Hx. right. eauto.
Qed.

Lemma vm_unrestrict X m0 s dirs :
  vm_inv (FA := restricted X m0) s dirs ->
  vm_inv s dirs /\ kept X m0 s /\ forall p, used s dirs p -> ~ X p.
Proof.
  intros Hinv. pose proof Hinv as [[Hfa Hk] Hker Hdir Htab Hinj Hr Hsh]. split; [split; try done|split; [done|]].
  - intros d Hd. by apply (held_restricted X m0), Hdir.
  - intros d i p Hd Ho Ht. destruct (Htab d i p Hd Ho Ht) as [Hh ?]. by apply held_restricted in Hh as [? _].
  - intros p Hp. by apply (used_held (FA := restricted X m0) s dirs p Hinv), held_restricted in Hp as [_ ?].
Qed.

Lemma heap_restrict X m0 s bs :
  heap_inv s bs -> kept X m0 s -> (forall p, heap_frame bs p -> ~ X p) ->
  heap_inv (FA := restricted X m0) s bs.
Proof.
  intros [Hfa Hc Hok Hap] Hk Hx. split; try done. intros b Hb. destruct (Hok b Hb) as [? ? ? Hh].
  split; try done. intros a Ha. apply held_restricted. split; [auto|]. apply Hx. by exists b, a.
Qed.

Lemma heap_unrestrict X m0 s bs :
  heap_inv (FA := restricted X m0) s bs ->
  heap_inv s bs /\ kept X m0 s /\ forall p, heap_frame bs p -> held s p /\ ~ X p.
Proof.
  intros [[Hfa Hk] Hc Hok Hap].
  assert (Hh : forall p, heap_frame bs p -> held s p /\ ~ X p).
  { intros p (b & a & Hb & Ha & <-). by apply (held_restricted X m0), (bk_held _ _ (Hok b Hb)). }
  split; [split; try done|done]. intros b Hb. destruct (Hok b Hb) as [? ? ? _]. split; try done.
  intros a Ha. apply Hh. by exists b, a.
Qed.

(** The heap does not notice steps that leave its frames alone. *)
Lemma heap_stable s s' bs :
  heap_inv s bs -> fa_inv s' -> heap_list s' = heap_list s ->
  (forall p, heap_frame bs p -> held s' p /\ same_frame (mem s) (mem s') p) -> heap_inv s' bs.
Proof.
  intros [Hfa Hc Hok Hap] Hfa' Hl Hs. split; [done| | |done].
  - rewrite Hl. apply (chain_ext (mem s)); [|done]. intros b a Hb Ha. apply (Hs (a / 4096)); [|done].
    exists b, a. split; [done|]. split; [|done]. apply in_header_blk; [|done]. pose proof (bk_size _ _ (Hok b Hb)). lia.
  - intros b Hb. destruct (Hok b Hb) as [? ? ? _]. split; try done. intros a Ha. apply Hs. by exists b, a.
Qed.

(** The bytes of an allocation lie in frames of the heap. *)
Lemma alloc_frame bs s o x a : kmem_at bs s o -> x ∈ o_allocs o -> in_alloc x a -> a / 4096 ∈ o_heap o.
Proof.
  intros Hk Hx Ha. rewrite <- (kb_live _ _ _ Hk) in Hx. apply live_block in Hx as (b & Hb & _ & ->).
  apply (kb_frames _ _ _ Hk). exists b, a. split; [done|]. split; [|done].
  unfold in_alloc, in_blk, phys in *. simpl in *. lia.
Qed.

(** ** Paging calls *)

Definition with_dirs (dirs : gset Z) (o : own) : own := mkOwn dirs (o_allocs o) (o_heap o) (o_pages o).
Definition with_allocs (L : list (Z * Z)) (o : own) : own := mkOwn (o_dirs o) L (o_heap o) (o_pages o).
Definition with_pages (P : gset Z) (o : own) : own := mkOwn (o_dirs o) (o_allocs o) (o_heap o) P.

(** The frames the paging code must not touch. *)
Definition foreign (o : own) (q : Z) : Prop := q ∈ o_heap o \/ q ∈ o_pages o.

Lemma kmem_foreign bs s o : kmem_at bs s o -> kept (foreign o) (mem s) s.
Proof. intros Hk q [Hq|Hq]; (split; [|done]); [by apply (kb_pool _ _ _ Hk)|by apply (kb_user _ _ _ Hk)]. Qed.

Lemma kmem_vm_op bs s o s' dirs' :
  kmem_at bs s o -> vm_inv (FA := restricted (foreign o) (mem s)) s' dirs' -> quiet s s' ->
  kmem_at bs s' (with_dirs dirs' o) /\
  (forall q, foreign o q -> held s' q /\ same_frame (mem s) (mem s') q).
Proof.
  intros Hk Hv [_ Hl]. apply vm_unrestrict in Hv as (Hv & Hkept & Hx).
  split; [|done]. pose proof Hk as [_ Hheap Hlive Hfr _ _ _ _ Hhu]. split; simpl; try done.
  - apply (heap_stable s); [done|apply Hv|done|]. intros p Hp. apply Hkept. left. auto.
  - intros p Hp. apply Hkept. by left.
  - intros p Hp. apply Hkept. by right.
  - intros p Hp Hh. apply (Hx p Hp). by left.
  - intros p Hp Hh. apply (Hx p Hp). by right.
Qed.

(** Every call of vmm.c leaves the heap and the user pages alone. *)
Lemma kmem_vm_call s o t s' dirs' :
  kmem s o -> vm_call t (s, o_dirs o) (s', dirs') -> quiet s s' ->
  kstep (fun q => t = Some q) none s o s' (with_dirs dirs' o).
Proof.
  intros [bs Hk] Hc Hq.
  assert (Hv : vm_inv (FA := restricted (foreign o) (mem s)) s (o_dirs o)).
  { apply vm_restrict; [apply Hk|by eapply kmem_foreign|].
    intros p Hp [Hh|Hh]; [by apply (kb_vh _ _ _ Hk p)|by apply (kb_vu _ _ _ Hk p)]. }
  destruct (vm_call_effect (FA := restricted (foreign o) (mem s)) t s (o_dirs o) s' dirs' Hc Hv) as [Hinv Hoth Hacc Hdir].
  destruct (kmem_vm_op bs s o s' dirs' Hk Hinv Hq) as [Hk' Hsame]. split.
  - by exists bs.
  - destruct Hq as [Hq _]. by injection Hq.
  - intros q. unfold acct. simpl. specialize (Hacc q). unfold accounted in Hacc. cbn [avail restricted] in Hacc. tauto.
  - intros d Hd Ht. by apply Hoth.
  - intros p Hp _. split; [done|]. apply Hsame. by right.
  - intros x Hx _. split; [done|]. intros a Ha. apply (Hsame (a / 4096)); [|done]. left. by eapply alloc_frame.
  - intros d Hd Ht. by apply Hdir.
Qed.

Lemma kmem_create s o :
  kmem s o ->
  match vmm_create_address_space s with
  | (r, s') => (r = 0 /\ kstep none none s o s' o) \/
    (exists d, r = d * 4096 /\ 0 < d < 4096 /\ (d ∉ o_dirs o) /\ avail s d = true /\
      kstep none none s o s' (with_dirs ({[d]} ∪ o_dirs o) o) /\
      forall v, 0 <= v < VMM_KERNEL_VIRTUAL_BASE -> walk (mem s') d v = None)
  end.
Proof.
  intros Hk. pose proof Hk as [bs Hb]. destruct (vm_kernel _ _ (kb_vm _ _ _ Hb)) as (k & Hkd & Hkin).
  pose proof (create_cases s (o_dirs o) k (kb_vm _ _ _ Hb) Hkd Hkin) as Hc.
  pose proof (quiet_create s) as Hq. destruct (vmm_create_address_space s) as [r s'] eqn:E. simpl in Hq.
  destruct Hc as [(-> & _)|(d & -> & Hnd & Hav & Hr & _ & _ & _ & _ & _ & Hw)]; [left|right].
  - split; [done|]. replace o with (with_dirs (o_dirs o) o) at 2 by (by destruct o).
    eapply kstep_mono; [eapply (kmem_vm_call s o None); [done| |done]|done|done]. by constructor.
  - exists d. do 4 (split; [done|]). split.
    + eapply kstep_mono; [eapply (kmem_vm_call s o None); [done| |done]|done|done]. constructor; [lia|done].
    + intros v Hv. rewrite Hw by (unfold vaddr_ok; lia). rewrite (proj2 (Z.ltb_lt _ _)) by lia. done.
Qed.

Lemma kmem_destroy s o d :
  kmem s o -> d ∈ o_dirs o -> ~ kernel_dir s d ->
  kstep (fun q => q = d) none s o (vmm_destroy_address_space (d * 4096) s) (with_dirs (o_dirs o ∖ {[d]}) o).
Proof.
  intros Hk Hd Hn. eapply kstep_mono; [eapply (kmem_vm_call s o (Some d)); [done|by constructor|apply quiet_destroy]| |done].
  intros q. by intros [= ->].
Qed.

Lemma kmem_map s o d v paddr flags :
  kmem s o -> d ∈ o_dirs o -> vaddr_ok v -> 0 <= paddr < 4294967296 ->
  kstep (fun q => q = d) none s o (vmm_map_page_in (d * 4096) v paddr flags s).2 o.
Proof.
  intros Hk Hd Hv Hp. replace o with (with_dirs (o_dirs o) o) at 2 by (by destruct o).
  eapply kstep_mono; [eapply (kmem_vm_call s o (Some d)); [done| |apply quiet_map]| |done].
  - apply (call_map s (o_dirs o) d v paddr flags (vmm_map_page_in (d * 4096) v paddr flags s).1); [done..|].
    apply surjective_pairing.
  - intros q. by intros [= ->].
Qed.

Lemma kmem_unmap s o d v :
  kmem s o -> d ∈ o_dirs o -> vaddr_ok v ->
  kstep (fun q => q = d) none s o (vmm_unmap_page_in (d * 4096) v s).2 o.
Proof.
  intros Hk Hd Hv. replace o with (with_dirs (o_dirs o) o) at 2 by (by destruct o).
  eapply kstep_mono; [eapply (kmem_vm_call s o (Some d)); [done| |apply quiet_unmap]| |done].
  - apply (call_unmap s (o_dirs o) d v (vmm_unmap_page_in (d * 4096) v s).1); [done..|]. apply surjective_pairing.
  - intros q. by intros [= ->].
Qed.

(** ** Heap calls *)

(** The frames the heap must not touch: all that are allocated and not its own. *)
Definition not_heap (s : mm) (o : own) (q : Z) : Prop := held s q /\ q ∉ o_heap o.

Lemma kmem_heap_restrict bs s o :
  kmem_at bs s o -> heap_inv (FA := restricted (not_heap s o) (mem s)) s bs.
Proof.
  intros Hk. apply heap_restrict; [apply Hk|by intros q [? _]|].
  intros p Hp [_ Hn]. by apply Hn, (kb_frames _ _ _ Hk).
Qed.

Lemma kmem_heap_op bs s o s' bs' L P :
  kmem_at bs s o -> heap_inv (FA := restricted (not_heap s o) (mem s)) s' bs' ->
  live bs' ≡ₚ L -> takes P s s' -> core s' = core s ->
  kmem_at bs' s' (mkOwn (o_dirs o) L (P ∪ o_heap o) (o_pages o)) /\
  same_walks (o_dirs o) s s' /\ (forall q, used s' (o_dirs o) q <-> used s (o_dirs o) q) /\
  (forall q, not_heap s o q -> same_frame (mem s) (mem s') q).
Proof.
  intros Hk Hh HL Ht Hc. apply heap_unrestrict in Hh as (Hh & Hkept & Hx).
  pose proof Hk as [Hvm _ _ _ Hpool Huser Hvh Hvu Hhu].
  assert (Hu : forall p, used s (o_dirs o) p -> not_heap s o p) by (intros p Hp; split; [by eapply used_held|auto]).
  destruct (vm_inv_stable s s' (o_dirs o)) as (Hvm' & Hw & Hused & _); [done|apply Hh|by injection Hc|auto|].
  assert (HP : forall p, p ∈ P -> avail s p = true) by (intros p Hp; by apply Ht).
  assert (HPh : forall p, p ∈ P -> ~ held s p).
  { intros p Hp Hhp. pose proof (held_taken _ _ Hhp). pose proof (HP p Hp). congruence. }
  split; [split|split; [done|split; [done|intros q Hq; by apply Hkept]]]; simpl; try done.
  - intros p Hp. destruct (Hx p Hp) as [Hhp Hnx]. apply (takes_held P s s') in Hhp as [Hhp|[? _]]; [|set_solver|done].
    apply elem_of_union. right. destruct (decide (p ∈ o_heap o)); [done|]. by destruct Hnx.
  - intros p [Hp|Hp]%elem_of_union; [|by apply (takes_held P s s'); auto].
    destruct Ht as (T & Ha & Hm & Hpr). destruct (T p Hp) as [Hav Hr].
    destruct (avail_managed s p (vm_fa _ _ Hvm) Hav) as [Hmp _].
    split; [done|by rewrite Hm|by rewrite Ha, bool_decide_eq_true_2, andb_false_r|].
    intros a Hap <-. apply Hpr in Hap. pose proof (priv_unavail s a (vm_fa _ _ Hvm) Hap). congruence.
  - intros p Hp. by apply (takes_held P s s'); auto.
  - intros p Hp%Hused [Hin|Hin]%elem_of_union; [|by apply (Hvh p)]. apply (HPh p Hin). by eapply used_held.
  - intros p Hp%Hused. by apply Hvu.
  - intros p [Hp|Hp]%elem_of_union Hin; [|by apply (Hhu p)]. apply (HPh p Hp). auto.
Qed.

Lemma takes_unrestrict X m0 P s s' :
  kept X m0 s -> kept X m0 s' -> takes (FA := restricted X m0) P s s' -> takes P s s'.
Proof.
  intros Hk Hk' (T & A & M & Pr). do 3 (split; [done|]). intros a. specialize (Pr a).
  cbn [priv restricted] in Pr. unfold restricted_priv in Pr. split; intros Ha.
  - destruct (proj1 Pr (or_introl Ha)) as [?|HX]; [done|]. by destruct (held_priv s' _ (proj1 (Hk' _ HX)) a).
  - destruct (proj2 Pr (or_introl Ha)) as [?|HX]; [done|]. by destruct (held_priv s _ (proj1 (Hk _ HX)) a).
Qed.

(** A heap operation that takes the frames [P] and keeps the allocations [K]. *)
Lemma kmem_heap_step (A : Z * Z -> Prop) bs s o s' bs' L P :
  kmem_at bs s o -> heap_inv (FA := restricted (not_heap s o) (mem s)) s' bs' ->
  live bs' ≡ₚ L -> takes (FA := restricted (not_heap s o) (mem s)) P s s' -> core s' = core s ->
  (forall x, x ∈ o_allocs o -> ~ A x -> x ∈ L /\ forall a, in_alloc x a -> load8 (mem s') a = load8 (mem s) a) ->
  kstep none A s o s' (mkOwn (o_dirs o) L (P ∪ o_heap o) (o_pages o)).
Proof.
  intros Hk Hh HL Ht Hc Hkeep.
  assert (Ht' : takes P s s').
  { eapply takes_unrestrict; [|by apply heap_unrestrict in Hh as (_ & ? & _)|done]. by intros q [? _]. }
  destruct (kmem_heap_op bs s o s' bs' L P) as (Hk' & Hw & Hu & Hf); [done..|]. split; simpl.
  - by exists bs'.
  - by injection Hc.
  - intros q. unfold acct. simpl. rewrite Hu. destruct Ht' as (T & Ha & _). rewrite Ha, andb_true_iff, negb_true_iff, bool_decide_eq_false.
    destruct (decide (q ∈ P)) as [Hq|Hq]; [|set_solver]. destruct (T q Hq) as [? _]. set_solver.
  - intros d Hd _. split; [done|]. by apply (same_walks_user (o_dirs o)).
  - intros p Hp _. split; [done|]. apply Hf. split; [by apply (kb_user _ _ _ Hk)|].
    intros Hh'. by apply (kb_hu _ _ _ Hk p).
  - done.
  - intros d Hd _. apply Hf. split; [by apply (vm_dir _ _ (kb_vm _ _ _ Hk))|]. apply (kb_vh _ _ _ Hk). by left.
Qed.

(** A block that starts with frame [p] reaches into it. *)
Lemma start_frame bs p :
  (forall b, b ∈ bs -> 0 < b_size b) -> b_addr (fresh_blk p) ∈ b_addr <$> bs -> heap_frame bs p.
Proof.
  intros Hok (b & Hb & Hin)%list_elem_of_fmap. exists b, (p * 4096). split; [done|].
  split; [|by apply Z.div_mul]. pose proof (Hok b Hin). unfold in_blk, phys. simpl in Hb. lia.
Qed.

Lemma kmem_kmalloc s o size :
  kmem s o -> 0 <= size < 4294967296 ->
  exists r s', kmalloc size s = Done (r, s') /\
    ((r = NULL /\ kstep none none s o s' o) \/
     (exists n P, r <> NULL /\ size <= n < size + 8 /\ n mod 8 = 0 /\
        kstep none none s o s' (mkOwn (o_dirs o) ((r, n) :: o_allocs o) (P ∪ o_heap o) (o_pages o)) /\
        (forall p, p ∈ P -> in_heap s' p))).
Proof.
  intros [bs Hk] Hs. pose proof (kmem_heap_restrict bs s o Hk) as Hh.
  destruct (kmalloc_cases (FA := restricted (not_heap s o) (mem s)) s bs size Hh Hs) as (r & s' & Hm & Hor).
  exists r, s'. split; [done|]. pose proof (core_kmalloc _ _ _ _ Hm) as Hc.
  pose proof (kb_live _ _ _ Hk) as HL.
  assert (Hkeep : keeps_data bs s s' -> forall x, x ∈ o_allocs o ->
    forall a, in_alloc x a -> load8 (mem s') a = load8 (mem s) a).
  { intros Hd x Hx a. rewrite <- HL in Hx. by apply (keeps_live bs s s' Hd x a). }
  destruct Hor as [(-> & Hh' & Hd & Hfs & _)|(n & Hr & _ & Hn & H8 & [Hd (bs' & P & Hh' & HL' & _ & HP & Hnew)])]; [left|right].
  - split; [done|]. pose proof (kmem_heap_step none bs s o s' bs (o_allocs o) ∅ Hk Hh' HL (fa_same_takes _ _ Hfs) Hc) as Hst.
    rewrite union_empty_l_L in Hst. destruct o; apply Hst. intros x Hx _. split; [done|]. by apply Hkeep.
  - exists n, P. do 3 (split; [done|]). split.
    + apply (kmem_heap_step none bs s o s' bs'); try done; [by rewrite HL', HL|].
      intros x Hx _. split; [set_solver|]. by apply Hkeep.
    + intros p Hp. apply (in_heap_iff s' bs'); [by apply heap_unrestrict in Hh' as [? _]|].
      apply start_frame; [|by apply Hnew]. intros b Hb. apply (hp_ok _ _ Hh' b Hb).
Qed.

Lemma kmem_kfree s o p n L :
  kmem s o -> o_allocs o ≡ₚ (p, n) :: L ->
  exists s', kfree p s = Done s' /\ kstep none (fun x => x = (p, n)) s o s' (with_allocs L o).
Proof.
  intros [bs Hk] HL. pose proof (kmem_heap_restrict bs s o Hk) as Hh.
  pose proof (kb_live _ _ _ Hk) as Hlive. rewrite HL in Hlive.
  assert (Hin : (p, n) ∈ live bs) by (rewrite Hlive; set_solver).
  apply live_in in Hin as (b & Hb & Hf & -> & ->). apply list_elem_of_split in Hb as (l1 & l2 & ->).
  destruct (kfree_cases (FA := restricted (not_heap s o) (mem s)) s l1 b l2 Hh Hf) as (s' & bs' & Hkf & Hh' & Hl' & Hd & Hfs).
  exists s'. split; [done|].
  assert (HL2 : live (l1 ++ l2) ≡ₚ L).
  { rewrite !live_app in Hlive. simpl in Hlive. rewrite Hf, <- Permutation_middle in Hlive.
    apply Permutation_cons_inv in Hlive. by rewrite live_app. }
  pose proof (kmem_heap_step (fun x => x = (b_addr b + 12, b_size b)) _ s o s' bs' L ∅ Hk Hh'
    ltac:(by rewrite Hl', HL2) (fa_same_takes _ _ Hfs) (proj1 (quiet_kfree _ _ _ Hkf))) as Hst.
  rewrite union_empty_l_L in Hst. apply Hst. intros x Hx Hne.
  assert (Hx' : x ∈ L) by (rewrite HL in Hx; apply elem_of_cons in Hx as [?|?]; [by subst|done]).
  split; [done|]. intros a Ha. apply (keeps_live (l1 ++ l2) s s' Hd x a); [|done]. by rewrite HL2.
Qed.

(** ** User pages *)

(** [s'] differs from [s] in what the memory layer does not look at. *)
Lemma kmem_same s s' o :
  kmem s o -> mem s' = mem s -> pm s' = pm s ->
  kernel_page_directory s' = kernel_page_directory s -> heap_list s' = heap_list s -> kmem s' o.
Proof.
  intros [bs Hk] Hm Hp Hkpd Hl. pose proof Hk as [Hv Hh HL Hfr Hpool Hus Hvh Hvu Hhu].
  destruct (fa_frame s s' (vm_fa _ _ Hv) Hp) as (Hfa & Ha & Hmg & Hpr); [intros; by rewrite Hm|].
  assert (Hheld : forall q, held s q -> held s' q) by (intros q; by apply held_fa_same).
  assert (Hsf : forall q, same_frame (mem s) (mem s') q) by (intros q a _; by rewrite Hm).
  destruct (vm_inv_stable s s' (o_dirs o)) as (Hv' & _ & Hu & _); [done..| |].
  { intros p Hp'. split; [by apply Hheld; eapply used_held|apply Hsf]. }
  exists bs. split; try done; [|auto|auto|intros p; rewrite Hu; auto..].
  apply (heap_stable s); [done..|]. intros p Hp'. split; [auto|apply Hsf].
Qed.

Lemma kstep_same s s' o :
  kmem s o -> mem s' = mem s -> pm s' = pm s ->
  kernel_page_directory s' = kernel_page_directory s -> heap_list s' = heap_list s ->
  kstep none none s o s' o.
Proof.
  intros Hk Hm Hp Hd Hl. pose proof (kmem_same s s' o Hk Hm Hp Hd Hl) as Hk'. split; try done.
  - intros q. unfold acct, used, table, own_index, kernel_dir. rewrite Hm, Hd.
    destruct Hk as [bs Hb]. destruct (fa_frame s s' (vm_fa _ _ (kb_vm _ _ _ Hb)) Hp) as (_ & Ha & _); [intros; by rewrite Hm|].
    by rewrite Ha.
  - intros d Hd' _. split; [done|]. intros v _. by rewrite Hm.
  - intros p Hp' _. split; [done|]. intros a _. by rewrite Hm.
  - intros x Hx _. split; [done|]. intros a _. by rewrite Hm.
  - intros d _ _ a _. by rewrite Hm.
Qed.

Lemma kprint_same f args s :
  mem (kprint f args s) = mem s /\ pm (kprint f args s) = pm s /\
  kernel_page_directory (kprint f args s) = kernel_page_directory s /\
  heap_list (kprint f args s) = heap_list s /\ cr3 (kprint f args s) = cr3 s.
Proof. by rewrite kprint_con. Qed.

Lemma kstep_kprint s o f args : kmem s o -> kstep none none s o (kprint f args s) o.
Proof. intros Hk. destruct (kprint_same f args s) as (? & ? & ? & ? & _). by apply kstep_same. Qed.

(** Writing into a user page. *)
Lemma kmem_write_page s o p m' :
  kmem s o -> p ∈ o_pages o -> only_changes (fun a => a / 4096 = p) (mem s) m' ->
  kstep (fun q => q = p) none s o (set_mem m' s) o.
Proof.
  intros [bs Hk] Hp Hm. pose proof Hk as [Hv Hh HL Hfr Hpool Hus Hvh Hvu Hhu].
  destruct (held_write s m' p) as (Hfa & Hfs & Hheld); [apply Hv|auto|done|].
  assert (Hsf : forall q, q <> p -> same_frame (mem s) m' q).
  { intros q Hq. apply (only_changes_frame _ _ _ _ Hm). by intros a ->. }
  assert (Hud : forall q, used s (o_dirs o) q -> q <> p) by (intros q Hq ->; by apply (Hvu p)).
  destruct (vm_inv_stable s (set_mem m' s) (o_dirs o)) as (Hv' & Hw & Hu & _); [done..| |].
  { intros q Hq. split; [by apply Hheld; eapply used_held|apply Hsf; auto]. }
  assert (Hhd : forall q, q ∈ o_heap o -> q <> p) by (intros q Hq ->; by apply (Hhu p)).
  split.
  - exists bs. split; try done; [|auto|auto|intros q; rewrite Hu; auto..].
    apply (heap_stable s); [done..|]. intros q Hq. split; [auto|apply Hsf; auto].
  - done.
  - intros q. unfold acct. rewrite Hu. by rewrite (proj1 Hfs).
  - intros d Hd _. split; [done|]. by apply (same_walks_user (o_dirs o)).
  - intros q Hq Hne. split; [done|]. by apply Hsf.
  - intros x Hx _. split; [done|]. intros a Ha. apply Hm. intros Hap.
    apply (Hhd (a / 4096)); [by eapply alloc_frame|done].
  - intros d Hd _. apply Hsf, Hud. by left.
Qed.

(** The steps that only move a frame between the allocator and the user pages,
    and write nothing but the allocator's own memory. *)
Lemma kmem_pages_step (T : Z -> Prop) s o s' pages' :
  kmem s o -> fa_inv s' -> touches_only (priv s) s s' ->
  (forall q, held s q -> ~ T q -> held s' q) ->
  (forall q, q ∈ o_pages o -> ~ T q -> q ∈ pages') ->
  (forall q, used s (o_dirs o) q \/ q ∈ o_heap o -> ~ T q /\ (q ∉ pages')) ->
  (forall q, q ∈ pages' -> held s' q) ->
  (forall q, avail s' q = true \/ q ∈ pages' <-> avail s q = true \/ q ∈ o_pages o) ->
  kstep T none s o s' (with_pages pages' o).
Proof.
  intros [bs Hk] Hfa [Hto Hoc] Hheld Hkeep Hdis Hpg Hacc. pose proof Hk as [Hv Hh HL Hfr Hpool Hus Hvh Hvu Hhu].
  assert (Hsf : forall q, held s q -> same_frame (mem s) (mem s') q).
  { intros q Hq. apply (only_changes_frame _ _ _ _ Hoc), Hq. }
  destruct (vm_inv_stable s s' (o_dirs o)) as (Hv' & Hw & Hu & _); [done|done|by rewrite Hto| |].
  { intros q Hq. pose proof (used_held _ _ _ Hv Hq). split; [|by apply Hsf]. apply Hheld; [done|]. by apply Hdis; left. }
  assert (Hp' : forall q, q ∈ o_heap o -> held s' q).
  { intros q Hq. apply Hheld; [auto|]. by apply Hdis; right. }
  split; simpl.
  - exists bs. split; simpl; try done.
    + apply (heap_stable s); [done|done|by rewrite Hto|]. intros q Hq%Hfr. split; [auto|apply Hsf; auto].
    + intros q. rewrite Hu. auto.
    + intros q Hq%Hu. by apply Hdis; left.
    + intros q Hq. by apply Hdis; right.
  - by rewrite Hto.
  - intros q. unfold acct. simpl. rewrite Hu. specialize (Hacc q). tauto.
  - intros d Hd _. split; [done|]. by apply (same_walks_user (o_dirs o)).
  - intros q Hq Hne. split; [auto|]. apply Hsf. auto.
  - intros x Hx _. split; [done|]. intros a Ha. apply (Hsf (a / 4096)); [|done]. apply Hpool. by eapply alloc_frame.
  - intros d Hd _. apply Hsf, (vm_dir _ _ Hv d Hd).
Qed.

Lemma kmem_held bs s o q :
  kmem_at bs s o -> used s (o_dirs o) q \/ q ∈ o_heap o \/ q ∈ o_pages o -> held s q.
Proof.
  intros Hk [Hq|[Hq|Hq]]; [eapply used_held; [apply Hk|done]|by apply (kb_pool _ _ _ Hk)|by apply (kb_user _ _ _ Hk)].
Qed.

Lemma kmem_page_alloc s o :
  kmem s o ->
  (pmm_alloc_page s = (0, s) /\ forall p, avail s p = false) \/
  exists p s', pmm_alloc_page s = (p * 4096, s') /\ 0 < p < 1048576 /\ avail s p = true /\
    (forall q, q < p -> avail s q = false) /\
    (p < 4096 -> (p ∉ o_pages o) /\ kstep none none s o s' (with_pages ({[p]} ∪ o_pages o) o)) /\
    (4096 <= p -> kstep none none s o (pmm_free_page (p * 4096) s') o).
Proof.
  intros Hkm. pose proof Hkm as [bs Hk]. pose proof (vm_fa _ _ (kb_vm _ _ _ Hk)) as Hfa.
  destruct (alloc_taken s Hfa) as [?|(p & s' & Ha & [Hav Hr Hlow Hrest Hmg Hpr Hfa' Hlowh Hheld Hother Htouch])];
    [by left|right].
  exists p, s'. do 4 (split; [done|]).
  assert (Hnp : forall q, held s q -> q <> p).
  { intros q Hq ->. pose proof (held_taken _ _ Hq). congruence. }
  split.
  - intros Hlt. assert (Hpn : p ∉ o_pages o) by (intros Hp; by apply (Hnp p); [apply (kmem_held bs s o); auto|]).
    split; [done|]. apply kmem_pages_step; try done.
    + auto.
    + set_solver.
    + intros q Hq. split; [auto|]. rewrite not_elem_of_union, not_elem_of_singleton. split; [apply Hnp, (kmem_held bs s o); tauto|].
      destruct Hq; [by apply (kb_vu _ _ _ Hk)|by apply (kb_hu _ _ _ Hk)].
    + intros q [->%elem_of_singleton|Hq]%elem_of_union; [auto|]. apply Hheld, (kmem_held bs s o); auto.
    + intros q. rewrite Hrest, andb_true_iff, negb_true_iff, Z.eqb_neq.
      destruct (decide (q = p)) as [->|]; set_solver.
  - intros Hge. destruct (alloc_free s p s' Hfa Ha ltac:(lia)) as (Hfa2 & Hfs & Ht).
    replace o with (with_pages (o_pages o) o) at 2 by (by destruct o).
    apply kmem_pages_step; try done.
    + intros q Hq _. by apply (held_fa_same s).
    + intros q Hq. split; [auto|]. destruct Hq; [by apply (kb_vu _ _ _ Hk)|by apply (kb_hu _ _ _ Hk)].
    + intros q Hq. apply (held_fa_same s); [done|]. by apply (kb_user _ _ _ Hk).
    + intros q. by rewrite (proj1 Hfs).
Qed.

Lemma kmem_page_free s o p :
  kmem s o -> p ∈ o_pages o ->
  kstep (fun q => q = p) none s o (pmm_free_page (p * 4096) s) (with_pages (o_pages o ∖ {[p]}) o).
Proof.
  intros Hkm Hp. pose proof Hkm as [bs Hk]. pose proof (kb_user _ _ _ Hk p Hp) as [Hr Hm Ht Hpv].
  destruct (free_spec s p (vm_fa _ _ (kb_vm _ _ _ Hk)) ltac:(lia) Hm Ht Hpv _ eq_refl) as (Hq & Hmq & Hpr & Hfa & Hto).
  assert (Hh : forall q, held s q -> q <> p -> held (pmm_free_page (p * 4096) s) q).
  { intros q [Hr' Hm' Ht' Hpv'] Hne. split; [done|by rewrite Hmq| |intros a; rewrite Hpr; apply Hpv'].
    rewrite Hq, Ht'. by apply Z.eqb_neq. }
  apply kmem_pages_step; try done.
  - set_solver.
  - intros q Hq'. assert (q ∉ o_pages o) by (destruct Hq'; [by apply (kb_vu _ _ _ Hk)|by apply (kb_hu _ _ _ Hk)]). set_solver.
  - intros q [Hqp Hne]%elem_of_difference. apply Hh; [|set_solver]. by apply (kb_user _ _ _ Hk).
  - intros q. rewrite Hq, orb_true_iff, Z.eqb_eq. destruct (decide (q = p)) as [->|]; set_solver.
Qed.

Lemma page_free_avail s o p q :
  kmem s o -> p ∈ o_pages o -> avail (pmm_free_page (p * 4096) s) q = avail s q || (q =? p).
Proof.
  intros [bs Hk] Hp. destruct (kb_user _ _ _ Hk p Hp) as [Hr Hm Ht Hpv].
  by destruct (free_spec s p (vm_fa _ _ (kb_vm _ _ _ Hk)) ltac:(lia) Hm Ht Hpv _ eq_refl) as (Hq & _).
Qed.

(** The frames that a call makes available: when it keeps the heap and the user
    pages, exactly those of the address spaces it removes. *)
Lemma kstep_avail T A s o s' o' q :
  kmem s o -> kstep T A s o s' o' -> o_heap o' = o_heap o -> o_pages o' = o_pages o ->
  o_dirs o' ⊆ o_dirs o -> (forall d, d ∈ o_dirs o' -> ~ T d) ->
  avail s' q = true <-> avail s q = true \/ exists d, d ∈ o_dirs o /\ (d ∉ o_dirs o') /\ space_frame s d q.
Proof.
  intros [bs Hk] Hst Hh Hp Hd HT. destruct (ks_inv _ _ _ _ _ _ Hst) as [bs' Hk'].
  assert (Hsp : forall d, d ∈ o_dirs o' -> space_frame s' d q <-> space_frame s d q).
  { intros d Hin. apply space_frame_same; [apply Hst|]. apply (ks_dir _ _ _ _ _ _ Hst); auto. }
  assert (Hno : forall m x b, kmem_at b m x -> used m (o_dirs x) q \/ q ∈ o_heap x \/ q ∈ o_pages x -> avail m q = true -> False).
  { intros m x b Hb Hq Ha. pose proof (held_taken _ _ (kmem_held b m x q Hb Hq)). congruence. }
  pose proof (ks_acct _ _ _ _ _ _ Hst q) as Hacc. unfold acct in Hacc. rewrite Hh, Hp in Hacc. split.
  - intros Ha. destruct (proj1 Hacc (or_introl Ha)) as [?|[Hu|Hq]]; [by left| |].
    + apply used_space in Hu as (d & Hin & Hf). right. exists d. split; [done|]. split; [|done]. intros Hin'.
      apply (Hno s' o' bs' Hk'); [left; apply used_space; exists d; by rewrite Hsp|done].
    + destruct (Hno s' o' bs' Hk'); [rewrite Hh, Hp; by right|done].
  - intros [Ha|(d & Hin & Hn & Hf)].
    + destruct (proj2 Hacc (or_introl Ha)) as [?|[Hu|Hq]]; [done| |].
      * apply used_space in Hu as (d & Hin & Hf). rewrite Hsp in Hf by done.
        destruct (Hno s o bs Hk); [left; apply used_space; exists d; split; [by apply Hd|done]|done].
      * destruct (Hno s o bs Hk); [by right|done].
    + assert (Hu : used s (o_dirs o) q) by (apply used_space; eauto).
      destruct (proj2 Hacc (or_intror (or_introl Hu))) as [?|[Hu'|[Hq|Hq]]]; [done|..].
      * apply used_space in Hu' as (d' & Hin' & Hf'). rewrite Hsp in Hf' by done.
        rewrite (space_frame_inj s (o_dirs o) d d' q (kb_vm _ _ _ Hk)) in Hin' by auto. done.
      * by destruct (kb_vh _ _ _ Hk q Hu).
      * by destruct (kb_vu _ _ _ Hk q Hu).
Qed.

(** Live allocations do not overlap. *)
Lemma kmem_separate s o x L : kmem s o -> o_allocs o ≡ₚ x :: L -> forall y, y ∈ L -> separate x y.
Proof.
  intros [bs Hk] HL. apply (heap_rep_separate s x L). exists bs. split; [apply Hk|].
  by rewrite (kb_live _ _ _ Hk).
Qed.

Lemma kmem_alloc_uniq s o x y a :
  kmem s o -> x ∈ o_allocs o -> y ∈ o_allocs o -> in_alloc x a -> in_alloc y a -> y = x.
Proof.
  intros Hk Hx Hy Hax Hay. apply list_elem_of_split in Hx as (l1 & l2 & E).
  destruct (decide (y = x)) as [|Hne]; [done|].
  destruct (kmem_separate s o x (l1 ++ l2) Hk) with (y := y) as [H|H];
    [by rewrite E, Permutation_middle|rewrite E in Hy; set_solver|unfold in_alloc, phys in *; lia..].
Qed.

(** Writing into a live allocation. *)
Lemma kmem_write_alloc s o x m' :
  kmem s o -> x ∈ o_allocs o -> only_changes (in_alloc x) (mem s) m' ->
  kstep none (fun y => y = x) s o (set_mem m' s) o /\ forall q, in_heap s q -> in_heap (set_mem m' s) q.
Proof.
  intros Hkm Hx Hm. pose proof (fun y a => kmem_alloc_uniq s o x y a Hkm Hx) as Huniq.
  destruct Hkm as [bs Hk]. pose proof Hk as [Hv Hh HL Hfr Hpool Hus Hvh Hvu Hhu].
  assert (Hfrm : forall a, in_alloc x a -> a / 4096 ∈ o_heap o) by (intros a Ha; by eapply alloc_frame).
  assert (Hsf : forall q, q ∉ o_heap o -> same_frame (mem s) m' q).
  { intros q Hq. apply (only_changes_frame _ _ _ _ Hm). intros a Ha <-. auto. }
  destruct (held_writes s m' (in_alloc x)) as [Hfa Hfs]; [apply Hv|auto|done|].
  assert (Hheld : forall q, held s q -> held (set_mem m' s) q) by (intros q; by apply held_fa_same).
  destruct (vm_inv_stable s (set_mem m' s) (o_dirs o)) as (Hv' & Hw & Hu & _); [done..| |].
  { intros q Hq. split; [by apply Hheld; eapply used_held|apply Hsf; auto]. }
  assert (Hh' : heap_inv (set_mem m' s) bs).
  { pose proof Hx as Hx'. rewrite <- HL in Hx'. apply live_block in Hx' as (b & Hb & _ & ->).
    apply list_elem_of_split in Hb as (l1 & l2 & ->). change (b :: l2) with ([b] ++ l2).
    pose proof (hp_ok _ _ Hh b ltac:(set_solver)) as Hok. pose proof (bk_size _ _ Hok).
    assert (Hoc : forall a, in_alloc (b_addr b + 12, b_size b) a -> in_data b a) by (unfold in_alloc, in_data, phys; simpl; lia).
    apply (heap_update s l1 b [b] l2); [done|..].
    - eapply only_changes_mono; [|done]. intros a Ha. by apply in_data_blk, Hoc.
    - pose proof (hp_chain _ _ Hh) as Hc. apply chain_app in Hc as (q & _ & (-> & Hs & Hfr' & _)).
      destruct (header_ext (mem s) m' b) as (E1 & E2 & E3).
      { intros a Ha. apply Hm. intros Ha'%Hoc. unfold in_header, in_data in *. lia. }
      simpl. by rewrite E1, E2, E3.
    - simpl. by rewrite Forall_nil.
    - intros c ->%list_elem_of_singleton. by destruct Hok. }
  split; [split|intros q; by rewrite (in_heap_iff _ _ _ Hh), (in_heap_iff _ _ _ Hh')].
  - exists bs. split; try done; [auto|auto|intros q; rewrite Hu; auto..].
  - done.
  - intros q. unfold acct. rewrite Hu. by rewrite (proj1 Hfs).
  - intros d Hd _. split; [done|]. by apply (same_walks_user (o_dirs o)).
  - intros q Hq _. split; [done|]. apply Hsf. intros Hqh. by apply (Hhu q).
  - intros y Hy Hne. split; [done|]. intros a Ha. apply Hm. intros Hax. by apply Hne, (Huniq y a).
  - intros d Hd _. apply Hsf, Hvh. by left.
Qed.
End kmem.
