(* ===== verification/Kernel.v ===== *)
(** * The state of the kernel above the memory layer

    The static variables of src/kernel/sched.c and src/kernel/user.c, the
    keyboard buffer, the boot module and the TSS field the scheduler writes,
    next to the machine state [mm] of Machine.v.  Pointers into the two static
    tables are indices. *)

From S2P Require Import Prelude Memory Tty Printk Keyboard Machine Initramfs.

(** ** Tasks (sched.c) *)

Inductive task_state := TASK_UNUSED | TASK_RUNNABLE | TASK_RUNNING | TASK_ZOMBIE.

#[export] Instance task_state_eq_dec : EqDecision task_state.
Proof. solve_decision. Defined.

(** The functions the kernel starts threads with. *)
Inductive kfun := user_exec_task_fn | sched_zero_address_space_test_fn.

#[export] Instance kfun_eq_dec : EqDecision kfun.
Proof. solve_decision. Defined.

Record task := mkTask {
  t_id : Z;
  t_state : task_state;
  t_address_space : Z;
  t_stack_pointer : Z;
  t_stack : Z;
  t_entry : option kfun;         (** [None] is NULL *)
}.

Definition zero_task : task := mkTask 0 TASK_UNUSED 0 0 NULL None.

Record sched_vars := mkSched {
  tasks : list task;
  current_task : Z;
  next_task_id : Z;
}.

(** ** Processes (user.c, user.h) *)

Inductive user_process_state :=
  | USER_PROCESS_FREE | USER_PROCESS_CREATED | USER_PROCESS_RUNNING | USER_PROCESS_EXITED.

#[export] Instance user_process_state_eq_dec : EqDecision user_process_state.
Proof. solve_decision. Defined.

Record user_page := mkPage { pg_vaddr : Z; pg_paddr : Z }.

Abbreviation USER_PROCESS_MAX_PAGES := 16.
Abbreviation USER_PROCESS_MAX := 16.
Abbreviation USER_PROCESS_NO_PARENT := 0.

Record user_process := mkProc {
  pid : Z;
  task_id : Z;
  parent_pid : Z;
  address_space : Z;
  entry : Z;
  stack : Z;
  stack_size : Z;
  exit_status : Z;
  state : user_process_state;
  path : list Z;                 (** [char path[32]] *)
  pages : list user_page;        (** [user_page pages[16]] *)
  page_count : Z;
}.

(** The record after [memset(process, 0, sizeof *process)]. *)
Definition zero_process : user_process :=
  mkProc 0 0 0 0 0 0 0 0 USER_PROCESS_FREE (replicate 32 0) (replicate 16 (mkPage 0 0)) 0.

Record user_vars := mkUser {
  processes : list user_process;
  next_pid : Z;
  userland_active : Z;
}.

(** ** The kernel *)

(** Addresses chosen by the linker. *)
Record symbols := mkSymbols { kthread_trampoline : Z }.

Record ks := mkKs {
  km : mm;
  sc : sched_vars;
  us : user_vars;
  kb : kbd;
  bv : boot_vars;
  tss_esp0 : Z;
  lk : symbols;
}.

Definition set_km (m : mm) (s : ks) : ks := mkKs m (sc s) (us s) (kb s) (bv s) (tss_esp0 s) (lk s).
Definition set_sc (v : sched_vars) (s : ks) : ks := mkKs (km s) v (us s) (kb s) (bv s) (tss_esp0 s) (lk s).
Definition set_us (v : user_vars) (s : ks) : ks := mkKs (km s) (sc s) v (kb s) (bv s) (tss_esp0 s) (lk s).
Definition set_kb (v : kbd) (s : ks) : ks := mkKs (km s) (sc s) (us s) v (bv s) (tss_esp0 s) (lk s).
Definition set_esp0 (v : Z) (s : ks) : ks := mkKs (km s) (sc s) (us s) (kb s) (bv s) v (lk s).

(** Running a function of the memory layer. *)
Definition on_km (f : mm -> mm) (s : ks) : ks := set_km (f (km s)) s.
Definition kprintk (format : string) (args : list varg) : ks -> ks := on_km (kprint format args).
Definition kpanic {A} (err : string) (s : ks) : outcome A := panic err (km s).

(** Calling a function of the memory layer that returns a value. *)
Definition call_km {A} (f : mm -> A * mm) (s : ks) : A * ks := let '(a, m) := f (km s) in (a, set_km m s).

(** ** Table access *)

Definition get_task (i : Z) (s : ks) : task := default zero_task (tasks (sc s) !! Z.to_nat i).
Definition put_task (i : Z) (t : task) (s : ks) : ks :=
  set_sc (mkSched (<[Z.to_nat i := t]> (tasks (sc s))) (current_task (sc s)) (next_task_id (sc s))) s.
Definition set_current_task (i : Z) (s : ks) : ks :=
  set_sc (mkSched (tasks (sc s)) i (next_task_id (sc s))) s.
Definition set_next_task_id (n : Z) (s : ks) : ks :=
  set_sc (mkSched (tasks (sc s)) (current_task (sc s)) n) s.

Definition with_id (v : Z) (t : task) : task :=
  mkTask v (t_state t) (t_address_space t) (t_stack_pointer t) (t_stack t) (t_entry t).
Definition with_state (v : task_state) (t : task) : task :=
  mkTask (t_id t) v (t_address_space t) (t_stack_pointer t) (t_stack t) (t_entry t).
Definition with_address_space (v : Z) (t : task) : task :=
  mkTask (t_id t) (t_state t) v (t_stack_pointer t) (t_stack t) (t_entry t).
Definition with_stack_pointer (v : Z) (t : task) : task :=
  mkTask (t_id t) (t_state t) (t_address_space t) v (t_stack t) (t_entry t).
Definition with_stack (v : Z) (t : task) : task :=
  mkTask (t_id t) (t_state t) (t_address_space t) (t_stack_pointer t) v (t_entry t).
Definition with_entry (v : option kfun) (t : task) : task :=
  mkTask (t_id t) (t_state t) (t_address_space t) (t_stack_pointer t) (t_stack t) v.

(** [tasks[i].field = ...] *)
Definition upd_task (i : Z) (f : task -> task) (s : ks) : ks := put_task i (f (get_task i s)) s.

Definition get_process (i : Z) (s : ks) : user_process := default zero_process (processes (us s) !! Z.to_nat i).
Definition put_process (i : Z) (p : user_process) (s : ks) : ks :=
  set_us (mkUser (<[Z.to_nat i := p]> (processes (us s))) (next_pid (us s)) (userland_active (us s))) s.
Definition upd_process (i : Z) (f : user_process -> user_process) (s : ks) : ks :=
  put_process i (f (get_process i s)) s.
Definition set_next_pid (n : Z) (s : ks) : ks :=
  set_us (mkUser (processes (us s)) n (userland_active (us s))) s.
Definition set_userland_active (n : Z) (s : ks) : ks :=
  set_us (mkUser (processes (us s)) (next_pid (us s)) n) s.
