(* ===== verification/Sched.v ===== *)
(** * The scheduler (src/kernel/sched.c, src/kernel/arch/i386/sched.c)

    A table of sixteen tasks, cooperative round robin, zombies reaped by the
    next task that enters the scheduler.  [sched_yield] answers [true] when it
    switched to another task, that is when the caller continues only when it is
    chosen again, and [false] when it returned at once.  The contents of the
    kernel stacks are not part of the model, except for the frame that a new
    thread starts with; [sp] is the stack pointer that context_switch.S saves
    for the task that is left (Entry.v models that code). *)

From S2P Require Import Prelude Memory Tty Printk Machine FrameAlloc Pmm Vmm Kmalloc Kernel.

Abbreviation MAX_TASKS := 16.
Abbreviation KTHREAD_STACK_SIZE := 2048.
Abbreviation KTHREAD_STACK_ALIGN := 16.

(** ** arch/i386/sched.c *)

(** The aligned high end of a stack. *)
Definition stack_end (stack stack_size : Z) : Z :=
  Z.land (stack +u stack_size) (u32 (Z.lnot (KTHREAD_STACK_ALIGN - 1))).

(** [tss_set_kernel_stack] (gdt.c) *)
Definition tss_set_kernel_stack (stack : Z) : ks -> ks := set_esp0 stack.

Definition sched_set_kernel_task (stack stack_size : Z) : ks -> ks :=
  tss_set_kernel_stack (stack_end stack stack_size).

(** [*--stack_pointer = v] *)
Definition push (v : Z) (st : Z * memory) : Z * memory :=
  let sp := st.1 -u 4 in (sp, wr32 st.2 sp v).

Definition sched_prepare_kthread_stack (stack stack_size trampoline : Z) (m : memory) : Z * memory :=
  push 0 (push 0 (push 0 (push 0 (push trampoline (push 0 (stack_end stack stack_size, m)))))).

(** ** sched.c *)

Definition sched_init (s : ks) : ks :=
  let s := for_range 0 MAX_TASKS (fun i => put_task i zero_task) s in
  let id := next_task_id (sc s) in
  let s := upd_task 0 (with_id id) (set_next_task_id (id +u 1) s) in
  let s := upd_task 0 (with_state TASK_RUNNING) s in
  let s := upd_task 0 (with_address_space (vmm_get_kernel_address_space (km s))) s in
  set_current_task 0 s.

Definition sched_current_task_id (s : ks) : Z := t_id (get_task (current_task (sc s)) s).

Definition sched_set_current_address_space (address_space : Z) (s : ks) : Z * ks :=
  let cur := current_task (sc s) in
  if (cur =? 0) || (address_space =? 0) then (-1, s)
  else
    let s := upd_task cur (with_address_space address_space) s in
    (0, on_km (paging_load_directory address_space) s).

Definition task_cleanup (idx : Z) (s : ks) : outcome ks :=
  let s := upd_task idx (with_id 0) s in
  let s := upd_task idx (with_state TASK_UNUSED) s in
  let s := upd_task idx (with_stack_pointer 0) s in
  let s := upd_task idx (with_entry None) s in
  let space := t_address_space (get_task idx s) in
  let s := if negb (space =? 0) && negb (space =? vmm_get_kernel_address_space (km s))
           then on_km (vmm_destroy_address_space space) s else s in
  let s := upd_task idx (with_address_space 0) s in
  let st := t_stack (get_task idx s) in
  if negb (st =? NULL) then
    let* m := kfree st (km s) in
    Done (upd_task idx (with_stack NULL) (set_km m s))
  else Done s.

Definition reap_zombies (s : ks) : outcome ks :=
  for_range 1 MAX_TASKS (fun i r =>
    let* s := r in
    if (i =? current_task (sc s)) || negb (bool_decide (t_state (get_task i s) = TASK_ZOMBIE))
    then Done s else task_cleanup i s) (Done s).

Definition kthread_create (entry : option kfun) (s : ks) : outcome (Z * ks) :=
  match entry with
  | None => Done (-1, s)
  | Some _ =>
    let* s := reap_zombies s in
    match find_range 1 MAX_TASKS (fun i => bool_decide (t_state (get_task i s) = TASK_UNUSED)) with
    | None => Done (-1, s)
    | Some i =>
      let* (stack, m) := kmalloc KTHREAD_STACK_SIZE (km s) in
      let s := set_km m s in
      if stack =? NULL then Done (-1, s)
      else
        let id := next_task_id (sc s) in
        let s := upd_task i (with_id id) (set_next_task_id (id +u 1) s) in
        let s := upd_task i (with_state TASK_RUNNABLE) s in
        let '(sp, m) := sched_prepare_kthread_stack stack KTHREAD_STACK_SIZE
          (kthread_trampoline (lk s)) (mem (km s)) in
        let s := upd_task i (with_stack_pointer sp) (on_km (set_mem m) s) in
        let s := upd_task i (with_address_space (vmm_get_kernel_address_space (km s))) s in
        let s := upd_task i (with_stack stack) s in
        let s := upd_task i (with_entry entry) s in
        Done (s32 (t_id (get_task i s)), s)
    end
  end.

(** The switch to task [idx]. *)
Definition switch_to (sp idx : Z) (s : ks) : ks :=
  let old_task := current_task (sc s) in
  let s := if bool_decide (t_state (get_task old_task s) = TASK_RUNNING)
           then upd_task old_task (with_state TASK_RUNNABLE) s else s in
  let s := upd_task idx (with_state TASK_RUNNING) s in
  let s := set_current_task idx s in
  let s := if negb (t_stack (get_task idx s) =? NULL)
           then sched_set_kernel_task (t_stack (get_task idx s)) KTHREAD_STACK_SIZE s else s in
  let s := on_km (paging_load_directory (t_address_space (get_task idx s))) s in
  upd_task old_task (with_stack_pointer sp) s.

Definition sched_yield (sp : Z) (s : ks) : outcome (bool * ks) :=
  let* s := reap_zombies s in
  let idx i := (current_task (sc s) +u i) mod MAX_TASKS in
  match find_range 1 (MAX_TASKS + 1)
    (fun i => bool_decide (t_state (get_task (idx i) s) = TASK_RUNNABLE)) with
  | Some i => Done (true, switch_to sp (idx i) s)
  | None => Done (false, kprintk (ln "sched: no runnable tasks") [] s)
  end.

Definition kthread_exit (sp : Z) (s : ks) : outcome ks :=
  let cur := current_task (sc s) in
  if cur =? 0 then kpanic "sched: task 0 exited" s
  else
    let s := upd_task cur (with_state TASK_ZOMBIE) s in
    let* (switched, s) := sched_yield sp s in
    if switched : bool then Done s else kpanic "sched: zombie task resumed" s.
