(* ===== verification/SchedProof.v ===== *)
(** * Correctness of the scheduler

    [sched_wf] is the invariant of the task table together with the memory it
    owns: every stack is a heap allocation of its own, every directory other
    than the kernel's belongs to one task or to a process that has not started
    yet ([E]).  The contracts of the functions of sched.c follow. *)

From S2P Require Import Prelude Memory Tty Printk Machine FrameAlloc Pmm Vmm VmmSpec VmmTheorems Kmalloc KmallocProof Kmem Kernel Sched.

(** ** Table access *)

Lemma get_put_task i j t s :
  0 <= i -> 0 <= j -> (Z.to_nat i < length (tasks (sc s)))%nat ->
  get_task j (put_task i t s) = if decide (i = j) then t else get_task j s.
Proof.
  intros Hi Hj Hl. unfold get_task, put_task. simpl. case_decide as Hd.
  - subst j. by rewrite list_lookup_insert_eq.
  - by rewrite list_lookup_insert_ne by lia.
Qed.

Lemma tasks_put i t s : tasks (sc (put_task i t s)) = <[Z.to_nat i := t]> (tasks (sc s)).
Proof. done. Qed.

Lemma get_task_lookup i s : (Z.to_nat i < length (tasks (sc s)))%nat ->
  tasks (sc s) !! Z.to_nat i = Some (get_task i s).
Proof. intros Hl. unfold get_task. by destruct (lookup_lt_is_Some_2 _ _ Hl) as [t ->]. Qed.

Lemma length_upd i f s : length (tasks (sc (upd_task i f s))) = length (tasks (sc s)).
Proof. unfold upd_task, put_task. simpl. apply length_insert. Qed.

(** Consecutive updates of one entry. *)
Lemma upd_upd i f g s :
  0 <= i -> (Z.to_nat i < length (tasks (sc s)))%nat ->
  upd_task i g (upd_task i f s) = upd_task i (fun t => g (f t)) s.
Proof.
  intros Hi Hl. unfold upd_task. rewrite (get_put_task i i), decide_True by done.
  unfold put_task, set_sc. simpl. by rewrite list_insert_insert_eq.
Qed.

(** ** What the tasks own *)

(** The heap allocation and the directory of a task. *)
Definition task_stack (t : task) : option (Z * Z) :=
  if t_stack t =? NULL then None else Some (t_stack t, KTHREAD_STACK_SIZE).
Definition task_dir (kpd : Z) (t : task) : option Z :=
  if (t_address_space t =? 0) || (t_address_space t =? kpd) then None else Some (t_address_space t / 4096).

(** Collecting what a table owns; replacing an entry replaces its part. *)
Lemma omap_insert {A B} (f : A -> option B) (l : list A) i x y :
  l !! i = Some x ->
  exists R, omap f l ≡ₚ option_list (f x) ++ R /\ omap f (<[i := y]> l) ≡ₚ option_list (f y) ++ R.
Proof.
  intros Hi. pose proof (lookup_lt_Some _ _ _ Hi) as Hlt. exists (omap f (take i l) ++ omap f (drop (S i) l)).
  assert (Hc : forall z, omap f (z :: drop (S i) l) = option_list (f z) ++ omap f (drop (S i) l))
    by (intros z; simpl; by destruct (f z)).
  split.
  - rewrite <- (take_drop_middle l i x Hi) at 1. rewrite omap_app, Hc.
    by rewrite !(assoc_L (++)), (comm (++) (omap f (take i l))).
  - rewrite insert_take_drop by done. rewrite omap_app, Hc.
    by rewrite !(assoc_L (++)), (comm (++) (omap f (take i l))).
Qed.

Lemma omap_insert_same {A B} (f : A -> option B) (l : list A) i x y :
  l !! i = Some x -> f y = f x -> omap f (<[i := y]> l) = omap f l.
Proof.
  intros Hi Hf. pose proof (lookup_lt_Some _ _ _ Hi). rewrite insert_take_drop by done.
  rewrite <- (take_drop_middle l i x Hi) at 3. rewrite !omap_app. simpl. by rewrite Hf.
Qed.

(** ** Cleaning up *)

(** The memory part of [task_cleanup]. *)
Definition release_space (t : task) (m : mm) : mm :=
  if negb (t_address_space t =? 0) && negb (t_address_space t =? kernel_page_directory m)
  then vmm_destroy_address_space (t_address_space t) m else m.

Lemma task_cleanup_eq i s :
  0 <= i -> (Z.to_nat i < length (tasks (sc s)))%nat -> t_stack (get_task i s) <> NULL ->
  task_cleanup i s =
    let* m := kfree (t_stack (get_task i s)) (release_space (get_task i s) (km s)) in
    Done (put_task i zero_task (set_km m s)).
Proof.
  intros Hi Hl Hst. unfold task_cleanup. rewrite !upd_upd by (rewrite ?length_upd; done). cbv zeta.
  set (t := get_task i s) in *. set (s0 := upd_task i _ s).
  assert (Hget : forall x m, get_task i (put_task i x (set_km m s)) = x)
    by (intros x m; rewrite (get_put_task i i), decide_True by done; done).
  assert (Hs0 : s0 = put_task i (mkTask 0 TASK_UNUSED (t_address_space t) 0 (t_stack t) None) (set_km (km s) s))
    by (by destruct s).
  rewrite Hs0, Hget. clear s0 Hs0. set (s1 := if (_ : bool) then on_km _ _ else _).
  assert (Hs1 : s1 = put_task i (mkTask 0 TASK_UNUSED (t_address_space t) 0 (t_stack t) None)
    (set_km (release_space t (km s)) s)).
  { unfold s1, release_space, vmm_get_kernel_address_space. simpl. by destruct (_ && _). }
  rewrite Hs1. clear s1 Hs1. generalize (release_space t (km s)). intros m1.
  assert (Hput : forall x y m, put_task i y (put_task i x (set_km m s)) = put_task i y (set_km m s)).
  { intros x y m. unfold put_task, set_sc. simpl. by rewrite list_insert_insert_eq. }
  unfold upd_task. rewrite !Hget, Hput, !Hget.
  change (t_stack (with_address_space 0 _)) with (t_stack t).
  rewrite (proj2 (Z.eqb_neq (t_stack t) NULL)) by done. cbn [negb].
  change (km (put_task i _ (set_km m1 s))) with m1. destruct (kfree (t_stack t) m1) as [m2|? ?|]; [|done..].
  cbn [obind]. f_equal. change (set_km m2 (put_task i ?x (set_km m1 s))) with (put_task i x (set_km m2 s)).
  by rewrite Hget, Hput.
Qed.

(** ** The invariant *)

Section sched.
Context {FA : FrameAllocator pmm_alloc_page pmm_free_page}.

Abbreviation kpd s := (kernel_page_directory (km s)).

(** The directories of the tasks. *)
Definition task_dirs (s : ks) : list Z := omap (task_dir (kpd s)) (tasks (sc s)).

(** Entry [t] of a slot other than 0. *)
Record slot_ok (t : task) : Prop := {
  sl_unused : t_state t = TASK_UNUSED -> t = zero_task;
  sl_used : t_state t <> TASK_UNUSED ->
    t_stack t <> NULL /\ t_address_space t <> 0 /\ t_address_space t mod 4096 = 0;
}.

Record sched_wf (E : list Z) (s : ks) (o : own) : Prop := {
  sw_mem : kmem (km s) o;
  sw_len : length (tasks (sc s)) = 16%nat;
  sw_cur : 0 <= current_task (sc s) < 16;
  sw_allocs : o_allocs o ≡ₚ omap task_stack (tasks (sc s));
  sw_dirs : exists k, kernel_dir (km s) k /\ NoDup (k :: task_dirs s ++ E) /\
    o_dirs o = {[k]} ∪ list_to_set (task_dirs s ++ E);
  sw_zero : t_state (get_task 0 s) = TASK_RUNNABLE \/ t_state (get_task 0 s) = TASK_RUNNING;
  sw_zero_own : t_stack (get_task 0 s) = NULL /\ t_address_space (get_task 0 s) = kpd s;
  sw_slot i : 0 < i < 16 -> slot_ok (get_task i s);
  sw_running i : 0 <= i < 16 -> t_state (get_task i s) = TASK_RUNNING -> i = current_task (sc s);
}.

(** Between two calls of the scheduler the current task is the running one. *)
Definition sched_inv (E : list Z) (s : ks) (o : own) : Prop :=
  sched_wf E s o /\ t_state (get_task (current_task (sc s)) s) = TASK_RUNNING.

Lemma sw_bound E s o i : sched_wf E s o -> 0 <= i < 16 -> (Z.to_nat i < length (tasks (sc s)))%nat.
Proof. intros Hw Hi. rewrite (sw_len _ _ _ Hw). lia. Qed.

(** Replacing the task of slot [i], where the memory may change as well. *)
Lemma put_task_dirs s m i t :
  (Z.to_nat i < length (tasks (sc s)))%nat -> kernel_page_directory m = kpd s ->
  exists R, task_dirs s ≡ₚ option_list (task_dir (kpd s) (get_task i s)) ++ R /\
    task_dirs (put_task i t (set_km m s)) ≡ₚ option_list (task_dir (kpd s) t) ++ R.
Proof.
  intros Hl Hc. unfold task_dirs. simpl. rewrite Hc.
  apply omap_insert. by apply get_task_lookup.
Qed.

Lemma task_dir_Some k t d : task_dir k t = Some d ->
  t_address_space t <> 0 /\ t_address_space t <> k /\ d = t_address_space t / 4096.
Proof. unfold task_dir. case_if; [done..|]. by intros [= <-]. Qed.

(** The directory of a task is a live one, and not the kernel's. *)
Lemma task_dir_in E s o i d :
  sched_wf E s o -> 0 < i < 16 -> task_dir (kpd s) (get_task i s) = Some d ->
  d ∈ o_dirs o /\ ~ kernel_dir (km s) d /\ t_address_space (get_task i s) = d * 4096.
Proof.
  intros Hw Hi Ht. destruct (sw_dirs _ _ _ Hw) as (k & Hk & Hnd & ->).
  destruct (task_dir_Some _ _ _ Ht) as (H0 & Hne & Hd).
  assert (Hin : d ∈ task_dirs s).
  { apply list_elem_of_omap. exists (get_task i s). split; [|done].
    eapply list_elem_of_lookup_2, get_task_lookup. eapply sw_bound; [done|lia]. }
  assert (Hsp : t_address_space (get_task i s) = d * 4096).
  { pose proof (sw_slot _ _ _ Hw i Hi) as [Hu Hused].
    destruct (decide (t_state (get_task i s) = TASK_UNUSED)) as [E0|E0]; [by rewrite (Hu E0) in H0|].
    destruct (Hused E0) as (_ & _ & Hm). subst d. by apply page_multiple. }
  split; [set_solver|]. split; [|done]. unfold kernel_dir. by rewrite <- Hsp.
Qed.

(** [release_space] destroys the directory of the task, if it has one. *)
Lemma release_space_spec E s o i :
  sched_wf E s o -> 0 < i < 16 ->
  let t := get_task i s in
  kstep (fun q => task_dir (kpd s) t = Some q) none (km s) o (release_space t (km s))
    (with_dirs (o_dirs o ∖ list_to_set (option_list (task_dir (kpd s) t))) o).
Proof.
  intros Hw Hi t. unfold release_space. destruct (task_dir (kpd s) t) as [d|] eqn:Ed; cycle 1.
  - unfold task_dir in Ed. simpl.
    replace (with_dirs (o_dirs o ∖ ∅) o) with o by (destruct o; unfold with_dirs; simpl; f_equal; set_solver).
    destruct (t_address_space t =? 0), (t_address_space t =? kpd s); simpl in *; try done; by apply kstep_refl, Hw.
  - destruct (task_dir_in E s o i d Hw Hi Ed) as (Hd & Hnk & Hsp). fold t in Hsp.
    destruct (task_dir_Some _ _ _ Ed) as (H0 & Hne & _).
    rewrite (proj2 (Z.eqb_neq _ _)), (proj2 (Z.eqb_neq (t_address_space t) _)) by done. simpl.
    rewrite union_empty_r_L, Hsp. eapply kstep_mono; [apply kmem_destroy; [apply Hw|done..]| |done].
    intros q. congruence.
Qed.

(** [task_cleanup] frees everything a task owns and empties its slot. *)
Lemma task_cleanup_spec E s o i :
  sched_wf E s o -> 0 < i < 16 -> i <> current_task (sc s) ->
  t_state (get_task i s) <> TASK_UNUSED ->
  let t := get_task i s in
  exists m o', task_cleanup i s = Done (put_task i zero_task (set_km m s)) /\
    sched_wf E (put_task i zero_task (set_km m s)) o' /\ (o_pages o' = o_pages o /\ o_heap o' = o_heap o) /\
    kstep (fun q => task_dir (kpd s) t = Some q) (fun x => task_stack t = Some x) (km s) o m o'.
Proof.
  intros Hw Hi Hcur Hst t. pose proof (sw_bound _ _ _ i Hw ltac:(lia)) as Hl.
  pose proof (sw_slot _ _ _ Hw i Hi) as [_ Hused]. destruct (Hused Hst) as (Hstk & Hsp0 & Hsp).
  rewrite task_cleanup_eq by (done || lia). fold t in Hstk |- *.
  pose proof (release_space_spec E s o i Hw Hi) as Hrel. fold t in Hrel. cbv zeta in Hrel.
  set (o1 := with_dirs _ o) in Hrel.
  destruct (omap_insert task_stack (tasks (sc s)) (Z.to_nat i) t zero_task) as (L & HL & HL'); [by apply get_task_lookup|].
  assert (Hts : task_stack t = Some (t_stack t, 2048)).
  { unfold task_stack. by rewrite (proj2 (Z.eqb_neq _ _)). }
  destruct (kmem_kfree (release_space t (km s)) o1 (t_stack t) 2048 L) as (m & -> & Hkf); [apply Hrel| |].
  { simpl. by rewrite (sw_allocs _ _ _ Hw), HL, Hts. }
  cbn [obind]. exists m, (with_allocs L o1). split; [done|]. split; [|split; [done|]].
  2: { eapply kstep_trans; [eapply kstep_mono; [exact Hrel|done|done]|].
       eapply kstep_mono; [exact Hkf|done|]. by intros x ->. }
  assert (Hcore : kernel_page_directory m = kpd s) by (by rewrite (ks_kpd _ _ _ _ _ _ Hkf), (ks_kpd _ _ _ _ _ _ Hrel)).
  destruct (put_task_dirs s m i zero_task Hl Hcore) as (R & HR & HR'). fold t in HR.
  change (option_list (task_dir (kpd s) zero_task)) with (@nil Z) in HR'. simpl in HR'.
  assert (Hget : forall j, 0 <= j -> get_task j (put_task i zero_task (set_km m s)) =
    if decide (i = j) then zero_task else get_task j s) by (intros j Hj; by rewrite get_put_task by (done || lia)).
  assert (Hk' : kpd (put_task i zero_task (set_km m s)) = kpd s) by done.
  split; try done.
  - apply Hkf.
  - simpl. rewrite length_insert. apply Hw.
  - apply Hw.
  - destruct (sw_dirs _ _ _ Hw) as (k & Hkd & Hnd & Ho). exists k. rewrite HR in Hnd.
    split; [unfold kernel_dir; by rewrite Hk'|]. split.
    + rewrite HR'. destruct (task_dir (kpd s) t); simpl in Hnd; [|done].
      rewrite !NoDup_cons in Hnd. apply NoDup_cons. set_solver.
    + simpl. rewrite Ho. assert (Hset : list_to_set (task_dirs (put_task i zero_task (set_km m s)) ++ E) =@{gset Z} list_to_set (R ++ E))
        by (by rewrite HR').
      assert (Hset' : list_to_set (task_dirs s ++ E) =@{gset Z} list_to_set ((option_list (task_dir (kpd s) t) ++ R) ++ E))
        by (by rewrite HR).
      rewrite Hset, Hset'. destruct (task_dir (kpd s) t) as [d|]; simpl in Hnd |- *; [|set_solver].
      rewrite !NoDup_cons in Hnd. destruct Hnd as (Hkn & Hdn & _). rewrite union_empty_r_L.
      assert (k <> d) by set_solver. assert (d ∉ R ++ E) by done.
      apply set_eq. intros x. destruct (decide (x = d)) as [->|]; set_solver.
  - rewrite Hget, decide_False by lia. apply Hw.
  - rewrite Hget, decide_False, Hk' by lia. apply Hw.
  - intros j Hj. rewrite Hget by lia. case_decide; [by split|by apply Hw].
  - intros j Hj. rewrite Hget by lia. case_decide; [done|]. by apply (sw_running _ _ _ Hw).
Qed.

(** ** Reaping *)

(** Slot [j] holds a task that the next reaping removes. *)
Definition doomed (s : ks) (j : Z) : bool :=
  (0 <? j) && (j <? 16) && negb (j =? current_task (sc s)) && bool_decide (t_state (get_task j s) = TASK_ZOMBIE).

Definition doomed_dir (s : ks) (q : Z) : Prop :=
  exists j, doomed s j = true /\ task_dir (kpd s) (get_task j s) = Some q.
Definition doomed_stack (s : ks) (x : Z * Z) : Prop :=
  exists j, doomed s j = true /\ task_stack (get_task j s) = Some x.

(** The zombies of the slots below [n] are gone, and everything they owned is
    free again. *)
Record reaped (E : list Z) (n : Z) (s : ks) (o : own) (s' : ks) (o' : own) : Prop := {
  re_wf : sched_wf E s' o';
  re_task j : 0 <= j < 16 ->
    get_task j s' = if doomed s j && (j <? n) then zero_task else get_task j s;
  re_rest : s' = set_sc (mkSched (tasks (sc s')) (current_task (sc s)) (next_task_id (sc s))) (set_km (km s') s);
  re_pages : o_pages o' = o_pages o;
  re_heap : o_heap o' = o_heap o;
  re_step : kstep (doomed_dir s) (doomed_stack s) (km s) o (km s') o';
}.

Lemma reap_step E n s o s' o' :
  reaped E n s o s' o' -> 1 <= n < 16 ->
  exists s2 o2, (if (n =? current_task (sc s')) || negb (bool_decide (t_state (get_task n s') = TASK_ZOMBIE))
    then Done s' else task_cleanup n s') = Done s2 /\ reaped E (n + 1) s o s2 o2.
Proof.
  intros [Hw Ht Hr Hp Hh Hst] Hn. assert (Hc : current_task (sc s') = current_task (sc s)) by (by rewrite Hr).
  pose proof (Ht n ltac:(lia)) as Htn. rewrite Z.ltb_irrefl, andb_false_r in Htn. rewrite Hc, Htn.
  destruct (doomed s n) eqn:Hd; cycle 1.
  { exists s', o'. split.
    - unfold doomed in Hd. rewrite (proj2 (Z.ltb_lt 0 n)), (proj2 (Z.ltb_lt n 16)) in Hd by lia. simpl in Hd.
      by destruct (n =? current_task (sc s)), (bool_decide (t_state (get_task n s) = TASK_ZOMBIE)).
    - split; try done. intros j Hj. rewrite Ht by done.
      destruct (decide (j = n)) as [->|]; [by rewrite Hd|]. by replace (j <? n + 1) with (j <? n) by lia. }
  pose proof Hd as Hd'. unfold doomed in Hd'. bool_simpl. rewrite (proj2 (Z.eqb_neq _ _)) by done. cbn [orb].
  rewrite bool_decide_eq_true_2 by done. cbn [negb].
  destruct (task_cleanup_spec E s' o' n Hw) as (m & o2 & Hcl & Hw2 & [Hp2 Hh2] & Hst2); [lia|congruence|rewrite Htn; congruence|].
  rewrite Htn in Hst2. assert (Hk : kpd s' = kpd s) by (by apply Hst). rewrite Hk in Hst2.
  exists (put_task n zero_task (set_km m s')), o2. split; [done|]. split; [done| | |congruence|congruence|].
  - intros j Hj. rewrite get_put_task by (try lia; simpl; rewrite (sw_len _ _ _ Hw); lia).
    case_decide as Hjn; [subst j; rewrite Hd, (proj2 (Z.ltb_lt n (n + 1))) by lia; done|].
    change (get_task j (set_km m s')) with (get_task j s'). rewrite Ht by done.
    by replace (j <? n + 1) with (j <? n) by lia.
  - rewrite Hr. reflexivity.
  - eapply kstep_trans; [exact Hst|]. eapply kstep_mono; [exact Hst2| |]; intros x Hx; exists n; done.
Qed.

Lemma reap_spec E s o :
  sched_wf E s o -> exists s' o', reap_zombies s = Done s' /\ reaped E 16 s o s' o'.
Proof.
  intros Hw. unfold reap_zombies.
  for_inv (fun n r => exists s' o', r = Done s' /\ reaped E n s o s' o'); [lia|..].
  - exists s, o. split; [done|]. split; try done.
    + intros j Hj. destruct (doomed s j) eqn:Hd; [|done]. unfold doomed in Hd. bool_simpl.
      rewrite (proj2 (Z.ltb_ge _ _)) by lia. done.
    + by destruct s as [? [] ? ? ? ? ?].
    + apply kstep_refl, Hw.
  - intros n r Hn (s' & o' & -> & Hre). cbn [obind]. by apply (reap_step E n s o s' o').
Qed.

(** ** Switching *)

Lemma get_task_km j m s : get_task j (set_km m s) = get_task j s.
Proof. done. Qed.
Lemma get_task_on_km j f s : get_task j (on_km f s) = get_task j s.
Proof. done. Qed.
Lemma get_task_esp0 j v s : get_task j (set_esp0 v s) = get_task j s.
Proof. done. Qed.
Lemma get_task_current j i s : get_task j (set_current_task i s) = get_task j s.
Proof. done. Qed.

Lemma get_upd_task i j f s :
  0 <= i < 16 -> 0 <= j -> length (tasks (sc s)) = 16%nat ->
  get_task j (upd_task i f s) = if decide (i = j) then f (get_task j s) else get_task j s.
Proof.
  intros Hi Hj Hl. unfold upd_task. rewrite get_put_task by (rewrite ?Hl; lia).
  by case_decide; [subst j|].
Qed.

Lemma omap_after_fmap {A B C} (h : A -> B) (g : B -> option C) (l : list A) :
  omap (fun x => g (h x)) l = omap g (h <$> l).
Proof. induction l as [|x l IH]; simpl; [done|]. destruct (g (h x)); [f_equal|]; exact IH. Qed.

(** A change of the table that leaves the stacks and address spaces where they
    are. *)
Lemma wf_change E s s' o :
  sched_wf E s o -> kmem (km s') o -> kpd s' = kpd s -> length (tasks (sc s')) = 16%nat ->
  0 <= current_task (sc s') < 16 ->
  (forall j, 0 <= j < 16 ->
    t_stack (get_task j s') = t_stack (get_task j s) /\
    t_address_space (get_task j s') = t_address_space (get_task j s) /\
    (t_state (get_task j s) = TASK_UNUSED -> get_task j s' = zero_task) /\
    (t_state (get_task j s') = TASK_UNUSED -> t_state (get_task j s) = TASK_UNUSED) /\
    (t_state (get_task j s') = TASK_RUNNING -> j = current_task (sc s'))) ->
  (t_state (get_task 0 s') <> TASK_ZOMBIE) ->
  sched_wf E s' o.
Proof.
  intros Hw Hm Hk Hl Hc Hj Hz. pose proof (sw_len _ _ _ Hw) as Hl0.
  assert (Hown : (fun t => (t_stack t, t_address_space t)) <$> tasks (sc s') =
    (fun t => (t_stack t, t_address_space t)) <$> tasks (sc s)).
  { apply list_eq. intros i. rewrite !list_lookup_fmap. destruct (decide (i < 16)%nat).
    - destruct (Hj (Z.of_nat i)) as (E1 & E2 & _); [lia|].
      rewrite <- (Nat2Z.id i), !get_task_lookup by lia. simpl. by rewrite E1, E2.
    - by rewrite !lookup_ge_None_2 by lia. }
  split; try done.
  - rewrite (sw_allocs _ _ _ Hw).
    pose proof (omap_after_fmap (fun t => (t_stack t, t_address_space t))
      (fun y : Z * Z => if y.1 =? NULL then None else Some (y.1, KTHREAD_STACK_SIZE))) as Hom.
    change task_stack with (fun t => (fun y : Z * Z => if y.1 =? NULL then None
      else Some (y.1, KTHREAD_STACK_SIZE)) (t_stack t, t_address_space t)).
    by rewrite !Hom, Hown.
  - assert (Hd : task_dirs s' = task_dirs s).
    { unfold task_dirs. rewrite Hk. pose proof (omap_after_fmap (fun t => (t_stack t, t_address_space t))
        (fun y : Z * Z => if (y.2 =? 0) || (y.2 =? kpd s) then None else Some (y.2 / 4096))) as Hom.
      change (task_dir (kpd s)) with (fun t => (fun y : Z * Z => if (y.2 =? 0) || (y.2 =? kpd s) then None
        else Some (y.2 / 4096)) (t_stack t, t_address_space t)). by rewrite !Hom, Hown. }
    rewrite Hd. unfold kernel_dir. rewrite Hk. apply Hw.
  - destruct (Hj 0 ltac:(lia)) as (_ & _ & _ & Hu & _).
    destruct (t_state (get_task 0 s')) eqn:E0; auto; [|done]. specialize (Hu eq_refl).
    destruct (sw_zero _ _ _ Hw); congruence.
  - destruct (Hj 0 ltac:(lia)) as (-> & -> & _). rewrite Hk. apply Hw.
  - intros i Hi. destruct (Hj i ltac:(lia)) as (E1 & E2 & Hu & Hu' & _).
    destruct (decide (t_state (get_task i s) = TASK_UNUSED)) as [E0|E0]; [rewrite (Hu E0); by split|].
    split; [intros E3; by destruct E0; auto|]. intros _. rewrite E1, E2. by apply (sw_slot _ _ _ Hw i Hi).
  - intros i Hi. by apply Hj.
Qed.

(** Changes of the memory layer that keep what the tasks own. *)
Lemma wf_km E s o m :
  sched_wf E s o -> kmem m o -> kernel_page_directory m = kpd s -> sched_wf E (set_km m s) o.
Proof.
  intros [] Hm Hk. split; try done.
  - unfold task_dirs, kernel_dir in *. simpl. by rewrite Hk.
  - simpl. by rewrite Hk.
Qed.

(** What [switch_to] does when [idx] is not the current task. *)
Record switched (sp idx : Z) (s s' : ks) : Prop := {
  sd_len : length (tasks (sc s')) = length (tasks (sc s));
  sd_cur : current_task (sc s') = idx;
  sd_next : next_task_id (sc s') = next_task_id (sc s);
  sd_task j : 0 <= j < 16 -> get_task j s' =
    if decide (current_task (sc s) = j) then
      with_stack_pointer sp (if bool_decide (t_state (get_task j s) = TASK_RUNNING)
        then with_state TASK_RUNNABLE (get_task j s) else get_task j s)
    else if decide (idx = j) then with_state TASK_RUNNING (get_task j s)
    else get_task j s;
  sd_km : km s' = paging_load_directory (t_address_space (get_task idx s)) (km s);
  sd_esp0 : t_stack (get_task idx s) <> NULL ->
    tss_esp0 s' = stack_end (t_stack (get_task idx s)) KTHREAD_STACK_SIZE;
  sd_rest : us s' = us s /\ kb s' = kb s /\ bv s' = bv s /\ lk s' = lk s;
}.

Lemma switch_to_spec s sp idx :
  length (tasks (sc s)) = 16%nat -> 0 <= current_task (sc s) < 16 -> 0 <= idx < 16 ->
  idx <> current_task (sc s) -> switched sp idx s (switch_to sp idx s).
Proof.
  intros Hl Hc Hi Hne. unfold switch_to. set (old := current_task (sc s)) in *.
  set (s1 := if bool_decide _ then _ else s).
  assert (Hs1 : s1 = upd_task old (fun t => if bool_decide (t_state t = TASK_RUNNING)
    then with_state TASK_RUNNABLE t else t) s).
  { unfold s1, upd_task. case_bool_decide; [done|]. unfold put_task.
    rewrite list_insert_id by (apply get_task_lookup; lia). by destruct s as [? [] ? ? ? ? ?]. }
  rewrite Hs1. clear s1 Hs1. set (f := fun t : task => _). cbv zeta.
  set (s2 := set_current_task idx _).
  assert (Hl2 : length (tasks (sc s2)) = 16%nat) by (unfold s2; simpl; by rewrite !length_insert).
  assert (Hg2 : forall j, 0 <= j -> get_task j s2 = if decide (idx = j) then with_state TASK_RUNNING (get_task j s)
    else if decide (old = j) then f (get_task j s) else get_task j s).
  { intros j Hj. unfold s2. rewrite get_task_current, !get_upd_task by (rewrite ?length_upd; lia).
    by do 2 case_decide; try lia. }
  assert (Hgi : get_task idx s2 = with_state TASK_RUNNING (get_task idx s)) by (rewrite Hg2, decide_True by lia; done).
  set (s3 := if negb (t_stack (get_task idx s2) =? NULL) then _ else s2).
  assert (Hs3 : exists e, s3 = set_esp0 e s2 /\ (t_stack (get_task idx s) <> NULL ->
    e = stack_end (t_stack (get_task idx s)) KTHREAD_STACK_SIZE)).
  { unfold s3. rewrite Hgi. cbn [t_stack with_state]. destruct (Z.eqb_spec (t_stack (get_task idx s)) NULL).
    - exists (tss_esp0 s2). by destruct s2.
    - by eexists. }
  destruct Hs3 as (e & -> & He). rewrite get_task_esp0, Hgi. cbn [t_address_space with_state].
  split; try done.
  - rewrite length_upd. by rewrite Hl.
  - intros j Hj. rewrite get_upd_task by (done || lia). rewrite get_task_on_km, get_task_esp0, Hg2 by lia.
    change (current_task (sc s)) with old. by destruct (decide (old = j)), (decide (idx = j)); try lia.
Qed.

Lemma switch_wf E s o sp idx :
  sched_wf E s o -> 0 <= idx < 16 -> t_state (get_task idx s) = TASK_RUNNABLE ->
  t_state (get_task (current_task (sc s)) s) = TASK_RUNNING \/
  t_state (get_task (current_task (sc s)) s) = TASK_ZOMBIE ->
  sched_inv E (switch_to sp idx s) o /\ switched sp idx s (switch_to sp idx s).
Proof.
  intros Hw Hi Hr Hcs. pose proof (sw_cur _ _ _ Hw) as Hc. pose proof (sw_len _ _ _ Hw) as Hl.
  assert (Hne : idx <> current_task (sc s)) by (intros ->; destruct Hcs; congruence).
  pose proof (switch_to_spec s sp idx Hl Hc Hi Hne) as Hsw. split; [|done].
  destruct Hsw as [Hl' Hc' _ Ht Hkm _ _]. split; cycle 1.
  { rewrite Hc', Ht, decide_False, decide_True by (done || lia). done. }
  apply (wf_change E s); [done|rewrite Hkm; by apply (kmem_same (km s)); [apply Hw|..]|by rewrite Hkm|lia|lia| |].
  - intros j Hj. rewrite Ht by done. rewrite Hc'.
    destruct (decide (current_task (sc s) = j)); [|destruct (decide (idx = j))]; subst.
    + case_bool_decide; simpl; split_and!; try done; intros; destruct Hcs; congruence.
    + split_and!; try done; intros; congruence.
    + split_and!; try done.
      * intros E0. destruct (decide (j = 0)) as [->|]; [destruct (sw_zero _ _ _ Hw); congruence|].
        by apply (sw_slot _ _ _ Hw j ltac:(lia)).
      * intros E0. by rewrite <- (sw_running _ _ _ Hw j Hj E0) in *.
  - rewrite Ht by lia. pose proof (sw_zero _ _ _ Hw) as H.
    destruct (decide (current_task (sc s) = 0)) as [E0|]; [|destruct (decide (idx = 0)); [done|]].
    + case_bool_decide; simpl; [done|]. destruct H; congruence.
    + destruct H; congruence.
Qed.

(** ** Yielding *)

(** Slot [idx] is the next runnable one after [cur], [i] places on. *)
Record next_in_turn (s : ks) (i idx : Z) : Prop := {
  nt_place : 1 <= i <= 15 /\ idx = (current_task (sc s) + i) mod 16;
  nt_state : t_state (get_task idx s) = TASK_RUNNABLE;
  nt_first j : 1 <= j < i -> t_state (get_task ((current_task (sc s) + j) mod 16) s) <> TASK_RUNNABLE;
}.

Lemma reaped_runnable E n s o s' o' j :
  reaped E n s o s' o' -> 0 <= j < 16 ->
  t_state (get_task j s') = TASK_RUNNABLE <-> t_state (get_task j s) = TASK_RUNNABLE.
Proof.
  intros Hre Hj. rewrite (re_task _ _ _ _ _ _ Hre j Hj). destruct (doomed s j) eqn:Hd; simpl; [|done].
  unfold doomed in Hd. bool_simpl. case_if; [|done]. simpl. split; congruence.
Qed.

Lemma reaped_keep E n s o s' o' j :
  reaped E n s o s' o' -> 0 <= j < 16 -> t_state (get_task j s) <> TASK_ZOMBIE \/ j = current_task (sc s) ->
  get_task j s' = get_task j s.
Proof.
  intros Hre Hj Hz. rewrite (re_task _ _ _ _ _ _ Hre j Hj). destruct (doomed s j) eqn:Hd; simpl; [|done].
  unfold doomed in Hd. bool_simpl. by destruct Hz.
Qed.

Lemma reaped_current E n s o s' o' : reaped E n s o s' o' -> current_task (sc s') = current_task (sc s).
Proof. intros Hre. by rewrite (re_rest _ _ _ _ _ _ Hre). Qed.

Lemma slot_mod x : 0 <= x mod 16 < 16.
Proof. apply Z.mod_pos_bound. lia. Qed.

(** [sched_yield] always returns: either it switches to the next runnable task
    in turn, or no other task is runnable. *)
Lemma yield_cases E s o sp :
  sched_wf E s o ->
  t_state (get_task (current_task (sc s)) s) = TASK_RUNNING \/
  t_state (get_task (current_task (sc s)) s) = TASK_ZOMBIE ->
  exists s1 o1, reaped E 16 s o s1 o1 /\
  ((exists i idx, next_in_turn s i idx /\ sched_yield sp s = Done (true, switch_to sp idx s1) /\
      sched_inv E (switch_to sp idx s1) o1 /\ switched sp idx s1 (switch_to sp idx s1)) \/
   ((forall j, 0 <= j < 16 -> t_state (get_task j s) <> TASK_RUNNABLE) /\
      sched_yield sp s = Done (false, kprintk (ln "sched: no runnable tasks") [] s1))).
Proof.
  intros Hw Hcs. pose proof (sw_cur _ _ _ Hw) as Hc. destruct (reap_spec E s o Hw) as (s1 & o1 & Hr & Hre).
  exists s1, o1. split; [done|]. unfold sched_yield. rewrite Hr. cbn [obind].
  pose proof (reaped_current _ _ _ _ _ _ Hre) as Hc1. rewrite Hc1. set (cur := current_task (sc s)) in *.
  assert (Hidx : forall i, 1 <= i <= 16 -> (cur +u i) mod 16 = (cur + i) mod 16) by (intros i Hi; by rewrite wrap_small by lia).
  pose proof (reaped_keep _ _ _ _ _ _ cur Hre Hc (or_intror eq_refl)) as Hcur.
  destruct (find_range _ _ _) as [i|] eqn:Hf.
  - left. apply find_range_Some in Hf as (Hi & Hst & Hbefore). rewrite Hidx in * by lia. bool_simpl.
    apply (reaped_runnable _ _ _ _ _ _ _ Hre (slot_mod _)) in Hst as Hst0.
    assert (i <> 16).
    { intros ->. replace ((cur + 16) mod 16) with cur in Hst0 by (Z.div_mod_to_equations; lia). destruct Hcs; congruence. }
    exists i, ((cur + i) mod 16). split; [split|split; [done|]].
    + split; [lia|done].
    + done.
    + intros j Hj Hjr. specialize (Hbefore j Hj). rewrite Hidx in Hbefore by lia. bool_simpl.
      apply Hbefore. by apply (reaped_runnable _ _ _ _ _ _ _ Hre (slot_mod _)).
    + apply switch_wf; [apply Hre|apply slot_mod|done|]. by rewrite Hc1, Hcur.
  - right. rewrite find_range_None in Hf. split; [|done]. intros j Hj Hjr.
    specialize (Hf ((j - cur - 1) mod 16 + 1)). rewrite Hidx in Hf by (Z.div_mod_to_equations; lia).
    replace ((cur + ((j - cur - 1) mod 16 + 1)) mod 16) with j in Hf by (Z.div_mod_to_equations; lia).
    rewrite bool_decide_eq_true_2 in Hf; [by discriminate Hf; Z.div_mod_to_equations; lia|].
    by apply (reaped_runnable _ _ _ _ _ _ _ Hre Hj).
Qed.

(** ** Exiting *)

Definition zombified (s : ks) : ks := upd_task (current_task (sc s)) (with_state TASK_ZOMBIE) s.

Lemma zombified_task E s o j :
  sched_inv E s o -> 0 <= j < 16 ->
  get_task j (zombified s) = if decide (current_task (sc s) = j) then with_state TASK_ZOMBIE (get_task j s) else get_task j s.
Proof. intros [Hw _] Hj. apply get_upd_task; [apply Hw|lia|apply Hw]. Qed.

Lemma zombified_wf E s o : sched_inv E s o -> current_task (sc s) <> 0 -> sched_wf E (zombified s) o.
Proof.
  intros Hinv Hc0. pose proof Hinv as [Hw Hrun].
  apply (wf_change E s); [done|apply Hw|done|unfold zombified; rewrite length_upd; apply Hw|apply Hw| |].
  - intros j Hj. rewrite (zombified_task E s o) by done. destruct (decide _) as [<-|Hne].
    + split_and!; try done; intros; congruence.
    + split_and!; try done.
      * intros E0. destruct (decide (j = 0)) as [->|]; [destruct (sw_zero _ _ _ Hw); congruence|].
        by apply (sw_slot _ _ _ Hw j ltac:(lia)).
      * by apply (sw_running _ _ _ Hw).
  - rewrite (zombified_task E s o) by (done || lia). rewrite decide_False by done.
    destruct (sw_zero _ _ _ Hw); congruence.
Qed.

(** The memory of the kernel sees nothing of it. *)
Lemma kthread_exit_cases E s o sp :
  sched_inv E s o -> current_task (sc s) <> 0 ->
  exists s1 o1 i idx, reaped E 16 (zombified s) o s1 o1 /\ next_in_turn (zombified s) i idx /\
    kthread_exit sp s = Done (switch_to sp idx s1) /\
    sched_inv E (switch_to sp idx s1) o1 /\ switched sp idx s1 (switch_to sp idx s1).
Proof.
  intros Hinv Hc0. pose proof (zombified_wf E s o Hinv Hc0) as Hw'. pose proof Hinv as [Hw Hrun].
  unfold kthread_exit. rewrite (proj2 (Z.eqb_neq _ _)) by done. fold (zombified s).
  destruct (yield_cases E (zombified s) o sp Hw') as (s1 & o1 & Hre & Hor).
  { right. change (current_task (sc (zombified s))) with (current_task (sc s)).
    rewrite (zombified_task E s o), decide_True by (done || apply Hw). done. }
  exists s1, o1. destruct Hor as [(i & idx & Hn & -> & ?)|[Hno _]]; [by exists i, idx|].
  exfalso. apply (Hno 0 ltac:(lia)). rewrite (zombified_task E s o), decide_False by (done || lia).
  destruct (sw_zero _ _ _ Hw) as [?|E0]; [done|]. by apply (sw_running _ _ _ Hw 0 ltac:(lia)) in E0.
Qed.

(** ** Creating threads *)

(** The frame a new thread starts with, at the end [e] of its stack: a return
    address of 0 for the trampoline, its entry point for the [ret] of
    context_switch.S, and four zero registers. *)
Record fresh_frame (e trampoline : Z) (m : memory) : Prop := {
  ff_ret : rd32 m (e - 4) = 0;
  ff_entry : rd32 m (e - 8) = u32 trampoline;
  ff_regs i : 3 <= i <= 6 -> rd32 m (e - 4 * i) = 0;
}.

Lemma stack_end_spec st n :
  0 <= st -> 0 <= n -> st + n < 4294967296 ->
  stack_end st n mod 16 = 0 /\ st + n - 16 < stack_end st n <= st + n.
Proof.
  intros Hst Hn Hr. unfold stack_end. rewrite wrap_small by lia. change (KTHREAD_STACK_ALIGN - 1) with (2 ^ 4 - 1).
  rewrite land_lnot_mask by lia. change (2 ^ 4) with 16. Z.div_mod_to_equations; lia.
Qed.

Lemma prepare_spec st n trampoline m :
  VMM_KERNEL_VIRTUAL_BASE <= st -> 64 <= n -> st + n < 4294967296 ->
  let e := stack_end st n in let '(sp, m') := sched_prepare_kthread_stack st n trampoline m in
  sp = e - 24 /\ only_changes (in_alloc (st, n)) m m' /\ fresh_frame e trampoline m'.
Proof.
  intros Hst Hn Hr e. destruct (stack_end_spec st n) as [Hal He]; [lia..|]. fold e in Hal, He.
  unfold sched_prepare_kthread_stack, push. fold e. cbn [fst snd].
  rewrite (wrap_small 32 (e - 4)), (wrap_small 32 (e - 4 - 4)), (wrap_small 32 (e - 4 - 4 - 4)),
    (wrap_small 32 (e - 4 - 4 - 4 - 4)), (wrap_small 32 (e - 4 - 4 - 4 - 4 - 4)), wrap_small by lia.
  split; [lia|]. unfold wr32, in_alloc, phys. split; [|split; unfold rd32, phys].
  - repeat (etransitivity; [|apply only_changes_store32]); try done; simpl; intros; lia.
  - rewrite !load32_store32_ne, load32_store32_eq by lia. done.
  - replace (e - 8) with (e - 4 - 4) by lia. rewrite !load32_store32_ne, load32_store32_eq by lia. done.
  - intros i Hi. assert (i = 3 \/ i = 4 \/ i = 5 \/ i = 6) as [->|[->|[->| ->]]] by lia.
    + replace (e - 4 * 3) with (e - 4 - 4 - 4) by lia. rewrite !load32_store32_ne, load32_store32_eq by lia. done.
    + replace (e - 4 * 4) with (e - 4 - 4 - 4 - 4) by lia. rewrite !load32_store32_ne, load32_store32_eq by lia. done.
    + replace (e - 4 * 5) with (e - 4 - 4 - 4 - 4 - 4) by lia. rewrite load32_store32_ne, load32_store32_eq by lia. done.
    + replace (e - 4 * 6) with (e - 4 - 4 - 4 - 4 - 4 - 4) by lia. rewrite load32_store32_eq. done.
Qed.

Lemma kpd_page E s o : sched_wf E s o -> kpd s <> 0 /\ kpd s mod 4096 = 0.
Proof.
  intros Hw. destruct (sw_dirs _ _ _ Hw) as (k & Hk & _ & Ho). destruct (sw_mem _ _ _ Hw) as [bs Hb].
  pose proof (vm_dir _ _ (kb_vm _ _ _ Hb) k ltac:(rewrite Ho; set_solver)) as [Hr _ _ _].
  unfold kernel_dir in Hk. rewrite Hk. split; [lia|]. by apply Z.mod_mul.
Qed.

(** A new thread in an empty slot. *)
Lemma wf_new E s o i t n m o' :
  sched_wf E s o -> 0 < i < 16 -> get_task i s = zero_task -> i <> current_task (sc s) ->
  t_state t = TASK_RUNNABLE -> t_stack t <> NULL -> t_address_space t = kpd s ->
  kmem m o' -> kernel_page_directory m = kpd s -> o_dirs o' = o_dirs o ->
  o_allocs o' ≡ₚ (t_stack t, KTHREAD_STACK_SIZE) :: o_allocs o ->
  sched_wf E (put_task i t (set_next_task_id n (set_km m s))) o'.
Proof.
  intros Hw Hi Hz Hic Hst Hstk Hsp Hm Hk Ho Hal. pose proof (sw_bound _ _ _ i Hw ltac:(lia)) as Hl.
  pose proof (get_task_lookup i s Hl) as Hlk. rewrite Hz in Hlk.
  assert (Hget : forall j, 0 <= j -> get_task j (put_task i t (set_next_task_id n (set_km m s))) =
    if decide (i = j) then t else get_task j s) by (intros j Hj; by rewrite get_put_task by (done || lia)).
  assert (Hd : task_dirs (put_task i t (set_next_task_id n (set_km m s))) = task_dirs s).
  { unfold task_dirs. simpl. rewrite Hk. apply (omap_insert_same _ _ _ zero_task); [done|].
    unfold task_dir. rewrite Hsp, Z.eqb_refl, orb_true_r. done. }
  split.
  - done.
  - simpl. rewrite length_insert. apply Hw.
  - apply Hw.
  - destruct (omap_insert task_stack (tasks (sc s)) (Z.to_nat i) zero_task t Hlk) as (R & HR & HR').
    change (o_allocs o' ≡ₚ omap task_stack (<[Z.to_nat i := t]> (tasks (sc s)))). rewrite HR', Hal, (sw_allocs _ _ _ Hw), HR.
    replace (task_stack t) with (Some (t_stack t, KTHREAD_STACK_SIZE)); [done|].
    unfold task_stack. by rewrite (proj2 (Z.eqb_neq _ _)).
  - rewrite Hd, Ho. unfold kernel_dir. simpl. rewrite Hk. apply Hw.
  - rewrite Hget, decide_False by lia. apply Hw.
  - rewrite Hget, decide_False by lia. simpl. rewrite Hk. apply Hw.
  - intros j Hj. rewrite Hget by lia. case_decide; [|by apply Hw]. split; [congruence|]. intros _.
    rewrite Hsp. split; [done|]. by apply (kpd_page E s o).
  - intros j Hj. rewrite Hget by lia. case_decide; [congruence|]. by apply (sw_running _ _ _ Hw).
Qed.

(** The task [kthread_create] puts into the slot. *)
Definition new_task (f : kfun) (st : Z) (s : ks) : task :=
  mkTask (next_task_id (sc s)) TASK_RUNNABLE (kpd s) (stack_end st KTHREAD_STACK_SIZE - 24) st (Some f).

(** Slot [i] of [s2] holds a new thread, and nothing else changed. *)
Record created (f : kfun) (i st : Z) (s : ks) (o : own) (s2 : ks) (o2 : own) : Prop := {
  cr_slot : 0 < i < 16 /\ get_task i s = zero_task;
  cr_state : s2 = put_task i (new_task f st s)
    (set_next_task_id (next_task_id (sc s) +u 1) (set_km (km s2) s));
  cr_step : kstep none none (km s) o (km s2) o2;
  cr_own : exists P, o2 = mkOwn (o_dirs o) ((st, KTHREAD_STACK_SIZE) :: o_allocs o) (P ∪ o_heap o) (o_pages o) /\
    forall q, q ∈ P -> in_heap (km s2) q;
  cr_stack : VMM_KERNEL_VIRTUAL_BASE < st /\ st + KTHREAD_STACK_SIZE <= VMM_KERNEL_VIRTUAL_BASE + VMM_DIRECT_MAP_LIMIT;
  cr_frame : fresh_frame (stack_end st KTHREAD_STACK_SIZE) (kthread_trampoline (lk s)) (mem (km s2));
}.

(** The updates of [kthread_create] after its allocation, in one. *)
Lemma kthread_fill f i st s :
  0 < i < 16 -> length (tasks (sc s)) = 16%nat ->
  let '(sp, m) := sched_prepare_kthread_stack st KTHREAD_STACK_SIZE (kthread_trampoline (lk s)) (mem (km s)) in
  let id := next_task_id (sc s) in
  let t := mkTask id TASK_RUNNABLE (kpd s) sp st (Some f) in
  let s2 := put_task i t (set_next_task_id (id +u 1) (on_km (set_mem m) s)) in
  upd_task i (with_entry (Some f)) (upd_task i (with_stack st)
    (upd_task i (with_address_space (kpd s)) (upd_task i (with_stack_pointer sp)
      (on_km (set_mem m) (upd_task i (with_state TASK_RUNNABLE)
        (upd_task i (with_id id) (set_next_task_id (id +u 1) s))))))) = s2 /\ get_task i s2 = t.
Proof.
  intros Hi Hl. destruct (sched_prepare_kthread_stack _ _ _ _) as [sp m]. cbv zeta. split.
  - change (on_km (set_mem m) (upd_task i ?g (upd_task i ?h ?x))) with (upd_task i g (upd_task i h (on_km (set_mem m) x))).
    rewrite !upd_upd by (rewrite ?length_upd; simpl; lia). done.
  - rewrite get_put_task, decide_True by (done || simpl; lia). done.
Qed.

(** The end of [kthread_create], once a slot and a stack are found. *)
Lemma kthread_fill_spec E f i s o m st n P :
  sched_wf E s o -> 0 < i < 16 -> get_task i s = zero_task -> i <> current_task (sc s) ->
  st <> NULL -> KTHREAD_STACK_SIZE <= n < KTHREAD_STACK_SIZE + 8 -> n mod 8 = 0 ->
  let o2 := mkOwn (o_dirs o) ((st, n) :: o_allocs o) (P ∪ o_heap o) (o_pages o) in
  kstep none none (km s) o m o2 -> (forall q, q ∈ P -> in_heap m q) ->
  let '(sp, m') := sched_prepare_kthread_stack st KTHREAD_STACK_SIZE (kthread_trampoline (lk s)) (mem m) in
  sp = stack_end st KTHREAD_STACK_SIZE - 24 /\
  let s2 := put_task i (new_task f st s)
    (set_next_task_id (next_task_id (sc s) +u 1) (set_km (set_mem m' m) s)) in
  sched_wf E s2 o2 /\ created f i st s o s2 o2.
Proof.
  intros Hw Hi Hz Hic Hst0 Hn H8 o2 Hst HP. assert (n = KTHREAD_STACK_SIZE) as -> by (Z.div_mod_to_equations; lia).
  destruct (ks_inv _ _ _ _ _ _ Hst) as [bs Hb].
  assert (Hrep : heap_rep m (o_allocs o2)) by (exists bs; split; apply Hb).
  destruct (heap_rep_ok m _ (st, KTHREAD_STACK_SIZE) Hrep) as (Hlo & Hhi & _ & _); [set_solver|]. cbn [fst snd] in Hlo, Hhi.
  pose proof (prepare_spec st KTHREAD_STACK_SIZE (kthread_trampoline (lk s)) (mem m) ltac:(lia) ltac:(lia) ltac:(lia)) as Hp.
  destruct (sched_prepare_kthread_stack _ _ _ _) as [sp m']. destruct Hp as (-> & Hoc & Hff). split; [done|]. cbv zeta.
  destruct (kmem_write_alloc m o2 (st, KTHREAD_STACK_SIZE) m' (ks_inv _ _ _ _ _ _ Hst) ltac:(set_solver) Hoc) as [Hwr Hheap].
  assert (Hst2 : kstep none none (km s) o (set_mem m' m) o2).
  { eapply kstep_narrow; [eapply kstep_trans; [eapply kstep_mono; [exact Hst|done|]|exact Hwr]|done|]; [done|].
    intros x Hx ->. destruct (kmem_separate m o2 (st, KTHREAD_STACK_SIZE) (o_allocs o)) with (y := (st, KTHREAD_STACK_SIZE));
      [by exists bs|done|done|simpl in *; lia..]. }
  assert (Hcore : kernel_page_directory (set_mem m' m) = kpd s) by apply Hst2.
  split.
  - apply (wf_new E s o); try done. apply Hst2.
  - split; [done|done|exact Hst2| |lia|done]. exists P. split; [done|]. intros q Hq. by apply Hheap, HP.
Qed.

Lemma kthread_create_cases E s o f :
  sched_inv E s o ->
  exists s1 o1, reaped E 16 s o s1 o1 /\
  ((exists m, kthread_create (Some f) s = Done (-1, set_km m s1) /\ sched_inv E (set_km m s1) o1 /\
      kstep none none (km s1) o1 m o1) \/
   (exists i st s2 o2, kthread_create (Some f) s = Done (s32 (next_task_id (sc s)), s2) /\
      sched_inv E s2 o2 /\ created f i st s1 o1 s2 o2)).
Proof.
  intros [Hw Hrun]. destruct (reap_spec E s o Hw) as (s1 & o1 & Hr & Hre). exists s1, o1. split; [done|].
  unfold kthread_create. rewrite Hr. cbn [obind]. pose proof (re_wf _ _ _ _ _ _ Hre) as Hw1.
  pose proof (reaped_current _ _ _ _ _ _ Hre) as Hc1.
  assert (Hrun1 : t_state (get_task (current_task (sc s1)) s1) = TASK_RUNNING).
  { rewrite Hc1, (reaped_keep _ _ _ _ _ _ _ Hre) by (apply Hw || by right). done. }
  assert (Hkm : set_km (km s1) s1 = s1) by (by destruct s1).
  destruct (find_range _ _ _) as [i|] eqn:Hf; cycle 1.
  { left. exists (km s1). rewrite Hkm. split; [done|]. split; [done|]. apply kstep_refl, Hw1. }
  apply find_range_Some in Hf as (Hi & Hu & _). bool_simpl.
  assert (Hz : get_task i s1 = zero_task) by (apply (sw_slot _ _ _ Hw1); [lia|done]).
  assert (Hic : i <> current_task (sc s1)) by (intros ->; congruence).
  destruct (kmem_kmalloc (km s1) o1 KTHREAD_STACK_SIZE) as (st & m & -> & Hor); [apply Hw1|lia|]. cbn [obind].
  destruct Hor as [[-> Hst]|(n & P & Hne & Hn & H8 & Hst & HP)].
  { left. exists m. split; [done|]. split; [|done]. assert (kernel_page_directory m = kpd s1) by (by apply Hst).
    split; [|done]. apply wf_km; [done|apply Hst|done]. }
  right. rewrite (proj2 (Z.eqb_neq _ _)) by done.
  pose proof (kthread_fill_spec E f i s1 o1 m st n P Hw1 ltac:(lia) Hz Hic Hne Hn H8 Hst HP) as Hfill.
  pose proof (kthread_fill f i st (set_km m s1) ltac:(lia) (sw_len _ _ _ Hw1)) as Heq.
  cbn [km set_km mem lk] in Heq |- *. assert (Hk : kernel_page_directory m = kpd s1) by (by apply Hst).
  change (lk (upd_task i (with_state TASK_RUNNABLE) _)) with (lk s1).
  change (mem (km (upd_task i (with_state TASK_RUNNABLE) _))) with (mem m).
  destruct (sched_prepare_kthread_stack _ _ _ _) as [sp m']. destruct Hfill as (-> & Hw2 & Hcr).
  destruct Heq as [Heq Hget]. unfold vmm_get_kernel_address_space.
  change (kernel_page_directory (km (upd_task i (with_stack_pointer _) _))) with (kernel_page_directory m).
  change (next_task_id (sc (set_km m s1))) with (next_task_id (sc s1)) in *.
  rewrite Heq, Hget. cbn [t_id]. unfold new_task in *. rewrite Hk.
  replace (next_task_id (sc s1)) with (next_task_id (sc s)) in * by (by rewrite (re_rest _ _ _ _ _ _ Hre)).
  eexists i, st, _, _. split; [reflexivity|]. split; [split; [exact Hw2|]|exact Hcr].
  simpl. rewrite get_put_task, decide_False by (try apply (sw_bound E s1 o1); done || apply Hw1 || lia). done.
Qed.

(** ** Adopting a directory *)

(** A thread that still runs in the kernel's directory takes over directory
    [d], which belonged to no task before. *)
Lemma adopt_spec E s o d :
  sched_inv (d :: E) s o -> current_task (sc s) <> 0 -> d <> 0 ->
  t_address_space (get_task (current_task (sc s)) s) = kpd s ->
  exists s', sched_set_current_address_space (d * 4096) s = (0, s') /\ sched_inv E s' o /\
    km s' = paging_load_directory (d * 4096) (km s) /\
    s' = upd_task (current_task (sc s)) (with_address_space (d * 4096)) (set_km (km s') s).
Proof.
  intros [Hw Hrun] Hc0 Hd0 Hsp. set (cur := current_task (sc s)) in *. pose proof (sw_cur _ _ _ Hw) as Hc. fold cur in Hc.
  unfold sched_set_current_address_space. fold cur. rewrite (proj2 (Z.eqb_neq cur 0)), (proj2 (Z.eqb_neq (d * 4096) 0)) by lia.
  cbn [orb]. eexists. split; [reflexivity|].
  set (m := paging_load_directory (d * 4096) (km s)). set (s' := on_km _ _).
  assert (Hs' : s' = upd_task cur (with_address_space (d * 4096)) (set_km m s)) by done.
  pose proof (sw_bound _ _ _ cur Hw Hc) as Hl.
  assert (Hget : forall j, 0 <= j -> get_task j s' = if decide (cur = j) then with_address_space (d * 4096) (get_task j s) else get_task j s).
  { intros j Hj. rewrite Hs', get_upd_task by (done || lia || apply Hw). by rewrite get_task_km. }
  split; [|split; [done|exact Hs']]. split; [|change (current_task (sc s')) with cur; rewrite Hget, decide_True by lia; done].
  destruct (sw_dirs _ _ _ Hw) as (k & Hk & Hnd & Ho).
  assert (Hdk : d * 4096 <> kpd s).
  { unfold kernel_dir in Hk. rewrite Hk. apply NoDup_cons in Hnd as [Hn _]. intros E0. apply Hn.
    assert (k = d) as -> by lia. set_solver. }
  destruct (put_task_dirs s m cur (with_address_space (d * 4096) (get_task cur s)) Hl eq_refl) as (R & HR & HR').
  replace (task_dir (kpd s) (get_task cur s)) with (@None Z) in HR
    by (unfold task_dir; rewrite Hsp, Z.eqb_refl, orb_true_r; done).
  assert (Htd : task_dir (kpd s) (with_address_space (d * 4096) (get_task cur s)) = Some d).
  { unfold task_dir. cbn [t_address_space with_address_space].
    rewrite (proj2 (Z.eqb_neq (d * 4096) 0)), (proj2 (Z.eqb_neq (d * 4096) (kpd s))) by (done || lia). simpl. by rewrite Z.div_mul. }
  rewrite Htd in HR'. simpl in HR, HR'. change (put_task cur _ (set_km m s)) with s' in HR'.
  assert (HP : task_dirs s' ++ E ≡ₚ task_dirs s ++ d :: E).
  { rewrite HR', HR. simpl. by rewrite Permutation_middle. }
  split.
  - by apply (kmem_same (km s)); [apply Hw|..].
  - rewrite Hs', length_upd. apply Hw.
  - done.
  - rewrite (sw_allocs _ _ _ Hw). change (tasks (sc s')) with (<[Z.to_nat cur := with_address_space (d * 4096) (get_task cur s)]> (tasks (sc s))).
    by rewrite (omap_insert_same _ _ _ (get_task cur s)) by (done || by apply get_task_lookup).
  - exists k. split; [done|]. rewrite HP. split; [done|]. exact Ho.
  - rewrite Hget, decide_False by lia. apply Hw.
  - rewrite Hget, decide_False by lia. apply Hw.
  - intros j Hj. rewrite Hget by lia. case_decide as Hcj; [|by apply Hw]. subst j. split; [simpl; congruence|].
    intros Hu. simpl. split; [by apply (sw_slot _ _ _ Hw cur Hj)|]. split; [lia|by apply Z.mod_mul].
  - intros j Hj. rewrite Hget by lia. case_decide; [done|]. by apply (sw_running _ _ _ Hw).
Qed.

(** ** Starting *)

Lemma sched_init_table s :
  length (tasks (sc s)) = 16%nat ->
  tasks (sc (for_range 0 MAX_TASKS (fun i => put_task i zero_task) s)) = replicate 16 zero_task /\
  for_range 0 MAX_TASKS (fun i => put_task i zero_task) s =
    set_sc (mkSched (replicate 16 zero_task) (current_task (sc s)) (next_task_id (sc s))) s.
Proof.
  intros Hl. assert (H : for_range 0 MAX_TASKS (fun i => put_task i zero_task) s =
    set_sc (mkSched (tasks (sc (for_range 0 MAX_TASKS (fun i => put_task i zero_task) s)))
      (current_task (sc s)) (next_task_id (sc s))) s /\
    length (tasks (sc (for_range 0 MAX_TASKS (fun i => put_task i zero_task) s))) = 16%nat /\
    forall j : nat, (j < Z.to_nat MAX_TASKS)%nat ->
      tasks (sc (for_range 0 MAX_TASKS (fun i => put_task i zero_task) s)) !! j = Some zero_task).
  { for_inv (fun n s' => s' = set_sc (mkSched (tasks (sc s')) (current_task (sc s)) (next_task_id (sc s))) s /\
      length (tasks (sc s')) = 16%nat /\ forall j : nat, (j < Z.to_nat n)%nat -> tasks (sc s') !! j = Some zero_task); [lia|..].
    - split; [by destruct s as [? [] ? ? ? ? ?]|]. split; [done|]. lia.
    - intros i s' Hi (Hs & Hl' & Hz). split; [by rewrite Hs|]. rewrite tasks_put, length_insert. split; [done|].
      intros j Hj. destruct (decide (j = Z.to_nat i)) as [->|]; [by apply list_lookup_insert_eq; lia|].
      rewrite list_lookup_insert_ne by done. apply Hz. lia. }
  destruct H as (Hs & Hl' & Hz).
  assert (Ht : tasks (sc (for_range 0 MAX_TASKS (fun i => put_task i zero_task) s)) = replicate 16 zero_task).
  { apply list_eq. intros j. destruct (decide (j < 16)%nat).
    - rewrite Hz by lia. by rewrite lookup_replicate_2.
    - rewrite !lookup_ge_None_2; rewrite ?length_replicate; try done; lia. }
  split; [done|]. by rewrite Hs, Ht at 1.
Qed.

Lemma sched_init_eq s :
  length (tasks (sc s)) = 16%nat ->
  sched_init s = set_sc (mkSched (mkTask (next_task_id (sc s)) TASK_RUNNING (kpd s) 0 NULL None ::
    replicate 15 zero_task) 0 (next_task_id (sc s) +u 1)) s.
Proof. intros Hl. unfold sched_init. destruct (sched_init_table s Hl) as [_ ->]. reflexivity. Qed.

Lemma sched_init_spec s o k :
  length (tasks (sc s)) = 16%nat -> kmem (km s) o -> kernel_dir (km s) k ->
  o_dirs o = {[k]} -> o_allocs o = [] -> sched_inv [] (sched_init s) o.
Proof.
  intros Hl Hm Hk Hd Ha. rewrite sched_init_eq by done. set (t0 := mkTask _ _ _ _ _ _). set (s' := set_sc _ s).
  assert (Hget : forall j, 0 < j < 16 -> get_task j s' = zero_task).
  { intros j Hj. unfold get_task. change (tasks (sc s')) with (t0 :: replicate 15 zero_task).
    replace (Z.to_nat j) with (S (Z.to_nat (j - 1))) by lia.
    change ((t0 :: replicate 15 zero_task) !! S ?n) with (replicate 15 zero_task !! n).
    by rewrite lookup_replicate_2 by lia. }
  assert (Ht0 : task_dir (kpd s) t0 = None) by (unfold task_dir; simpl; by rewrite Z.eqb_refl, orb_true_r).
  assert (Hdirs : task_dirs s' = []).
  { unfold task_dirs. change (tasks (sc s')) with (t0 :: replicate 15 zero_task).
    change (kpd s') with (kpd s). cbn [omap list_omap]. rewrite Ht0. reflexivity. }
  split; [|done]. split; try done.
  - by rewrite Ha.
  - exists k. split; [done|]. rewrite Hdirs. simpl. split; [apply NoDup_singleton|]. rewrite Hd. set_solver.
  - by right.
  - intros j Hj. rewrite Hget by done. by split.
  - intros j Hj. destruct (decide (j = 0)) as [->|]; [done|]. by rewrite Hget by lia.
Qed.
End sched.
