(* ===== verification/SchedTheorems.v ===== *)
(** * The theorems about the scheduler

    One turn of the scheduler, threads that start and exit, histories of calls,
    and the fairness of the round robin. *)

From S2P Require Import Prelude Memory Tty Printk Machine FrameAlloc Pmm Vmm VmmSpec VmmTheorems Kmalloc KmallocProof Kmem Kernel Sched SchedProof.

Section theorems.
Context {FA : FrameAllocator pmm_alloc_page pmm_free_page}.

(** The state after a turn: [idx] runs, in its own address space and with its
    own kernel stack for the next trap; the task that was left is where [sp]
    says; no zombie is left but perhaps the one that was left; all others are
    as before. *)
Record turn (sp idx : Z) (s s' : ks) : Prop := {
  tn_cur : current_task (sc s') = idx;
  tn_cr3 : cr3 (km s') = t_address_space (get_task idx s);
  tn_esp0 : t_stack (get_task idx s) <> NULL ->
    tss_esp0 s' = stack_end (t_stack (get_task idx s)) KTHREAD_STACK_SIZE;
  tn_left : t_stack_pointer (get_task (current_task (sc s)) s') = sp;
  tn_zombies j : 0 < j < 16 -> j <> current_task (sc s) -> t_state (get_task j s') <> TASK_ZOMBIE;
  tn_others j : 0 <= j < 16 -> j <> idx -> j <> current_task (sc s) ->
    t_state (get_task j s) <> TASK_ZOMBIE -> get_task j s' = get_task j s;
  tn_procs : us s' = us s;
}.

Lemma nt_range s i idx : next_in_turn s i idx -> 0 <= idx < 16.
Proof. intros [[_ ->] _ _]. apply slot_mod. Qed.

Lemma turn_of_switch E s o s1 o1 sp i idx :
  sched_wf E s o -> reaped E 16 s o s1 o1 -> next_in_turn s i idx -> idx <> current_task (sc s) ->
  switched sp idx s1 (switch_to sp idx s1) -> turn sp idx s (switch_to sp idx s1).
Proof.
  intros Hw Hre Hn Hne [Hl Hc Hnx Ht Hk He (Hu & _)]. pose proof (nt_range _ _ _ Hn) as Hr.
  pose proof (reaped_current _ _ _ _ _ _ Hre) as Hc1. pose proof (sw_cur _ _ _ Hw) as Hcr. rewrite Hc1 in Ht.
  assert (Hi : get_task idx s1 = get_task idx s).
  { apply (reaped_keep _ _ _ _ _ _ _ Hre); [done|]. left. by rewrite (nt_state _ _ _ Hn). }
  rewrite Hi in *. split; try done.
  - by rewrite Hk.
  - rewrite Ht, decide_True by done. done.
  - intros j Hj Hjc. rewrite Ht, decide_False by lia. case_decide; [done|].
    rewrite (re_task _ _ _ _ _ _ Hre j) by lia. rewrite (proj2 (Z.ltb_lt j 16)), andb_true_r by lia.
    unfold doomed. rewrite (proj2 (Z.ltb_lt 0 j)), (proj2 (Z.ltb_lt j 16)), (proj2 (Z.eqb_neq j _)) by (done || lia).
    simpl. by case_bool_decide.
  - intros j Hj Hji Hjc Hz. rewrite Ht, !decide_False by (done || lia). apply (reaped_keep _ _ _ _ _ _ _ Hre); [done|by left].
  - by rewrite Hu, (re_rest _ _ _ _ _ _ Hre).
Qed.

Lemma turn_mem E s o s1 o1 sp idx :
  reaped E 16 s o s1 o1 -> sched_inv E (switch_to sp idx s1) o1 -> switched sp idx s1 (switch_to sp idx s1) ->
  kstep (doomed_dir s) (doomed_stack s) (km s) o (km (switch_to sp idx s1)) o1.
Proof.
  intros Hre [Hw _] Hsw. eapply kstep_trans; [apply Hre|]. rewrite (sd_km _ _ _ _ Hsw).
  eapply kstep_mono; [apply kstep_same; [apply Hre|done..]|done|done].
Qed.

(** [sched_yield] always returns.  When some other task is runnable, the
    first one in round-robin order after the current one runs next, with its
    own address space and kernel stack loaded; zombies are gone and everything
    they owned is free, every other task, stack, address space and user page
    is untouched, and no frame is lost.  Otherwise the caller goes on. *)
Theorem sched_yield_correct E s o sp :
  sched_inv E s o ->
  (exists i idx s' o', next_in_turn s i idx /\ sched_yield sp s = Done (true, s') /\
    sched_inv E s' o' /\ turn sp idx s s' /\
    kstep (doomed_dir s) (doomed_stack s) (km s) o (km s') o') \/
  ((forall j, 0 <= j < 16 -> t_state (get_task j s) <> TASK_RUNNABLE) /\
    exists s' o', sched_yield sp s = Done (false, s') /\ sched_inv E s' o' /\
      current_task (sc s') = current_task (sc s) /\
      kstep (doomed_dir s) (doomed_stack s) (km s) o (km s') o').
Proof.
  intros [Hw Hrun]. destruct (yield_cases E s o sp Hw (or_introl Hrun)) as (s1 & o1 & Hre & Hor).
  destruct Hor as [(i & idx & Hn & Hy & Hinv & Hsw)|[Hno Hy]]; [left|right].
  - exists i, idx, (switch_to sp idx s1), o1. do 3 (split; [done|]). split; [|by eapply turn_mem].
    eapply turn_of_switch; try done. intros ->. pose proof (nt_state _ _ _ Hn). congruence.
  - split; [done|]. exists (kprintk (ln "sched: no runnable tasks") [] s1), o1. split; [done|].
    pose proof (kstep_kprint (km s1) o1 (ln "sched: no runnable tasks") [] (sw_mem _ _ _ (re_wf _ _ _ _ _ _ Hre))) as Hp.
    assert (Hrun1 : t_state (get_task (current_task (sc s1)) s1) = TASK_RUNNING).
    { rewrite (reaped_current _ _ _ _ _ _ Hre), (reaped_keep _ _ _ _ _ _ _ Hre) by (apply Hw || by right). done. }
    split; [split; [apply wf_km; [apply Hre|apply Hp..]|done]|]. split; [apply (reaped_current _ _ _ _ _ _ Hre)|].
    eapply kstep_trans; [apply Hre|]. by eapply kstep_mono; [exact Hp|..].
Qed.

(** [kthread_exit] of a thread never comes back and never panics: task 0 is
    always there to run.  The thread is a zombie afterwards, which the next
    turn removes. *)
Theorem kthread_exit_correct E s o sp :
  sched_inv E s o -> current_task (sc s) <> 0 ->
  exists idx s' o', kthread_exit sp s = Done s' /\ idx <> current_task (sc s) /\
    t_state (get_task idx s) = TASK_RUNNABLE /\ sched_inv E s' o' /\ turn sp idx (zombified s) s' /\
    t_state (get_task (current_task (sc s)) s') = TASK_ZOMBIE /\
    kstep (doomed_dir s) (doomed_stack s) (km s) o (km s') o'.
Proof.
  intros Hinv Hc0. pose proof Hinv as [Hw _]. pose proof (sw_cur _ _ _ Hw) as Hc.
  destruct (kthread_exit_cases E s o sp Hinv Hc0) as (s1 & o1 & i & idx & Hre & Hn & Hy & Hinv' & Hsw).
  pose proof (nt_range _ _ _ Hn) as Hr. pose proof (nt_state _ _ _ Hn) as Hst. rewrite (zombified_task E s o) in Hst by done.
  assert (Hne : idx <> current_task (sc s)) by (intros ->; by rewrite decide_True in Hst).
  rewrite decide_False in Hst by done. exists idx, (switch_to sp idx s1), o1. do 4 (split; [done|]).
  assert (Hd : forall j, doomed (zombified s) j = true -> doomed s j = true /\ get_task j (zombified s) = get_task j s).
  { intros j Hj. unfold doomed in Hj |- *. change (current_task (sc (zombified s))) with (current_task (sc s)) in Hj.
    bool_simpl. rewrite (zombified_task E s o j), decide_False in * by (done || lia).
    rewrite (proj2 (Z.ltb_lt 0 j)), (proj2 (Z.ltb_lt j 16)), (proj2 (Z.eqb_neq j _)) by (done || lia).
    by rewrite bool_decide_eq_true_2. }
  split; [eapply turn_of_switch; try done; by apply (zombified_wf E s o)|]. split.
  - rewrite (sd_task _ _ _ _ Hsw) by done. rewrite (reaped_current _ _ _ _ _ _ Hre).
    change (current_task (sc (zombified s))) with (current_task (sc s)). rewrite decide_True by done.
    rewrite (reaped_keep _ _ _ _ _ _ _ Hre) by (done || by right).
    rewrite (zombified_task E s o), decide_True by done. done.
  - eapply kstep_mono; [exact (turn_mem E (zombified s) o s1 o1 sp idx Hre Hinv' Hsw)|..].
    + intros q (j & Hj & Ht). destruct (Hd j Hj) as [? Heq]. exists j. by rewrite <- Heq.
    + intros x (j & Hj & Ht). destruct (Hd j Hj) as [? Heq]. exists j. by rewrite <- Heq.
Qed.

(** [kthread_create] always returns: -1 when the table is full or no stack
    can be allocated, and then nothing but the reaping happened; or the id of a
    new runnable thread in a free slot, with a 2 KiB stack of its own whose top
    holds the frame that starts the thread in [kthread_trampoline]. *)
Theorem kthread_create_correct E s o f :
  sched_inv E s o ->
  exists s1 o1, reaped E 16 s o s1 o1 /\
  ((exists s2, kthread_create (Some f) s = Done (-1, s2) /\ sched_inv E s2 o1 /\
      sc s2 = sc s1 /\ kstep none none (km s1) o1 (km s2) o1) \/
   (exists i st s2 o2, kthread_create (Some f) s = Done (s32 (next_task_id (sc s)), s2) /\
      sched_inv E s2 o2 /\ created f i st s1 o1 s2 o2)).
Proof.
  intros Hinv. destruct (kthread_create_cases E s o f Hinv) as (s1 & o1 & Hre & Hor).
  exists s1, o1. split; [done|]. destruct Hor as [(m & ? & ? & ?)|?]; [left|by right]. by exists (set_km m s1).
Qed.

(** ** Histories

    The scheduler's clients: threads that yield, exit, start others, make an
    address space for a process that has not started, and take such a space
    over.  A configuration is the list of the spaces that wait for their
    process, and the state; the number is 1 when the processor changed hands. *)
Inductive sched_ev : nat -> list Z * ks -> list Z * ks -> Prop :=
| ev_yield E s sp (b : bool) s' :
    sched_yield sp s = Done (b, s') -> sched_ev (if b then 1 else 0) (E, s) (E, s')
| ev_exit E s sp s' :
    current_task (sc s) <> 0 -> kthread_exit sp s = Done s' -> sched_ev 1 (E, s) (E, s')
| ev_create E s f r s' :
    kthread_create (Some f) s = Done (r, s') -> sched_ev 0 (E, s) (E, s')
| ev_space E s d m :
    vmm_create_address_space (km s) = (d * 4096, m) -> d <> 0 -> sched_ev 0 (E, s) (d :: E, set_km m s)
| ev_adopt E1 E2 s d s' :
    current_task (sc s) <> 0 -> t_address_space (get_task (current_task (sc s)) s) = kernel_page_directory (km s) ->
    sched_set_current_address_space (d * 4096) s = (0, s') -> sched_ev 0 (E1 ++ d :: E2, s) (E1 ++ E2, s').

Inductive sched_run : nat -> list Z * ks -> list Z * ks -> Prop :=
| run_nil c : sched_run 0 c c
| run_cons n k c1 c2 c3 : sched_ev n c1 c2 -> sched_run k c2 c3 -> sched_run (n + k) c1 c3.

Lemma sched_inv_perm E E' s o : E ≡ₚ E' -> sched_inv E s o -> sched_inv E' s o.
Proof.
  intros HE [[? ? ? ? (k & Hk & Hnd & Ho) ? ? ? ?] Hr]. split; [|done]. split; try done.
  exists k. by rewrite <- HE, Ho.
Qed.

(** A new address space belongs to no task yet. *)
Lemma space_spec E s o d m :
  sched_inv E s o -> vmm_create_address_space (km s) = (d * 4096, m) -> d <> 0 ->
  let o' := with_dirs ({[d]} ∪ o_dirs o) o in
  sched_inv (d :: E) (set_km m s) o' /\ kstep none none (km s) o m o' /\ (d ∉ o_dirs o) /\ 0 < d < 4096 /\
  forall v, 0 <= v < VMM_KERNEL_VIRTUAL_BASE -> walk (mem m) d v = None.
Proof.
  intros [Hw Hr] Hc Hd o'. pose proof (kmem_create (km s) o (sw_mem _ _ _ Hw)) as H. rewrite Hc in H.
  destruct H as [[H _]|(d' & Heq & Hrange & Hnew & _ & Hst & Hwalk)]; [lia|]. assert (d' = d) as -> by lia.
  split; [|done]. split; [|done]. assert (Hk : kernel_page_directory m = kernel_page_directory (km s)) by apply Hst.
  destruct Hw as [? ? ? ? (k & Hkd & Hnd & Ho) ? ? ? ?]. split; try done.
  - apply Hst.
  - exists k. unfold kernel_dir, task_dirs in *. simpl. rewrite Hk. split; [done|].
    assert (Hin : d ∉ k :: omap (task_dir (kernel_page_directory (km s))) (tasks (sc s)) ++ E) by (rewrite Ho in Hnew; set_solver).
    split; [|set_solver].
    apply NoDup_cons in Hnd as [Hk' Hnd]. apply NoDup_cons. split; [set_solver|].
    rewrite <- Permutation_middle. apply NoDup_cons. set_solver.
  - simpl. by rewrite Hk.
Qed.

(** One event: the invariant, no frame lost, and no frame more for the heap that
    does not hold a block. *)
Lemma sched_ev_step n E s o E' s' :
  sched_ev n (E, s) (E', s') -> sched_inv E s o ->
  exists o', sched_inv E' s' o' /\ (forall q, acct (km s') o' q <-> acct (km s) o q) /\
    o_pages o' = o_pages o /\ heap_grows o (km s') o'.
Proof.
  intros Hev Hinv. inversion Hev; subst.
  - destruct Hinv as [Hw Hrun]. destruct (yield_cases E' s o sp Hw (or_introl Hrun)) as (s1 & o1 & Hre & Hor).
    pose proof (re_step _ _ _ _ _ _ Hre) as Hst. pose proof (re_pages _ _ _ _ _ _ Hre) as Hp.
    pose proof (fun m => heap_grows_same o m o1 (re_heap _ _ _ _ _ _ Hre)) as Hh.
    destruct Hor as [(i & idx & _ & Hy & Hinv & Hsw)|[_ Hy]]; rewrite Hy in *; simplify_eq; exists o1.
    + split; [done|]. split; [apply (turn_mem E' s o s1 o1 sp idx Hre Hinv Hsw)|done].
    + pose proof (kstep_kprint (km s1) o1 (ln "sched: no runnable tasks") [] (sw_mem _ _ _ (re_wf _ _ _ _ _ _ Hre))) as Hp'.
      split; [split; [apply wf_km; [apply Hre|apply Hp'..]|]|split; [|done]].
      * change (t_state (get_task (current_task (sc s1)) s1) = TASK_RUNNING).
        by rewrite (reaped_current _ _ _ _ _ _ Hre), (reaped_keep _ _ _ _ _ _ _ Hre) by (apply Hw || by right).
      * intros q. change (km (kprintk ?a ?b s1)) with (kprint a b (km s1)).
        by rewrite (ks_acct _ _ _ _ _ _ Hp'), (ks_acct _ _ _ _ _ _ Hst).
  - destruct (kthread_exit_cases E' s o sp Hinv) as (s1 & o1 & i & idx & Hre & _ & Hy & Hinv' & Hsw); [done|].
    rewrite Hy in *. simplify_eq. exists o1. split; [done|].
    split; [apply (turn_mem E' (zombified s) o s1 o1 sp idx Hre Hinv' Hsw)|].
    split; [apply Hre|apply heap_grows_same, Hre].
  - destruct (kthread_create_cases E' s o f Hinv) as (s1 & o1 & Hre & Hor).
    pose proof (re_pages _ _ _ _ _ _ Hre) as Hp. pose proof (re_heap _ _ _ _ _ _ Hre) as Hh.
    destruct Hor as [(m & Hy & Hinv' & Hst)|(i & st & s2 & o2 & Hy & Hinv' & Hcr)]; rewrite Hy in *; simplify_eq.
    + exists o1. split; [done|]. split; [intros q; rewrite (ks_acct _ _ _ _ _ _ Hst); apply Hre|].
      split; [done|]. by apply heap_grows_same.
    + exists o2. split; [done|]. split; [intros q; rewrite (ks_acct _ _ _ _ _ _ (cr_step _ _ _ _ _ _ _ Hcr)); apply Hre|].
      destruct (cr_own _ _ _ _ _ _ _ Hcr) as (P & -> & HP). split; [done|].
      intros q [Hq|Hq]%elem_of_union; [right; auto|left; by rewrite <- Hh].
  - edestruct (space_spec E s o d m) as (Hinv' & Hst & _); [done..|]. eexists. split; [done|].
    split; [apply Hst|]. split; [done|]. by apply heap_grows_same.
  - assert (Hinv2 : sched_inv (d :: E1 ++ E2) s o) by (eapply sched_inv_perm; [|exact Hinv]; by rewrite Permutation_middle).
    assert (Hd0 : d <> 0).
    { intros ->. unfold sched_set_current_address_space in *. rewrite orb_true_r in *. congruence. }
    destruct (adopt_spec (E1 ++ E2) s o d Hinv2) as (s2 & Hs & Hinv' & Hkm & _); [done..|].
    assert (s2 = s') as -> by congruence.
    exists o. split; [done|]. split; [rewrite Hkm; apply (kstep_same (km s) _ o); [apply Hinv|done..]|].
    split; [done|]. by apply heap_grows_same.
Qed.

(** C9: whatever its clients call and in whatever order, the scheduler keeps
    its invariant: one running task, which is the current one, task 0 alive,
    every stack a separate allocation, every address space with one owner; and
    no frame is lost: a frame that was available or had an owner is available,
    or belongs to an address space of the kernel, of a task or of a process that
    waits to start, or is a user page (those are the same as before), or is a
    frame of the heap, and the heap has no frames but those it had and those
    that held a block of its list at some point of the history. *)
Theorem sched_history n E s o E' s' :
  sched_run n (E, s) (E', s') -> sched_inv E s o ->
  exists o', sched_inv E' s' o' /\ (forall q, acct (km s') o' q <-> acct (km s) o q) /\
    o_pages o' = o_pages o /\
    forall q, q ∈ o_heap o' -> q ∈ o_heap o \/
      exists n1 n2 E1 s1, sched_run n1 (E, s) (E1, s1) /\ sched_run n2 (E1, s1) (E', s') /\ in_heap (km s1) q.
Proof.
  intros Hr. remember (E, s) as c eqn:Hc. remember (E', s') as c' eqn:Hc'. revert E s o Hc.
  induction Hr as [c|n k c1 [E2 s2] c3 Hev Hr IH]; intros E s o Hc Hinv; simplify_eq; [exists o; auto|].
  destruct (sched_ev_step n E s o E2 s2 Hev Hinv) as (o2 & Hinv2 & Ha2 & Hp2 & Hh2).
  destruct (IH eq_refl E2 s2 o2 eq_refl Hinv2) as (o' & Hinv' & Ha' & Hp' & Hh'). exists o'. split; [done|].
  split; [intros q; by rewrite Ha', Ha2|]. split; [congruence|]. intros q Hq.
  assert (Hone : sched_run (n + 0) (E, s) (E2, s2)) by (econstructor; [exact Hev|constructor]).
  destruct (Hh' q Hq) as [Hq2|(n1 & n2 & E1 & s1 & Hr1 & Hr2 & Hin)].
  - destruct (Hh2 q Hq2) as [?|Hin]; [by left|right]. exists (n + 0)%nat, k, E2, s2. done.
  - right. exists (n + n1)%nat, n2, E1, s1. split; [by econstructor|done].
Qed.

(** ** Fairness *)

(** The places from the current task to [j] in the round. *)
Definition ahead (j : Z) (s : ks) : Z := (j - current_task (sc s)) mod 16.

(** An event leaves a waiting task waiting, or gives it the processor; a turn
    that passes it over brings it closer. *)
Lemma ev_ahead n E s o E' s' j :
  sched_ev n (E, s) (E', s') -> sched_inv E s o -> 0 <= j < 16 ->
  t_state (get_task j s) = TASK_RUNNABLE ->
  current_task (sc s') = j \/
  (t_state (get_task j s') = TASK_RUNNABLE /\ ahead j s' + Z.of_nat n <= ahead j s).
Proof.
  intros Hev Hinv Hj Hst. pose proof Hinv as [Hw Hrun]. pose proof (sw_cur _ _ _ Hw) as Hc.
  assert (Hjc : j <> current_task (sc s)) by (intros ->; congruence).
  assert (Hturn : forall s0 i idx, next_in_turn s0 i idx -> current_task (sc s0) = current_task (sc s) ->
    t_state (get_task j s0) = TASK_RUNNABLE -> idx = j \/
    (idx - current_task (sc s)) mod 16 + (j - idx) mod 16 <= ahead j s /\ 1 <= (idx - current_task (sc s)) mod 16).
  { intros s0 i idx [[Hi ->] _ Hf] Hc0 Hs0. rewrite Hc0 in *. unfold ahead.
    destruct (decide (i <= (j - current_task (sc s)) mod 16)) as [Hle|Hgt].
    - right. Z.div_mod_to_equations; lia.
    - exfalso. apply (Hf ((j - current_task (sc s)) mod 16)); [Z.div_mod_to_equations; lia|].
      by replace ((current_task (sc s) + _) mod 16) with j by (Z.div_mod_to_equations; lia). }
  inversion Hev; subst.
  - destruct (yield_cases E' s o sp Hw (or_introl Hrun)) as (s1 & o1 & Hre & Hor).
    destruct Hor as [(i & idx & Hn & Hy & Hi & Hsw)|[Hno Hy]]; [|by destruct (Hno j Hj)].
    rewrite Hy in *. simplify_eq. rewrite (sd_cur _ _ _ _ Hsw). destruct (Hturn s i idx Hn eq_refl Hst) as [->|[Hle H1]]; [by left|].
    destruct (decide (idx = j)) as [->|Hne]; [by left|right]. rewrite (sd_task _ _ _ _ Hsw) by done.
    rewrite (reaped_current _ _ _ _ _ _ Hre), !decide_False by congruence.
    rewrite (reaped_keep _ _ _ _ _ _ _ Hre) by (done || left; congruence). split; [done|].
    unfold ahead at 1. rewrite (sd_cur _ _ _ _ Hsw). lia.
  - destruct (kthread_exit_cases E' s o sp Hinv) as (s1 & o1 & i & idx & Hre & Hn & Hy & _ & Hsw); [done|].
    rewrite Hy in *. simplify_eq. rewrite (sd_cur _ _ _ _ Hsw).
    assert (Hz : get_task j (zombified s) = get_task j s) by (rewrite (zombified_task E' s o), decide_False by done; done).
    destruct (Hturn (zombified s) i idx Hn eq_refl) as [->|[Hle H1]]; [by rewrite Hz|by left|].
    destruct (decide (idx = j)) as [->|Hne]; [by left|right]. rewrite (sd_task _ _ _ _ Hsw) by done.
    rewrite (reaped_current _ _ _ _ _ _ Hre), !decide_False by (done || by apply not_eq_sym).
    rewrite (reaped_keep _ _ _ _ _ _ _ Hre), Hz by (done || left; rewrite Hz; congruence). split; [done|].
    unfold ahead at 1. rewrite (sd_cur _ _ _ _ Hsw). lia.
  - right. destruct (kthread_create_cases E' s o f Hinv) as (s1 & o1 & Hre & Hor).
    pose proof (reaped_keep _ _ _ _ _ _ j Hre Hj ltac:(left; congruence)) as Hk1.
    pose proof (reaped_current _ _ _ _ _ _ Hre) as Hc1. unfold ahead.
    destruct Hor as [(m & Hy & _ & _)|(i & st & s2 & o2 & Hy & _ & Hcr)]; rewrite Hy in *; simplify_eq.
    + rewrite get_task_km, Hk1. split; [done|]. simpl. rewrite Hc1. lia.
    + destruct (cr_slot _ _ _ _ _ _ _ Hcr) as [Hi Hz]. rewrite (cr_state _ _ _ _ _ _ _ Hcr).
      rewrite get_put_task by (lia || simpl; rewrite (sw_len _ _ _ (re_wf _ _ _ _ _ _ Hre)); lia).
      rewrite decide_False by (intros ->; rewrite <- Hk1, Hz in Hst; done).
      change (t_state (get_task j s1) = TASK_RUNNABLE /\ (j - current_task (sc s1)) mod 16 + 0 <= (j - current_task (sc s)) mod 16).
      rewrite Hk1, Hc1. split; [done|lia].
  - right. unfold ahead. simpl. split; [done|lia].
  - right. unfold sched_set_current_address_space in *. destruct (_ || _); [congruence|]. simplify_eq.
    rewrite get_task_on_km, get_upd_task by (done || lia || apply Hw). rewrite decide_False by congruence.
    split; [done|]. unfold ahead. simpl. lia.
Qed.

(** C20: the round robin is fair: whatever the threads do, a runnable task gets
    the processor within fifteen turns. *)
Theorem sched_fair n E s o E' s' j :
  sched_run n (E, s) (E', s') -> sched_inv E s o ->
  0 <= j < 16 -> t_state (get_task j s) = TASK_RUNNABLE -> (15 <= n)%nat ->
  exists k k' E1 s1, (k <= 15)%nat /\ n = (k + k')%nat /\ sched_run k (E, s) (E1, s1) /\
    sched_run k' (E1, s1) (E', s') /\ current_task (sc s1) = j.
Proof.
  intros Hr Hinv Hj Hst Hn.
  assert (Hgen : forall n c c', sched_run n c c' -> forall E s o, c = (E, s) -> sched_inv E s o ->
    t_state (get_task j s) = TASK_RUNNABLE -> ahead j s <= Z.of_nat n ->
    exists k k' E1 s1, Z.of_nat k <= ahead j s /\ n = (k + k')%nat /\ sched_run k c (E1, s1) /\
      sched_run k' (E1, s1) c' /\ current_task (sc s1) = j).
  { clear -Hj. induction 1 as [c|n k c1 [E2 s2] c3 Hev Hr IH]; intros E s o -> Hinv Hst Hle.
    - pose proof Hinv as [Hw Hrun]. pose proof (sw_cur _ _ _ Hw) as Hc. unfold ahead in Hle.
      assert (j = current_task (sc s)) as -> by (Z.div_mod_to_equations; lia). congruence.
    - pose proof Hinv as [Hw Hrun]. pose proof (sw_cur _ _ _ Hw) as Hc.
      assert (j <> current_task (sc s)) by (intros ->; congruence).
      assert (H1 : 1 <= ahead j s) by (unfold ahead; Z.div_mod_to_equations; lia).
      assert (Hn1 : (n <= 1)%nat) by (inversion Hev; subst; try case_match; lia).
      destruct (ev_ahead n E s o E2 s2 j Hev Hinv Hj Hst) as [Hcur|[Hst2 Hah]].
      + exists n, k, E2, s2. split; [lia|]. split; [done|]. split; [|done].
        rewrite <- (Nat.add_0_r n). econstructor; [done|constructor].
      + destruct (sched_ev_step n E s o E2 s2 Hev Hinv) as (o2 & Hinv2 & _).
        destruct (IH E2 s2 o2 eq_refl Hinv2 Hst2 ltac:(lia)) as (k1 & k2 & E1 & s1 & Hk1 & -> & Hr1 & Hr2).
        exists (n + k1)%nat, k2, E1, s1. split; [lia|]. split; [lia|]. split; [by econstructor|done]. }
  assert (Ha : ahead j s <= 15) by (unfold ahead; Z.div_mod_to_equations; lia).
  destruct (Hgen _ _ _ Hr E s o eq_refl Hinv Hst ltac:(lia)) as (k & k' & E1 & s1 & Hk & Hr1).
  exists k, k', E1, s1. split; [lia|done].
Qed.
End theorems.
