(* ===== verification/Asm.v ===== *)
(** * The i386 instructions of the assembly files

    context_switch.S, isr_stub.S and boot.S of src/kernel/arch/i386 are
    transcribed instruction by instruction (Entry.v, Bootstrap.v) and run by
    the interpreter of this file.  Operands are in the order of the source
    (AT&T syntax: source, destination).  A C function that the assembly calls
    is a function on the machine. *)

From S2P Require Import Prelude Memory.

(** ** State *)

Inductive reg := EAX | ECX | EDX | EBX | ESP | EBP | ESI | EDI.

#[export] Instance reg_eq_dec : EqDecision reg.
Proof. solve_decision. Defined.

Record regs := mkRegs {
  r_eax : Z; r_ecx : Z; r_edx : Z; r_ebx : Z;
  r_esp : Z; r_ebp : Z; r_esi : Z; r_edi : Z;
}.

Record cpu := mkCpu {
  rs : regs;
  cmem : memory;
  zf : bool;                (** EFLAGS.ZF *)
  c_cr0 : Z;
  c_cr3 : Z;
}.

Definition rget (r : reg) (c : cpu) : Z :=
  match r with
  | EAX => r_eax (rs c) | ECX => r_ecx (rs c) | EDX => r_edx (rs c) | EBX => r_ebx (rs c)
  | ESP => r_esp (rs c) | EBP => r_ebp (rs c) | ESI => r_esi (rs c) | EDI => r_edi (rs c)
  end.

Definition rset (r : reg) (v : Z) (c : cpu) : cpu :=
  let g x := if decide (x = r) then v else rget x c in
  mkCpu (mkRegs (g EAX) (g ECX) (g EDX) (g EBX) (g ESP) (g EBP) (g ESI) (g EDI))
    (cmem c) (zf c) (c_cr0 c) (c_cr3 c).

Definition set_cmem (m : memory) (c : cpu) : cpu := mkCpu (rs c) m (zf c) (c_cr0 c) (c_cr3 c).
Definition set_zf (b : bool) (c : cpu) : cpu := mkCpu (rs c) (cmem c) b (c_cr0 c) (c_cr3 c).
Definition set_cr0 (v : Z) (c : cpu) : cpu := mkCpu (rs c) (cmem c) (zf c) v (c_cr3 c).
Definition set_cr3 (v : Z) (c : cpu) : cpu := mkCpu (rs c) (cmem c) (zf c) (c_cr0 c) v.

(** Low addresses are identity-mapped whenever the assembly uses them (before
    paging, and under the bootstrap tables), kernel addresses are in the direct
    map. *)
Definition lin (a : Z) : Z := if a <? VMM_KERNEL_VIRTUAL_BASE then a else phys a.
Definition ld (a : Z) (c : cpu) : Z := load32 (cmem c) (lin a).
Definition st (a v : Z) (c : cpu) : cpu := set_cmem (store32 (cmem c) (lin a) v) c.

(** ** Instructions *)

Inductive instr :=
  | PUSH (r : reg)
  | PUSHI (v : Z)
  | POP (r : reg)
  | MOV (src dst : reg)
  | MOVI (v : Z) (dst : reg)
  | LOAD (disp : Z) (base dst : reg)               (** [mov disp(base), dst] *)
  | STORE (src : reg) (disp : Z) (base : reg)      (** [mov src, disp(base)] *)
  | STOREX (src : reg) (disp : Z) (base index : reg)   (** [mov src, disp(base, index, 4)] *)
  | ADDI (v : Z) (dst : reg)
  | ORI (v : Z) (dst : reg)
  | XOR (src dst : reg)
  | INC (dst : reg)
  | CMPI (v : Z) (dst : reg)
  | JNE (target : nat)
  | LOOP (target : nat)
  | REP_STOSL
  | PUSHA
  | POPA
  | CALL (f : string)
  | RET
  | IRET
  | JMPR (r : reg)                                 (** [jmp *r] *)
  | MOV_TO_CR3 (r : reg)
  | MOV_FROM_CR0 (r : reg)
  | MOV_TO_CR0 (r : reg)
  | CLD
  | CLI
  | HLT
  | JMP (target : nat).

Definition do_push (v : Z) (c : cpu) : cpu :=
  let sp := rget ESP c -u 4 in st sp v (rset ESP sp c).
Definition do_pop (r : reg) (c : cpu) : cpu :=
  let v := ld (rget ESP c) c in rset r v (rset ESP (rget ESP c +u 4) c).

(** [pusha] stores the value [esp] had before it. *)
Definition do_pusha (c : cpu) : cpu :=
  do_push (rget EDI c) (do_push (rget ESI c) (do_push (rget EBP c) (do_push (rget ESP c)
    (do_push (rget EBX c) (do_push (rget EDX c) (do_push (rget ECX c) (do_push (rget EAX c) c))))))).

(** [popa] drops the stored [esp]. *)
Definition drop_word (c : cpu) : cpu := rset ESP (rget ESP c +u 4) c.
Definition do_popa (c : cpu) : cpu :=
  do_pop EAX (do_pop ECX (do_pop EDX (do_pop EBX (drop_word (do_pop EBP (do_pop ESI (do_pop EDI c))))))).

(** [rep stosl] with the direction flag clear: one word per round. *)
Definition stosl_step (c : cpu) : cpu :=
  let c := st (rget EDI c) (rget EAX c) c in
  rset ECX (rget ECX c -u 1) (rset EDI (rget EDI c +u 4) c).
Definition do_rep_stosl (c : cpu) : cpu := for_range 0 (rget ECX c) (fun _ => stosl_step) c.

(** How a piece of assembly is left. *)
Inductive exit :=
  | Returned (eip : Z)       (** [ret] *)
  | Resumed                  (** [iret]: the frame at [esp] says where *)
  | Jumped (eip : Z)
  | Halted                   (** [hlt] with interrupts off *)
  | Stuck.                   (** past the end of the text *)

Section step.
(** The C functions, and the address that a call at a place of the text pushes. *)
Variable callee : string -> cpu -> cpu.
Variable ret_addr : nat -> Z.

Definition step (text : list instr) (pc : nat) (c : cpu) : (nat * cpu) + (exit * cpu) :=
  let next c := inl (S pc, c) in
  match text !! pc with
  | None => inr (Stuck, c)
  | Some i =>
    match i with
    | PUSH r => next (do_push (rget r c) c)
    | PUSHI v => next (do_push v c)
    | POP r => next (do_pop r c)
    | MOV src dst => next (rset dst (rget src c) c)
    | MOVI v dst => next (rset dst v c)
    | LOAD disp base dst => next (rset dst (ld (rget base c +u disp) c) c)
    | STORE src disp base => next (st (rget base c +u disp) (rget src c) c)
    | STOREX src disp base index =>
        next (st (u32 (rget base c + disp + 4 * rget index c)) (rget src c) c)
    | ADDI v dst => next (rset dst (rget dst c +u v) c)
    | ORI v dst => next (rset dst (Z.lor (rget dst c) v) c)
    | XOR src dst => next (rset dst (Z.lxor (rget src c) (rget dst c)) c)
    | INC dst => next (rset dst (rget dst c +u 1) c)
    | CMPI v dst => next (set_zf (rget dst c =? v) c)
    | JNE t => if zf c then next c else inl (t, c)
    | LOOP t =>
        let c := rset ECX (rget ECX c -u 1) c in
        if rget ECX c =? 0 then next c else inl (t, c)
    | REP_STOSL => next (rset ECX 0 (do_rep_stosl c))
    | PUSHA => next (do_pusha c)
    | POPA => next (do_popa c)
    | CALL f => next (callee f (do_push (ret_addr pc) c))
    | RET => inr (Returned (ld (rget ESP c) c), rset ESP (rget ESP c +u 4) c)
    | IRET => inr (Resumed, c)
    | JMPR r => inr (Jumped (rget r c), c)
    | MOV_TO_CR3 r => next (set_cr3 (rget r c) c)
    | MOV_FROM_CR0 r => next (rset r (c_cr0 c) c)
    | MOV_TO_CR0 r => next (set_cr0 (rget r c) c)
    | CLD => next c
    | CLI => next c
    | HLT => inr (Halted, c)
    | JMP t => inl (t, c)
    end
  end.

Fixpoint run (fuel : nat) (text : list instr) (pc : nat) (c : cpu) : option (exit * cpu) :=
  match fuel with
  | O => None
  | S fuel =>
    match step text pc c with
    | inl (pc, c) => run fuel text pc c
    | inr r => Some r
    end
  end.

(** Some instructions, from one place of the text to another. *)
Inductive go (text : list instr) : nat -> nat * cpu -> nat * cpu -> Prop :=
  | go_nil s : go text 0 s s
  | go_cons n pc c s1 s2 : step text pc c = inl s1 -> go text n s1 s2 -> go text (S n) (pc, c) s2.

Lemma go_app text n m s1 s2 s3 : go text n s1 s2 -> go text m s2 s3 -> go text (n + m) s1 s3.
Proof. induction 1; simpl; [done|]. intros. econstructor; eauto. Qed.

Lemma go_run text n pc0 c0 pc c k : go text n (pc0, c0) (pc, c) -> run (n + k) text pc0 c0 = run k text pc c.
Proof.
  remember (pc0, c0) as s1 eqn:E1. remember (pc, c) as s2 eqn:E2. intros H. revert pc0 c0 E1.
  induction H as [s|n pc1 c1 [pc2 c2] s3 Hs H IH]; intros pc0 c0 E1; simplify_eq; [done|].
  simpl. rewrite Hs. by apply IH.
Qed.

Lemma run_inl text n pc c pc' c' :
  step text pc c = inl (pc', c') -> run (S n) text pc c = run n text pc' c'.
Proof. intros H. simpl. by rewrite H. Qed.
Lemma run_inr text n pc c r : step text pc c = inr r -> run (S n) text pc c = Some r.
Proof. intros H. simpl. by rewrite H. Qed.
End step.

(** ** Lemmas *)

Lemma rget_rset r r' v c : rget r (rset r' v c) = if decide (r = r') then v else rget r c.
Proof. by destruct r, r'. Qed.
Lemma rget_rset_eq r v c : rget r (rset r v c) = v.
Proof. rewrite rget_rset. by rewrite decide_True. Qed.
Lemma rget_st r a v c : rget r (st a v c) = rget r c.
Proof. done. Qed.
Lemma ld_rset a r v c : ld a (rset r v c) = ld a c.
Proof. done. Qed.

(** Two words that are both in the kernel's half do not share bytes when their
    addresses are apart. *)
Lemma ld_st a b v c :
  VMM_KERNEL_VIRTUAL_BASE <= a -> VMM_KERNEL_VIRTUAL_BASE <= b -> a + 4 <= b \/ b + 4 <= a ->
  ld b (st a v c) = ld b c.
Proof.
  intros Ha Hb Hab. unfold ld, st, lin. rewrite !(proj2 (Z.ltb_ge _ _)) by lia. simpl.
  apply load32_store32_ne. unfold phys. lia.
Qed.
Lemma ld_st_eq a v c : ld a (st a v c) = u32 v.
Proof. apply load32_store32_eq. Qed.

Lemma lin_high a : VMM_KERNEL_VIRTUAL_BASE <= a -> lin a = phys a.
Proof. intros. unfold lin. by rewrite (proj2 (Z.ltb_ge _ _)). Qed.

(** The stack operations on a stack in the kernel's half. *)
Section kernel_stack.
Context (a c d b bp si di : Z) (m : memory) (z : bool) (cr0 cr3 : Z).
Abbreviation cp sp m := (mkCpu (mkRegs a c d b sp bp si di) m z cr0 cr3).

Lemma push_eq sp v :
  VMM_KERNEL_VIRTUAL_BASE + 4 <= sp < 4294967296 -> do_push v (cp sp m) = cp (sp - 4) (wr32 m (sp - 4) v).
Proof.
  intros Hsp. unfold do_push, st. cbv [rget rs r_esp]. rewrite (wrap_small 32 (sp - 4)), lin_high by lia. reflexivity.
Qed.

Lemma ld_eq sp x : VMM_KERNEL_VIRTUAL_BASE <= x -> ld x (cp sp m) = rd32 m x.
Proof. intros. unfold ld. by rewrite lin_high. Qed.

Lemma pop_eq r sp :
  VMM_KERNEL_VIRTUAL_BASE <= sp <= 4294967296 - 8 -> do_pop r (cp sp m) = rset r (rd32 m sp) (cp (sp + 4) m).
Proof.
  intros Hsp. unfold do_pop. change (rget ESP (cp sp m)) with sp. rewrite ld_eq, (wrap_small 32 (sp + 4)) by lia. reflexivity.
Qed.
End kernel_stack.

(** One instruction of a known text. *)
Ltac istep :=
  lazymatch goal with
  | |- context [run ?ca ?ra (S ?n) ?t ?pc ?c] =>
    let r := eval hnf in (step ca ra t pc c) in
    lazymatch r with
    | inl (?pc', ?c') => rewrite (run_inl ca ra t n pc c pc' c' eq_refl)
    | inr ?r => rewrite (run_inr ca ra t n pc c r eq_refl)
    end
  end.

(** The registers of a state given by its components. *)
Ltac isimpl :=
  cbv [rset rget rs cmem zf c_cr0 c_cr3 set_cmem set_cr0 set_cr3 set_zf r_eax r_ecx r_edx r_ebx r_esp r_ebp r_esi r_edi
       decide reg_eq_dec decide_rel reg_rec reg_rect eq_rec eq_rec_r eq_rect sumbool_rec sumbool_rect].
