(* ===== verification/Entry.v ===== *)
(** * The assembly between the kernel's contexts

    [sched_context_switch] (src/kernel/arch/i386/context_switch.S), the frames
    it saves and restores, the start of a thread on the stack that
    [sched_prepare_kthread_stack] builds, and the entry stubs of isr_stub.S. *)

From S2P Require Import Prelude Memory Tty Printk Machine FrameAlloc Pmm Vmm VmmSpec VmmTheorems Kmalloc KmallocProof Kmem Kernel Sched SchedProof Asm.

(** ** Texts *)

Definition sched_context_switch : list instr :=
  [ PUSH EBP; PUSH EBX; PUSH ESI; PUSH EDI;
    LOAD 20 ESP EAX; LOAD 24 ESP EDX; STORE ESP 0 EAX; MOV EDX ESP;
    POP EDI; POP ESI; POP EBX; POP EBP;
    RET ].

Definition syscall_stub : list instr :=
  [ PUSHA; PUSH ESP; CALL "syscall_dispatch"; ADDI 4 ESP; STORE EAX 28 ESP; POPA; IRET ].

(** The macro [IRQ n]. *)
Definition irq_stub (n : Z) : list instr :=
  [ PUSHA; PUSHI n; CALL "irq_handler"; ADDI 4 ESP; POPA; IRET ].

(** The macros [EX_ERR n] and [EX_NOERR n], and what the file makes of the 32
    exceptions. *)
Definition EX_ERR (n : Z) : list instr :=
  [ PUSHI n; PUSH ESP; CALL "i386_ex_handler"; ADDI 4 ESP; ADDI 8 ESP; CLI; HLT; JMP 6 ].
Definition EX_NOERR (n : Z) : list instr :=
  [ PUSHI 0; PUSHI n; PUSH ESP; CALL "i386_ex_handler"; ADDI 4 ESP; ADDI 8 ESP; CLI; HLT; JMP 7 ].
Definition with_error_code (n : Z) : bool := bool_decide (n ∈ [8; 10; 11; 12; 13; 14; 17]).
Definition ex_stub (n : Z) : list instr := if with_error_code n then EX_ERR n else EX_NOERR n.

Definition isr_stub : list instr := [ CLI; HLT; JMP 1 ].

(** [higher_half_start] (src/kernel/arch/i386/boot.S), entered from [_start]
    with the magic number in [ebp] and the multiboot information in [esi]. *)
Definition higher_half_start (stack_top : Z) : list instr :=
  [ MOVI stack_top ESP; CALL "_init"; PUSH ESI; PUSH EBP; CALL "kmain"; CLI; HLT; JMP 6 ].

(** ** Frames *)

(** The machine is at the first instruction of a function called from C with
    the kernel stack in the direct map. *)
Record entered (c : cpu) : Prop := {
  en_regs r : 0 <= rget r c < 4294967296;
  en_stack : VMM_KERNEL_VIRTUAL_BASE + 64 <= rget ESP c <= 4294967296 - 64;
}.

(** The frame of a suspended task at [sp]: the registers that a C function must
    preserve, and the address where the task goes on. *)
Record frame_at (m : memory) (sp ebp ebx esi edi eip : Z) : Prop := {
  fr_edi : rd32 m sp = edi;
  fr_esi : rd32 m (sp + 4) = esi;
  fr_ebx : rd32 m (sp + 8) = ebx;
  fr_ebp : rd32 m (sp + 12) = ebp;
  fr_eip : rd32 m (sp + 16) = eip;
}.

Section switch.
Context (callee : string -> cpu -> cpu) (ret_addr : nat -> Z).

(** [sched_context_switch] as [sched_yield] calls it, with the place [p] of the
    stack pointer of the task that is left and the stack pointer [n] of the
    task that is next: none of the two is in the part of the stack that the
    call uses. *)
Record switch_call (c : cpu) (p n : Z) : Prop := {
  sc_entered : entered c;
  sc_old : rd32 (cmem c) (rget ESP c + 4) = p;
  sc_new : rd32 (cmem c) (rget ESP c + 8) = n;
  sc_old_range : VMM_KERNEL_VIRTUAL_BASE <= p <= 4294967296 - 4;
  sc_old_apart : p + 4 <= rget ESP c - 16 \/ rget ESP c + 12 <= p;
  sc_new_range : VMM_KERNEL_VIRTUAL_BASE <= n <= 4294967296 - 24;
  sc_new_apart : n + 20 <= rget ESP c - 16 \/ rget ESP c <= n;
  sc_apart : n + 20 <= p \/ p + 4 <= n;
}.

Lemma switch_run c p n ebp ebx esi edi eip :
  switch_call c p n -> frame_at (cmem c) n ebp ebx esi edi eip -> let E := rget ESP c in
  exists c', run callee ret_addr 13 sched_context_switch 0 c = Some (Returned eip, c') /\
    rget ESP c' = n + 20 /\ rget EBP c' = ebp /\ rget EBX c' = ebx /\ rget ESI c' = esi /\ rget EDI c' = edi /\
    cmem c' = wr32 (wr32 (wr32 (wr32 (wr32 (cmem c) (E - 4) (rget EBP c)) (E - 8) (rget EBX c))
      (E - 12) (rget ESI c)) (E - 16) (rget EDI c)) p (E - 16).
Proof.
  intros [[Hreg Hst] Hp Hn Hpr Hpd Hnr Hnd Hnp] [F0 F1 F2 F3 F4] E.
  destruct c as [[a0 c0 d0 b0 sp bp si di] m z cr0 cr3]. unfold E. clear E Hreg.
  cbv [rget rs r_eax r_ecx r_edx r_ebx r_esp r_ebp r_esi r_edi cmem] in Hst, Hp, Hn, Hpd, Hnd, F0, F1, F2, F3, F4.
  do 4 (istep; isimpl; rewrite push_eq by lia).
  replace (sp - 4 - 4) with (sp - 8) by lia. replace (sp - 8 - 4) with (sp - 12) by lia.
  replace (sp - 12 - 4) with (sp - 16) by lia. set (m1 := wr32 _ (sp - 16) di).
  assert (Hfar : forall x, VMM_KERNEL_VIRTUAL_BASE <= x -> x + 4 <= sp - 16 \/ sp <= x -> rd32 m1 x = rd32 m x).
  { intros x Hx Hd. unfold m1, rd32, wr32, phys. rewrite !load32_store32_ne by lia. done. }
  istep. isimpl. rewrite (wrap_small 32 (sp - 16 + 20)), ld_eq by lia. replace (sp - 16 + 20) with (sp + 4) by lia.
  rewrite Hfar, Hp by lia.
  istep. isimpl. rewrite (wrap_small 32 (sp - 16 + 24)), ld_eq by lia. replace (sp - 16 + 24) with (sp + 8) by lia.
  rewrite Hfar, Hn by lia.
  istep. isimpl. unfold st. rewrite (wrap_small 32 (p + 0)), lin_high, Z.add_0_r by lia. isimpl.
  fold (wr32 m1 p (sp - 16)). set (m2 := wr32 m1 p (sp - 16)).
  assert (Hfr : forall x, n <= x <= n + 16 -> rd32 m2 x = rd32 m x).
  { intros x Hx. rewrite <- Hfar by lia. unfold m2, rd32, wr32, phys. rewrite load32_store32_ne by lia. done. }
  istep. isimpl. do 4 (istep; isimpl; rewrite pop_eq by lia; isimpl). istep. isimpl.
  replace (n + 4 + 4) with (n + 8) by lia. replace (n + 8 + 4) with (n + 12) by lia.
  replace (n + 12 + 4) with (n + 16) by lia.
  rewrite ld_eq, (wrap_small 32 (n + 16 + 4)), !Hfr, F0, F1, F2, F3, F4 by lia. eexists. split; [reflexivity|]. 
  cbv [rs cmem r_esp r_ebp r_ebx r_esi r_edi]. split; [lia|]. by do 4 (split; [done|]).
Qed.

(** The frame that a switch leaves behind. *)
Lemma switch_saves c p n eip c' :
  switch_call c p n -> run callee ret_addr 13 sched_context_switch 0 c = Some (Returned eip, c') ->
  let E := rget ESP c in
  rd32 (cmem c') p = E - 16 /\
  frame_at (cmem c') (E - 16) (rget EBP c) (rget EBX c) (rget ESI c) (rget EDI c) (rd32 (cmem c) E) /\
  only_changes (fun a => phys E - 16 <= a < phys E \/ phys p <= a < phys p + 4) (cmem c) (cmem c').
Proof.
  intros Hsc Hrun E.
  destruct (switch_run c p n _ _ _ _ _ Hsc ltac:(split; reflexivity)) as (c2 & Hrun2 & _ & _ & _ & _ & _ & Hm).
  rewrite Hrun in Hrun2. injection Hrun2 as -> <-. fold E in Hm. destruct Hsc as [[Hreg Hst] _ _ Hpr Hpd _ _ _]. fold E in Hst, Hpd.
  assert (Hw : forall r, u32 (rget r c) = rget r c) by (intros r; by rewrite wrap_small by apply Hreg).
  rewrite Hm. unfold rd32, wr32. split; [|split].
  - rewrite load32_store32_eq. by rewrite wrap_small by lia.
  - unfold rd32, phys in *. split; unfold rd32, phys; rewrite load32_store32_ne by lia.
    + by rewrite load32_store32_eq.
    + replace (E - 16 + 4) with (E - 12) by lia. rewrite load32_store32_ne, load32_store32_eq by lia. done.
    + replace (E - 16 + 8) with (E - 8) by lia. rewrite !load32_store32_ne, load32_store32_eq by lia. done.
    + replace (E - 16 + 12) with (E - 4) by lia. rewrite !load32_store32_ne, load32_store32_eq by lia. done.
    + replace (E - 16 + 16) with E by lia. rewrite !load32_store32_ne by lia. done.
  - unfold phys. do 4 (etransitivity; [|apply only_changes_store32; intros; lia]).
    apply only_changes_store32. intros. lia.
Qed.

(** C10: a task that gives up the processor in [sched_context_switch] and is
    switched to later, with its stack untouched in between, comes back as if
    the call had returned: at its return address, with its stack and the
    registers that a C function preserves as they were. *)
Theorem context_switch_roundtrip c0 p0 n0 eip0 c1 c2 p2 :
  let E := rget ESP c0 in
  switch_call c0 p0 n0 -> run callee ret_addr 13 sched_context_switch 0 c0 = Some (Returned eip0, c1) ->
  (forall a, phys E - 16 <= a < phys E + 4 -> load8 (cmem c2) a = load8 (cmem c1) a) ->
  switch_call c2 p2 (rd32 (cmem c1) p0) ->
  exists c3, run callee ret_addr 13 sched_context_switch 0 c2 = Some (Returned (rd32 (cmem c0) E), c3) /\
    rget ESP c3 = E + 4 /\ forall r, r ∈ [EBP; EBX; ESI; EDI] -> rget r c3 = rget r c0.
Proof.
  intros E H0 Hrun Hsame H2. destruct (switch_saves _ _ _ _ _ H0 Hrun) as (Hp & [F0 F1 F2 F3 F4] & _). fold E in Hp, F0, F1, F2, F3, F4.
  rewrite Hp in H2. assert (Hld : forall x, E - 16 <= x <= E -> rd32 (cmem c2) x = rd32 (cmem c1) x).
  { intros x Hx. apply load32_ext. intros b Hb. apply Hsame. unfold phys in *. lia. }
  destruct (switch_run c2 p2 (E - 16) (rget EBP c0) (rget EBX c0) (rget ESI c0) (rget EDI c0) (rd32 (cmem c0) E) H2)
    as (c3 & Hrun3 & Hsp & R1 & R2 & R3 & R4 & _).
  { split; rewrite Hld by lia; done. }
  exists c3. split; [done|]. split; [lia|]. intros r. rewrite !elem_of_cons, elem_of_nil.
  by intros [->|[->|[->|[->|[]]]]].
Qed.

(** The first switch to a new thread runs [kthread_trampoline] on the
    stack that [sched_prepare_kthread_stack] built, with cleared registers, a
    null return address, and the stack aligned as the ABI asks. *)
Theorem thread_start c p st size trampoline m :
  VMM_KERNEL_VIRTUAL_BASE <= st -> 64 <= size -> st + size < 4294967296 ->
  let '(sp, m') := sched_prepare_kthread_stack st size trampoline m in
  switch_call c p sp -> (forall a, in_alloc (st, size) a -> load8 (cmem c) a = load8 m' a) ->
  exists c', run callee ret_addr 13 sched_context_switch 0 c = Some (Returned (u32 trampoline), c') /\
    st < rget ESP c' < st + size /\ (rget ESP c' + 4) mod 16 = 0 /\ rd32 (cmem c) (rget ESP c') = 0 /\
    forall r, r ∈ [EBP; EBX; ESI; EDI] -> rget r c' = 0.
Proof.
  intros Hst Hsz Hr. pose proof (prepare_spec st size trampoline m Hst Hsz Hr) as Hp. cbv zeta in Hp.
  destruct (sched_prepare_kthread_stack st size trampoline m) as [sp m']. destruct Hp as (-> & _ & [Fr Fe Fz]).
  destruct (stack_end_spec st size) as [Hal He]; [lia..|]. set (e := stack_end st size) in *. intros Hsc Hsame.
  assert (Hld : forall x, e - 24 <= x <= e - 4 -> rd32 (cmem c) x = rd32 m' x).
  { intros x Hx. apply load32_ext. intros b Hb. apply Hsame. unfold in_alloc, phys in *. simpl. lia. }
  destruct (switch_run c p (e - 24) 0 0 0 0 (u32 trampoline) Hsc) as (c' & Hrun & Hsp & R1 & R2 & R3 & R4 & _).
  { split; rewrite Hld by lia.
    - by rewrite <- (Fz 6 ltac:(lia)).
    - rewrite <- (Fz 5 ltac:(lia)). f_equal. lia.
    - rewrite <- (Fz 4 ltac:(lia)). f_equal. lia.
    - rewrite <- (Fz 3 ltac:(lia)). f_equal. lia.
    - rewrite <- Fe. f_equal. lia. }
  exists c'. split; [done|]. split; [lia|]. split; [rewrite Hsp; replace (e - 24 + 20 + 4) with e by lia; done|].
  split; [rewrite Hsp, Hld by lia; rewrite <- Fr; f_equal; lia|].
  intros r. rewrite !elem_of_cons, elem_of_nil. by intros [->|[->|[->|[->|[]]]]].
Qed.
End switch.

(** ** Traps *)

(** struct syscall_frame (src/kernel/include/kernel/syscall.h): what [pusha]
    leaves at [esp]. *)
Record syscall_frame := mkFrame {
  edi : Z; esi : Z; ebp : Z; esp : Z; ebx : Z; edx : Z; ecx : Z; eax : Z;
}.

Definition read_frame (m : memory) (f : Z) : syscall_frame :=
  mkFrame (rd32 m f) (rd32 m (f + 4)) (rd32 m (f + 8)) (rd32 m (f + 12))
    (rd32 m (f + 16)) (rd32 m (f + 20)) (rd32 m (f + 24)) (rd32 m (f + 28)).

Definition frame_of (c : cpu) : syscall_frame :=
  mkFrame (rget EDI c) (rget ESI c) (rget EBP c) (rget ESP c) (rget EBX c) (rget EDX c) (rget ECX c) (rget EAX c).

(** A C function called with its return address at [esp] and one argument
    above it returns past the address and leaves [keep] bytes of its caller's
    frame, above the argument, alone. *)
Record cdecl_call (f : cpu -> cpu) (keep : Z) (c : cpu) : Prop := {
  cc_esp : rget ESP (f c) = rget ESP c + 4;
  cc_eax : 0 <= rget EAX (f c) < 4294967296;
  cc_mem a : phys (rget ESP c) + 8 <= a < phys (rget ESP c) + 8 + keep -> load8 (cmem (f c)) a = load8 (cmem c) a;
}.

Section pusha.
Context (a c d b bp si di : Z) (z : bool) (cr0 cr3 : Z).
Abbreviation cp sp m := (mkCpu (mkRegs a c d b sp bp si di) m z cr0 cr3).

Definition pusha_mem (m : memory) (sp : Z) : memory :=
  wr32 (wr32 (wr32 (wr32 (wr32 (wr32 (wr32 (wr32 m (sp - 4) a) (sp - 8) c) (sp - 12) d) (sp - 16) b)
    (sp - 20) sp) (sp - 24) bp) (sp - 28) si) (sp - 32) di.

Lemma pusha_eq m sp :
  VMM_KERNEL_VIRTUAL_BASE + 32 <= sp < 4294967296 -> do_pusha (cp sp m) = cp (sp - 32) (pusha_mem m sp).
Proof.
  intros Hsp. unfold do_pusha. isimpl. do 8 (rewrite push_eq by lia).
  unfold pusha_mem. f_equal; [f_equal; lia|]. repeat (f_equal; try lia).
Qed.

Lemma pusha_frame m sp :
  VMM_KERNEL_VIRTUAL_BASE + 32 <= sp < 4294967296 -> (forall r, 0 <= rget r (cp sp m) < 4294967296) ->
  read_frame (pusha_mem m sp) (sp - 32) = frame_of (cp sp m).
Proof.
  intros Hsp Hr. pose proof (Hr EAX) as H1. pose proof (Hr ECX) as H2. pose proof (Hr EDX) as H3.
  pose proof (Hr EBX) as H4. pose proof (Hr EBP) as H5. pose proof (Hr ESI) as H6. pose proof (Hr EDI) as H7.
  revert H1 H2 H3 H4 H5 H6 H7. isimpl. intros. unfold read_frame, frame_of, pusha_mem, rd32, wr32. isimpl.
  assert (Hget : forall m x v w, x = w -> 0 <= v < 4294967296 -> load32 (store32 m (phys x) v) (phys w) = v).
  { intros m' x v w -> Hv. rewrite load32_store32_eq. by rewrite wrap_small. }
  f_equal; [apply Hget; lia|..]; (rewrite !load32_store32_ne by (unfold phys; lia); apply Hget; lia).
Qed.

(** [popa] takes every register but [esp] from the frame. *)
Lemma popa_eq m sp :
  VMM_KERNEL_VIRTUAL_BASE <= sp <= 4294967296 - 40 ->
  do_popa (cp sp m) = let f := read_frame m sp in
    mkCpu (mkRegs (eax f) (ecx f) (edx f) (ebx f) (sp + 32) (ebp f) (esi f) (edi f)) m z cr0 cr3.
Proof.
  intros Hsp. unfold do_popa. do 3 (rewrite pop_eq by lia; isimpl). unfold drop_word. isimpl.
  rewrite (wrap_small 32 (sp + 4 + 4 + 4 + 4)) by lia. do 4 (rewrite pop_eq by lia; isimpl).
  cbv [read_frame eax ecx edx ebx ebp esi edi]. f_equal. f_equal; try lia; f_equal; lia.
Qed.
End pusha.

Lemma read_frame_ext m m' f :
  (forall a, phys f <= a < phys f + 32 -> load8 m' a = load8 m a) -> read_frame m' f = read_frame m f.
Proof.
  intros H. unfold read_frame. f_equal; apply load32_ext; intros x Hx; apply H; unfold phys in *; lia.
Qed.

(** The stubs up to the call: the registers of the interrupted code are below
    its stack pointer, then the argument [v] and the return address. *)
Lemma trap_call c v ra :
  entered c -> let E := rget ESP c in
  rget ESP (do_pusha c) = E - 32 /\
  let c1 := do_push ra (do_push v (do_pusha c)) in
  rget ESP c1 = E - 40 /\ rd32 (cmem c1) (E - 36) = u32 v /\ read_frame (cmem c1) (E - 32) = frame_of c /\
  forall a, phys E <= a -> load8 (cmem c1) a = load8 (cmem c) a.
Proof.
  intros [Hreg Hst] E. destruct c as [[a0 c0 d0 b0 sp bp si di] m z cr0 cr3]. change (rget ESP _) with sp in E, Hst.
  unfold E. clear E. pose proof (pusha_frame a0 c0 d0 b0 bp si di z cr0 cr3 m sp ltac:(lia) Hreg) as Hf.
  rewrite pusha_eq by lia. split; [done|]. cbv zeta. rewrite !push_eq by lia.
  set (m1 := pusha_mem _ _ _ _ _ _ _ _ _) in *. replace (sp - 32 - 4) with (sp - 36) by lia.
  replace (sp - 36 - 4) with (sp - 40) by lia. cbn [cmem]. split; [done|]. split; [|split].
  - unfold rd32, wr32. rewrite load32_store32_ne, load32_store32_eq by (unfold phys; lia). done.
  - rewrite <- Hf. apply read_frame_ext. intros a Ha. unfold wr32. by rewrite !load8_store32_ne by (unfold phys in *; lia).
  - intros a Ha. unfold m1, pusha_mem, wr32. by rewrite !load8_store32_ne by (unfold phys in *; lia).
Qed.

(** The stubs after the call: dropping the argument and [popa] give back the
    registers of the frame. *)
Lemma trap_leave c E :
  VMM_KERNEL_VIRTUAL_BASE + 64 <= E <= 4294967296 - 64 -> rget ESP c = E - 32 ->
  let f := read_frame (cmem c) (E - 32) in
  frame_of (do_popa c) = mkFrame (edi f) (esi f) (ebp f) E (ebx f) (edx f) (ecx f) (eax f) /\
  cmem (do_popa c) = cmem c.
Proof.
  intros HE Hsp. destruct c as [[a0 c0 d0 b0 sp bp si di] m z cr0 cr3]. change (rget ESP _) with sp in Hsp. subst sp.
  cbv zeta. rewrite popa_eq by lia. split; [|done]. unfold frame_of. isimpl. f_equal. lia.
Qed.

Lemma frame_of_get c c' : frame_of c = frame_of c' -> forall r, rget r c = rget r c'.
Proof. intros [= ? ? ? ? ? ? ? ?] r. by destruct r. Qed.

Section stubs.
Context (callee : string -> cpu -> cpu) (ret_addr : nat -> Z).

(** C26: a system call enters [syscall_dispatch] with a pointer to the registers
    of the caller and goes back with the result in [eax] and every other
    register, and the frame that [iret] takes, as they were. *)
Theorem syscall_stub_correct c :
  entered c ->
  (forall c1, rget ESP c1 = rget ESP c - 40 -> cdecl_call (callee "syscall_dispatch"%string) 52 c1) ->
  exists c1 c', run callee ret_addr 7 syscall_stub 0 c = Some (Resumed, c') /\
    read_frame (cmem c1) (rd32 (cmem c1) (rget ESP c1 + 4)) = frame_of c /\
    rget EAX c' = rget EAX (callee "syscall_dispatch"%string c1) /\
    (forall r, r <> EAX -> rget r c' = rget r c) /\
    (forall a, phys (rget ESP c) <= a < phys (rget ESP c) + 20 -> load8 (cmem c') a = load8 (cmem c) a).
Proof.
  intros Hen Hcall. pose proof (en_stack _ Hen) as Hst. set (E := rget ESP c) in *.
  destruct (trap_call c (E - 32) (ret_addr 2) Hen) as (Hp & H1 & Harg & Hfr & Hup). fold E in Hp, H1, Harg, Hfr, Hup.
  istep. istep. rewrite Hp. istep. set (c1 := do_push _ (do_push _ _)) in *. clearbody c1. exists c1.
  destruct (Hcall c1 H1) as [Hesp Heax Hmem]. rewrite H1 in Hesp, Hmem. remember (callee _ c1) as c2 eqn:Hc2.
  istep. rewrite Hesp, (wrap_small 32 (E - 40 + 4 + 4)) by lia. set (c3 := rset ESP _ c2).
  assert (Hsp3 : rget ESP c3 = E - 40 + 4 + 4) by apply rget_rset_eq.
  assert (Hax3 : rget EAX c3 = rget EAX c2) by (unfold c3; by rewrite rget_rset, decide_False).
  istep. rewrite Hsp3, Hax3.
  rewrite (wrap_small 32 (E - 40 + 4 + 4 + 28)) by lia. set (c4 := st _ _ c3). istep. istep.
  assert (Hm4 : cmem c4 = wr32 (cmem c2) (E - 4) (rget EAX c2)).
  { unfold c4, st. rewrite lin_high by lia. unfold wr32. simpl. do 2 f_equal. lia. }
  destruct (trap_leave c4 E Hst) as [Hl Hlm]; [unfold c4; rewrite rget_st, Hsp3; lia|].
  exists (do_popa c4). split; [done|].
  assert (Hf4 : read_frame (cmem c4) (E - 32) = mkFrame (rget EDI c) (rget ESI c) (rget EBP c) E (rget EBX c)
    (rget EDX c) (rget ECX c) (rget EAX c2)).
  { assert (Hk : forall x, E - 32 <= x <= E - 8 -> rd32 (cmem c4) x = rd32 (cmem c1) x).
    { intros x Hx. rewrite Hm4. unfold rd32, wr32. rewrite load32_store32_ne by (unfold phys; lia).
      apply load32_ext. intros b Hb. apply Hmem. unfold phys in *. lia. }
    revert Hfr. unfold read_frame, frame_of. fold E. rewrite !Hk by lia. intros [= -> -> -> -> -> -> -> _]. f_equal.
    replace (E - 32 + 28) with (E - 4) by lia. rewrite Hm4. unfold rd32, wr32. rewrite load32_store32_eq. by apply wrap_small. }
  rewrite Hf4 in Hl. cbn [edi esi ebp ebx edx ecx eax] in Hl. split; [|split; [|split]].
  - replace (rget ESP c1 + 4) with (E - 36) by lia. rewrite Harg, wrap_small by lia. done.
  - by injection Hl.
  - intros r Hr. injection Hl as ? ? ? ? ? ? ? _. by destruct r.
  - intros a Ha. rewrite Hlm, Hm4. unfold wr32. rewrite load8_store32_ne by (unfold phys in *; lia).
    rewrite Hmem by (unfold phys in *; lia). apply Hup. lia.
Qed.

(** C27: a hardware interrupt runs [irq_handler] with the number of its line
    and is invisible to the code it interrupted: every register and the frame
    that [iret] takes are as they were. *)
Theorem irq_stub_transparent c n :
  entered c -> 0 <= n < 16 ->
  (forall c1, rget ESP c1 = rget ESP c - 40 -> cdecl_call (callee "irq_handler"%string) 52 c1) ->
  exists c1 c', run callee ret_addr 6 (irq_stub n) 0 c = Some (Resumed, c') /\
    rd32 (cmem c1) (rget ESP c1 + 4) = n /\ cmem c' = cmem (callee "irq_handler"%string c1) /\
    (forall r, rget r c' = rget r c) /\
    (forall a, phys (rget ESP c) <= a < phys (rget ESP c) + 20 -> load8 (cmem c') a = load8 (cmem c) a).
Proof.
  intros Hen Hn Hcall. pose proof (en_stack _ Hen) as Hst. set (E := rget ESP c) in *.
  destruct (trap_call c n (ret_addr 2) Hen) as (Hp & H1 & Harg & Hfr & Hup). fold E in Hp, H1, Harg, Hfr, Hup.
  istep. istep. istep. set (c1 := do_push _ (do_push _ _)) in *. clearbody c1. exists c1.
  destruct (Hcall c1 H1) as [Hesp Heax Hmem]. rewrite H1 in Hesp, Hmem. remember (callee _ c1) as c2 eqn:Hc2.
  istep. rewrite Hesp, (wrap_small 32 (E - 40 + 4 + 4)) by lia. set (c3 := rset ESP _ c2). istep. istep.
  destruct (trap_leave c3 E Hst) as [Hl Hlm]; [unfold c3; rewrite rget_rset_eq; lia|].
  exists (do_popa c3). split; [done|]. change (cmem c3) with (cmem c2) in *.
  assert (Hf3 : read_frame (cmem c2) (E - 32) = frame_of c).
  { rewrite <- Hfr. apply read_frame_ext. intros a Ha. apply Hmem. unfold phys in *. lia. }
  rewrite Hf3 in Hl. split; [|split; [done|split]].
  - replace (rget ESP c1 + 4) with (E - 36) by lia. rewrite Harg, wrap_small by lia. done.
  - apply frame_of_get. exact Hl.
  - intros a Ha. rewrite Hlm, Hmem by (unfold phys in *; lia). apply Hup. lia.
Qed.
End stubs.

(** ** Exceptions *)

(** ex_frame (src/kernel/arch/i386/ex.h). *)
Record ex_frame := mkExFrame {
  ef_vector : Z; ef_error_code : Z; ef_eip : Z; ef_cs : Z; ef_eflags : Z; ef_user_esp : Z; ef_user_ss : Z;
}.

Definition read_ex_frame (m : memory) (f : Z) : ex_frame :=
  mkExFrame (rd32 m f) (rd32 m (f + 4)) (rd32 m (f + 8)) (rd32 m (f + 12)) (rd32 m (f + 16)) (rd32 m (f + 20)) (rd32 m (f + 24)).

Section exceptions.
Context (callee : string -> cpu -> cpu) (ret_addr : nat -> Z).

Lemma do_push_eq v c :
  VMM_KERNEL_VIRTUAL_BASE + 4 <= rget ESP c < 4294967296 ->
  rget ESP (do_push v c) = rget ESP c - 4 /\ cmem (do_push v c) = wr32 (cmem c) (rget ESP c - 4) v.
Proof.
  intros Hsp. destruct c as [[a0 c0 d0 b0 sp bp si di] m z cr0 cr3]. change (rget ESP (mkCpu _ _ _ _ _)) with sp in Hsp.
  rewrite push_eq by lia. done.
Qed.

(** The common end of the stubs: the vector, the address of the frame, the call. *)
Lemma ex_call c n ra :
  VMM_KERNEL_VIRTUAL_BASE + 32 <= rget ESP c <= 4294967296 - 64 -> 0 <= n < 32 ->
  let E := rget ESP c in
  let c1 := do_push n c in
  let c3 := do_push ra (do_push (rget ESP c1) c1) in
  rget ESP c3 = E - 12 /\
  read_ex_frame (cmem c3) (rd32 (cmem c3) (rget ESP c3 + 4)) =
    mkExFrame n (rd32 (cmem c) E) (rd32 (cmem c) (E + 4)) (rd32 (cmem c) (E + 8)) (rd32 (cmem c) (E + 12))
      (rd32 (cmem c) (E + 16)) (rd32 (cmem c) (E + 20)).
Proof.
  intros Hst Hn E c1 c3. fold E in Hst.
  assert (Hrd : forall m x y v, (y + 4 <= x \/ x + 4 <= y) -> rd32 (wr32 m y v) x = rd32 m x).
  { intros m x y v Hxy. unfold rd32, wr32. apply load32_store32_ne. unfold phys. lia. }
  assert (Heq : forall m x v, 0 <= v < 4294967296 -> rd32 (wr32 m x v) x = v).
  { intros m x v Hv. unfold rd32, wr32. rewrite load32_store32_eq. by apply wrap_small. }
  destruct (do_push_eq n c) as [S1 M1]; [fold E; lia|]. fold c1 E in S1, M1. unfold c3. clear c3. rewrite S1. clearbody c1.
  destruct (do_push_eq (E - 4) c1) as [S2 M2]; [lia|]. rewrite S1 in S2, M2. set (c2 := do_push (E - 4) c1) in *. clearbody c2.
  destruct (do_push_eq ra c2) as [S3 M3]; [lia|]. rewrite S2 in S3, M3. set (c3 := do_push ra c2) in *. clearbody c3.
  split; [lia|]. replace (rget ESP c3 + 4) with (E - 4 - 4) by lia.
  assert (Hf : rd32 (cmem c3) (E - 4 - 4) = E - 4) by (rewrite M3, Hrd, M2, Heq by lia; done). rewrite Hf.
  assert (Hm : forall x, E - 4 <= x -> rd32 (cmem c3) x = rd32 (wr32 (cmem c) (E - 4) n) x).
  { intros x Hx. by rewrite M3, Hrd, M2, Hrd, M1 by lia. }
  unfold read_ex_frame. rewrite !Hm by lia. rewrite Heq by lia. rewrite !Hrd by lia. f_equal; f_equal; lia.
Qed.

(** The exception stubs give the handler the same frame for every vector: the
    vector, the error code of the processor or 0, and what the processor pushed;
    when the handler returns, the machine halts. *)
Lemma ex_stub_correct c n :
  entered c -> 0 <= n < 32 ->
  let E := rget ESP c in
  let E0 := if with_error_code n then E + 4 else E in
  exists c1 c', run callee ret_addr 8 (ex_stub n) 0 c = Some (Halted, c') /\
    cmem c' = cmem (callee "i386_ex_handler"%string c1) /\
    read_ex_frame (cmem c1) (rd32 (cmem c1) (rget ESP c1 + 4)) =
      mkExFrame n (if with_error_code n then rd32 (cmem c) E else 0)
        (rd32 (cmem c) E0) (rd32 (cmem c) (E0 + 4)) (rd32 (cmem c) (E0 + 8)) (rd32 (cmem c) (E0 + 12)) (rd32 (cmem c) (E0 + 16)).
Proof.
  intros Hen Hn E E0. pose proof (en_stack _ Hen) as Hst. fold E in Hst. unfold ex_stub, E0. destruct (with_error_code n).
  - destruct (ex_call c n (ret_addr 2)) as [_ Hf]; [fold E; lia|done|]. fold E in Hf. exists (do_push (ret_addr 2) (do_push (rget ESP (do_push n c)) (do_push n c))).
    do 3 istep. set (c3 := do_push (ret_addr 2) _) in *. clearbody c3. do 4 istep. eexists. split; [reflexivity|]. split; [reflexivity|].
    rewrite Hf. f_equal; f_equal; lia.
  - destruct (do_push_eq 0 c) as [S1 M1]; [fold E; lia|]. fold E in S1, M1.
    destruct (ex_call (do_push 0 c) n (ret_addr 3)) as [_ Hf]; [lia|done|]. rewrite S1, M1 in Hf.
    exists (do_push (ret_addr 3) (do_push (rget ESP (do_push n (do_push 0 c))) (do_push n (do_push 0 c)))).
    do 4 istep. set (c3 := do_push (ret_addr 3) _) in *. clearbody c3. do 4 istep. eexists. split; [reflexivity|]. split; [reflexivity|].
    rewrite Hf. assert (Hrd : forall x, E <= x -> rd32 (wr32 (cmem c) (E - 4) 0) x = rd32 (cmem c) x).
    { intros x Hx. unfold rd32, wr32. apply load32_store32_ne. unfold phys. lia. }
    rewrite (Hrd (E - 4 + 4)), (Hrd (E - 4 + 8)), (Hrd (E - 4 + 12)), (Hrd (E - 4 + 16)), (Hrd (E - 4 + 20)) by lia.
    f_equal; [|f_equal; lia..]. unfold rd32, wr32. by rewrite load32_store32_eq.
Qed.

(** [kmain] is called on the boot stack with the magic number and the address of
    the multiboot information. *)
Lemma higher_half_args top c :
  VMM_KERNEL_VIRTUAL_BASE + 64 <= top <= 4294967296 - 64 ->
  (forall r, 0 <= rget r c < 4294967296) ->
  (forall c1, rget ESP (callee "_init"%string c1) = rget ESP c1 + 4 /\ rget ESI (callee "_init"%string c1) = rget ESI c1 /\
     rget EBP (callee "_init"%string c1) = rget EBP c1) ->
  exists c1 c', run callee ret_addr 7 (higher_half_start top) 0 c = Some (Halted, c') /\
    cmem c' = cmem (callee "kmain"%string c1) /\ rget ESP c1 = top - 12 /\
    rd32 (cmem c1) (rget ESP c1 + 4) = rget EBP c /\ rd32 (cmem c1) (rget ESP c1 + 8) = rget ESI c.
Proof.
  intros Htop Hr Hinit. istep. set (c0 := rset ESP top c). assert (H0 : rget ESP c0 = top) by apply rget_rset_eq.
  assert (Hsi : rget ESI c0 = rget ESI c) by (unfold c0; by rewrite rget_rset, decide_False).
  assert (Hbp : rget EBP c0 = rget EBP c) by (unfold c0; by rewrite rget_rset, decide_False). clearbody c0. istep.
  assert (Hpush : forall r v, r <> ESP -> rget r (do_push v c0) = rget r c0).
  { intros r v Hne. unfold do_push. by rewrite rget_st, rget_rset, decide_False. }
  destruct (Hinit (do_push (ret_addr 1) c0)) as (I1 & I2 & I3). rewrite !Hpush in I2, I3 by done.
  destruct (do_push_eq (ret_addr 1) c0) as [S0 _]; [lia|]. rewrite S0 in I1. set (c1 := callee "_init"%string _) in *. clearbody c1.
  assert (E1 : rget ESP c1 = top) by lia. clear I1.
  istep. destruct (do_push_eq (rget ESI c1) c1) as [S2 M2]; [lia|]. rewrite E1 in S2, M2.
  assert (B2 : rget EBP (do_push (rget ESI c1) c1) = rget EBP c1) by (unfold do_push; by rewrite rget_st, rget_rset, decide_False).
  set (c2 := do_push (rget ESI c1) c1) in *. clearbody c2.
  istep. destruct (do_push_eq (rget EBP c2) c2) as [S3 M3]; [lia|]. rewrite S2 in S3, M3. set (c3 := do_push (rget EBP c2) c2) in *. clearbody c3.
  istep. destruct (do_push_eq (ret_addr 4) c3) as [S4 M4]; [lia|]. rewrite S3 in S4, M4. set (c4 := do_push (ret_addr 4) c3) in *. clearbody c4.
  do 2 istep. exists c4. eexists. split; [reflexivity|]. split; [reflexivity|]. split; [lia|].
  assert (Hw : forall r, u32 (rget r c) = rget r c) by (intros r; apply wrap_small, Hr).
  rewrite S4, M4, M3, M2. unfold rd32, wr32. split.
  - rewrite load32_store32_ne by (unfold phys; lia). replace (top - 4 - 4 - 4 + 4) with (top - 4 - 4) by lia.
    rewrite load32_store32_eq, B2, I3, Hbp. apply Hw.
  - rewrite !load32_store32_ne by (unfold phys; lia). replace (top - 4 - 4 - 4 + 8) with (top - 4) by lia.
    rewrite load32_store32_eq, I2, Hsi. apply Hw.
Qed.
End exceptions.
