(* ===== verification/Bootstrap.v ===== *)
(** * The bootstrap page tables (src/kernel/arch/i386/boot.S)

    [_start] runs with paging off: it builds a page directory and four page
    tables that map the first 16 MiB both where they are and at
    [KERNEL_VIRTUAL_BASE], turns paging on and jumps to the higher half.  The
    address of the directory is the linker's; the tables follow it. *)

From S2P Require Import Prelude Memory Tty Printk Machine FrameAlloc Pmm Vmm VmmSpec Asm.

Abbreviation BOOTSTRAP_PAGE_TABLES := 4.
Abbreviation PAGE_ENTRIES := 1024.
Abbreviation PAGE_SIZE := 4096.
Abbreviation KERNEL_PAGE_DIRECTORY_INDEX := 768.

Section start.
(** [bootstrap_page_directory] and [higher_half_start]. *)
Variables pd higher_half_start : Z.
Abbreviation pt := (pd + PAGE_SIZE).

Definition start_text : list instr :=
  [ CLD;
    MOV EAX EBP; MOV EBX ESI;
    MOVI pd EDI; XOR EAX EAX; MOVI PAGE_ENTRIES ECX; REP_STOSL;
    MOVI pt EDI; MOVI 3 EAX; MOVI (BOOTSTRAP_PAGE_TABLES * PAGE_ENTRIES) ECX;
    (* 1: *) STORE EAX 0 EDI; ADDI PAGE_SIZE EAX; ADDI 4 EDI; LOOP 10;
    MOVI pt EAX; ORI 3 EAX; MOVI pd EDI; XOR ECX ECX;
    (* 2: *) STOREX EAX 0 EDI ECX; STOREX EAX (KERNEL_PAGE_DIRECTORY_INDEX * 4) EDI ECX;
    ADDI PAGE_SIZE EAX; INC ECX; CMPI BOOTSTRAP_PAGE_TABLES ECX; JNE 18;
    MOVI pd EAX; MOV_TO_CR3 EAX;
    MOV_FROM_CR0 EAX; ORI 0x80000000 EAX; MOV_TO_CR0 EAX;
    MOVI higher_half_start EAX; JMPR EAX ].

Context (callee : string -> cpu -> cpu) (ret_addr : nat -> Z).
(** What linker.ld makes of the section .bootstrap.bss. *)
Hypothesis Hpd : 1048576 <= pd /\ pd + 5 * 4096 <= 16777216 /\ pd mod 4096 = 0.

Abbreviation go := (go callee ret_addr start_text).

(** The words [a], [a + 4], ... of the memory. *)
Abbreviation wd m a i := (load32 m (a + 4 * i)).

Lemma lin_low a : a < VMM_KERNEL_VIRTUAL_BASE -> lin a = a.
Proof. intros. unfold lin. by rewrite (proj2 (Z.ltb_lt _ _)). Qed.

(** ** Clearing the directory *)

Lemma stosl_eq a c d b sp bp si di m z x y :
  0 < c < 4294967296 -> 0 <= di < VMM_KERNEL_VIRTUAL_BASE ->
  stosl_step (mkCpu (mkRegs a c d b sp bp si di) m z x y) =
  mkCpu (mkRegs a (c - 1) d b sp bp si (di + 4)) (store32 m di a) z x y.
Proof.
  intros Hc Hdi. unfold stosl_step, st. isimpl. rewrite lin_low, (wrap_small 32 (di + 4)), (wrap_small 32 (c - 1)) by lia.
  reflexivity.
Qed.

Lemma rep_stosl_eq c d b sp bp si di m z x y :
  0 <= c <= 4096 -> 0 <= di < 16777216 ->
  exists m', do_rep_stosl (mkCpu (mkRegs 0 c d b sp bp si di) m z x y) =
    mkCpu (mkRegs 0 0 d b sp bp si (di + 4 * c)) m' z x y /\
    (forall i, 0 <= i < c -> wd m' di i = 0) /\
    only_changes (fun a => di <= a < di + 4 * c) m m'.
Proof.
  intros Hc Hdi. unfold do_rep_stosl. isimpl.
  assert (H : exists m', for_range 0 c (fun _ => stosl_step) (mkCpu (mkRegs 0 c d b sp bp si di) m z x y) =
    mkCpu (mkRegs 0 (c - c) d b sp bp si (di + 4 * c)) m' z x y /\
    (forall i, 0 <= i < c -> wd m' di i = 0) /\ only_changes (fun a => di <= a < di + 4 * c) m m').
  { for_inv (fun k s => exists m', s = mkCpu (mkRegs 0 (c - k) d b sp bp si (di + 4 * k)) m' z x y /\
      (forall i, 0 <= i < k -> wd m' di i = 0) /\ only_changes (fun a => di <= a < di + 4 * k) m m'); [lia|..].
    - exists m. split; [f_equal; f_equal; lia|]. split; [lia|]. done.
    - intros k s Hk (m' & -> & Hz & Hoc). rewrite stosl_eq by lia. exists (store32 m' (di + 4 * k) 0).
      split; [f_equal; f_equal; lia|]. split.
      + intros i Hi. destruct (decide (i = k)) as [->|]; [by rewrite load32_store32_eq|].
        rewrite load32_store32_ne by lia. apply Hz. lia.
      + etransitivity; [eapply only_changes_mono; [|exact Hoc]; simpl; lia|]. apply only_changes_store32. lia. }
  destruct H as (m' & -> & H). exists m'. rewrite Z.sub_diag. done.
Qed.

(** ** Filling the tables *)

(** The state at label 1 after [k] rounds. *)
Definition at_fill (k : Z) (d b sp bp si : Z) m z x y : cpu :=
  mkCpu (mkRegs (4096 * k + 3) (4096 - k) d b sp bp si (pt + 4 * k)) m z x y.

Lemma fill_round k d b sp bp si m z x y :
  0 <= k < 4096 -> let m' := store32 m (pt + 4 * k) (4096 * k + 3) in
  go 4 (10%nat, at_fill k d b sp bp si m z x y)
    (if k + 1 =? 4096 then 14%nat else 10%nat, at_fill (k + 1) d b sp bp si m' z x y).
Proof.
  intros Hk m'. unfold at_fill, m'. do 3 (econstructor; [reflexivity|]). econstructor; [|constructor].
  unfold step. cbn [start_text lookup list_lookup]. isimpl. unfold st. isimpl.
  rewrite (wrap_small 32 (pt + 4 * k + 0)), lin_low, (wrap_small 32 (4096 * k + 3 + 4096)),
    (wrap_small 32 (pt + 4 * k + 4)), (wrap_small 32 (4096 - k - 1)) by lia.
  replace (4096 - k - 1 =? 0) with (k + 1 =? 4096) by lia.
  replace (4096 * (k + 1) + 3) with (4096 * k + 3 + 4096) by lia. replace (4096 - (k + 1)) with (4096 - k - 1) by lia.
  replace (pt + 4 * (k + 1)) with (pt + 4 * k + 4) by lia. replace (pt + 4 * k + 0) with (pt + 4 * k) by lia.
  by case_if.
Qed.

Lemma fill_loop_spec d b sp bp si m z x y :
  exists n m', go n (10%nat, at_fill 0 d b sp bp si m z x y) (14%nat, at_fill 4096 d b sp bp si m' z x y) /\
    (forall i, 0 <= i < 4096 -> wd m' pt i = 4096 * i + 3) /\
    only_changes (fun a => pt <= a < pt + 16384) m m'.
Proof.
  assert (Hgen : forall j : nat, (j < 4096)%nat -> exists n m',
    go n (10%nat, at_fill 0 d b sp bp si m z x y) (10%nat, at_fill (Z.of_nat j) d b sp bp si m' z x y) /\
    (forall i, 0 <= i < Z.of_nat j -> wd m' pt i = 4096 * i + 3) /\
    only_changes (fun a => pt <= a < pt + 16384) m m').
  { induction j as [|j IH]; intros Hj.
    - exists 0%nat, m. split; [constructor|]. split; [lia|done].
    - destruct (IH ltac:(lia)) as (n & m' & Hgo & Hw & Hoc). eexists (n + 4)%nat, _.
      split; [eapply go_app; [exact Hgo|]|].
      { pose proof (fill_round (Z.of_nat j) d b sp bp si m' z x y ltac:(lia)) as Hr. cbv zeta in Hr.
        rewrite (proj2 (Z.eqb_neq (Z.of_nat j + 1) 4096)) in Hr by lia.
        replace (Z.of_nat (S j)) with (Z.of_nat j + 1) by lia. exact Hr. }
      split.
      + intros i Hi. destruct (decide (i = Z.of_nat j)) as [->|]; [rewrite load32_store32_eq; apply wrap_small; lia|].
        rewrite load32_store32_ne by lia. apply Hw. lia.
      + etransitivity; [exact Hoc|]. apply only_changes_store32. lia. }
  destruct (Hgen 4095%nat ltac:(lia)) as (n & m' & Hgo & Hw & Hoc). eexists (n + 4)%nat, _.
  split; [eapply go_app; [exact Hgo|exact (fill_round 4095 d b sp bp si m' z x y ltac:(lia))]|]. split.
  - intros i Hi. destruct (decide (i = 4095)) as [->|]; [by rewrite load32_store32_eq|].
    rewrite load32_store32_ne by lia. apply Hw. lia.
  - etransitivity; [exact Hoc|]. apply only_changes_store32. lia.
Qed.

(** ** Filling the directory *)

Definition at_link (k : Z) (d b sp bp si : Z) m z x y : cpu :=
  mkCpu (mkRegs (pt + 3 + 4096 * k) k d b sp bp si pd) m z x y.

Definition linked (k : Z) (m : memory) : memory :=
  store32 (store32 m (pd + 4 * k) (pt + 3 + 4096 * k)) (pd + 4 * (768 + k)) (pt + 3 + 4096 * k).

Lemma link_round k d b sp bp si m z x y :
  0 <= k < 4 ->
  go 6 (18%nat, at_link k d b sp bp si m z x y)
    (if k + 1 =? 4 then 24%nat else 18%nat, at_link (k + 1) d b sp bp si (linked k m) (k + 1 =? 4) x y).
Proof.
  intros Hk. unfold at_link, linked. do 5 (econstructor; [reflexivity|]). econstructor; [|constructor].
  unfold step. cbn [start_text lookup list_lookup]. isimpl. unfold st, set_zf. isimpl.
  rewrite (wrap_small 32 (pd + 0 + 4 * k)), (wrap_small 32 (pd + 768 * 4 + 4 * k)), !lin_low,
    (wrap_small 32 (pt + 3 + 4096 * k + 4096)), (wrap_small 32 (k + 1)) by lia.
  replace (pd + 0 + 4 * k) with (pd + 4 * k) by lia. replace (pd + 768 * 4 + 4 * k) with (pd + 4 * (768 + k)) by lia.
  replace (pt + 3 + 4096 * (k + 1)) with (pt + 3 + 4096 * k + 4096) by lia. by case_if.
Qed.

(** What the directory holds after [k] rounds. *)
Definition dir_word (k i : Z) : Z :=
  if (i <? k) then pt + 3 + 4096 * i
  else if (768 <=? i) && (i <? 768 + k) then pt + 3 + 4096 * (i - 768) else 0.

Lemma linked_words k m :
  0 <= k < 4 -> (forall i, 0 <= i < 1024 -> wd m pd i = dir_word k i) ->
  (forall i, 0 <= i < 1024 -> wd (linked k m) pd i = dir_word (k + 1) i) /\
  only_changes (fun a => pd <= a < pt) m (linked k m).
Proof.
  intros Hk Hw. unfold linked. split.
  - intros i Hi. unfold dir_word. destruct (decide (i = 768 + k)) as [->|].
    + rewrite load32_store32_eq, wrap_small by lia.
      rewrite (proj2 (Z.ltb_ge _ _)), (proj2 (Z.leb_le _ _)), (proj2 (Z.ltb_lt _ _)) by lia. simpl. lia.
    + rewrite load32_store32_ne by lia. destruct (decide (i = k)) as [->|].
      * rewrite load32_store32_eq, wrap_small by lia. by rewrite (proj2 (Z.ltb_lt k (k + 1))) by lia.
      * rewrite load32_store32_ne by lia. rewrite Hw by done. unfold dir_word.
        replace (i <? k + 1) with (i <? k) by lia. by replace (i <? 768 + (k + 1)) with (i <? 768 + k) by lia.
  - etransitivity; apply only_changes_store32; lia.
Qed.

Lemma link_loop_spec d b sp bp si m z x y :
  (forall i, 0 <= i < 1024 -> wd m pd i = 0) ->
  exists n m', go n (18%nat, at_link 0 d b sp bp si m z x y) (24%nat, at_link 4 d b sp bp si m' true x y) /\
    (forall i, 0 <= i < 1024 -> wd m' pd i = dir_word 4 i) /\ only_changes (fun a => pd <= a < pt) m m'.
Proof.
  intros Hz.
  assert (H0 : forall i, 0 <= i < 1024 -> wd m pd i = dir_word 0 i).
  { intros i Hi. rewrite Hz by done. unfold dir_word. rewrite (proj2 (Z.ltb_ge i 0)) by lia.
    destruct (768 <=? i) eqn:E1, (i <? 768 + 0) eqn:E2; bool_simpl; simpl; lia || done. }
  destruct (linked_words 0 m ltac:(lia) H0) as [H1 O1].
  destruct (linked_words 1 _ ltac:(lia) H1) as [H2 O2].
  destruct (linked_words 2 _ ltac:(lia) H2) as [H3 O3].
  destruct (linked_words 3 _ ltac:(lia) H3) as [H4 O4].
  eexists (6 + (6 + (6 + 6)))%nat, _. split; [|split; [exact H4|]].
  - eapply go_app; [exact (link_round 0 d b sp bp si m z x y ltac:(lia))|].
    eapply go_app; [exact (link_round 1 d b sp bp si _ _ x y ltac:(lia))|].
    eapply go_app; [exact (link_round 2 d b sp bp si _ _ x y ltac:(lia))|].
    exact (link_round 3 d b sp bp si _ _ x y ltac:(lia)).
  - by repeat (etransitivity; [eassumption|]).
Qed.

(** ** The address space that results *)

Lemma boot_entry q :
  present (q * 4096 + 3) = true /\ writable (q * 4096 + 3) = true /\ user (q * 4096 + 3) = false /\ frame (q * 4096 + 3) = q.
Proof.
  rewrite <- (lor_page q 3) by lia. unfold present, writable, user.
  rewrite !Z.lor_spec, !testbit_page by lia. split; [done|]. split; [done|]. split; [done|].
  rewrite frame_lor by lia. apply frame_page.
Qed.

Lemma boot_walk m :
  (forall i, 0 <= i < 4096 -> wd m pt i = 4096 * i + 3) ->
  (forall i, 0 <= i < 1024 -> wd m pd i = dir_word 4 i) ->
  (forall p, 0 <= p < 16777216 -> walk m (pd / 4096) p = Some (p, true, false) /\
    walk m (pd / 4096) (VMM_KERNEL_VIRTUAL_BASE + p) = Some (p, true, false)) /\
  (forall v, vaddr_ok v -> 16777216 <= v -> v < VMM_KERNEL_VIRTUAL_BASE \/ VMM_KERNEL_VIRTUAL_BASE + 16777216 <= v ->
    walk m (pd / 4096) v = None).
Proof.
  intros Ht Hd. set (q := pd / 4096). assert (Hq : pd = q * 4096) by (unfold q; Z.div_mod_to_equations; lia).
  assert (Hde : forall i, 0 <= i < 1024 -> entry m q i = dir_word 4 i) by (intros i Hi; unfold entry; by rewrite <- Hq, Hd).
  assert (Hte : forall k j, 0 <= k < 4 -> 0 <= j < 1024 -> entry m (q + 1 + k) j = (1024 * k + j) * 4096 + 3).
  { intros k j Hk Hj. unfold entry. replace ((q + 1 + k) * 4096 + 4 * j) with (pt + 4 * (1024 * k + j)) by lia.
    rewrite Ht by lia. lia. }
  assert (Hw : forall v k p, vaddr_ok v -> 0 <= k < 4 -> entry m q (pd_index v) = (q + 1 + k) * 4096 + 3 ->
    (1024 * k + pt_index v) * 4096 + v mod 4096 = p -> walk m q v = Some (p, true, false)).
  { intros v k p Hv Hk He Hp. unfold walk. cbv zeta. rewrite He.
    destruct (boot_entry (q + 1 + k)) as (-> & -> & -> & ->).
    pose proof (proj2 (pt_index_of v)) as Hj. rewrite Hte by lia.
    destruct (boot_entry (1024 * k + pt_index v)) as (-> & -> & -> & ->). by rewrite Hp. }
  unfold vaddr_ok in Hw. split.
  - intros p Hp. split.
    + apply (Hw p (pd_index p)); [lia|unfold pd_index; Z.div_mod_to_equations; lia| |unfold pd_index, pt_index; Z.div_mod_to_equations; lia].
      assert (Hi : 0 <= pd_index p < 4) by (unfold pd_index; Z.div_mod_to_equations; lia).
      rewrite Hde by lia. unfold dir_word. rewrite (proj2 (Z.ltb_lt _ _)) by lia. lia.
    + assert (Hi : pd_index (VMM_KERNEL_VIRTUAL_BASE + p) = 768 + pd_index p) by (unfold pd_index; Z.div_mod_to_equations; lia).
      assert (Hi' : 0 <= pd_index p < 4) by (unfold pd_index; Z.div_mod_to_equations; lia).
      apply (Hw _ (pd_index p)); [lia|lia| |unfold pd_index, pt_index; Z.div_mod_to_equations; lia].
      rewrite Hi, Hde by lia. unfold dir_word.
      rewrite (proj2 (Z.ltb_ge _ _)), (proj2 (Z.leb_le _ _)), (proj2 (Z.ltb_lt _ _)) by lia. simpl. lia.
  - intros v Hv Hlo Hhi. unfold walk. cbv zeta. unfold vaddr_ok in Hv.
    assert (Hi : 4 <= pd_index v < 1024 /\ (pd_index v < 768 \/ 772 <= pd_index v)) by (unfold pd_index; Z.div_mod_to_equations; lia).
    rewrite Hde by lia. unfold dir_word. rewrite (proj2 (Z.ltb_ge _ _)) by lia.
    by destruct (768 <=? pd_index v) eqn:E1, (pd_index v <? 768 + 4) eqn:E2; bool_simpl; simpl; try lia.
Qed.

(** C25: [_start] terminates: whatever the memory held, it reaches the higher
    half with paging on, the loader's magic and info address in [ebp] and
    [esi], and a directory that maps the first 16 MiB twice, where they are and
    at [KERNEL_VIRTUAL_BASE], for the kernel alone, and nothing else. *)
Theorem bootstrap_maps c :
  exists n c', run callee ret_addr n start_text 0 c = Some (Jumped higher_half_start, c') /\
    rget EBP c' = rget EAX c /\ rget ESI c' = rget EBX c /\
    c_cr3 c' = pd /\ c_cr0 c' = Z.lor (c_cr0 c) 0x80000000 /\
    (forall p, 0 <= p < 16777216 -> walk (cmem c') (pd / 4096) p = Some (p, true, false) /\
      walk (cmem c') (pd / 4096) (VMM_KERNEL_VIRTUAL_BASE + p) = Some (p, true, false)) /\
    (forall v, vaddr_ok v -> 16777216 <= v ->
      v < VMM_KERNEL_VIRTUAL_BASE \/ VMM_KERNEL_VIRTUAL_BASE + 16777216 <= v -> walk (cmem c') (pd / 4096) v = None) /\
    only_changes (fun a => pd <= a < pd + 5 * 4096) (cmem c) (cmem c').
Proof.
  destruct c as [[a0 c0 d b sp bp si di] m z x y].
  destruct (rep_stosl_eq 1024 d b sp a0 b pd m z x y ltac:(lia) ltac:(lia)) as (m1 & Hrep & Hz & O1).
  destruct (fill_loop_spec d b sp a0 b m1 z x y) as (n2 & m2 & Hgo2 & Hw2 & O2).
  assert (Hz2 : forall i, 0 <= i < 1024 -> wd m2 pd i = 0).
  { intros i Hi. rewrite (only_changes_load32 _ m1 m2 _ O2) by lia. by apply Hz. }
  destruct (link_loop_spec d b sp a0 b m2 z x y Hz2) as (n3 & m3 & Hgo3 & Hw3 & O3).
  assert (Hw3' : forall i, 0 <= i < 4096 -> wd m3 pt i = 4096 * i + 3).
  { intros i Hi. rewrite (only_changes_load32 _ m2 m3 _ O3) by lia. by apply Hw2. }
  destruct (boot_walk m3 Hw3' Hw3) as [Hmap Hnone].
  exists (10 + (n2 + (4 + (n3 + 7))))%nat,
    (mkCpu (mkRegs higher_half_start 4 d b sp a0 b pd) m3 true (Z.lor x 0x80000000) pd).
  split; [|do 4 (split; [done|]); split; [exact Hmap|]; split; [exact Hnone|]].
  - rewrite (go_run callee ret_addr start_text 10 0 _ 10 (at_fill 0 d b sp a0 b m1 z x y)); cycle 1.
    { do 6 (econstructor; [reflexivity|]). econstructor.
      { unfold step. cbn [start_text lookup list_lookup]. isimpl. rewrite Z.lxor_nilpotent, Hrep. reflexivity. }
      do 2 (econstructor; [reflexivity|]). econstructor; [|constructor].
      unfold step. cbn [start_text lookup list_lookup]. isimpl. unfold at_fill. replace (pt + 4 * 0) with pt by lia. reflexivity. }
    rewrite (go_run callee ret_addr start_text n2 10 _ 14 (at_fill 4096 d b sp a0 b m2 z x y)) by exact Hgo2.
    rewrite (go_run callee ret_addr start_text 4 14 _ 18 (at_link 0 d b sp a0 b m2 z x y)); cycle 1.
    { do 3 (econstructor; [reflexivity|]). econstructor; [|constructor].
      unfold step. cbn [start_text lookup list_lookup]. unfold at_fill, at_link. isimpl. rewrite Z.lxor_nilpotent.
      rewrite lor_page' by (Z.div_mod_to_equations; lia). replace (pt + 3 + 4096 * 0) with (pt + 3) by lia. reflexivity. }
    rewrite (go_run callee ret_addr start_text n3 18 _ 24 (at_link 4 d b sp a0 b m3 true x y)) by exact Hgo3.
    unfold at_link. do 7 (istep; isimpl). reflexivity.
  - cbn [cmem]. etransitivity; [eapply only_changes_mono; [|exact O1]; simpl; lia|].
    etransitivity; [eapply only_changes_mono; [|exact O2]; simpl; lia|].
    eapply only_changes_mono; [|exact O3]. simpl. lia.
Qed.
End start.
