(* ===== verification/Gdt.v ===== *)
(** * Segments (src/kernel/arch/i386/gdt.c, gdt.h, gdt_flush.S)

    The descriptor table as an array of descriptors, the task-state segment,
    and the segment registers of the processor after [gdt_flush] and
    [tss_flush].  How the processor reads a descriptor is written down in
    [seg_base], [seg_limit] and the predicates after them. *)

From S2P Require Import Prelude.

Abbreviation GDT_ENTRIES := 6.
Abbreviation TSS_ACCESS := 0x89.
Abbreviation TSS_FLAGS := 0.
Abbreviation SEGMENT_LIMIT_4G := 0xFFFFF.
Abbreviation SEGMENT_FLAGS_4K_32BIT := 0xC0.
Abbreviation GDT_KERNEL_CODE := 0x08.
Abbreviation GDT_KERNEL_DATA := 0x10.
Abbreviation GDT_USER_CODE := 0x18.
Abbreviation GDT_USER_DATA := 0x20.
Abbreviation GDT_TSS := 0x28.

(** ** Data *)

Record gdt_descriptor := mkDesc {
  limit_low : Z; base_low : Z; base_middle : Z; access : Z; granularity : Z; base_high : Z;
}.

(** [gdt_ptr] of gdt.h, [idt_ptr] of idt.h. *)
Record table_ptr := mkPtr { ptr_limit : Z; ptr_base : Z }.

Record i386_tss := mkTss {
  prev_tss : Z; esp0 : Z; ss0 : Z; esp1 : Z; ss1 : Z; esp2 : Z; ss2 : Z; tss_cr3 : Z;
  tss_eip : Z; tss_eflags : Z; tss_eax : Z; tss_ecx : Z; tss_edx : Z; tss_ebx : Z;
  tss_esp : Z; tss_ebp : Z; tss_esi : Z; tss_edi : Z;
  tss_es : Z; tss_cs : Z; tss_ss : Z; tss_ds : Z; tss_fs : Z; tss_gs : Z; tss_ldt : Z;
  tss_trap : Z; iopb : Z;
}.
Definition zero_tss : i386_tss := mkTss 0 0 0 0 0 0 0 0 0 0 0 0 0 0 0 0 0 0 0 0 0 0 0 0 0 0 0.
(** 25 words and two halves, packed. *)
Abbreviation SIZEOF_TSS := 104.
Abbreviation SIZEOF_DESCRIPTOR := 8.

Record gdt_vars := mkGdt { gdt : list gdt_descriptor; gdtr : table_ptr; tss : i386_tss }.

(** The registers that the flushes load. *)
Record seg_regs := mkSegs {
  r_gdtr : table_ptr;
  r_cs : Z; r_ds : Z; r_es : Z; r_fs : Z; r_gs : Z; r_ss : Z;
  r_tr : Z;
}.

(** Where the linker put them. *)
Record gdt_symbols := mkGdtSyms { gdt_at : Z; tss_at : Z; stack_top : Z }.

(** ** Operations *)

Definition new_descriptor (base limit access flags : Z) : gdt_descriptor :=
  mkDesc (u16 (Z.land limit 0xFFFF)) (u16 (Z.land base 0xFFFF))
    (u8 (Z.shiftr (Z.land base 0xFF0000) 16)) (u8 access)
    (u8 (Z.lor (Z.land flags 0xF0) (Z.land (Z.shiftr limit 16) 0x0F)))
    (u8 (Z.shiftr (Z.land base 0xFF000000) 24)).

Definition with_ss0 (v : Z) (t : i386_tss) : i386_tss :=
  mkTss (prev_tss t) (esp0 t) v (esp1 t) (ss1 t) (esp2 t) (ss2 t) (tss_cr3 t)
    (tss_eip t) (tss_eflags t) (tss_eax t) (tss_ecx t) (tss_edx t) (tss_ebx t)
    (tss_esp t) (tss_ebp t) (tss_esi t) (tss_edi t)
    (tss_es t) (tss_cs t) (tss_ss t) (tss_ds t) (tss_fs t) (tss_gs t) (tss_ldt t) (tss_trap t) (iopb t).
Definition with_esp0 (v : Z) (t : i386_tss) : i386_tss :=
  mkTss (prev_tss t) v (ss0 t) (esp1 t) (ss1 t) (esp2 t) (ss2 t) (tss_cr3 t)
    (tss_eip t) (tss_eflags t) (tss_eax t) (tss_ecx t) (tss_edx t) (tss_ebx t)
    (tss_esp t) (tss_ebp t) (tss_esi t) (tss_edi t)
    (tss_es t) (tss_cs t) (tss_ss t) (tss_ds t) (tss_fs t) (tss_gs t) (tss_ldt t) (tss_trap t) (iopb t).
Definition with_iopb (v : Z) (t : i386_tss) : i386_tss :=
  mkTss (prev_tss t) (esp0 t) (ss0 t) (esp1 t) (ss1 t) (esp2 t) (ss2 t) (tss_cr3 t)
    (tss_eip t) (tss_eflags t) (tss_eax t) (tss_ecx t) (tss_edx t) (tss_ebx t)
    (tss_esp t) (tss_ebp t) (tss_esi t) (tss_edi t)
    (tss_es t) (tss_cs t) (tss_ss t) (tss_ds t) (tss_fs t) (tss_gs t) (tss_ldt t) (tss_trap t) v.

Definition tss_init (y : gdt_symbols) (t : i386_tss) : i386_tss :=
  let t := with_ss0 GDT_KERNEL_DATA t in
  let t := with_esp0 (stack_top y) t in
  with_iopb SIZEOF_TSS t.

(** gdt_flush.S: [lgdt], the data segments, and the far jump that loads CS. *)
Definition gdt_flush (p : table_ptr) (r : seg_regs) : seg_regs := mkSegs p 0x08 0x10 0x10 0x10 0x10 0x10 (r_tr r).
Definition tss_flush (selector : Z) (r : seg_regs) : seg_regs :=
  mkSegs (r_gdtr r) (r_cs r) (r_ds r) (r_es r) (r_fs r) (r_gs r) (r_ss r) selector.

Definition set_gdt (i : nat) (d : gdt_descriptor) (g : gdt_vars) : gdt_vars := mkGdt (<[i := d]> (gdt g)) (gdtr g) (tss g).

Definition gdt_init (y : gdt_symbols) (g : gdt_vars) (r : seg_regs) : gdt_vars * seg_regs :=
  let g := mkGdt (gdt g) (gdtr g) (tss_init y (tss g)) in
  let g := set_gdt 0 (new_descriptor 0 0 0 0) g in
  let g := set_gdt 1 (new_descriptor 0 SEGMENT_LIMIT_4G 0x9A SEGMENT_FLAGS_4K_32BIT) g in
  let g := set_gdt 2 (new_descriptor 0 SEGMENT_LIMIT_4G 0x92 SEGMENT_FLAGS_4K_32BIT) g in
  let g := set_gdt 3 (new_descriptor 0 SEGMENT_LIMIT_4G 0xFA SEGMENT_FLAGS_4K_32BIT) g in
  let g := set_gdt 4 (new_descriptor 0 SEGMENT_LIMIT_4G 0xF2 SEGMENT_FLAGS_4K_32BIT) g in
  let g := set_gdt 5 (new_descriptor (tss_at y) (SIZEOF_TSS - 1) TSS_ACCESS TSS_FLAGS) g in
  let g := mkGdt (gdt g) (mkPtr (GDT_ENTRIES * SIZEOF_DESCRIPTOR - 1) (gdt_at y)) (tss g) in
  let r := gdt_flush (gdtr g) r in
  (g, tss_flush GDT_TSS r).

(** ** The processor's view *)

Definition seg_base (d : gdt_descriptor) : Z := base_low d + base_middle d * 65536 + base_high d * 16777216.
Definition seg_raw_limit (d : gdt_descriptor) : Z := limit_low d + (granularity d mod 16) * 65536.
(** The last offset in the segment: pages of 4 KiB when the G bit is set. *)
Definition seg_limit (d : gdt_descriptor) : Z :=
  if Z.testbit (granularity d) 7 then seg_raw_limit d * 4096 + 4095 else seg_raw_limit d.
Definition seg_dpl (d : gdt_descriptor) : Z := Z.land (Z.shiftr (access d) 5) 3.
Definition seg_present (d : gdt_descriptor) : bool := Z.testbit (access d) 7.
Definition seg_memory (d : gdt_descriptor) : bool := Z.testbit (access d) 4.    (** not a system segment *)
(** The type of a system segment; 9 is a 32-bit task-state segment that is not
    busy. *)
Definition seg_type (d : gdt_descriptor) : Z := Z.land (access d) 0xF.
Definition seg_exec (d : gdt_descriptor) : bool := Z.testbit (access d) 3.
Definition seg_rw (d : gdt_descriptor) : bool := Z.testbit (access d) 1.        (** readable code, writable data *)
Definition seg_32 (d : gdt_descriptor) : bool := Z.testbit (granularity d) 6.

(** The descriptor that a selector names. *)
Definition selected (g : list gdt_descriptor) (p : table_ptr) (sel : Z) : option gdt_descriptor :=
  if sel + 7 - sel mod 8 <=? ptr_limit p then g !! Z.to_nat (sel / 8) else None.
Definition rpl (sel : Z) : Z := sel mod 4.

(** A flat 32-bit segment of ring [ring]. *)
Record flat (d : gdt_descriptor) (ring : Z) (code : bool) : Prop := {
  fl_base : seg_base d = 0;
  fl_limit : seg_limit d = 4294967295;
  fl_dpl : seg_dpl d = ring;
  fl_present : seg_present d = true;
  fl_memory : seg_memory d = true;
  fl_code : seg_exec d = code;
  fl_rw : seg_rw d = true;
  fl_32 : seg_32 d = true;
}.

Lemma base_fields b :
  0 <= b < 4294967296 ->
  u16 (Z.land b 0xFFFF) + u8 (Z.shiftr (Z.land b 0xFF0000) 16) * 65536 + u8 (Z.shiftr (Z.land b 0xFF000000) 24) * 16777216 = b.
Proof.
  intros Hb. rewrite !Z.shiftr_land. change (Z.shiftr 0xFF0000 16) with (Z.ones 8). change (Z.shiftr 0xFF000000 24) with (Z.ones 8).
  change 0xFFFF with (Z.ones 16). rewrite !Z.land_ones, !Z.shiftr_div_pow2 by lia. unfold wrap.
  change (2 ^ 16) with 65536. change (2 ^ 24) with 16777216. change (2 ^ 8) with 256. Z.div_mod_to_equations. lia.
Qed.

Lemma limit_fields l flags :
  0 <= l < 1048576 ->
  u16 (Z.land l 0xFFFF) + (u8 (Z.lor (Z.land flags 0xF0) (Z.land (Z.shiftr l 16) 0x0F)) mod 16) * 65536 = l.
Proof.
  intros Hl. assert (E : u8 (Z.lor (Z.land flags 0xF0) (Z.land (Z.shiftr l 16) 0x0F)) mod 16 = l / 65536).
  { unfold wrap. change (2 ^ 8) with 256. change 16 with (2 ^ 4). rewrite <- !Z.land_ones by lia. change 256 with (2 ^ 8). rewrite <- Z.land_ones by lia.
    change 0x0F with (Z.ones 4). rewrite <- Z.land_assoc. change (Z.land (Z.ones 8) (Z.ones 4)) with (Z.ones 4).
    rewrite Z.land_lor_distr_l, <- !Z.land_assoc, Z.land_diag. change (Z.land 0xF0 (Z.ones 4)) with 0.
    rewrite Z.land_0_r, Z.lor_0_l, Z.land_ones, Z.shiftr_div_pow2 by lia. apply Z.mod_small. Z.div_mod_to_equations. lia. }
  rewrite E. change 0xFFFF with (Z.ones 16). rewrite Z.land_ones by lia. unfold wrap. change (2 ^ 16) with 65536.
  Z.div_mod_to_equations. lia.
Qed.

(** The fields scattered over a descriptor come back together. *)
Lemma descriptor_fields base limit acc flags :
  0 <= base < 4294967296 -> 0 <= limit < 1048576 -> 0 <= acc < 256 ->
  let d := new_descriptor base limit acc flags in
  seg_base d = base /\ seg_raw_limit d = limit /\ access d = acc /\
  forall i, 4 <= i < 8 -> Z.testbit (granularity d) i = Z.testbit flags i.
Proof.
  intros Hb Hl Ha d. unfold d, seg_base, seg_raw_limit, new_descriptor.
  cbn [base_low base_middle base_high limit_low granularity access].
  split; [by apply base_fields|]. split; [by apply limit_fields|]. split; [by apply wrap_small|].
  intros i Hi. unfold wrap. rewrite Z.mod_pow2_bits_low by lia. rewrite Z.lor_spec, !Z.land_spec.
  assert (Hlow : Z.testbit 0x0F i = false) by (apply Z.bits_above_log2; simpl; lia).
  assert (Hhigh : Z.testbit 0xF0 i = true).
  { assert (i = 4 \/ i = 5 \/ i = 6 \/ i = 7) as [->|[->|[->| ->]]] by lia; done. }
  by rewrite Hlow, Hhigh, andb_true_r, andb_false_r, orb_false_r.
Qed.

