(* ===== verification/Idt.v ===== *)
(** * Interrupt gates (src/kernel/arch/i386/idt.c, idt.h, idt_flush.S)

    The table of 256 gates and how the processor reads one. *)

From S2P Require Import Prelude Gdt.

(** ** Data *)

Record idt_descriptor := mkGate { offset_low : Z; selector : Z; zero : Z; flags : Z; offset_high : Z }.

Record idt_vars := mkIdt { idt : list idt_descriptor; idtr : table_ptr }.

(** Where the linker put the stubs of isr_stub.S and the table. *)
Record idt_symbols := mkIdtSyms {
  exception_table : list Z;      (** ex0 to ex31 *)
  irq_table : list Z;            (** irq0 to irq15 *)
  isr_stub_at : Z;
  syscall_stub_at : Z;
  idt_at : Z;
}.

(** ** Operations *)

Definition new_descriptor (offset sel fl : Z) : idt_descriptor :=
  mkGate (u16 (Z.land offset 0xFFFF)) (u16 sel) 0 (u8 fl) (u16 (Z.shiftr (Z.land offset 0xFFFF0000) 16)).

Definition set_gate (i : Z) (d : idt_descriptor) (l : list idt_descriptor) : list idt_descriptor := <[Z.to_nat i := d]> l.

Definition idt_fill (y : idt_symbols) (l : list idt_descriptor) : list idt_descriptor :=
  let l := for_range 0 256 (fun i => set_gate i (new_descriptor (isr_stub_at y) GDT_KERNEL_CODE 0x8E)) l in
  let l := for_range 0 32 (fun i =>
    set_gate i (new_descriptor (default 0 (exception_table y !! Z.to_nat i)) GDT_KERNEL_CODE 0x8E)) l in
  let l := for_range 0 16 (fun i =>
    set_gate (i + 32) (new_descriptor (default 0 (irq_table y !! Z.to_nat i)) GDT_KERNEL_CODE 0x8E)) l in
  set_gate 0x80 (new_descriptor (syscall_stub_at y) GDT_KERNEL_CODE 0xEF) l.

(** The result is the table and the register that [idt_flush] loads. *)
Definition idt_init (y : idt_symbols) (v : idt_vars) : idt_vars * table_ptr :=
  let v := mkIdt (idt_fill y (idt v)) (mkPtr (256 * SIZEOF_DESCRIPTOR - 1) (idt_at y)) in
  (v, idtr v).

(** ** The processor's view *)

Definition gate_offset (d : idt_descriptor) : Z := offset_low d + offset_high d * 65536.
Definition gate_present (d : idt_descriptor) : bool := Z.testbit (flags d) 7.
(** The ring that may reach the gate with [int]. *)
Definition gate_dpl (d : idt_descriptor) : Z := Z.land (Z.shiftr (flags d) 5) 3.
Definition gate_type (d : idt_descriptor) : Z := flags d mod 32.
(** 32-bit gates; an interrupt gate clears IF, a trap gate does not. *)
Definition interrupt_gate (d : idt_descriptor) : bool := gate_type d =? 0x0E.
Definition trap_gate (d : idt_descriptor) : bool := gate_type d =? 0x0F.

(** The routine of vector [v]. *)
Definition handler (y : idt_symbols) (v : Z) : Z :=
  if v <? 32 then default 0 (exception_table y !! Z.to_nat v)
  else if v <? 48 then default 0 (irq_table y !! Z.to_nat (v - 32))
  else if v =? 0x80 then syscall_stub_at y
  else isr_stub_at y.

Record gate_ok (d : idt_descriptor) (target : Z) (user : bool) : Prop := {
  go_target : gate_offset d = target;
  go_selector : selector d = GDT_KERNEL_CODE;
  go_present : gate_present d = true;
  go_dpl : gate_dpl d = if user then 3 else 0;
  go_type : if user then trap_gate d = true else interrupt_gate d = true;
}.

Definition symbols_ok (y : idt_symbols) : Prop :=
  length (exception_table y) = 32%nat /\ length (irq_table y) = 16%nat /\
  Forall (fun a => 0 <= a < 4294967296) (isr_stub_at y :: syscall_stub_at y :: exception_table y ++ irq_table y).

Lemma offset_fields a :
  0 <= a < 4294967296 -> u16 (Z.land a 0xFFFF) + u16 (Z.shiftr (Z.land a 0xFFFF0000) 16) * 65536 = a.
Proof.
  intros Ha. rewrite Z.shiftr_land. change (Z.shiftr 0xFFFF0000 16) with (Z.ones 16). change 0xFFFF with (Z.ones 16).
  rewrite !Z.land_ones, !Z.shiftr_div_pow2 by lia. unfold wrap. change (2 ^ 16) with 65536. Z.div_mod_to_equations. lia.
Qed.

Lemma gate_of a (user : bool) :
  0 <= a < 4294967296 -> gate_ok (new_descriptor a GDT_KERNEL_CODE (if user then 0xEF else 0x8E)) a user.
Proof. intros Ha. split; [by apply offset_fields|destruct user; reflexivity..]. Qed.

(** A loop that fills [n] gates from [k] on. *)
Lemma fill_gates (l : list idt_descriptor) (f : Z -> idt_descriptor) k n :
  0 <= k -> 0 <= n -> k + n <= Z.of_nat (length l) ->
  let l' := for_range 0 n (fun i => set_gate (i + k) (f i)) l in
  length l' = length l /\
  forall v, 0 <= v < Z.of_nat (length l) ->
    l' !! Z.to_nat v = if (k <=? v) && (v <? k + n) then Some (f (v - k)) else l !! Z.to_nat v.
Proof.
  intros Hk Hn Hl. cbv zeta. for_inv (fun m x => length x = length l /\ forall v, 0 <= v < Z.of_nat (length l) ->
    x !! Z.to_nat v = if (k <=? v) && (v <? k + m) then Some (f (v - k)) else l !! Z.to_nat v); [lia|..].
  - split; [done|]. intros v Hv. destruct (Z.leb_spec k v), (Z.ltb_spec v (k + 0)); simpl; done || lia.
  - intros m x Hm [Hx Hg]. unfold set_gate. split; [by rewrite length_insert|]. intros v Hv.
    destruct (decide (v = m + k)) as [->|Hne].
    + rewrite list_lookup_insert_eq by lia. destruct (Z.leb_spec k (m + k)), (Z.ltb_spec (m + k) (k + (m + 1))); simpl; try lia.
      do 2 f_equal. lia.
    + rewrite list_lookup_insert_ne, Hg by lia.
      destruct (Z.leb_spec k v), (Z.ltb_spec v (k + m)), (Z.ltb_spec v (k + (m + 1))); simpl; done || lia.
Qed.

Lemma fill_gates0 (l : list idt_descriptor) (f : Z -> idt_descriptor) n :
  0 <= n <= Z.of_nat (length l) ->
  let l' := for_range 0 n (fun i => set_gate i (f i)) l in
  length l' = length l /\
  forall v, 0 <= v < Z.of_nat (length l) -> l' !! Z.to_nat v = if v <? n then Some (f v) else l !! Z.to_nat v.
Proof.
  intros Hn. cbv zeta. rewrite (for_range_ext 0 n _ (fun i => set_gate (i + 0) (f i))) by (intros; by rewrite Z.add_0_r).
  destruct (fill_gates l f 0 n) as [H1 H2]; [lia..|]. split; [done|]. intros v Hv. rewrite H2 by done.
  rewrite (proj2 (Z.leb_le 0 v)), Z.add_0_l, Z.sub_0_r by lia. done.
Qed.

Lemma idt_gates y v0 :
  length (idt v0) = 256%nat -> symbols_ok y ->
  forall v, 0 <= v < 256 -> exists d, idt (idt_init y v0).1 !! Z.to_nat v = Some d /\ gate_ok d (handler y v) (v =? 0x80).
Proof.
  intros Hl (He & Hi & Hall). unfold idt_init, idt_fill. cbn [idt fst].
  destruct (fill_gates0 (idt v0) (fun _ => new_descriptor (isr_stub_at y) GDT_KERNEL_CODE 0x8E) 256) as [L1 G1]; [lia|].
  set (l1 := for_range 0 256 _ _) in *. clearbody l1.
  destruct (fill_gates0 l1 (fun i => new_descriptor (default 0 (exception_table y !! Z.to_nat i)) GDT_KERNEL_CODE 0x8E) 32) as [L2 G2]; [lia|].
  set (l2 := for_range 0 32 _ _) in *. clearbody l2.
  destruct (fill_gates l2 (fun i => new_descriptor (default 0 (irq_table y !! Z.to_nat i)) GDT_KERNEL_CODE 0x8E) 32 16) as [L3 G3]; [lia..|].
  set (l3 := for_range 0 16 _ _) in *. clearbody l3.
  rewrite Forall_cons, Forall_cons, Forall_app in Hall. destruct Hall as (His & Hsys & Hex & Hirq).
  assert (Hat : forall l i, Forall (fun a => 0 <= a < 4294967296) l -> 0 <= default 0 (l !! i) < 4294967296).
  { intros l i Hf. destruct (l !! i) as [a|] eqn:Ha; simpl; [|lia]. by apply (Forall_lookup_1 _ _ _ _ Hf Ha). }
  intros v Hv. unfold set_gate, handler. destruct (Z.eqb_spec v 0x80) as [->|Hne].
  { rewrite list_lookup_insert_eq by lia. eexists. split; [done|]. apply (gate_of _ true Hsys). }
  rewrite list_lookup_insert_ne, G3, G2, G1 by lia.
  destruct (Z.ltb_spec v 32), (Z.leb_spec 32 v), (Z.ltb_spec v (32 + 16)), (Z.ltb_spec v 48), (Z.ltb_spec v 256); simpl; try lia;
    eexists; (split; [done|]); apply (gate_of _ false); done || by apply Hat.
Qed.

(** C29: after [idt_init] every vector has a present gate into kernel code that
    decodes to the stub meant for it; ring 3 can reach 0x80 and nothing else
    with [int], and interrupts stay enabled only through that gate. *)
Theorem idt_init_correct y v0 :
  length (idt v0) = 256%nat -> symbols_ok y ->
  let '(v', r) := idt_init y v0 in
  r = mkPtr 2047 (idt_at y) /\
  forall v, 0 <= v < 256 -> exists d, idt v' !! Z.to_nat v = Some d /\ gate_ok d (handler y v) (v =? 0x80).
Proof. intros Hl Hy. pose proof (idt_gates y v0 Hl Hy) as H. by destruct (idt_init y v0) as [v' r] eqn:E; injection E as <- <-. Qed.
