(* ===== verification/Ports.v ===== *)
(** * Devices behind the I/O ports (src/kernel/arch/i386/io.h, pic.c, pit.c, arch.c)

    [outb] and [inb] act on the registers of the two 8259 interrupt controllers,
    the 8254 timer, the UART of COM1 and the keyboard controller, as far as the
    kernel programs them.  The rest of the file is the code that programs the
    first two. *)

From S2P Require Import Prelude Gdt Idt.

(** ** The 8259 *)

(** Which word of the initialisation sequence comes next on the data port. *)
Inductive pic_state := PicReady | PicIcw2 | PicIcw3 | PicIcw4.
#[export] Instance pic_state_eq_dec : EqDecision pic_state.
Proof. solve_decision. Defined.

Record pic := mkPic {
  pic_st : pic_state;
  pic_need4 : bool;              (** ICW1 announced an ICW4 *)
  pic_vector : Z;                (** ICW2: vector of line 0 *)
  pic_icw3 : Z;                  (** cascading *)
  pic_icw4 : Z;
  pic_imr : Z;                   (** mask *)
  pic_isr : Z;                   (** lines in service *)
}.

(** Command port: ICW1 starts the sequence and clears the mask; a non-specific
    EOI ends the line of highest priority that is in service. *)
Definition pic_command (v : Z) (p : pic) : pic :=
  if Z.testbit v 4 then mkPic PicIcw2 (Z.testbit v 0) (pic_vector p) (pic_icw3 p) (pic_icw4 p) 0 0
  else if v =? 0x20 then
    match find_range 0 8 (Z.testbit (pic_isr p)) with
    | Some i => mkPic (pic_st p) (pic_need4 p) (pic_vector p) (pic_icw3 p) (pic_icw4 p) (pic_imr p) (Z.clearbit (pic_isr p) i)
    | None => p
    end
  else p.

Definition pic_data (v : Z) (p : pic) : pic :=
  match pic_st p with
  | PicIcw2 => mkPic PicIcw3 (pic_need4 p) (v - v mod 8) (pic_icw3 p) (pic_icw4 p) (pic_imr p) (pic_isr p)
  | PicIcw3 => mkPic (if pic_need4 p then PicIcw4 else PicReady) (pic_need4 p) (pic_vector p) v (pic_icw4 p) (pic_imr p) (pic_isr p)
  | PicIcw4 => mkPic PicReady (pic_need4 p) (pic_vector p) (pic_icw3 p) v (pic_imr p) (pic_isr p)
  | PicReady => mkPic PicReady (pic_need4 p) (pic_vector p) (pic_icw3 p) (pic_icw4 p) v (pic_isr p)
  end.

(** ** The 8254, channel 0 *)

Record pit := mkPit {
  pit_control : Z;
  pit_low : option Z;            (** the low byte, while the high byte is awaited *)
  pit_reload : Z;
}.

Definition pit_write (v : Z) (p : pit) : pit :=
  match pit_low p with
  | None => mkPit (pit_control p) (Some v) (pit_reload p)
  | Some l => mkPit (pit_control p) None (l + v * 256)
  end.

(** ** The UART *)

Record uart := mkUart {
  u_lcr : Z;
  u_divisor : Z;
  u_ier : Z;
  u_fcr : Z;
  u_mcr : Z;
  u_sent : list Z;               (** what went out on the line *)
  u_busy : nat;                  (** reads of the status before the buffer is empty *)
  u_delays : nat -> nat;         (** how long the next bytes will take *)
}.

Definition dlab (u : uart) : bool := Z.testbit (u_lcr u) 7.

(** The registers at COM1 + 0 and COM1 + 1 depend on DLAB. *)
Definition uart_write (r v : Z) (u : uart) : uart :=
  match r with
  | 0 => if dlab u then mkUart (u_lcr u) (u_divisor u - u_divisor u mod 256 + v) (u_ier u) (u_fcr u) (u_mcr u) (u_sent u) (u_busy u) (u_delays u)
         else mkUart (u_lcr u) (u_divisor u) (u_ier u) (u_fcr u) (u_mcr u) (u_sent u ++ [v])
                (u_delays u (length (u_sent u))) (u_delays u)
  | 1 => if dlab u then mkUart (u_lcr u) (v * 256 + u_divisor u mod 256) (u_ier u) (u_fcr u) (u_mcr u) (u_sent u) (u_busy u) (u_delays u)
         else mkUart (u_lcr u) (u_divisor u) v (u_fcr u) (u_mcr u) (u_sent u) (u_busy u) (u_delays u)
  | 2 => mkUart (u_lcr u) (u_divisor u) (u_ier u) v (u_mcr u) (u_sent u) (u_busy u) (u_delays u)
  | 3 => mkUart v (u_divisor u) (u_ier u) (u_fcr u) (u_mcr u) (u_sent u) (u_busy u) (u_delays u)
  | 4 => mkUart (u_lcr u) (u_divisor u) (u_ier u) (u_fcr u) v (u_sent u) (u_busy u) (u_delays u)
  | _ => u
  end.

(** Reading the line status: THRE (bit 5) once the buffer is empty. *)
Definition uart_status (u : uart) : Z * uart :=
  match u_busy u with
  | O => (0x60, u)
  | S n => (0, mkUart (u_lcr u) (u_divisor u) (u_ier u) (u_fcr u) (u_mcr u) (u_sent u) n (u_delays u))
  end.

(** ** All of them *)

Record devices := mkDev {
  pic1 : pic;
  pic2 : pic;
  d_pit : pit;
  com1 : uart;
  kbc_busy : nat;                (** reads of its status before the keyboard controller takes a command *)
  kbc_command : option Z;
}.

Definition set_pic1 (p : pic) (d : devices) : devices := mkDev p (pic2 d) (d_pit d) (com1 d) (kbc_busy d) (kbc_command d).
Definition set_pic2 (p : pic) (d : devices) : devices := mkDev (pic1 d) p (d_pit d) (com1 d) (kbc_busy d) (kbc_command d).
Definition set_pit (p : pit) (d : devices) : devices := mkDev (pic1 d) (pic2 d) p (com1 d) (kbc_busy d) (kbc_command d).
Definition set_com1 (u : uart) (d : devices) : devices := mkDev (pic1 d) (pic2 d) (d_pit d) u (kbc_busy d) (kbc_command d).
Definition set_kbc (n : nat) (c : option Z) (d : devices) : devices := mkDev (pic1 d) (pic2 d) (d_pit d) (com1 d) n c.

Abbreviation COM1 := 0x3F8.
Abbreviation PIC1_COMMAND := 0x20.
Abbreviation PIC2_COMMAND := 0xA0.
Abbreviation PIC1_DATA := 0x21.
Abbreviation PIC2_DATA := 0xA1.
Abbreviation PIT_COMMAND := 0x43.
Abbreviation PIT_CHANNEL0 := 0x40.
Abbreviation KBC_STATUS_PORT := 0x64.

Definition outb (port v : Z) (d : devices) : devices :=
  let v := u8 v in
  if port =? PIC1_COMMAND then set_pic1 (pic_command v (pic1 d)) d
  else if port =? PIC1_DATA then set_pic1 (pic_data v (pic1 d)) d
  else if port =? PIC2_COMMAND then set_pic2 (pic_command v (pic2 d)) d
  else if port =? PIC2_DATA then set_pic2 (pic_data v (pic2 d)) d
  else if port =? PIT_COMMAND then set_pit (mkPit v None (pit_reload (d_pit d))) d
  else if port =? PIT_CHANNEL0 then set_pit (pit_write v (d_pit d)) d
  else if (COM1 <=? port) && (port <? COM1 + 8) then set_com1 (uart_write (port - COM1) v (com1 d)) d
  else if port =? KBC_STATUS_PORT then set_kbc (kbc_busy d) (Some v) d
  else d.

Definition inb (port : Z) (d : devices) : Z * devices :=
  if port =? PIC1_DATA then (pic_imr (pic1 d), d)
  else if port =? PIC2_DATA then (pic_imr (pic2 d), d)
  else if port =? COM1 + 5 then let '(v, u) := uart_status (com1 d) in (v, set_com1 u d)
  else if port =? KBC_STATUS_PORT then
    match kbc_busy d with
    | O => (0, d)
    | S n => (2, set_kbc n (kbc_command d) d)
    end
  else (0xFF, d).

(** ** pic.c *)

Abbreviation ICW1_INIT := 0x10.
Abbreviation ICW1_ICW4 := 0x01.
Abbreviation ICW4_8086 := 0x01.
Abbreviation PIC_EOI := 0x20.

Definition pic_remap (master_offset slave_offset : Z) (d : devices) : devices :=
  let '(mask1, d) := inb PIC1_DATA d in
  let '(mask2, d) := inb PIC2_DATA d in
  let d := outb PIC1_COMMAND (Z.lor ICW1_INIT ICW1_ICW4) d in
  let d := outb PIC2_COMMAND (Z.lor ICW1_INIT ICW1_ICW4) d in
  let d := outb PIC1_DATA master_offset d in
  let d := outb PIC2_DATA slave_offset d in
  let d := outb PIC1_DATA 0x04 d in
  let d := outb PIC2_DATA 0x02 d in
  let d := outb PIC1_DATA ICW4_8086 d in
  let d := outb PIC2_DATA ICW4_8086 d in
  let d := outb PIC1_DATA mask1 d in
  outb PIC2_DATA mask2 d.

Definition irq_to_port_bit (irq_line : Z) : Z * Z :=
  if irq_line <? 8 then (PIC1_DATA, irq_line) else (PIC2_DATA, u8 (irq_line - 8)).

Definition pic_set_mask (irq_line : Z) (d : devices) : devices :=
  let '(port, bit) := irq_to_port_bit irq_line in
  let '(mask, d) := inb port d in
  outb port (Z.lor mask (Z.shiftl 1 bit)) d.

Definition pic_clear_mask (irq_line : Z) (d : devices) : devices :=
  let '(port, bit) := irq_to_port_bit irq_line in
  let '(mask, d) := inb port d in
  outb port (Z.land mask (Z.lnot (Z.shiftl 1 bit))) d.

Definition pic_send_eoi (irq_line : Z) (d : devices) : devices :=
  let d := if 8 <=? irq_line then outb PIC2_COMMAND PIC_EOI d else d in
  outb PIC1_COMMAND PIC_EOI d.

(** ** pit.c *)

Abbreviation PIT_MODE2 := 0x34.

Definition pit_divisor (hz : Z) : Z :=
  let hz := if hz =? 0 then 1 else hz in
  let divisor := u16 (1193182 / hz) in
  if divisor =? 0 then 1 else divisor.

Definition pit_init (hz : Z) (d : devices) : devices :=
  let divisor := pit_divisor hz in
  let d := outb PIT_COMMAND PIT_MODE2 d in
  let d := outb PIT_CHANNEL0 (Z.land divisor 0xFF) d in
  outb PIT_CHANNEL0 (Z.land (Z.shiftr divisor 8) 0xFF) d.

(** ** arch.c *)

(** The state of the processor and the devices that the kernel sets up. *)
Record arch := mkArch {
  a_gdt : gdt_vars;
  a_segs : seg_regs;
  a_idt : idt_vars;
  a_idtr : table_ptr;
  a_dev : devices;
}.

Definition on_dev (f : devices -> devices) (a : arch) : arch :=
  mkArch (a_gdt a) (a_segs a) (a_idt a) (a_idtr a) (f (a_dev a)).

Definition arch_init (yg : gdt_symbols) (yi : idt_symbols) (a : arch) : arch :=
  let '(g, r) := gdt_init yg (a_gdt a) (a_segs a) in
  let '(i, ir) := idt_init yi (a_idt a) in
  let a := mkArch g r i ir (a_dev a) in
  let a := on_dev (pic_remap 0x20 0x28) a in
  let a := on_dev (pit_init 100) a in
  let a := on_dev (pic_clear_mask 0) a in
  let a := on_dev (pic_clear_mask 1) a in
  on_dev (pic_clear_mask 2) a.

(** [kbc_wait_write_ready]: [None] when the fuel is used up. *)
Fixpoint kbc_wait_write_ready (fuel : nat) (d : devices) : option devices :=
  match fuel with
  | O => None
  | S fuel =>
    let '(v, d) := inb KBC_STATUS_PORT d in
    if negb (Z.land v 0x02 =? 0) then kbc_wait_write_ready fuel d else Some d
  end.

(** [arch_reboot] up to the loop that waits for the reset. *)
Abbreviation KBC_RESET_CMD := 0xFE.
Definition arch_reboot (fuel : nat) (d : devices) : option devices :=
  match kbc_wait_write_ready fuel d with
  | Some d => Some (outb KBC_STATUS_PORT KBC_RESET_CMD d)
  | None => None
  end.
