(* ===== verification/IrqLines.v ===== *)
(** * Interrupt lines: theorems about the controllers and the gates

    What the registers written by pic.c mean for the sixteen interrupt lines:
    the vector each one raises, whether it is masked, and what an
    end-of-interrupt does. *)

From S2P Require Import Prelude Gdt Idt Ports.

(** ** The sixteen lines *)

Definition line_vector (d : devices) (i : Z) : Z :=
  if i <? 8 then pic_vector (pic1 d) + i else pic_vector (pic2 d) + (i - 8).
Definition line_masked (d : devices) (i : Z) : bool :=
  if i <? 8 then Z.testbit (pic_imr (pic1 d)) i else Z.testbit (pic_imr (pic2 d)) (i - 8).

(** Both controllers take commands, in 8086 mode, the second one behind line 2
    of the first; the masks are bytes. *)
Record pics_ok (d : devices) : Prop := {
  pk_ready1 : pic_st (pic1 d) = PicReady;
  pk_ready2 : pic_st (pic2 d) = PicReady;
  pk_cascade : pic_icw3 (pic1 d) = Z.shiftl 1 2 /\ pic_icw3 (pic2 d) = 2;
  pk_mode : pic_icw4 (pic1 d) = ICW4_8086 /\ pic_icw4 (pic2 d) = ICW4_8086;
  pk_imr1 : 0 <= pic_imr (pic1 d) < 256;
  pk_imr2 : 0 <= pic_imr (pic2 d) < 256;
}.

Definition masks_ok (d : devices) : Prop := 0 <= pic_imr (pic1 d) < 256 /\ 0 <= pic_imr (pic2 d) < 256.

(** Everything but the controllers. *)
Definition same_rest (d d' : devices) : Prop :=
  d_pit d' = d_pit d /\ com1 d' = com1 d /\ kbc_busy d' = kbc_busy d /\ kbc_command d' = kbc_command d.

(** The initialisation sequence of one controller. *)
Lemma pic_sequence o c mask p :
  0 <= o < 256 -> o mod 8 = 0 -> 0 <= c < 256 -> 0 <= mask < 256 ->
  pic_data (u8 mask) (pic_data (u8 ICW4_8086) (pic_data (u8 c) (pic_data (u8 o) (pic_command (u8 (Z.lor ICW1_INIT ICW1_ICW4)) p)))) =
    mkPic PicReady true o c ICW4_8086 mask 0.
Proof.
  intros Ho Ho8 Hc Hm. rewrite (wrap_small 8 o), (wrap_small 8 c), (wrap_small 8 mask) by (simpl; lia).
  unfold pic_command. change (Z.testbit (u8 (Z.lor ICW1_INIT ICW1_ICW4)) 4) with true.
  change (Z.testbit (u8 (Z.lor ICW1_INIT ICW1_ICW4)) 0) with true. unfold pic_data. cbn [pic_st pic_need4 pic_vector pic_icw3 pic_icw4 pic_imr pic_isr].
  rewrite Ho8, Z.sub_0_r. done.
Qed.

Lemma pic_remap_spec m s d :
  masks_ok d -> 0 <= m < 256 -> m mod 8 = 0 -> 0 <= s < 256 -> s mod 8 = 0 ->
  let d' := pic_remap m s d in
  pics_ok d' /\ same_rest d d' /\ pic_isr (pic1 d') = 0 /\ pic_isr (pic2 d') = 0 /\
  (forall i, line_vector d' i = if i <? 8 then m + i else s + (i - 8)) /\
  forall i, line_masked d' i = line_masked d i.
Proof.
  intros [H1 H2] Hm Hm8 Hs Hs8. cbv zeta.
  assert (E : pic_remap m s d = mkDev (mkPic PicReady true m 4 ICW4_8086 (pic_imr (pic1 d)) 0)
    (mkPic PicReady true s 2 ICW4_8086 (pic_imr (pic2 d)) 0) (d_pit d) (com1 d) (kbc_busy d) (kbc_command d)).
  { rewrite <- (pic_sequence m 4 (pic_imr (pic1 d)) (pic1 d)), <- (pic_sequence s 2 (pic_imr (pic2 d)) (pic2 d)) by (done || lia). done. }
  rewrite E. split; [split; cbn; done|]. done.
Qed.

(** ** Masks *)

Lemma clear_bit_byte mask bit j :
  0 <= mask < 256 -> 0 <= bit < 8 -> 0 <= j < 8 ->
  0 <= u8 (Z.land mask (Z.lnot (Z.shiftl 1 bit))) < 256 /\
  Z.testbit (u8 (Z.land mask (Z.lnot (Z.shiftl 1 bit)))) j = if bit =? j then false else Z.testbit mask j.
Proof.
  intros Hm Hb Hj. split; [apply wrap_range; lia|]. unfold wrap. rewrite Z.mod_pow2_bits_low by lia.
  rewrite Z.land_spec, Z.lnot_spec, Z.shiftl_1_l, Z.pow2_bits_eqb by lia. destruct (Z.eqb_spec bit j); simpl; by rewrite ?andb_false_r, ?andb_true_r.
Qed.

Lemma set_bit_byte mask bit j :
  0 <= mask < 256 -> 0 <= bit < 8 -> 0 <= j < 8 ->
  0 <= u8 (Z.lor mask (Z.shiftl 1 bit)) < 256 /\
  Z.testbit (u8 (Z.lor mask (Z.shiftl 1 bit))) j = if bit =? j then true else Z.testbit mask j.
Proof.
  intros Hm Hb Hj. split; [apply wrap_range; lia|]. unfold wrap. rewrite Z.mod_pow2_bits_low by lia.
  rewrite Z.lor_spec, Z.shiftl_1_l, Z.pow2_bits_eqb by lia. destruct (Z.eqb_spec bit j); simpl; by rewrite ?orb_true_r, ?orb_false_r.
Qed.

(** [pic_clear_mask] and [pic_set_mask] change one line. *)
Lemma mask_spec (set : bool) i d :
  pics_ok d -> 0 <= i < 16 ->
  let d' := if set then pic_set_mask i d else pic_clear_mask i d in
  pics_ok d' /\ same_rest d d' /\ pic_isr (pic1 d') = pic_isr (pic1 d) /\ pic_isr (pic2 d') = pic_isr (pic2 d) /\
  (forall j, line_vector d' j = line_vector d j) /\
  forall j, 0 <= j < 16 -> line_masked d' j = if i =? j then set else line_masked d j.
Proof.
  intros [R1 R2 C M I1 I2] Hi. cbv zeta.
  destruct d as [p1 p2 pt cm kb kc], p1 as [st1 n1 v1 i31 i41 imr1 isr1], p2 as [st2 n2 v2 i32 i42 imr2 isr2].
  cbn [pic1 pic2 pic_imr pic_st pic_icw3 pic_icw4] in *. subst st1 st2.
  assert (E : i < 8 \/ 8 <= i) by lia. unfold pic_set_mask, pic_clear_mask, irq_to_port_bit.
  destruct (Z.ltb_spec i 8).
  - pose proof (fun j => clear_bit_byte imr1 i j I1 ltac:(lia)) as Hc. pose proof (fun j => set_bit_byte imr1 i j I1 ltac:(lia)) as Hs.
    destruct set; cbn -[Z.testbit Z.shiftl Z.lnot wrap];
      (split; [split; cbn -[Z.testbit Z.shiftl Z.lnot wrap]; try done; (apply (Hs 0) || apply (Hc 0)); lia|]);
      do 4 (split; [done|]); intros j Hj; unfold line_masked; cbn -[Z.testbit Z.shiftl Z.lnot wrap];
      (destruct (Z.ltb_spec j 8); [by (rewrite (proj2 (Hs j ltac:(lia))) || rewrite (proj2 (Hc j ltac:(lia))))|]);
      (destruct (Z.eqb_spec i j); [lia|done]).
  - rewrite (wrap_small 8 (i - 8)) by (simpl; lia).
    pose proof (fun j => clear_bit_byte imr2 (i - 8) j I2 ltac:(lia)) as Hc. pose proof (fun j => set_bit_byte imr2 (i - 8) j I2 ltac:(lia)) as Hs.
    destruct set; cbn -[Z.testbit Z.shiftl Z.lnot wrap Z.sub];
      (split; [split; cbn -[Z.testbit Z.shiftl Z.lnot wrap Z.sub]; try done; (apply (Hs 0) || apply (Hc 0)); lia|]);
      do 4 (split; [done|]); intros j Hj; unfold line_masked; cbn -[Z.testbit Z.shiftl Z.lnot wrap Z.sub];
      (destruct (Z.ltb_spec j 8); [by destruct (Z.eqb_spec i j); [lia|]|]);
      (rewrite (proj2 (Hs (j - 8) ltac:(lia))) || rewrite (proj2 (Hc (j - 8) ltac:(lia))));
      destruct (Z.eqb_spec (i - 8) (j - 8)), (Z.eqb_spec i j); done || lia.
Qed.

(** ** End of interrupt *)

(** The controllers hand line [i] to the processor. *)
Definition accept (i : Z) (d : devices) : devices :=
  let serve n p := mkPic (pic_st p) (pic_need4 p) (pic_vector p) (pic_icw3 p) (pic_icw4 p) (pic_imr p) (Z.setbit (pic_isr p) n) in
  if i <? 8 then set_pic1 (serve i (pic1 d)) d
  else set_pic2 (serve (i - 8) (pic2 d)) (set_pic1 (serve 2 (pic1 d)) d).

Lemma find_only_bit i : 0 <= i < 8 -> find_range 0 8 (Z.testbit (Z.setbit 0 i)) = Some i.
Proof.
  intros Hi. apply find_range_Some. split; [done|]. rewrite Z.setbit_eqb by lia. rewrite Z.eqb_refl. split; [done|].
  intros j Hj. rewrite Z.setbit_eqb by lia. rewrite (proj2 (Z.eqb_neq i j)) by lia. by rewrite Z.testbit_0_l.
Qed.

Lemma clear_only_bit i : 0 <= i -> Z.clearbit (Z.setbit 0 i) i = 0.
Proof.
  intros Hi. apply Z.bits_inj'. intros j Hj. rewrite Z.clearbit_eqb, Z.setbit_eqb, Z.testbit_0_l by lia.
  destruct (Z.eqb_spec i j); done.
Qed.

Lemma pic_eoi p i : 0 <= i < 8 -> pic_isr p = 0 ->
  pic_command PIC_EOI (mkPic (pic_st p) (pic_need4 p) (pic_vector p) (pic_icw3 p) (pic_icw4 p) (pic_imr p) (Z.setbit (pic_isr p) i)) = p.
Proof.
  intros Hi H0. unfold pic_command. change (Z.testbit PIC_EOI 4) with false. change (PIC_EOI =? 0x20) with true.
  cbn [pic_isr pic_st pic_need4 pic_vector pic_icw3 pic_icw4 pic_imr]. rewrite H0, find_only_bit by done.
  cbn [pic_isr]. rewrite clear_only_bit by lia. destruct p. simpl in *. by subst.
Qed.

(** [pic_send_eoi] undoes the acceptance of a line: on both controllers for the
    lines behind the second one. *)
Lemma eoi_accept i d :
  0 <= i < 16 -> pic_isr (pic1 d) = 0 -> pic_isr (pic2 d) = 0 -> pic_send_eoi i (accept i d) = d.
Proof.
  intros Hi H1 H2. unfold pic_send_eoi, accept. destruct (Z.ltb_spec i 8), (Z.leb_spec 8 i); try lia.
  - unfold outb. cbn [Z.eqb pic1 set_pic1]. change (u8 PIC_EOI) with PIC_EOI. simpl (_ =? _). cbn iota.
    cbn [pic1 set_pic1 Pos.eqb]. rewrite pic_eoi by (done || lia). by destruct d.
  - unfold outb. change (u8 PIC_EOI) with PIC_EOI. simpl (_ =? _). cbn iota. cbn [pic1 pic2 set_pic1 set_pic2 d_pit com1 kbc_busy kbc_command].
    rewrite !pic_eoi by (done || lia). by destruct d.
Qed.

(** ** The timer *)

Lemma pit_init_spec hz d :
  let d' := pit_init hz d in
  pic1 d' = pic1 d /\ pic2 d' = pic2 d /\ com1 d' = com1 d /\ kbc_busy d' = kbc_busy d /\ kbc_command d' = kbc_command d /\
  d_pit d' = mkPit PIT_MODE2 None (pit_divisor hz).
Proof.
  cbv zeta. unfold pit_init. set (v := pit_divisor hz).
  assert (Hv : 0 <= v < 65536).
  { unfold v, pit_divisor. cbv zeta. pose proof (wrap_range 16 (1193182 / (if hz =? 0 then 1 else hz)) ltac:(lia)). case_if; simpl in *; lia. }
  do 5 (split; [done|]). cbn -[Z.land Z.shiftr Z.mul wrap]. f_equal. change 0xFF with (Z.ones 8). rewrite !Z.land_ones, Z.shiftr_div_pow2 by lia.
  unfold wrap. change (2 ^ 8) with 256. rewrite !Z.mod_mod by lia. Z.div_mod_to_equations. lia.
Qed.

Lemma pit_rate hz : 19 <= hz <= 1193182 -> pit_divisor hz = 1193182 / hz.
Proof.
  intros Hhz. unfold pit_divisor. rewrite (proj2 (Z.eqb_neq hz 0)) by lia.
  assert (H : 1 <= 1193182 / hz <= 62799) by (Z.div_mod_to_equations; nia).
  cbv zeta. rewrite (wrap_small 16) by (simpl; lia). case_if; lia.
Qed.

(** The divisor does not fit sixteen bits for a rate below 19 Hz: 18 Hz gives
    about 1589 Hz. *)
Lemma pit_rate_low : pit_divisor 18 = 751.
Proof. reflexivity. Qed.

(** ** After [arch_init] *)

Lemma arch_init_spec yg yi a :
  masks_ok (a_dev a) -> length (idt (a_idt a)) = 256%nat -> symbols_ok yi ->
  let a' := arch_init yg yi a in
  pics_ok (a_dev a') /\ pic_isr (pic1 (a_dev a')) = 0 /\ pic_isr (pic2 (a_dev a')) = 0 /\
  (forall i, 0 <= i < 16 ->
    line_masked (a_dev a') i = (if i <=? 2 then false else line_masked (a_dev a) i) /\
    line_vector (a_dev a') i = 32 + i /\
    exists g, idt (a_idt a') !! Z.to_nat (32 + i) = Some g /\
      gate_ok g (default 0 (irq_table yi !! Z.to_nat i)) false) /\
  d_pit (a_dev a') = mkPit PIT_MODE2 None 11931 /\ com1 (a_dev a') = com1 (a_dev a).
Proof.
  intros Hm Hl Hy. cbv zeta. unfold arch_init. destruct (gdt_init yg (a_gdt a) (a_segs a)) as [g r].
  pose proof (idt_gates yi (a_idt a) Hl Hy) as Hgates. destruct (idt_init yi (a_idt a)) as [v ir]. cbn [a_dev a_idt on_dev].
  destruct (pic_remap_spec 0x20 0x28 (a_dev a) Hm) as (K1 & (S1 & S2 & S3 & S4) & Z1 & Z2 & V1 & M1); [done..|]. cbv zeta in *.
  set (d1 := pic_remap 0x20 0x28 (a_dev a)) in *. clearbody d1.
  destruct (pit_init_spec 100 d1) as (P1 & P2 & P3 & P4 & P5 & P6). cbv zeta in *. set (d2 := pit_init 100 d1) in *. clearbody d2.
  assert (K2 : pics_ok d2) by (destruct K1; split; by rewrite ?P1, ?P2).
  destruct (mask_spec false 0 d2 K2) as (K3 & (T1 & T2 & _) & Z3 & Z4 & V3 & M3); [done|]. cbv zeta in *. set (d3 := pic_clear_mask 0 d2) in *. clearbody d3.
  destruct (mask_spec false 1 d3 K3) as (K4 & (U1 & U2 & _) & Z5 & Z6 & V4 & M4); [done|]. cbv zeta in *. set (d4 := pic_clear_mask 1 d3) in *. clearbody d4.
  destruct (mask_spec false 2 d4 K4) as (K5 & (W1 & W2 & _) & Z7 & Z8 & V5 & M5); [done|]. cbv zeta in *. set (d5 := pic_clear_mask 2 d4) in *. clearbody d5.
  split; [done|]. split; [congruence|]. split; [congruence|]. split; [|split; [by rewrite W1, U1, T1, P6|congruence]].
  assert (Hm2 : forall i, line_masked d2 i = line_masked d1 i) by (intros i; unfold line_masked; by rewrite P1, P2).
  assert (Hv2 : forall i, line_vector d2 i = line_vector d1 i) by (intros i; unfold line_vector; by rewrite P1, P2).
  intros i Hi. split.
  - rewrite M5, M4, M3, Hm2, M1 by done. destruct (Z.leb_spec i 2), (Z.eqb_spec 2 i), (Z.eqb_spec 1 i), (Z.eqb_spec 0 i); done || lia.
  - assert (Hv : line_vector d5 i = 32 + i) by (rewrite V5, V4, V3, Hv2, V1; case_if; lia). split; [done|].
    destruct (Hgates (32 + i) ltac:(lia)) as (gt & Hg & Hok). exists gt. split; [done|].
    unfold handler in Hok. rewrite (proj2 (Z.ltb_ge (32 + i) 32)), (proj2 (Z.ltb_lt (32 + i) 48)), (proj2 (Z.eqb_neq (32 + i) 0x80)) in Hok by lia.
    by replace (32 + i - 32) with i in Hok by lia.
Qed.

(** C30: after [arch_init] an interrupt on line [i] raises vector 32 + [i], whose
    gate leads to the stub [irq_i] with interrupts off; the timer, the keyboard
    and the cascade are enabled, the other lines as masked as before; nothing is
    in service and the timer divides by 11931 (100 Hz). *)
Theorem arch_init_routes yg yi a :
  masks_ok (a_dev a) -> length (idt (a_idt a)) = 256%nat -> symbols_ok yi ->
  let a' := arch_init yg yi a in
  pics_ok (a_dev a') /\ pic_isr (pic1 (a_dev a')) = 0 /\ pic_isr (pic2 (a_dev a')) = 0 /\
  (forall i, 0 <= i < 16 ->
    line_masked (a_dev a') i = (if i <=? 2 then false else line_masked (a_dev a) i) /\
    line_vector (a_dev a') i = 32 + i /\
    exists g, idt (a_idt a') !! Z.to_nat (32 + i) = Some g /\
      gate_ok g (default 0 (irq_table yi !! Z.to_nat i)) false) /\
  d_pit (a_dev a') = mkPit PIT_MODE2 None 11931 /\ com1 (a_dev a') = com1 (a_dev a).
Proof. apply arch_init_spec. Qed.
