(* ===== verification/Serial.v ===== *)
(** * The serial line at the ports (src/kernel/arch/i386/serial.c)

    [serial_writestring] of Machine.v adds bytes to the output at once.  Here is
    the code that talks to the UART, with its wait for the transmit buffer; the
    theorem says that the wait ends and that the same bytes go out. *)

From S2P Require Import Prelude Memory Tty Printk Machine Gdt Idt Ports.

Definition is_serial_transmit_empty (d : devices) : Z * devices :=
  let '(v, d) := inb (COM1 + 5) d in (Z.land v 0x20, d).

Definition serial_init (d : devices) : devices :=
  let d := outb (COM1 + 1) 0x00 d in
  let d := outb (COM1 + 3) 0x80 d in
  let d := outb (COM1 + 0) 0x03 d in
  let d := outb (COM1 + 1) 0x00 d in
  let d := outb (COM1 + 3) 0x03 d in
  let d := outb (COM1 + 2) 0xC7 d in
  outb (COM1 + 4) 0x0B d.

(** The loop of [serial_write]; [None] when the fuel is used up. *)
Fixpoint serial_wait (fuel : nat) (d : devices) : option devices :=
  match fuel with
  | O => None
  | S fuel =>
    let '(ready, d) := is_serial_transmit_empty d in
    if ready =? 0 then serial_wait fuel d else Some d
  end.

Definition serial_write (fuel : nat) (c : Z) (d : devices) : option devices :=
  match serial_wait fuel d with
  | Some d => Some (outb COM1 c d)
  | None => None
  end.

(** [data] are the characters before the NUL. *)
Fixpoint uart_writestring (fuel : nat) (data : list Z) (d : devices) : option devices :=
  match data with
  | [] => Some d
  | c :: data =>
    match (if c =? 10 then serial_write fuel 13 d else Some d) with
    | Some d =>
      match serial_write fuel c d with
      | Some d => uart_writestring fuel data d
      | None => None
      end
    | None => None
    end
  end.

(** ** Proofs *)

(** The line as [serial_init] leaves it: 38400 baud (115200 / 3), eight data
    bits, no parity, one stop bit, no interrupts; data goes out. *)
Record line_ok (u : uart) : Prop := {
  lo_divisor : u_divisor u = 3;
  lo_format : u_lcr u = 3;
  lo_ier : u_ier u = 0;
  lo_fifo : u_fcr u = 0xC7;
}.

Definition set_line (u : uart) (lcr divisor ier fcr mcr : Z) : uart :=
  mkUart lcr divisor ier fcr mcr (u_sent u) (u_busy u) (u_delays u).

Lemma com1_outb r v d : 0 <= r < 8 -> outb (COM1 + r) v d = set_com1 (uart_write r (u8 v) (com1 d)) d.
Proof.
  intros Hr. unfold outb. rewrite !(proj2 (Z.eqb_neq (COM1 + r) _)) by lia.
  rewrite (proj2 (Z.leb_le COM1 (COM1 + r))), (proj2 (Z.ltb_lt (COM1 + r) (COM1 + 8))) by lia.
  cbn [andb]. by replace (COM1 + r - COM1) with r by lia.
Qed.

(** Whatever the line was set to before. *)
Lemma serial_init_spec d :
  exists ier, serial_init d = set_com1 (set_line (com1 d) 3 3 ier 0xC7 0x0B) d /\ (dlab (com1 d) = false -> ier = 0).
Proof.
  exists (if dlab (com1 d) then u_ier (com1 d) else 0). split; [|by intros ->]. unfold serial_init.
  rewrite !com1_outb by lia. destruct d as [p1 p2 pt u kb kc], u as [lcr div ier fcr mcr sent busy del].
  cbn [com1 set_com1 pic1 pic2 d_pit kbc_busy kbc_command]. unfold set_line, set_com1. cbn [pic1 pic2 d_pit kbc_busy kbc_command]. f_equal.
  assert (Hdiv : forall D, u8 0x00 * 256 + (D - D mod 256 + u8 0x03) mod 256 = 3).
  { intros D. change (u8 0x00) with 0. change (u8 0x03) with 3. Z.div_mod_to_equations. lia. }
  unfold uart_write at 7. unfold dlab. cbn [u_lcr u_divisor u_ier u_fcr u_mcr u_sent u_busy u_delays].
  destruct (Z.testbit lcr 7);
    (etransitivity; [|apply (f_equal (fun D => mkUart 3 D _ 0xC7 0x0B sent busy del)); apply Hdiv]; reflexivity).
Qed.

(** Every read of the status brings the buffer nearer to empty. *)
Lemma serial_wait_ends d fuel :
  (u_busy (com1 d) < fuel)%nat ->
  serial_wait fuel d = Some (set_com1 (mkUart (u_lcr (com1 d)) (u_divisor (com1 d)) (u_ier (com1 d)) (u_fcr (com1 d)) (u_mcr (com1 d))
    (u_sent (com1 d)) 0 (u_delays (com1 d))) d).
Proof.
  revert d. induction fuel as [|fuel IH]; intros d Hb; [lia|]. cbn [serial_wait]. unfold is_serial_transmit_empty, inb.
  change (COM1 + 5 =? PIC1_DATA) with false. change (COM1 + 5 =? PIC2_DATA) with false. change (COM1 + 5 =? COM1 + 5) with true. cbn iota.
  unfold uart_status. destruct d as [p1 p2 pt u kb kc], u as [lcr div ier fcr mcr sent [|busy] del]; cbn [com1 u_busy] in *.
  - reflexivity.
  - change (Z.land 0 0x20 =? 0) with true. cbn iota. rewrite IH by (simpl; lia). reflexivity.
Qed.

(** No wait is longer than [n] reads. *)
Definition patient (n : nat) (u : uart) : Prop := (u_busy u < n)%nat /\ forall k, (u_delays u k < n)%nat.

Lemma serial_write_spec n c d :
  patient n (com1 d) -> dlab (com1 d) = false -> 0 <= c < 256 ->
  exists d', serial_write n c d = Some d' /\ u_sent (com1 d') = u_sent (com1 d) ++ [c] /\
    patient n (com1 d') /\ dlab (com1 d') = false /\ d' = set_com1 (com1 d') d.
Proof.
  intros [Hb Hd] Hl Hc. unfold serial_write. rewrite serial_wait_ends by done. eexists. split; [reflexivity|].
  change COM1 with (COM1 + 0). rewrite com1_outb by lia. rewrite (wrap_small 8) by (simpl; lia).
  destruct d as [p1 p2 pt u kb kc], u as [lcr div ier fcr mcr sent busy del]. unfold dlab in *. cbn [com1 u_lcr set_com1] in *.
  unfold uart_write, dlab. cbn [u_lcr]. rewrite Hl. cbn. split; [done|]. split; [|done]. split; [apply Hd|exact Hd].
Qed.

Lemma uart_string_spec n data d :
  patient n (com1 d) -> dlab (com1 d) = false -> Forall (fun c => 0 <= c < 256) data ->
  exists d', uart_writestring n data d = Some d' /\ u_sent (com1 d') = u_sent (com1 d) ++ serial_bytes data /\
    patient n (com1 d') /\ dlab (com1 d') = false /\ d' = set_com1 (com1 d') d.
Proof.
  intros Hp Hl Hf. revert d Hp Hl. induction Hf as [|c data Hc _ IH]; intros d Hp Hl.
  { exists d. rewrite app_nil_r. do 4 (split; [done|]). by destruct d. }
  cbn [uart_writestring]. assert (Hnl : exists d1, (if c =? 10 then serial_write n 13 d else Some d) = Some d1 /\
    u_sent (com1 d1) = u_sent (com1 d) ++ (if c =? 10 then [13] else []) /\ patient n (com1 d1) /\ dlab (com1 d1) = false /\ d1 = set_com1 (com1 d1) d).
  { destruct (c =? 10).
    - by apply serial_write_spec.
    - exists d. rewrite app_nil_r. do 4 (split; [done|]). by destruct d. }
  destruct Hnl as (d1 & -> & S1 & P1 & L1 & R1). destruct (serial_write_spec n c d1 P1 L1 Hc) as (d2 & -> & S2 & P2 & L2 & R2).
  destruct (IH d2 P2 L2) as (d3 & -> & S3 & P3 & L3 & R3). exists d3. split; [done|]. split.
  - rewrite S3, S2, S1. unfold serial_bytes. cbn [mbind list_bind]. rewrite <- !app_assoc. f_equal. by destruct (Z.eqb_spec c 10) as [->|].
  - do 2 (split; [done|]). rewrite R3, R2, R1. by destruct d, d1, d2, d3.
Qed.

