(* ===== verification/User.v ===== *)
(** * User processes (src/kernel/user.c, src/kernel/arch/i386/user.c)

    Sixteen process records; a process is created by [user_spawn] together with
    an empty address space and a kernel thread, loaded by the thread itself
    ([user_exec_task]), and ends in [user_exit_current].  A pointer to a record
    is its index, [None] for NULL.  The two loops that call [sched_yield]
    ([user_wait], [user_init]) are given round by round: between two rounds
    other tasks run (System.v). *)

From S2P Require Import Prelude Memory Tty Printk Keyboard Machine PmmInit FrameAlloc Pmm Vmm Kmalloc Initramfs Kernel Sched.

Abbreviation USER_INIT_CODE_ADDR := 0x00400000.
Abbreviation USER_INIT_STACK_ADDR := 0x007ff000.
Abbreviation EMXF_HEADER_SIZE := 12.

(** The address of a local variable: not NULL. *)
Abbreviation LOCAL := 4.

(** The longest string the kernel passes to [user_spawn] is the line buffer of
    the kernel shell. *)
Abbreviation PATH_FUEL := 128%nat.

(** ** Field updates *)

Definition with_pid (v : Z) (p : user_process) : user_process :=
  mkProc v (task_id p) (parent_pid p) (address_space p) (entry p) (stack p) (stack_size p)
    (exit_status p) (state p) (path p) (pages p) (page_count p).
Definition with_task_id (v : Z) (p : user_process) : user_process :=
  mkProc (pid p) v (parent_pid p) (address_space p) (entry p) (stack p) (stack_size p)
    (exit_status p) (state p) (path p) (pages p) (page_count p).
Definition with_parent (v : Z) (p : user_process) : user_process :=
  mkProc (pid p) (task_id p) v (address_space p) (entry p) (stack p) (stack_size p)
    (exit_status p) (state p) (path p) (pages p) (page_count p).
Definition with_space (v : Z) (p : user_process) : user_process :=
  mkProc (pid p) (task_id p) (parent_pid p) v (entry p) (stack p) (stack_size p)
    (exit_status p) (state p) (path p) (pages p) (page_count p).
Definition with_entry_point (v : Z) (p : user_process) : user_process :=
  mkProc (pid p) (task_id p) (parent_pid p) (address_space p) v (stack p) (stack_size p)
    (exit_status p) (state p) (path p) (pages p) (page_count p).
Definition with_user_stack (a n : Z) (p : user_process) : user_process :=
  mkProc (pid p) (task_id p) (parent_pid p) (address_space p) (entry p) a n
    (exit_status p) (state p) (path p) (pages p) (page_count p).
Definition with_status (v : Z) (p : user_process) : user_process :=
  mkProc (pid p) (task_id p) (parent_pid p) (address_space p) (entry p) (stack p) (stack_size p)
    v (state p) (path p) (pages p) (page_count p).
Definition with_pstate (v : user_process_state) (p : user_process) : user_process :=
  mkProc (pid p) (task_id p) (parent_pid p) (address_space p) (entry p) (stack p) (stack_size p)
    (exit_status p) v (path p) (pages p) (page_count p).
Definition with_path (v : list Z) (p : user_process) : user_process :=
  mkProc (pid p) (task_id p) (parent_pid p) (address_space p) (entry p) (stack p) (stack_size p)
    (exit_status p) (state p) v (pages p) (page_count p).
Definition with_upages (v : list user_page) (p : user_process) : user_process :=
  mkProc (pid p) (task_id p) (parent_pid p) (address_space p) (entry p) (stack p) (stack_size p)
    (exit_status p) (state p) (path p) v (page_count p).
Definition with_page_count (v : Z) (p : user_process) : user_process :=
  mkProc (pid p) (task_id p) (parent_pid p) (address_space p) (entry p) (stack p) (stack_size p)
    (exit_status p) (state p) (path p) (pages p) v.

Definition page_at (p : user_process) (i : Z) : user_page := default (mkPage 0 0) (pages p !! Z.to_nat i).

(** ** The table *)

Definition user_process_alloc (s : ks) : option Z * ks :=
  match find_range 0 USER_PROCESS_MAX
    (fun i => bool_decide (state (get_process i s) = USER_PROCESS_FREE)) with
  | None => (None, s)
  | Some i =>
    let s := put_process i zero_process s in
    let s := upd_process i (with_pstate USER_PROCESS_CREATED) s in
    (Some i, upd_process i (with_parent USER_PROCESS_NO_PARENT) s)
  end.

Definition user_process_find_by_pid (n : Z) (s : ks) : option Z :=
  find_range 0 USER_PROCESS_MAX (fun i =>
    negb (bool_decide (state (get_process i s) = USER_PROCESS_FREE)) && (pid (get_process i s) =? n)).

Definition user_process_find_by_task_id (n : Z) (s : ks) : option Z :=
  find_range 0 USER_PROCESS_MAX (fun i =>
    negb (bool_decide (state (get_process i s) = USER_PROCESS_FREE)) && (task_id (get_process i s) =? n)).

Definition user_process_release (process : option Z) (s : ks) : ks :=
  match process with
  | None => s
  | Some i => put_process i zero_process s
  end.

(** The body of the loop of [user_process_orphan_children]. *)
Definition orphan_child (parent i : Z) (s : ks) : ks :=
  if bool_decide (state (get_process i s) = USER_PROCESS_FREE)
     || negb (parent_pid (get_process i s) =? pid (get_process parent s)) then s
  else
    let s := upd_process i (with_parent USER_PROCESS_NO_PARENT) s in
    if bool_decide (state (get_process i s) = USER_PROCESS_EXITED)
    then user_process_release (Some i) s else s.

Definition user_process_orphan_children (parent : option Z) (s : ks) : ks :=
  match parent with
  | None => s
  | Some parent => for_range 0 USER_PROCESS_MAX (orphan_child parent) s
  end.

(** ** Memory of a process *)

(** The body of the loop of [user_process_free_pages]. *)
Definition free_user_page (process i : Z) (s : ks) : ks :=
  let p := get_process process s in
  let s := on_km (fun m => (vmm_unmap_page_in (address_space p) (pg_vaddr (page_at p i)) m).2) s in
  let s := on_km (pmm_free_page (pg_paddr (page_at p i))) s in
  upd_process process (fun p => with_upages (<[Z.to_nat i := mkPage 0 0]> (pages p)) p) s.

Definition user_process_free_pages (process : option Z) (s : ks) : ks :=
  match process with
  | None => s
  | Some i =>
    let s := for_range 0 (page_count (get_process i s)) (free_user_page i) s in
    upd_process i (with_page_count 0) s
  end.

Definition map_copied_user_page (process : option Z) (vaddr src size flags : Z) (s : ks) : Z * ks :=
  match process with
  | None => (-1, s)
  | Some i =>
    if USER_PROCESS_MAX_PAGES <=? page_count (get_process i s) then (-1, s)
    else if PMM_PAGE_SIZE <? size then (-1, s)
    else
      let '(paddr, s) := call_km pmm_alloc_page s in
      if paddr =? 0 then (-1, s)
      else
        let page := vmm_phys_to_virt paddr in
        if page =? NULL then (-1, on_km (pmm_free_page paddr) s)
        else
          let s := on_km (fun m => set_mem (memset (mem m) page 0 PMM_PAGE_SIZE) m) s in
          let s := if negb (src =? NULL)
                   then on_km (fun m => set_mem (memcpy (mem m) page src size) m) s else s in
          let '(ret, s) := call_km (vmm_map_page_in (address_space (get_process i s)) vaddr paddr
            (Z.lor (Z.lor VMM_PAGE_PRESENT VMM_PAGE_USER) flags)) s in
          if negb (ret =? 0) then (-1, on_km (pmm_free_page paddr) s)
          else
            let s := upd_process i (fun p =>
              with_upages (<[Z.to_nat (page_count p) := mkPage vaddr paddr]> (pages p)) p) s in
            (0, upd_process i (fun p => with_page_count (page_count p +u 1) p) s)
  end.

Definition load_emxf (process : option Z) (image size : Z) (s : ks) : Z * ks :=
  match process with
  | None => (-1, s)
  | Some i =>
    if (image =? NULL) || (size <? EMXF_HEADER_SIZE) then (-1, s)
    else
      let m := mem (km s) in
      if negb (rd8 m image =? 69) || negb (rd8 m (image +u 1) =? 77)
         || negb (rd8 m (image +u 2) =? 88) || negb (rd8 m (image +u 3) =? 70) then (-1, s)
      else
        let code_size := read_le32 (at_ptr m (image +u 4)) in
        let entry_offset := read_le32 (at_ptr m (image +u 8)) in
        if PMM_PAGE_SIZE <? code_size then (-1, s)
        else if code_size <=? entry_offset then (-1, s)
        else if size <? EMXF_HEADER_SIZE +u code_size then (-1, s)
        else
          let code := image +u EMXF_HEADER_SIZE in
          let '(ret, s) := map_copied_user_page process USER_INIT_CODE_ADDR code code_size 0 s in
          if negb (ret =? 0) then (-1, s)
          else (0, upd_process i (with_entry_point (USER_INIT_CODE_ADDR +u entry_offset)) s)
  end.

(** ** Creating *)

(** [memcpy(process->path, path, len + 1)] *)
Definition copy_path (src : Z -> Z) (len : Z) (dst : list Z) : list Z :=
  for_range 0 (len + 1) (fun i l => <[Z.to_nat i := u8 (src i)]> l) dst.

(** The label [fail] of [user_spawn]. *)
Definition spawn_fail (i : Z) (s : ks) : ks :=
  let space := address_space (get_process i s) in
  let s := if negb (space =? 0) then on_km (vmm_destroy_address_space space) s else s in
  user_process_release (Some i) s.

Definition user_spawn (path : option (Z -> Z)) (s : ks) : outcome (Z * ks) :=
  match path with
  | None => Done (-1, s)
  | Some chars =>
    match strlen PATH_FUEL chars with
    | None => Diverge
    | Some path_len =>
      if (path_len =? 0) || (EMXA_PATH_SIZE <=? path_len) then Done (-1, s)
      else match initramfs_find path LOCAL LOCAL (mem (km s)) (bv s) with
      | None => Done (-1, s)
      | Some _ =>
        let parent := user_process_find_by_task_id (sched_current_task_id s) s in
        match user_process_alloc s with
        | (None, s) => Done (-1, s)
        | (Some i, s) =>
          let s := upd_process i (with_pid (next_pid (us s))) (set_next_pid (next_pid (us s) +u 1) s) in
          let s := match parent with
                   | Some q => upd_process i (with_parent (pid (get_process q s))) s
                   | None => s
                   end in
          let s := upd_process i (fun p => with_path (copy_path chars path_len (Kernel.path p)) p) s in
          let '(space, s) := call_km vmm_create_address_space s in
          let s := upd_process i (with_space space) s in
          if space =? 0 then Done (-1, spawn_fail i s)
          else
            let* (task_id, s) := kthread_create (Some user_exec_task_fn) s in
            if task_id <? 0 then Done (-1, spawn_fail i s)
            else
              let s := upd_process i (with_task_id (u32 task_id)) s in
              let s := set_kb (keyboard_buffer_clear (kb s)) s in
              Done (s32 (pid (get_process i s)), s)
        end
      end
    end
  end.

(** ** Loading *)

Definition user_prepare_exec (process : option Z) (path : option (Z -> Z)) (s : ks) : Z * ks :=
  match process, path with
  | Some i, Some _ =>
    match initramfs_find path LOCAL LOCAL (mem (km s)) (bv s) with
    | None => (-1, user_process_free_pages process s)
    | Some (emxf, emxf_size) =>
      let '(ret, s) := load_emxf process emxf emxf_size s in
      if negb (ret =? 0) then (-1, user_process_free_pages process s)
      else
        let '(ret, s) := map_copied_user_page process USER_INIT_STACK_ADDR NULL 0 VMM_PAGE_WRITABLE s in
        if negb (ret =? 0) then (-1, user_process_free_pages process s)
        else (0, upd_process i (with_user_stack USER_INIT_STACK_ADDR PMM_PAGE_SIZE) s)
    end
  | _, _ => (-1, s)
  end.

(** [user_enter] (arch/i386/user.c): the frame its [iret] takes. *)
Record iret_frame := mkIret { f_eip : Z; f_cs : Z; f_eflags : Z; f_esp : Z; f_ss : Z }.

Abbreviation USER_CODE_SELECTOR := (Z.lor 0x18 3).
Abbreviation USER_DATA_SELECTOR := (Z.lor 0x20 3).

Definition user_enter (p : user_process) (eflags : Z) : iret_frame :=
  mkIret (entry p) USER_CODE_SELECTOR (Z.lor eflags 0x200) (stack p +u stack_size p) USER_DATA_SELECTOR.

(** A [char] array as a string. *)
Fixpoint c_string (l : list Z) : list Z :=
  match l with
  | [] => []
  | c :: l => if c =? 0 then [] else c :: c_string l
  end.

(** The label [fail] of [user_exec_task]. *)
Definition exec_fail (i : Z) (s : ks) : ks :=
  let s := kprintk (ln "user: failed to execute %s") 
    [VStr (Some (c_string (path (get_process i s))))] s in
  spawn_fail i s.

(** [Some f]: the thread is in user mode, entered with [f]; [None]: the
    function returned to the trampoline. *)
Definition user_exec_task (eflags : Z) (s : ks) : option iret_frame * ks :=
  match user_process_find_by_task_id (sched_current_task_id s) s with
  | None => (None, s)
  | Some i =>
    let '(ret, s) := user_prepare_exec (Some i) (Some (at_arr (path (get_process i s)))) s in
    if negb (ret =? 0) then (None, exec_fail i s)
    else
      let '(ret, s) := sched_set_current_address_space (address_space (get_process i s)) s in
      if negb (ret =? 0) then (None, exec_fail i (user_process_free_pages (Some i) s))
      else
        let s := upd_process i (with_pstate USER_PROCESS_RUNNING) s in
        (Some (user_enter (get_process i s) eflags), s)
  end.

(** ** Waiting and exiting *)

(** The start of [user_wait]: the record of the caller, or the result -1. *)
Definition user_wait_caller (s : ks) : option Z := user_process_find_by_task_id (sched_current_task_id s) s.

(** One round of its loop: [inl]: [sched_yield] and again; [inr]: the result. *)
Definition user_wait_round (caller n : Z) (s : ks) : ks + (Z * ks) :=
  match user_process_find_by_pid n s with
  | None => inr (-1, s)
  | Some child =>
    if negb (parent_pid (get_process child s) =? pid (get_process caller s)) then inr (-1, s)
    else if bool_decide (state (get_process child s) = USER_PROCESS_EXITED) then
      let status := exit_status (get_process child s) in
      inr (s32 status, user_process_release (Some child) s)
    else inl s
  end.

Definition user_has_input_focus (s : ks) : bool :=
  if negb (userland_active (us s) =? 0) then true
  else match user_process_find_by_task_id (sched_current_task_id s) s with
       | None => false
       | Some i => bool_decide (state (get_process i s) = USER_PROCESS_RUNNING)
       end.

Definition user_exit_current (status : Z) (s : ks) : ks :=
  match user_process_find_by_task_id (sched_current_task_id s) s with
  | None => s
  | Some i =>
    let s := upd_process i (with_status status) s in
    let s := upd_process i (with_pstate USER_PROCESS_EXITED) s in
    let s := user_process_free_pages (Some i) s in
    let s := upd_process i (with_space 0) s in
    let s := user_process_orphan_children (Some i) s in
    let parent := user_process_find_by_pid (parent_pid (get_process i s)) s in
    match parent with
    | None => user_process_release (Some i) s
    | Some _ => s
    end
  end.

(** ** The first process *)

Definition init_path : Z -> Z := at_arr (chars "/bin/init" ++ [0]).

(** The start of [user_init]: the pid to wait for, or [None] when it returned. *)
Definition user_init_start (s : ks) : outcome (option Z * ks) :=
  let* (pid, s) := user_spawn (Some init_path) s in
  if pid <? 0 then Done (None, kprintk (ln "user: failed to start /bin/init") [] s)
  else Done (Some pid, kprintk (ln "user: init pid=%x") [VInt (u32 pid)] (set_userland_active 1 s)).

(** The condition of its loop and what follows the loop. *)
Definition user_init_waits (n : Z) (s : ks) : bool :=
  match user_process_find_by_pid (u32 n) s with Some _ => true | None => false end.
Definition user_init_end (s : ks) : ks :=
  kprintk (ln "user: exiting userland") [] (set_userland_active 0 s).
