(* ===== verification/UserMem.v ===== *)
(** * Memory of user processes: contracts

    What mapping a copied page, releasing the pages of a process and loading an
    executable do to the process, to its address space and to everything else
    ([kstep] of Kmem.v).  [M] is the set of frames of the boot module, which
    are held for the whole run. *)

From S2P Require Import Prelude Memory Tty Printk Keyboard Machine PmmInit FrameAlloc Pmm Vmm VmmSpec VmmProof VmmTheorems.
From S2P Require Import Kmalloc KmallocProof Initramfs Sharing Kmem Kernel Sched SchedProof User.

(** ** Table access *)

Lemma get_put_process i j p s :
  0 <= i -> 0 <= j -> (Z.to_nat i < length (processes (us s)))%nat ->
  get_process j (put_process i p s) = if decide (i = j) then p else get_process j s.
Proof.
  intros Hi Hj Hl. unfold get_process, put_process. simpl. case_decide as Hd.
  - subst j. by rewrite list_lookup_insert_eq.
  - by rewrite list_lookup_insert_ne by lia.
Qed.

Lemma get_process_lookup i s : (Z.to_nat i < length (processes (us s)))%nat ->
  processes (us s) !! Z.to_nat i = Some (get_process i s).
Proof. intros Hl. unfold get_process. by destruct (lookup_lt_is_Some_2 _ _ Hl) as [t ->]. Qed.

Lemma put_put_process i p q s : put_process i q (put_process i p s) = put_process i q s.
Proof. unfold put_process, set_us. simpl. by rewrite list_insert_insert_eq. Qed.

Lemma put_get_process i s : (Z.to_nat i < length (processes (us s)))%nat -> put_process i (get_process i s) s = s.
Proof.
  intros Hl. unfold put_process. rewrite list_insert_id by by apply get_process_lookup. by destruct s as [? ? [] ? ? ? ?].
Qed.

(** An update of one record next to a change of the memory. *)
Lemma upd_process_eq i f m s :
  0 <= i -> (Z.to_nat i < length (processes (us s)))%nat ->
  upd_process i f (set_km m s) = put_process i (f (get_process i s)) (set_km m s).
Proof. done. Qed.

Lemma upd_put_process i f p s :
  0 <= i -> (Z.to_nat i < length (processes (us s)))%nat -> upd_process i f (put_process i p s) = put_process i (f p) s.
Proof.
  intros Hi Hl. unfold upd_process. rewrite get_put_process, decide_True by done. apply put_put_process.
Qed.

Section user.
Context {FA : FrameAllocator pmm_alloc_page pmm_free_page}.

Abbreviation kpd s := (kernel_page_directory (km s)).

(** ** Mapping and unmapping user pages *)

Definition user_page_addr (v : Z) : Prop := 0 <= v < VMM_KERNEL_VIRTUAL_BASE /\ v mod 4096 = 0.

Lemma user_space_ok s o d v : d ∈ o_dirs o -> user_page_addr v -> space_ok s (o_dirs o) d v.
Proof. intros Hd [Hv Ha]. split; [done|]. split; [by apply user_vaddr|]. split; [done|]. left. lia. Qed.

Lemma page_offset v u : user_page_addr v -> u / 4096 = v / 4096 -> u = v + u mod 4096 /\ 0 <= u mod 4096 < 4096.
Proof. intros [_ Ha] Hp. Z.div_mod_to_equations; lia. Qed.

Lemma kmem_map_user s o d v p flags :
  kmem s o -> d ∈ o_dirs o -> user_page_addr v -> 0 <= p < 1048576 -> present flags = true ->
  let '(r, s') := vmm_map_page_in (d * 4096) v (p * 4096) flags s in
  kstep (fun q => q = d) none s o s' o /\
  ((r = 0 /\ walk (mem s) d v = None /\ forall u, 0 <= u < VMM_KERNEL_VIRTUAL_BASE -> walk (mem s') d u =
      if u / 4096 =? v / 4096 then Some (p * 4096 + u mod 4096, writable flags, user flags) else walk (mem s) d u) \/
   (r = -1 /\ same_user_half d s s')).
Proof.
  intros Hk Hd Hv Hp Hf. pose proof (kmem_map s o d v (p * 4096) flags Hk Hd (user_vaddr v (proj1 Hv)) ltac:(lia)) as Hst.
  pose proof Hk as [bs Hb]. pose proof (map_cases s (o_dirs o) d v p flags (kb_vm _ _ _ Hb) (user_space_ok s o d v Hd Hv) Hp) as Hc.
  destruct (vmm_map_page_in _ _ _ _ _) as [r s']. cbn [snd] in Hst. split; [done|]. destruct Hc as [_ Hc].
  destruct Hc as [(-> & Hn & _ & Hw & Hpg)|(-> & Hw & _)]; [left|right].
  - split; [done|]. split; [done|]. intros u Hu. destruct (Z.eqb_spec (u / 4096) (v / 4096)) as [E|E].
    + destruct (page_offset v u Hv E) as [Heq Ho]. rewrite Heq at 1. by rewrite Hpg, Hf.
    + apply Hw; [done|by apply user_vaddr|]. by intros [? _].
  - split; [done|]. by apply (same_walks_user (o_dirs o)).
Qed.

Lemma kmem_unmap_user s o d v :
  kmem s o -> d ∈ o_dirs o -> user_page_addr v ->
  let s' := (vmm_unmap_page_in (d * 4096) v s).2 in
  kstep (fun q => q = d) none s o s' o /\
  forall u, 0 <= u < VMM_KERNEL_VIRTUAL_BASE ->
    walk (mem s') d u = if u / 4096 =? v / 4096 then None else walk (mem s) d u.
Proof.
  intros Hk Hd Hv s'. split; [apply kmem_unmap; [done..|by apply user_vaddr, Hv]|]. pose proof Hk as [bs Hb].
  unfold s'. clear s'.
  destruct (unmap_cases s (o_dirs o) d v (kb_vm _ _ _ Hb) (user_space_ok s o d v Hd Hv)) as
    [[Hn ->]|(s' & -> & _ & _ & _ & Hw & Hpg)]; simpl; intros u Hu; destruct (Z.eqb_spec (u / 4096) (v / 4096)) as [E|E]; try done.
  - by apply (walk_none_page _ _ v).
  - destruct (page_offset v u Hv E) as [Heq Ho]. rewrite Heq. by apply Hpg.
  - apply Hw; [done|by apply user_vaddr|]. by intros [? _].
Qed.

(** ** A copied page *)

(** The bytes of a page copied from [size] bytes at [src], if not NULL. *)
Definition copied (m : memory) (src size p : Z) (m' : memory) : Prop :=
  forall k, 0 <= k < 4096 -> load8 m' (p * 4096 + k) =
    if negb (src =? NULL) && (k <? size) then load8 m (phys src + k) else 0.

(** [size] bytes at the kernel pointer [src] lie in frames of [P]. *)
Definition bytes_in (P : gset Z) (src size : Z) : Prop :=
  VMM_KERNEL_VIRTUAL_BASE <= src /\ src + size <= VMM_KERNEL_VIRTUAL_BASE + VMM_DIRECT_MAP_LIMIT /\
  forall a, phys src <= a < phys src + size -> a / 4096 ∈ P.

Definition page_image (src size page : Z) (m : memory) : memory :=
  let m := memset m page 0 PMM_PAGE_SIZE in
  if negb (src =? NULL) then memcpy m page src size else m.

Lemma page_image_spec m src size p P :
  0 < p < 4096 -> 0 <= size <= 4096 -> (src = NULL \/ bytes_in P src size) -> p ∉ P ->
  only_changes (fun a => a / 4096 = p) m (page_image src size (vmm_phys_to_virt (p * 4096)) m) /\
  copied m src size p (page_image src size (vmm_phys_to_virt (p * 4096)) m).
Proof.
  intros Hp Hs Hsrc Hpn. rewrite phys_to_virt_in by lia. set (page := VMM_KERNEL_VIRTUAL_BASE + p * 4096).
  assert (Hpg : phys page = p * 4096) by (unfold phys, page; lia).
  assert (Hz : forall a, load8 (memset m page 0 4096) a = if decide (p * 4096 <= a < p * 4096 + 4096) then 0 else load8 m a)
    by (intros a; by rewrite load8_memset, Hpg).
  unfold page_image, copied. destruct Hsrc as [->|(Hlo & Hhi & Hfr)]; [split|].
  - simpl. intros a Ha. rewrite Hz. case_decide; [|done]. destruct Ha. Z.div_mod_to_equations; lia.
  - simpl. intros k Hk. rewrite Hz, decide_True by lia. done.
  - rewrite (proj2 (Z.eqb_neq src NULL)) by lia. cbn [negb andb].
    assert (Hdis : page + size <= src \/ src + size <= page).
    { destruct (decide (size = 0)) as [->|Hs0]; [lia|]. assert (Hin : forall a, phys src <= a < phys src + size -> a / 4096 <> p) by (intros a Ha E; apply Hpn; rewrite <- E; by apply Hfr).
      destruct (decide (page + size <= src)); [by left|]. destruct (decide (src + size <= page)); [by right|]. exfalso.
      unfold phys, page in *. destruct (decide (src <= VMM_KERNEL_VIRTUAL_BASE + p * 4096)) as [Hle|Hgt].
      - apply (Hin (p * 4096)); [lia|]. by rewrite Z.div_mul.
      - apply (Hin (src - VMM_KERNEL_VIRTUAL_BASE)); [lia|]. Z.div_mod_to_equations; lia. }
    assert (Hcp : forall a, load8 (memcpy (memset m page 0 4096) page src size) a =
      if decide (p * 4096 <= a < p * 4096 + size) then load8 (memset m page 0 4096) (a - p * 4096 + phys src)
      else load8 (memset m page 0 4096) a).
    { intros a. rewrite load8_memcpy by lia. rewrite Hpg. case_decide; [|done]. f_equal. unfold phys, page. lia. }
    split.
    + intros a Ha. rewrite Hcp, decide_False, Hz, decide_False; [done|..]; intros Hr; apply Ha; Z.div_mod_to_equations; lia.
    + intros k Hk. rewrite Hcp, !Hz. destruct (Z.ltb_spec k size).
      * rewrite decide_True by lia. rewrite decide_False; [f_equal; lia|]. intros Hr.
        apply (Hpn), (eq_rect (A := Z) _ (fun x => x ∈ P) (Hfr (phys src + k) ltac:(lia)) p). Z.div_mod_to_equations; lia.
      * rewrite decide_False, decide_True by lia. done.
Qed.

Definition add_page (pg : user_page) (p : user_process) : user_process :=
  with_page_count (page_count p +u 1) (with_upages (<[Z.to_nat (page_count p) := pg]> (pages p)) p).

(** A directory is not a user page. *)
Lemma dir_not_page s o d p : kmem s o -> d ∈ o_dirs o -> p ∈ o_pages o -> p <> d.
Proof. intros [bs Hk] Hd Hp ->. apply (kb_vu _ _ _ Hk d); [by left|done]. Qed.

(** Frame [p] has just been taken: nobody can tell what happens to it. *)
Lemma kstep_fresh T A s o s' o' p :
  kstep (fun q => q = p \/ T q) A s o s' o' -> (p ∉ o_dirs o) -> (p ∉ o_pages o) -> kstep T A s o s' o'.
Proof.
  intros H Hd Hp. eapply kstep_narrow; [exact H| |done]. intros q Hq [->|?]; [|done]. by destruct Hq.
Qed.

Lemma with_pages_undo p o : p ∉ o_pages o -> with_pages (({[p]} ∪ o_pages o) ∖ {[p]}) o = o.
Proof. intros Hp. destruct o. unfold with_pages. simpl in *. f_equal. set_solver. Qed.

(** Taking a frame and filling it. *)
Lemma page_made m0 o src size P :
  kmem m0 o -> 0 <= size <= 4096 -> (src = NULL \/ bytes_in P src size) -> P ⊆ o_pages o ->
  (pmm_alloc_page m0 = (0, m0)) \/
  exists p m1, pmm_alloc_page m0 = (p * 4096, m1) /\ p * 4096 <> 0 /\
    ((vmm_phys_to_virt (p * 4096) = NULL /\ kstep none none m0 o (pmm_free_page (p * 4096) m1) o) \/
     (vmm_phys_to_virt (p * 4096) <> NULL /\ 0 < p < 4096 /\ (p ∉ o_pages o) /\ (p ∉ o_dirs o) /\
      let m2 := set_mem (page_image src size (vmm_phys_to_virt (p * 4096)) (mem m1)) m1 in
      kstep none none m0 o m2 (with_pages ({[p]} ∪ o_pages o) o) /\ copied (mem m0) src size p (mem m2))).
Proof.
  intros Hk Hs Hsrc HP. destruct (kmem_page_alloc m0 o Hk) as [[? _]|(p & m1 & Ha & Hr & Hav & _ & Hlow & Hhigh)]; [by left|right].
  exists p, m1. split; [done|]. split; [lia|]. destruct (decide (p < 4096)) as [Hlt|Hge]; [right|left].
  2: { rewrite phys_to_virt_out by lia. split; [done|]. apply Hhigh. lia. }
  destruct (Hlow Hlt) as [Hpn Hst1]. rewrite phys_to_virt_in by lia. split; [lia|]. split; [lia|]. split; [done|].
  assert (Hpd : p ∉ o_dirs o).
  { intros Hd. destruct Hk as [bs Hb]. pose proof (held_taken _ _ (vm_dir _ _ (kb_vm _ _ _ Hb) p Hd)). congruence. }
  split; [done|]. rewrite <- phys_to_virt_in by lia. cbv zeta.
  destruct (page_image_spec (mem m1) src size p P) as [Hoc Hcp]; [lia|lia|done|set_solver|].
  set (mm2 := page_image _ _ _ _) in *. split.
  - eapply kstep_fresh; [|done|done]. eapply kstep_trans; [eapply kstep_mono; [exact Hst1|done..]|].
    eapply kstep_mono; [apply (kmem_write_page m1 _ p); [apply Hst1|simpl; set_solver|exact Hoc]|by left|done].
  - intros k Hk'. cbn [mem set_mem]. rewrite Hcp by done. destruct (_ && _) eqn:Eb; [|done]. bool_simpl. destruct Hsrc as [->|(_ & _ & Hfr)]; [done|].
    destruct (ks_page _ _ _ _ _ _ Hst1 ((phys src + k) / 4096)) as [_ E]; [apply HP, Hfr; lia|by intros []|]. by apply E.
Qed.

(** What the process can rely on when it maps a page. *)
Record loader (s : ks) (o : own) (i d : Z) : Prop := {
  lo_mem : kmem (km s) o;
  lo_index : 0 <= i /\ (Z.to_nat i < length (processes (us s)))%nat;
  lo_space : address_space (get_process i s) = d * 4096;
  lo_dir : d ∈ o_dirs o;
  lo_count : 0 <= page_count (get_process i s) < 16;
}.

(** A page at [v] of the address space [d] now shows frame [p]. *)
Definition page_added (d v p : Z) (w : bool) (m m' : memory) : Prop :=
  walk m d v = None /\
  forall u, 0 <= u < VMM_KERNEL_VIRTUAL_BASE ->
    walk m' d u = if u / 4096 =? v / 4096 then Some (p * 4096 + u mod 4096, w, true) else walk m d u.

Lemma map_copied_spec s o i d v src size flags P :
  loader s o i d -> user_page_addr v -> 0 <= size <= 4096 ->
  (src = NULL \/ bytes_in P src size) -> P ⊆ o_pages o -> flags = 0 \/ flags = VMM_PAGE_WRITABLE ->
  let '(r, s') := map_copied_user_page (Some i) v src size flags s in
  (r = -1 /\ exists m, s' = set_km m s /\ kstep (fun q => q = d) none (km s) o m o /\ same_user_half d (km s) m) \/
  (r = 0 /\ exists m p, s' = put_process i (add_page (mkPage v (p * 4096)) (get_process i s)) (set_km m s) /\
     0 < p < 4096 /\ (p ∉ o_pages o) /\ kstep (fun q => q = d) none (km s) o m (with_pages ({[p]} ∪ o_pages o) o) /\
     page_added d v p (writable flags) (mem (km s)) (mem m) /\ copied (mem (km s)) src size p (mem m)).
Proof.
  intros [Hk [Hi Hl] Hsp Hd Hc] Hv Hs Hsrc HP Hf. unfold map_copied_user_page, call_km.
  rewrite (proj2 (Z.leb_gt _ _)), (proj2 (Z.ltb_ge _ _)) by lia.
  assert (Hnoop : set_km (km s) s = s) by (by destruct s).
  destruct (page_made (km s) o src size P Hk Hs Hsrc HP) as [->|(p & m1 & -> & Hp0 & Hor)].
  { rewrite Z.eqb_refl. left. split; [done|]. exists (km s). rewrite Hnoop. split; [done|]. split; [by apply kstep_refl|done]. }
  rewrite (proj2 (Z.eqb_neq (p * 4096) 0)) by done.
  destruct Hor as [[-> Hst]|(Hpv & Hpr & Hpn & Hpd & Hst & Hcp)].
  { rewrite Z.eqb_refl. left. split; [done|]. eexists. split; [reflexivity|].
    split; [by eapply kstep_mono; [exact Hst|..]|]. destruct (ks_space _ _ _ _ _ _ Hst d) as [_ Hss]; [exact Hd|intros []|exact Hss]. }
  rewrite (proj2 (Z.eqb_neq _ NULL)) by done. cbv zeta in Hst, Hcp. set (m2 := set_mem (page_image _ _ _ _) m1) in *.
  set (s2 := if negb (src =? NULL) then _ else _).
  assert (Hs2 : s2 = set_km m2 s) by (unfold s2, m2, page_image; by destruct (negb (src =? NULL))). rewrite Hs2. clear s2 Hs2.
  change (get_process i (set_km m2 s)) with (get_process i s). rewrite Hsp. change (km (set_km m2 s)) with m2.
  set (o1 := with_pages ({[p]} ∪ o_pages o) o) in *. set (fl := Z.lor _ flags).
  assert (Hfl : present fl = true /\ writable fl = writable flags /\ user fl = true) by (by destruct Hf as [->| ->]).
  destruct Hfl as (Hf1 & Hf2 & Hf3).
  pose proof (kmem_map_user m2 o1 d v p fl (ks_inv _ _ _ _ _ _ Hst) Hd Hv ltac:(lia) Hf1) as Hm.
  destruct (vmm_map_page_in _ _ _ _ _) as [r m3]. destruct Hm as [Hst3 Hm].
  assert (Hsame : same_user_half d (km s) m2) by (destruct (ks_space _ _ _ _ _ _ Hst d) as [_ Hss]; [exact Hd|intros []|exact Hss]).
  assert (Hpd1 : p <> d) by (by intros ->). assert (Hp1 : p ∈ o_pages o1) by (by apply elem_of_union_l, elem_of_singleton).
  destruct Hm as [(-> & Hn & Hw)|[-> Hw]].
  - right. split; [done|]. exists m3, p. split.
    { change (set_km m3 (set_km m2 s)) with (set_km m3 s).
      rewrite upd_process_eq by done. rewrite upd_put_process by done. done. }
    split; [done|]. split; [done|]. split; [eapply kstep_trans; [eapply kstep_mono; [exact Hst|done|done]|exact Hst3]|]. split.
    + split; [by rewrite <- Hsame by apply Hv|]. intros u Hu. rewrite Hw by done. rewrite Hf2, Hf3. case_if; [done|]. by apply Hsame.
    + intros k Hk'. rewrite <- Hcp by done. destruct (ks_page _ _ _ _ _ _ Hst3 p) as [_ E]; [done|done|]. apply E. Z.div_mod_to_equations; lia.
  - left. split; [done|]. exists (pmm_free_page (p * 4096) m3). split; [done|].
    pose proof (kmem_page_free m3 o1 p (ks_inv _ _ _ _ _ _ Hst3) Hp1) as Hst4. split.
    + eapply kstep_fresh; [|exact Hpd|exact Hpn]. rewrite <- (with_pages_undo p o) at 2 by done.
      eapply kstep_trans; [eapply kstep_mono; [exact Hst|done|done]|].
      eapply kstep_trans; [eapply kstep_mono; [exact Hst3|by right|done]|].
      eapply kstep_mono; [exact Hst4|by left|done].
    + intros u Hu. destruct (ks_space _ _ _ _ _ _ Hst4 d) as [_ H4]; [done|congruence|]. rewrite H4, Hw, Hsame by done. done.
Qed.

(** ** Releasing pages *)

(** The pages a process has, and their frames. *)
Definition live_pages (p : user_process) : list user_page := take (Z.to_nat (page_count p)) (pages p).
Definition pg_frame (pg : user_page) : Z := pg_paddr pg / 4096.
Definition frames_of (L : list user_page) : gset Z := list_to_set (pg_frame <$> L).

Record pages_ok (o : own) (p : user_process) : Prop := {
  po_len : length (pages p) = 16%nat;
  po_count : 0 <= page_count p <= 16;
  po_page pg : pg ∈ live_pages p -> user_page_addr (pg_vaddr pg) /\ pg_paddr pg = pg_frame pg * 4096 /\ pg_frame pg ∈ o_pages o;
  po_nodup : NoDup (pg_frame <$> live_pages p);
}.

(** Address [u] is on one of the pages [L]. *)
Definition on_page (L : list user_page) (u : Z) : bool :=
  existsb (fun pg => u / 4096 =? pg_vaddr pg / 4096) L.

Definition cleared (k : Z) (p : user_process) : user_process :=
  with_upages (replicate (Z.to_nat k) (mkPage 0 0) ++ drop (Z.to_nat k) (pages p)) p.

(** After the first [k] rounds. *)
Record freed_pages (s : ks) (o : own) (i d k : Z) (s' : ks) : Prop := {
  fp_state : s' = put_process i (cleared k (get_process i s)) (set_km (km s') s);
  fp_step : let L := take (Z.to_nat k) (pages (get_process i s)) in
    kstep (fun q => q = d \/ q ∈ frames_of L) none (km s) o (km s') (with_pages (o_pages o ∖ frames_of L) o);
  fp_walk u : 0 <= u < VMM_KERNEL_VIRTUAL_BASE ->
    walk (mem (km s')) d u = if on_page (take (Z.to_nat k) (pages (get_process i s))) u
      then None else walk (mem (km s)) d u;
  fp_avail q : avail (km s') q = avail (km s) q || bool_decide (q ∈ frames_of (take (Z.to_nat k) (pages (get_process i s))));
}.

Lemma frames_of_snoc L pg : frames_of (L ++ [pg]) = frames_of L ∪ {[pg_frame pg]}.
Proof. unfold frames_of. rewrite fmap_app. simpl. set_solver. Qed.

Lemma on_page_snoc L pg u : on_page (L ++ [pg]) u = on_page L u || (u / 4096 =? pg_vaddr pg / 4096).
Proof. unfold on_page. rewrite existsb_app. simpl. by rewrite orb_false_r. Qed.

Lemma cleared_at k p : 0 <= k < 16 -> length (pages p) = 16%nat -> page_at (cleared k p) k = page_at p k.
Proof.
  intros Hk Hl. unfold page_at, cleared. simpl. rewrite lookup_app_r by (rewrite length_replicate; lia).
  rewrite length_replicate, Nat.sub_diag, lookup_drop. by rewrite Nat.add_0_r.
Qed.

Lemma cleared_next k p :
  0 <= k < 16 -> length (pages p) = 16%nat ->
  with_upages (<[Z.to_nat k := mkPage 0 0]> (pages (cleared k p))) (cleared k p) = cleared (k + 1) p.
Proof.
  intros Hk Hl. unfold cleared, with_upages. simpl. f_equal.
  rewrite insert_app_r_alt by (rewrite length_replicate; lia). rewrite length_replicate, Nat.sub_diag.
  destruct (drop (Z.to_nat k) (pages p)) as [|x l] eqn:E.
  { apply (f_equal length) in E. rewrite length_drop in E. simpl in E. lia. }
  replace (Z.to_nat (k + 1)) with (S (Z.to_nat k)) by lia. simpl.
  rewrite (drop_S (pages p) x) in E.
  2: { rewrite <- (Nat.add_0_r (Z.to_nat k)), <- lookup_drop, E. done. }
  injection E as E. rewrite E. clear. induction (Z.to_nat k) as [|n IH]; simpl; [done|]. by rewrite IH.
Qed.

Lemma free_page_step s o i d k s' :
  kmem (km s) o -> 0 <= i -> (Z.to_nat i < length (processes (us s)))%nat ->
  address_space (get_process i s) = d * 4096 -> d ∈ o_dirs o -> pages_ok o (get_process i s) ->
  0 <= k < page_count (get_process i s) ->
  freed_pages s o i d k s' -> freed_pages s o i d (k + 1) (free_user_page i k s').
Proof.
  intros Hkm Hi Hl Hsp Hd [Hlen Hcount Hpage Hnd] Hk [Hs Hst Hw Hav]. set (p := get_process i s) in *.
  assert (Hp' : get_process i s' = cleared k p) by (rewrite Hs, get_put_process, decide_True by done; done).
  assert (Hpg : exists pg, pages p !! Z.to_nat k = Some pg) by (apply lookup_lt_is_Some; lia). destruct Hpg as [pg Hpg].
  assert (Hat : page_at (cleared k p) k = pg) by (rewrite cleared_at by lia; unfold page_at; by rewrite Hpg).
  assert (Htk : take (Z.to_nat (k + 1)) (pages p) = take (Z.to_nat k) (pages p) ++ [pg]).
  { replace (Z.to_nat (k + 1)) with (S (Z.to_nat k)) by lia. by apply take_S_r. }
  assert (Hlive : live_pages p !! Z.to_nat k = Some pg) by (unfold live_pages; rewrite lookup_take_lt by lia; done).
  destruct (Hpage pg ltac:(by eapply list_elem_of_lookup_2)) as (Hva & Hpa & Hin).
  assert (Hfresh : pg_frame pg ∉ frames_of (take (Z.to_nat k) (pages p))).
  { unfold frames_of. rewrite elem_of_list_to_set. intros (x & Hx1 & Hx2)%list_elem_of_fmap.
    apply list_elem_of_lookup in Hx2 as [j Hj]. pose proof (lookup_lt_Some _ _ _ Hj) as Hjl. rewrite length_take in Hjl.
    rewrite lookup_take_lt in Hj by lia.
    pose proof (NoDup_lookup (pg_frame <$> live_pages p) j (Z.to_nat k) (pg_frame pg) Hnd) as Hu.
    rewrite !list_lookup_fmap, Hlive in Hu. unfold live_pages in Hu. rewrite lookup_take_lt, Hj in Hu by lia. simpl in Hu.
    rewrite Hx1 in Hu. specialize (Hu eq_refl eq_refl). lia. }
  cbv zeta in Hst. set (L := take (Z.to_nat k) (pages p)) in *. set (o1 := with_pages (o_pages o ∖ frames_of L) o) in *.
  destruct (kmem_unmap_user (km s') o1 d (pg_vaddr pg) (ks_inv _ _ _ _ _ _ Hst) Hd Hva) as [Hst2 Hw2].
  set (m2 := (vmm_unmap_page_in (d * 4096) (pg_vaddr pg) (km s')).2) in *.
  assert (Hin1 : pg_frame pg ∈ o_pages o1) by (apply elem_of_difference; done).
  pose proof (kmem_page_free m2 o1 (pg_frame pg) (ks_inv _ _ _ _ _ _ Hst2) Hin1) as Hst3.
  assert (Hres : free_user_page i k s' =
    put_process i (cleared (k + 1) p) (set_km (pmm_free_page (pg_paddr pg) m2) s)).
  { unfold free_user_page. rewrite Hp', Hat. change (address_space (cleared k p)) with (address_space p). rewrite Hsp.
    fold m2. rewrite Hs. change (on_km ?f (on_km ?g (put_process i ?x (set_km (km s') s)))) with
      (put_process i x (set_km (f (g (km s'))) s)).
    rewrite upd_put_process by done. rewrite cleared_next by lia. done. }
  rewrite Hpa in Hres. rewrite Hres. split.
  - done.
  - cbv zeta. change (km (put_process i ?x (set_km ?m s))) with m. fold p. rewrite Htk, frames_of_snoc.
    replace (o_pages o ∖ (frames_of L ∪ {[pg_frame pg]})) with (o_pages o1 ∖ {[pg_frame pg]})
      by (simpl; by rewrite difference_difference_l_L).
    eapply kstep_trans; [eapply kstep_mono; [exact Hst|set_solver|done]|].
    eapply kstep_trans; [eapply kstep_mono; [exact Hst2|by left|done]|].
    eapply kstep_mono; [exact Hst3|set_solver|done].
  - intros u Hu. change (km (put_process i ?x (set_km ?m s))) with m. fold p. rewrite Htk, on_page_snoc.
    destruct (ks_space _ _ _ _ _ _ Hst3 d) as [_ H3]; [exact Hd| |].
    { intros ->. apply (dir_not_page m2 o1 (pg_frame pg) (pg_frame pg)); [apply Hst2|done..]. }
    rewrite H3, Hw2, Hw by done. destruct (on_page L u), (u / 4096 =? pg_vaddr pg / 4096); done.
  - intros q. change (km (put_process i ?x (set_km ?m s))) with m. fold p. rewrite Htk, frames_of_snoc.
    rewrite (page_free_avail m2 o1 _ q (ks_inv _ _ _ _ _ _ Hst2) Hin1). destruct (ks_inv _ _ _ _ _ _ Hst) as [bs Hb].
    unfold m2. rewrite (unmap_avail _ (o_dirs o1) d) by (apply Hb || done || by apply user_vaddr, Hva).
    rewrite Hav, <- orb_assoc. f_equal. destruct (Z.eqb_spec q (pg_frame pg)) as [->|].
    + rewrite orb_true_r, bool_decide_eq_true_2; [done|]. apply elem_of_union_r, elem_of_singleton. done.
    + rewrite orb_false_r. apply bool_decide_ext. rewrite elem_of_union, elem_of_singleton. tauto.
Qed.

Lemma free_pages_spec s o i d :
  kmem (km s) o -> 0 <= i -> (Z.to_nat i < length (processes (us s)))%nat ->
  address_space (get_process i s) = d * 4096 -> d ∈ o_dirs o -> pages_ok o (get_process i s) ->
  let p := get_process i s in
  exists m, user_process_free_pages (Some i) s =
      put_process i (with_page_count 0 (cleared (page_count p) p)) (set_km m s) /\
    kstep (fun q => q = d \/ q ∈ frames_of (live_pages p)) none (km s) o m
      (with_pages (o_pages o ∖ frames_of (live_pages p)) o) /\
    (forall u, 0 <= u < VMM_KERNEL_VIRTUAL_BASE ->
      walk (mem m) d u = if on_page (live_pages p) u then None else walk (mem (km s)) d u) /\
    (forall q, avail m q = avail (km s) q || bool_decide (q ∈ frames_of (live_pages p))).
Proof.
  intros Hkm Hi Hl Hsp Hd Hok p. unfold user_process_free_pages. fold p.
  set (s1 := for_range 0 (page_count p) (free_user_page i) s).
  assert (H : freed_pages s o i d (page_count p) s1).
  { unfold s1. pose proof (po_count _ _ Hok). fold p in H. for_inv (freed_pages s o i d); [lia|..].
    - split; cbv zeta; simpl; rewrite ?take_0.
      + unfold cleared. simpl. rewrite drop_0. unfold put_process.
        rewrite list_insert_id; [by destruct s as [? ? [] ? ? ? ?]|]. rewrite get_process_lookup by done.
        assert (Hq : forall q, with_upages (pages q) q = q) by (by intros []). by rewrite Hq.
      + replace (with_pages (o_pages o ∖ frames_of []) o) with o; [by apply kstep_refl|].
        unfold frames_of. simpl. destruct o. unfold with_pages. simpl. f_equal. set_solver.
      + done.
      + intros q. by rewrite orb_false_r.
    - intros k s' Hk Hf. apply (free_page_step s o i d k s'); assumption. }
  destruct H as [Hs Hst Hw Hav]. exists (km s1). split; [|split; [exact Hst|split; [exact Hw|exact Hav]]].
  rewrite Hs at 1. rewrite upd_put_process by done. done.
Qed.
End user.
