(* ===== verification/UserExec.v ===== *)
(** * Loading an executable: contracts

    [load_emxf], [user_prepare_exec] and [user_exec_task]: either the process
    has exactly two pages, its code (read-only, the bytes of the image) and a
    cleared writable stack, or it has none and nothing is lost. *)

From S2P Require Import Prelude Memory Tty Printk Keyboard Machine PmmInit FrameAlloc Pmm Vmm VmmSpec VmmProof VmmTheorems.
From S2P Require Import Kmalloc KmallocProof Initramfs Sharing Kmem Kernel Sched SchedProof User UserMem.

(** ** EMXF images *)

(** The [size] bytes at [image] are an executable with [code_size] bytes of
    code, entered at [entry_offset]. *)
Record emxf (m : memory) (image size code_size entry_offset : Z) : Prop := {
  ex_size : EMXF_HEADER_SIZE + code_size <= size;
  ex_magic : rd8 m image = 69 /\ rd8 m (image + 1) = 77 /\ rd8 m (image + 2) = 88 /\ rd8 m (image + 3) = 70;
  ex_code : rd32 m (image + 4) = code_size;
  ex_entry : rd32 m (image + 8) = entry_offset;
  ex_page : 0 <= entry_offset < code_size /\ code_size <= 4096;
}.

Section exec.
Context {FA : FrameAllocator pmm_alloc_page pmm_free_page}.

Abbreviation kpd s := (kernel_page_directory (km s)).

(** The failure of a step of the loader: the memory may have changed, but
    nothing anybody owns. *)
Definition load_failed (s : ks) (o : own) (d : Z) (s' : ks) : Prop :=
  exists m, s' = set_km m s /\ kstep (fun q => q = d) none (km s) o m o /\ same_user_half d (km s) m.

Lemma load_failed_refl s o d : kmem (km s) o -> load_failed s o d s.
Proof. intros Hk. exists (km s). split; [by destruct s|]. split; [by apply kstep_refl|done]. Qed.

Lemma bytes_in_sub P src size src' size' :
  bytes_in P src size -> src <= src' -> 0 <= size' -> src' + size' <= src + size -> bytes_in P src' size'.
Proof. intros (Hlo & Hhi & Hf) H1 H2 H3. split; [lia|]. split; [lia|]. intros a Ha. apply Hf. unfold phys in *. lia. Qed.

Lemma load_emxf_cases s o i d image size P :
  loader s o i d -> bytes_in P image size -> P ⊆ o_pages o -> 0 <= size ->
  let '(r, s') := load_emxf (Some i) image size s in
  (r = -1 /\ load_failed s o d s') \/
  (r = 0 /\ exists m p code_size entry_offset, emxf (mem (km s)) image size code_size entry_offset /\
     s' = put_process i (with_entry_point (USER_INIT_CODE_ADDR + entry_offset)
       (add_page (mkPage USER_INIT_CODE_ADDR (p * 4096)) (get_process i s))) (set_km m s) /\
     0 < p < 4096 /\ (p ∉ o_pages o) /\ kstep (fun q => q = d) none (km s) o m (with_pages ({[p]} ∪ o_pages o) o) /\
     page_added d USER_INIT_CODE_ADDR p false (mem (km s)) (mem m) /\
     copied (mem (km s)) (image + EMXF_HEADER_SIZE) code_size p (mem m)).
Proof.
  intros Hlo Him HP Hsz. pose proof Hlo as [Hk [Hi Hl] Hsp Hd Hc]. pose proof Him as (Hb1 & Hb2 & _).
  pose proof (load_failed_refl s o d Hk) as Hfail. unfold load_emxf.
  rewrite (proj2 (Z.eqb_neq image NULL)) by lia. cbn [orb].
  destruct (Z.ltb_spec size EMXF_HEADER_SIZE) as [?|Hhdr]; [by left|].
  rewrite (wrap_small 32 (image + 1)), (wrap_small 32 (image + 2)), (wrap_small 32 (image + 3)), (wrap_small 32 (image + 4)),
    (wrap_small 32 (image + 8)), (wrap_small 32 (image + 12)), !read_le32_load by lia.
  destruct (negb _ || negb _ || negb _ || negb _) eqn:Emag; [by left|]. bool_simpl.
  set (cs := rd32 _ (image + 4)). set (eo := rd32 _ (image + 8)).
  assert (Hcs : 0 <= cs < 4294967296) by apply load32_range. assert (Heo : 0 <= eo < 4294967296) by apply load32_range.
  destruct (Z.ltb_spec PMM_PAGE_SIZE cs) as [?|Hpg]; [by left|].
  destruct (Z.leb_spec cs eo) as [?|Hent]; [by left|].
  rewrite (wrap_small 32 (EMXF_HEADER_SIZE + cs)) by lia.
  destruct (Z.ltb_spec size (EMXF_HEADER_SIZE + cs)) as [?|Hfit]; [by left|].
  assert (Hva : user_page_addr USER_INIT_CODE_ADDR) by done.
  pose proof (map_copied_spec s o i d USER_INIT_CODE_ADDR (image + 12) cs 0 P Hlo Hva ltac:(lia)
    (or_intror (bytes_in_sub P image size (image + 12) cs Him ltac:(lia) ltac:(lia) ltac:(lia))) HP (or_introl eq_refl)) as Hmap.
  destruct (map_copied_user_page _ _ _ _ _ _) as [r s1].
  destruct Hmap as [(-> & m & -> & Hst & Hsame)|(-> & m & p & -> & Hp & Hpn & Hst & Hadd & Hcp)].
  { left. split; [done|]. by exists m. }
  right. split; [done|]. exists m, p, cs, eo. split; [split; [lia|done|done|done|lia]|]. split; [|done].
  rewrite upd_put_process by done. rewrite (wrap_small 32 (USER_INIT_CODE_ADDR + eo)) by lia. done.
Qed.

(** ** Preparing *)

(** The boot module, if there is one, lies in the frames [M]. *)
Definition module_held (M : gset Z) (b : boot_vars) : Prop :=
  0 <= module_size b /\ (module_start b = NULL \/ bytes_in M (module_start b) (module_size b)).

Lemma find_in_module M path m b e n :
  module_held M b -> initramfs_find path LOCAL LOCAL m b = Some (e, n) -> bytes_in M e n /\ 0 <= n.
Proof.
  intros [Hn Hm] Hf. assert (Hne : module_start b <> NULL).
  { intros E. unfold initramfs_find, initramfs_header, boot_module_start in Hf. rewrite E in Hf. by destruct path. }
  destruct Hm as [?|Hm]; [done|]. pose proof Hm as (Hlo & Hhi & _).
  destruct (find_bounds path LOCAL LOCAL m b e n) as (H1 & H2 & H3); [lia|lia|done|].
  split; [|done]. by apply (bytes_in_sub M (module_start b) (module_size b)).
Qed.

(** A process that has not been loaded: no pages, an empty user half. *)
Record unloaded (s : ks) (o : own) (i d : Z) : Prop := {
  ul_loader : loader s o i d;
  ul_none : page_count (get_process i s) = 0;
  ul_pages : length (pages (get_process i s)) = 16%nat;
  ul_empty u : 0 <= u < VMM_KERNEL_VIRTUAL_BASE -> walk (mem (km s)) d u = None;
}.

(** The user half of [d] shows the code frame [c], read-only, and the stack
    frame [t], and nothing else. *)
Definition user_map (m : memory) (d c t : Z) : Prop :=
  forall u, 0 <= u < VMM_KERNEL_VIRTUAL_BASE -> walk m d u =
    if u / 4096 =? USER_INIT_CODE_ADDR / 4096 then Some (c * 4096 + u mod 4096, false, true)
    else if u / 4096 =? USER_INIT_STACK_ADDR / 4096 then Some (t * 4096 + u mod 4096, true, true)
    else None.

Definition loaded_process (c t entry_offset : Z) (p : user_process) : user_process :=
  with_user_stack USER_INIT_STACK_ADDR PMM_PAGE_SIZE
    (add_page (mkPage USER_INIT_STACK_ADDR (t * 4096))
      (with_entry_point (USER_INIT_CODE_ADDR + entry_offset)
        (add_page (mkPage USER_INIT_CODE_ADDR (c * 4096)) p))).

(** The loader succeeded: [image] is in the process' memory. *)
Record loaded (s : ks) (o : own) (i d image size : Z) (m : mm) (c t code_size entry_offset : Z) : Prop := {
  ld_image : emxf (mem (km s)) image size code_size entry_offset;
  ld_range : 0 < c < 4096 /\ 0 < t < 4096 /\ c <> t;
  ld_new : (c ∉ o_pages o) /\ (t ∉ o_pages o);
  ld_step : kstep (fun q => q = d) none (km s) o m (with_pages ({[t]} ∪ ({[c]} ∪ o_pages o)) o);
  ld_map : user_map (mem m) d c t;
  ld_code : copied (mem (km s)) (image + EMXF_HEADER_SIZE) code_size c (mem m);
  ld_stack : copied (mem (km s)) NULL 0 t (mem m);
}.

(** It failed: the process has no pages, and its address space is as before. *)
Definition not_loaded (s : ks) (o : own) (i d : Z) (s' : ks) : Prop :=
  exists m p, s' = put_process i p (set_km m s) /\ address_space p = address_space (get_process i s) /\
    path p = path (get_process i s) /\ page_count p = 0 /\
    kstep (fun q => q = d) none (km s) o m o /\ same_user_half d (km s) m.

Lemma with_pages_none o : o = with_pages (o_pages o ∖ frames_of []) o.
Proof. destruct o. unfold with_pages, frames_of. simpl. f_equal. set_solver. Qed.

(** Releasing the pages of a process that has none. *)
Lemma free_none_spec s o i d :
  loader s o i d -> page_count (get_process i s) = 0 -> length (pages (get_process i s)) = 16%nat ->
  not_loaded s o i d (user_process_free_pages (Some i) s).
Proof.
  intros [Hk [Hi Hl] Hsp Hd _] Hc Hlen.
  assert (Hlive : live_pages (get_process i s) = []) by (unfold live_pages; by rewrite Hc).
  assert (Hok : pages_ok o (get_process i s)).
  { split; [done|lia|rewrite Hlive; intros pg Hpg; by apply elem_of_nil in Hpg|rewrite Hlive; constructor]. }
  destruct (free_pages_spec s o i d Hk Hi Hl Hsp Hd Hok) as (m & -> & Hst & Hw & _). rewrite Hlive in Hst, Hw.
  exists m. eexists. split; [reflexivity|]. do 3 (split; [done|]). split.
  - rewrite (with_pages_none o) at 2. eapply kstep_mono; [exact Hst| |done].
    intros q [?|Hq]; [done|]. unfold frames_of in Hq. simpl in Hq. set_solver.
  - intros u Hu. by rewrite Hw.
Qed.

(** Two failures in a row, and a failure before a release. *)
Lemma load_failed_then s o i d s1 s2 :
  load_failed s o d s1 -> not_loaded s1 o i d s2 -> not_loaded s o i d s2.
Proof.
  intros (m1 & -> & Hst1 & Hs1) (m2 & p & -> & ? & ? & ? & Hst2 & Hs2). exists m2, p.
  split; [done|]. do 3 (split; [done|]). split; [by eapply kstep_trans|].
  intros u Hu. by rewrite Hs2, Hs1.
Qed.

Lemma loader_km s o i d m o' T A :
  loader s o i d -> kstep T A (km s) o m o' -> o_dirs o' = o_dirs o -> loader (set_km m s) o' i d.
Proof. intros [Hk Hi Hsp Hd Hc] Hst Ho. split; try done; [apply Hst|by rewrite Ho]. Qed.

Lemma live_one pg p e :
  page_count p = 0 -> length (pages p) = 16%nat ->
  let p1 := with_entry_point e (add_page pg p) in
  live_pages p1 = [pg] /\ page_count p1 = 1 /\ length (pages p1) = 16%nat.
Proof.
  intros Hc Hl. unfold live_pages. simpl. rewrite Hc, length_insert.
  destruct (pages p) as [|x l]; [done|]. by split.
Qed.

(** The stack page after the code page. *)
Lemma stack_added s o i d image size m c cs eo :
  unloaded s o i d ->
  let s1 := put_process i (with_entry_point (USER_INIT_CODE_ADDR + eo)
    (add_page (mkPage USER_INIT_CODE_ADDR (c * 4096)) (get_process i s))) (set_km m s) in
  let o1 := with_pages ({[c]} ∪ o_pages o) o in
  emxf (mem (km s)) image size cs eo -> 0 < c < 4096 -> (c ∉ o_pages o) ->
  kstep (fun q => q = d) none (km s) o m o1 -> page_added d USER_INIT_CODE_ADDR c false (mem (km s)) (mem m) ->
  copied (mem (km s)) (image + EMXF_HEADER_SIZE) cs c (mem m) ->
  let '(r, s2) := map_copied_user_page (Some i) USER_INIT_STACK_ADDR NULL 0 VMM_PAGE_WRITABLE s1 in
  (r = -1 /\ not_loaded s o i d (user_process_free_pages (Some i) s2)) \/
  (r = 0 /\ exists m2 t, upd_process i (with_user_stack USER_INIT_STACK_ADDR PMM_PAGE_SIZE) s2 =
      put_process i (loaded_process c t eo (get_process i s)) (set_km m2 s) /\
    loaded s o i d image size m2 c t cs eo).
Proof.
  intros [[Hk [Hi Hl] Hsp Hd Hc] Hcount Hlen Hemp] s1 o1 Him Hcr Hcn Hst1 [_ Hw1] Hcp1.
  set (p := get_process i s) in *. set (pg := mkPage USER_INIT_CODE_ADDR (c * 4096)) in *.
  destruct (live_one pg p (USER_INIT_CODE_ADDR + eo) Hcount Hlen) as (Hlive & Hcnt1 & Hlen1). cbv zeta in Hlive, Hcnt1, Hlen1.
  set (p1 := with_entry_point _ _) in *.
  assert (Hl1 : (Z.to_nat i < length (processes (us s1)))%nat) by (unfold s1; simpl; by rewrite length_insert).
  assert (Hp1 : get_process i s1 = p1) by (unfold s1; rewrite get_put_process, decide_True by done; done).
  assert (Hlo1 : loader s1 o1 i d).
  { split; [apply Hst1|done|by rewrite Hp1|done|rewrite Hp1, Hcnt1; lia]. }
  pose proof (map_copied_spec s1 o1 i d USER_INIT_STACK_ADDR NULL 0 VMM_PAGE_WRITABLE ∅ Hlo1 ltac:(done) ltac:(lia)
    (or_introl eq_refl) ltac:(set_solver) (or_intror eq_refl)) as Hmap.
  destruct (map_copied_user_page _ _ _ _ _ _) as [r s2].
  destruct Hmap as [(-> & m2 & -> & Hst2 & Hs2)|(-> & m2 & t & -> & Htr & Htn & Hst2 & [_ Hw2] & Hcp2)]; [left|right]; (split; [done|]).
  - assert (Hp2 : get_process i (set_km m2 s1) = p1) by done.
    assert (Hfr : pg_frame pg = c) by (unfold pg_frame; simpl; by rewrite Z.div_mul).
    assert (Hok : pages_ok o1 p1).
    { split; [done|lia| |rewrite Hlive; apply NoDup_singleton]. rewrite Hlive. intros x ->%list_elem_of_singleton.
      rewrite Hfr. split; [done|]. split; [done|]. apply elem_of_union_l, elem_of_singleton. done. }
    destruct (free_pages_spec (set_km m2 s1) o1 i d) as (m3 & -> & Hst3 & Hw3 & _); [apply Hst2|done|done|by rewrite Hp2|done|by rewrite Hp2|].
    rewrite Hp2 in *. rewrite Hlive in *.
    exists m3. eexists. split; [unfold s1; change (set_km m3 (set_km m2 (put_process i ?x (set_km m s)))) with (put_process i x (set_km m3 s)); apply put_put_process|].
    do 3 (split; [done|]).
    assert (Hfs : frames_of [pg] = {[c]}) by (unfold frames_of; simpl; rewrite Hfr; set_solver). rewrite Hfs in Hst3.
    assert (Hcd : c ∉ o_dirs o).
    { intros Hcd. apply (dir_not_page m o1 c c); [apply Hst1|done|apply elem_of_union_l, elem_of_singleton; done|done]. }
    split.
    + eapply (kstep_fresh _ _ _ _ _ _ c); [|done|done]. rewrite <- (with_pages_undo c o) at 2 by done.
      eapply kstep_trans; [eapply kstep_mono; [exact Hst1|by right|done]|].
      eapply kstep_trans; [eapply kstep_mono; [exact Hst2|by right|done]|].
      eapply kstep_mono; [exact Hst3| |done]. intros q [?|?%elem_of_singleton]; [by right|by left].
    + intros u Hu. rewrite Hw3, Hs2 by done. change (mem (km s1)) with (mem m). rewrite Hw1 by done. unfold on_page. simpl.
      rewrite orb_false_r. case_if; [by rewrite Hemp|done].
  - exists m2, t. split.
    { rewrite Hp1. unfold s1. change (set_km m2 (put_process i ?x (set_km m s))) with (put_process i x (set_km m2 s)).
      rewrite put_put_process, upd_put_process by done. done. }
    assert (Hct : c <> t) by (intros ->; apply Htn, elem_of_union_l, elem_of_singleton; done).
    change (mem (km s1)) with (mem m) in *. change (km s1) with m in *.
    split; try done.
    + split; [done|]. intros Ht. apply Htn, elem_of_union_r, Ht.
    + eapply kstep_trans; [exact Hst1|exact Hst2].
    + intros u Hu. rewrite Hw2, Hw1, Hemp by done.
      change (writable VMM_PAGE_WRITABLE) with true.
      destruct (Z.eqb_spec (u / 4096) (USER_INIT_STACK_ADDR / 4096)) as [E|E]; [rewrite E; done|done].
    + intros k Hk'. rewrite <- Hcp1 by done.
      destruct (ks_page _ _ _ _ _ _ Hst2 c) as [_ E]; [apply elem_of_union_l, elem_of_singleton; done| |apply E; Z.div_mod_to_equations; lia].
      intros ->. apply (dir_not_page m o1 d d); [apply Hst1|done|apply elem_of_union_l, elem_of_singleton; done|done].
Qed.

Lemma prepare_exec_cases s o i d M pth :
  unloaded s o i d -> module_held M (bv s) -> M ⊆ o_pages o ->
  let '(r, s') := user_prepare_exec (Some i) (Some pth) s in
  (r = -1 /\ not_loaded s o i d s') \/
  (r = 0 /\ exists m c t image size cs eo,
    initramfs_find (Some pth) LOCAL LOCAL (mem (km s)) (bv s) = Some (image, size) /\
    s' = put_process i (loaded_process c t eo (get_process i s)) (set_km m s) /\
    loaded s o i d image size m c t cs eo).
Proof.
  intros Hul HM HP. pose proof Hul as [Hlo Hcount Hlen Hemp]. unfold user_prepare_exec.
  destruct (initramfs_find _ _ _ _ _) as [[image size]|] eqn:Hf; [|left; split; [done|by apply free_none_spec]].
  destruct (find_in_module M _ _ _ _ _ HM Hf) as [Hin Hsz].
  pose proof (load_emxf_cases s o i d image size M Hlo Hin HP Hsz) as Hload.
  destruct (load_emxf _ _ _ _) as [r s1].
  destruct Hload as [[-> Hfail]|(-> & m & c & cs & eo & Him & -> & Hc & Hcn & Hst & Hadd & Hcp)].
  - left. split; [done|]. cbn [negb Z.eqb]. pose proof Hfail as (m1 & -> & Hst1 & _).
    eapply load_failed_then; [exact Hfail|]. apply free_none_spec; [by eapply loader_km|done|done].
  - cbn [negb Z.eqb].
    pose proof (stack_added s o i d image size m c cs eo Hul Him Hc Hcn Hst Hadd Hcp) as Hsk. cbv zeta in Hsk.
    destruct (map_copied_user_page _ _ _ _ _ _) as [r s2]. destruct Hsk as [[-> Hfail]|(-> & m2 & t & Heq & Hld)].
    + left. by split.
    + right. split; [done|]. exists m2, c, t, image, size, cs, eo. by split; [|split].
Qed.
End exec.
