(* ===== verification/UserInv.v ===== *)
(** * The invariant of the process table

    [users_ok M E P s]: the records, the tasks that run them, the address
    spaces of the processes that have not started ([E], as in SchedProof.v)
    and the frames [P] they own together with the frames [M] of the boot module. *)

From S2P Require Import Prelude Memory Tty Printk Keyboard Machine PmmInit FrameAlloc Pmm Vmm VmmSpec VmmProof VmmTheorems.
From S2P Require Import Kmalloc KmallocProof Initramfs Sharing Kmem Kernel Sched SchedProof SchedTheorems User UserMem UserExec.

(** ** Collecting over the table *)

Lemma bind_insert {A B} (f : A -> list B) (l : list A) i x y :
  l !! i = Some x ->
  exists R, l ≫= f ≡ₚ f x ++ R /\ (<[i := y]> l ≫= f) ≡ₚ f y ++ R.
Proof.
  intros Hi. pose proof (lookup_lt_Some _ _ _ Hi) as Hlt. exists ((take i l ≫= f) ++ (drop (S i) l ≫= f)). split.
  - rewrite <- (take_drop_middle l i x Hi) at 1. rewrite bind_app. simpl.
    by rewrite !(assoc_L (++)), (comm (++) (take i l ≫= f)).
  - rewrite insert_take_drop by done. rewrite bind_app. simpl.
    by rewrite !(assoc_L (++)), (comm (++) (take i l ≫= f)).
Qed.

Lemma bind_insert_same {A B} (f : A -> list B) (l : list A) i x y :
  l !! i = Some x -> f y = f x -> <[i := y]> l ≫= f = l ≫= f.
Proof.
  intros Hi Hf. pose proof (lookup_lt_Some _ _ _ Hi). rewrite insert_take_drop by done.
  rewrite <- (take_drop_middle l i x Hi) at 3. rewrite !bind_app. simpl. by rewrite Hf.
Qed.

Lemma omap_nodup_inj {A B} (f : A -> option B) (l : list A) i j x y b :
  NoDup (omap f l) -> l !! i = Some x -> l !! j = Some y -> f x = Some b -> f y = Some b -> i = j.
Proof.
  intros Hnd Hi Hj Hx Hy. destruct (decide (i = j)) as [|Hne]; [done|exfalso].
  destruct (omap_insert f l i x x Hi) as (R & HR & _). rewrite HR, Hx in Hnd. simpl in Hnd.
  apply NoDup_cons in Hnd as [Hn _]. apply Hn.
  assert (Hin : y ∈ delete i l).
  { destruct (decide (j < i)%nat).
    - apply (list_elem_of_lookup_2 _ j). by rewrite list_lookup_delete_lt by lia.
    - apply (list_elem_of_lookup_2 _ (j - 1)). rewrite list_lookup_delete_ge by lia. by replace (S (j - 1)) with j by lia. }
  assert (HR' : R ≡ₚ omap f (delete i l)).
  { apply (Permutation_cons_inv (a := b)). rewrite Hx in HR. simpl in HR. rewrite <- HR.
    rewrite delete_take_drop. rewrite <- (take_drop_middle l i x Hi) at 1. rewrite !omap_app. simpl. rewrite Hx.
    by rewrite Permutation_middle. }
  rewrite HR'. apply list_elem_of_omap. by exists y.
Qed.

(** ** Tasks *)

Definition alive (t : task) : Prop := t_state t = TASK_RUNNABLE \/ t_state t = TASK_RUNNING.

Record ids_ok (s : ks) : Prop := {
  id_zero : t_id (get_task 0 s) = 0;
  id_next : 0 < next_task_id (sc s) < 4294967296;
  id_range j : 0 < j < 16 -> t_state (get_task j s) <> TASK_UNUSED -> 0 < t_id (get_task j s) < next_task_id (sc s);
  id_inj i j : 0 < i < 16 -> 0 < j < 16 -> t_state (get_task i s) <> TASK_UNUSED -> t_state (get_task j s) <> TASK_UNUSED ->
    t_id (get_task i s) = t_id (get_task j s) -> i = j;
}.

(** The tasks that are alive stay, up to who runs; [X] may be gone; those that
    are new have new ids. *)
Definition tasks_kept (X : Z -> Prop) (s s' : ks) : Prop :=
  next_task_id (sc s) <= next_task_id (sc s') /\
  (forall j, 0 <= j < 16 -> alive (get_task j s) -> ~ X (t_id (get_task j s)) ->
    alive (get_task j s') /\ t_id (get_task j s') = t_id (get_task j s) /\
    t_address_space (get_task j s') = t_address_space (get_task j s) /\ t_entry (get_task j s') = t_entry (get_task j s)) /\
  (forall j, 0 <= j < 16 -> alive (get_task j s') -> next_task_id (sc s) <= t_id (get_task j s') \/
    alive (get_task j s) /\ t_id (get_task j s') = t_id (get_task j s) /\ t_entry (get_task j s') = t_entry (get_task j s)).

Lemma tasks_kept_refl X s : tasks_kept X s s.
Proof. split; [done|]. split; [by intros j Hj Ha _|]. intros j Hj Ha. by right. Qed.

Lemma tasks_kept_trans X s1 s2 s3 : tasks_kept X s1 s2 -> tasks_kept X s2 s3 -> tasks_kept X s1 s3.
Proof.
  intros (N1 & F1 & B1) (N2 & F2 & B2). split; [lia|]. split.
  - intros j Hj Ha Hx. destruct (F1 j Hj Ha Hx) as (A1 & I1 & S1 & E1). rewrite <- I1 in Hx.
    destruct (F2 j Hj A1 Hx) as (A2 & I2 & S2 & E2). by rewrite I2, S2, E2.
  - intros j Hj Ha. destruct (B2 j Hj Ha) as [?|(A2 & I2 & E2)]; [left; lia|].
    destruct (B1 j Hj A2) as [?|(A1 & I1 & E1)]; [left; lia|right]. by rewrite I2, E2.
Qed.

Lemma tasks_kept_mono (X Y : Z -> Prop) s s' : (forall x, X x -> Y x) -> tasks_kept X s s' -> tasks_kept Y s s'.
Proof. intros H (N & F & B). split; [done|]. split; [|done]. intros j Hj Ha Hx. apply F; auto. Qed.

(** Calls that leave the table of tasks alone. *)
Lemma tasks_kept_eq X s s' : sc s' = sc s -> tasks_kept X s s'.
Proof.
  intros H. pose proof (tasks_kept_refl X s) as Hr. unfold tasks_kept, get_task in *. by rewrite H.
Qed.

(** ** Records *)

Definition created_dirs (p : user_process) : list Z :=
  if bool_decide (state p = USER_PROCESS_CREATED) then [address_space p / 4096] else [].
Definition proc_frames (p : user_process) : list Z := pg_frame <$> live_pages p.

(** A task of the table runs [p]. *)
Definition has_task (s : ks) (p : user_process) (Q : task -> Prop) : Prop :=
  exists j, 0 < j < 16 /\ t_id (get_task j s) = task_id p /\ alive (get_task j s) /\ Q (get_task j s).

(** The pages of a process that is running: its code and its stack. *)
Definition code_and_stack (c t : Z) (p : user_process) : Prop :=
  live_pages p = [mkPage USER_INIT_CODE_ADDR (c * 4096); mkPage USER_INIT_STACK_ADDR (t * 4096)] /\
  page_count p = 2.

Definition no_user_pages (m : memory) (d : Z) : Prop :=
  forall u, 0 <= u < VMM_KERNEL_VIRTUAL_BASE -> walk m d u = None.

Definition proc_ok (s : ks) (p : user_process) : Prop :=
  let kpd := kernel_page_directory (km s) in
  match state p with
  | USER_PROCESS_FREE => p = zero_process
  | USER_PROCESS_CREATED =>
      page_count p = 0 /\ exists d, address_space p = d * 4096 /\ 0 < d < 4096 /\ no_user_pages (mem (km s)) d /\
      has_task s p (fun t => t_address_space t = kpd /\ t_entry t = Some user_exec_task_fn)
  | USER_PROCESS_RUNNING =>
      exists d c t, address_space p = d * 4096 /\ 0 < d < 4096 /\ d * 4096 <> kpd /\ code_and_stack c t p /\
      user_map (mem (km s)) d c t /\ has_task s p (fun tk => t_address_space tk = address_space p)
  | USER_PROCESS_EXITED => page_count p = 0 /\ address_space p = 0 /\ parent_pid p <> 0
  end.

Abbreviation is_free p := (state p = USER_PROCESS_FREE).

Record rec_ok (s : ks) (p : user_process) : Prop := {
  rc_pid : 0 < pid p < next_pid (us s);
  rc_parent : 0 <= parent_pid p < pid p;
  rc_tid : 0 < task_id p < next_task_id (sc s);
  rc_path : length (path p) = 32%nat;
  rc_pages : length (pages p) = 16%nat;
  rc_status : 0 <= exit_status p < 4294967296;
}.

Record users_ok (M : gset Z) (E : list Z) (P : gset Z) (s : ks) : Prop := {
  uo_len : length (processes (us s)) = 16%nat;
  uo_pids : 0 < next_pid (us s) < 4294967296;
  uo_proc i : 0 <= i < 16 -> proc_ok s (get_process i s);
  uo_rec i : 0 <= i < 16 -> ~ is_free (get_process i s) -> rec_ok s (get_process i s);
  uo_pid_inj i j : 0 <= i < 16 -> 0 <= j < 16 -> ~ is_free (get_process i s) -> ~ is_free (get_process j s) ->
    pid (get_process i s) = pid (get_process j s) -> i = j;
  uo_tid_inj i j : 0 <= i < 16 -> 0 <= j < 16 -> ~ is_free (get_process i s) -> ~ is_free (get_process j s) ->
    task_id (get_process i s) = task_id (get_process j s) -> i = j;
  (** whoever has a parent has a running one *)
  uo_parent i : 0 <= i < 16 -> ~ is_free (get_process i s) -> parent_pid (get_process i s) <> 0 ->
    exists j, 0 <= j < 16 /\ state (get_process j s) = USER_PROCESS_RUNNING /\
      pid (get_process j s) = parent_pid (get_process i s);
  uo_dirs : E ≡ₚ (processes (us s) ≫= created_dirs);
  uo_pages : P = M ∪ list_to_set (processes (us s) ≫= proc_frames);
  uo_nodup : NoDup (processes (us s) ≫= proc_frames);
  uo_module q : q ∈ M -> q ∉ processes (us s) ≫= proc_frames;
}.

Section inv.
Context {FA : FrameAllocator pmm_alloc_page pmm_free_page}.

Abbreviation kpd s := (kernel_page_directory (km s)).

(** ** Directories of processes *)

(** The directory a process is loaded into or runs in. *)
Definition proc_dir (p : user_process) (d : Z) : Prop :=
  (state p = USER_PROCESS_CREATED \/ state p = USER_PROCESS_RUNNING) /\ address_space p = d * 4096.

Lemma task_dirs_elem E s o j d :
  sched_wf E s o -> 0 <= j < 16 -> task_dir (kpd s) (get_task j s) = Some d -> d ∈ task_dirs s.
Proof.
  intros Hw Hj Ht. apply list_elem_of_omap. exists (get_task j s). split; [|done].
  eapply list_elem_of_lookup_2, get_task_lookup. by eapply sw_bound.
Qed.

Lemma task_dir_inj E s o i j d :
  sched_wf E s o -> 0 <= i < 16 -> 0 <= j < 16 ->
  task_dir (kpd s) (get_task i s) = Some d -> task_dir (kpd s) (get_task j s) = Some d -> i = j.
Proof.
  intros Hw Hi Hj Hdi Hdj. destruct (sw_dirs _ _ _ Hw) as (k & _ & Hnd & _). apply NoDup_cons in Hnd as [_ Hnd].
  apply NoDup_app in Hnd as (Hnd & _ & _).
  pose proof (omap_nodup_inj (task_dir (kpd s)) (tasks (sc s)) (Z.to_nat i) (Z.to_nat j) _ _ d Hnd
    (get_task_lookup i s ltac:(by eapply sw_bound)) (get_task_lookup j s ltac:(by eapply sw_bound)) Hdi Hdj). lia.
Qed.

Lemma task_dir_of kp t d : t_address_space t = d * 4096 -> d <> 0 -> d * 4096 <> kp -> task_dir kp t = Some d.
Proof.
  intros Ha Hd Hk. unfold task_dir. rewrite Ha, (proj2 (Z.eqb_neq (d * 4096) 0)), (proj2 (Z.eqb_neq _ kp)) by (done || lia).
  simpl. by rewrite Z.div_mul.
Qed.

Lemma created_in M E P s i d :
  users_ok M E P s -> 0 <= i < 16 -> state (get_process i s) = USER_PROCESS_CREATED ->
  address_space (get_process i s) = d * 4096 -> d ∈ E.
Proof.
  intros Hu Hi Hst Ha. rewrite (uo_dirs _ _ _ _ Hu). apply list_elem_of_bind. exists (get_process i s).
  split.
  - unfold created_dirs. rewrite bool_decide_eq_true_2 by done. rewrite Ha, Z.div_mul by lia. by apply list_elem_of_singleton.
  - eapply list_elem_of_lookup_2, get_process_lookup. rewrite (uo_len _ _ _ _ Hu). lia.
Qed.

(** A directory that waits for its process is nobody else's. *)
Lemma waiting_dir_safe E s o d :
  sched_wf E s o -> d ∈ E -> d ∈ o_dirs o /\ ~ doomed_dir s d /\ ~ kernel_dir (km s) d.
Proof.
  intros Hw HE. destruct (sw_dirs _ _ _ Hw) as (k & Hk & Hnd & Ho).
  apply NoDup_cons in Hnd as [Hn Hnd]. apply NoDup_app in Hnd as (_ & Hdis & _).
  split; [rewrite Ho; set_solver|]. split.
  - intros (j & Hj & Htd). apply (Hdis d); [|done]. apply (task_dirs_elem E s o j d); [done| |done].
    unfold doomed in Hj. bool_simpl. lia.
  - intros Hkd. unfold kernel_dir in *. assert (d = k) as -> by lia. set_solver.
Qed.

(** Reaping removes the directories of the zombies, and no others. *)
Lemma reaped_left E s o s1 o1 d :
  sched_wf E s o -> reaped E 16 s o s1 o1 -> d ∈ o_dirs o1 -> d ∈ o_dirs o /\ ~ doomed_dir s d.
Proof.
  intros Hw Hre Hd. pose proof (re_wf _ _ _ _ _ _ Hre) as Hw1. pose proof (ks_kpd _ _ _ _ _ _ (re_step _ _ _ _ _ _ Hre)) as Hkp.
  destruct (sw_dirs _ _ _ Hw) as (k & Hk & _ & Ho), (sw_dirs _ _ _ Hw1) as (k1 & Hk1 & _ & Ho1).
  assert (k1 = k) as -> by (unfold kernel_dir in *; lia).
  rewrite Ho1, elem_of_union, elem_of_singleton, elem_of_list_to_set, elem_of_app in Hd. destruct Hd as [->|[Hd|Hd]].
  - split; [rewrite Ho; set_solver|]. intros (j & Hj & Htd). assert (0 < j < 16) by (unfold doomed in Hj; bool_simpl; lia).
    by destruct (task_dir_in E s o j k Hw ltac:(lia) Htd) as (_ & Hn & _).
  - apply list_elem_of_omap in Hd as (t & Ht & Htd). apply list_elem_of_lookup in Ht as [j Hj].
    pose proof (lookup_lt_Some _ _ _ Hj) as Hlt. rewrite (sw_len _ _ _ Hw1) in Hlt.
    assert (Hg : get_task (Z.of_nat j) s1 = t) by (unfold get_task; by rewrite Nat2Z.id, Hj).
    rewrite (re_task _ _ _ _ _ _ Hre) in Hg by lia. rewrite Hkp in Htd. rewrite (proj2 (Z.ltb_lt (Z.of_nat j) 16)), andb_true_r in Hg by lia.
    destruct (doomed s (Z.of_nat j)) eqn:Hdm; subst t; [done|].
    pose proof (task_dirs_elem E s o (Z.of_nat j) d Hw ltac:(lia) Htd) as Hin. split; [rewrite Ho; set_solver|].
    intros (i & Hi & Htd'). assert (0 < i < 16) by (unfold doomed in Hi; bool_simpl; lia).
    assert (i = Z.of_nat j) as -> by (apply (task_dir_inj E s o i (Z.of_nat j) d Hw); done || lia). congruence.
  - destruct (waiting_dir_safe E s o d Hw Hd) as (? & ? & _). done.
Qed.

Lemma reaped_gone E s o s1 o1 d :
  sched_wf E s o -> reaped E 16 s o s1 o1 -> d ∈ o_dirs o -> d ∉ o_dirs o1 -> doomed_dir s d.
Proof.
  intros Hw Hre Hd Hn. pose proof (re_wf _ _ _ _ _ _ Hre) as Hw1. pose proof (ks_kpd _ _ _ _ _ _ (re_step _ _ _ _ _ _ Hre)) as Hkp.
  destruct (sw_dirs _ _ _ Hw) as (k & Hk & _ & Ho), (sw_dirs _ _ _ Hw1) as (k1 & Hk1 & _ & Ho1).
  assert (k1 = k) as -> by (unfold kernel_dir in *; lia).
  rewrite Ho, elem_of_union, elem_of_singleton, elem_of_list_to_set, elem_of_app in Hd.
  destruct Hd as [->|[Hd|Hd]]; [by destruct Hn; rewrite Ho1; set_solver| |by destruct Hn; rewrite Ho1; set_solver].
  apply list_elem_of_omap in Hd as (t & Ht & Htd). apply list_elem_of_lookup in Ht as [j Hj].
  pose proof (lookup_lt_Some _ _ _ Hj) as Hlt. rewrite (sw_len _ _ _ Hw) in Hlt.
  assert (Hg : get_task (Z.of_nat j) s = t) by (unfold get_task; by rewrite Nat2Z.id, Hj).
  destruct (doomed s (Z.of_nat j)) eqn:Hdm; [exists (Z.of_nat j); by rewrite Hg|]. destruct Hn. rewrite Ho1.
  assert (Hin : d ∈ task_dirs s1); [|set_solver]. apply (task_dirs_elem E s1 o1 (Z.of_nat j)); [done|lia|].
  rewrite (re_task _ _ _ _ _ _ Hre), Hdm, Hkp, Hg by lia. done.
Qed.

(** The directory of a process is live, and it is not that of a task that the
    next reaping removes. *)
Lemma proc_dir_safe_in M E E' P s o i d :
  sched_wf E' s o -> (forall x, x ∈ E -> x ∈ E') -> users_ok M E P s -> 0 <= i < 16 -> proc_dir (get_process i s) d ->
  d ∈ o_dirs o /\ ~ doomed_dir s d /\ ~ kernel_dir (km s) d.
Proof.
  intros Hw HE' Hu Hi [Hst Ha]. pose proof (sw_dirs _ _ _ Hw) as (k & Hk & Hnd & Ho).
  assert (Hdk : forall x, x ∈ task_dirs s ++ E' -> x <> k /\ ~ kernel_dir (km s) x).
  { intros x Hx. apply NoDup_cons in Hnd as [Hn _]. split; [by intros ->|]. intros Hkx.
    unfold kernel_dir in *. assert (x = k) by lia. by subst. }
  pose proof Hnd as Hnd'. apply NoDup_cons in Hnd' as [_ Hnd']. apply NoDup_app in Hnd' as (_ & Hdis & _).
  destruct Hst as [Hst|Hst].
  - apply (waiting_dir_safe E'); [done|]. by eapply HE', created_in.
  - pose proof (uo_proc _ _ _ _ Hu i Hi) as Hp. unfold proc_ok in Hp. rewrite Hst in Hp.
    destruct Hp as (d' & c & t & Ha' & Hr & Hne & _ & _ & j & Hj & _ & Hal & Hsp).
    assert (d' = d) as -> by lia. rewrite Ha' in Hsp.
    pose proof (task_dir_of (kpd s) (get_task j s) d Hsp ltac:(lia) Hne) as Htd.
    assert (Hin : d ∈ task_dirs s) by (apply (task_dirs_elem E' s o j d); [done|lia|done]).
    split; [rewrite Ho; set_solver|]. split; [|by apply Hdk; set_solver].
    intros (j' & Hj' & Htd'). assert (j' = j) as ->.
    { apply (task_dir_inj E' s o j' j d); [done| |lia|done|done]. unfold doomed in Hj'. bool_simpl. lia. }
    unfold doomed in Hj'. bool_simpl. destruct Hal; congruence.
Qed.

Lemma proc_dir_safe M E P s o i d :
  sched_wf E s o -> users_ok M E P s -> 0 <= i < 16 -> proc_dir (get_process i s) d ->
  d ∈ o_dirs o /\ ~ doomed_dir s d /\ ~ kernel_dir (km s) d.
Proof. intros Hw Hu Hi Hd. by apply (proc_dir_safe_in M E E P s o i d). Qed.

(** The invariants of the scheduler do not see the table of processes. *)
Lemma sched_wf_eq E s s' o : km s' = km s -> sc s' = sc s -> sched_wf E s o -> sched_wf E s' o.
Proof.
  intros Hk Hs Hw. destruct Hw. unfold task_dirs, get_task in *.
  split; unfold task_dirs, get_task; rewrite ?Hk, ?Hs; done.
Qed.

Lemma sched_inv_eq E s s' o : km s' = km s -> sc s' = sc s -> sched_inv E s o -> sched_inv E s' o.
Proof. intros Hk Hs [Hw Hr]. split; [by eapply sched_wf_eq|]. unfold get_task in *. by rewrite Hs. Qed.

Lemma ids_ok_eq s s' : sc s' = sc s -> ids_ok s -> ids_ok s'.
Proof. intros Hs []. unfold get_task in *. split; unfold get_task; rewrite ?Hs; done. Qed.

Lemma users_ok_eq M E P s s' : km s' = km s -> sc s' = sc s -> us s' = us s -> users_ok M E P s -> users_ok M E P s'.
Proof.
  intros Hk Hs Hus [? ? ? Hr ? ? ? ? ? ? ?]. destruct s, s'. simpl in *. subst. split; try done.
  intros i Hi Hf. by destruct (Hr i Hi Hf).
Qed.

(** ** What the scheduler does to the tasks of processes *)

Lemma ids_kept s s' :
  ids_ok s -> next_task_id (sc s') = next_task_id (sc s) -> t_id (get_task 0 s') = 0 ->
  (forall j, 0 < j < 16 -> t_state (get_task j s') <> TASK_UNUSED ->
    t_state (get_task j s) <> TASK_UNUSED /\ t_id (get_task j s') = t_id (get_task j s)) -> ids_ok s'.
Proof.
  intros [H0 Hn Hr Hi] Hnx Hz Hj. split; [done|by rewrite Hnx|..].
  - intros j Hjr Hu. destruct (Hj j Hjr Hu) as [Hu' ->]. rewrite Hnx. auto.
  - intros i j Hir Hjr Hui Huj. destruct (Hj i Hir Hui) as [Hui' ->], (Hj j Hjr Huj) as [Huj' ->]. auto.
Qed.

Lemma reaped_tasks E n s o s1 o1 :
  reaped E n s o s1 o1 -> sched_wf E s o -> tasks_kept none s s1 /\ (ids_ok s -> ids_ok s1).
Proof.
  intros Hre Hw. assert (Hkeep : forall j, 0 <= j < 16 -> alive (get_task j s) -> get_task j s1 = get_task j s).
  { intros j Hj Ha. apply (reaped_keep _ _ _ _ _ _ _ Hre Hj). left. destruct Ha; congruence. }
  split.
  - split; [by rewrite (re_rest _ _ _ _ _ _ Hre)|]. split; [intros j Hj Ha _; rewrite Hkeep by done; done|].
    intros j Hj Ha. right. rewrite (re_task _ _ _ _ _ _ Hre j Hj) in *. destruct (_ && _); [|done]. by destruct Ha.
  - intros Hids. apply (ids_kept s); [done|by rewrite (re_rest _ _ _ _ _ _ Hre)| |].
    + rewrite Hkeep; [apply Hids|lia|]. destruct (sw_zero _ _ _ Hw); [by left|by right].
    + intros j Hj Hu. rewrite (re_task _ _ _ _ _ _ Hre j) in * by lia. by destruct (doomed s j && (j <? n)).
Qed.

Lemma switched_tasks E sp idx s o s' :
  switched sp idx s s' -> sched_wf E s o -> alive (get_task idx s) -> 0 <= idx < 16 ->
  tasks_kept none s s' /\ (ids_ok s -> ids_ok s').
Proof.
  intros Hsw Hw Hai Hidx. pose proof (sw_cur _ _ _ Hw) as Hc.
  assert (Hj : forall j, 0 <= j < 16 -> t_id (get_task j s') = t_id (get_task j s) /\
    t_address_space (get_task j s') = t_address_space (get_task j s) /\ t_entry (get_task j s') = t_entry (get_task j s) /\
    (alive (get_task j s) <-> alive (get_task j s')) /\
    (t_state (get_task j s') <> TASK_UNUSED -> t_state (get_task j s) <> TASK_UNUSED)).
  { intros j Hj. rewrite (sd_task _ _ _ _ Hsw j Hj). unfold alive.
    destruct (decide (current_task (sc s) = j)); [|destruct (decide (idx = j)); [subst j|done]].
    - case_bool_decide as Hr; simpl; [|done]. rewrite Hr. do 3 (split; [done|]). split; [split; intros _; [by left|by right]|congruence].
    - simpl. do 3 (split; [done|]). split; [|intros _; destruct Hai; congruence]. split; [intros _; by right|intros _; exact Hai]. }
  split.
  - split; [by rewrite (sd_next _ _ _ _ Hsw)|]. split.
    + intros j Hjr Ha _. destruct (Hj j Hjr) as (-> & -> & -> & H & _). tauto.
    + intros j Hjr Ha. right. destruct (Hj j Hjr) as (-> & _ & -> & H & _). tauto.
  - intros Hids. apply (ids_kept s); [done|by apply Hsw| |].
    + destruct (Hj 0 ltac:(lia)) as [-> _]. apply Hids.
    + intros j Hjr Hu. destruct (Hj j ltac:(lia)) as (-> & _ & _ & _ & H). auto.
Qed.

Lemma zombified_tasks E s o :
  sched_inv E s o -> current_task (sc s) <> 0 ->
  tasks_kept (fun x => x = sched_current_task_id s) s (zombified s) /\ (ids_ok s -> ids_ok (zombified s)).
Proof.
  intros Hinv Hc0. pose proof Hinv as [Hw Hrun]. pose proof (sw_cur _ _ _ Hw) as Hc. split.
  - split; [done|]. split.
    + intros j Hj Ha Hx. rewrite (zombified_task E s o) by done. destruct (decide _) as [<-|]; [|done]. by destruct Hx.
    + intros j Hj Ha. right. rewrite (zombified_task E s o) in * by done. destruct (decide _) as [<-|]; [|done]. by destruct Ha.
  - intros Hids. apply (ids_kept s); [done|done| |].
    + rewrite (zombified_task E s o) by (done || lia). rewrite decide_False by done. apply Hids.
    + intros j Hj. rewrite (zombified_task E s o) by (done || lia). destruct (decide _) as [<-|]; [|done].
      intros _. simpl. split; [congruence|done].
Qed.

Lemma created_tasks E f i st s o s2 o2 :
  created f i st s o s2 o2 -> sched_wf E s o -> next_task_id (sc s) < 4294967295 ->
  (0 <= next_task_id (sc s) -> tasks_kept none s s2) /\
  (ids_ok s -> ids_ok s2 /\ next_task_id (sc s2) = next_task_id (sc s) + 1) /\
  get_task i s2 = new_task f st s /\ us s2 = us s /\ current_task (sc s2) = current_task (sc s) /\
  (forall j, 0 <= j < 16 -> j <> i -> get_task j s2 = get_task j s).
Proof.
  intros [[Hi Hz] Heq _ _ _ _] Hw Hn. assert (Hl : (Z.to_nat i < length (tasks (sc s)))%nat) by (rewrite (sw_len _ _ _ Hw); lia).
  assert (Hget : forall j, 0 <= j < 16 -> get_task j s2 = if decide (i = j) then new_task f st s else get_task j s).
  { intros j Hj. rewrite Heq, get_put_task by (done || lia). done. }
  assert (Hoth : forall j, 0 <= j < 16 -> j <> i -> get_task j s2 = get_task j s).
  { intros j Hj Hne. rewrite Hget, decide_False by (done || lia). done. }
  assert (Hnx0 : next_task_id (sc s2) = u32 (next_task_id (sc s) + 1)) by (by rewrite Heq).
  split.
  { intros H0. split; [rewrite Hnx0, wrap_small by lia; lia|]. split.
    - intros j Hj Ha _. rewrite Hoth; [done|done|]. intros ->. rewrite Hz in Ha. by destruct Ha.
    - intros j Hj Ha. rewrite Hget in * by done. destruct (decide _); [left; simpl; lia|by right]. }
  split; [|split; [rewrite Hget, decide_True by lia; done|split; [by rewrite Heq|split; [by rewrite Heq|done]]]].
  intros [H0 Hnx Hr Hinj].
  assert (Hnx2 : next_task_id (sc s2) = next_task_id (sc s) + 1) by (rewrite Heq; simpl; apply wrap_small; lia).
  split; [|done]. split; rewrite ?Hnx2.
  - rewrite Hoth by lia. done.
  - lia.
  - intros j Hj Hu. rewrite Hget in * by lia. case_decide; [simpl; lia|]. specialize (Hr j Hj Hu). lia.
  - intros j j' Hj Hj' Hu Hu'. rewrite !Hget in * by lia. destruct (decide (i = j)), (decide (i = j')); subst; simpl in *.
    + done.
    + intros E0. specialize (Hr j' Hj' Hu'). lia.
    + intros E0. specialize (Hr j Hj Hu). lia.
    + by apply Hinj.
Qed.

(** ** Steps that leave the table alone *)

Lemma users_step M E P (X : Z -> Prop) T A s o s' o' :
  users_ok M E P s -> us s' = us s -> tasks_kept X s s' -> next_task_id (sc s) <= next_task_id (sc s') ->
  (forall i, 0 <= i < 16 -> state (get_process i s) = USER_PROCESS_CREATED \/ state (get_process i s) = USER_PROCESS_RUNNING ->
    ~ X (task_id (get_process i s))) ->
  kstep T A (km s) o (km s') o' ->
  (forall i d, 0 <= i < 16 -> proc_dir (get_process i s) d -> d ∈ o_dirs o /\ ~ T d) ->
  users_ok M E P s'.
Proof.
  intros [Hl Hpn Hp Hr Hpi Hti Hpar HE Hpg Hnd Hmod] Hus Htk Hnx HX Hst HT.
  assert (Hget : forall i, get_process i s' = get_process i s) by (intros i; unfold get_process; by rewrite Hus).
  assert (Hhas : forall i (Q Q' : task -> Prop), 0 <= i < 16 ->
    state (get_process i s) = USER_PROCESS_CREATED \/ state (get_process i s) = USER_PROCESS_RUNNING ->
    (forall t t', t_address_space t' = t_address_space t -> t_entry t' = t_entry t -> Q t -> Q' t') ->
    has_task s (get_process i s) Q -> has_task s' (get_process i s) Q').
  { intros i Q Q' Hi Hs HQ (j & Hj & Hid & Hal & Hq).
    destruct (proj1 (proj2 Htk) j ltac:(lia) Hal) as (Hal' & Hid' & Hsp' & He'); [rewrite Hid; by apply HX|].
    exists j. split; [done|]. split; [congruence|]. split; [done|]. by apply (HQ (get_task j s)). }
  assert (Hsame : forall i d, 0 <= i < 16 -> proc_dir (get_process i s) d -> same_user_half d (km s) (km s')).
  { intros i d Hi Hd. destruct (HT i d Hi Hd) as [Hin Hnt]. by apply (ks_space _ _ _ _ _ _ Hst d Hin Hnt). }
  split; rewrite ?Hus; try done.
  - intros i Hi. rewrite Hget. specialize (Hp i Hi). unfold proc_ok in *. rewrite (ks_kpd _ _ _ _ _ _ Hst).
    destruct (state (get_process i s)) eqn:Es; try done.
    + destruct Hp as (Hc & d & Ha & Hdr & Hno & Htask). split; [done|]. exists d. do 2 (split; [done|]). split.
      * intros u Hu. rewrite (Hsame i d) by (done || (split; [by left|done])). by apply Hno.
      * eapply Hhas; [done|by left| |exact Htask]. intros t t' -> ->. done.
    + destruct Hp as (d & c & t & Ha & Hdr & Hne & Hcs & Hmap & Htask). exists d, c, t. do 4 (split; [done|]). split.
      * intros u Hu. rewrite (Hsame i d) by (done || (split; [by right|done])). by apply Hmap.
      * eapply Hhas; [done|by right| |exact Htask]. intros tk tk' -> _. done.
  - intros i Hi Hf. rewrite Hget in *. destruct (Hr i Hi Hf) as [? ? ? ? ?]. split; rewrite ?Hus; try done. lia.
  - intros i j. rewrite !Hget. by apply Hpi.
  - intros i j. rewrite !Hget. by apply Hti.
  - intros i. rewrite !Hget. intros Hi Hf H0. destruct (Hpar i Hi Hf H0) as (j & ?). exists j. by rewrite Hget.
Qed.

Lemma users_next_pid M E P s n :
  users_ok M E P s -> next_pid (us s) <= n < 4294967296 -> users_ok M E P (set_next_pid n s).
Proof.
  intros [? ? ? Hr ? ? ? ? ? ? ?] Hn. split; try done; [simpl; lia|]. intros i Hi Hf.
  destruct (Hr i Hi Hf) as [? ? ? ? ? ?]. split; try done. change (0 < pid (get_process i s) < n). lia.
Qed.

(** ** Replacing a record *)

(** Replacing record [i] by [p'] leaves no process with a parent that is not
    running. *)
Record family_ok (s : ks) (i : Z) (p' : user_process) : Prop := {
  fa_own : ~ is_free p' -> parent_pid p' <> 0 -> exists j, 0 <= j < 16 /\ j <> i /\
    state (get_process j s) = USER_PROCESS_RUNNING /\ pid (get_process j s) = parent_pid p';
  fa_children : state (get_process i s) = USER_PROCESS_RUNNING ->
    (state p' = USER_PROCESS_RUNNING /\ pid p' = pid (get_process i s)) \/
    forall k, 0 <= k < 16 -> k <> i -> ~ is_free (get_process k s) -> parent_pid (get_process k s) <> pid (get_process i s);
}.

Lemma users_put M E P s i p' E' P' :
  let p := get_process i s in
  users_ok M E P s -> 0 <= i < 16 -> proc_ok s p' -> family_ok s i p' ->
  (~ is_free p' -> rec_ok s p' /\ forall j, 0 <= j < 16 -> j <> i -> ~ is_free (get_process j s) ->
    pid p' <> pid (get_process j s) /\ task_id p' <> task_id (get_process j s)) ->
  (forall R, E ≡ₚ created_dirs p ++ R -> E' ≡ₚ created_dirs p' ++ R) ->
  (forall R, P = M ∪ list_to_set (proc_frames p ++ R) -> NoDup (proc_frames p ++ R) ->
    (forall q, q ∈ M -> q ∉ proc_frames p ++ R) ->
    P' = M ∪ list_to_set (proc_frames p' ++ R) /\ NoDup (proc_frames p' ++ R) /\
    (forall q, q ∈ M -> q ∉ proc_frames p' ++ R)) ->
  users_ok M E' P' (put_process i p' s).
Proof.
  intros p [Hl Hpn Hp Hr Hpi Hti Hpar HE HP Hnd Hmod] Hi Hpok [Hfo Hfc] Hrec HE' HP'.
  assert (Hlk : processes (us s) !! Z.to_nat i = Some p) by (apply get_process_lookup; lia).
  assert (Hget : forall j, 0 <= j -> get_process j (put_process i p' s) = if decide (i = j) then p' else get_process j s)
    by (intros j Hj; rewrite get_put_process by lia; done).
  destruct (bind_insert created_dirs (processes (us s)) (Z.to_nat i) p p' Hlk) as (R1 & HR1 & HR1').
  destruct (bind_insert proc_frames (processes (us s)) (Z.to_nat i) p p' Hlk) as (R2 & HR2 & HR2').
  destruct (HP' R2) as (Q1 & Q2 & Q3); [by rewrite HP, HR2|by rewrite <- HR2|intros q; rewrite <- HR2; auto|].
  split.
  - simpl. by rewrite length_insert.
  - done.
  - intros j Hj. rewrite Hget by lia. case_decide; [exact Hpok|]. exact (Hp j Hj).
  - intros j Hj. rewrite Hget by lia. case_decide; intros Hf; [by destruct (Hrec Hf) as [[] _]|].
    by destruct (Hr j Hj Hf).
  - intros j k Hj Hk. rewrite !Hget by lia. destruct (decide (i = j)) as [<-|], (decide (i = k)) as [<-|]; try done; intros Hf Hf' E0.
    + destruct (Hrec Hf) as [_ Ho]. by destruct (Ho k) as [? _].
    + destruct (Hrec Hf') as [_ Ho]. by destruct (Ho j) as [? _].
    + by apply Hpi.
  - intros j k Hj Hk. rewrite !Hget by lia. destruct (decide (i = j)) as [<-|], (decide (i = k)) as [<-|]; try done; intros Hf Hf' E0.
    + destruct (Hrec Hf) as [_ Ho]. by destruct (Ho k) as [_ ?].
    + destruct (Hrec Hf') as [_ Ho]. by destruct (Ho j) as [_ ?].
    + by apply Hti.
  - intros k Hk. rewrite Hget by lia. destruct (decide (i = k)) as [<-|Hne]; intros Hf H0.
    + destruct (Hfo Hf H0) as (j & Hj & Hji & Hs & Hpid). exists j. rewrite Hget, decide_False by lia. done.
    + destruct (Hpar k Hk Hf H0) as (j & Hj & Hs & Hpid). exists j. rewrite Hget by lia.
      destruct (decide (i = j)) as [<-|]; [|done]. split; [done|]. destruct (Hfc Hs) as [[? ?]|Hno]; [split; congruence|].
      destruct (Hno k); [done|congruence|done|congruence].
  - change (processes (us (put_process i p' s))) with (<[Z.to_nat i := p']> (processes (us s))). rewrite HR1'. apply HE'.
    by rewrite HE, HR1.
  - change (processes (us (put_process i p' s))) with (<[Z.to_nat i := p']> (processes (us s))). by rewrite HR2'.
  - change (processes (us (put_process i p' s))) with (<[Z.to_nat i := p']> (processes (us s))). by rewrite HR2'.
  - intros q Hq. change (processes (us (put_process i p' s))) with (<[Z.to_nat i := p']> (processes (us s))).
    rewrite HR2'. by apply Q3.
Qed.

(** A record that keeps its directory and its frames. *)
Lemma users_put_same M E P s i p' :
  let p := get_process i s in
  users_ok M E P s -> 0 <= i < 16 -> proc_ok s p' -> family_ok s i p' ->
  (~ is_free p' -> rec_ok s p' /\ forall j, 0 <= j < 16 -> j <> i -> ~ is_free (get_process j s) ->
    pid p' <> pid (get_process j s) /\ task_id p' <> task_id (get_process j s)) ->
  created_dirs p' = created_dirs p -> proc_frames p' = proc_frames p -> users_ok M E P (put_process i p' s).
Proof. intros p Hu Hi Hok Hfam Hrec Hd Hf. apply (users_put M E P); rewrite ?Hd, ?Hf; auto. Qed.

(** Releasing a record that owns nothing and is not a parent. *)
Lemma release_ok M E P s i :
  users_ok M E P s -> 0 <= i < 16 -> created_dirs (get_process i s) = [] -> proc_frames (get_process i s) = [] ->
  state (get_process i s) <> USER_PROCESS_RUNNING -> users_ok M E P (user_process_release (Some i) s).
Proof. intros Hu Hi Hd Hf Hs. apply users_put_same; try done; by rewrite ?Hd, ?Hf. Qed.

(** The fields that name a process stay. *)
Lemma rec_others M E P s i p' :
  users_ok M E P s -> 0 <= i < 16 -> ~ is_free (get_process i s) ->
  pid p' = pid (get_process i s) -> task_id p' = task_id (get_process i s) ->
  forall j, 0 <= j < 16 -> j <> i -> ~ is_free (get_process j s) ->
    pid p' <> pid (get_process j s) /\ task_id p' <> task_id (get_process j s).
Proof.
  intros Hu Hi Hf Hp Ht j Hj Hne Hfj. rewrite Hp, Ht. split; intros E0; apply Hne, eq_sym.
  - by apply (uo_pid_inj _ _ _ _ Hu).
  - by apply (uo_tid_inj _ _ _ _ Hu).
Qed.
End inv.
