(* ===== verification/UserProof.v ===== *)
(** * User processes: contracts of the operations

    [base M E s o] joins the invariants of the memory, the scheduler and the
    process table.  Every operation of user.c returns, keeps it, keeps the
    pages of the other processes, and loses no frame. *)

From S2P Require Import Prelude Memory Tty Printk Keyboard Machine PmmInit FrameAlloc Pmm Vmm VmmSpec VmmProof VmmTheorems.
From S2P Require Import Kmalloc KmallocProof Initramfs Sharing Kmem Kernel Sched SchedProof SchedTheorems User UserMem UserExec UserInv.

Section proof.
Context {FA : FrameAllocator pmm_alloc_page pmm_free_page}.

Abbreviation kpd s := (kernel_page_directory (km s)).

Record base (M : gset Z) (E : list Z) (s : ks) (o : own) : Prop := {
  b_sched : sched_inv E s o;
  b_ids : ids_ok s;
  b_users : users_ok M E (o_pages o) s;
  b_module : module_held M (bv s);
}.

(** No frame is lost, and the user pages outside [W] keep their bytes. *)
Record keeps (W : Z -> Prop) (s : ks) (o : own) (s' : ks) (o' : own) : Prop := {
  kp_acct q : acct (km s') o' q <-> acct (km s) o q;
  kp_page q : q ∈ o_pages o -> ~ W q -> q ∈ o_pages o' /\ same_frame (mem (km s)) (mem (km s')) q;
}.

Lemma keeps_refl W s o : keeps W s o s o.
Proof. by split. Qed.

Lemma keeps_trans W s o s1 o1 s2 o2 : keeps W s o s1 o1 -> keeps W s1 o1 s2 o2 -> keeps W s o s2 o2.
Proof.
  intros [A1 P1] [A2 P2]. split; [intros q; by rewrite A2|]. intros q Hq HW.
  destruct (P1 q Hq HW) as [Hq1 F1]. destruct (P2 q Hq1 HW) as [Hq2 F2]. split; [done|]. intros a Ha. by rewrite F2, F1.
Qed.

Lemma keeps_mono (W W' : Z -> Prop) s o s' o' : keeps W s o s' o' -> (forall q, W q -> W' q) -> keeps W' s o s' o'.
Proof. intros [A P] H. split; [done|]. intros q Hq Hn. apply P; auto. Qed.

Lemma keeps_kstep (W T : Z -> Prop) A s o s' o' :
  kstep T A (km s) o (km s') o' -> (forall q, q ∈ o_pages o -> T q -> W q) -> keeps W s o s' o'.
Proof.
  intros Hst HW. split; [apply Hst|]. intros q Hq Hn. apply (ks_page _ _ _ _ _ _ Hst q Hq). auto.
Qed.

(** The heap has the same frames as well: all calls but those that allocate a
    stack for a new thread. *)
Record steady (W : Z -> Prop) (s : ks) (o : own) (s' : ks) (o' : own) : Prop := {
  st_keeps :> keeps W s o s' o';
  st_heap : o_heap o' = o_heap o;
}.

Lemma steady_refl W s o : steady W s o s o.
Proof. split; [apply keeps_refl|done]. Qed.

Lemma steady_trans W s o s1 o1 s2 o2 : steady W s o s1 o1 -> steady W s1 o1 s2 o2 -> steady W s o s2 o2.
Proof. intros [K1 H1] [K2 H2]. split; [by eapply keeps_trans|congruence]. Qed.

Lemma steady_mono (W W' : Z -> Prop) s o s' o' : steady W s o s' o' -> (forall q, W q -> W' q) -> steady W' s o s' o'.
Proof. intros [K H] HW. split; [by eapply keeps_mono|done]. Qed.

Lemma steady_kstep (W T : Z -> Prop) A s o s' o' :
  kstep T A (km s) o (km s') o' -> o_heap o' = o_heap o -> (forall q, q ∈ o_pages o -> T q -> W q) -> steady W s o s' o'.
Proof. intros Hst Hh HW. split; [by eapply keeps_kstep|done]. Qed.

(** A user page is no directory. *)
Lemma page_not_doomed E s o q : sched_wf E s o -> q ∈ o_pages o -> ~ doomed_dir s q.
Proof.
  intros Hw Hq (j & Hj & Htd). assert (Hjr : 0 < j < 16) by (unfold doomed in Hj; bool_simpl; lia).
  destruct (task_dir_in E s o j q Hw Hjr Htd) as (Hd & _). by apply (dir_not_page (km s) o q q (sw_mem _ _ _ Hw)).
Qed.

(** ** The scheduler *)

Lemma base_reaped M E s o s1 o1 :
  base M E s o -> reaped E 16 s o s1 o1 ->
  base M E s1 o1 /\ steady none s o s1 o1 /\ us s1 = us s /\ tasks_kept none s s1 /\
  sched_current_task_id s1 = sched_current_task_id s /\ next_task_id (sc s1) = next_task_id (sc s) /\
  current_task (sc s1) = current_task (sc s).
Proof.
  intros [[Hw Hrun] Hids Hu Hm] Hre. destruct (reaped_tasks E 16 s o s1 o1 Hre Hw) as [Htk Hid].
  pose proof (reaped_current _ _ _ _ _ _ Hre) as Hc. pose proof (re_step _ _ _ _ _ _ Hre) as Hst.
  assert (Hcur : get_task (current_task (sc s)) s1 = get_task (current_task (sc s)) s).
  { apply (reaped_keep _ _ _ _ _ _ _ Hre); [apply Hw|by right]. }
  assert (Hus : us s1 = us s) by (by rewrite (re_rest _ _ _ _ _ _ Hre)).
  assert (Hnx : next_task_id (sc s1) = next_task_id (sc s)) by (by rewrite (re_rest _ _ _ _ _ _ Hre)).
  split; [split|].
  - split; [apply Hre|]. by rewrite Hc, Hcur.
  - auto.
  - rewrite (re_pages _ _ _ _ _ _ Hre). eapply (users_step M E _ none (doomed_dir s)); [done|done|done|lia|auto|exact Hst|].
    intros i d Hi Hd. by destruct (proc_dir_safe M E (o_pages o) s o i d Hw Hu Hi Hd) as (? & ? & _).
  - by rewrite (re_rest _ _ _ _ _ _ Hre).
  - split; [|split; [done|split; [done|split; [unfold sched_current_task_id; by rewrite Hc, Hcur|done]]]].
    eapply steady_kstep; [exact Hst|apply Hre|]. intros q Hq Hd. by destruct (page_not_doomed E s o q Hw Hq).
Qed.

(** Changes of the console, the keyboard and the loaded directory. *)
Lemma base_same M E s o s' :
  base M E s o -> mem (km s') = mem (km s) -> pm (km s') = pm (km s) -> kpd s' = kpd s ->
  heap_list (km s') = heap_list (km s) -> sc s' = sc s -> us s' = us s -> bv s' = bv s ->
  base M E s' o /\ steady none s o s' o.
Proof.
  intros [[Hw Hrun] Hids Hu Hm] E1 E2 E3 E4 E5 E6 E7.
  pose proof (kstep_same (km s) (km s') o (sw_mem _ _ _ Hw) E1 E2 E3 E4) as Hst.
  assert (Hget : forall j, get_task j s' = get_task j s) by (intros j; unfold get_task; by rewrite E5).
  split; [split|].
  - split; [|by rewrite E5, Hget]. apply (wf_change E s); [done|apply Hst|done|rewrite E5; apply Hw|rewrite E5; apply Hw| |].
    + intros j Hj. rewrite Hget, E5. split_and!; try done; [|by apply (sw_running _ _ _ Hw)].
      intros Hun. destruct (decide (j = 0)) as [->|]; [destruct (sw_zero _ _ _ Hw); congruence|].
      by apply (sw_slot _ _ _ Hw j ltac:(lia)).
    + rewrite Hget. destruct (sw_zero _ _ _ Hw); congruence.
  - apply (ids_kept s); [done|by rewrite E5|rewrite Hget; apply Hids|]. intros j Hj. by rewrite Hget.
  - apply (users_step M E (o_pages o) none none none s o s' o); [done|done|by apply tasks_kept_eq|by rewrite E5|auto|exact Hst|].
    + intros i d Hi Hd. destruct (proc_dir_safe M E (o_pages o) s o i d Hw Hu Hi Hd) as (Hdd & _). split; [exact Hdd|intros []].
  - by rewrite E7.
  - by eapply steady_kstep; [exact Hst|done|].
Qed.

Lemma base_print M E s o f args : base M E s o -> base M E (kprintk f args s) o /\ steady none s o (kprintk f args s) o.
Proof.
  intros Hb. destruct (kprint_same f args (km s)) as (? & ? & ? & ? & _). by apply base_same.
Qed.

Lemma base_switched M E s o sp idx :
  base M E s o \/ (sched_wf E s o /\ t_state (get_task (current_task (sc s)) s) = TASK_ZOMBIE /\ ids_ok s /\
    users_ok M E (o_pages o) s /\ module_held M (bv s)) ->
  0 <= idx < 16 -> t_state (get_task idx s) = TASK_RUNNABLE ->
  switched sp idx s (switch_to sp idx s) -> sched_inv E (switch_to sp idx s) o ->
  let s' := switch_to sp idx s in
  base M E s' o /\ steady none s o s' o /\ us s' = us s /\ tasks_kept none s s' /\
  sched_current_task_id s' = t_id (get_task idx s) /\ next_task_id (sc s') = next_task_id (sc s).
Proof.
  intros Hor Hidx Hr Hsw Hinv s'.
  assert (Hpre : sched_wf E s o /\ ids_ok s /\ users_ok M E (o_pages o) s /\ module_held M (bv s))
    by (destruct Hor as [[[Hw ?] ? ? ?]|(? & _ & ? & ? & ?)]; done).
  destruct Hpre as (Hw & Hids & Hu & Hm). pose proof (sw_cur _ _ _ Hw) as Hc.
  destruct (switched_tasks E sp idx s o s' Hsw Hw (or_introl Hr) Hidx) as [Htk Hid].
  assert (Hst : kstep none none (km s) o (km s') o) by (unfold s'; rewrite (sd_km _ _ _ _ Hsw); by apply kstep_same; [apply Hw|..]).
  pose proof (sd_rest _ _ _ _ Hsw) as (Hus & _ & Hbv & _).
  split; [split|].
  - done.
  - auto.
  - eapply (users_step M E _ none none); [done|done|done|unfold s'; rewrite (sd_next _ _ _ _ Hsw); lia|auto|exact Hst|].
    intros i d Hi Hd. destruct (proc_dir_safe M E (o_pages o) s o i d Hw Hu Hi Hd) as (Hdd & _). split; [exact Hdd|intros []].
  - unfold s'. by rewrite Hbv.
  - split; [by eapply steady_kstep; [exact Hst|done|]|]. split; [done|]. split; [done|]. split; [|apply Hsw].
    unfold sched_current_task_id, s'. rewrite (sd_cur _ _ _ _ Hsw), (sd_task _ _ _ _ Hsw) by done.
    destruct (decide _); [|by rewrite decide_True]. by case_bool_decide.
Qed.

(** [sched_yield]: the next task runs, or the caller goes on. *)
Lemma yield_base M E s o sp :
  base M E s o -> exists b s' o', sched_yield sp s = Done (b, s') /\ base M E s' o' /\ steady none s o s' o' /\
    us s' = us s /\ tasks_kept none s s' /\ next_task_id (sc s') = next_task_id (sc s) /\
    (if b : bool then exists j, 0 <= j < 16 /\ j <> current_task (sc s) /\ t_state (get_task j s) = TASK_RUNNABLE /\
       sched_current_task_id s' = t_id (get_task j s)
     else sched_current_task_id s' = sched_current_task_id s).
Proof.
  intros Hb. pose proof Hb as [[Hw Hrun] Hids Hu Hm].
  destruct (yield_cases E s o sp Hw (or_introl Hrun)) as (s1 & o1 & Hre & Hor).
  destruct (base_reaped M E s o s1 o1 Hb Hre) as (Hb1 & Hk1 & Hus1 & Htk1 & Hid1 & Hn1 & Hc1).
  destruct Hor as [(i & idx & Hn & Hy & Hi & Hsw)|[_ Hy]].
  - pose proof (nt_range _ _ _ Hn) as Hidx. pose proof (nt_state _ _ _ Hn) as Hst.
    pose proof (reaped_keep _ _ _ _ _ _ idx Hre Hidx ltac:(left; congruence)) as Heq.
    destruct (base_switched M E s1 o1 sp idx (or_introl Hb1) Hidx ltac:(by rewrite Heq) Hsw Hi) as (Hb2 & Hk2 & Hus2 & Htk2 & Hid2 & Hn2).
    exists true, (switch_to sp idx s1), o1. split; [done|]. split; [done|]. split; [by eapply steady_trans|].
    split; [congruence|]. split; [by eapply tasks_kept_trans|]. split; [congruence|].
    exists idx. split; [done|]. split; [|split; [done|congruence]]. intros ->. congruence.
  - destruct (base_print M E s1 o1 (ln "sched: no runnable tasks") [] Hb1) as [Hb2 Hk2].
    exists false, (kprintk (ln "sched: no runnable tasks") [] s1), o1. split; [done|]. split; [done|]. split; [by eapply steady_trans|].
    split; [done|]. split; [exact Htk1|]. split; [done|]. exact Hid1.
Qed.

(** [kthread_exit] of a task that runs no process any more. *)
Lemma exit_base M E s o sp :
  base M E s o -> current_task (sc s) <> 0 ->
  (forall i, 0 <= i < 16 -> state (get_process i s) = USER_PROCESS_CREATED \/ state (get_process i s) = USER_PROCESS_RUNNING ->
    task_id (get_process i s) <> sched_current_task_id s) ->
  exists s' o', kthread_exit sp s = Done s' /\ base M E s' o' /\ steady none s o s' o' /\ us s' = us s /\
    tasks_kept (fun x => x = sched_current_task_id s) s s' /\ next_task_id (sc s') = next_task_id (sc s) /\
    ~ alive (get_task (current_task (sc s)) s') /\
    exists j, 0 <= j < 16 /\ j <> current_task (sc s) /\ t_state (get_task j s) = TASK_RUNNABLE /\
      sched_current_task_id s' = t_id (get_task j s).
Proof.
  intros [Hinv Hids Hu Hm] Hc0 Hno. pose proof Hinv as [Hw Hrun]. pose proof (zombified_wf E s o Hinv Hc0) as Hwz.
  destruct (zombified_tasks E s o Hinv Hc0) as [Htz Hidz]. specialize (Hidz Hids).
  destruct (kthread_exit_cases E s o sp Hinv Hc0) as (s1 & o1 & i & idx & Hre & Hn & Hy & Hi & Hsw).
  assert (Hsz : kstep none none (km s) o (km (zombified s)) o) by apply (kstep_refl none none (km s) o (sw_mem _ _ _ Hw)).
  assert (Huz : users_ok M E (o_pages o) (zombified s)).
  { eapply (users_step M E _ (fun x => x = sched_current_task_id s) none); [exact Hu|done|exact Htz|done|auto|exact Hsz|].
    intros k d Hk Hd. destruct (proc_dir_safe M E (o_pages o) s o k d Hw Hu Hk Hd) as (Hdd & _). split; [exact Hdd|intros []]. }
  pose proof (nt_range _ _ _ Hn) as Hidx. pose proof (nt_state _ _ _ Hn) as Hst.
  pose proof (reaped_keep _ _ _ _ _ _ idx Hre Hidx ltac:(left; congruence)) as Heq.
  destruct (reaped_tasks E 16 _ o s1 o1 Hre Hwz) as [Htk1 Hid1]. pose proof (re_step _ _ _ _ _ _ Hre) as Hst1.
  assert (Hus1 : us s1 = us s) by (by rewrite (re_rest _ _ _ _ _ _ Hre)).
  assert (Hn1 : next_task_id (sc s1) = next_task_id (sc s)) by (by rewrite (re_rest _ _ _ _ _ _ Hre)).
  assert (Hu1 : users_ok M E (o_pages o1) s1).
  { rewrite (re_pages _ _ _ _ _ _ Hre). eapply (users_step M E _ none (doomed_dir (zombified s))); [exact Huz|done|done|by rewrite Hn1|auto|exact Hst1|].
    intros k d Hk Hd. by destruct (proc_dir_safe M E (o_pages o) _ o k d Hwz Huz Hk Hd) as (? & ? & _). }
  destruct (base_switched M E s1 o1 sp idx) as (Hb2 & Hk2 & Hus2 & Htk2 & Hid2 & Hn2); [|done|by rewrite Heq|exact Hsw|exact Hi|].
  { right. split; [apply Hre|]. split; [|split; [auto|split; [done|by rewrite (re_rest _ _ _ _ _ _ Hre)]]].
    rewrite (reaped_current _ _ _ _ _ _ Hre). rewrite (reaped_keep _ _ _ _ _ _ _ Hre) by (apply Hw || by right).
    change (current_task (sc (zombified s))) with (current_task (sc s)).
    rewrite (zombified_task E s o), decide_True by (done || apply Hw). done. }
  exists (switch_to sp idx s1), o1. split; [done|]. split; [done|]. split.
  - eapply steady_trans; [|exact Hk2]. eapply (steady_kstep none (doomed_dir (zombified s)) _ s o s1 o1 Hst1); [apply Hre|].
    intros q Hq Hd. by destruct (page_not_doomed E (zombified s) o q Hwz Hq).
  - split; [congruence|]. split.
    + eapply tasks_kept_trans; [exact Htz|]. eapply tasks_kept_trans; (eapply (tasks_kept_mono none); [intros ? []|eassumption]).
    + split; [congruence|]. rewrite (zombified_task E s o) in Hst by done.
      destruct (decide (current_task (sc s) = idx)) as [E0|E0]; [done|]. split.
      { rewrite (sd_task _ _ _ _ Hsw) by apply Hw. rewrite (reaped_current _ _ _ _ _ _ Hre).
        change (current_task (sc (zombified s))) with (current_task (sc s)). rewrite decide_True by done.
        rewrite (reaped_keep _ _ _ _ _ _ _ Hre) by (apply Hw || by right).
        rewrite (zombified_task E s o), decide_True by (done || apply Hw). cbn [t_state with_state].
        rewrite bool_decide_eq_false_2 by done. by intros [? | ?]. } exists idx. split; [done|]. split; [congruence|]. split; [done|].
      rewrite Hid2, Heq, (zombified_task E s o), decide_False by done. done.
Qed.

(** ** Address spaces that wait for their process *)

Lemma drop_space E s o d :
  sched_inv (d :: E) s o ->
  let m := vmm_destroy_address_space (d * 4096) (km s) in
  let o' := with_dirs (o_dirs o ∖ {[d]}) o in
  sched_inv E (set_km m s) o' /\ kstep (fun q => q = d) none (km s) o m o'.
Proof.
  intros [Hw Hrun] m o'. destruct (sw_dirs _ _ _ Hw) as (k & Hk & Hnd & Ho).
  assert (Hin : d ∈ o_dirs o) by (rewrite Ho; set_solver).
  assert (Hnd' : (d ∉ k :: task_dirs s ++ E) /\ NoDup (k :: task_dirs s ++ E)).
  { apply NoDup_cons in Hnd as [Hk1 Hnd]. rewrite <- Permutation_middle in Hnd. apply NoDup_cons in Hnd as [Hd1 Hnd].
    split; [|apply NoDup_cons]; set_solver. }
  destruct Hnd' as [Hdn Hnd']. assert (Hnk : ~ kernel_dir (km s) d).
  { unfold kernel_dir in *. intros E0. apply Hdn. assert (d = k) as -> by lia. set_solver. }
  pose proof (kmem_destroy (km s) o d (sw_mem _ _ _ Hw) Hin Hnk) as Hst. split; [|exact Hst].
  assert (Hkp : kernel_page_directory m = kpd s) by apply Hst.
  split; [|exact Hrun]. destruct Hw as [Hmem ? ? ? _ ? Hz ? ?]. split; try done.
  - apply Hst.
  - exists k. unfold kernel_dir, task_dirs in *. simpl. rewrite Hkp. split; [done|]. split; [done|].
    rewrite Ho. rewrite not_elem_of_cons in Hdn. destruct Hdn as [Hdk Hdn]. apply set_eq. intros x.
    rewrite elem_of_difference, !elem_of_union, !elem_of_singleton, !elem_of_list_to_set, !elem_of_app, elem_of_cons.
    rewrite elem_of_app in Hdn. destruct (decide (x = d)) as [->|]; naive_solver.
  - simpl. by rewrite Hkp.
Qed.

(** ** Spawning *)

(** The record [user_spawn] fills before it asks for memory. *)
Definition new_record (n parent : Z) (p : list Z) : user_process :=
  mkProc n 0 parent 0 0 0 0 0 USER_PROCESS_CREATED p (replicate 16 (mkPage 0 0)) 0.

Definition parent_of (s : ks) : Z :=
  match user_process_find_by_task_id (sched_current_task_id s) s with
  | Some q => pid (get_process q s)
  | None => USER_PROCESS_NO_PARENT
  end.

Lemma find_tid_Some s n i :
  user_process_find_by_task_id n s = Some i ->
  0 <= i < 16 /\ ~ is_free (get_process i s) /\ task_id (get_process i s) = n.
Proof.
  intros H. apply find_range_Some in H as (Hi & Hp & _). bool_simpl. done.
Qed.

Lemma find_pid_Some s n i :
  user_process_find_by_pid n s = Some i ->
  0 <= i < 16 /\ ~ is_free (get_process i s) /\ pid (get_process i s) = n.
Proof.
  intros H. apply find_range_Some in H as (Hi & Hp & _). bool_simpl. done.
Qed.

Lemma find_tid_None s n i :
  user_process_find_by_task_id n s = None -> 0 <= i < 16 -> ~ is_free (get_process i s) -> task_id (get_process i s) <> n.
Proof.
  intros H Hi Hf E0. unfold user_process_find_by_task_id in H. rewrite find_range_None in H. specialize (H i Hi).
  rewrite bool_decide_eq_false_2, E0, Z.eqb_refl in H by done. done.
Qed.

Lemma find_pid_None s n i :
  user_process_find_by_pid n s = None -> 0 <= i < 16 -> ~ is_free (get_process i s) -> pid (get_process i s) <> n.
Proof.
  intros H Hi Hf E0. unfold user_process_find_by_pid in H. rewrite find_range_None in H. specialize (H i Hi).
  rewrite bool_decide_eq_false_2, E0, Z.eqb_refl in H by done. done.
Qed.

Lemma find_tid_unique M E P s i :
  users_ok M E P s -> 0 <= i < 16 -> ~ is_free (get_process i s) ->
  user_process_find_by_task_id (task_id (get_process i s)) s = Some i.
Proof.
  intros Hu Hi Hf. destruct (user_process_find_by_task_id _ s) as [j|] eqn:Hj.
  - apply find_tid_Some in Hj as (Hjr & Hjf & Hid). f_equal. by apply (uo_tid_inj _ _ _ _ Hu).
  - by destruct (find_tid_None s _ i Hj Hi Hf).
Qed.

Lemma find_pid_unique M E P s i :
  users_ok M E P s -> 0 <= i < 16 -> ~ is_free (get_process i s) ->
  user_process_find_by_pid (pid (get_process i s)) s = Some i.
Proof.
  intros Hu Hi Hf. destruct (user_process_find_by_pid _ s) as [j|] eqn:Hj.
  - apply find_pid_Some in Hj as (Hjr & Hjf & Hid). f_equal. by apply (uo_pid_inj _ _ _ _ Hu).
  - by destruct (find_pid_None s _ i Hj Hi Hf).
Qed.

Lemma user_process_alloc_cases s :
  length (processes (us s)) = 16%nat ->
  (user_process_alloc s = (None, s) /\ forall i, 0 <= i < 16 -> ~ is_free (get_process i s)) \/
  exists i, 0 <= i < 16 /\ is_free (get_process i s) /\
    user_process_alloc s = (Some i, put_process i (with_parent 0 (with_pstate USER_PROCESS_CREATED zero_process)) s).
Proof.
  intros Hl. unfold user_process_alloc. destruct (find_range _ _ _) as [i|] eqn:Hf.
  - right. apply find_range_Some in Hf as (Hi & Hp & _). bool_simpl. exists i. split; [lia|]. split; [done|].
    rewrite !upd_put_process by lia. done.
  - left. split; [done|]. rewrite find_range_None in Hf. intros i Hi. specialize (Hf i Hi). by bool_simpl.
Qed.

(** The part of [user_spawn] up to the new address space, as one update. *)
Lemma spawn_fill s i chars len :
  0 <= i < 16 -> length (processes (us s)) = 16%nat -> is_free (get_process i s) ->
  let np := next_pid (us s) in
  let s0 := put_process i (with_parent 0 (with_pstate USER_PROCESS_CREATED zero_process)) s in
  let s1 := upd_process i (with_pid (next_pid (us s0))) (set_next_pid (next_pid (us s0) +u 1) s0) in
  let s2 := match user_process_find_by_task_id (sched_current_task_id s) s with
            | Some q => upd_process i (with_parent (pid (get_process q s1))) s1
            | None => s1
            end in
  upd_process i (fun p => with_path (copy_path chars len (path p)) p) s2 =
    put_process i (new_record np (parent_of s) (copy_path chars len (replicate 32 0))) (set_next_pid (np +u 1) s).
Proof.
  intros Hi Hl Hf np s0 s1 s2.
  assert (Hs1 : s1 = put_process i (with_pid np (with_parent 0 (with_pstate USER_PROCESS_CREATED zero_process))) (set_next_pid (np +u 1) s)).
  { unfold s1, s0. change (set_next_pid ?n (put_process i ?x s)) with (put_process i x (set_next_pid n s)).
    rewrite upd_put_process by (simpl; lia). done. }
  unfold s2, parent_of. destruct (user_process_find_by_task_id _ s) as [q|] eqn:Hq.
  - apply find_tid_Some in Hq as (Hqr & Hqf & _). assert (Hne : i <> q) by (by intros ->).
    rewrite Hs1. rewrite !upd_put_process by (simpl; lia). rewrite get_put_process, decide_False by (done || simpl; lia). done.
  - rewrite Hs1. rewrite upd_put_process by (simpl; lia). done.
Qed.
End proof.
