(* ===== verification/UserSpawn.v ===== *)
(** * [user_spawn]

    A spawn either fails and leaves the process table and every frame as they
    were, or adds one process with a fresh pid, an empty address space of its
    own and a thread that will load it. *)

From S2P Require Import Prelude Memory Tty Printk Keyboard Machine PmmInit FrameAlloc Pmm Vmm VmmSpec VmmProof VmmTheorems.
From S2P Require Import Kmalloc KmallocProof Initramfs Sharing Kmem Kernel Sched SchedProof SchedTheorems User UserMem UserExec UserInv UserProof.

Lemma length_copy_path src len l : 0 <= len -> length (copy_path src len l) = length l.
Proof.
  intros Hl. unfold copy_path. for_inv (fun (_ : Z) (x : list Z) => length x = length l); [lia|done|].
  intros k x _ Hx. by rewrite length_insert.
Qed.

Section spawning.
Context {FA : FrameAllocator pmm_alloc_page pmm_free_page}.

Abbreviation kpd s := (kernel_page_directory (km s)).

(** ** States while a record is being filled *)

Lemma put_us s s0 i p :
  us s = us (put_process i p s0) -> forall q, put_process i q s = put_process i q (set_us (us s0) s).
Proof. intros H q. unfold put_process, set_us. simpl. rewrite H. simpl. by rewrite list_insert_insert_eq. Qed.

Lemma get_us s s0 i p :
  us s = us (put_process i p s0) -> 0 <= i -> (Z.to_nat i < length (processes (us s0)))%nat -> get_process i s = p.
Proof. intros H Hi Hl. unfold get_process. rewrite H. simpl. by rewrite list_lookup_insert_eq. Qed.

Lemma spawn_fail_eq s s0 i p :
  us s = us (put_process i p s0) -> 0 <= i -> (Z.to_nat i < length (processes (us s0)))%nat ->
  get_process i s0 = zero_process ->
  spawn_fail i s = set_us (us s0)
    (if negb (address_space p =? 0) then on_km (vmm_destroy_address_space (address_space p)) s else s).
Proof.
  intros H Hi Hl Hz. unfold spawn_fail. rewrite (get_us s s0 i p H Hi Hl).
  assert (Hput : forall x, us x = us s -> user_process_release (Some i) x = set_us (us s0) x).
  { intros x Hx. unfold user_process_release. rewrite (put_us x s0 i p) by congruence. rewrite <- Hz.
    change (get_process i s0) with (get_process i (set_us (us s0) x)). by apply put_get_process. }
  destruct (negb _); by apply Hput.
Qed.

(** ** Steps of the memory layer *)

Lemma base_km M E s o m :
  base M E s o -> kstep none none (km s) o m o -> base M E (set_km m s) o /\ steady none s o (set_km m s) o.
Proof.
  intros [[Hw Hr] Hid Hu Hm] Hst. split; [split|].
  - split; [|done]. apply wf_km; [done|apply Hst..].
  - by apply (ids_ok_eq s).
  - eapply (users_step M E _ none none none s o); [done|done|apply (tasks_kept_refl none s)|done|intros ? ? ? []|exact Hst|].
    intros i d Hi Hd. destruct (proc_dir_safe M E (o_pages o) s o i d Hw Hu Hi Hd) as (Hdd & _). split; [exact Hdd|intros []].
  - done.
  - by eapply steady_kstep; [exact Hst|done|].
Qed.

Lemma base_next_pid M E s o n :
  base M E s o -> next_pid (us s) <= n < 4294967296 -> base M E (set_next_pid n s) o.
Proof.
  intros [Hs Hi Hu Hm] Hn. split; [by apply (sched_inv_eq E s)|by apply (ids_ok_eq s)|by apply users_next_pid|done].
Qed.

(** ** A thread for a new process *)

(** What [kthread_create] leaves when the directory [d] of the record that is
    being filled is not yet in the table; [sh] is the table without the record. *)
Lemma thread_for M E s o d p i :
  let s' := put_process i p s in
  sched_inv (d :: E) s o -> ids_ok s -> users_ok M E (o_pages o) s -> module_held M (bv s) ->
  next_task_id (sc s) < 2147483647 ->
  exists r s2 o2, kthread_create (Some user_exec_task_fn) s' = Done (r, s2) /\ us s2 = us s' /\ bv s2 = bv s /\
    sched_inv (d :: E) s2 o2 /\ ids_ok s2 /\ users_ok M E (o_pages o2) (set_us (us s) s2) /\
    keeps none s o s2 o2 /\ tasks_kept none s s2 /\ sched_current_task_id s2 = sched_current_task_id s /\
    o_pages o2 = o_pages o /\ same_user_half d (km s) (km s2) /\ kpd s2 = kpd s /\
    ((r = -1 /\ next_task_id (sc s2) = next_task_id (sc s) /\ o_heap o2 = o_heap o /\
      kstep (doomed_dir s) (doomed_stack s) (km s) o (km s2) o2 /\
      (forall x, x ∈ o_dirs o2 -> x ∈ o_dirs o /\ ~ doomed_dir s x) /\
      (forall x, x ∈ o_dirs o -> x ∉ o_dirs o2 -> doomed_dir s x)) \/
     (r = next_task_id (sc s) /\ next_task_id (sc s2) = next_task_id (sc s) + 1 /\ heap_grows o (km s2) o2 /\
      exists j, 0 < j < 16 /\ t_id (get_task j s2) = next_task_id (sc s) /\ alive (get_task j s2) /\
        t_address_space (get_task j s2) = kpd s /\ t_entry (get_task j s2) = Some user_exec_task_fn)).
Proof.
  intros s' Hinv Hids Hu Hm Hn. pose proof Hinv as [Hw Hrun].
  assert (Hinv' : sched_inv (d :: E) s' o) by (by apply (sched_inv_eq _ s)). pose proof Hinv' as [Hw' _].
  destruct (kthread_create_cases (d :: E) s' o user_exec_task_fn Hinv') as (s1 & o1 & Hre & Hor).
  destruct (reaped_tasks (d :: E) 16 s' o s1 o1 Hre Hw') as [Htk1 Hid1]. specialize (Hid1 (ids_ok_eq s s' eq_refl Hids)).
  assert (Hst1 : kstep (doomed_dir s) (doomed_stack s) (km s) o (km s1) o1) by exact (re_step _ _ _ _ _ _ Hre).
  assert (Htk0 : tasks_kept none s s1) by exact Htk1. clear Htk1. rename Htk0 into Htk1.
  pose proof (re_rest _ _ _ _ _ _ Hre) as Hrest.
  assert (Hus1 : us s1 = us s') by (by rewrite Hrest). assert (Hbv1 : bv s1 = bv s) by (by rewrite Hrest).
  assert (Hn1 : next_task_id (sc s1) = next_task_id (sc s)) by (by rewrite Hrest).
  destruct (waiting_dir_safe (d :: E) s o d Hw ltac:(apply elem_of_cons; by left)) as (Hdin & Hdd & _).
  assert (Hu1 : users_ok M E (o_pages o1) (set_us (us s) s1)).
  { rewrite (re_pages _ _ _ _ _ _ Hre).
    eapply (users_step M E _ none (doomed_dir s) (doomed_stack s) s o (set_us (us s) s1) o1); [exact Hu|done|exact Htk1|simpl; lia|intros ? ? ? []|exact Hst1|].
    intros k x Hk Hx.
    destruct (proc_dir_safe_in M E (d :: E) (o_pages o) s o k x Hw (fun y Hy => proj2 (elem_of_cons E y d) (or_intror Hy)) Hu Hk Hx) as (? & ? & _). done. }
  assert (Hk1 : keeps none s o s1 o1).
  { eapply keeps_kstep; [exact Hst1|]. intros q Hq Hd. by destruct (page_not_doomed (d :: E) s o q Hw Hq). }
  assert (Hc1 : sched_current_task_id s1 = sched_current_task_id s).
  { unfold sched_current_task_id. rewrite (reaped_current _ _ _ _ _ _ Hre).
    rewrite (reaped_keep _ _ _ _ _ _ _ Hre) by (apply Hw || by right). done. }
  destruct (ks_space _ _ _ _ _ _ Hst1 d Hdin Hdd) as [Hdin1 Hsame1].
  assert (Hstep : forall s2 o2, kstep none none (km s1) o1 (km s2) o2 -> us s2 = us s1 -> tasks_kept none s1 s2 ->
    next_task_id (sc s1) <= next_task_id (sc s2) -> o_pages o2 = o_pages o1 ->
    users_ok M E (o_pages o2) (set_us (us s) s2) /\ keeps none s o s2 o2 /\ tasks_kept none s s2 /\
    o_pages o2 = o_pages o /\ same_user_half d (km s) (km s2) /\ kpd s2 = kpd s).
  { intros s2 o2 Hst2 Hus2 Htk2 Hn2 Hop. split; [|split; [|split; [|split; [|split]]]].
    - rewrite Hop. eapply (users_step M E _ none none none (set_us (us s) s1) o1 (set_us (us s) s2) o2);
        [exact Hu1|done|exact Htk2|exact Hn2|intros ? ? ? []|exact Hst2|].
      intros k x Hk Hx. destruct (proc_dir_safe_in M E (d :: E) (o_pages o1) (set_us (us s) s1) o1 k x) as (Hxd & _);
        [by apply (sched_wf_eq _ s1); [..|apply (re_wf _ _ _ _ _ _ Hre)]|exact (fun y Hy => proj2 (elem_of_cons E y d) (or_intror Hy))|done|done|done|]. split; [exact Hxd|intros []].
    - eapply keeps_trans; [exact Hk1|]. by eapply keeps_kstep; [exact Hst2|].
    - eapply tasks_kept_trans; [exact Htk1|exact Htk2].
    - rewrite Hop. apply Hre.
    - destruct (ks_space _ _ _ _ _ _ Hst2 d Hdin1 ltac:(intros [])) as [_ Hs2]. intros v Hv. by rewrite Hs2, Hsame1.
    - rewrite (ks_kpd _ _ _ _ _ _ Hst2). apply Hst1. }
  destruct Hor as [(m & Hy & Hi2 & Hst2)|(j & st & s2 & o2 & Hy & Hi2 & Hcr)].
  - exists (-1), (set_km m s1), o1.
    destruct (Hstep (set_km m s1) o1 Hst2 eq_refl (tasks_kept_refl none s1) ltac:(simpl; lia) eq_refl) as (A1 & A2 & A3 & A4 & A5 & A6).
    do 4 (split; [done|]). split; [by apply (ids_ok_eq s1)|]. do 6 (split; [done|]). split; [done|]. left. split; [done|].
    split; [exact Hn1|]. split; [apply (re_heap _ _ _ _ _ _ Hre)|].
    split; [eapply kstep_trans; [exact Hst1|by eapply kstep_mono; [exact Hst2|..]]|]. split.
    + intros x Hx. exact (reaped_left (d :: E) s' o s1 o1 x Hw' Hre Hx).
    + intros x Hx Hn'. exact (reaped_gone (d :: E) s' o s1 o1 x Hw' Hre Hx Hn').
  - destruct (created_tasks (d :: E) _ _ _ _ _ _ _ Hcr (re_wf _ _ _ _ _ _ Hre) ltac:(lia)) as (Htk2 & Hid2 & Hnew & Hus2 & Hc2 & Hoth).
    specialize (Htk2 ltac:(pose proof (id_next _ Hids); lia)).
    destruct (Hid2 Hid1) as [Hids2 Hn2]. pose proof (cr_slot _ _ _ _ _ _ _ Hcr) as [Hj _].
    destruct (cr_own _ _ _ _ _ _ _ Hcr) as (Q & Hown & HQ).
    destruct (Hstep s2 o2 (cr_step _ _ _ _ _ _ _ Hcr) Hus2 Htk2 ltac:(lia) ltac:(by rewrite Hown)) as (A1 & A2 & A3 & A4 & A5 & A6).
    assert (Hs32 : s32 (next_task_id (sc s')) = next_task_id (sc s)).
    { change (sc s') with (sc s). pose proof (id_next _ Hids). unfold s32. rewrite wrap_small by lia. case_if; lia. }
    rewrite Hs32 in Hy. exists (next_task_id (sc s)), s2, o2.
    split; [done|]. split; [congruence|]. split; [by rewrite (cr_state _ _ _ _ _ _ _ Hcr)|].
    do 5 (split; [done|]). split.
    { rewrite <- Hc1. unfold sched_current_task_id. rewrite Hc2. rewrite Hoth; [done|apply (re_wf _ _ _ _ _ _ Hre)|].
      intros E0. pose proof (re_wf _ _ _ _ _ _ Hre) as Hw1. rewrite <- E0 in Hnew.
      pose proof (cr_slot _ _ _ _ _ _ _ Hcr) as [_ Hz]. rewrite <- E0 in Hz.
      rewrite (reaped_current _ _ _ _ _ _ Hre) in Hz. rewrite (reaped_keep _ _ _ _ _ _ _ Hre) in Hz by (apply Hw || by right).
      change (get_task (current_task (sc s')) s') with (get_task (current_task (sc s)) s) in Hz. rewrite Hz in Hrun. done. }
    do 3 (split; [done|]). right. split; [done|]. split; [lia|].
    split; [rewrite Hown; intros q [Hq|Hq]%elem_of_union; [right; auto|left; by rewrite <- (re_heap _ _ _ _ _ _ Hre)]|]. exists j. rewrite Hnew.
    split; [done|]. split; [exact Hn1|]. split; [by left|]. split; [|done]. apply Hst1.
Qed.

(** ** The contract *)

(** The record of a process whose thread has not run yet. *)
Definition spawned_record (n parent space tid : Z) (p : list Z) : user_process :=
  mkProc n tid parent space 0 0 0 0 USER_PROCESS_CREATED p (replicate 16 (mkPage 0 0)) 0.

(** The caller may be a parent: it is no process, or a running one. *)
Definition may_spawn (s : ks) : Prop :=
  forall q, user_process_find_by_task_id (sched_current_task_id s) s = Some q ->
    state (get_process q s) = USER_PROCESS_RUNNING.

Lemma parent_of_spec M E P s :
  users_ok M E P s -> may_spawn s -> parent_of s <> 0 ->
  0 < parent_of s < next_pid (us s) /\
  exists q, 0 <= q < 16 /\ state (get_process q s) = USER_PROCESS_RUNNING /\ pid (get_process q s) = parent_of s.
Proof.
  intros Hu Hmay Hp. unfold parent_of in *. destruct (user_process_find_by_task_id _ s) as [q|] eqn:Hq; [|done].
  pose proof (Hmay q Hq) as Hs. apply find_tid_Some in Hq as (Hq & Hf & _).
  split; [by apply (rc_pid _ _ (uo_rec _ _ _ _ Hu q Hq Hf))|by exists q].
Qed.

Lemma parent_of_range M E P s : users_ok M E P s -> may_spawn s -> 0 <= parent_of s < next_pid (us s).
Proof.
  intros Hu Hm. destruct (decide (parent_of s = 0)) as [->|Hp]; [pose proof (uo_pids _ _ _ _ Hu); lia|].
  destruct (parent_of_spec M E P s Hu Hm Hp). lia.
Qed.

(** Putting the finished record into the table. *)
Lemma users_spawned M E P s i d tid par pth :
  users_ok M E P s -> 0 <= i < 16 -> get_process i s = zero_process ->
  0 < d < 4096 -> no_user_pages (mem (km s)) d ->
  0 < tid < next_task_id (sc s) -> (forall j, 0 <= j < 16 -> ~ is_free (get_process j s) -> task_id (get_process j s) <> tid) ->
  0 < next_pid (us s) - 1 -> (forall j, 0 <= j < 16 -> ~ is_free (get_process j s) -> pid (get_process j s) <> next_pid (us s) - 1) ->
  0 <= par < next_pid (us s) - 1 ->
  (par <> 0 -> exists q, 0 <= q < 16 /\ state (get_process q s) = USER_PROCESS_RUNNING /\ pid (get_process q s) = par) ->
  length pth = 32%nat ->
  (exists j, 0 < j < 16 /\ t_id (get_task j s) = tid /\ alive (get_task j s) /\
    t_address_space (get_task j s) = kpd s /\ t_entry (get_task j s) = Some user_exec_task_fn) ->
  users_ok M (d :: E) P (put_process i (spawned_record (next_pid (us s) - 1) par (d * 4096) tid pth) s).
Proof.
  intros Hu Hi Hz Hd Hno Ht Hti Hn Hpi Hpar Hrun Hlen (j & Hj & Hid & Hal & Hsp & Hen).
  apply (users_put M E P); rewrite ?Hz; try done.
  - unfold proc_ok. simpl. split; [done|]. exists d. do 3 (split; [done|]). by exists j.
  - split; [|by rewrite Hz]. intros _ H0. destruct (Hrun H0) as (q & Hq & Hs & Hpq). exists q. split; [done|]. split; [|done].
    intros ->. by rewrite Hz in Hs.
  - intros _. split; [split; simpl; done || lia|]. intros k Hk Hne Hf. simpl. split; [|by apply not_eq_sym, Hti].
    by apply not_eq_sym, Hpi.
  - intros R HR. unfold created_dirs in *. simpl in *. rewrite Z.div_mul by done. by rewrite HR.
Qed.

(** Exactly one record changed: a free one became [p]. *)
Definition one_more (s s' : ks) (i : Z) (p : user_process) : Prop :=
  0 <= i < 16 /\ is_free (get_process i s) /\ next_pid (us s') = next_pid (us s) + 1 /\
  userland_active (us s') = userland_active (us s) /\
  forall j, 0 <= j < 16 -> get_process j s' = if decide (i = j) then p else get_process j s.

(** No frame was taken, and only those of the address spaces of threads that
    had exited were given back. *)
Definition only_reaped (s s' : ks) : Prop :=
  forall q, (avail (km s) q = true -> avail (km s') q = true) /\
    (avail (km s') q = true -> avail (km s) q = true \/ exists d, doomed_dir s d /\ space_frame (km s) d q).

(** How [user_spawn] may return. *)
Definition spawn_outcome M E s o chars (r : Z) (s' : ks) (o' : own) : Prop :=
  (keeps none s o s' o' /\ heap_grows o (km s') o') /\ tasks_kept none s s' /\ sched_current_task_id s' = sched_current_task_id s /\
  ((r = -1 /\ base M E s' o' /\ processes (us s') = processes (us s) /\ next_task_id (sc s') = next_task_id (sc s) /\
    (next_pid (us s) <= next_pid (us s') <= next_pid (us s) + 1 /\ userland_active (us s') = userland_active (us s)) /\
    o_heap o' = o_heap o /\ only_reaped s s') \/
   (exists i d len, next_task_id (sc s') = next_task_id (sc s) + 1 /\ r = next_pid (us s) /\ base M (d :: E) s' o' /\ strlen PATH_FUEL chars = Some len /\
      (exists f, initramfs_find (Some chars) LOCAL LOCAL (mem (km s)) (bv s) = Some f) /\
      one_more s s' i (spawned_record r (parent_of s) (d * 4096) (next_task_id (sc s))
        (copy_path chars len (replicate 32 0))))).

Lemma spawn_stays M E s o chars : base M E s o -> spawn_outcome M E s o chars (-1) s o.
Proof.
  intros Hb. split; [split; [apply keeps_refl|by apply heap_grows_same]|]. split; [apply tasks_kept_refl|]. split; [done|]. left.
  do 4 (split; [done|]). split; [split; [lia|done]|]. split; [done|]. intros q. auto.
Qed.

(** The part of [user_spawn] after the record is filled. *)
Definition spawn_rest (i : Z) (s : ks) : outcome (Z * ks) :=
  let '(space, s) := call_km vmm_create_address_space s in
  let s := upd_process i (with_space space) s in
  if space =? 0 then Done (-1, spawn_fail i s)
  else
    let* (task_id, s) := kthread_create (Some user_exec_task_fn) s in
    if task_id <? 0 then Done (-1, spawn_fail i s)
    else
      let s := upd_process i (with_task_id (u32 task_id)) s in
      let s := set_kb (keyboard_buffer_clear (kb s)) s in
      Done (s32 (pid (get_process i s)), s).

(** The failure after a directory [d] was made: it and the zombies are gone. *)
Lemma spawn_reaped s o m d s2 o2 :
  let o1 := with_dirs ({[d]} ∪ o_dirs o) o in let s1 := set_km m s in
  kmem (km s) o -> d ∉ o_dirs o -> 0 < d < 4096 -> kstep none none (km s) o m o1 -> 
  kstep (doomed_dir s1) (doomed_stack s1) m o1 (km s2) o2 -> o_heap o2 = o_heap o1 -> o_pages o2 = o_pages o1 ->
  (forall x, x ∈ o_dirs o2 -> x ∈ o_dirs o1 /\ ~ doomed_dir s1 x) ->
  (forall x, x ∈ o_dirs o1 -> x ∉ o_dirs o2 -> doomed_dir s1 x) ->
  let m3 := vmm_destroy_address_space (d * 4096) (km s2) in
  kstep (fun q => q = d) none (km s2) o2 m3 (with_dirs (o_dirs o2 ∖ {[d]}) o2) ->
  only_reaped s (set_us (us s1) (set_km m3 s2)).
Proof.
  intros o1 s1 Hk Hdn Hd Hst Hst2 Hh Hp Hleft Hgone m3 Hst3 q. cbn [km set_us set_km].
  assert (Hdm : forall x, doomed_dir s1 x <-> doomed_dir s x).
  { intros x. unfold doomed_dir. simpl. by rewrite (ks_kpd _ _ _ _ _ _ Hst). }
  pose (T := fun x => x = d \/ doomed_dir s1 x).
  assert (Hall : kstep T (doomed_stack s1) (km s) o m3 (with_dirs (o_dirs o2 ∖ {[d]}) o2)).
  { eapply kstep_trans; [by eapply kstep_mono; [exact Hst|..]|].
    eapply kstep_trans; [eapply kstep_mono; [exact Hst2|by right|done]|]. by eapply kstep_mono; [exact Hst3|by left|]. }
  pose proof (kstep_avail T _ (km s) o m3 _ q Hk Hall Hh Hp) as Hav. simpl in Hav.
  destruct Hav as [Ha1 Ha2].
  - intros x [Hx Hxd]%elem_of_difference. destruct (Hleft x Hx) as [Hx1 _]. simpl in Hx1. set_solver.
  - intros x [Hx Hxd]%elem_of_difference [->|Hdx]; [set_solver|]. by destruct (Hleft x Hx).
  - split; [auto|]. intros [?|(x & Hx & Hxn & Hf)]%Ha1; [by left|right]. exists x. split; [|done].
    apply Hdm, Hgone; [simpl; set_solver|]. intros Hx2. apply Hxn, elem_of_difference. split; [done|].
    intros ->%elem_of_singleton. done.
Qed.

Lemma spawn_rest_spec M E s o i n par pth :
  base M E s o -> 0 <= i < 16 -> get_process i s = zero_process -> next_pid (us s) = n + 1 -> 0 < n < 2147483647 ->
  next_task_id (sc s) < 2147483647 -> 0 <= par < n ->
  (forall j, 0 <= j < 16 -> ~ is_free (get_process j s) -> pid (get_process j s) <> n) ->
  (par <> 0 -> exists q, 0 <= q < 16 /\ state (get_process q s) = USER_PROCESS_RUNNING /\ pid (get_process q s) = par) ->
  length pth = 32%nat ->
  exists r s' o', spawn_rest i (put_process i (new_record n par pth) s) = Done (r, s') /\
    (keeps none s o s' o' /\ heap_grows o (km s') o') /\ tasks_kept none s s' /\ sched_current_task_id s' = sched_current_task_id s /\
    ((r = -1 /\ base M E s' o' /\ us s' = us s /\ next_task_id (sc s') = next_task_id (sc s) /\
      o_heap o' = o_heap o /\ only_reaped s s') \/
     (exists d, next_task_id (sc s') = next_task_id (sc s) + 1 /\ r = n /\ base M (d :: E) s' o' /\
        us s' = us (put_process i (spawned_record n par (d * 4096) (next_task_id (sc s)) pth) s))).
Proof.
  intros Hb Hi Hz Hnp Hn Hnt Hpar Hpids Hrun Hlen. pose proof Hb as [Hinv Hids Hu Hm]. pose proof Hinv as [Hw Hr].
  assert (Hl : (Z.to_nat i < length (processes (us s)))%nat) by (rewrite (uo_len _ _ _ _ Hu); lia).
  unfold spawn_rest, call_km. change (km (put_process i (new_record n par pth) s)) with (km s).
  pose proof (kmem_create (km s) o (sw_mem _ _ _ Hw)) as Hc.
  destruct (vmm_create_address_space (km s)) as [space m] eqn:Hcr. cbv zeta.
  change (set_km m (put_process i ?x s)) with (put_process i x (set_km m s)). rewrite upd_put_process by (done || lia).
  destruct Hc as [[-> Hst]|(d & -> & Hdr & _ & _ & _ & _)].
  - cbn [Z.eqb]. rewrite (spawn_fail_eq _ (set_km m s) i (with_space 0 (new_record n par pth))) by (done || lia). cbn [address_space with_space negb Z.eqb].
    destruct (base_km M E s o m Hb Hst) as [Hb1 Hk1].
    exists (-1), (set_km m s), o. split; [done|]. split; [split; [apply Hk1|by apply heap_grows_same]|]. split; [apply (tasks_kept_refl none s)|].
    split; [done|]. left. do 5 (split; [done|]). intros q.
    pose proof (kstep_avail none none (km s) o m o q (sw_mem _ _ _ Hw) Hst eq_refl eq_refl ltac:(done) ltac:(intros ? _ [])) as Hq.
    split; [intros; by apply Hq; left|]. intros [?|(x & ? & ? & _)]%Hq; [by left|done].
  - rewrite (proj2 (Z.eqb_neq (d * 4096) 0)) by lia.
    destruct (space_spec E s o d m Hinv Hcr ltac:(lia)) as (Hinv1 & Hst & Hdn & _ & Hwalk).
    set (o1 := with_dirs _ o) in *. set (s1 := set_km m s) in *.
    assert (Hids1 : ids_ok s1) by (by apply (ids_ok_eq s)).
    assert (Hu1 : users_ok M E (o_pages o1) s1).
    { eapply (users_step M E _ none none none s o s1 o1); [done|done|apply (tasks_kept_refl none s)|simpl; lia|intros ? ? ? []|exact Hst|].
      intros k x Hk Hx. destruct (proc_dir_safe M E (o_pages o) s o k x Hw Hu Hk Hx) as (Hxd & _). split; [exact Hxd|intros []]. }
    destruct (thread_for M E s1 o1 d (with_space (d * 4096) (new_record n par pth)) i Hinv1 Hids1 Hu1 Hm Hnt)
      as (r & s2 & o2 & Hy & Hus2 & Hbv2 & Hinv2 & Hids2 & Hu2 & Hk2 & Htk2 & Hcur2 & Hop2 & Hsd2 & Hkp2 & Hor).
    cbv zeta in Hy. rewrite Hy. cbn [obind].
    assert (Hk : keeps none s o s2 o2).
    { eapply keeps_trans; [|exact Hk2]. by eapply keeps_kstep; [exact Hst|]. }
    destruct Hor as [(-> & Hn2 & Hoh2 & Hst2 & Hleft & Hgone)|(-> & Hn2 & Hgr2 & Htask)].
    + cbn [Z.ltb Z.compare]. rewrite (spawn_fail_eq s2 s1 i (with_space (d * 4096) (new_record n par pth)) Hus2) by (done || lia).
      cbn [address_space with_space]. rewrite (proj2 (Z.eqb_neq (d * 4096) 0)) by lia. cbn [negb].
      destruct (drop_space E s2 o2 d Hinv2) as [Hinv3 Hst3]. cbv zeta in Hinv3, Hst3.
      set (m3 := vmm_destroy_address_space (d * 4096) (km s2)) in *. set (o3 := with_dirs _ o2) in *.
      change (on_km (vmm_destroy_address_space (d * 4096)) s2) with (set_km m3 s2).
      assert (Hheap : o_heap o3 = o_heap o) by exact Hoh2.
      exists (-1), (set_us (us s1) (set_km m3 s2)), o3. split; [done|]. split; [split; [|by apply heap_grows_same]|].
      { eapply keeps_trans; [exact Hk|]. eapply keeps_kstep; [exact Hst3|]. intros q Hq ->.
        destruct (waiting_dir_safe (d :: E) s2 o2 d (proj1 Hinv2) ltac:(apply elem_of_cons; by left)) as (Hdd & _).
        by destruct (dir_not_page (km s2) o2 d d (sw_mem _ _ _ (proj1 Hinv2)) Hdd Hq). }
      split; [exact Htk2|]. split; [exact Hcur2|]. left. split; [done|].
      split; [|split; [done|split; [exact Hn2|split; [exact Hheap|]]]].
      2: { apply (spawn_reaped s o m d s2 o2); [apply Hw|exact Hdn|lia|exact Hst|exact Hst2|exact Hoh2|exact Hop2|exact Hleft|exact Hgone|exact Hst3]. }
      split.
      * by apply (sched_inv_eq E (set_km m3 s2)).
      * by apply (ids_ok_eq s2).
      * eapply (users_step M E (o_pages o2) none _ none (set_us (us s1) s2) o2 (set_us (us s1) (set_km m3 s2)) o3); [exact Hu2|done|
          apply (tasks_kept_refl none s2)|simpl; lia|intros ? ? ? []|exact Hst3|].
        intros k x Hk' Hx.
        destruct (proc_dir_safe_in M E (d :: E) (o_pages o2) (set_us (us s1) s2) o2 k x) as (Hxd & _); [|exact (fun y Hy => proj2 (elem_of_cons E y d) (or_intror Hy))|exact Hu2|done|done|].
        { apply (sched_wf_eq _ s2); [done|done|apply Hinv2]. }
        split; [exact Hxd|]. intros ->.
        by destruct (proc_dir_safe M E (o_pages o) s o k d Hw Hu Hk' Hx) as (Hd0 & _).
      * simpl. rewrite Hbv2. exact Hm.
    + rewrite (proj2 (Z.ltb_ge (next_task_id (sc s1)) 0)) by (pose proof (id_next _ Hids); simpl; lia).
      change (sc s1) with (sc s) in *. pose proof (id_next _ Hids) as Hnx.
      unfold upd_process. rewrite (get_us s2 s1 i _ Hus2) by (done || lia). rewrite (put_us s2 s1 i _ Hus2).
      rewrite (wrap_small 32 (next_task_id (sc s))) by lia.
      change (with_task_id (next_task_id (sc s)) (with_space (d * 4096) (new_record n par pth))) with
        (spawned_record n par (d * 4096) (next_task_id (sc s)) pth).
      pose proof (users_spawned M E (o_pages o2) (set_us (us s1) s2) i d (next_task_id (sc s)) par pth Hu2 Hi Hz Hdr) as Hfin.
      change (next_pid (us (set_us (us s1) s2))) with (next_pid (us s)) in Hfin. rewrite Hnp, Z.add_simpl_r in Hfin.
      set (rec := spawned_record _ _ _ _ _) in *. set (s3 := put_process i rec (set_us (us s1) s2)) in *.
      exists n, (set_kb (keyboard_buffer_clear (kb s3)) s3), o2. split.
      { do 2 f_equal. change (get_process i (set_kb _ s3)) with (get_process i s3). unfold s3.
        rewrite get_put_process, decide_True by (done || lia). unfold rec, spawned_record, s32. cbn [pid].
        rewrite wrap_small by lia. case_if; lia. }
      split; [split; [by destruct Hk|exact Hgr2]|]. split; [exact Htk2|]. split; [exact Hcur2|]. right. exists d.
      split; [exact Hn2|]. split; [done|]. split; [|done]. split.
      * by apply (sched_inv_eq _ s2).
      * by apply (ids_ok_eq s2).
      * apply (users_ok_eq _ _ _ s3); [done..|]. apply Hfin; clear Hfin; try done.
        -- intros v Hv. cbn. rewrite Hsd2 by done. by apply Hwalk.
        -- simpl. lia.
        -- intros j Hj Hf. pose proof (rc_tid _ _ (uo_rec _ _ _ _ Hu j Hj Hf)) as Htj.
           change (task_id (get_process j s) <> next_task_id (sc s)). lia.
        -- lia.
        -- destruct Htask as (j & Hj & Hid & Hal & Hsp & Hen). exists j. split; [done|]. split; [exact Hid|]. split; [exact Hal|].
           split; [|exact Hen]. change (t_address_space (get_task j s2) = kpd s2). congruence.
      * simpl. rewrite Hbv2. exact Hm.
Qed.

Lemma spawn_cases M E s o chars :
  base M E s o -> next_pid (us s) < 2147483647 -> next_task_id (sc s) < 2147483647 ->
  strlen PATH_FUEL chars <> None -> may_spawn s ->
  exists r s' o', user_spawn (Some chars) s = Done (r, s') /\ spawn_outcome M E s o chars r s' o'.
Proof.
  intros Hb Hnp Hnt Hstr Hmay. pose proof Hb as [Hinv Hids Hu Hm]. pose proof (uo_pids _ _ _ _ Hu) as Hpr.
  unfold user_spawn. destruct (strlen PATH_FUEL chars) as [len|] eqn:Hlen; [|done].
  destruct (_ || _) eqn:Hg; [exists (-1), s, o; split; [done|by apply spawn_stays]|].
  destruct (initramfs_find _ _ _ _ _) as [f|] eqn:Hf; [|exists (-1), s, o; split; [done|by apply spawn_stays]].
  destruct (user_process_alloc_cases s (uo_len _ _ _ _ Hu)) as [[-> _]|(i & Hi & Hfree & ->)];
    [exists (-1), s, o; split; [done|by apply spawn_stays]|].
  pose proof (spawn_fill s i chars len Hi (uo_len _ _ _ _ Hu) Hfree) as Hfill. cbv zeta in Hfill. rewrite Hfill. clear Hfill.
  rewrite (wrap_small 32 (next_pid (us s) + 1)) by lia. set (s0 := set_next_pid _ s).
  apply strlen_Some in Hlen as Hls. assert (Hz : get_process i s = zero_process).
  { pose proof (uo_proc _ _ _ _ Hu i Hi) as Hp. unfold proc_ok in Hp. by rewrite Hfree in Hp. }
  pose proof (parent_of_range M E _ s Hu Hmay) as Hpar.
  destruct (spawn_rest_spec M E s0 o i (next_pid (us s)) (parent_of s) (copy_path chars len (replicate 32 0)))
    as (r & s' & o' & Hy & Hk & Htk & Hcur & Hor); try done.
  - apply base_next_pid; [done|lia].
  - lia.
  - intros j Hj Hfj. pose proof (rc_pid _ _ (uo_rec _ _ _ _ Hu j Hj Hfj)) as Hr. change (pid (get_process j s) <> next_pid (us s)). lia.
  - intros H0. exact (proj2 (parent_of_spec M E (o_pages o) s Hu Hmay H0)).
  - rewrite length_copy_path by lia. done.
  - exists r, s', o'. split; [exact Hy|]. split; [destruct Hk as [[] ?]; by split|]. split; [exact Htk|]. split; [exact Hcur|].
    destruct Hor as [(-> & Hb' & Hus & Hn & Hhp & Hre)|(d & Hn & -> & Hb' & Hus)].
    + left. split; [done|]. split; [done|]. split; [by rewrite Hus|]. split; [exact Hn|].
      split; [rewrite Hus; simpl; split; [lia|done]|]. split; [exact Hhp|exact Hre].
    + right. exists i, d, len. split; [exact Hn|]. split; [done|]. split; [done|]. split; [done|]. split; [by exists f|]. split; [done|]. split; [done|].
      split; [by rewrite Hus|]. split; [by rewrite Hus|]. intros j Hj. unfold get_process at 1. rewrite Hus.
      change (default zero_process _) with (get_process j (put_process i (spawned_record (next_pid (us s)) (parent_of s) (d * 4096) (next_task_id (sc s)) (copy_path chars len (replicate 32 0))) s0)).
      rewrite get_put_process by (lia || simpl; rewrite (uo_len _ _ _ _ Hu); lia). done.
Qed.
End spawning.
