(* ===== verification/UserRun.v ===== *)
(** * Running, exiting and waiting

    What the first run of a process' thread ([user_exec_task]), the exit of a
    process ([user_exit_current]) and a round of [user_wait] do. *)

From S2P Require Import Prelude Memory Tty Printk Keyboard Machine PmmInit FrameAlloc Pmm Vmm VmmSpec VmmProof VmmTheorems.
From S2P Require Import Kmalloc KmallocProof Initramfs Sharing Kmem Kernel Sched SchedProof SchedTheorems User UserMem UserExec UserInv UserProof UserSpawn.

Section run.
Context {FA : FrameAllocator pmm_alloc_page pmm_free_page}.

Abbreviation kpd s := (kernel_page_directory (km s)).

(** ** Generic steps *)

Lemma on_km_put f i p s m : on_km f (put_process i p (set_km m s)) = put_process i p (set_km (f m) s).
Proof. reflexivity. Qed.

(** Changes of the memory layer that keep the directories and the stacks. *)
Lemma wf_pages E s o m o' :
  sched_wf E s o -> kmem m o' -> kernel_page_directory m = kpd s -> o_dirs o' = o_dirs o -> o_allocs o' = o_allocs o ->
  sched_wf E (set_km m s) o'.
Proof.
  intros [] Hm Hk Hd Ha. split; try done.
  - by rewrite Ha.
  - rewrite Hd. unfold task_dirs, kernel_dir in *. simpl. by rewrite Hk.
  - simpl. by rewrite Hk.
Qed.

(** The directory [d] that waits is not that of a process of the table. *)
Lemma other_dir_ne M E P s o d k x :
  sched_wf (d :: E) s o -> users_ok M E P s -> 0 <= k < 16 -> proc_dir (get_process k s) x -> x <> d.
Proof.
  intros Hw Hu Hk Hx ->. destruct (sw_dirs _ _ _ Hw) as (kd & _ & Hnd & _).
  apply NoDup_cons in Hnd as [_ Hnd]. apply NoDup_app in Hnd as (_ & Hdis & Hnd). apply NoDup_cons in Hnd as [Hn _].
  destruct Hx as [[Hst|Hst] Ha]; [by apply Hn; eapply created_in|].
  pose proof (uo_proc _ _ _ _ Hu k Hk) as Hp. unfold proc_ok in Hp. rewrite Hst in Hp.
  destruct Hp as (d' & c & t & Ha' & Hr & Hne & _ & _ & j & Hj & _ & _ & Hsp). assert (d' = d) as -> by lia.
  apply (Hdis d); [|apply elem_of_cons; by left].
  apply (task_dirs_elem (d :: E) s o j d); [done|lia|]. apply task_dir_of; [congruence|lia|done].
Qed.

(** The task that runs is the one with its id. *)
Lemma current_of E s o j :
  sched_inv E s o -> ids_ok s -> 0 < j < 16 -> t_state (get_task j s) <> TASK_UNUSED ->
  t_id (get_task j s) = sched_current_task_id s -> j = current_task (sc s).
Proof.
  intros [Hw Hr] Hids Hj Hu Hid. unfold sched_current_task_id in Hid. pose proof (sw_cur _ _ _ Hw) as Hc.
  pose proof (id_range _ Hids j Hj Hu) as Hjr. destruct (decide (current_task (sc s) = 0)) as [E0|E0].
  - rewrite E0, (id_zero _ Hids) in Hid. lia.
  - apply (id_inj _ Hids); [done|lia|done|congruence|done].
Qed.

(** The tasks of the processes are not task 0. *)
Lemma current_process M E s o i :
  base M E s o -> user_process_find_by_task_id (sched_current_task_id s) s = Some i ->
  0 <= i < 16 /\ ~ is_free (get_process i s) /\ task_id (get_process i s) = sched_current_task_id s /\
  current_task (sc s) <> 0.
Proof.
  intros [[Hw Hr] Hids Hu _] Hf. apply find_tid_Some in Hf as (Hi & Hfree & Hid). do 3 (split; [done|]).
  intros E0. pose proof (rc_tid _ _ (uo_rec _ _ _ _ Hu i Hi Hfree)) as Ht. unfold sched_current_task_id in Hid.
  rewrite E0, (id_zero _ Hids) in Hid. lia.
Qed.

(** ** A process that has not started *)

(** Its record out of the table, its directory among those that wait. *)
Lemma take_created M E s o i :
  base M E s o -> 0 <= i < 16 -> state (get_process i s) = USER_PROCESS_CREATED ->
  exists d E', E ≡ₚ d :: E' /\ address_space (get_process i s) = d * 4096 /\ 0 < d < 4096 /\
    sched_inv (d :: E') s o /\ users_ok M E' (o_pages o) (put_process i zero_process s).
Proof.
  intros [Hinv _ Hu _] Hi Hst. pose proof (uo_proc _ _ _ _ Hu i Hi) as Hp. unfold proc_ok in Hp. rewrite Hst in Hp.
  destruct Hp as (Hc & d & Ha & Hd & _). pose proof (created_in M E _ s i d Hu Hi Hst Ha) as Hin.
  apply elem_of_Permutation in Hin as [E' HE]. exists d, E'. do 3 (split; [done|]). split; [by eapply sched_inv_perm|].
  apply (users_put M E (o_pages o)); try done.
  - split; [done|congruence].
  - intros R HR. unfold created_dirs in HR. rewrite bool_decide_eq_true_2, Ha, Z.div_mul in HR by done.
    rewrite HE in HR. simpl in *. by apply Permutation_cons_inv in HR.
  - unfold proc_frames, live_pages. rewrite Hc. done.
Qed.

Lemma created_unloaded M E s o i d :
  base M E s o -> 0 <= i < 16 -> state (get_process i s) = USER_PROCESS_CREATED ->
  address_space (get_process i s) = d * 4096 -> unloaded s o i d.
Proof.
  intros [[Hw _] Hids Hu _] Hi Hst Ha. pose proof (uo_proc _ _ _ _ Hu i Hi) as Hp. unfold proc_ok in Hp. rewrite Hst in Hp.
  destruct Hp as (Hc & d' & Ha' & Hd & Hno & _). assert (d' = d) as -> by lia.
  assert (Hf : ~ is_free (get_process i s)) by congruence.
  destruct (proc_dir_safe M E (o_pages o) s o i d Hw Hu Hi ltac:(split; [by left|done])) as (Hin & _).
  split; [split|..]; try done.
  - apply Hw.
  - rewrite (uo_len _ _ _ _ Hu). lia.
  - lia.
  - apply (rc_pages _ _ (uo_rec _ _ _ _ Hu i Hi Hf)).
Qed.

(** The failure paths of [user_exec_task]. *)
Lemma exec_fail_base M E s o i d m o1 p :
  base M (d :: E) s o -> users_ok M E (o_pages o) (put_process i zero_process s) -> 0 <= i < 16 ->
  address_space p = d * 4096 -> 0 < d -> kstep (fun q => q = d) none (km s) o m o1 -> o1 = o ->
  exists m', exec_fail i (put_process i p (set_km m s)) = put_process i zero_process (set_km m' s) /\
  let s' := put_process i zero_process (set_km m' s) in let o' := with_dirs (o_dirs o ∖ {[d]}) o in
  base M E s' o' /\ steady none s o s' o' /\
  forall q, avail m' q = true <-> avail (km s) q = true \/ space_frame (km s) d q.
Proof.
  intros [Hinv Hids Hu Hm] Hu0 Hi Ha Hd Hst ->. pose proof Hinv as [Hw Hr].
  assert (Hl : (Z.to_nat i < length (processes (us s)))%nat) by (rewrite (uo_len _ _ _ _ Hu); lia).
  unfold exec_fail. rewrite get_put_process, decide_True by (done || lia).
  set (f := ln _). set (args := [VStr _]).
  unfold kprintk. rewrite on_km_put.
  pose proof (kstep_kprint m o f args (ks_inv _ _ _ _ _ _ Hst)) as Hpr. set (m1 := kprint f args m) in *.
  unfold spawn_fail. rewrite get_put_process, decide_True, Ha by (done || lia).
  rewrite (proj2 (Z.eqb_neq (d * 4096) 0)) by lia. cbn [negb].
  assert (Hst1 : kstep (fun q => q = d) none (km s) o m1 o).
  { eapply kstep_trans; [exact Hst|]. eapply kstep_mono; [exact Hpr|intros ? []|done]. }
  assert (Hinv1 : sched_inv (d :: E) (set_km m1 s) o).
  { split; [|done]. apply (wf_km (d :: E) s o m1 Hw); apply Hst1. }
  destruct (drop_space E (set_km m1 s) o d Hinv1) as [Hinv2 Hst2]. cbv zeta in Hinv2, Hst2. cbn [km set_km] in Hinv2, Hst2.
  set (m2 := vmm_destroy_address_space (d * 4096) m1) in *. set (o' := with_dirs _ o) in *. exists m2.
  assert (Hst3 : kstep (fun q => q = d) none (km s) o m2 o') by (eapply kstep_trans; [exact Hst1|exact Hst2]).
  split.
  { unfold user_process_release. rewrite on_km_put. apply put_put_process. }
  cbv zeta. split; [split|split].
  - by apply (sched_inv_eq E (set_km m2 s)).
  - by apply (ids_ok_eq s).
  - eapply (users_step M E (o_pages o) none _ none (put_process i zero_process s) o); [exact Hu0|done|
      apply (tasks_kept_refl none s)|simpl; lia|intros ? ? ? []|exact Hst3|].
    assert (Hw0 : sched_wf (d :: E) (put_process i zero_process s) o) by (by apply (sched_wf_eq _ s)).
    intros k x Hk Hx. split; [|by apply (other_dir_ne M E (o_pages o) _ o d k x Hw0 Hu0)].
    apply (proc_dir_safe_in M E (d :: E) (o_pages o) (put_process i zero_process s) o k x Hw0); try done.
    intros y Hy. apply elem_of_cons. by right.
  - done.
  - eapply (steady_kstep none _ _ s o (put_process i zero_process (set_km m2 s)) o' Hst3); [done|]. intros q Hq ->.
    destruct (waiting_dir_safe (d :: E) s o d Hw ltac:(apply elem_of_cons; by left)) as (Hdd & _).
    by destruct (dir_not_page (km s) o d d (sw_mem _ _ _ Hw) Hdd Hq).
  - intros q. rewrite (kstep_avail _ _ _ _ _ _ q (sw_mem _ _ _ Hw) Hst3 eq_refl eq_refl);
      [|intros x Hx; by apply elem_of_difference in Hx as [? _]|intros x Hx ->; apply elem_of_difference in Hx as [_ Hx]; by apply Hx, elem_of_singleton].
    destruct (waiting_dir_safe (d :: E) s o d Hw ltac:(apply elem_of_cons; by left)) as (Hdd & _). split.
    + intros [?|(x & Hx & Hxn & Hf)]; [by left|right]. destruct (decide (x = d)) as [->|]; [done|].
      destruct Hxn. apply elem_of_difference. split; [done|]. by rewrite elem_of_singleton.
    + intros [?|Hf]; [by left|right]. exists d. split; [done|]. split; [|done]. intros [_ Hx]%elem_of_difference. by apply Hx, elem_of_singleton.
Qed.

(** ** The first run of a thread *)

Lemma loaded_live c t eo p :
  page_count p = 0 -> length (pages p) = 16%nat ->
  code_and_stack c t (loaded_process c t eo p) /\ length (pages (loaded_process c t eo p)) = 16%nat.
Proof.
  intros Hc Hl. unfold code_and_stack, live_pages. simpl. rewrite Hc, !length_insert.
  destruct (pages p) as [|x [|y l]]; [done|done|]. done.
Qed.

(** Putting the loaded record into the table. *)
Lemma users_loaded M E P s i d c t eo p :
  users_ok M E P s -> 0 <= i < 16 -> get_process i s = zero_process ->
  state p = USER_PROCESS_CREATED -> page_count p = 0 -> rec_ok s p -> address_space p = d * 4096 -> 0 < d < 4096 ->
  d * 4096 <> kpd s -> user_map (mem (km s)) d c t -> c ∉ P -> t ∉ P -> c <> t ->
  has_task s p (fun tk => t_address_space tk = d * 4096) ->
  (forall j, 0 <= j < 16 -> j <> i -> ~ is_free (get_process j s) ->
    pid p <> pid (get_process j s) /\ task_id p <> task_id (get_process j s)) ->
  (parent_pid p <> 0 -> exists j, 0 <= j < 16 /\ j <> i /\
    state (get_process j s) = USER_PROCESS_RUNNING /\ pid (get_process j s) = parent_pid p) ->
  users_ok M E ({[t]} ∪ ({[c]} ∪ P)) (put_process i (with_pstate USER_PROCESS_RUNNING (loaded_process c t eo p)) s).
Proof.
  intros Hu Hi Hz Hst Hc Hrec Ha Hd Hk Hmap Hcn Htn Hct Htask Hoth Hpar. pose proof Hrec as [? ? ? ? Hpg ?].
  destruct (loaded_live c t eo p Hc Hpg) as [Hcs Hlen]. set (p' := with_pstate _ _).
  assert (Hfr : proc_frames p' = [c; t]).
  { unfold proc_frames. change (live_pages p') with (live_pages (loaded_process c t eo p)). rewrite (proj1 Hcs).
    unfold pg_frame. cbn [fmap list_fmap pg_paddr]. by rewrite !Z.div_mul. }
  apply (users_put M E P); rewrite ?Hz; try done.
  - unfold proc_ok. exists d, c, t. do 5 (split; [done|]). destruct Htask as (j & Hj & Hid & Hal & Hsp). exists j.
    do 3 (split; [done|]). rewrite Hsp. done.
  - split; [intros _; exact Hpar|by rewrite Hz].
  - intros R HP Hnd Hmod. rewrite Hfr. rewrite HP in Hcn, Htn. change (proc_frames zero_process) with (@nil Z) in *. cbn [app] in *.
    assert (HcR : (c ∉ R) /\ c ∉ M) by set_solver. assert (HtR : (t ∉ R) /\ t ∉ M) by set_solver.
    split; [rewrite HP; set_solver|]. split; [|set_solver].
    apply NoDup_cons. split; [set_solver|]. apply NoDup_cons. split; [set_solver|done].
Qed.
Lemma base_perm M E E' s o : E ≡ₚ E' -> base M E s o -> base M E' s o.
Proof.
  intros HE [Hs Hi [] Hm]. split; [by eapply sched_inv_perm|done|split; try done; by rewrite <- HE|done].
Qed.

(** The thread is in user mode: [p] has become a running process in [d]. *)
Record running (s : ks) (i : Z) (p : user_process) (d c t image size cs eo : Z) (s' : ks) : Prop := {
  rn_space : address_space p = d * 4096;
  rn_find : initramfs_find (Some (at_arr (path p))) LOCAL LOCAL (mem (km s)) (bv s) = Some (image, size);
  rn_image : emxf (mem (km s)) image size cs eo;
  rn_map : user_map (mem (km s')) d c t;
  rn_code : copied (mem (km s)) (image + EMXF_HEADER_SIZE) cs c (mem (km s'));
  rn_stack : copied (mem (km s)) NULL 0 t (mem (km s'));
  rn_record : us s' = us (put_process i (with_pstate USER_PROCESS_RUNNING (loaded_process c t eo p)) s);
  rn_loaded : cr3 (km s') = d * 4096;
}.

(** The part of [user_exec_task] after the image is loaded. *)
Lemma exec_adopt M E s o i d m c t image size cs eo :
  let p := get_process i s in
  let s2 := put_process i (loaded_process c t eo p) (set_km m s) in
  let o2 := with_pages ({[t]} ∪ ({[c]} ∪ o_pages o)) o in
  base M (d :: E) s o -> users_ok M E (o_pages o) (put_process i zero_process s) ->
  user_process_find_by_task_id (sched_current_task_id s) s = Some i -> state p = USER_PROCESS_CREATED ->
  address_space p = d * 4096 -> 0 < d < 4096 ->
  initramfs_find (Some (at_arr (path p))) LOCAL LOCAL (mem (km s)) (bv s) = Some (image, size) ->
  loaded s o i d image size m c t cs eo ->
  exists s3, sched_set_current_address_space (d * 4096) s2 = (0, s3) /\
    let s4 := upd_process i (with_pstate USER_PROCESS_RUNNING) s3 in
    get_process i s4 = with_pstate USER_PROCESS_RUNNING (loaded_process c t eo p) /\
    base M E s4 o2 /\ steady none s o s4 o2 /\ tasks_kept (fun x => x = sched_current_task_id s) s s4 /\
    current_task (sc s4) = current_task (sc s) /\ next_task_id (sc s4) = next_task_id (sc s) /\
    sched_current_task_id s4 = sched_current_task_id s /\ running s i p d c t image size cs eo s4.
Proof.
  intros p s2 o2 Hb Hu0 Hf Hst Ha Hd Hfind [Him Hct [Hcn Htn] Hstep Hmap Hcode Hstack].
  destruct (current_process M (d :: E) s o i Hb Hf) as (Hi & Hfree & Hid & Hc0).
  pose proof Hb as [Hinv Hids Hu Hm]. pose proof Hinv as [Hw Hr]. pose proof (sw_cur _ _ _ Hw) as Hcr.
  assert (Hl : (Z.to_nat i < length (processes (us s)))%nat) by (rewrite (uo_len _ _ _ _ Hu); lia).
  pose proof (ks_kpd _ _ _ _ _ _ Hstep) as Hkp.
  destruct (waiting_dir_safe (d :: E) s o d Hw ltac:(apply elem_of_cons; by left)) as (Hdin & _ & Hnk).
  assert (Hdk : d * 4096 <> kpd s) by (intros E0; by apply Hnk).
  assert (Hcur : t_address_space (get_task (current_task (sc s)) s) = kpd s).
  { pose proof (uo_proc _ _ _ _ Hu i Hi) as Hp. unfold proc_ok in Hp. fold p in Hp. rewrite Hst in Hp.
    destruct Hp as (_ & _ & _ & _ & _ & j & Hj & Hjid & Hal & Hsp & _).
    rewrite <- (current_of (d :: E) s o j Hinv Hids Hj); [done|destruct Hal; congruence|unfold p in *; congruence]. }
  assert (Hinv2 : sched_inv (d :: E) s2 o2).
  { apply (sched_inv_eq _ (set_km m s)); [done|done|]. split; [|done]. apply (wf_pages _ s o); [done|apply Hstep|done..]. }
  destruct (adopt_spec E s2 o2 d Hinv2 Hc0 ltac:(lia)) as (s3 & Hset & Hinv3 & Hkm3 & Hs3).
  { change (t_address_space (get_task (current_task (sc s)) s) = kernel_page_directory m). congruence. }
  exists s3. split; [exact Hset|]. intros s4.
  assert (Hus3 : us s3 = us s2) by (by rewrite Hs3).
  assert (Hg3 : get_process i s3 = loaded_process c t eo p) by (by apply (get_us s3 (set_km m s) i); [|lia|]).
  assert (Hs4 : s4 = put_process i (with_pstate USER_PROCESS_RUNNING (loaded_process c t eo p)) s3) by (unfold s4, upd_process; by rewrite Hg3).
  assert (Htask : forall j, 0 <= j < 16 -> get_task j s3 =
    if decide (current_task (sc s) = j) then with_address_space (d * 4096) (get_task j s) else get_task j s).
  { intros j Hj. rewrite Hs3, get_upd_task by (done || lia || apply Hw). done. }
  assert (Htk : tasks_kept (fun x => x = sched_current_task_id s) s s3).
  { split; [by rewrite Hs3|]. split.
    - intros j Hj Hal Hx. rewrite Htask by done. destruct (decide _) as [<-|]; [|done]. by destruct Hx.
    - intros j Hj Hal. right. rewrite Htask in * by done. by destruct (decide _). }
  assert (Hst3 : kstep (fun q => q = d) none (km s) o (km s3) o2).
  { eapply kstep_trans; [exact Hstep|]. rewrite Hkm3. eapply kstep_mono; [apply (kstep_same m); [apply Hstep|done..]|intros ? []|done]. }
  assert (Hn3 : next_task_id (sc s3) = next_task_id (sc s)) by (by rewrite Hs3).
  assert (Hc3 : current_task (sc s3) = current_task (sc s)) by (by rewrite Hs3).
  assert (Hid3 : sched_current_task_id s3 = sched_current_task_id s).
  { unfold sched_current_task_id. rewrite Hc3, Htask by done. by rewrite decide_True. }
  assert (Hmem3 : mem (km s3) = mem m) by (by rewrite Hkm3).
  set (S := set_us (us (put_process i zero_process s)) s3).
  assert (Hw0 : sched_wf (d :: E) (put_process i zero_process s) o) by (by apply (sched_wf_eq _ s)).
  assert (HuS : users_ok M E (o_pages o) S).
  { eapply (users_step M E (o_pages o) (fun x => x = sched_current_task_id s) _ none (put_process i zero_process s) o S o2);
      [exact Hu0|done|exact Htk|simpl; lia| |exact Hst3|].
    - intros k Hk Hsk. destruct (decide (i = k)) as [<-|Hne]; rewrite get_put_process in * by (done || lia).
      + rewrite decide_True in Hsk by done. destruct Hsk; done.
      + rewrite decide_False in * by done. rewrite <- Hid. apply not_eq_sym.
        apply (rec_others M (d :: E) (o_pages o) s i (get_process i s)); try done. destruct Hsk; congruence.
    - intros k x Hk Hx. split; [|by apply (other_dir_ne M E (o_pages o) _ o d k x Hw0 Hu0)].
      apply (proc_dir_safe_in M E (d :: E) (o_pages o) (put_process i zero_process s) o k x Hw0); try done.
      intros y Hy. apply elem_of_cons. by right. }
  assert (HgS : forall j, 0 <= j < 16 -> j <> i -> get_process j S = get_process j s).
  { intros j Hj Hne. change (get_process j S) with (get_process j (put_process i zero_process s)).
    rewrite get_put_process, decide_False by (done || lia). done. }
  pose proof (users_loaded M E (o_pages o) S i d c t eo p HuS Hi) as Hfin.
  split; [|split; [split|]].
  - rewrite Hs4, get_put_process by (lia || by rewrite Hus3; simpl; rewrite length_insert). by rewrite decide_True.
  - rewrite Hs4. by apply (sched_inv_eq E s3).
  - rewrite Hs4. apply (ids_ok_eq s3); [done|]. apply (ids_kept s); [done|done| |].
    + rewrite Htask, decide_False by lia. apply Hids.
    + intros j Hj. rewrite Htask by lia. by destruct (decide _).
  - apply (users_ok_eq _ _ _ (put_process i (with_pstate USER_PROCESS_RUNNING (loaded_process c t eo p)) S)); rewrite ?Hs4; try done.
    { rewrite (put_us s3 (set_km m s) i _ Hus3). unfold put_process, S. simpl. by rewrite list_insert_insert_eq. }
    apply Hfin; clear Hfin; try done.
    + change (get_process i S) with (get_process i (put_process i zero_process s)). rewrite get_put_process, decide_True by (done || lia). done.
    + apply (created_unloaded M (d :: E) s o i d Hb Hi Hst Ha).
    + destruct (uo_rec _ _ _ _ Hu i Hi Hfree) as []. split; try done. change (next_task_id (sc S)) with (next_task_id (sc s3)). by rewrite Hn3.
    + change (kpd S) with (kpd s3). rewrite Hkm3. change (d * 4096 <> kernel_page_directory m). congruence.
    + change (mem (km S)) with (mem (km s3)). by rewrite Hmem3.
    + lia.
    + exists (current_task (sc s)). change (get_task ?j S) with (get_task j s3). rewrite Htask, decide_True by done.
      split; [lia|]. split; [by symmetry|]. split; [by right|done].
    + intros j Hj Hne. rewrite HgS by done. by apply (rec_others M (d :: E) (o_pages o) s i p).
    + intros H0. destruct (uo_parent _ _ _ _ Hu i Hi Hfree H0) as (j & Hj & Hsj & Hpj). assert (Hne : j <> i) by (intros ->; unfold p in *; congruence).
      exists j. by rewrite HgS.
  - rewrite Hs4. simpl. by rewrite Hs3.
  - rewrite Hs4. split.
    { eapply (steady_kstep none _ _ s o (put_process i _ s3) o2 Hst3); [done|]. intros q Hq ->.
      by destruct (dir_not_page (km s) o d d (sw_mem _ _ _ Hw) Hdin Hq). }
    split; [exact Htk|]. split; [exact Hc3|]. split; [exact Hn3|]. split; [exact Hid3|].
    split; try done; try (change (km (put_process i ?x s3)) with (km s3); rewrite ?Hmem3; done).
    + rewrite (put_us s3 (set_km m s) i _ Hus3). done.
    + simpl. by rewrite Hkm3.
Qed.

Lemma exec_cases M E s o i eflags :
  base M E s o -> user_process_find_by_task_id (sched_current_task_id s) s = Some i ->
  state (get_process i s) = USER_PROCESS_CREATED ->
  let p := get_process i s in
  let '(r, s') := user_exec_task eflags s in
  exists d E' o', E ≡ₚ d :: E' /\ base M E' s' o' /\ steady none s o s' o' /\
    tasks_kept (fun x => x = sched_current_task_id s) s s' /\
    current_task (sc s') = current_task (sc s) /\ next_task_id (sc s') = next_task_id (sc s) /\
    sched_current_task_id s' = sched_current_task_id s /\
    ((r = None /\ us s' = us (put_process i zero_process s) /\ address_space p = d * 4096 /\
      forall q, avail (km s') q = true <-> avail (km s) q = true \/ space_frame (km s) d q) \/
     (exists c t image size cs eo, running s i p d c t image size cs eo s' /\
        r = Some (mkIret (USER_INIT_CODE_ADDR + eo) 0x1b (Z.lor eflags 0x200) 0x800000 0x23))).
Proof.
  intros Hb Hf Hst p. destruct (current_process M E s o i Hb Hf) as (Hi & Hfree & Hid & Hc0).
  destruct (take_created M E s o i Hb Hi Hst) as (d & E' & HE & Ha & Hd & Hinv & Hu0).
  pose proof (created_unloaded M E s o i d Hb Hi Hst Ha) as Hul. pose proof (base_perm M E (d :: E') s o HE Hb) as Hb'.
  pose proof Hb as [_ Hids Hu Hm]. pose proof Hinv as [Hw Hr].
  assert (Hl : (Z.to_nat i < length (processes (us s)))%nat) by (rewrite (uo_len _ _ _ _ Hu); lia).
  unfold user_exec_task. rewrite Hf. fold p.
  pose proof (prepare_exec_cases s o i d M (at_arr (path p)) Hul Hm ltac:(rewrite (uo_pages _ _ _ _ Hu); set_solver)) as Hpre.
  destruct (user_prepare_exec _ _ _) as [r s1].
  destruct Hpre as [(-> & m & p1 & -> & Ha1 & Hpa & Hc1 & Hst1 & Hsame)|(-> & m & c & t & image & size & cs & eo & Hfind & -> & Hld)]; cbn [negb Z.eqb].
  - destruct (exec_fail_base M E' s o i d m o p1 Hb' Hu0 Hi ltac:(congruence) ltac:(lia) Hst1 eq_refl) as (m' & -> & Hb2 & Hk2 & Hav).
    exists d, E', (with_dirs (o_dirs o ∖ {[d]}) o). do 3 (split; [done|]).
    split; [apply (tasks_kept_refl _ s)|]. do 3 (split; [done|]). left. done.
  - cbn [address_space loaded_process]. rewrite get_put_process, decide_True by (done || lia).
    destruct (exec_adopt M E' s o i d m c t image size cs eo Hb' Hu0 Hf Hst Ha Hd Hfind Hld)
      as (s3 & Hset & Hg4 & Hb4 & Hk4 & Htk4 & Hc4 & Hn4 & Hid4 & Hrun4). fold p in Hset, Hg4, Hrun4.
    fold p. change (address_space (loaded_process c t eo p)) with (address_space p). fold p in Ha. rewrite Ha, Hset. cbn [negb Z.eqb].
    rewrite Hg4. exists d, E', (with_pages ({[t]} ∪ ({[c]} ∪ o_pages o)) o). do 7 (split; [done|]). right.
    by exists c, t, image, size, cs, eo.
Qed.
End run.
