(* ===== verification/UserExit.v ===== *)
(** * Exiting and waiting

    [user_exit_current] gives back the pages of the process, makes orphans of
    its children and keeps its record exactly when somebody can wait for it;
    [user_wait] hands the exit status to the parent, once. *)

From S2P Require Import Prelude Memory Tty Printk Keyboard Machine PmmInit FrameAlloc Pmm Vmm VmmSpec VmmProof VmmTheorems.
From S2P Require Import Kmalloc KmallocProof Initramfs Sharing Kmem Kernel Sched SchedProof SchedTheorems User UserMem UserExec UserInv UserProof UserSpawn UserRun.

(** ** Orphans *)

(** What becomes of a record when process [n] exits. *)
Definition orphan_rec (n : Z) (q : user_process) : user_process :=
  if bool_decide (state q = USER_PROCESS_FREE) || negb (parent_pid q =? n) then q
  else if bool_decide (state q = USER_PROCESS_EXITED) then zero_process else with_parent USER_PROCESS_NO_PARENT q.

Lemma orphan_child_eq parent i s :
  0 <= i -> (Z.to_nat i < length (processes (us s)))%nat ->
  orphan_child parent i s = put_process i (orphan_rec (pid (get_process parent s)) (get_process i s)) s.
Proof.
  intros Hi Hl. unfold orphan_child, orphan_rec. destruct (_ || _); [by rewrite put_get_process|].
  unfold upd_process. rewrite get_put_process, decide_True by done.
  change (state (with_parent 0 (get_process i s))) with (state (get_process i s)).
  case_bool_decide; [|done]. unfold user_process_release. apply put_put_process.
Qed.

(** The first [k] records have been visited. *)
Record orphaned (k i : Z) (s s' : ks) : Prop := {
  or_rest : s' = set_us (us s') s;
  or_len : length (processes (us s')) = length (processes (us s));
  or_pid : next_pid (us s') = next_pid (us s);
  or_active : userland_active (us s') = userland_active (us s);
  or_get j : 0 <= j < 16 -> get_process j s' =
    if j <? k then orphan_rec (pid (get_process i s)) (get_process j s) else get_process j s;
}.

Lemma orphan_own i s : parent_pid (get_process i s) <> pid (get_process i s) ->
  orphan_rec (pid (get_process i s)) (get_process i s) = get_process i s.
Proof. intros Hp. unfold orphan_rec. rewrite (proj2 (Z.eqb_neq _ _) Hp), orb_true_r. done. Qed.

Lemma orphan_step k i s s' :
  0 <= i < 16 -> 0 <= k < 16 -> length (processes (us s)) = 16%nat -> parent_pid (get_process i s) <> pid (get_process i s) ->
  orphaned k i s s' -> orphan_child i k s' = put_process k (orphan_rec (pid (get_process i s)) (get_process k s)) s' /\
    get_process k s' = get_process k s /\ orphaned (k + 1) i s (orphan_child i k s').
Proof.
  intros Hi Hk Hl Hp [Hr Hn Hpid Hact Hget]. assert (Hgi : get_process i s' = get_process i s).
  { rewrite Hget by done. case_if; [by apply orphan_own|done]. }
  assert (Hgk : get_process k s' = get_process k s) by (rewrite Hget by done; case_if; [lia|done]).
  rewrite orphan_child_eq by lia. rewrite Hgi, Hgk. split; [done|]. split; [done|]. split.
  - rewrite Hr at 1. done.
  - simpl. by rewrite length_insert.
  - done.
  - done.
  - intros j Hj. rewrite get_put_process by lia. destruct (decide (k = j)) as [<-|Hne].
    + rewrite (proj2 (Z.ltb_lt k (k + 1))) by lia. done.
    + rewrite Hget by done. case_if; case_if; done || lia.
Qed.

Lemma orphan_spec i s :
  0 <= i < 16 -> length (processes (us s)) = 16%nat -> parent_pid (get_process i s) <> pid (get_process i s) ->
  orphaned 16 i s (user_process_orphan_children (Some i) s).
Proof.
  intros Hi Hl Hp. unfold user_process_orphan_children. for_inv (fun k s' => orphaned k i s s'); [lia|..].
  - split; try done; [by destruct s as [? ? [] ? ? ? ?]|]. intros j Hj. case_if; [lia|done].
  - intros k s' Hk Ho. by apply (orphan_step k i s s').
Qed.

Lemma us_ext s s' :
  length (processes (us s)) = 16%nat -> length (processes (us s')) = 16%nat ->
  (forall j, 0 <= j < 16 -> get_process j s' = get_process j s) -> next_pid (us s') = next_pid (us s) ->
  userland_active (us s') = userland_active (us s) -> us s' = us s.
Proof.
  intros Hl Hl' Hg Hn Ha. destruct (us s) as [ps n a] eqn:E, (us s') as [ps' n' a'] eqn:E'. simpl in *. f_equal; try done.
  apply list_eq. intros j. destruct (decide (j < 16)%nat) as [Hj|Hj].
  - pose proof (get_process_lookup (Z.of_nat j) s) as H1. pose proof (get_process_lookup (Z.of_nat j) s') as H2.
    rewrite E, E', Nat2Z.id in *. simpl in *. rewrite H1, H2 by lia. f_equal. apply Hg. lia.
  - rewrite !lookup_ge_None_2 by lia. done.
Qed.

Section exit.
Context {FA : FrameAllocator pmm_alloc_page pmm_free_page}.

Abbreviation kpd s := (kernel_page_directory (km s)).

(** Two processes do not share a directory. *)
Lemma proc_dir_inj M E P s o i k d :
  sched_wf E s o -> users_ok M E P s -> 0 <= i < 16 -> 0 <= k < 16 -> state (get_process i s) = USER_PROCESS_RUNNING ->
  proc_dir (get_process i s) d -> proc_dir (get_process k s) d -> k = i.
Proof.
  intros Hw Hu Hi Hk Hst [_ Ha] Hx.
  assert (Hrun : forall x, 0 <= x < 16 -> state (get_process x s) = USER_PROCESS_RUNNING -> address_space (get_process x s) = d * 4096 ->
    exists j, 0 < j < 16 /\ task_dir (kpd s) (get_task j s) = Some d /\ t_id (get_task j s) = task_id (get_process x s)).
  { intros x Hxr Hs Hsp. pose proof (uo_proc _ _ _ _ Hu x Hxr) as Hp. unfold proc_ok in Hp. rewrite Hs in Hp.
    destruct Hp as (d' & c & t & Ha' & Hr & Hne & _ & _ & j & Hj & Hid & _ & Htsp). assert (d' = d) as -> by lia.
    exists j. split; [done|]. split; [|done]. apply task_dir_of; [congruence|lia|done]. }
  destruct (Hrun i Hi Hst Ha) as (j & Hj & Htd & Hid). destruct Hx as [[Hs|Hs] Hsp].
  - exfalso. pose proof (created_in M E P s k d Hu Hk Hs Hsp) as HE. destruct (sw_dirs _ _ _ Hw) as (kd & _ & Hnd & _).
    apply NoDup_cons in Hnd as [_ Hnd]. apply NoDup_app in Hnd as (_ & Hdis & _).
    apply (Hdis d); [|done]. by apply (task_dirs_elem E s o j d Hw ltac:(lia)).
  - destruct (Hrun k Hk Hs Hsp) as (j' & Hj' & Htd' & Hid').
    assert (j' = j) as -> by (apply (task_dir_inj E s o j' j d Hw); [lia|lia|done..]).
    apply (uo_tid_inj _ _ _ _ Hu); [done|done|congruence|congruence|congruence].
Qed.

(** One record of the loop. *)
Lemma orphan_users M E P s k n :
  users_ok M E P s -> 0 <= k < 16 -> users_ok M E P (put_process k (orphan_rec n (get_process k s)) s).
Proof.
  intros Hu Hk. pose proof (uo_len _ _ _ _ Hu) as Hl. unfold orphan_rec.
  destruct (_ || _) eqn:Hg; [rewrite put_get_process by lia; done|]. bool_simpl.
  pose proof (uo_proc _ _ _ _ Hu k Hk) as Hp. assert (Hf : ~ is_free (get_process k s)) by tauto.
  case_bool_decide as Hx.
  - apply (release_ok M E P s k Hu Hk).
    + unfold created_dirs. by rewrite bool_decide_eq_false_2 by congruence.
    + unfold proc_ok in Hp. rewrite Hx in Hp. unfold proc_frames, live_pages. by rewrite (proj1 Hp).
    + congruence.
  - apply users_put_same; try done.
    + unfold proc_ok in *. cbn [state with_parent]. by destruct (state (get_process k s)).
    + split; [done|]. intros Hs. left. done.
    + intros _. split; [|by apply (rec_others M E P)]. destruct (uo_rec _ _ _ _ Hu k Hk Hf). split; try done. simpl. lia.
Qed.

Lemma orphans_users M E P s i :
  users_ok M E P s -> 0 <= i < 16 -> ~ is_free (get_process i s) ->
  users_ok M E P (user_process_orphan_children (Some i) s).
Proof.
  intros Hu Hi Hf. pose proof (uo_len _ _ _ _ Hu) as Hl.
  assert (Hp : parent_pid (get_process i s) <> pid (get_process i s)).
  { pose proof (rc_parent _ _ (uo_rec _ _ _ _ Hu i Hi Hf)). lia. }
  enough (users_ok M E P (user_process_orphan_children (Some i) s) /\ orphaned 16 i s (user_process_orphan_children (Some i) s)) by tauto.
  unfold user_process_orphan_children. for_inv (fun k s' => users_ok M E P s' /\ orphaned k i s s'); [lia|..].
  - split; [done|]. split; try done; [by destruct s as [? ? [] ? ? ? ?]|]. intros j Hj. case_if; [lia|done].
  - intros k s' Hk [Hu' Ho]. destruct (orphan_step k i s s' Hi Hk Hl Hp Ho) as (Heq & Hg & Ho').
    split; [|done]. rewrite Heq, <- Hg. by apply orphan_users.
Qed.

(** ** Exit *)

(** The record of [p] after it exited with [status]. *)
Definition exited (status : Z) (p : user_process) : user_process :=
  with_space 0 (with_page_count 0 (cleared (page_count p) (with_pstate USER_PROCESS_EXITED (with_status status p)))).

Definition left_behind (status : Z) (p : user_process) : user_process :=
  if parent_pid p =? 0 then zero_process else exited status p.

Lemma running_pages M E s o i :
  base M E s o -> 0 <= i < 16 -> state (get_process i s) = USER_PROCESS_RUNNING ->
  exists d c t, address_space (get_process i s) = d * 4096 /\ d ∈ o_dirs o /\ proc_frames (get_process i s) = [c; t] /\
    code_and_stack c t (get_process i s) /\ user_map (mem (km s)) d c t /\ pages_ok o (get_process i s).
Proof.
  intros [[Hw _] _ Hu _] Hi Hst. pose proof (uo_proc _ _ _ _ Hu i Hi) as Hp. unfold proc_ok in Hp. rewrite Hst in Hp.
  destruct Hp as (d & c & t & Ha & Hd & _ & [Hlive Hcount] & Hmap & _).
  destruct (proc_dir_safe M E (o_pages o) s o i d Hw Hu Hi ltac:(split; [by right|done])) as (Hin & _).
  assert (Hfr : proc_frames (get_process i s) = [c; t]).
  { unfold proc_frames. rewrite Hlive. unfold pg_frame. cbn [fmap list_fmap pg_paddr]. by rewrite !Z.div_mul. }
  assert (Hf : ~ is_free (get_process i s)) by congruence.
  assert (Hsub : forall q, q ∈ proc_frames (get_process i s) -> q ∈ o_pages o).
  { intros q Hq. rewrite (uo_pages _ _ _ _ Hu). apply elem_of_union_r, elem_of_list_to_set, list_elem_of_bind.
    exists (get_process i s). split; [done|]. eapply list_elem_of_lookup_2, get_process_lookup. rewrite (uo_len _ _ _ _ Hu). lia. }
  exists d, c, t. do 5 (split; [done|]). split.
  - apply (rc_pages _ _ (uo_rec _ _ _ _ Hu i Hi Hf)).
  - lia.
  - intros pg Hpg. assert (Hq : pg_frame pg ∈ o_pages o) by (apply Hsub, list_elem_of_fmap; by exists pg).
    rewrite Hlive in Hpg. rewrite !elem_of_cons, elem_of_nil in Hpg.
    destruct Hpg as [->|[->|[]]]; (split; [done|]; split; [|done]); unfold pg_frame; cbn [pg_paddr]; by rewrite Z.div_mul.
  - pose proof (uo_nodup _ _ _ _ Hu) as Hnd.
    destruct (bind_insert proc_frames (processes (us s)) (Z.to_nat i) (get_process i s) zero_process) as (R & HR & _);
      [apply get_process_lookup; rewrite (uo_len _ _ _ _ Hu); lia|].
    rewrite HR in Hnd. by apply NoDup_app in Hnd as [? _].
Qed.

(** The table after an exit, with the memory as before. *)
Lemma exit_table M E s o i status :
  base M E s o -> 0 <= i < 16 -> state (get_process i s) = USER_PROCESS_RUNNING -> 0 <= status < 4294967296 ->
  let p := get_process i s in
  let s1 := put_process i (left_behind status p) (user_process_orphan_children (Some i) s) in
  users_ok M E (o_pages o ∖ list_to_set (proc_frames p)) s1 /\ orphaned 16 i s (user_process_orphan_children (Some i) s) /\
  (parent_pid p <> 0 -> exists j, 0 <= j < 16 /\ j <> i /\ state (get_process j s) = USER_PROCESS_RUNNING /\ pid (get_process j s) = parent_pid p).
Proof.
  intros Hb Hi Hst Hstat p s1. destruct (running_pages M E s o i Hb Hi Hst) as (d & c & t & Ha & Hd & Hfr & Hcs & Hmap & Hok).
  pose proof Hb as [_ _ Hu _]. pose proof (uo_len _ _ _ _ Hu) as Hl. fold p in Ha, Hfr, Hcs, Hok, Hst.
  assert (Hf : ~ is_free (get_process i s)) by (fold p; congruence).
  pose proof (uo_rec _ _ _ _ Hu i Hi Hf) as Hrec. fold p in Hrec.
  assert (Hpp : parent_pid (get_process i s) <> pid (get_process i s)) by (pose proof (rc_parent _ _ Hrec); fold p; lia).
  pose proof (orphan_spec i s Hi Hl Hpp) as Ho. pose proof (orphans_users M E (o_pages o) s i Hu Hi Hf) as HuO.
  set (O := user_process_orphan_children (Some i) s) in *.
  assert (Hgi : get_process i O = p).
  { rewrite (or_get _ _ _ _ Ho i Hi), (proj2 (Z.ltb_lt i 16)) by lia. by apply orphan_own. }
  split; [|split; [done|]].
  - apply (users_put M E (o_pages o)); rewrite ?Hgi; try done.
    + unfold left_behind. destruct (Z.eqb_spec (parent_pid p) 0); [done|]. unfold proc_ok. simpl. done.
    + split.
      * intros Hnf Hp0. assert (Hp0' : parent_pid p <> 0 /\ parent_pid (left_behind status p) = parent_pid p).
        { unfold left_behind in *. by destruct (Z.eqb_spec (parent_pid p) 0). }
        destruct Hp0' as [Hp0' ->]. rewrite <- Hgi in Hp0'.
        destruct (uo_parent _ _ _ _ HuO i Hi) as (j & Hj & Hs & Hpid); [congruence|done|]. rewrite Hgi in Hpid.
        exists j. split; [done|]. split; [|done]. intros ->. rewrite Hgi in Hpid. by apply Hpp.
      * intros _. right. intros k Hk Hne Hnf. rewrite Hgi. rewrite (or_get _ _ _ _ Ho k Hk) in *.
        rewrite (proj2 (Z.ltb_lt k 16)) in * by lia. fold p in Hnf |- *. unfold orphan_rec in *.
        destruct (_ || _) eqn:Hg.
        { apply orb_true_iff in Hg as [Hg|Hg]; bool_simpl; done. }
        case_bool_decide; [done|]. simpl. pose proof (rc_pid _ _ Hrec). lia.
    + intros Hnf. assert (Hlb : left_behind status p = exited status p) by (unfold left_behind in *; by destruct (_ =? _)).
      rewrite Hlb. split.
      * pose proof (rc_pages _ _ Hrec). pose proof (po_count _ _ Hok). destruct Hrec as []. split; try done.
        -- simpl. rewrite (or_pid _ _ _ _ Ho). done.
        -- rewrite (or_rest _ _ _ _ Ho). done.
        -- cbn [pages exited with_space with_page_count cleared with_upages with_pstate with_status]. rewrite length_app, length_replicate, length_drop. lia.
      * intros j Hj Hne Hnj. change (pid (exited status p)) with (pid p). change (task_id (exited status p)) with (task_id p).
        apply (rec_others M E (o_pages o) O i p); try done; rewrite Hgi; done.
    + intros R. unfold created_dirs at 1. rewrite bool_decide_eq_false_2 by congruence. unfold left_behind.
      destruct (_ =? _); done.
    + intros R HP Hnd Hmod. assert (Hlf : proc_frames (left_behind status p) = []).
      { unfold left_behind. destruct (_ =? _); done. }
      rewrite Hlf. simpl. rewrite HP. apply NoDup_app in Hnd as (_ & Hdis & Hnd). split; [|split; [done|]].
      * apply set_eq. intros q. specialize (Hdis q). specialize (Hmod q). set_solver.
      * intros q Hq. specialize (Hmod q Hq). set_solver.
  - intros Hp0. destruct (uo_parent _ _ _ _ Hu i Hi Hf Hp0) as (j & Hj & Hs & Hpid). exists j. split; [done|]. split; [|done].
    intros ->. apply Hpp. symmetry. exact Hpid.
Qed.

#[local] Opaque user_process_orphan_children.

(** The state after the pages are gone and the record is marked. *)
Lemma exit_marked M E s o i status :
  base M E s o -> 0 <= i < 16 -> state (get_process i s) = USER_PROCESS_RUNNING ->
  let p := get_process i s in
  exists d m, address_space p = d * 4096 /\ d ∈ o_dirs o /\
    upd_process i (with_space 0) (user_process_free_pages (Some i)
      (upd_process i (with_pstate USER_PROCESS_EXITED) (upd_process i (with_status status) s))) =
      put_process i (exited status p) (set_km m s) /\
    kstep (fun q => q = d \/ q ∈ proc_frames p) none (km s) o m (with_pages (o_pages o ∖ list_to_set (proc_frames p)) o) /\
    (forall q, avail m q = true <-> avail (km s) q = true \/ q ∈ proc_frames p).
Proof.
  intros Hb Hi Hst p. destruct (running_pages M E s o i Hb Hi Hst) as (d & c & t & Ha & Hd & Hfr & Hcs & Hmap & Hok).
  pose proof Hb as [[Hw _] _ Hu _]. pose proof (uo_len _ _ _ _ Hu) as Hl. fold p in Ha, Hfr, Hcs, Hok, Hst.
  unfold upd_process at 3. rewrite upd_put_process by lia. fold p. set (p1 := with_pstate _ _).
  assert (Hg1 : get_process i (put_process i p1 s) = p1) by (rewrite get_put_process, decide_True by (done || lia); done).
  destruct (free_pages_spec (put_process i p1 s) o i d) as (m & Heq & Hst1 & _ & Hav); try done.
  - apply Hw.
  - lia.
  - simpl. rewrite length_insert. lia.
  - by rewrite Hg1.
  - rewrite Hg1. by destruct Hok.
  - cbv zeta in Heq, Hst1. rewrite Hg1 in Heq, Hst1, Hav. exists d, m. do 2 (split; [done|]). split; [|split].
    + rewrite Heq. change (set_km m (put_process i p1 s)) with (put_process i p1 (set_km m s)). rewrite put_put_process.
      rewrite upd_put_process by (done || simpl; lia). done.
    + eapply kstep_mono; [exact Hst1| |done]. intros q [->|Hq]; [by left|right].
      unfold frames_of in Hq. by apply elem_of_list_to_set in Hq.
    + intros q. rewrite Hav, orb_true_iff, bool_decide_eq_true. unfold frames_of. by rewrite elem_of_list_to_set.
Qed.

(** Who finds the record of the parent. *)
Lemma exit_parent M E P s i p O :
  users_ok M E P s -> 0 <= i < 16 -> p = get_process i s -> ~ is_free p ->
  (forall j, 0 <= j < 16 -> j <> i -> get_process j O = orphan_rec (pid p) (get_process j s)) ->
  pid (get_process i O) = pid p ->
  (parent_pid p <> 0 -> exists j, 0 <= j < 16 /\ j <> i /\ state (get_process j s) = USER_PROCESS_RUNNING /\ pid (get_process j s) = parent_pid p) ->
  match user_process_find_by_pid (parent_pid p) O with None => parent_pid p = 0 | Some _ => parent_pid p <> 0 end.
Proof.
  intros Hu Hi Hp Hf Hg Hgi Hpar. destruct (user_process_find_by_pid (parent_pid p) O) as [j|] eqn:Hj.
  - apply find_pid_Some in Hj as (Hjr & Hjf & Hjp). intros E0. destruct (decide (j = i)) as [->|Hne].
    + rewrite Hp in *. pose proof (rc_pid _ _ (uo_rec _ _ _ _ Hu i Hi Hf)). lia.
    + rewrite Hg in * by done. unfold orphan_rec in *. destruct (_ || _).
      * pose proof (rc_pid _ _ (uo_rec _ _ _ _ Hu j Hjr Hjf)). lia.
      * case_bool_decide; [done|]. simpl in *. pose proof (rc_pid _ _ (uo_rec _ _ _ _ Hu j Hjr Hjf)). lia.
  - destruct (decide (parent_pid p = 0)) as [|Hp0]; [done|]. destruct (Hpar Hp0) as (j & Hjr & Hne & Hs & Hjp).
    assert (Hgj : state (get_process j O) = USER_PROCESS_RUNNING /\ pid (get_process j O) = parent_pid p).
    { rewrite Hg by done. unfold orphan_rec. destruct (_ || _); [done|]. by rewrite bool_decide_eq_false_2 by congruence. }
    destruct Hgj as [Hs' Hjp']. by destruct (find_pid_None O _ j Hj Hjr ltac:(congruence)).
Qed.

Lemma put_rest i q O s : O = set_us (us O) s -> put_process i q O = set_us (us (put_process i q O)) s.
Proof. destruct O, s. unfold set_us. simpl. intros [= -> -> -> -> -> ->]. reflexivity. Qed.

Lemma put_next_pid i q s : next_pid (us (put_process i q s)) = next_pid (us s).
Proof. reflexivity. Qed.

Lemma put_active i q s : userland_active (us (put_process i q s)) = userland_active (us s).
Proof. reflexivity. Qed.

(** [user_exit_current] from its steps. *)
Lemma exit_eq i status s s3 O p :
  user_process_find_by_task_id (sched_current_task_id s) s = Some i ->
  upd_process i (with_space 0) (user_process_free_pages (Some i)
    (upd_process i (with_pstate USER_PROCESS_EXITED) (upd_process i (with_status status) s))) = s3 ->
  user_process_orphan_children (Some i) s3 = O -> get_process i O = exited status p ->
  (Z.to_nat i < length (processes (us O)))%nat ->
  match user_process_find_by_pid (parent_pid p) O with None => parent_pid p = 0 | Some _ => parent_pid p <> 0 end ->
  user_exit_current status s = put_process i (left_behind status p) O.
Proof.
  intros Hf H3 HO Hg Hl Hfind. unfold user_exit_current. rewrite Hf, H3, HO, Hg. unfold left_behind.
  change (parent_pid (exited status p)) with (parent_pid p). destruct (user_process_find_by_pid (parent_pid p) O) as [q|].
  - rewrite (proj2 (Z.eqb_neq _ _) Hfind). rewrite <- Hg. by rewrite put_get_process.
  - by rewrite Hfind.
Qed.

(** The whole of [user_exit_current] on a running process. *)
Lemma exit_state M E s o i status :
  base M E s o -> user_process_find_by_task_id (sched_current_task_id s) s = Some i ->
  state (get_process i s) = USER_PROCESS_RUNNING -> 0 <= status < 4294967296 ->
  let p := get_process i s in let s' := user_exit_current status s in
  exists d m, address_space p = d * 4096 /\ d ∈ o_dirs o /\
    (kstep (fun q => q = d \/ q ∈ proc_frames p) none (km s) o m (with_pages (o_pages o ∖ list_to_set (proc_frames p)) o) /\
     (forall q, avail m q = true <-> avail (km s) q = true \/ q ∈ proc_frames p)) /\
    s' = set_us (us s') (set_km m s) /\ length (processes (us s')) = 16%nat /\
    next_pid (us s') = next_pid (us s) /\ userland_active (us s') = userland_active (us s) /\
    forall j, 0 <= j < 16 -> get_process j s' = if decide (i = j) then left_behind status p else orphan_rec (pid p) (get_process j s).
Proof.
  intros Hb Hf Hst Hstat p s'. destruct (current_process M E s o i Hb Hf) as (Hi & Hfree & _ & _).
  destruct (exit_table M E s o i status Hb Hi Hst Hstat) as (HuT & HoT & Hpar). cbv zeta in HuT, HoT, Hpar. fold p in HuT, Hpar.
  destruct (exit_marked M E s o i status Hb Hi Hst) as (d & m & Ha & Hd & Hmark & Hstep & Hav). cbv zeta in Hmark. fold p in Ha, Hmark, Hstep, Hav.
  pose proof Hb as [Hinv Hids Hu Hm]. pose proof Hinv as [Hw Hr]. pose proof (uo_len _ _ _ _ Hu) as Hl.
  set (s3 := put_process i (exited status p) (set_km m s)) in *.
  assert (Hl3 : length (processes (us s3)) = 16%nat) by (unfold s3; simpl; by rewrite length_insert).
  assert (Hg3 : forall j, 0 <= j < 16 -> get_process j s3 = if decide (i = j) then exited status p else get_process j s).
  { intros j Hj. unfold s3. rewrite get_put_process by (done || simpl; lia). done. }
  assert (Hgi3 : get_process i s3 = exited status p) by (rewrite Hg3, decide_True by done; done).
  assert (Hpp : parent_pid p <> pid p) by (pose proof (rc_parent _ _ (uo_rec _ _ _ _ Hu i Hi Hfree)); fold p in H; lia).
  pose proof (orphan_spec i s3 Hi Hl3 ltac:(by rewrite Hgi3)) as Ho3. remember (user_process_orphan_children (Some i) s3) as O eqn:HO. symmetry in HO.
  assert (HgO : forall j, 0 <= j < 16 -> j <> i -> get_process j O = orphan_rec (pid p) (get_process j s)).
  { intros j Hj Hne. rewrite (or_get _ _ _ _ Ho3 j Hj), (proj2 (Z.ltb_lt j 16)) by lia. rewrite Hgi3, Hg3, decide_False by (done || lia). done. }
  assert (HgiO : get_process i O = exited status p).
  { rewrite (or_get _ _ _ _ Ho3 i Hi), (proj2 (Z.ltb_lt i 16)) by lia. rewrite orphan_own by (by rewrite Hgi3). done. }
  pose proof (exit_parent M E _ s i p O Hu Hi eq_refl Hfree HgO ltac:(by rewrite HgiO) Hpar) as Hfind.
  assert (HlO : length (processes (us O)) = 16%nat) by (by rewrite (or_len _ _ _ _ Ho3)).
  pose proof (exit_eq i status s s3 O p Hf Hmark HO HgiO ltac:(lia) Hfind) as Hs'. fold s' in Hs'. clearbody s'.
  assert (Hgs : forall j, 0 <= j < 16 -> get_process j s' = if decide (i = j) then left_behind status p else orphan_rec (pid p) (get_process j s)).
  { intros j Hj. rewrite Hs', get_put_process by lia. case_decide; [done|]. by apply HgO. }
  exists d, m. do 3 (split; [done|]). rewrite Hs'. split; [exact (put_rest i _ O (set_km m s) (or_rest _ _ _ _ Ho3))|].
  split; [unfold put_process; cbn [us set_us processes]; by rewrite length_insert|].
  split; [rewrite put_next_pid, (or_pid _ _ _ _ Ho3); exact (put_next_pid i _ (set_km m s))|].
  split; [rewrite put_active, (or_active _ _ _ _ Ho3); exact (put_active i _ (set_km m s))|]. rewrite <- Hs'. exact Hgs.
Qed.

Lemma exit_cases M E s o i status :
  base M E s o -> user_process_find_by_task_id (sched_current_task_id s) s = Some i ->
  state (get_process i s) = USER_PROCESS_RUNNING -> 0 <= status < 4294967296 ->
  let p := get_process i s in let s' := user_exit_current status s in
  exists o', base M E s' o' /\ steady (fun q => q ∈ proc_frames p) s o s' o' /\ sc s' = sc s /\
    (o_pages o' = o_pages o ∖ list_to_set (proc_frames p) /\
     forall q, avail (km s') q = true <-> avail (km s) q = true \/ q ∈ proc_frames p) /\
    next_pid (us s') = next_pid (us s) /\ userland_active (us s') = userland_active (us s) /\
    get_process i s' = left_behind status p /\
    (forall j, 0 <= j < 16 -> j <> i -> get_process j s' = orphan_rec (pid p) (get_process j s)).
Proof.
  intros Hb Hf Hst Hstat p s'. destruct (current_process M E s o i Hb Hf) as (Hi & Hfree & _ & _).
  destruct (exit_table M E s o i status Hb Hi Hst Hstat) as (HuT & HoT & _). cbv zeta in HuT, HoT. fold p in HuT.
  destruct (exit_state M E s o i status Hb Hf Hst Hstat) as (d & m & Ha & Hd & [Hstep Hav] & Hrest & Hls & Hpn & Hact & Hgs).
  cbv zeta in Hrest, Hls, Hpn, Hact, Hgs. fold p in Ha, Hstep, Hav, Hgs. fold s' in Hrest, Hls, Hpn, Hact, Hgs. clearbody s'.
  pose proof Hb as [Hinv Hids Hu Hm]. pose proof Hinv as [Hw Hr]. pose proof (uo_len _ _ _ _ Hu) as Hl.
  assert (Hkm : km s' = m) by (by rewrite Hrest). assert (Hsc : sc s' = sc s) by (by rewrite Hrest).
  assert (Hbv : bv s' = bv s) by (by rewrite Hrest).
  remember (user_process_orphan_children (Some i) s) as OT eqn:HOT. clear HOT.
  remember (put_process i (left_behind status p) OT) as T eqn:HT.
  pose proof (put_rest i (left_behind status p) OT s (or_rest _ _ _ _ HoT)) as HrT. rewrite <- HT in HrT.
  assert (HscT : sc T = sc s) by (by rewrite HrT). assert (HkmT : km T = km s) by (by rewrite HrT).
  assert (HgT : forall j, 0 <= j < 16 -> get_process j T = if decide (i = j) then left_behind status p else orphan_rec (pid p) (get_process j s)).
  { intros j Hj. rewrite HT. rewrite get_put_process; [|lia|lia|rewrite (or_len _ _ _ _ HoT); lia]. case_decide; [done|].
    rewrite (or_get _ _ _ _ HoT j Hj), (proj2 (Z.ltb_lt j 16)) by lia. done. }
  assert (Hus : us s' = us T).
  { apply us_ext.
    - apply (uo_len _ _ _ _ HuT).
    - exact Hls.
    - intros j Hj. by rewrite Hgs, HgT.
    - rewrite Hpn, HT, put_next_pid. symmetry. apply (or_pid _ _ _ _ HoT).
    - rewrite Hact, HT, put_active. symmetry. apply (or_active _ _ _ _ HoT). }
  clear HT HoT.
  set (o' := with_pages (o_pages o ∖ list_to_set (proc_frames p)) o) in *. exists o'.
  assert (HwT : sched_wf E T o) by (by apply (sched_wf_eq _ s)).
  assert (Hpd : proc_dir p d) by (split; [by right|done]).
  split; [split|split].
  - split; [|rewrite Hsc; unfold get_task in *; rewrite Hsc; exact Hr].
    apply (sched_wf_eq E (set_km m s)); [done|done|]. apply (wf_pages E s o); [done|apply Hstep..|done|done].
  - by apply (ids_ok_eq s).
  - apply (users_step M E (o_pages o ∖ list_to_set (proc_frames p)) none (fun q => q = d \/ q ∈ proc_frames p) none T o s' o'); [exact HuT|done|apply tasks_kept_eq; congruence| |intros ? ? ? []|by rewrite Hkm, HkmT|].
    + by rewrite Hsc, HscT.
    + intros k x Hk Hx. destruct (proc_dir_safe M E _ T o k x HwT HuT Hk Hx) as (Hin & _). split; [exact Hin|].
      intros [->|Hq].
      * rewrite HgT in Hx by done. destruct (decide (i = k)) as [<-|Hne].
        { unfold left_behind in Hx. destruct Hx as [Hx _]. destruct (_ =? _), Hx; done. }
        apply Hne, eq_sym, (proc_dir_inj M E (o_pages o) s o i k d Hw Hu Hi Hk Hst Hpd).
        unfold orphan_rec in Hx. destruct (_ || _); [done|]. case_bool_decide; [by destruct Hx as [[] _]|exact Hx].
      * apply (dir_not_page (km s) o x x (sw_mem _ _ _ Hw) Hin); [|done]. rewrite (uo_pages _ _ _ _ Hu).
        apply elem_of_union_r, elem_of_list_to_set, list_elem_of_bind. exists p. split; [done|].
        eapply list_elem_of_lookup_2, get_process_lookup. lia.
  - rewrite Hbv. exact Hm.
  - rewrite <- Hkm in Hstep. eapply (steady_kstep _ _ _ s o s' o' Hstep); [done|]. intros q Hq [->|?]; [|done].
    destruct (dir_not_page (km s) o d d (sw_mem _ _ _ Hw) Hd Hq). reflexivity.
  - split; [exact Hsc|]. split; [split; [reflexivity|by rewrite Hkm]|]. split; [exact Hpn|]. split; [exact Hact|].
    split; [rewrite Hgs, decide_True by done; reflexivity|]. intros j Hj Hne. rewrite Hgs, decide_False by lia. reflexivity.
Qed.
(** ** Waiting *)

(** [c] is the record of the child [n] of process [q]. *)
Definition child_of (s : ks) (q n c : Z) : Prop :=
  0 <= c < 16 /\ ~ is_free (get_process c s) /\ pid (get_process c s) = n /\
  parent_pid (get_process c s) = pid (get_process q s).

(** One round of [user_wait]: the caller has no such child, or collects the
    status of one that exited, or has to wait for one that runs. *)
Lemma wait_cases M E s o q n :
  base M E s o -> 0 <= q < 16 -> ~ is_free (get_process q s) ->
  match user_wait_round q n s with
  | inl s' => s' = s /\ exists c, child_of s q n c /\ state (get_process c s) <> USER_PROCESS_EXITED
  | inr (r, s') =>
      (r = -1 /\ s' = s /\ forall c, ~ child_of s q n c) \/
      (exists c, child_of s q n c /\ state (get_process c s) = USER_PROCESS_EXITED /\ r = s32 (exit_status (get_process c s)) /\
        s' = put_process c zero_process s /\ base M E s' o /\ steady none s o s' o)
  end.
Proof.
  intros [Hinv Hids Hu Hm] Hq Hqf. unfold user_wait_round. destruct (user_process_find_by_pid n s) as [c|] eqn:Hc; cycle 1.
  { left. do 2 (split; [done|]). intros c (Hcr & Hf & Hn & _). by apply (find_pid_None s n c Hc Hcr Hf). }
  pose proof (find_pid_Some _ _ _ Hc) as (Hcr & Hf & Hn).
  destruct (Z.eqb_spec (parent_pid (get_process c s)) (pid (get_process q s))) as [Hp|Hp]; cbn [negb]; cycle 1.
  { left. do 2 (split; [done|]). intros c' (Hcr' & Hf' & Hn' & Hp').
    assert (c' = c) as -> by (apply (uo_pid_inj _ _ _ _ Hu); congruence). done. }
  assert (Hch : child_of s q n c) by done. case_bool_decide as Hx; [|by split; [|exists c]].
  right. exists c. do 3 (split; [done|]). split; [done|].
  assert (Hu' : users_ok M E (o_pages o) (put_process c zero_process s)).
  { pose proof (uo_proc _ _ _ _ Hu c Hcr) as Hpk. unfold proc_ok in Hpk. rewrite Hx in Hpk.
    apply (release_ok M E (o_pages o) s c Hu Hcr); [| |congruence].
    - unfold created_dirs. by rewrite bool_decide_eq_false_2 by congruence.
    - unfold proc_frames, live_pages. by rewrite (proj1 Hpk). }
  split; [split; [by apply (sched_inv_eq E s)|by apply (ids_ok_eq s)|exact Hu'|exact Hm]|]. split; [|done]. split; [done|]. intros x Hxp _. done.
Qed.
End exit.
