(* ===== verification/UserTheorems.v ===== *)
(** * User processes: theorems

    The life of a process from [user_spawn] to the [user_wait] that collects its
    status. *)

From S2P Require Import Prelude Memory Tty Printk Keyboard Machine PmmInit FrameAlloc Pmm Vmm VmmSpec VmmProof VmmTheorems.
From S2P Require Import Kmalloc KmallocProof Initramfs Sharing Kmem Kernel Sched SchedProof SchedTheorems User UserMem UserExec UserInv UserProof UserSpawn UserRun UserExit.

(** ** The path in the record *)

Lemma copy_path_lookup chars len l i :
  0 <= len -> (Z.to_nat len < length l)%nat -> 0 <= i ->
  at_arr (copy_path chars len l) i = if i <=? len then u8 (chars i) else at_arr l i.
Proof.
  intros Hlen Hl Hi. unfold copy_path.
  enough (H : length (for_range 0 (len + 1) (fun i l => <[Z.to_nat i := u8 (chars i)]> l) l) = length l /\
    forall j, 0 <= j -> at_arr (for_range 0 (len + 1) (fun i l => <[Z.to_nat i := u8 (chars i)]> l) l) j =
      if j <? len + 1 then u8 (chars j) else at_arr l j).
  { rewrite (proj2 H i Hi). repeat case_if; done || lia. }
  for_inv (fun k x => length x = length l /\ forall j, 0 <= j -> at_arr x j = if j <? k then u8 (chars j) else at_arr l j); [lia|..].
  - split; [done|]. intros j Hj. case_if; [lia|done].
  - intros k x Hk [Hx Hg]. split; [by rewrite length_insert|]. intros j Hj. unfold at_arr in *.
    destruct (decide (j = k)) as [->|Hne].
    + rewrite list_lookup_insert_eq by lia. case_if; [done|lia].
    + rewrite list_lookup_insert_ne by lia. rewrite Hg by done. repeat case_if; done || lia.
Qed.

(** Two strings that agree up to the NUL name the same file. *)
Lemma path_matches_ext e f g len :
  0 <= len < EMXA_PATH_SIZE -> (forall i, 0 <= i <= len -> u8 (f i) = u8 (g i)) ->
  (forall i, 0 <= i <= len -> f i = 0 <-> g i = 0) -> f len = 0 -> path_matches e f = path_matches e g.
Proof.
  intros Hlen Hu Hz H0. unfold path_matches.
  destruct (find_range_until 0 EMXA_PATH_SIZE (fun i => negb (e i =? u8 (f i)) || (f i =? 0))
    (fun i => negb (e i =? u8 (g i)) || (g i =? 0)) len) as (i & Hi & -> & ->); [lia| | |by rewrite Hu].
  - by rewrite H0, Z.eqb_refl, orb_true_r.
  - intros i Hi. rewrite Hu by done. f_equal. specialize (Hz i Hi). destruct (Z.eqb_spec (f i) 0), (Z.eqb_spec (g i) 0); tauto.
Qed.

Lemma find_ext f g len m bv :
  0 <= len < EMXA_PATH_SIZE -> (forall i, 0 <= i <= len -> u8 (f i) = u8 (g i)) ->
  (forall i, 0 <= i <= len -> f i = 0 <-> g i = 0) -> f len = 0 ->
  initramfs_find (Some f) LOCAL LOCAL m bv = initramfs_find (Some g) LOCAL LOCAL m bv.
Proof.
  intros Hlen Hu Hz H0. unfold initramfs_find. simpl. destruct (initramfs_header m bv) as [[[a sz] n]|]; [|done].
  rewrite (find_range_ext 0 n _ (fun i => path_matches (at_ptr m (entry_ptr a i)) g)); [done|].
  intros i _. by apply (path_matches_ext _ f g len).
Qed.

(** The copy in the record names the file that was asked for. *)
Lemma find_copied chars len m bv :
  strlen PATH_FUEL chars = Some len -> len < EMXA_PATH_SIZE -> (forall i, 0 <= i <= len -> 0 <= chars i < 256) ->
  initramfs_find (Some (at_arr (copy_path chars len (replicate 32 0)))) LOCAL LOCAL m bv =
  initramfs_find (Some chars) LOCAL LOCAL m bv.
Proof.
  intros Hs Hlen Hc. apply strlen_Some in Hs as (Hl & H0 & _).
  assert (Hat : forall i, 0 <= i <= len -> at_arr (copy_path chars len (replicate 32 0)) i = chars i).
  { intros i Hi. rewrite copy_path_lookup by (rewrite ?length_replicate; lia). case_if; [|lia]. apply wrap_small. by apply Hc. }
  apply (find_ext _ _ len); [lia|..].
  - intros i Hi. by rewrite Hat.
  - intros i Hi. by rewrite Hat.
  - rewrite Hat by lia. done.
Qed.

Section theorems.
Context {FA : FrameAllocator pmm_alloc_page pmm_free_page}.

(** C12: [user_spawn] either fails or turns one free record into a process with
    the next pid, the caller as its parent, an address space of its own and a
    new thread, whose path names the file that was asked for.  When it fails,
    every record and every live thread is as before, at most one pid has been
    used up, the heap has the same frames, every frame that was available still
    is, and the only frames that became available are those of the address
    spaces of threads that had exited before.  When it succeeds, no frame is
    lost either: the only frames the heap has more hold one of its blocks. *)
Theorem spawn_correct M E s o chars :
  base M E s o -> next_pid (us s) < 2147483647 -> next_task_id (sc s) < 2147483647 ->
  strlen PATH_FUEL chars <> None -> (forall i, 0 <= chars i < 256) -> may_spawn s ->
  exists r s' o', user_spawn (Some chars) s = Done (r, s') /\ keeps none s o s' o' /\ heap_grows o (km s') o' /\ tasks_kept none s s' /\
    ((r = -1 /\ base M E s' o' /\ processes (us s') = processes (us s) /\ next_task_id (sc s') = next_task_id (sc s) /\
      next_pid (us s) <= next_pid (us s') <= next_pid (us s) + 1 /\ o_heap o' = o_heap o /\
      forall q, (avail (km s) q = true -> avail (km s') q = true) /\
        (avail (km s') q = true -> avail (km s) q = true \/ exists d, doomed_dir s d /\ space_frame (km s) d q)) \/
     (exists i d p, r = next_pid (us s) /\ base M (d :: E) s' o' /\ one_more s s' i p /\
        p = spawned_record r (parent_of s) (d * 4096) (next_task_id (sc s)) (path p) /\
        next_task_id (sc s') = next_task_id (sc s) + 1 /\
        (exists f, initramfs_find (Some chars) LOCAL LOCAL (mem (km s)) (bv s) = Some f) /\
        forall m bv, initramfs_find (Some (at_arr (path p))) LOCAL LOCAL m bv = initramfs_find (Some chars) LOCAL LOCAL m bv)).
Proof.
  intros Hb Hnp Hnt Hstr Hc Hmay. destruct (spawn_cases M E s o chars Hb Hnp Hnt Hstr Hmay) as (r & s' & o' & Hy & [Hk Hg] & Htk & Hid & Hor).
  exists r, s', o'. do 4 (split; [done|]). destruct Hor as [(? & ? & ? & ? & [? _] & ?)|(i & d & len & Hn & Hr & Hb' & Hl & Hf & Hone)]; [left; done|right].
  eexists i, d, _. split; [done|]. split; [done|]. split; [exact Hone|]. do 3 (split; [done|]). intros m bv. apply find_copied; [done| |auto].
  unfold user_spawn in Hy. rewrite Hl in Hy. destruct (Z.leb_spec EMXA_PATH_SIZE len); [|lia].
  rewrite orb_true_r in Hy. injection Hy as <- _. pose proof (uo_pids _ _ _ _ (b_users _ _ _ _ Hb)). lia.
Qed.

(** C13: the thread of a new process either gives everything back or enters user
    mode in the file its record names: at the entry point of the image, in ring
    3 with interrupts on and an empty stack, in an address space that shows the
    code of the image read-only, a zeroed writable stack page and nothing else.
    When it gives everything back, its record is free and the frames available
    are exactly those that were available before and those of its address space,
    the directory and its tables; the heap has the same frames in either case. *)
Theorem exec_correct M E s o i eflags :
  base M E s o -> user_process_find_by_task_id (sched_current_task_id s) s = Some i ->
  state (get_process i s) = USER_PROCESS_CREATED ->
  let p := get_process i s in
  exists r s' E' o' d, user_exec_task eflags s = (r, s') /\ E ≡ₚ d :: E' /\ base M E' s' o' /\ keeps none s o s' o' /\
    address_space p = d * 4096 /\ o_heap o' = o_heap o /\
    ((r = None /\ us s' = us (put_process i zero_process s) /\
      forall q, avail (km s') q = true <-> avail (km s) q = true \/ space_frame (km s) d q) \/
     (exists c t image size cs eo, running s i p d c t image size cs eo s' /\ 0 <= eo < cs /\
        r = Some (mkIret (USER_INIT_CODE_ADDR + eo) 0x1b (Z.lor eflags 0x200) (USER_INIT_STACK_ADDR + 4096) 0x23))).
Proof.
  intros Hb Hf Hst p. pose proof (exec_cases M E s o i eflags Hb Hf Hst) as H. cbv zeta in H. fold p in H.
  destruct (user_exec_task eflags s) as [r s']. destruct H as (d & E' & o' & HE & Hb' & Hk & _ & _ & _ & _ & Hor).
  exists r, s', E', o', d. do 3 (split; [done|]). split; [apply Hk|].
  split; [by destruct Hor as [(_ & _ & ? & _)|(? & ? & ? & ? & ? & ? & [] & _)]|]. split; [apply Hk|].
  destruct Hor as [(? & ? & _ & ?)|(c & t & im & sz & cs & eo & Hr & ->)]; [by left|right].
  exists c, t, im, sz, cs, eo. split; [done|]. split; [|done]. apply (ex_page _ _ _ _ _ (rn_image _ _ _ _ _ _ _ _ _ _ _ Hr)).
Qed.

(** C14: an exiting process gives its pages back: the frames available afterwards
    are exactly those that were available before and those of its pages, and the
    heap has the same frames; its children have no parent any
    more and those of them that had exited are gone; its own record stays, with
    the status, exactly when it has a parent to wait for it.  Every other record
    and every other page is as before. *)
Theorem exit_correct M E s o i status :
  base M E s o -> user_process_find_by_task_id (sched_current_task_id s) s = Some i ->
  state (get_process i s) = USER_PROCESS_RUNNING -> 0 <= status < 4294967296 ->
  let p := get_process i s in let s' := user_exit_current status s in
  exists o', base M E s' o' /\ keeps (fun q => q ∈ proc_frames p) s o s' o' /\ o_heap o' = o_heap o /\
    (forall q, q ∈ proc_frames p -> q ∉ o_pages o') /\
    (forall q, avail (km s') q = true <-> avail (km s) q = true \/ q ∈ proc_frames p) /\
    (if decide (parent_pid p = USER_PROCESS_NO_PARENT) then is_free (get_process i s')
     else state (get_process i s') = USER_PROCESS_EXITED /\ pid (get_process i s') = pid p /\
          parent_pid (get_process i s') = parent_pid p /\ exit_status (get_process i s') = status) /\
    forall j, 0 <= j < 16 -> j <> i -> let q := get_process j s in
      if decide (~ is_free q /\ parent_pid q = pid p)
      then if decide (state q = USER_PROCESS_EXITED) then is_free (get_process j s')
           else get_process j s' = with_parent USER_PROCESS_NO_PARENT q
      else get_process j s' = q.
Proof.
  intros Hb Hf Hst Hr p s'. destruct (exit_cases M E s o i status Hb Hf Hst Hr) as (o' & Hb' & Hk & _ & [Hpg Hav] & _ & _ & Hi & Hoth).
  fold p s' in Hb', Hk, Hpg, Hav, Hi, Hoth. exists o'. split; [done|]. split; [apply Hk|]. split; [apply Hk|]. split; [intros q Hq; rewrite Hpg; set_solver|]. split; [done|]. split.
  - rewrite Hi. unfold left_behind. case_decide as Hp; [by rewrite Hp|]. by rewrite (proj2 (Z.eqb_neq _ _) Hp).
  - intros j Hj Hne q. rewrite (Hoth j Hj Hne). fold q. unfold orphan_rec.
    destruct (decide (~ is_free q /\ parent_pid q = pid p)) as [[Hq Hpp]|Hn].
    + rewrite bool_decide_eq_false_2, Hpp, Z.eqb_refl by done. cbn [negb orb]. by repeat case_decide || case_bool_decide.
    + destruct (_ || _) eqn:Hg; [done|]. bool_simpl. tauto.
Qed.

(** C6: what a process passes to [user_exit_current] is what [user_wait] returns
    to its parent, as an [int]; the call releases the record, so a second wait
    for the same pid is an error, and no frame is lost or given to the heap. *)
Theorem exit_wait_roundtrip M E s o i status q :
  base M E s o -> user_process_find_by_task_id (sched_current_task_id s) s = Some i ->
  state (get_process i s) = USER_PROCESS_RUNNING -> 0 <= status < 4294967296 ->
  0 <= q < 16 -> state (get_process q s) = USER_PROCESS_RUNNING -> pid (get_process q s) = parent_pid (get_process i s) ->
  let n := pid (get_process i s) in
  exists s' o', user_wait_round q n (user_exit_current status s) = inr (s32 status, s') /\
    base M E s' o' /\ (forall x, acct (km s') o' x <-> acct (km s) o x) /\ o_heap o' = o_heap o /\
    is_free (get_process i s') /\ user_wait_round q n s' = inr (-1, s').
Proof.
  intros Hb Hf Hst Hr Hq Hsq Hpid n. destruct (current_process M E s o i Hb Hf) as (Hi & Hfree & _).
  destruct (exit_cases M E s o i status Hb Hf Hst Hr) as (o1 & Hb1 & Hk1 & _ & _ & _ & _ & Hgi & Hoth).
  cbv zeta in Hb1, Hk1, Hgi, Hoth. set (s1 := user_exit_current status s) in *. clearbody s1.
  pose proof (b_users _ _ _ _ Hb) as Hu. pose proof (uo_rec _ _ _ _ Hu i Hi Hfree) as Hrec.
  assert (Hne : q <> i) by (intros ->; pose proof (rc_parent _ _ Hrec); lia).
  assert (Hp0 : parent_pid (get_process i s) <> 0).
  { rewrite <- Hpid. pose proof (rc_pid _ _ (uo_rec _ _ _ _ Hu q Hq ltac:(congruence))). lia. }
  unfold left_behind in Hgi. rewrite (proj2 (Z.eqb_neq _ _) Hp0) in Hgi.
  assert (Hq1 : pid (get_process q s1) = pid (get_process q s) /\ ~ is_free (get_process q s1)).
  { rewrite (Hoth q Hq Hne). unfold orphan_rec. destruct (_ || _); [by split; [|congruence]|].
    rewrite bool_decide_eq_false_2 by congruence. simpl. by split; [|congruence]. }
  destruct Hq1 as [Hq1 Hqf1]. assert (Hch : child_of s1 q n i).
  { unfold child_of. rewrite Hgi. do 3 (split; [done|]). by rewrite Hq1. }
  pose proof (b_users _ _ _ _ Hb1) as Hu1.
  pose proof (wait_cases M E s1 o1 q n Hb1 Hq Hqf1) as Hw.
  assert (Huniq : forall c, child_of s1 q n c -> c = i).
  { intros c (Hc & Hcf & Hcn & _). destruct Hch as (_ & Hif & Hin & _). apply (uo_pid_inj _ _ _ _ Hu1); congruence. }
  destruct (user_wait_round q n s1) as [s2|[r s2]].
  { destruct Hw as (_ & c & Hc & Hx). rewrite (Huniq c Hc), Hgi in Hx. by destruct Hx. }
  destruct Hw as [(_ & _ & Hno)|(c & Hc & Hx & -> & -> & Hb2 & Hk2)]; [by destruct (Hno i)|].
  rewrite (Huniq c Hc) in *. clear c Hc. exists (put_process i zero_process s1), o1. split; [by rewrite Hgi|].
  assert (Hg2 : forall j, 0 <= j < 16 -> get_process j (put_process i zero_process s1) = if decide (i = j) then zero_process else get_process j s1).
  { intros j Hj. apply get_put_process; try lia. rewrite (uo_len _ _ _ _ Hu1). lia. }
  split; [done|]. split; [intros x; rewrite (kp_acct _ _ _ _ _ Hk2), (kp_acct _ _ _ _ _ Hk1); done|]. split; [apply Hk1|].
  split; [by rewrite Hg2, decide_True|].
  pose proof (wait_cases M E _ o1 q n Hb2 Hq) as Hw2. rewrite Hg2, decide_False in Hw2 by done. specialize (Hw2 Hqf1).
  assert (Hno : forall c, ~ child_of (put_process i zero_process s1) q n c).
  { intros c (Hc & Hcf & Hcn & _). rewrite Hg2 in Hcf, Hcn by done. case_decide as Hic; [done|].
    apply Hic. destruct Hch as (_ & Hif & Hin & _). apply (uo_pid_inj _ _ _ _ Hu1); congruence. }
  destruct (user_wait_round q n _) as [s2|[r s2]].
  - destruct Hw2 as (_ & c & Hc & _). by destruct (Hno c).
  - destruct Hw2 as [(-> & -> & _)|(c & Hc & _)]; [done|by destruct (Hno c)].
Qed.
End theorems.
