(* ===== verification/Syscall.v ===== *)
(** * System calls (src/kernel/syscall.c)

    [syscall_dispatch] on the registers that the stub saved (Entry.v).  The
    kernel runs in the directory of the caller and reads user memory through
    it: a byte that is not mapped is a page fault in the kernel, which halts in
    the exception handler.  A call can also leave the processor inside
    [sched_yield]; [kont] says how the task goes on when it is chosen again. *)

From S2P Require Import Prelude Memory Tty Printk Keyboard Machine PmmInit FrameAlloc Pmm Vmm VmmSpec Kmalloc Initramfs Kernel Sched User.
From S2P Require Import Asm Entry.

Abbreviation SYS_WRITE := 1.
Abbreviation SYS_EXIT := 2.
Abbreviation SYS_YIELD := 3.
Abbreviation SYS_GETC := 4.
Abbreviation SYS_SPAWN := 5.
Abbreviation SYS_WAIT := 6.
Abbreviation SYS_FD_STDOUT := 1.
Abbreviation SYS_ERR := (u32 (-1)).

(** ** Results *)

(** Where a task that gave up the processor goes on. *)
Inductive kont :=
  | KStart                       (** at the start of [kthread_trampoline] *)
  | KUser (eax : Z)              (** back in user mode, with this result *)
  | KWait (caller n : Z).        (** after the [sched_yield] of [user_wait] *)

Inductive sys_result :=
  | SysRet (eax : Z) (s : ks)            (** back to the caller at once *)
  | SysYield (k : kont) (s : ks)         (** left in [sched_yield] *)
  | SysGone (s : ks)                     (** left in [kthread_exit] *)
  | SysFault (addr : Z) (s : ks).        (** page fault in the kernel *)

(** The byte that the kernel reads at [a] in the directory that is loaded. *)
Definition user_byte (s : ks) (a : Z) : option Z :=
  match walk (mem (km s)) (cr3 (km s) / 4096) a with
  | Some (p, _, _) => Some (load8 (mem (km s)) p)
  | None => None
  end.

(** ** Reading from the caller *)

(** The body of the loop of [sys_write]; [inr]: the address that faulted. *)
Definition write_char (buf i : Z) (r : ks + Z * ks) : ks + Z * ks :=
  match r with
  | inr f => inr f
  | inl s =>
    match user_byte s (buf +u i) with
    | None => inr (buf +u i, s)
    | Some c => inl (kprintk "%c" [VInt c] s)
    end
  end.

Definition sys_write (fd buf len : Z) (s : ks) : sys_result :=
  if negb (fd =? SYS_FD_STDOUT) || (buf =? NULL) then SysRet SYS_ERR s
  else match for_range 0 len (write_char buf) (inl s) with
       | inl s => SysRet len s
       | inr (a, s) => SysFault a s
       end.

(** [n] rounds of the loop of [copy_string_from_user] from index [i]. *)
Fixpoint copy_chars (n : nat) (i : Z) (dst : list Z) (src max_len : Z) (s : ks) : (Z * list Z) + Z :=
  match n with
  | O => inl (-1, <[Z.to_nat (max_len - 1) := 0]> dst)
  | S n =>
    match user_byte s (src +u i) with
    | None => inr (src +u i)
    | Some c =>
      let dst := <[Z.to_nat i := c]> dst in
      if c =? 0 then inl (if i =? 0 then -1 else 0, dst)
      else copy_chars n (i + 1) dst src max_len s
    end
  end.

Definition copy_string_from_user (dst : option (list Z)) (src max_len : Z) (s : ks) : (Z * list Z) + Z :=
  match dst with
  | None => inl (-1, [])
  | Some dst =>
    if (src =? NULL) || (max_len =? 0) then inl (-1, dst)
    else copy_chars (Z.to_nat max_len) 0 dst src max_len s
  end.

(** A copy that succeeds ends in a NUL inside the array. *)
Lemma copy_chars_nul n i dst src max_len s dst' :
  0 <= i -> i + Z.of_nat n <= Z.of_nat (length dst) ->
  copy_chars n i dst src max_len s = inl (0, dst') -> exists k, 0 <= k < Z.of_nat (length dst) /\ at_arr dst' k = 0.
Proof.
  revert i dst. induction n as [|n IH]; intros i dst Hi Hn H; simpl in H; [done|].
  destruct (user_byte s _) as [c|]; [|done]. destruct (Z.eqb_spec c 0) as [E0|E0].
  - subst c. injection H as _ <-. exists i. split; [lia|]. unfold at_arr. by rewrite list_lookup_insert_eq by lia.
  - apply IH in H; [|lia|rewrite length_insert; lia]. by rewrite length_insert in H.
Qed.

Lemma copy_string_nul dst src s dst' :
  length dst = 32%nat -> copy_string_from_user (Some dst) src EMXA_PATH_SIZE s = inl (0, dst') ->
  strlen PATH_FUEL (at_arr dst') <> None.
Proof.
  intros Hl H. unfold copy_string_from_user in H. destruct (_ || _); [done|].
  apply copy_chars_nul in H as (k & Hk & Hz); [|lia|rewrite Hl; simpl; lia]. apply (strlen_ends _ _ k); [lia|done].
Qed.

(** A byte that faults is not mapped. *)
Lemma copy_chars_fault n i dst src max_len s a :
  copy_chars n i dst src max_len s = inr a -> user_byte s a = None.
Proof.
  revert i dst. induction n as [|n IH]; intros i dst H; cbn [copy_chars] in H; [done|].
  destruct (user_byte s (src +u i)) as [c|] eqn:Hu; [|congruence]. destruct (c =? 0); [done|]. by eapply IH.
Qed.

(** ** The calls *)

(** [sp] is the stack pointer of the caller's kernel stack at a switch. *)
Section calls.
Context (sp : Z).

(** [status] is printed after the process is gone. *)
Definition sys_exit (status : Z) (s : ks) : outcome sys_result :=
  let s := user_exit_current status s in
  let s := kprintk (ln "user: exited status=%x") [VInt status] s in
  let* s := kthread_exit sp s in
  Done (SysGone s).

Definition sys_yield (s : ks) : outcome sys_result :=
  let* (switched, s) := sched_yield sp s in
  Done (if switched : bool then SysYield (KUser 0) s else SysRet 0 s).

(** [kernel_path]: what the array on the kernel stack holds before. *)
Definition sys_spawn (kernel_path : list Z) (path : Z) (s : ks) : outcome sys_result :=
  match copy_string_from_user (Some kernel_path) path EMXA_PATH_SIZE s with
  | inr a => Done (SysFault a s)
  | inl (ret, kernel_path) =>
    if negb (ret =? 0) then Done (SysRet SYS_ERR s)
    else
      let* (process_id, s) := user_spawn (Some (at_arr kernel_path)) s in
      Done (if process_id <? 0 then SysRet SYS_ERR s else SysRet (u32 process_id) s)
  end.

(** A round of the loop of [user_wait]. *)
Definition wait_round (caller n : Z) (s : ks) : outcome sys_result :=
  match user_wait_round caller n s with
  | inr (ret, s) => Done (SysRet (u32 ret) s)
  | inl s =>
    let* (_, s) := sched_yield sp s in
    Done (SysYield (KWait caller n) s)
  end.

Definition sys_wait (n : Z) (s : ks) : outcome sys_result :=
  match user_wait_caller s with
  | None => Done (SysRet (u32 (-1)) s)
  | Some caller => wait_round caller n s
  end.

Definition syscall_dispatch (kernel_path : list Z) (frame : syscall_frame) (s : ks) : outcome sys_result :=
  let n := eax frame in
  if n =? SYS_WRITE then Done (sys_write (ebx frame) (ecx frame) (edx frame) s)
  else if n =? SYS_EXIT then sys_exit (ebx frame) s
  else if n =? SYS_YIELD then sys_yield s
  else if n =? SYS_GETC then
    let '(c, k) := keyboard_buffer_pop (kb s) in Done (SysRet c (set_kb k s))
  else if n =? SYS_SPAWN then sys_spawn kernel_path (ebx frame) s
  else if n =? SYS_WAIT then sys_wait (ebx frame) s
  else Done (SysRet SYS_ERR s).

(** ** Threads *)

(** [sched_zero_address_space_test] (src/kernel/kshell.c). *)
Definition sched_zero_address_space_test (s : ks) : ks :=
  let '(ret, s) := sched_set_current_address_space 0 s in
  kprintk (ln "sched zero address space: ret=%x") [VInt (u32 ret)] s.

(** [kthread_trampoline] (src/kernel/sched.c): [SysRet]: the thread entered
    user mode. *)
Definition kthread_trampoline_run (eflags : Z) (s : ks) : outcome (option iret_frame * ks) :=
  match t_entry (get_task (current_task (sc s)) s) with
  | Some user_exec_task_fn =>
    match user_exec_task eflags s with
    | (Some f, s) => Done (Some f, s)
    | (None, s) => let* s := kthread_exit sp s in Done (None, s)
    end
  | Some sched_zero_address_space_test_fn =>
    let* s := kthread_exit sp (sched_zero_address_space_test s) in Done (None, s)
  | None => Diverge
  end.
End calls.
