(* ===== verification/Calls.v ===== *)
(** * The system calls of userland, served by the kernel

    Programs.v describes the calls of a program by the contents of its memory;
    Syscall.v is the kernel, which gets registers and reads the memory of the
    caller through its page tables.  Here the two meet: the kernel does for
    every call of user.h what the program may expect of it. *)

From S2P Require Import Prelude Memory Programs.
From S2P Require Import Tty Printk Keyboard Machine PmmInit FrameAlloc Pmm Vmm VmmSpec Kmalloc Initramfs Kernel Sched User UserTheorems.
From S2P Require Import Asm Entry Syscall.

(** The registers at [int $0x80] are those that the program set. *)
Record carries (f : syscall_frame) (c : call) : Prop := {
  cy_eax : eax f = c_eax c;
  cy_ebx v : c_ebx c = Some v -> ebx f = v;
  cy_ecx v : c_ecx c = Some v -> ecx f = v;
  cy_edx v : c_edx c = Some v -> edx f = v;
}.

(** The [n] bytes of the caller at [a] are those of [m]. *)
Definition sees (s : ks) (m : memory) (a n : Z) : Prop :=
  forall i, 0 <= i < n -> user_byte s (a +u i) = Some (load8 m (a +u i)).

(** Bytes on the screen. *)
Definition show (l : list Z) (s : ks) : ks := on_km (fun x => set_con (terminal_write l (con x)) x) s.

(** ** Writing *)

#[local] Transparent kprint.

Lemma print_char c s : 0 <= c < 256 -> kprintk "%c" [VInt c] s = show [c] s.
Proof.
  intros Hc. assert (H : finish [c] 0 (con (km s)) (printk (chars "%c") [VInt c] (con (km s)))).
  { apply printk_loop_spec; [simpl; lia|lia|]. unfold chars. simpl. by rewrite wrap_small by lia. }
  unfold kprintk, show, on_km, kprint. unfold finish in H. case_if_in H; [simpl in *; lia|]. by rewrite H.
Qed.

#[local] Opaque kprint.

Lemma show_app l l' s : show l' (show l s) = show (l ++ l') s.
Proof. unfold show, on_km, terminal_write. simpl. by rewrite foldl_app. Qed.

Lemma show_nil s : show [] s = s.
Proof. by destruct s as [[] ? ? ? ? ? ?]. Qed.

Lemma show_byte l s a : user_byte (show l s) a = user_byte s a.
Proof. done. Qed.

Lemma bytes_at_snoc m a k : 0 <= k -> bytes_at m a (k + 1) = bytes_at m a k ++ [load8 m (a +u k)].
Proof. intros Hk. unfold bytes_at. rewrite seqZ_app by lia. by rewrite fmap_app. Qed.

Lemma write_chars m buf len s :
  0 <= len -> sees s m buf len -> for_range 0 len (write_char buf) (inl s) = inl (show (bytes_at m buf len) s).
Proof.
  intros Hl Hs. for_inv (fun k (r : ks + Z * ks) => r = inl (show (bytes_at m buf k) s)).
  - done.
  - by rewrite show_nil.
  - intros k r Hk ->. unfold write_char. rewrite show_byte, (Hs k Hk), print_char by apply load8_range.
    by rewrite show_app, bytes_at_snoc by lia.
Qed.

(** ** Copying a path *)

Lemma copy_chars_path n i dst a m s :
  0 <= i -> i + Z.of_nat n = 32 -> length dst = 32%nat -> sees s m a 32 \/ (exists k, i <= k < 32 /\ load8 m (a +u k) = 0 /\ sees s m a (k + 1)) ->
  match strlen_from n (fun j => load8 m (a +u j)) i with
  | None => exists dst', copy_chars n i dst a 32 s = inl (-1, dst')
  | Some k => exists dst', copy_chars n i dst a 32 s = inl (if k =? 0 then -1 else 0, dst') /\
      (forall j, 0 <= j < i -> at_arr dst' j = at_arr dst j) /\
      (forall j, i <= j <= k -> at_arr dst' j = load8 m (a +u j))
  end.
Proof.
  revert i dst. induction n as [|n IH]; intros i dst Hi Hn Hd Hs; cbn [strlen_from copy_chars]; [by eexists|].
  assert (Hb : user_byte s (a +u i) = Some (load8 m (a +u i))) by (destruct Hs as [Hs|(k & Hk & _ & Hs)]; apply Hs; lia).
  rewrite Hb. set (c := load8 m (a +u i)) in *.
  assert (Hat : at_arr (<[Z.to_nat i := c]> dst) i = c) by (unfold at_arr; by rewrite list_lookup_insert_eq by lia).
  assert (Hot : forall j, 0 <= j < i -> at_arr (<[Z.to_nat i := c]> dst) j = at_arr dst j)
    by (intros j Hj; unfold at_arr; by rewrite list_lookup_insert_ne by lia).
  destruct (Z.eqb_spec c 0) as [Hz|Hz].
  - eexists. split; [reflexivity|]. split; [done|]. intros j Hj. by replace j with i by lia.
  - specialize (IH (i + 1) (<[Z.to_nat i := c]> dst)). destruct (strlen_from n _ (i + 1)) as [k|] eqn:Hk.
    + destruct IH as (dst' & Hc & H1 & H2); [lia|lia|by rewrite length_insert|..].
      { destruct Hs as [?|(k' & Hk' & Hz' & ?)]; [by left|right; exists k'; split; [|done]].
        destruct (decide (k' = i)) as [->|]; [done|lia]. }
      exists dst'. split; [done|]. split; [intros j Hj; rewrite H1, Hot by lia; done|].
      intros j Hj. destruct (decide (j = i)) as [->|]; [by rewrite H1, Hat by lia|apply H2; lia].
    + apply IH; [lia|lia|by rewrite length_insert|..].
      destruct Hs as [?|(k' & Hk' & Hz' & ?)]; [by left|right; exists k'; split; [|done]].
      destruct (decide (k' = i)) as [->|]; [done|lia].
Qed.

(** Only the string up to its NUL matters. *)
Lemma user_spawn_ext f g len s :
  0 <= len < EMXA_PATH_SIZE -> (forall i, 0 <= i <= len -> f i = g i) -> f len = 0 -> (forall i, 0 <= i < len -> f i <> 0) ->
  user_spawn (Some f) s = user_spawn (Some g) s.
Proof.
  intros Hl He Hz Hn. unfold user_spawn.
  assert (Hf : strlen PATH_FUEL f = Some len) by (apply strlen_Some; split; [lia|by split]).
  assert (Hg : strlen PATH_FUEL g = Some len).
  { apply strlen_Some. split; [lia|]. rewrite <- He by lia. split; [done|]. intros i Hi. rewrite <- He by lia. by apply Hn. }
  rewrite Hf, Hg. rewrite (find_ext f g len) by (done || (intros i Hi; by rewrite He)).
  assert (Hc : forall l, copy_path f len l = copy_path g len l).
  { intros l. unfold copy_path. apply for_range_ext. intros i x Hi. by rewrite He by lia. }
  destruct ((len =? 0) || (EMXA_PATH_SIZE <=? len)); [done|]. destruct (initramfs_find _ _ _ _ _); [|done].
  destruct (user_process_alloc s) as [[i|] s1]; [|done]. unfold upd_process at 1 3. by setoid_rewrite Hc.
Qed.

(** ** The calls *)

Section served.
Context (sp : Z) (kernel_path : list Z) (Hpath : length kernel_path = 32%nat).

(** What the program may expect. *)
Definition expected (c : call) (m : memory) (s : ks) : outcome sys_result :=
  let arg := default 0 in
  if c_eax c =? Programs.SYS_WRITE then Done (SysRet (arg (c_edx c)) (show (bytes_at m (arg (c_ecx c)) (arg (c_edx c))) s))
  else if c_eax c =? Programs.SYS_EXIT then sys_exit sp (arg (c_ebx c)) s
  else if c_eax c =? Programs.SYS_YIELD then sys_yield sp s
  else if c_eax c =? Programs.SYS_GETC then
    let '(r, k) := keyboard_buffer_pop (kb s) in Done (SysRet r (set_kb k s))
  else if c_eax c =? Programs.SYS_SPAWN then
    match path_at m (arg (c_ebx c)) with
    | None => Done (SysRet SYS_ERR s)
    | Some path =>
      let* (pid, s) := user_spawn (Some (at_arr (path ++ [0]))) s in
      Done (SysRet (if pid <? 0 then SYS_ERR else u32 pid) s)
    end
  else sys_wait sp (arg (c_ebx c)) s.

(** A call that user.h or crt0.S makes, with pointers to mapped memory. *)
Inductive user_call (m : memory) (s : ks) : call -> Prop :=
  | uc_write buf len : buf <> 0 -> 0 <= len -> sees s m buf len ->
      user_call m s (mkCall Programs.SYS_WRITE (Some Programs.SYS_FD_STDOUT) (Some buf) (Some len))
  | uc_exit status : user_call m s (crt0_exit status)
  | uc_yield : user_call m s (mkCall Programs.SYS_YIELD None None None)
  | uc_getc : user_call m s (mkCall Programs.SYS_GETC None None None)
  | uc_spawn path : path <> 0 -> (sees s m path 32 \/ exists k, 0 <= k < 32 /\ load8 m (path +u k) = 0 /\ sees s m path (k + 1)) ->
      user_call m s (mkCall Programs.SYS_SPAWN (Some path) None None)
  | uc_wait pid : user_call m s (mkCall Programs.SYS_WAIT (Some pid) None None).

Lemma path_bytes m a k :
  strlen 32 (fun i => load8 m (a +u i)) = Some k ->
  forall j, 0 <= j <= k -> at_arr (bytes_at m a k ++ [0]) j = load8 m (a +u j).
Proof.
  intros Hs j Hj. apply strlen_Some in Hs as (Hk & Hz & _). unfold at_arr.
  assert (Hl : length (bytes_at m a k) = Z.to_nat k) by (unfold bytes_at; by rewrite length_fmap, length_seqZ).
  destruct (decide (j = k)) as [->|Hne].
  - rewrite lookup_app_r by lia. rewrite Hl, Nat.sub_diag. by rewrite Hz.
  - rewrite lookup_app_l by lia. unfold bytes_at. rewrite list_lookup_fmap, lookup_seqZ_lt by lia. simpl. f_equal. f_equal. lia.
Qed.

Lemma spawn_call m s path f :
  carries f (mkCall Programs.SYS_SPAWN (Some path) None None) -> path <> 0 ->
  (sees s m path 32 \/ exists k, 0 <= k < 32 /\ load8 m (path +u k) = 0 /\ sees s m path (k + 1)) ->
  sys_spawn kernel_path (ebx f) s = expected (mkCall Programs.SYS_SPAWN (Some path) None None) m s.
Proof.
  intros Hf Hp Hs. rewrite (cy_ebx _ _ Hf path) by done. unfold sys_spawn, expected, path_at. cbn [c_eax c_ebx Z.eqb Pos.eqb default].
  unfold copy_string_from_user. rewrite (proj2 (Z.eqb_neq path NULL)) by done. cbn [orb Z.eqb].
  pose proof (copy_chars_path 32 0 kernel_path path m s ltac:(lia) ltac:(lia) Hpath Hs) as H.
  change (strlen_from 32 _ 0) with (strlen 32 (fun i => load8 m (path +u i))) in H.
  change (Z.to_nat EMXA_PATH_SIZE) with 32%nat. unfold id.
  destruct (strlen 32 _) as [k|] eqn:Hk; [|by destruct H as [dst' ->]].
  destruct H as (dst' & -> & _ & Hat). pose proof Hk as Hk'. apply strlen_Some in Hk' as (Hr & Hz & Hn).
  destruct (Z.eqb_spec k 0) as [->|Hk0]; [done|]. cbn [negb Z.eqb].
  rewrite (user_spawn_ext (at_arr dst') (at_arr (bytes_at m path k ++ [0])) k).
  - destruct (user_spawn _ s) as [[pid s']| |]; simpl; [|done..]. by destruct (pid <? 0).
  - lia.
  - intros i Hi. rewrite Hat by lia. symmetry. by apply path_bytes.
  - rewrite Hat by lia. done.
  - intros i Hi. rewrite Hat by lia. by apply Hn.
Qed.

Lemma dispatch_expected m s c f :
  user_call m s c -> carries f c -> syscall_dispatch sp kernel_path f s = expected c m s.
Proof.
  intros Hu Hf. unfold syscall_dispatch. rewrite (cy_eax _ _ Hf). destruct Hu as [buf len Hb Hl Hs|st| | |p Hp Hs|n].
  - rewrite (cy_ebx _ _ Hf _ eq_refl), (cy_ecx _ _ Hf _ eq_refl), (cy_edx _ _ Hf _ eq_refl). unfold sys_write.
    rewrite (proj2 (Z.eqb_neq buf NULL)) by done. cbn [c_eax Z.eqb Pos.eqb negb orb]. by rewrite (write_chars m).
  - by rewrite (cy_ebx _ _ Hf _ eq_refl).
  - done.
  - done.
  - by apply spawn_call.
  - by rewrite (cy_ebx _ _ Hf _ eq_refl).
Qed.

(** No such call makes the kernel fault. *)
Lemma expected_no_fault m s c a s' : user_call m s c -> expected c m s <> Done (SysFault a s').
Proof.
  intros Hu. destruct Hu as [buf len Hb Hl Hs|st| | |p Hp Hs|n]; unfold expected; cbn [c_eax c_ebx crt0_exit Z.eqb Pos.eqb default].
  - done.
  - unfold sys_exit. by destruct (kthread_exit _ _).
  - unfold sys_yield. by destruct (sched_yield _ _) as [[[] ?]| |].
  - by destruct (keyboard_buffer_pop _).
  - unfold id. destruct (path_at m p); [|done]. by destruct (user_spawn _ _) as [[? ?]| |].
  - unfold sys_wait, wait_round. destruct (user_wait_caller s); [|done]. destruct (user_wait_round _ _ _) as [s1|[? ?]]; [|done].
    by destruct (sched_yield _ _) as [[? ?]| |].
Qed.

(** C19: the kernel serves every call that the programs make: the bytes given to
    [write] and no others reach the screen and all are counted, [spawn] starts
    the path that the program has in its memory, refusing an empty one and one
    without an end in 32 bytes, and the other calls do not depend on the
    registers that the program leaves unset. *)
Theorem calls_served m s c f :
  user_call m s c -> carries f c -> syscall_dispatch sp kernel_path f s = expected c m s.
Proof. apply dispatch_expected. Qed.
End served.
