(* ===== verification/Loaded.v ===== *)
(** * The directory that is loaded

    Between two calls of the scheduler CR3 holds the directory of the task
    that runs.  Only the switch and the first run of a process load CR3; the
    lemmas below show that nothing else does. *)

From S2P Require Import Prelude Memory Tty Printk Keyboard Machine PmmInit FrameAlloc Pmm Vmm VmmSpec VmmProof VmmTheorems.
From S2P Require Import Kmalloc KmallocProof Initramfs Sharing Kmem Kernel Sched SchedProof SchedTheorems User UserMem UserExec UserInv UserProof UserSpawn UserRun UserExit.

Definition dir_loaded (s : ks) : Prop := cr3 (km s) = t_address_space (get_task (current_task (sc s)) s).

(** ** Calls that do not load a directory *)

Definition same_cr3 (s s' : ks) : Prop := cr3 (km s') = cr3 (km s).

#[export] Instance same_cr3_preorder : PreOrder same_cr3.
Proof. split; [done|]. intros x y z Hxy Hyz. unfold same_cr3 in *. congruence. Qed.

Lemma core_cr3 m m' : core m' = core m -> cr3 m' = cr3 m.
Proof. unfold core. intros [= _ _ H _ _]. exact H. Qed.

Lemma quiet_cr3 m m' : quiet m m' -> cr3 m' = cr3 m.
Proof. intros [H _]. by apply core_cr3. Qed.

Lemma on_km_cr3 f s : quiet (km s) (f (km s)) -> same_cr3 s (on_km f s).
Proof. apply quiet_cr3. Qed.

Lemma kprintk_cr3 f args s : same_cr3 s (kprintk f args s).
Proof. unfold same_cr3, kprintk, on_km. simpl. by rewrite kprint_con. Qed.

Lemma cleanup_cr3 i s s' : task_cleanup i s = Done s' -> same_cr3 s s'.
Proof.
  unfold task_cleanup. cbv zeta. set (s1 := if (_ : bool) then on_km _ _ else _).
  assert (H1 : cr3 (km s1) = cr3 (km s)) by (unfold s1; destruct (_ && _); [apply quiet_cr3, quiet_destroy|done]).
  clearbody s1. destruct (negb _).
  - intros (m & Hk & [= <-])%obind_Done. apply quiet_kfree, quiet_cr3 in Hk. unfold same_cr3. simpl in *. congruence.
  - by intros [= <-].
Qed.

Lemma reap_cr3 s s' : reap_zombies s = Done s' -> same_cr3 s s'.
Proof.
  unfold reap_zombies. set (r := for_range _ _ _ _). enough (H : forall x, r = Done x -> same_cr3 s x) by auto.
  unfold r. for_inv (fun (_ : Z) r => forall x, r = Done x -> same_cr3 s x); [lia|by intros x [= <-]|].
  intros i r' _ IH x (y & -> & H)%obind_Done. etransitivity; [by apply IH|].
  destruct (_ || _); [by injection H as <-|]. by apply (cleanup_cr3 i).
Qed.

Lemma create_cr3 f s r s' : kthread_create f s = Done (r, s') -> same_cr3 s s'.
Proof.
  unfold kthread_create. destruct f as [f|]; [|by intros [= _ <-]].
  intros (s1 & Hr & H)%obind_Done. etransitivity; [by apply reap_cr3|]. clear Hr.
  destruct (find_range _ _ _) as [i|]; [|by injection H as _ <-].
  apply obind_Done in H as ([st m] & Hk & H). apply core_kmalloc, core_cr3 in Hk.
  destruct (st =? NULL); [injection H as _ <-; exact Hk|].
  destruct (sched_prepare_kthread_stack _ _ _ _) as [sp m']. injection H as _ <-. exact Hk.
Qed.

Lemma upd_process_cr3 i f s : same_cr3 s (upd_process i f s).
Proof. done. Qed.

Lemma put_process_cr3 i p s : same_cr3 s (put_process i p s).
Proof. done. Qed.

Lemma spawn_fail_cr3 i s : same_cr3 s (spawn_fail i s).
Proof. unfold spawn_fail. destruct (negb _); [|done]. apply quiet_cr3, quiet_destroy. Qed.

Lemma spawn_rest_cr3 i s r s' : spawn_rest i s = Done (r, s') -> same_cr3 s s'.
Proof.
  unfold spawn_rest, call_km. pose proof (quiet_create (km s)) as Hc. destruct (vmm_create_address_space (km s)) as [space m].
  apply quiet_cr3 in Hc. simpl in Hc. cbv zeta. set (s1 := upd_process i (with_space space) (set_km m s)).
  assert (H1 : same_cr3 s s1) by exact Hc. clearbody s1. destruct (space =? 0).
  - intros [= _ <-]. etransitivity; [exact H1|apply spawn_fail_cr3].
  - intros ([tid s2] & Hy & H)%obind_Done. apply create_cr3 in Hy. destruct (tid <? 0).
    + injection H as _ <-. etransitivity; [exact H1|]. etransitivity; [exact Hy|apply spawn_fail_cr3].
    + injection H as _ <-. etransitivity; [exact H1|exact Hy].
Qed.

Lemma spawn_cr3 path s r s' : user_spawn path s = Done (r, s') -> same_cr3 s s'.
Proof.
  unfold user_spawn. destruct path as [chars|]; [|by intros [= _ <-]]. destruct (strlen _ _) as [len|]; [|done].
  destruct (_ || _); [by intros [= _ <-]|]. destruct (initramfs_find _ _ _ _ _); [|by intros [= _ <-]].
  assert (Ha : same_cr3 s (user_process_alloc s).2) by (unfold user_process_alloc; by destruct (find_range _ _ _)).
  destruct (user_process_alloc s) as [[i|] s1]; [|by intros [= _ <-]]. simpl in Ha.
  set (s2 := upd_process i (with_pid _) _). set (s3 := match _ with Some q => upd_process i _ s2 | None => s2 end).
  assert (H3 : same_cr3 s s3) by (unfold s3; by destruct (user_process_find_by_task_id _ _)). clearbody s3.
  intros H. etransitivity; [exact H3|]. exact (spawn_rest_cr3 i _ r s' H).
Qed.

Lemma free_pages_cr3 p s : same_cr3 s (user_process_free_pages p s).
Proof.
  unfold user_process_free_pages. destruct p as [i|]; [|done].
  set (s1 := for_range _ _ _ s). enough (H : same_cr3 s s1) by exact H. unfold s1.
  destruct (decide (0 <= page_count (get_process i s))); [|by rewrite for_range_nil by lia].
  for_inv (fun (_ : Z) x => same_cr3 s x); [lia|done|]. intros k x _ Hx. etransitivity; [exact Hx|].
  unfold free_user_page. cbv zeta. set (y := on_km _ x).
  assert (Hy : same_cr3 x y) by apply quiet_cr3, quiet_unmap. etransitivity; [exact Hy|]. apply quiet_cr3, quiet_free.
Qed.

Lemma exit_cr3 status s : same_cr3 s (user_exit_current status s).
Proof.
  unfold user_exit_current. destruct (user_process_find_by_task_id _ _) as [i|]; [|done]. cbv zeta.
  set (s1 := upd_process i (with_pstate _) _). assert (H1 : same_cr3 s s1) by done. clearbody s1.
  set (s2 := upd_process i (with_space 0) _).
  assert (H2 : same_cr3 s s2).
  { etransitivity; [exact H1|]. etransitivity; [apply (free_pages_cr3 (Some i))|]. apply upd_process_cr3. }
  clearbody s2.
  assert (H3 : same_cr3 s2 (user_process_orphan_children (Some i) s2)).
  { unfold user_process_orphan_children. for_inv (fun (_ : Z) x => same_cr3 s2 x); [lia|done|].
    intros k x _ Hx. etransitivity; [exact Hx|]. unfold orphan_child. destruct (_ || _); [done|]. by case_bool_decide. }
  etransitivity; [exact H2|]. etransitivity; [exact H3|]. destruct (user_process_find_by_pid _ _); [reflexivity|apply put_process_cr3].
Qed.

(** ** Who loads the directory of the current task *)

Section loaded.
Context {FA : FrameAllocator pmm_alloc_page pmm_free_page}.

(** The current task and its directory are as before. *)
Lemma loaded_same s s' :
  dir_loaded s -> same_cr3 s s' ->
  t_address_space (get_task (current_task (sc s')) s') = t_address_space (get_task (current_task (sc s)) s) -> dir_loaded s'.
Proof. unfold dir_loaded, same_cr3. congruence. Qed.

Lemma switched_loaded sp idx s s' : switched sp idx s s' -> 0 <= idx < 16 -> idx <> current_task (sc s) -> dir_loaded s'.
Proof.
  intros Hsw Hi Hne. unfold dir_loaded. rewrite (sd_km _ _ _ _ Hsw), (sd_cur _ _ _ _ Hsw), (sd_task _ _ _ _ Hsw idx Hi).
  rewrite decide_False, decide_True by congruence. done.
Qed.

Lemma yield_loaded E s o sp b s' :
  sched_inv E s o -> dir_loaded s -> sched_yield sp s = Done (b, s') -> dir_loaded s'.
Proof.
  intros [Hw Hr] Hl Hy. destruct (yield_cases E s o sp Hw (or_introl Hr)) as (s1 & o1 & Hre & Hor).
  pose proof (reaped_current _ _ _ _ _ _ Hre) as Hc1.
  destruct Hor as [(i & idx & Hn & Hy' & _ & Hsw)|[_ Hy']]; rewrite Hy' in Hy; injection Hy as <- <-.
  - apply (switched_loaded sp idx s1); [done|by eapply nt_range|]. rewrite Hc1. intros ->. pose proof (nt_state _ _ _ Hn). congruence.
  - destruct (reap_spec E s o Hw) as (s2 & o2 & Hrz & _). unfold sched_yield in Hy'. rewrite Hrz in Hy'. cbn [obind] in Hy'.
    assert (Hcr : same_cr3 s s2) by (by apply reap_cr3).
    destruct (find_range _ _ _); [done|].
    assert (Hkm : kprintk (ln "sched: no runnable tasks") [] s2 = kprintk (ln "sched: no runnable tasks") [] s1) by congruence.
    apply (loaded_same s); [done| |].
    + rewrite <- Hkm. etransitivity; [exact Hcr|apply kprintk_cr3].
    + change (t_address_space (get_task (current_task (sc s1)) s1) = t_address_space (get_task (current_task (sc s)) s)).
      rewrite Hc1, (reaped_keep _ _ _ _ _ _ _ Hre) by (apply Hw || by right). done.
Qed.

Lemma kexit_loaded E s o sp s' :
  sched_inv E s o -> current_task (sc s) <> 0 -> kthread_exit sp s = Done s' -> dir_loaded s'.
Proof.
  intros Hinv Hc0 Hy. destruct (kthread_exit_cases E s o sp Hinv Hc0) as (s1 & o1 & i & idx & Hre & Hn & Hy' & _ & Hsw).
  rewrite Hy' in Hy. injection Hy as <-. pose proof (nt_range _ _ _ Hn) as Hidx. pose proof (nt_state _ _ _ Hn) as Hst.
  apply (switched_loaded sp idx s1); [done|done|]. rewrite (reaped_current _ _ _ _ _ _ Hre). intros ->.
  change (current_task (sc (zombified s))) with (current_task (sc s)) in Hst.
  pose proof Hinv as [Hw _]. rewrite (zombified_task E s o), decide_True in Hst by (done || apply Hw). done.
Qed.
End loaded.
