(* ===== verification/System.v ===== *)
(** * The kernel as a state machine

    The tasks of the machine as they interleave: the kernel's own task 0, the
    threads that load processes, and the processes, which run arbitrary user
    code, store where they like and call the kernel with arbitrary registers.
    A state is the kernel's state together with the place where each task that
    is not running goes on.  The scheduler is cooperative: only the current
    task moves, and other tasks run only when it gives up the processor. *)

From S2P Require Import Prelude Memory Tty Printk Keyboard Machine PmmInit FrameAlloc Pmm Vmm VmmSpec VmmProof VmmTheorems.
From S2P Require Import Kmalloc KmallocProof Initramfs Sharing Kmem Kernel Sched SchedProof SchedTheorems User UserMem UserExec UserInv UserProof UserSpawn UserRun UserExit.
From S2P Require Import Asm Entry Syscall Loaded.

(** ** States and steps *)

Record sys := mkSys {
  sk : ks;
  konts : gmap Z kont;           (** by task id *)
}.

(** A thread that never ran starts in its trampoline. *)
Definition kont_of (S : sys) (tid : Z) : kont := default KStart (konts S !! tid).
Definition cur_id (S : sys) : Z := sched_current_task_id (sk S).

Inductive event :=
  | EvThread (eflags : Z)                            (** a new thread runs *)
  | EvStore (v b : Z)                                (** user code stores a byte *)
  | EvCall (kernel_path : list Z) (frame : syscall_frame)   (** user code executes int 0x80 *)
  | EvResume                                         (** [user_wait] goes on *)
  | EvKey (c : Z)                                    (** a key for the process in the foreground *)
  | EvKernelYield                                    (** task 0 yields *)
  | EvKernelSpawn (path : Z -> Z).                   (** task 0 spawns *)

Inductive sys_out :=
  | Running (S : sys)
  | Faulted (addr : Z) (s : ks).                     (** halted in the exception handler *)

(** A store of user code: the page must be present, writable and the user's.
    The kernel half is mapped for the supervisor alone ([vmm_init_direct_map]). *)
Definition user_store (v b : Z) (s : ks) : ks + Z :=
  if VMM_KERNEL_VIRTUAL_BASE <=? v then inr v
  else match walk (mem (km s)) (cr3 (km s) / 4096) v with
  | Some (p, true, true) => inl (on_km (fun m => set_mem (store8 (mem m) p b) m) s)
  | _ => inr v
  end.

(** What a system call means for the task [tid] that made it. *)
Definition after_call (tid : Z) (K : gmap Z kont) (r : sys_result) : sys_out :=
  match r with
  | SysRet eax s => Running (mkSys s (<[tid := KUser eax]> K))
  | SysYield k s => Running (mkSys s (<[tid := k]> K))
  | SysGone s => Running (mkSys s (delete tid K))
  | SysFault a s => Faulted a s
  end.

(** [None]: the event cannot happen now. *)
Definition sys_step (sp : Z) (e : event) (S : sys) : option (outcome sys_out) :=
  let s := sk S in
  let tid := cur_id S in
  if current_task (sc s) =? 0 then
    match e with
    | EvKernelYield => Some (let* (_, s) := sched_yield sp s in Done (Running (mkSys s (konts S))))
    | EvKernelSpawn path => Some (let* (_, s) := user_spawn (Some path) s in Done (Running (mkSys s (konts S))))
    | EvKey c => if user_has_input_focus s
                 then Some (Done (Running (mkSys (set_kb (keyboard_buffer_push c (kb s)) s) (konts S)))) else None
    | _ => None
    end
  else
    match e, kont_of S tid with
    | EvThread eflags, KStart =>
      Some (let* (f, s) := kthread_trampoline_run sp eflags s in
            Done (Running (mkSys s (match f with Some _ => <[tid := KUser 0]> (konts S) | None => delete tid (konts S) end))))
    | EvStore v b, KUser _ =>
      Some (Done (match user_store v b s with
                  | inl s => Running (mkSys s (konts S))
                  | inr a => Faulted a s
                  end))
    | EvCall kernel_path frame, KUser _ =>
      Some (let* r := syscall_dispatch sp kernel_path frame s in Done (after_call tid (konts S) r))
    | EvResume, KWait caller n =>
      Some (let* r := wait_round sp caller n s in Done (after_call tid (konts S) r))
    | EvKey c, _ => if user_has_input_focus s
                 then Some (Done (Running (mkSys (set_kb (keyboard_buffer_push c (kb s)) s) (konts S)))) else None
    | _, _ => None
    end.

(** ** The invariant *)

(** What the continuation of a live thread says about its process. *)
Definition task_runs (S : sys) (tid : Z) : Prop :=
  let process st := exists i, 0 <= i < 16 /\ state (get_process i (sk S)) = st /\ task_id (get_process i (sk S)) = tid in
  match kont_of S tid with
  | KStart => process USER_PROCESS_CREATED
  | KUser _ => process USER_PROCESS_RUNNING
  | KWait caller _ => 0 <= caller < 16 /\ state (get_process caller (sk S)) = USER_PROCESS_RUNNING /\
      task_id (get_process caller (sk S)) = tid
  end.

Section system.
Context {FA : FrameAllocator pmm_alloc_page pmm_free_page}.

Record sys_ok (M : gset Z) (E : list Z) (o : own) (S : sys) : Prop := {
  so_base : base M E (sk S) o;
  so_loaded : dir_loaded (sk S);
  so_tasks j : 0 < j < 16 -> alive (get_task j (sk S)) -> task_runs S (t_id (get_task j (sk S)));
  so_konts tid k : konts S !! tid = Some k -> tid < next_task_id (sc (sk S));
}.

(** ** What a step of the current task does to the others *)

(** A process in the table has an address space. *)
Abbreviation active p := (state p = USER_PROCESS_CREATED \/ state p = USER_PROCESS_RUNNING).

(** The record of another process, which may have lost its parent. *)
Definition kin (p p' : user_process) : Prop := p' = p \/ p' = with_parent USER_PROCESS_NO_PARENT p.

Definition others_kept (x : Z) (s s' : ks) : Prop :=
  forall i, 0 <= i < 16 -> active (get_process i s) -> task_id (get_process i s) <> x -> kin (get_process i s) (get_process i s').

Lemma kin_same p p' : kin p p' -> state p' = state p /\ task_id p' = task_id p /\ pid p' = pid p /\
  address_space p' = address_space p /\ pages p' = pages p /\ page_count p' = page_count p.
Proof. by intros [->| ->]. Qed.

Lemma others_refl x s s' : (forall i, 0 <= i < 16 -> get_process i s' = get_process i s) -> others_kept x s s'.
Proof. intros H i Hi _ _. left. by apply H. Qed.

Lemma others_us x s s' : us s' = us s -> others_kept x s s'.
Proof. intros H. apply others_refl. intros i _. unfold get_process. by rewrite H. Qed.

Lemma others_trans x s1 s2 s3 : others_kept x s1 s2 -> others_kept x s2 s3 -> others_kept x s1 s3.
Proof.
  intros H1 H2 i Hi Ha Hx. pose proof (H1 i Hi Ha Hx) as K1. destruct (kin_same _ _ K1) as (Es & Et & _).
  pose proof (H2 i Hi ltac:(by rewrite Es) ltac:(by rewrite Et)) as K2. unfold kin in *.
  destruct K1 as [E1|E1], K2 as [E2|E2]; rewrite E2, E1; auto.
Qed.

(** The tasks after a step of the current one. *)
Lemma tasks_step M E o S s' K' :
  sys_ok M E o S -> tasks_kept (fun x => x = cur_id S) (sk S) s' -> others_kept (cur_id S) (sk S) s' ->
  (forall tid, tid <> cur_id S -> K' !! tid = konts S !! tid) ->
  (forall j, 0 < j < 16 -> alive (get_task j s') -> t_id (get_task j s') = cur_id S -> task_runs (mkSys s' K') (cur_id S)) ->
  (forall j, 0 < j < 16 -> alive (get_task j s') -> next_task_id (sc (sk S)) <= t_id (get_task j s') ->
    exists i, 0 <= i < 16 /\ state (get_process i s') = USER_PROCESS_CREATED /\ task_id (get_process i s') = t_id (get_task j s')) ->
  forall j, 0 < j < 16 -> alive (get_task j s') -> task_runs (mkSys s' K') (t_id (get_task j s')).
Proof.
  intros [_ _ Htasks Hkonts] (_ & _ & Hback) Hoth HK Hcur Hnew j Hj Hal.
  destruct (decide (t_id (get_task j s') = cur_id S)) as [E0|Hne]; [rewrite E0; by apply (Hcur j)|].
  destruct (Hback j ltac:(lia) Hal) as [Hge|(Hal0 & Hid & _)].
  - unfold task_runs, kont_of. cbn [konts sk]. rewrite HK by done. destruct (konts S !! _) as [k|] eqn:Hk.
    + apply Hkonts in Hk. lia.
    + by apply Hnew.
  - specialize (Htasks j Hj Hal0). rewrite Hid in *. unfold task_runs, kont_of in *. cbn [konts sk]. rewrite HK by done.
    assert (Hkeep : forall i st, 0 <= i < 16 -> st = USER_PROCESS_CREATED \/ st = USER_PROCESS_RUNNING ->
      state (get_process i (sk S)) = st -> task_id (get_process i (sk S)) = t_id (get_task j (sk S)) ->
      state (get_process i s') = st /\ task_id (get_process i s') = t_id (get_task j (sk S))).
    { intros i st Hi Hst Hs Ht. destruct (kin_same _ _ (Hoth i Hi ltac:(destruct Hst; [left|right]; congruence) ltac:(congruence))) as (-> & -> & _). done. }
    destruct (default KStart _) as [| |c n].
    + destruct Htasks as (i & Hi & Hs & Ht). exists i. split; [done|]. apply Hkeep; auto.
    + destruct Htasks as (i & Hi & Hs & Ht). exists i. split; [done|]. apply Hkeep; auto.
    + destruct Htasks as (Hi & Hs & Ht). split; [done|]. apply Hkeep; auto.
Qed.

(** The frames of the current process. *)
Definition mine (S : sys) (q : Z) : Prop :=
  exists i, 0 <= i < 16 /\ ~ is_free (get_process i (sk S)) /\ task_id (get_process i (sk S)) = cur_id S /\
    q ∈ proc_frames (get_process i (sk S)).

Definition step_ok (M : gset Z) (o : own) (S S' : sys) : Prop :=
  exists E' o', sys_ok M E' o' S' /\ keeps (mine S) (sk S) o (sk S') o' /\ others_kept (cur_id S) (sk S) (sk S') /\
    heap_grows o (km (sk S')) o'.

Lemma cur_id_bound M E o S : sys_ok M E o S -> 0 <= cur_id S < next_task_id (sc (sk S)).
Proof.
  intros [[[Hw Hr] Hids _ _] _ _ _]. unfold cur_id, sched_current_task_id. pose proof (sw_cur _ _ _ Hw) as Hc.
  pose proof (id_next _ Hids). destruct (decide (current_task (sc (sk S)) = 0)) as [->|Hne]; [rewrite (id_zero _ Hids); lia|].
  pose proof (id_range _ Hids (current_task (sc (sk S))) ltac:(lia) ltac:(congruence)). lia.
Qed.

Lemma step_intro M E o S E' o' s' K' :
  sys_ok M E o S -> base M E' s' o' -> dir_loaded s' ->
  tasks_kept (fun x => x = cur_id S) (sk S) s' -> others_kept (cur_id S) (sk S) s' -> keeps (mine S) (sk S) o s' o' -> heap_grows o (km s') o' ->
  (forall tid, tid <> cur_id S -> K' !! tid = konts S !! tid) ->
  (forall j, 0 < j < 16 -> alive (get_task j s') -> t_id (get_task j s') = cur_id S -> task_runs (mkSys s' K') (cur_id S)) ->
  (forall j, 0 < j < 16 -> alive (get_task j s') -> next_task_id (sc (sk S)) <= t_id (get_task j s') ->
    exists i, 0 <= i < 16 /\ state (get_process i s') = USER_PROCESS_CREATED /\ task_id (get_process i s') = t_id (get_task j s')) ->
  step_ok M o S (mkSys s' K').
Proof.
  intros Hok Hb Hl Htk Hoth Hk Hg HK Hcur Hnew. exists E', o'. split; [|done]. split; [done|done| |].
  - by apply (tasks_step M E o S).
  - cbn [konts sk]. intros tid k Hin. pose proof (cur_id_bound _ _ _ _ Hok) as Hc. destruct Htk as (Hn & _).
    destruct (decide (tid = cur_id S)) as [->|Hne]; [lia|]. rewrite HK in Hin by done. apply (so_konts _ _ _ _ Hok) in Hin. lia.
Qed.

(** The common case: no new thread. *)
Lemma no_new_tasks M E' o' s' n j :
  base M E' s' o' -> next_task_id (sc s') = n -> 0 < j < 16 -> alive (get_task j s') -> n <= t_id (get_task j s') -> False.
Proof.
  intros [_ Hids _ _] <- Hj Hal Hge. pose proof (id_range _ Hids j Hj ltac:(destruct Hal; congruence)). lia.
Qed.

(** ** The current process *)

Lemma current_runs M E o S : sys_ok M E o S -> current_task (sc (sk S)) <> 0 -> task_runs S (cur_id S).
Proof.
  intros [[[Hw Hr] _ _ _] _ Ht _] Hc. pose proof (sw_cur _ _ _ Hw). apply Ht; [lia|by right].
Qed.

Lemma active_find M E s o i :
  base M E s o -> 0 <= i < 16 -> active (get_process i s) -> task_id (get_process i s) = sched_current_task_id s ->
  user_process_find_by_task_id (sched_current_task_id s) s = Some i.
Proof.
  intros [_ _ Hu _] Hi Ha Ht. rewrite <- Ht. apply (find_tid_unique M E (o_pages o)); [done|done|]. destruct Ha; congruence.
Qed.

Lemma user_current M E o S :
  sys_ok M E o S -> current_task (sc (sk S)) <> 0 -> kont_of S (cur_id S) <> KStart ->
  exists i, 0 <= i < 16 /\ state (get_process i (sk S)) = USER_PROCESS_RUNNING /\ task_id (get_process i (sk S)) = cur_id S /\
    user_process_find_by_task_id (sched_current_task_id (sk S)) (sk S) = Some i.
Proof.
  intros Hok Hc Hk. pose proof (current_runs _ _ _ _ Hok Hc) as Hr. unfold task_runs in Hr.
  assert (Hi : exists i, 0 <= i < 16 /\ state (get_process i (sk S)) = USER_PROCESS_RUNNING /\ task_id (get_process i (sk S)) = cur_id S).
  { destruct (kont_of S (cur_id S)) as [| |c n]; [done|done|by exists c]. }
  destruct Hi as (i & Hi & Hs & Ht). exists i. do 3 (split; [done|]).
  apply (active_find M E (sk S) o); [apply Hok|done|by right|done].
Qed.

(** ** Task 0 *)

Lemma zero_id M E o S : sys_ok M E o S -> current_task (sc (sk S)) = 0 -> cur_id S = 0.
Proof. intros [[_ Hids _ _] _ _ _] Hc. unfold cur_id, sched_current_task_id. rewrite Hc. apply Hids. Qed.

(** No thread has the id of task 0. *)
Lemma zero_alone M E' o' s' j : base M E' s' o' -> 0 < j < 16 -> alive (get_task j s') -> t_id (get_task j s') = 0 -> False.
Proof. intros [_ Hids _ _] Hj Hal H0. pose proof (id_range _ Hids j Hj ltac:(destruct Hal; congruence)). lia. Qed.

Lemma step_kernel_yield M E o S sp :
  sys_ok M E o S -> current_task (sc (sk S)) = 0 ->
  exists b s', sched_yield sp (sk S) = Done (b, s') /\ step_ok M o S (mkSys s' (konts S)).
Proof.
  intros Hok Hc. pose proof Hok as [Hb Hl _ _]. pose proof (zero_id _ _ _ _ Hok Hc) as Hz.
  destruct (yield_base M E (sk S) o sp Hb) as (b & s' & o' & Hy & Hb' & Hk & Hus & Htk & Hn & _).
  exists b, s'. split; [done|]. apply (step_intro M E o S E o'); try done.
  - eapply yield_loaded; [apply Hb|done|done].
  - eapply tasks_kept_mono; [|exact Htk]. intros ? [].
  - by apply others_us.
  - eapply keeps_mono; [apply Hk|intros ? []].
  - apply heap_grows_same, Hk.
  - intros j Hj Hal. rewrite Hz. intros H0. by destruct (zero_alone M E o' s' j Hb' Hj Hal H0).
  - intros j Hj Hal Hge. by destruct (no_new_tasks M E o' s' _ j Hb' Hn Hj Hal Hge).
Qed.

(** A spawn by anybody, as a step of the system. *)
Lemma step_spawn M E o S chars K' :
  sys_ok M E o S -> may_spawn (sk S) -> next_pid (us (sk S)) < 2147483647 -> next_task_id (sc (sk S)) < 2147483647 ->
  strlen PATH_FUEL chars <> None -> (forall tid, tid <> cur_id S -> K' !! tid = konts S !! tid) ->
  (forall s', (forall x, others_kept x (sk S) s') -> forall j, 0 < j < 16 -> alive (get_task j s') -> t_id (get_task j s') = cur_id S ->
    task_runs (mkSys s' K') (cur_id S) \/ cur_id S = 0) ->
  exists r s', user_spawn (Some chars) (sk S) = Done (r, s') /\ step_ok M o S (mkSys s' K').
Proof.
  intros Hok Hmay Hnp Hnt Hstr HK Hcur. pose proof Hok as [Hb Hl _ _].
  destruct (spawn_cases M E (sk S) o chars Hb Hnp Hnt Hstr Hmay) as (r & s' & o' & Hy & [Hk Hg] & Htk & Hid & Hor).
  assert (Hoth : forall x, others_kept x (sk S) s').
  { intros x i Hi Ha _. destruct Hor as [(_ & _ & Hps & _)|(i' & d & len & _ & _ & _ & _ & _ & (Hi' & Hf & _ & _ & Hget))].
    - left. unfold get_process. by rewrite Hps.
    - left. rewrite Hget by done. rewrite decide_False; [done|]. intros ->. destruct Ha; congruence. }
  assert (HbE : exists E', base M E' s' o') by (destruct Hor as [(_ & ? & _)|(? & d & ? & _ & _ & ? & _)]; eauto).
  destruct HbE as [E' Hb']. exists r, s'. split; [done|]. apply (step_intro M E o S E' o'); try done.
  - apply (loaded_same (sk S)); [done|by eapply spawn_cr3|].
    pose proof Hb' as [[Hw' Hr'] Hids' _ _]. pose proof Hb as [[Hw Hr] Hids _ _].
    destruct Htk as (_ & Hfwd & _). pose proof (sw_cur _ _ _ Hw) as Hc.
    destruct (Hfwd (current_task (sc (sk S))) Hc ltac:(by right) ltac:(intros [])) as (Hal & Hidc & Hsp & _).
    assert (Hcc : current_task (sc s') = current_task (sc (sk S))).
    { unfold sched_current_task_id in Hid. destruct (decide (current_task (sc (sk S)) = 0)) as [E0|E0].
      - rewrite E0 in *. rewrite (id_zero _ Hids) in Hid. pose proof (sw_cur _ _ _ Hw') as Hc'.
        destruct (decide (current_task (sc s') = 0)) as [|Hne]; [done|].
        pose proof (id_range _ Hids' (current_task (sc s')) ltac:(lia) ltac:(congruence)). lia.
      - symmetry. apply (current_of E' s' o'); [by split|done|lia|destruct Hal; congruence|]. unfold sched_current_task_id. congruence. }
    by rewrite Hcc, Hsp.
  - eapply tasks_kept_mono; [|exact Htk]. intros ? [].
  - eapply keeps_mono; [exact Hk|intros ? []].
  - intros j Hj Hal H0. destruct (Hcur s' Hoth j Hj Hal H0) as [?|Hz]; [done|].
    rewrite Hz in H0. by destruct (zero_alone M E' o' s' j Hb' Hj Hal H0).
  - intros j Hj Hal Hge. destruct Hor as [(_ & _ & _ & Hn & _)|(i' & d & len & Hn & -> & _ & _ & _ & (Hi' & _ & _ & _ & Hget))].
    + by destruct (no_new_tasks M E' o' s' _ j Hb' Hn Hj Hal Hge).
    + pose proof Hb' as [_ Hids' _ _]. pose proof (id_range _ Hids' j Hj ltac:(destruct Hal; congruence)).
      exists i'. rewrite Hget, decide_True by done. split; [done|]. split; [done|]. simpl. lia.
Qed.

Lemma kernel_may_spawn M E o S : sys_ok M E o S -> current_task (sc (sk S)) = 0 -> may_spawn (sk S).
Proof.
  intros Hok Hc q Hq. exfalso. destruct (current_process M E (sk S) o q (so_base _ _ _ _ Hok) Hq) as (_ & _ & _ & H). done.
Qed.

(** ** Threads *)

Lemma get_put_other M E P s i p j :
  users_ok M E P s -> 0 <= i < 16 -> 0 <= j < 16 -> j <> i -> get_process j (put_process i p s) = get_process j s.
Proof. intros Hu Hi Hj Hne. rewrite get_put_process, decide_False by (rewrite ?(uo_len _ _ _ _ Hu); lia). done. Qed.

Lemma get_put_same M E P s i p :
  users_ok M E P s -> 0 <= i < 16 -> get_process i (put_process i p s) = p.
Proof. intros Hu Hi. rewrite get_put_process, decide_True by (rewrite ?(uo_len _ _ _ _ Hu); done || lia). done. Qed.

(** A step in which only the record of the current process changed. *)
Lemma others_put M E P x s i p s' :
  users_ok M E P s -> 0 <= i < 16 -> task_id (get_process i s) = x -> us s' = us (put_process i p s) -> others_kept x s s'.
Proof.
  intros Hu Hi Hx Hus k Hk Ha Hne. left. assert (Hki : k <> i) by (by intros ->).
  rewrite <- (get_put_other M E P s i p k Hu Hi Hk Hki). unfold get_process. by rewrite Hus.
Qed.

(** A thread that is gone. *)
Lemma step_gone M E o S E1 o1 s1 sp :
  sys_ok M E o S -> base M E1 s1 o1 -> current_task (sc s1) = current_task (sc (sk S)) -> current_task (sc (sk S)) <> 0 ->
  sched_current_task_id s1 = cur_id S -> next_task_id (sc s1) = next_task_id (sc (sk S)) ->
  tasks_kept (fun x => x = cur_id S) (sk S) s1 -> others_kept (cur_id S) (sk S) s1 -> steady (mine S) (sk S) o s1 o1 ->
  (forall i, 0 <= i < 16 -> active (get_process i s1) -> task_id (get_process i s1) <> cur_id S) ->
  exists s', kthread_exit sp s1 = Done s' /\ step_ok M o S (mkSys s' (delete (cur_id S) (konts S))).
Proof.
  intros Hok Hb Hc Hc0 Hid Hn Htk Hoth Hk Hno.
  destruct (exit_base M E1 s1 o1 sp Hb) as (s' & o' & Hy & Hb' & Hk' & Hus & Htk' & Hn' & Hdead & _); [congruence| |].
  { intros i Hi Ha. rewrite Hid. by apply Hno. }
  exists s'. split; [done|]. apply (step_intro M E o S E1 o'); try done.
  - eapply kexit_loaded; [apply Hb|congruence|done].
  - rewrite Hid in Htk'. by eapply tasks_kept_trans.
  - eapply others_trans; [exact Hoth|]. by apply others_us.
  - eapply keeps_trans; [apply Hk|]. eapply keeps_mono; [apply Hk'|intros ? []].
  - apply heap_grows_same. rewrite (st_heap _ _ _ _ _ Hk'). apply Hk.
  - intros tid Hne. by rewrite lookup_delete_ne.
  - intros j Hj Hal Hidj. exfalso. rewrite Hc in Hdead. apply Hdead.
    replace (current_task (sc (sk S))) with j; [done|]. rewrite <- Hc.
    destruct Htk' as (_ & _ & Hback). destruct (Hback j ltac:(lia) Hal) as [Hge|(Hal1 & Hid1 & _)].
    { pose proof (cur_id_bound _ _ _ _ Hok). lia. }
    apply (current_of E1 s1 o1); [apply Hb|apply Hb|done|destruct Hal1; congruence|congruence].
  - intros j Hj Hal Hge. by destruct (no_new_tasks M E1 o' s' (next_task_id (sc (sk S))) j Hb' ltac:(congruence) Hj Hal Hge).
Qed.

Lemma step_thread M E o S sp eflags :
  sys_ok M E o S -> current_task (sc (sk S)) <> 0 -> kont_of S (cur_id S) = KStart ->
  exists f s', kthread_trampoline_run sp eflags (sk S) = Done (f, s') /\
    step_ok M o S (mkSys s' (match f with Some _ => <[cur_id S := KUser 0]> (konts S) | None => delete (cur_id S) (konts S) end)).
Proof.
  intros Hok Hc Hk. pose proof Hok as [Hb Hl _ _]. pose proof (current_runs _ _ _ _ Hok Hc) as Hr. unfold task_runs in Hr. rewrite Hk in Hr.
  destruct Hr as (i & Hi & Hs & Ht). pose proof Hb as [Hinv Hids Hu _].
  pose proof (active_find M E (sk S) o i Hb Hi (or_introl Hs) Ht) as Hf.
  assert (Hent : t_entry (get_task (current_task (sc (sk S))) (sk S)) = Some user_exec_task_fn).
  { pose proof (uo_proc _ _ _ _ Hu i Hi) as Hp. unfold proc_ok in Hp. rewrite Hs in Hp.
    destruct Hp as (_ & _ & _ & _ & _ & j & Hj & Hjid & Hal & _ & He).
    rewrite <- (current_of E (sk S) o j Hinv Hids Hj); [done|destruct Hal; congruence|exact (eq_trans Hjid Ht)]. }
  unfold kthread_trampoline_run. rewrite Hent.
  pose proof (exec_cases M E (sk S) o i eflags Hb Hf Hs) as Hex. cbv zeta in Hex.
  destruct (user_exec_task eflags (sk S)) as [r s1].
  destruct Hex as (d & E' & o' & HE & Hb1 & Hk1 & Htk1 & Hc1 & Hn1 & Hid1 & Hor).
  assert (Hoth : others_kept (cur_id S) (sk S) s1).
  { destruct Hor as [(_ & Hus & _)|(c & t & im & sz & cs & eo & Hrun & _)].
    - by apply (others_put M E (o_pages o) _ (sk S) i zero_process).
    - apply (others_put M E (o_pages o) _ (sk S) i _ s1 Hu Hi Ht (rn_record _ _ _ _ _ _ _ _ _ _ _ Hrun)). }
  destruct Hor as [(-> & Hus & _)|(c & t & im & sz & cs & eo & Hrun & ->)].
  - destruct (step_gone M E o S E' o' s1 sp Hok Hb1 Hc1 Hc Hid1 Hn1 Htk1 Hoth) as (s' & Hy & Hst).
    + eapply steady_mono; [exact Hk1|intros ? []].
    + intros k Hki Ha. destruct (decide (k = i)) as [->|Hne].
      * exfalso. assert (Hz : get_process i s1 = zero_process).
        { rewrite <- (get_put_same M E (o_pages o) (sk S) i zero_process Hu Hi). unfold get_process. by rewrite Hus. }
        rewrite Hz in Ha. by destruct Ha.
      * assert (Hg : get_process k s1 = get_process k (sk S)).
        { rewrite <- (get_put_other M E (o_pages o) (sk S) i zero_process k Hu Hi Hki Hne). unfold get_process. by rewrite Hus. }
        rewrite Hg in *. intros E0. apply Hne. apply (uo_tid_inj _ _ _ _ Hu); [done|done|destruct Ha; congruence|congruence|congruence].
    + exists None, s'. rewrite Hy. done.
  - exists (Some (mkIret (USER_INIT_CODE_ADDR + eo) 0x1b (Z.lor eflags 0x200) 0x800000 0x23)), s1. split; [done|].
    assert (Hgi : get_process i s1 = with_pstate USER_PROCESS_RUNNING (loaded_process c t eo (get_process i (sk S)))).
    { pose proof (rn_record _ _ _ _ _ _ _ _ _ _ _ Hrun) as Hus. set (p := with_pstate _ _) in *.
      rewrite <- (get_put_same M E (o_pages o) (sk S) i p Hu Hi). unfold get_process. by rewrite Hus. }
    apply (step_intro M E o S E' o'); try done.
    + unfold dir_loaded. rewrite (rn_loaded _ _ _ _ _ _ _ _ _ _ _ Hrun). pose proof Hb1 as [Hinv1 Hids1 Hu1 _].
      pose proof (uo_proc _ _ _ _ Hu1 i Hi) as Hp. unfold proc_ok in Hp. rewrite Hgi in Hp. cbn [state with_pstate] in Hp.
      destruct Hp as (d' & c' & t' & _ & _ & _ & _ & _ & j & Hj & Hjid & Hal & Hsp).
      rewrite <- (current_of E' s1 o' j Hinv1 Hids1 Hj); [|destruct Hal; congruence|].
      * rewrite Hsp. symmetry. exact (rn_space _ _ _ _ _ _ _ _ _ _ _ Hrun).
      * rewrite Hjid, Hid1. exact Ht.
    + eapply keeps_mono; [apply Hk1|intros ? []].
    + apply heap_grows_same, Hk1.
    + intros tid Hne. by rewrite lookup_insert_ne.
    + intros j Hj Hal Hidj. unfold task_runs, kont_of. cbn [konts sk]. rewrite lookup_insert_eq. simpl. exists i.
      rewrite Hgi. done.
    + intros j Hj Hal Hge. by destruct (no_new_tasks M E' o' s1 _ j Hb1 Hn1 Hj Hal Hge).
Qed.

(** ** Processes *)

(** The directory that is loaded while a process runs shows its two pages. *)
Lemma current_map M E o S i :
  sys_ok M E o S -> 0 <= i < 16 -> state (get_process i (sk S)) = USER_PROCESS_RUNNING ->
  task_id (get_process i (sk S)) = cur_id S ->
  exists d c t, cr3 (km (sk S)) / 4096 = d /\ proc_frames (get_process i (sk S)) = [c; t] /\
    user_map (mem (km (sk S))) d c t /\ t ∈ o_pages o /\ 0 < t.
Proof.
  intros Hok Hi Hs Ht. pose proof Hok as [Hb Hl _ _]. pose proof Hb as [Hinv Hids Hu _]. pose proof Hinv as [Hw _].
  destruct (running_pages M E (sk S) o i Hb Hi Hs) as (d & c & t & Ha & _ & Hfr & _ & Hmap & Hpok). exists d, c, t.
  pose proof (uo_proc _ _ _ _ Hu i Hi) as Hp. unfold proc_ok in Hp. rewrite Hs in Hp.
  destruct Hp as (_ & _ & _ & _ & _ & _ & _ & _ & j & Hj & Hjid & Hal & Hsp).
  assert (j = current_task (sc (sk S))) as ->.
  { apply (current_of E (sk S) o); [done|done|done|destruct Hal; congruence|exact (eq_trans Hjid Ht)]. }
  assert (Htp : t ∈ o_pages o).
  { rewrite (uo_pages _ _ _ _ Hu). apply elem_of_union_r, elem_of_list_to_set, list_elem_of_bind. exists (get_process i (sk S)).
    split; [rewrite Hfr; apply elem_of_cons; right; by apply list_elem_of_singleton|].
    eapply list_elem_of_lookup_2, get_process_lookup. rewrite (uo_len _ _ _ _ Hu). lia. }
  split; [unfold dir_loaded in Hl; rewrite Hl, Hsp, Ha; by apply Z.div_mul|]. do 3 (split; [done|]).
  destruct (sw_mem _ _ _ Hw) as [bs Hkm]. apply (held_range _ _ (kb_user _ _ _ Hkm t Htp)).
Qed.

(** The process goes on in user mode, and only the devices have changed. *)
Lemma step_stay M E o S i s' eax :
  sys_ok M E o S -> 0 <= i < 16 -> state (get_process i (sk S)) = USER_PROCESS_RUNNING ->
  task_id (get_process i (sk S)) = cur_id S ->
  base M E s' o -> keeps (mine S) (sk S) o s' o -> sc s' = sc (sk S) -> us s' = us (sk S) -> same_cr3 (sk S) s' ->
  step_ok M o S (mkSys s' (<[cur_id S := KUser eax]> (konts S))).
Proof.
  intros Hok Hi Hs Ht Hb Hk Hsc Hus Hcr. apply (step_intro M E o S E o); try done.
  - apply (loaded_same (sk S)); [apply (so_loaded _ _ _ _ Hok)|done|]. unfold get_task. by rewrite Hsc.
  - by apply tasks_kept_eq.
  - by apply others_us.
  - by apply heap_grows_same.
  - intros tid Hne. by rewrite lookup_insert_ne.
  - intros j Hj Hal Hid. unfold task_runs, kont_of. cbn [konts sk]. rewrite lookup_insert_eq. simpl. exists i.
    unfold get_process in *. by rewrite Hus.
  - intros j Hj Hal Hge. rewrite <- Hsc in Hge. by destruct (no_new_tasks M E o s' _ j Hb eq_refl Hj Hal Hge).
Qed.

(** Where a fault can be: not in the stack page of the process. *)
Definition out_ok (M : gset Z) (o : own) (S : sys) (out : sys_out) : Prop :=
  match out with
  | Running S' => step_ok M o S S'
  | Faulted a _ => a / 4096 <> USER_INIT_STACK_ADDR / 4096
  end.

Lemma user_byte_mapped M E o S i s a :
  sys_ok M E o S -> 0 <= i < 16 -> state (get_process i (sk S)) = USER_PROCESS_RUNNING ->
  task_id (get_process i (sk S)) = cur_id S -> mem (km s) = mem (km (sk S)) -> cr3 (km s) = cr3 (km (sk S)) ->
  user_byte s a = None -> a / 4096 <> USER_INIT_STACK_ADDR / 4096.
Proof.
  intros Hok Hi Hs Ht Hm Hc Hn E0. destruct (current_map M E o S i Hok Hi Hs Ht) as (d & c & t & Hd & _ & Hmap & _).
  unfold user_byte in Hn. rewrite Hm, Hc, Hd in Hn. rewrite Hmap in Hn by (Z.div_mod_to_equations; lia).
  rewrite E0 in Hn. by case_if_in Hn.
Qed.

Section process.
(** The current process, in user mode. *)
Context (M : gset Z) (E : list Z) (o : own) (S : sys) (i : Z).
Context (Hok : sys_ok M E o S) (Hc : current_task (sc (sk S)) <> 0) (Hi : 0 <= i < 16).
Context (Hs : state (get_process i (sk S)) = USER_PROCESS_RUNNING) (Ht : task_id (get_process i (sk S)) = cur_id S).
Context (Hf : user_process_find_by_task_id (sched_current_task_id (sk S)) (sk S) = Some i).

Lemma kont_insert e : kont_of S (cur_id S) = KUser e -> <[cur_id S := KUser e]> (konts S) = konts S.
Proof. unfold kont_of. intros H. apply insert_id. destruct (konts S !! cur_id S) as [k|]; simpl in H; congruence. Qed.

Lemma my_frame q : q ∈ proc_frames (get_process i (sk S)) -> mine S q.
Proof. intros Hq. exists i. split; [exact Hi|]. split; [rewrite Hs; discriminate|done]. Qed.

Lemma step_store v b e :
  kont_of S (cur_id S) = KUser e -> 0 <= v ->
  out_ok M o S (match user_store v b (sk S) with inl s' => Running (mkSys s' (konts S)) | inr a => Faulted a (sk S) end).
Proof.
  intros Hk Hv. destruct (current_map M E o S i Hok Hi Hs Ht) as (d & c & t & Hd & Hfr & Hmap & Htp & Htr).
  unfold user_store. destruct (Z.leb_spec VMM_KERNEL_VIRTUAL_BASE v) as [Hhi|Hlo]; [simpl; Z.div_mod_to_equations; lia|].
  rewrite Hd, Hmap by lia. destruct (Z.eqb_spec (v / 4096) (USER_INIT_CODE_ADDR / 4096)) as [E1|E1].
  { simpl. rewrite E1. done. }
  destruct (Z.eqb_spec (v / 4096) (USER_INIT_STACK_ADDR / 4096)) as [E2|E2]; [|done].
  set (m := set_mem (store8 (mem (km (sk S))) (t * 4096 + v mod 4096) b) (km (sk S))).
  pose proof (so_base _ _ _ _ Hok) as Hb. pose proof Hb as [[Hw Hr] Hids Hu Hm].
  assert (Hst : kstep (fun q => q = t) none (km (sk S)) o m o).
  { apply kmem_write_page; [apply Hw|done|]. apply only_changes_store8. Z.div_mod_to_equations; lia. }
  rewrite <- (kont_insert e Hk). apply (step_stay M E o S i); try done.
  - split; [split; [by apply wf_km; [|apply Hst..]|done]|by apply (ids_ok_eq (sk S))| |done].
    apply (users_step M E (o_pages o) none (fun q => q = t) none (sk S) o (set_km m (sk S)) o);
      [done|done|by apply tasks_kept_eq|simpl; lia|intros ? ? ? []|exact Hst|].
    intros k x Hk' Hx. destruct (proc_dir_safe M E (o_pages o) (sk S) o k x Hw Hu Hk' Hx) as (Hxd & _). split; [exact Hxd|].
    intros ->. by destruct (dir_not_page (km (sk S)) o t t (sw_mem _ _ _ Hw) Hxd Htp).
  - apply (keeps_kstep _ _ _ (sk S) o (set_km m (sk S)) o Hst). intros q _ ->. apply my_frame. rewrite Hfr.
    apply elem_of_cons. right. by apply list_elem_of_singleton.
Qed.

(** Output, as a step. *)
Definition console_only (s s' : ks) : Prop :=
  base M E s' o /\ keeps none s o s' o /\ sc s' = sc s /\ us s' = us s /\ same_cr3 s s' /\ mem (km s') = mem (km s).

Lemma console_print f args s : base M E s o -> console_only s (kprintk f args s).
Proof.
  intros Hb. destruct (base_print M E s o f args Hb) as [Hb' Hk']. split; [done|]. split; [apply Hk'|]. do 2 (split; [done|]). split; [apply kprintk_cr3|].
  destruct (kprint_same f args (km s)) as (Hm & _). exact Hm.
Qed.

Lemma console_trans s1 s2 s3 : console_only s1 s2 -> console_only s2 s3 -> console_only s1 s3.
Proof.
  intros (_ & K1 & C1 & U1 & R1 & M1) (B2 & K2 & C2 & U2 & R2 & M2). split; [done|]. split; [by eapply keeps_trans|].
  split; [congruence|]. split; [congruence|]. split; [by etransitivity|congruence].
Qed.

Lemma console_stay s' eax : console_only (sk S) s' -> step_ok M o S (mkSys s' (<[cur_id S := KUser eax]> (konts S))).
Proof.
  intros (B & K & C & U & R & _). apply (step_stay M E o S i); try done. eapply keeps_mono; [exact K|intros ? []].
Qed.

Lemma call_write fd buf len :
  0 <= len -> out_ok M o S (after_call (cur_id S) (konts S) (sys_write fd buf len (sk S))).
Proof.
  intros Hlen. pose proof (so_base _ _ _ _ Hok) as Hb. assert (Hrefl : console_only (sk S) (sk S)).
  { split; [done|]. split; [apply keeps_refl|done]. }
  unfold sys_write. destruct (_ || _); [by apply console_stay|].
  assert (Hloop : match for_range 0 len (write_char buf) (inl (sk S)) with
    | inl s' => console_only (sk S) s' | inr (a, _) => a / 4096 <> USER_INIT_STACK_ADDR / 4096 end).
  { for_inv (fun (_ : Z) (r : ks + Z * ks) => match r with
      | inl s' => console_only (sk S) s' | inr (a, _) => a / 4096 <> USER_INIT_STACK_ADDR / 4096 end); [lia|done|].
    intros k [s'|[a s']] _ IH; [|done]. unfold write_char. destruct (user_byte s' _) as [ch|] eqn:Hu.
    - eapply console_trans; [exact IH|]. apply console_print. apply IH.
    - destruct IH as (_ & _ & _ & _ & R & Hm). by apply (user_byte_mapped M E o S i s'). }
  destruct (for_range _ _ _ _) as [s'|[a s']]; [|done]. by apply console_stay.
Qed.

Lemma call_exit sp status :
  0 <= status < 4294967296 ->
  exists r, sys_exit sp status (sk S) = Done r /\ out_ok M o S (after_call (cur_id S) (konts S) r).
Proof.
  intros Hst. pose proof (so_base _ _ _ _ Hok) as Hb. pose proof Hb as [_ _ Hu _]. unfold sys_exit.
  destruct (exit_cases M E (sk S) o i status Hb Hf Hs Hst) as (o1 & Hb1 & Hk1 & Hsc1 & _ & _ & _ & Hgi & Hget). cbv zeta in *.
  set (s1 := user_exit_current status (sk S)) in *. clearbody s1.
  destruct (base_print M E s1 o1 (ln "user: exited status=%x") [VInt status] Hb1) as [Hb2 Hk2].
  set (s2 := kprintk _ _ s1) in *. assert (Hsc2 : sc s2 = sc (sk S)) by exact Hsc1.
  assert (Hg2 : forall k, get_process k s2 = get_process k s1) by done.
  assert (Hid2 : sched_current_task_id s2 = cur_id S).
  { unfold cur_id, sched_current_task_id, get_task. by rewrite Hsc2. }
  clearbody s2. destruct (step_gone M E o S E o1 s2 sp Hok Hb2) as (s' & Hy & Hstep); try done.
  - by rewrite Hsc2.
  - by rewrite Hsc2.
  - by apply tasks_kept_eq.
  - intros k Hk Ha Hne. rewrite Hg2. assert (Hki : k <> i) by (by intros ->). rewrite Hget by done. unfold kin, orphan_rec.
    destruct (_ || _); [by left|]. rewrite bool_decide_eq_false_2 by (destruct Ha; congruence). by right.
  - eapply steady_trans; [eapply steady_mono; [exact Hk1|exact my_frame]|]. eapply steady_mono; [exact Hk2|intros ? []].
  - intros k Hk Ha E0. rewrite Hg2 in *. destruct (decide (k = i)) as [->|Hne].
    + rewrite Hgi in Ha. unfold left_behind in Ha. destruct (_ =? _), Ha; done.
    + rewrite Hget in * by done. apply Hne. unfold orphan_rec in *.
      destruct (_ || _); [|case_bool_decide; [by destruct Ha|]]; (apply (uo_tid_inj _ _ _ _ Hu);
        [done|done|destruct Ha; simpl in *; congruence|congruence|simpl in *; congruence]).
  - exists (SysGone s'). rewrite Hy. done.
Qed.

(** The process gives up the processor and is still there when it returns. *)
Lemma step_yielded sp K' :
  (forall tid, tid <> cur_id S -> K' !! tid = konts S !! tid) ->
  (exists k, K' !! cur_id S = Some k /\ match k with KStart => False | KUser _ => True | KWait q _ => q = i end) ->
  exists b s', sched_yield sp (sk S) = Done (b, s') /\ step_ok M o S (mkSys s' K').
Proof.
  intros HK (k & HKc & Hkind). pose proof (so_base _ _ _ _ Hok) as Hb.
  destruct (yield_base M E (sk S) o sp Hb) as (b & s' & o' & Hy & Hb' & Hk & Hus & Htk & Hn & _).
  exists b, s'. split; [done|]. apply (step_intro M E o S E o'); try done.
  - eapply yield_loaded; [apply Hb|apply (so_loaded _ _ _ _ Hok)|done].
  - eapply tasks_kept_mono; [|exact Htk]. intros ? [].
  - by apply others_us.
  - eapply keeps_mono; [apply Hk|intros ? []].
  - apply heap_grows_same, Hk.
  - intros j Hj Hal Hid. unfold task_runs, kont_of. cbn [konts sk]. rewrite HKc. simpl.
    assert (Hg : get_process i s' = get_process i (sk S)) by (unfold get_process; by rewrite Hus).
    destruct k as [| |q n]; [done|exists i; by rewrite Hg|]. subst q. by rewrite Hg.
  - intros j Hj Hal Hge. by destruct (no_new_tasks M E o' s' _ j Hb' Hn Hj Hal Hge).
Qed.

Lemma call_yield sp :
  exists r, sys_yield sp (sk S) = Done r /\ out_ok M o S (after_call (cur_id S) (konts S) r).
Proof.
  destruct (step_yielded sp (<[cur_id S := KUser 0]> (konts S))) as (b & s' & Hy & Hst).
  - intros tid Hne. by rewrite lookup_insert_ne.
  - exists (KUser 0). by rewrite lookup_insert_eq.
  - unfold sys_yield. rewrite Hy. cbn [obind]. by destruct b; eexists; (split; [reflexivity|]).
Qed.

Lemma base_kb k : base M E (set_kb k (sk S)) o /\ steady none (sk S) o (set_kb k (sk S)) o.
Proof. by apply base_same; [apply Hok|..]. Qed.

Lemma call_getc c k : out_ok M o S (after_call (cur_id S) (konts S) (SysRet c (set_kb k (sk S)))).
Proof. apply console_stay. destruct (base_kb k) as [B K]. split; [done|]. by split; [apply K|]. Qed.

Lemma call_spawn kernel_path path :
  length kernel_path = 32%nat -> next_pid (us (sk S)) < 2147483647 -> next_task_id (sc (sk S)) < 2147483647 ->
  exists r, sys_spawn kernel_path path (sk S) = Done r /\ out_ok M o S (after_call (cur_id S) (konts S) r).
Proof using All.
  intros Hl Hnp Hnt. assert (Hrefl : console_only (sk S) (sk S)).
  { split; [apply Hok|]. split; [apply keeps_refl|done]. }
  unfold sys_spawn. destruct (copy_string_from_user _ _ _ _) as [[ret dst]|a] eqn:Hcp; cycle 1.
  { eexists. split; [reflexivity|]. simpl. unfold copy_string_from_user in Hcp. destruct (_ || _); [done|].
    apply copy_chars_fault in Hcp. by apply (user_byte_mapped M E o S i (sk S)). }
  destruct (Z.eqb_spec ret 0) as [->|Hne]; cbn [negb]; [|eexists; split; [reflexivity|by apply console_stay]].
  assert (Hgo : forall eax, exists r s', user_spawn (Some (at_arr dst)) (sk S) = Done (r, s') /\
    step_ok M o S (mkSys s' (<[cur_id S := KUser eax]> (konts S)))).
  { intros eax. apply (step_spawn M E o S); try done.
    - intros q Hq. rewrite Hf in Hq. by injection Hq as <-.
    - by eapply copy_string_nul.
    - intros tid Hne. by rewrite lookup_insert_ne.
    - intros s' Hoth j Hj Hal Hid. left. unfold task_runs, kont_of. cbn [konts sk]. rewrite lookup_insert_eq. simpl. exists i.
      destruct (kin_same _ _ (Hoth (-1) i Hi ltac:(by right) ltac:(rewrite Ht; pose proof (cur_id_bound _ _ _ _ Hok); lia)))
        as (-> & -> & _). done. }
  destruct (Hgo 0) as (r & s' & Hy & _). rewrite Hy. cbn [obind]. eexists. split; [reflexivity|].
  destruct (r <? 0).
  - destruct (Hgo SYS_ERR) as (r' & s2 & Hy' & Hst). rewrite Hy in Hy'. injection Hy' as <- <-. exact Hst.
  - destruct (Hgo (u32 r)) as (r' & s2 & Hy' & Hst). rewrite Hy in Hy'. injection Hy' as <- <-. exact Hst.
Qed.

(** A round of [user_wait]. *)
Lemma call_wait sp n :
  exists r, wait_round sp i n (sk S) = Done r /\ out_ok M o S (after_call (cur_id S) (konts S) r).
Proof using All.
  pose proof (so_base _ _ _ _ Hok) as Hb. pose proof Hb as [_ _ Hu _]. unfold wait_round.
  pose proof (wait_cases M E (sk S) o i n Hb Hi ltac:(rewrite Hs; discriminate)) as Hw.
  destruct (user_wait_round i n (sk S)) as [s'|[r s']].
  - destruct Hw as [-> _]. destruct (step_yielded sp (<[cur_id S := KWait i n]> (konts S))) as (b & s' & Hy & Hst).
    + intros tid Hne. by rewrite lookup_insert_ne.
    + exists (KWait i n). by rewrite lookup_insert_eq.
    + rewrite Hy. eexists. split; [reflexivity|]. exact Hst.
  - eexists. split; [reflexivity|]. destruct Hw as [(-> & -> & _)|(c & Hch & Hx & -> & -> & Hb' & Hk')].
    + apply console_stay. split; [done|]. split; [apply keeps_refl|done].
    + destruct Hch as (Hcr & Hcf & _ & _). assert (Hci : i <> c) by (intros <-; congruence).
      assert (Hgo : forall k, 0 <= k < 16 -> k <> c -> get_process k (put_process c zero_process (sk S)) = get_process k (sk S)).
      { intros k Hk Hne. by apply (get_put_other M E (o_pages o)). }
      apply (step_intro M E o S E o); try done.
      * apply (loaded_same (sk S)); [apply (so_loaded _ _ _ _ Hok)|done|done].
      * by apply tasks_kept_eq.
      * intros k Hk Ha _. left. apply Hgo; [done|]. intros ->. destruct Ha; congruence.
      * by apply heap_grows_same.
      * intros tid Hne. by rewrite lookup_insert_ne.
      * intros j Hj Hal Hid. unfold task_runs, kont_of. cbn [konts sk]. rewrite lookup_insert_eq. simpl. exists i.
        by rewrite Hgo.
      * intros j Hj Hal Hge. by destruct (no_new_tasks M E o _ _ j Hb' eq_refl Hj Hal Hge).
Qed.
End process.
End system.
