(* ===== verification/SystemTheorems.v ===== *)
(** * The kernel as a state machine: theorems

    Whatever the processes do and in whatever order the tasks run, the kernel
    neither panics nor loses a frame, and no process can touch another. *)

From S2P Require Import Prelude Memory Tty Printk Keyboard Machine PmmInit FrameAlloc Pmm Vmm VmmSpec VmmProof VmmTheorems.
From S2P Require Import Kmalloc KmallocProof Initramfs Sharing Kmem Kernel Sched SchedProof SchedTheorems User UserMem UserExec UserInv UserProof UserSpawn UserRun UserExit.
From S2P Require Import Asm Entry Syscall Loaded System.

Section system.
Context {FA : FrameAllocator pmm_alloc_page pmm_free_page}.

(** Registers are 32-bit words, [kernel_path] is the array of [sys_spawn], and
    the strings of task 0 end. *)
Definition event_ok (e : event) : Prop :=
  match e with
  | EvStore v _ => 0 <= v < 4294967296
  | EvCall kernel_path f => length kernel_path = 32%nat /\ 0 <= ebx f < 4294967296 /\ 0 <= edx f < 4294967296
  | EvKernelSpawn path => strlen PATH_FUEL path <> None
  | _ => True
  end.

(** The counters of processes and threads have not come round. *)
Definition counters_ok (S : sys) : Prop :=
  next_pid (us (sk S)) < 2147483647 /\ next_task_id (sc (sk S)) < 2147483647.

Lemma step_key M E o S k :
  sys_ok M E o S -> step_ok M o S (mkSys (set_kb k (sk S)) (konts S)).
Proof.
  intros Hok. destruct (base_same M E (sk S) o (set_kb k (sk S)) (so_base _ _ _ _ Hok)) as [Hb Hk]; [done..|].
  apply (step_intro M E o S E o); try done.
  - apply (so_loaded _ _ _ _ Hok).
  - by apply tasks_kept_eq.
  - by apply others_us.
  - by apply heap_grows_same.
  - intros j Hj Hal Hid. rewrite <- Hid. apply (so_tasks _ _ _ _ Hok j Hj Hal).
  - intros j Hj Hal Hge. by destruct (no_new_tasks M E o _ _ j Hb eq_refl Hj Hal Hge).
Qed.

Lemma step_dispatch M E o S i sp kernel_path f :
  sys_ok M E o S -> counters_ok S -> current_task (sc (sk S)) <> 0 -> 0 <= i < 16 ->
  state (get_process i (sk S)) = USER_PROCESS_RUNNING -> task_id (get_process i (sk S)) = cur_id S ->
  user_process_find_by_task_id (sched_current_task_id (sk S)) (sk S) = Some i -> event_ok (EvCall kernel_path f) ->
  exists r, syscall_dispatch sp kernel_path f (sk S) = Done r /\ out_ok M o S (after_call (cur_id S) (konts S) r).
Proof.
  intros Hok [Hnp Hnt] Hc Hi Hs Ht Hf (Hkp & Hebx & Hedx). unfold syscall_dispatch.
  destruct (eax f =? SYS_WRITE); [eexists; split; [reflexivity|]; apply (call_write M E o S i); done || lia|].
  destruct (eax f =? SYS_EXIT); [by apply (call_exit M E o S i)|].
  destruct (eax f =? SYS_YIELD); [by apply (call_yield M E o S i)|].
  destruct (eax f =? SYS_GETC).
  { destruct (keyboard_buffer_pop (kb (sk S))) as [c k]. eexists. split; [reflexivity|]. by apply (call_getc M E o S i). }
  destruct (eax f =? SYS_SPAWN); [by apply (call_spawn M E o S i)|].
  destruct (eax f =? SYS_WAIT).
  { unfold sys_wait, user_wait_caller. rewrite Hf. by apply (call_wait M E o S i). }
  eexists. split; [reflexivity|]. apply (console_stay M E o S i); try done.
  split; [apply Hok|]. split; [apply keeps_refl|done].
Qed.

(** Every event that can happen ends: in a state of the same kind, or in a page
    fault that is not the stack's. *)
Lemma step_ends M E o S sp e r :
  sys_ok M E o S -> counters_ok S -> event_ok e -> sys_step sp e S = Some r ->
  exists out, r = Done out /\ out_ok M o S out.
Proof.
  intros Hok Hn He Hst. unfold sys_step in Hst. destruct (Z.eqb_spec (current_task (sc (sk S))) 0) as [Hc|Hc].
  - destruct e; try done.
    + destruct (user_has_input_focus _); [|done]. injection Hst as <-. eexists. split; [reflexivity|]. by eapply step_key.
    + destruct (step_kernel_yield M E o S sp Hok Hc) as (b & s' & Hy & Hs). rewrite Hy in Hst. injection Hst as <-. by eexists.
    + destruct (step_spawn M E o S path (konts S) Hok) as (r' & s' & Hy & Hs); try done; [by eapply kernel_may_spawn|apply Hn..| |].
      { intros s' _ j _ _ _. right. by eapply zero_id. }
      rewrite Hy in Hst. injection Hst as <-. by eexists.
  - destruct (kont_of S (cur_id S)) as [|eax|q n] eqn:Hk.
    + destruct e; try done.
      * destruct (step_thread M E o S sp eflags Hok Hc Hk) as (f & s' & Hy & Hs). rewrite Hy in Hst. injection Hst as <-. by eexists.
      * destruct (user_has_input_focus _); [|done]. injection Hst as <-. eexists. split; [reflexivity|]. by eapply step_key.
    + destruct (user_current M E o S Hok Hc ltac:(congruence)) as (i & Hi & Hs & Ht & Hf). destruct e; try done.
      * injection Hst as <-. eexists. split; [reflexivity|]. apply (step_store M E o S i Hok Hi Hs Ht v b eax Hk). apply He.
      * destruct (step_dispatch M E o S i sp kernel_path frame Hok Hn Hc Hi Hs Ht Hf He) as (r' & Hy & Hs').
        rewrite Hy in Hst. injection Hst as <-. by eexists.
      * destruct (user_has_input_focus _); [|done]. injection Hst as <-. eexists. split; [reflexivity|]. by eapply step_key.
    + destruct (user_current M E o S Hok Hc ltac:(congruence)) as (i & Hi & Hs & Ht & Hf). destruct e; try done.
      * pose proof (current_runs _ _ _ _ Hok Hc) as Hr. unfold task_runs in Hr. rewrite Hk in Hr. destruct Hr as (Hq & Hsq & Htq).
        assert (q = i) as ->.
        { pose proof (so_base _ _ _ _ Hok) as [_ _ Hu _]. apply (uo_tid_inj _ _ _ _ Hu); [done|done|congruence..]. }
        destruct (call_wait M E o S i Hok Hc Hi Hs Ht Hf sp n) as (r' & Hy & Hs'). rewrite Hy in Hst. injection Hst as <-. by eexists.
      * destruct (user_has_input_focus _); [|done]. injection Hst as <-. eexists. split; [reflexivity|]. by eapply step_key.
Qed.

(** ** The first state *)

(** [sched_init] on an empty process table starts the system. *)
Lemma initial_sys_ok o k s :
  length (tasks (sc s)) = 16%nat -> next_task_id (sc s) = 0 -> us s = mkUser (replicate 16 zero_process) 1 0 ->
  kmem (km s) o -> kernel_dir (km s) k -> o_dirs o = {[k]} -> o_allocs o = [] ->
  cr3 (km s) = kernel_page_directory (km s) -> module_held (o_pages o) (bv s) ->
  sys_ok (o_pages o) [] o (mkSys (sched_init s) ∅).
Proof.
  intros Hl Hn Hus Hkm Hk Hd Ha Hcr Hm.
  pose proof (sched_init_spec s o k Hl Hkm Hk Hd Ha) as Hinv. rewrite (sched_init_eq s Hl), Hn in *.
  set (t0 := mkTask _ _ _ _ _ _) in *. set (s' := set_sc _ s) in *.
  assert (Hget : forall j, 0 < j < 16 -> get_task j s' = zero_task).
  { intros j Hj. unfold get_task. change (tasks (sc s')) with (t0 :: replicate 15 zero_task).
    replace (Z.to_nat j) with (S (Z.to_nat (j - 1))) by lia.
    change ((t0 :: replicate 15 zero_task) !! S ?n) with (replicate 15 zero_task !! n). by rewrite lookup_replicate_2 by lia. }
  assert (Hus' : us s' = mkUser (replicate 16 zero_process) 1 0) by exact Hus.
  assert (Hfree : forall i, get_process i s' = zero_process).
  { intros i. unfold get_process. rewrite Hus'. cbn [processes].
    destruct (replicate 16 zero_process !! Z.to_nat i) as [p|] eqn:E; [|done]. by apply lookup_replicate in E as [-> _]. }
  split; cbn [sk konts].
  - split; [exact Hinv| | |exact Hm].
    + split; [reflexivity|by split|..].
      * intros j Hj Ht. by rewrite Hget in Ht.
      * intros i j Hi Hj Ht. by rewrite Hget in Ht.
    + split; try (intros i **; match goal with H : ~ is_free _ |- _ => by rewrite Hfree in H end).
      * by rewrite Hus'.
      * by rewrite Hus'.
      * intros i _. rewrite Hfree. done.
      * rewrite Hus'. done.
      * rewrite Hus'. change (o_pages o = o_pages o ∪ list_to_set []). set_solver.
      * rewrite Hus'. constructor.
      * rewrite Hus'. intros q _. apply not_elem_of_nil.
  - exact Hcr.
  - intros j Hj [H|H]; by rewrite Hget in H.
  - intros tid x H. done.
Qed.

(** ** Runs *)

Inductive sys_run : sys -> sys -> Prop :=
  | run_here S : sys_run S S
  | run_more sp e S S1 S2 :
      counters_ok S -> event_ok e -> sys_step sp e S = Some (Done (Running S1)) -> sys_run S1 S2 -> sys_run S S2.

Lemma run_trans S1 S2 S3 : sys_run S1 S2 -> sys_run S2 S3 -> sys_run S1 S3.
Proof. induction 1; [done|]. intros. econstructor; eauto. Qed.

Lemma run_keeps M E o S S' :
  sys_ok M E o S -> sys_run S S' ->
  exists E' o', sys_ok M E' o' S' /\ (forall q, acct (km (sk S')) o' q <-> acct (km (sk S)) o q) /\
    forall q, q ∈ o_heap o' -> q ∈ o_heap o \/ exists T, sys_run S T /\ sys_run T S' /\ in_heap (km (sk T)) q.
Proof.
  intros Hok Hrun. revert E o Hok. induction Hrun as [S|sp e S S1 S2 Hn He Hst Hrun IH]; intros E o Hok.
  { exists E, o. split; [done|]. split; [done|]. by left. }
  destruct (step_ends M E o S sp e _ Hok Hn He Hst) as (out & [= <-] & (E1 & o1 & Hok1 & Hk & _ & Hg)).
  destruct (IH E1 o1 Hok1) as (E2 & o2 & Hok2 & Ha & Hh). exists E2, o2. split; [done|].
  split; [intros q; rewrite Ha; apply Hk|]. intros q Hq. assert (Hone : sys_run S S1) by (econstructor; eauto using run_here).
  destruct (Hh q Hq) as [Hq1|(T & H1 & H2 & HT)].
  - destruct (Hg q Hq1) as [?|Hin]; [by left|]. right. by exists S1.
  - right. exists T. split; [by eapply run_trans|done].
Qed.

(** C2: whatever the processes do and however they interleave, the kernel keeps
    the invariant of its tables, address spaces and page tables, CR3 holds the
    directory of the task that runs, and no frame is lost: each one that had an
    owner or was available still is one or the other.  The owners leave no room
    for a leak.  The directories are exactly those of the kernel, of the tasks
    and of the processes that wait for their thread; the pages are exactly those
    of the processes and of the module; and a frame of the heap was one at the
    start, or a block of the heap lay in it in some state of the history. *)
Theorem sys_history M E o S S' :
  sys_ok M E o S -> sys_run S S' ->
  exists E' o', sys_ok M E' o' S' /\ (forall q, acct (km (sk S')) o' q <-> acct (km (sk S)) o q) /\
    forall q, q ∈ o_heap o' -> q ∈ o_heap o \/ exists T, sys_run S T /\ sys_run T S' /\ in_heap (km (sk T)) q.
Proof. apply run_keeps. Qed.

(** C3: no system call, thread or interrupt panics or runs forever, in any state
    that the system reaches: every event ends in a next state, or in a page
    fault at an address that is not on the stack of the process. *)
Theorem sys_never_panics M E o S S' sp e r :
  sys_ok M E o S -> sys_run S S' -> counters_ok S' -> event_ok e -> sys_step sp e S' = Some r ->
  (exists S'', r = Done (Running S'')) \/
  (exists a s, r = Done (Faulted a s) /\ a / 4096 <> USER_INIT_STACK_ADDR / 4096).
Proof.
  intros Hok Hrun Hn He Hst. destruct (run_keeps M E o S S' Hok Hrun) as (E' & o' & Hok' & _).
  destruct (step_ends M E' o' S' sp e r Hok' Hn He Hst) as ([S''|a s] & -> & Hout); [left|right]; eauto.
Qed.

(** ** Isolation *)

(** A frame belongs to one process. *)
Lemma frame_owner M E P s i k q :
  users_ok M E P s -> 0 <= i < 16 -> 0 <= k < 16 -> q ∈ proc_frames (get_process i s) -> q ∈ proc_frames (get_process k s) -> i = k.
Proof.
  intros Hu Hi Hk Hqi Hqk. destruct (decide (i = k)) as [|Hne]; [done|exfalso]. pose proof (uo_len _ _ _ _ Hu) as Hl.
  destruct (bind_insert proc_frames (processes (us s)) (Z.to_nat i) (get_process i s) zero_process) as (R & HR & HR');
    [apply get_process_lookup; lia|].
  pose proof (uo_nodup _ _ _ _ Hu) as Hnd. rewrite HR in Hnd. apply NoDup_app in Hnd as (_ & Hdis & _).
  apply (Hdis q Hqi). assert (Hin : q ∈ (<[Z.to_nat i := zero_process]> (processes (us s)) ≫= proc_frames)).
  { apply list_elem_of_bind. exists (get_process k s). split; [done|]. apply (list_elem_of_lookup_2 _ (Z.to_nat k)).
    rewrite list_lookup_insert_ne by lia. apply get_process_lookup. lia. }
  rewrite HR' in Hin. exact Hin.
Qed.

(** The frames behind the user addresses of a process are its own. *)
Lemma user_map_frames m d c t u a w x :
  user_map m d c t -> 0 <= u < VMM_KERNEL_VIRTUAL_BASE -> walk m d u = Some (a, w, x) -> a / 4096 = c \/ a / 4096 = t.
Proof.
  intros Hmap Hu Hw. rewrite Hmap in Hw by done. repeat case_if_in Hw; try done; injection Hw as <- _ _; Z.div_mod_to_equations; lia.
Qed.

(** C1: a step of one process leaves the memory of every other process as it is:
    the same addresses are mapped, to the same frames, with the same bytes and
    the same rights. *)
Theorem sys_isolation M E o S sp e S' i :
  sys_ok M E o S -> counters_ok S -> event_ok e -> sys_step sp e S = Some (Done (Running S')) ->
  0 <= i < 16 -> state (get_process i (sk S)) = USER_PROCESS_RUNNING -> task_id (get_process i (sk S)) <> cur_id S ->
  let d := address_space (get_process i (sk S)) / 4096 in
  state (get_process i (sk S')) = USER_PROCESS_RUNNING /\ pid (get_process i (sk S')) = pid (get_process i (sk S)) /\
  address_space (get_process i (sk S')) = address_space (get_process i (sk S)) /\
  forall u, 0 <= u < VMM_KERNEL_VIRTUAL_BASE -> walk (mem (km (sk S'))) d u = walk (mem (km (sk S))) d u /\
    forall a w x, walk (mem (km (sk S))) d u = Some (a, w, x) -> load8 (mem (km (sk S'))) a = load8 (mem (km (sk S))) a.
Proof.
  intros Hok Hn He Hst Hi Hs Ht d. destruct (step_ends M E o S sp e _ Hok Hn He Hst) as (out & [= <-] & (E1 & o1 & Hok1 & Hk & Hoth & _)).
  destruct (kin_same _ _ (Hoth i Hi (or_intror Hs) Ht)) as (Es & _ & Ep & Ea & Epg & Ec).
  split; [congruence|]. split; [done|]. split; [done|]. intros u Hu.
  destruct (running_pages M E (sk S) o i (so_base _ _ _ _ Hok) Hi Hs) as (d0 & c & t & Ha & _ & Hfr & [Hlive _] & Hmap & Hpok).
  destruct (running_pages M E1 (sk S') o1 i (so_base _ _ _ _ Hok1) Hi ltac:(congruence)) as (d1 & c1 & t1 & Ha1 & _ & _ & [Hlive1 _] & Hmap1 & _).
  assert (Hd0 : d = d0) by (unfold d; rewrite Ha; by apply Z.div_mul). assert (d1 = d0) as -> by lia.
  unfold live_pages in Hlive, Hlive1. rewrite Epg, Ec, Hlive in Hlive1.
  assert (c1 = c) as -> by (injection Hlive1; lia). assert (t1 = t) as -> by (injection Hlive1; lia).
  rewrite Hd0. split; [by rewrite Hmap, Hmap1|]. intros a w x Hw.
  assert (Hq : a / 4096 ∈ proc_frames (get_process i (sk S))).
  { rewrite Hfr, !elem_of_cons. destruct (user_map_frames _ _ _ _ _ _ _ _ Hmap Hu Hw); tauto. }
  pose proof (so_base _ _ _ _ Hok) as [_ _ Hus _].
  destruct (kp_page _ _ _ _ _ Hk (a / 4096)) as [_ Hsame]; [| |by apply Hsame].
  - rewrite (uo_pages _ _ _ _ Hus). apply elem_of_union_r, elem_of_list_to_set, list_elem_of_bind.
    exists (get_process i (sk S)). split; [done|]. eapply list_elem_of_lookup_2, get_process_lookup. rewrite (uo_len _ _ _ _ Hus). lia.
  - intros (k & Hkr & _ & Htk & Hqk). apply Ht. by rewrite (frame_owner M E (o_pages o) (sk S) i k (a / 4096)).
Qed.
End system.
