(* ===== verification/ProcessMemory.v ===== *)
(** * The memory that a process sees

    [proc_byte i s u] is the byte at the user address [u] of process [i].  It
    changes by the stores of the process itself and by nothing else: not by
    the steps of other tasks, and not by the kernel while it serves the calls
    of the process. *)

From S2P Require Import Prelude Memory Tty Printk Keyboard Machine PmmInit FrameAlloc Pmm Vmm VmmSpec VmmProof VmmTheorems.
From S2P Require Import Kmalloc KmallocProof Initramfs Sharing Kmem Kernel Sched SchedProof SchedTheorems User UserMem UserExec UserInv UserProof UserSpawn UserRun UserExit.
From S2P Require Import Asm Entry Syscall Loaded System SystemTheorems.

Definition proc_byte (i : Z) (s : ks) (u : Z) : option Z :=
  match walk (mem (km s)) (address_space (get_process i s) / 4096) u with
  | Some (p, _, _) => Some (load8 (mem (km s)) p)
  | None => None
  end.

(** The record and the frames of process [i] are as before. *)
Definition self_kept (i : Z) (s s' : ks) : Prop :=
  kin (get_process i s) (get_process i s') /\
  forall q, q ∈ proc_frames (get_process i s) -> same_frame (mem (km s)) (mem (km s')) q.

Section memory.
Context {FA : FrameAllocator pmm_alloc_page pmm_free_page}.

(** The frames of a process are user pages. *)
Lemma proc_page M E s o i q :
  base M E s o -> 0 <= i < 16 -> q ∈ proc_frames (get_process i s) -> q ∈ o_pages o.
Proof.
  intros [_ _ Hu _] Hi Hq. rewrite (uo_pages _ _ _ _ Hu). apply elem_of_union_r, elem_of_list_to_set, list_elem_of_bind.
  exists (get_process i s). split; [done|]. eapply list_elem_of_lookup_2, get_process_lookup. rewrite (uo_len _ _ _ _ Hu). lia.
Qed.

Lemma keeps_self M E s o W s' o' i :
  base M E s o -> 0 <= i < 16 -> keeps W s o s' o' -> (forall q, q ∈ proc_frames (get_process i s) -> ~ W q) ->
  kin (get_process i s) (get_process i s') -> self_kept i s s'.
Proof.
  intros Hb Hi Hk HW Hkin. split; [done|]. intros q Hq. apply (kp_page _ _ _ _ _ Hk q); [by eapply proc_page|by apply HW].
Qed.

(** A process that is kept shows the same bytes. *)
Lemma kept_byte M E o s E' o' s' i u :
  base M E s o -> base M E' s' o' -> 0 <= i < 16 -> state (get_process i s) = USER_PROCESS_RUNNING ->
  self_kept i s s' -> 0 <= u < VMM_KERNEL_VIRTUAL_BASE -> proc_byte i s' u = proc_byte i s u.
Proof.
  intros Hb Hb' Hi Hs [Hkin Hfr] Hu. destruct (kin_same _ _ Hkin) as (Es & _ & _ & Ea & Epg & Ec).
  destruct (running_pages M E s o i Hb Hi Hs) as (d & c & t & Ha & _ & Hf & [Hlive _] & Hmap & _).
  destruct (running_pages M E' s' o' i Hb' Hi ltac:(congruence)) as (d' & c' & t' & Ha' & _ & _ & [Hlive' _] & Hmap' & _).
  unfold live_pages in *. rewrite Epg, Ec, Hlive in Hlive'.
  assert (c' = c) as -> by (injection Hlive'; lia). assert (t' = t) as -> by (injection Hlive'; lia).
  unfold proc_byte. rewrite Ea, Ha, Z.div_mul by done. assert (d' = d) as -> by lia.
  rewrite Hmap, Hmap' by done.
  assert (Hin : forall q, (q * 4096 + u mod 4096) / 4096 = q) by (intros q; Z.div_mod_to_equations; lia).
  repeat case_if; [f_equal; apply (Hfr c)|f_equal; apply (Hfr t)|done]; rewrite ?Hin, ?Hf; [set_solver|done|set_solver|done].
Qed.

(** ** Who may change it *)

(** A step leaves the processes alone that are not current. *)
Lemma other_kept M E o S S' i :
  sys_ok M E o S -> step_ok M o S S' -> 0 <= i < 16 -> state (get_process i (sk S)) = USER_PROCESS_RUNNING ->
  task_id (get_process i (sk S)) <> cur_id S -> self_kept i (sk S) (sk S').
Proof.
  intros Hok (E' & o' & _ & Hk & Hoth & _) Hi Hs Ht. pose proof (so_base _ _ _ _ Hok) as Hb. pose proof Hb as [_ _ Hu _].
  apply (keeps_self M E (sk S) o (mine S) (sk S') o'); [done|done|done| |apply Hoth; [done|by right|done]].
  intros q Hq (k & Hkr & _ & Htk & Hqk). apply Ht. by rewrite (frame_owner M E (o_pages o) (sk S) i k q).
Qed.

Section process.
(** The current process. *)
Context (M : gset Z) (E : list Z) (o : own) (S : sys) (i : Z).
Context (Hok : sys_ok M E o S) (Hn : counters_ok S) (Hi : 0 <= i < 16).
Context (Hs : state (get_process i (sk S)) = USER_PROCESS_RUNNING) (Ht : task_id (get_process i (sk S)) = cur_id S).

Lemma same_self s' : us s' = us (sk S) -> mem (km s') = mem (km (sk S)) -> self_kept i (sk S) s'.
Proof. intros Hu Hm. split; [left; unfold get_process; by rewrite Hu|]. intros q _ a _. by rewrite Hm. Qed.

Lemma none_self s' o' :
  keeps none (sk S) o s' o' -> kin (get_process i (sk S)) (get_process i s') -> self_kept i (sk S) s'.
Proof. intros Hk. apply (keeps_self M E (sk S) o none s' o'); [apply Hok|done|done|intros q _ []]. Qed.

Lemma find_self : user_process_find_by_task_id (sched_current_task_id (sk S)) (sk S) = Some i.
Proof. apply (active_find M E (sk S) o); [apply Hok|done|by right|done]. Qed.

(** The state in which a call leaves the kernel. *)
Definition left_in (r : sys_result) : option ks :=
  match r with
  | SysRet _ s | SysYield _ s => Some s
  | _ => None
  end.

Lemma write_self fd buf len s' eax : 0 <= len -> sys_write fd buf len (sk S) = SysRet eax s' -> self_kept i (sk S) s'.
Proof.
  intros Hlen. unfold sys_write. destruct (_ || _); [intros [= _ <-]; by apply same_self|].
  assert (H : match for_range 0 len (write_char buf) (inl (sk S)) with
    | inl s1 => us s1 = us (sk S) /\ mem (km s1) = mem (km (sk S)) | inr _ => True end).
  { for_inv (fun (_ : Z) (r : ks + Z * ks) => match r with
      | inl s1 => us s1 = us (sk S) /\ mem (km s1) = mem (km (sk S)) | inr _ => True end); [lia|done|].
    intros k [s1|[a s1]] _ IH; [|done]. unfold write_char. destruct (user_byte s1 _) as [ch|]; [|done].
    destruct IH as [Iu Im]. split; [exact Iu|]. destruct (kprint_same "%c" [VInt ch] (km s1)) as (Hm & _). by rewrite <- Im, <- Hm. }
  destruct (for_range _ _ _ _) as [s1|[a s1]]; [|done]. intros [= _ <-]. by destruct H; apply same_self.
Qed.

Lemma yield_self sp b s' : sched_yield sp (sk S) = Done (b, s') -> self_kept i (sk S) s'.
Proof.
  intros Hy. destruct (yield_base M E (sk S) o sp (so_base _ _ _ _ Hok)) as (b' & s1 & o' & Hy' & _ & Hk & Hus & _).
  rewrite Hy in Hy'. injection Hy' as <- <-. apply (none_self s' o' Hk). left. unfold get_process. by rewrite Hus.
Qed.

Lemma spawn_self chars r s' :
  strlen PATH_FUEL chars <> None -> user_spawn (Some chars) (sk S) = Done (r, s') -> self_kept i (sk S) s'.
Proof.
  intros Hstr Hy. destruct Hn as [Hnp Hnt].
  destruct (spawn_cases M E (sk S) o chars (so_base _ _ _ _ Hok) Hnp Hnt Hstr) as (r' & s1 & o' & Hy' & [Hk _] & _ & _ & Hor).
  { intros q Hq. rewrite find_self in Hq. by injection Hq as <-. }
  rewrite Hy in Hy'. injection Hy' as <- <-. apply (none_self s' o' Hk). left.
  destruct Hor as [(_ & _ & Hps & _)|(i' & d & len & _ & _ & _ & _ & _ & (Hi' & Hf & _ & _ & Hget))].
  - unfold get_process. by rewrite Hps.
  - rewrite Hget by done. rewrite decide_False; [done|]. intros ->. congruence.
Qed.

Lemma wait_self sp n r s' : wait_round sp i n (sk S) = Done r -> left_in r = Some s' -> self_kept i (sk S) s'.
Proof.
  unfold wait_round. pose proof (so_base _ _ _ _ Hok) as Hb. pose proof Hb as [_ _ Hu _].
  pose proof (wait_cases M E (sk S) o i n Hb Hi ltac:(rewrite Hs; discriminate)) as Hw.
  destruct (user_wait_round i n (sk S)) as [s1|[v s1]].
  - destruct Hw as [-> _]. destruct (sched_yield sp (sk S)) as [[b s2]| |] eqn:Hy; simpl; [|done..].
    intros [= <-] [= <-]. by eapply yield_self.
  - intros [= <-] [= <-]. destruct Hw as [(_ & -> & _)|(c & Hch & Hx & _ & -> & Hb' & Hk')]; [by apply same_self|].
    apply (none_self _ o Hk'). left. destruct Hch as (Hcr & _). apply (get_put_other M E (o_pages o)); [done|done|done|].
    intros ->. congruence.
Qed.

(** No call but the exit touches the process. *)
Lemma call_self sp kernel_path f r s' :
  event_ok (EvCall kernel_path f) -> eax f <> SYS_EXIT -> syscall_dispatch sp kernel_path f (sk S) = Done r ->
  left_in r = Some s' -> self_kept i (sk S) s'.
Proof.
  intros (Hkp & Hebx & Hedx) Hx. unfold syscall_dispatch. rewrite (proj2 (Z.eqb_neq (eax f) SYS_EXIT)) by done.
  destruct (eax f =? SYS_WRITE).
  { intros [= <-]. destruct (sys_write _ _ _ _) as [v s1| | |] eqn:Hw; try done; intros [= <-].
    - eapply write_self; [|exact Hw]; lia.
    - unfold sys_write in Hw. destruct (_ || _); [done|]. by destruct (for_range _ _ _ _) as [|[]]. }
  destruct (eax f =? SYS_YIELD).
  { unfold sys_yield. destruct (sched_yield sp (sk S)) as [[b s1]| |] eqn:Hy; simpl; [|done..].
    intros [= <-]. destruct b; intros [= <-]; by eapply yield_self. }
  destruct (eax f =? SYS_GETC).
  { destruct (keyboard_buffer_pop _). intros [= <-] [= <-]. by apply same_self. }
  destruct (eax f =? SYS_SPAWN).
  { unfold sys_spawn. destruct (copy_string_from_user _ _ _ _) as [[ret dst]|a] eqn:Hcp; [|by intros [= <-]].
    destruct (Z.eqb_spec ret 0) as [->|]; cbn [negb]; [|intros [= <-] [= <-]; by apply same_self].
    destruct (user_spawn _ _) as [[v s1]| |] eqn:Hy; simpl; [|done..]. intros [= <-] Hl.
    assert (s1 = s') as -> by (destruct (v <? 0); by injection Hl). eapply spawn_self; [|exact Hy]. by eapply copy_string_nul. }
  destruct (eax f =? SYS_WAIT).
  { unfold sys_wait, user_wait_caller. rewrite find_self. apply wait_self. }
  intros [= <-] [= <-]. by apply same_self.
Qed.

(** Only the exit call leaves a thread that is gone. *)
Lemma dispatch_gone sp kernel_path f s s' : eax f <> SYS_EXIT -> syscall_dispatch sp kernel_path f s <> Done (SysGone s').
Proof.
  intros Hx. unfold syscall_dispatch. rewrite (proj2 (Z.eqb_neq (eax f) SYS_EXIT)) by done. repeat case_if.
  - unfold sys_write. destruct (_ || _); [done|]. by destruct (for_range _ _ _ _) as [|[]].
  - unfold sys_yield. by destruct (sched_yield sp s) as [[[] ?]| |].
  - by destruct (keyboard_buffer_pop _).
  - unfold sys_spawn. destruct (copy_string_from_user _ _ _ _) as [[ret dst]|a]; [|done]. destruct (negb _); [done|].
    destruct (user_spawn _ _) as [[v s1]| |]; [|done..]. cbn [obind]. by destruct (v <? 0).
  - unfold sys_wait, wait_round. destruct (user_wait_caller s) as [q|]; [|done].
    destruct (user_wait_round _ _ _) as [s1|[y s1]]; [|done]. by destruct (sched_yield sp s1) as [[[] ?]| |].
  - done.
Qed.

Lemma frames_differ c t : proc_frames (get_process i (sk S)) = [c; t] -> c <> t.
Proof.
  intros Hf ->. pose proof (so_base _ _ _ _ Hok) as [_ _ Hu _]. pose proof (uo_len _ _ _ _ Hu) as Hl.
  destruct (bind_insert proc_frames (processes (us (sk S))) (Z.to_nat i) (get_process i (sk S)) zero_process) as (R & HR & _);
    [apply get_process_lookup; lia|].
  pose proof (uo_nodup _ _ _ _ Hu) as Hnd. rewrite HR, Hf in Hnd. apply NoDup_app in Hnd as (Hnd & _).
  apply NoDup_cons in Hnd as [Hnd _]. by apply Hnd, list_elem_of_singleton.
Qed.

Lemma store_own v b s' E' o' u :
  0 <= v -> user_store v b (sk S) = inl s' -> base M E' s' o' -> 0 <= u < VMM_KERNEL_VIRTUAL_BASE ->
  get_process i s' = get_process i (sk S) /\
  proc_byte i s' u = if u =? v then Some (u8 b) else proc_byte i (sk S) u.
Proof.
  intros Hv Hst Hb' Hu. destruct (current_map M E o S i Hok Hi Hs Ht) as (d & c & t & Hd & Hfr & Hmap & _).
  pose proof (frames_differ c t Hfr) as Hne. unfold user_store in Hst.
  destruct (Z.leb_spec VMM_KERNEL_VIRTUAL_BASE v) as [|Hlo]; [done|]. rewrite Hd, Hmap in Hst by lia.
  destruct (Z.eqb_spec (v / 4096) (USER_INIT_CODE_ADDR / 4096)) as [|E1]; [done|].
  destruct (Z.eqb_spec (v / 4096) (USER_INIT_STACK_ADDR / 4096)) as [E2|]; [|done]. injection Hst as <-.
  set (s' := on_km _ (sk S)) in *. assert (Hp : get_process i s' = get_process i (sk S)) by done. split; [done|].
  assert (Hm : mem (km s') = store8 (mem (km (sk S))) (t * 4096 + v mod 4096) b) by done. clearbody s'.
  destruct (running_pages M E (sk S) o i (so_base _ _ _ _ Hok) Hi Hs) as (d0 & c0 & t0 & Ha0 & _ & Hf0 & _ & Hmap0 & _).
  rewrite Hfr in Hf0. injection Hf0 as <- <-.
  destruct (running_pages M E' s' o' i Hb' Hi ltac:(by rewrite Hp)) as (d' & c' & t' & Ha' & _ & Hf' & _ & Hmap' & _).
  rewrite Hp in Ha', Hf'. rewrite Hfr in Hf'. injection Hf' as <- <-. assert (d' = d0) as -> by lia.
  unfold proc_byte. rewrite Hp, Ha0, Z.div_mul by done. rewrite Hmap', Hmap0 by done. rewrite Hm.
  destruct (Z.eqb_spec u v) as [->|Huv].
  - rewrite (proj2 (Z.eqb_neq _ _) E1), (proj2 (Z.eqb_eq _ _) E2). by rewrite load8_store8_eq.
  - repeat case_if; [..|done]; rewrite load8_store8_ne; try done; clear - Hne Huv E2 Hif0 || clear - Hne; Z.div_mod_to_equations; lia.
Qed.
End process.

(** ** The theorem *)

Definition is_exit (e : event) : Prop :=
  match e with EvCall _ f => eax f = SYS_EXIT | _ => False end.

(** A process with a running record runs in user mode or waits. *)
Lemma own_kont M E o S i :
  sys_ok M E o S -> 0 <= i < 16 -> state (get_process i (sk S)) = USER_PROCESS_RUNNING ->
  task_id (get_process i (sk S)) = cur_id S ->
  current_task (sc (sk S)) <> 0 /\
  ((exists x, kont_of S (cur_id S) = KUser x) \/ (exists n, kont_of S (cur_id S) = KWait i n)).
Proof.
  intros Hok Hi Hs Ht. pose proof (so_base _ _ _ _ Hok) as [Hinv Hids Hu _].
  assert (Hc : current_task (sc (sk S)) <> 0).
  { pose proof (uo_proc _ _ _ _ Hu i Hi) as Hp. unfold proc_ok in Hp. rewrite Hs in Hp.
    destruct Hp as (_ & _ & _ & _ & _ & _ & _ & _ & j & Hj & Hjid & Hal & _).
    pose proof (id_range _ Hids j Hj ltac:(destruct Hal; congruence)). intros H0. rewrite (zero_id M E o S Hok H0) in Ht. lia. }
  split; [done|]. pose proof (current_runs _ _ _ _ Hok Hc) as Hr. unfold task_runs in Hr.
  destruct (kont_of S (cur_id S)) as [|x|q n]; [|by left; exists x|].
  - exfalso. destruct Hr as (k & Hk & Hsk & Htk). assert (k = i) as -> by (apply (uo_tid_inj _ _ _ _ Hu); [done|done|congruence..]). congruence.
  - right. destruct Hr as (Hq & Hsq & Htq). assert (q = i) as -> by (apply (uo_tid_inj _ _ _ _ Hu); [done|done|congruence..]). by exists n.
Qed.

(** What a step does to the record and the memory of a process. *)
Lemma step_memory M E o S sp e S' i u :
  sys_ok M E o S -> counters_ok S -> event_ok e -> sys_step sp e S = Some (Done (Running S')) ->
  0 <= i < 16 -> state (get_process i (sk S)) = USER_PROCESS_RUNNING ->
  ~ (task_id (get_process i (sk S)) = cur_id S /\ is_exit e) -> 0 <= u < VMM_KERNEL_VIRTUAL_BASE ->
  kin (get_process i (sk S)) (get_process i (sk S')) /\
  proc_byte i (sk S') u =
    match e with
    | EvStore v b => if bool_decide (task_id (get_process i (sk S)) = cur_id S /\ u = v) then Some (u8 b) else proc_byte i (sk S) u
    | _ => proc_byte i (sk S) u
    end.
Proof.
  intros Hok Hn He Hst Hi Hs Hx Hu.
  destruct (step_ends M E o S sp e _ Hok Hn He Hst) as (out & [= <-] & Hstep). pose proof Hstep as (E1 & o1 & Hok1 & _).
  assert (Hkept : self_kept i (sk S) (sk S') -> kin (get_process i (sk S)) (get_process i (sk S')) /\ proc_byte i (sk S') u = proc_byte i (sk S) u).
  { intros Hk. split; [apply Hk|]. apply (kept_byte M E o (sk S) E1 o1); [apply Hok|apply Hok1|done..]. }
  destruct (decide (task_id (get_process i (sk S)) = cur_id S)) as [Ht|Ht]; cycle 1.
  { destruct (Hkept (other_kept M E o S S' i Hok Hstep Hi Hs Ht)) as [Hk ->]. split; [done|]. destruct e; try done.
    by rewrite bool_decide_eq_false_2 by tauto. }
  destruct (own_kont M E o S i Hok Hi Hs Ht) as [Hc Hkont]. unfold sys_step in Hst. rewrite (proj2 (Z.eqb_neq _ _) Hc) in Hst.
  destruct e as [eflags|v b|kp f| |c| |path].
  - by destruct Hkont as [[x Hk]|[n Hk]]; rewrite Hk in Hst.
  - destruct Hkont as [[x Hk]|[n Hk]]; rewrite Hk in Hst; [|done]. destruct (user_store v b (sk S)) as [s1|] eqn:Hus; [|done].
    injection Hst as <-. cbn [sk] in *. destruct (store_own M E o S i Hok Hi Hs Ht v b s1 E1 o1 u) as [Hp ->]; [apply He|done|apply Hok1|done|].
    split; [left; exact Hp|]. destruct (Z.eqb_spec u v) as [->|Huv]; [by rewrite bool_decide_eq_true_2|by rewrite bool_decide_eq_false_2 by tauto].
  - destruct Hkont as [[x Hk]|[n Hk]]; rewrite Hk in Hst; [|done]. apply Hkept.
    assert (Hne : eax f <> SYS_EXIT) by (intros Hf; by apply Hx).
    destruct (syscall_dispatch sp kp f (sk S)) as [r| |] eqn:Hd; cbn [obind] in Hst; [|done..]. injection Hst as Hst.
    assert (Hl : left_in r = Some (sk S') \/ exists s, r = SysGone s) by (destruct r; try done; injection Hst as <-; eauto).
    destruct Hl as [Hl|[s ->]]; [by eapply (call_self M E o S i)|]. exfalso. by eapply dispatch_gone.
  - destruct Hkont as [[x Hk]|[n Hk]]; rewrite Hk in Hst; [done|]. apply Hkept.
    destruct (wait_round sp i n (sk S)) as [r| |] eqn:Hd; cbn [obind] in Hst; [|done..]. injection Hst as Hst.
    eapply (wait_self M E o S i); [done|done|done|done|exact Hd|]. unfold wait_round in Hd.
    destruct (user_wait_round i n (sk S)) as [s1|[y s1]]; [destruct (sched_yield sp s1) as [[b s2]| |]; simpl in Hd; [|done..]|];
      injection Hd as <-; by injection Hst as <-.
  - destruct (user_has_input_focus _); [|done]. injection Hst as <-. apply Hkept. by apply same_self.
  - done.
  - done.
Qed.

(** ** Runs *)

Definition stores_by (i : Z) (S : sys) (e : event) : list (Z * Z) :=
  match e with
  | EvStore v b => if decide (task_id (get_process i (sk S)) = cur_id S) then [(v, b)] else []
  | _ => []
  end.

(** A run in which process [i] does not exit, with the stores it makes. *)
Inductive run_stores (i : Z) : sys -> list (Z * Z) -> sys -> Prop :=
  | rs_here S : run_stores i S [] S
  | rs_more sp e S S1 l S2 :
      counters_ok S -> event_ok e -> sys_step sp e S = Some (Done (Running S1)) ->
      ~ (task_id (get_process i (sk S)) = cur_id S /\ is_exit e) ->
      run_stores i S1 l S2 -> run_stores i S (stores_by i S e ++ l) S2.

(** The last store to [u], or what was there. *)
Definition last_store (u : Z) (l : list (Z * Z)) (x : option Z) : option Z :=
  foldl (fun x st => if u =? st.1 then Some (u8 st.2) else x) x l.

(** C5: the memory of a process is its own: after any run in which it does not
    exit, with any other processes, threads and interrupts in between and any
    system calls of its own, every byte of its address space is the last one it
    stored there, or what was there at the start. *)
Theorem memory_private M E o S l S' i u :
  sys_ok M E o S -> 0 <= i < 16 -> state (get_process i (sk S)) = USER_PROCESS_RUNNING -> run_stores i S l S' ->
  0 <= u < VMM_KERNEL_VIRTUAL_BASE ->
  state (get_process i (sk S')) = USER_PROCESS_RUNNING /\ pid (get_process i (sk S')) = pid (get_process i (sk S)) /\
  proc_byte i (sk S') u = last_store u l (proc_byte i (sk S) u).
Proof.
  intros Hok Hi Hs Hrun Hu. revert E o Hok Hs. induction Hrun as [S|sp e S S1 l S2 Hn He Hst Hx _ IH]; intros E o Hok Hs; [done|].
  destruct (step_memory M E o S sp e S1 i u Hok Hn He Hst Hi Hs Hx Hu) as [Hkin Hb].
  destruct (kin_same _ _ Hkin) as (Es & _ & Ep & _). destruct (step_ends M E o S sp e _ Hok Hn He Hst) as (out & [= <-] & (E1 & o1 & Hok1 & _)).
  destruct (IH E1 o1 Hok1 ltac:(congruence)) as (R & P & ->). split; [done|]. split; [congruence|].
  unfold last_store. rewrite foldl_app. f_equal. rewrite Hb. destruct e; try done. unfold stores_by.
  destruct (decide _) as [Ht|Ht]; simpl.
  - destruct (Z.eqb_spec u v) as [->|]; [by rewrite bool_decide_eq_true_2|by rewrite bool_decide_eq_false_2 by tauto].
  - by rewrite bool_decide_eq_false_2 by tauto.
Qed.
End memory.
