(* ===== verification/Userland.v ===== *)
(** * Programs as processes

    A program of Programs.v as a process of the system of System.v: its stores
    and calls are the events of the current task, and between any two of them
    other tasks run.  [wp] says, by recursion on the program, that it touches
    only its own pages; such a program never makes the processor or the kernel
    fault, whatever the rest of the system does. *)

From S2P Require Import Prelude Memory Programs.
From S2P Require Import Tty Printk Keyboard Machine PmmInit FrameAlloc Pmm Vmm VmmSpec VmmProof VmmTheorems.
From S2P Require Import Kmalloc KmallocProof Initramfs Sharing Kmem Kernel Sched SchedProof SchedTheorems User UserMem UserExec UserInv UserProof UserSpawn UserRun UserExit UserTheorems.
From S2P Require Import Asm Entry Syscall Calls Loaded System SystemTheorems ProcessMemory.

(** ** What a program may touch *)

Definition in_stack (u : Z) : Prop := u / 4096 = USER_INIT_STACK_ADDR / 4096.
Definition in_pages (u : Z) : Prop := u / 4096 = USER_INIT_CODE_ADDR / 4096 \/ in_stack u.

Inductive call_fine (m : memory) : call -> Prop :=
  | cf_write buf len : buf <> 0 -> 0 <= len -> (forall j, 0 <= j < len -> in_pages (buf +u j)) ->
      call_fine m (mkCall Programs.SYS_WRITE (Some Programs.SYS_FD_STDOUT) (Some buf) (Some len))
  | cf_exit status : call_fine m (crt0_exit status)
  | cf_yield : call_fine m (mkCall Programs.SYS_YIELD None None None)
  | cf_getc : call_fine m (mkCall Programs.SYS_GETC None None None)
  | cf_spawn path k : path <> 0 -> 0 <= k < 32 -> load8 m (path +u k) = 0 -> (forall j, 0 <= j <= k -> in_pages (path +u j)) ->
      call_fine m (mkCall Programs.SYS_SPAWN (Some path) None None)
  | cf_wait pid : call_fine m (mkCall Programs.SYS_WAIT (Some pid) None None).

(** For every answer of the kernel, [p] keeps to its pages and ends, if it does,
    with [Q].  The exit call does not answer. *)
Fixpoint wp {A} (m : memory) (p : prog A) (Q : memory -> A -> Prop) : Prop :=
  match p with
  | Ret a => Q m a
  | Int80 c k => call_fine m c /\ (c_eax c <> Programs.SYS_EXIT -> forall r, wp m (k r) Q)
  | Peek a k => in_pages a /\ wp m (k (load8 m a)) Q
  | Poke a b p => in_stack a /\ wp (store8 m a b) p Q
  end.

Lemma wp_mono {A} (p : prog A) m (Q R : memory -> A -> Prop) :
  (forall m a, Q m a -> R m a) -> wp m p Q -> wp m p R.
Proof.
  intros HQ. revert m. induction p as [a|c k IH|a k IH|a b p IH]; intros m; cbn; [apply HQ| | |].
  - intros [Hc Hk]. split; [done|]. intros Hx r. by apply IH, Hk.
  - intros [Ha Hk]. split; [done|]. by apply IH.
  - intros [Ha Hk]. split; [done|]. by apply IH.
Qed.

Lemma wp_bind {A B} (p : prog A) (f : A -> prog B) m Q :
  wp m p (fun m a => wp m (f a) Q) -> wp m (p ≫= f) Q.
Proof.
  revert m. induction p as [a|c k IH|a k IH|a b p IH]; intros m; cbn; [done| | |].
  - intros [Hc Hk]. split; [done|]. intros Hx r. by apply IH, Hk.
  - intros [Ha Hk]. split; [done|]. by apply IH.
  - intros [Ha Hk]. split; [done|]. by apply IH.
Qed.

(** ** A process that runs a program *)

Inductive pstate (A : Type) :=
  | Ready (p : prog A)                 (** next: the first action of [p] *)
  | Pending (k : Z -> prog A)          (** in a call *)
  | Over.                              (** exited *)
Arguments Ready {A}.
Arguments Pending {A}.
Arguments Over {A}.

Definition current (i : Z) (S : sys) : Prop := task_id (get_process i (sk S)) = cur_id S.

Section userland.
Context {FA : FrameAllocator pmm_alloc_page pmm_free_page}.
Context {A : Type} (i : Z).

(** The next step of the process, when it is current, or of anybody else. *)
Inductive ustep : sys * pstate A -> sys * pstate A -> Prop :=
  | us_poke sp S S' a b p :
      current i S -> counters_ok S -> sys_step sp (EvStore a b) S = Some (Done (Running S')) ->
      ustep (S, Ready (Poke a b p)) (S', Ready p)
  | us_peek S a b k :
      current i S -> user_byte (sk S) a = Some b -> ustep (S, Ready (Peek a k)) (S, Ready (k b))
  | us_call sp S S' c f kernel_path k :
      current i S -> counters_ok S -> event_ok (EvCall kernel_path f) -> carries f c ->
      sys_step sp (EvCall kernel_path f) S = Some (Done (Running S')) ->
      ustep (S, Ready (Int80 c k)) (S', if c_eax c =? Programs.SYS_EXIT then Over else Pending k)
  | us_return S x k :
      current i S -> kont_of S (cur_id S) = KUser x -> ustep (S, Pending k) (S, Ready (k x))
  | us_other sp e S S' st :
      counters_ok S -> event_ok e -> sys_step sp e S = Some (Done (Running S')) ->
      st = Over \/ ~ current i S \/ e = EvResume \/ (exists c, e = EvKey c) -> ustep (S, st) (S', st).

(** The next action of the process, if it is current, does not fault. *)
Definition no_fault (S : sys) (st : pstate A) : Prop :=
  match st with
  | Ready (Poke a b _) => forall sp, exists S', sys_step sp (EvStore a b) S = Some (Done (Running S'))
  | Ready (Peek a _) => exists b, user_byte (sk S) a = Some b
  | Ready (Int80 c _) => forall sp kernel_path f, event_ok (EvCall kernel_path f) -> carries f c ->
      exists S', sys_step sp (EvCall kernel_path f) S = Some (Done (Running S'))
  | _ => True
  end.

(** Process [i] runs, and its pages hold [m]. *)
Record resident (tid : Z) (m : memory) (S : sys) : Prop := {
  re_slot : 0 <= i < 16;
  re_runs : state (get_process i (sk S)) = USER_PROCESS_RUNNING;
  re_tid : task_id (get_process i (sk S)) = tid;
  re_bytes u : in_pages u -> proc_byte i (sk S) u = Some (load8 m u);
}.

Lemma in_pages_low u : in_pages u -> 0 <= u < VMM_KERNEL_VIRTUAL_BASE.
Proof. unfold in_pages, in_stack. intros [H|H]; Z.div_mod_to_equations; lia. Qed.

(** ** Reading its own memory *)

Lemma own_byte M E o S u :
  sys_ok M E o S -> 0 <= i < 16 -> state (get_process i (sk S)) = USER_PROCESS_RUNNING -> current i S ->
  0 <= u < VMM_KERNEL_VIRTUAL_BASE -> user_byte (sk S) u = proc_byte i (sk S) u.
Proof.
  intros Hok Hi Hs Ht Hu. destruct (current_map M E o S i Hok Hi Hs Ht) as (d & c & t & Hd & Hfr & Hmap & _).
  destruct (running_pages M E (sk S) o i (so_base _ _ _ _ Hok) Hi Hs) as (d0 & c0 & t0 & Ha0 & _ & Hf0 & _ & Hmap0 & _).
  rewrite Hfr in Hf0. injection Hf0 as <- <-. unfold user_byte, proc_byte. rewrite Hd, Ha0, Z.div_mul by done.
  by rewrite Hmap, Hmap0.
Qed.

Lemma fine_call M E o S m tid c :
  sys_ok M E o S -> resident tid m S -> current i S -> call_fine m c -> user_call m (sk S) c.
Proof.
  intros Hok R Ho Hf. assert (Hsee : forall a n, (forall j, 0 <= j < n -> in_pages (a +u j)) -> sees (sk S) m a n).
  { intros a n Hp j Hj. rewrite (own_byte M E o S); [apply (re_bytes _ _ _ R), Hp, Hj|done|apply R|apply R|done|]. by apply in_pages_low, Hp. }
  destruct Hf; constructor; try done; [by apply Hsee|]. right. exists k. split; [done|]. split; [done|]. apply Hsee. intros j Hj. auto with lia.
Qed.

(** ** Steps *)

Lemma kont_other sp e S S' tid :
  sys_step sp e S = Some (Done (Running S')) -> tid <> cur_id S -> konts S' !! tid = konts S !! tid.
Proof.
  intros Hst Hne. unfold sys_step in Hst. destruct (current_task (sc (sk S)) =? 0).
  - destruct e; try done.
    + destruct (user_has_input_focus _); [|done]. by injection Hst as <-.
    + destruct (sched_yield sp (sk S)) as [[? ?]| |]; cbn [obind] in Hst; [|done..]. by injection Hst as <-.
    + destruct (user_spawn _ (sk S)) as [[? ?]| |]; cbn [obind] in Hst; [|done..]. by injection Hst as <-.
  - assert (Hac : forall r, after_call (cur_id S) (konts S) r = Running S' -> konts S' !! tid = konts S !! tid).
    { intros [] H; try done; injection H as <-; cbn [konts]; [by rewrite lookup_insert_ne..|by rewrite lookup_delete_ne]. }
    destruct e; try done.
    + destruct (kont_of S (cur_id S)); try done. destruct (kthread_trampoline_run sp eflags (sk S)) as [[[f|] s]| |]; cbn [obind] in Hst; try done;
        injection Hst as <-; cbn [konts]; [by rewrite lookup_insert_ne|by rewrite lookup_delete_ne].
    + destruct (kont_of S (cur_id S)); try done. destruct (user_store v b (sk S)); [|done]. by injection Hst as <-.
    + destruct (kont_of S (cur_id S)); try done. destruct (syscall_dispatch sp kernel_path frame (sk S)) as [r| |]; cbn [obind] in Hst; try done.
      injection Hst as Hst. by apply (Hac r).
    + destruct (kont_of S (cur_id S)) as [| |q n]; try done. destruct (wait_round sp q n (sk S)) as [r| |]; cbn [obind] in Hst; try done.
      injection Hst as Hst. by apply (Hac r).
    + destruct (user_has_input_focus _); [|done]. by injection Hst as <-.
Qed.

Lemma kont_key sp c S S' : sys_step sp (EvKey c) S = Some (Done (Running S')) -> konts S' = konts S.
Proof.
  unfold sys_step. destruct (_ =? _); (destruct (user_has_input_focus _); [|done]); by intros [= <-].
Qed.

Lemma kont_store sp a b S S' : sys_step sp (EvStore a b) S = Some (Done (Running S')) -> konts S' = konts S.
Proof.
  unfold sys_step. destruct (_ =? _); [done|]. destruct (kont_of S (cur_id S)); try done. destruct (user_store _ _ _); [|done]. by intros [= <-].
Qed.

Section step.
Context (M : gset Z) (E : list Z) (o : own) (S S' : sys) (sp tid : Z) (e : event) (m : memory).
Context (Hok : sys_ok M E o S) (Hn : counters_ok S) (He : event_ok e) (Hst : sys_step sp e S = Some (Done (Running S'))).
Context (R : resident tid m S).

(** A step that is neither a store nor the exit of the process. *)
Lemma resident_keep : ~ current i S \/ (forall v b, e <> EvStore v b) /\ ~ is_exit e -> resident tid m S'.
Proof.
  intros Hor. pose proof R as [Hi Hs Ht Hb].
  assert (Hu : forall u, 0 <= u < VMM_KERNEL_VIRTUAL_BASE -> kin (get_process i (sk S)) (get_process i (sk S')) /\ proc_byte i (sk S') u = proc_byte i (sk S) u).
  { intros u Hu. destruct (step_memory M E o S sp e S' i u Hok Hn He Hst Hi Hs) as [Hk Hbyte]; [unfold current in Hor; tauto|done|].
    split; [done|]. rewrite Hbyte. destruct e; try done. rewrite bool_decide_eq_false_2; [done|]. intros [Ho _].
    destruct Hor as [?|[Hno _]]; [done|]. by apply (Hno v b). }
  destruct (kin_same _ _ (proj1 (Hu 0 ltac:(lia)))) as (Es & Et & _). split; [done|congruence..|].
  intros u Hp. rewrite (proj2 (Hu u (in_pages_low u Hp))). by apply Hb.
Qed.

Lemma resident_store v b : current i S -> e = EvStore v b -> resident tid (store8 m v b) S'.
Proof.
  intros Ho ->. pose proof R as [Hi Hs Ht Hb].
  assert (Hu : forall u, 0 <= u < VMM_KERNEL_VIRTUAL_BASE -> kin (get_process i (sk S)) (get_process i (sk S')) /\
    proc_byte i (sk S') u = if u =? v then Some (u8 b) else proc_byte i (sk S) u).
  { intros u Hu. destruct (step_memory M E o S sp (EvStore v b) S' i u Hok Hn He Hst Hi Hs) as [Hk Hbyte]; [by intros [_ []]|done|].
    split; [done|]. rewrite Hbyte. destruct (Z.eqb_spec u v); [by rewrite bool_decide_eq_true_2|by rewrite bool_decide_eq_false_2 by tauto]. }
  destruct (kin_same _ _ (proj1 (Hu 0 ltac:(lia)))) as (Es & Et & _). split; [done|congruence..|].
  intros u Hp. rewrite (proj2 (Hu u (in_pages_low u Hp))), load8_store8. rewrite (Hb u Hp).
  destruct (Z.eqb_spec u v), (decide (v = u)); congruence.
Qed.

Lemma next_ok : exists E' o', sys_ok M E' o' S'.
Proof. destruct (step_ends M E o S sp e _ Hok Hn He Hst) as (out & [= <-] & (E1 & o1 & Hok1 & _)). by exists E1, o1. Qed.
End step.

(** ** Programs that keep to their pages *)

Section adequacy.
Context (M : gset Z) (tid : Z) (Q : memory -> A -> Prop).

Definition in_user (S : sys) : Prop := exists x, kont_of S tid = KUser x.

Definition state_fine (S : sys) (st : pstate A) : Prop :=
  match st with
  | Ready p => exists m, resident tid m S /\ in_user S /\ wp m p Q
  | Pending k => exists m, resident tid m S /\ forall r, wp m (k r) Q
  | Over => True
  end.

Definition fine (x : sys * pstate A) : Prop := (exists E o, sys_ok M E o x.1) /\ state_fine x.1 x.2.

Lemma current_user S m : resident tid m S -> current i S -> cur_id S = tid.
Proof. intros R Hc. rewrite <- (re_tid _ _ _ R). by symmetry. Qed.

(** A store to the stack, and a call that is fine, do not fault. *)
Lemma store_runs E o S m sp a b :
  sys_ok M E o S -> counters_ok S -> resident tid m S -> current i S -> in_user S -> in_stack a ->
  exists S', sys_step sp (EvStore a b) S = Some (Done (Running S')).
Proof.
  intros Hok Hn R Hc [x Hx] Ha. rewrite <- (current_user S m R Hc) in Hx.
  destruct (own_kont M E o S i Hok (re_slot _ _ _ R) (re_runs _ _ _ R) Hc) as [H0 _].
  assert (Hst : exists r, sys_step sp (EvStore a b) S = Some r).
  { unfold sys_step. rewrite (proj2 (Z.eqb_neq _ _) H0), Hx. by eexists. }
  destruct Hst as [r Hst]. assert (Hlow : 0 <= a < VMM_KERNEL_VIRTUAL_BASE) by (apply in_pages_low; by right).
  destruct (step_ends M E o S sp (EvStore a b) r Hok Hn ltac:(simpl; lia) Hst) as ([S'|v s] & -> & Hout); [by exists S'|].
  exfalso. apply Hout. unfold sys_step in Hst. rewrite (proj2 (Z.eqb_neq _ _) H0), Hx in Hst.
  assert (Hv : v = a).
  { destruct (user_store a b (sk S)) as [s1|v1] eqn:Hus; [done|]. injection Hst as <- <-. unfold user_store in Hus.
    destruct (_ <=? _); [congruence|]. destruct (walk _ _ _) as [[[? []] []]|]; congruence. }
  subst v. exact Ha.
Qed.

Lemma call_runs E o S m sp kernel_path f c :
  sys_ok M E o S -> counters_ok S -> resident tid m S -> current i S -> in_user S -> call_fine m c ->
  event_ok (EvCall kernel_path f) -> carries f c ->
  exists S', sys_step sp (EvCall kernel_path f) S = Some (Done (Running S')).
Proof.
  intros Hok Hn R Hc [x Hx] Hf He Hca. rewrite <- (current_user S m R Hc) in Hx.
  destruct (own_kont M E o S i Hok (re_slot _ _ _ R) (re_runs _ _ _ R) Hc) as [H0 _].
  pose proof (fine_call M E o S m tid c Hok R Hc Hf) as Hu.
  assert (Hst : sys_step sp (EvCall kernel_path f) S =
    Some (let* r := syscall_dispatch sp kernel_path f (sk S) in Done (after_call (cur_id S) (konts S) r))).
  { unfold sys_step. by rewrite (proj2 (Z.eqb_neq _ _) H0), Hx. }
  destruct (step_ends M E o S sp (EvCall kernel_path f) _ Hok Hn He Hst) as ([S'|v s] & Hr & Hout); [exists S'; by rewrite Hst, Hr|].
  exfalso. destruct (syscall_dispatch sp kernel_path f (sk S)) as [r| |] eqn:Hd; cbn [obind] in Hr; [|done..].
  injection Hr as Hr. destruct r; try done. rewrite (dispatch_expected sp kernel_path (proj1 He) m (sk S) c f Hu Hca) in Hd.
  by apply expected_no_fault in Hd.
Qed.

Lemma fine_no_fault S st : fine (S, st) -> counters_ok S -> current i S -> no_fault S st.
Proof.
  intros [(E & o & Hok) Hst] Hn Hc. cbn [fst snd] in *. destruct st as [[a|c k|a k|a b p]| |]; try done.
  - destruct Hst as (m & R & Hu & Hf & _). intros sp kp f He Hca. by apply (call_runs E o S m sp kp f c).
  - destruct Hst as (m & R & Hu & Ha & _). exists (load8 m a). rewrite (own_byte M E o S); [by apply (re_bytes _ _ _ R)|done|apply R|apply R|done|by apply in_pages_low].
  - destruct Hst as (m & R & Hu & Ha & _). intros sp. by apply (store_runs E o S m).
Qed.

Lemma in_user_same S S' : konts S' !! tid = konts S !! tid -> in_user S -> in_user S'.
Proof. unfold in_user, kont_of. by intros ->. Qed.

(** Steps of the others. *)
Lemma fine_other sp e S S' st :
  fine (S, st) -> counters_ok S -> event_ok e -> sys_step sp e S = Some (Done (Running S')) ->
  st = Over \/ ~ current i S \/ e = EvResume \/ (exists c, e = EvKey c) -> fine (S', st).
Proof.
  intros [(E & o & Hok) Hf] Hn He Hst Hor. cbn [fst snd] in *. split; [by eapply next_ok|]. cbn [fst snd].
  assert (Hq : st = Over \/ ~ current i S \/ (forall v b, e <> EvStore v b) /\ ~ is_exit e).
  { destruct Hor as [?|[?|[->|[c ->]]]]; auto; right; right; (split; [done|]); by intros []. }
  destruct st as [p|k|]; [| |done].
  - destruct Hf as (m & R & Hu & Hw). exists m. split; [eapply resident_keep; try done; by destruct Hq|]. split; [|done].
    destruct (decide (tid = cur_id S)) as [Ec|Ec]; [|apply (in_user_same S); [by eapply kont_other|done]].
    assert (Hcur : current i S) by (unfold current; rewrite (re_tid _ _ _ R); done).
    destruct Hor as [?|[?|[->|[c ->]]]]; [done|done| |].
    + exfalso. destruct Hu as [x Hx]. rewrite Ec in Hx. unfold sys_step in Hst. rewrite Hx in Hst. by destruct (_ =? 0).
    + apply (in_user_same S S'); [by rewrite (kont_key _ _ _ _ Hst)|done].
  - destruct Hf as (m & R & Hw). exists m. split; [|done]. eapply resident_keep; try done. by destruct Hq.
Qed.

Lemma fine_step x y : fine x -> ustep x y -> fine y.
Proof.
  intros Hf Hs. destruct Hs as [sp S S' a b p Hc Hn Hst|S a b k Hc Hb|sp S S' c f kp k Hc Hn He Hca Hst|S x k Hc Hx|sp e S S' st Hn He Hst Hor].
  - destruct Hf as [(E & o & Hok) (m & R & Hu & Ha & Hw)]. cbn [fst snd] in *.
    assert (He : event_ok (EvStore a b)).
    { assert (0 <= a < VMM_KERNEL_VIRTUAL_BASE) by (apply in_pages_low; by right). simpl. lia. }
    split; [by eapply next_ok|]. exists (store8 m a b). split; [by eapply resident_store|]. split; [|done].
    apply (in_user_same S S'); [by rewrite (kont_store _ _ _ _ _ Hst)|done].
  - destruct Hf as [(E & o & Hok) (m & R & Hu & Ha & Hw)]. cbn [fst snd] in *. split; [by exists E, o|]. exists m. split; [done|]. split; [done|].
    rewrite (own_byte M E o S) in Hb; [|done|apply R|apply R|done|by apply in_pages_low].
    rewrite (re_bytes _ _ _ R a Ha) in Hb. by injection Hb as <-.
  - destruct Hf as [(E & o & Hok) (m & R & Hu & Ha & Hw)]. cbn [fst snd] in *. split; [by eapply next_ok|]. cbn [fst snd].
    destruct (Z.eqb_spec (c_eax c) Programs.SYS_EXIT) as [|Hx]; [done|]. exists m. split; [|by apply Hw].
    eapply resident_keep; try done. right. split; [done|]. simpl. by rewrite (cy_eax _ _ Hca).
  - destruct Hf as [(E & o & Hok) (m & R & Hw)]. cbn [fst snd] in *. split; [by exists E, o|]. exists m. split; [done|]. split; [|done].
    exists x. by rewrite <- (current_user S m R Hc).
  - by eapply fine_other.
Qed.

Lemma fine_run x y : fine x -> rtc ustep x y -> fine y.
Proof. intros Hf Hr. induction Hr as [|x y z Hxy _ IH]; [done|]. by apply IH, (fine_step x). Qed.
End adequacy.
End userland.

(** ** The first memory of a process *)

Section exec.
Context {FA : FrameAllocator pmm_alloc_page pmm_free_page}.

(** The code of the image, padded with zeros, and a stack of zeros. *)
Definition image_memory (m0 m : memory) (image code_size : Z) : Prop :=
  forall j, 0 <= j < 4096 ->
    load8 m (USER_INIT_CODE_ADDR + j) = (if j <? code_size then load8 m0 (phys (image + EMXF_HEADER_SIZE) + j) else 0) /\
    load8 m (USER_INIT_STACK_ADDR + j) = 0.

Lemma thread_entry M E o S i :
  sys_ok M E o S -> 0 <= i < 16 -> current i S -> state (get_process i (sk S)) = USER_PROCESS_CREATED ->
  t_entry (get_task (current_task (sc (sk S))) (sk S)) = Some user_exec_task_fn.
Proof.
  intros Hok Hi Ht Hs. pose proof (so_base _ _ _ _ Hok) as [Hinv Hids Hu _].
  pose proof (uo_proc _ _ _ _ Hu i Hi) as Hp. unfold proc_ok in Hp. rewrite Hs in Hp.
  destruct Hp as (_ & _ & _ & _ & _ & j & Hj & Hjid & Hal & _ & He).
  rewrite <- (current_of E (sk S) o j Hinv Hids Hj); [done|destruct Hal; congruence|exact (eq_trans Hjid Ht)].
Qed.

(** The bytes of the two pages. *)
Lemma image_bytes m0 m mem' d c t image cs u :
  image + EMXF_HEADER_SIZE <> NULL -> image_memory m0 m image cs -> user_map mem' d c t ->
  copied m0 (image + EMXF_HEADER_SIZE) cs c mem' -> copied m0 NULL 0 t mem' -> in_pages u ->
  match walk mem' d u with Some (p, _, _) => Some (load8 mem' p) | None => None end = Some (load8 m u).
Proof.
  intros Hne Him Hmap Hc Ht Hu. pose proof (in_pages_low u Hu) as Hlow. rewrite Hmap by done.
  assert (Hr : 0 <= u mod 4096 < 4096) by (apply Z.mod_pos_bound; lia). pose proof (Z.div_mod u 4096 ltac:(lia)) as Hdm.
  destruct (Him (u mod 4096) Hr) as [Hcode Hstack]. unfold in_pages, in_stack in Hu.
  destruct (Z.eqb_spec (u / 4096) (USER_INIT_CODE_ADDR / 4096)) as [E1|E1].
  - replace u with (USER_INIT_CODE_ADDR + u mod 4096) at 2 by (change (USER_INIT_CODE_ADDR / 4096) with 1024 in E1; lia).
    rewrite Hcode, (Hc _ Hr), (proj2 (Z.eqb_neq _ NULL) Hne). done.
  - destruct Hu as [?|E2]; [done|]. rewrite (proj2 (Z.eqb_eq _ _) E2).
    replace u with (USER_INIT_STACK_ADDR + u mod 4096) at 2 by (change (USER_INIT_STACK_ADDR / 4096) with 2047 in E2; lia).
    by rewrite Hstack, (Ht _ Hr).
Qed.

(** A new thread that gets to user mode does so in the file that its record
    names, with nothing else in its memory. *)
Lemma exec_resident M E o S sp eflags f s' i :
  sys_ok M E o S -> 0 <= i < 16 -> current i S -> state (get_process i (sk S)) = USER_PROCESS_CREATED ->
  kthread_trampoline_run sp eflags (sk S) = Done (Some f, s') ->
  let S' := mkSys s' (<[cur_id S := KUser 0]> (konts S)) in
  exists image size cs eo,
    initramfs_find (Some (at_arr (path (get_process i (sk S))))) LOCAL LOCAL (mem (km (sk S))) (bv (sk S)) = Some (image, size) /\
    emxf (mem (km (sk S))) image size cs eo /\
    forall m, image_memory (mem (km (sk S))) m image cs -> resident i (cur_id S) m S' /\ in_user (cur_id S) S'.
Proof.
  intros Hok Hi Hcur Hs Hrun S'. pose proof (so_base _ _ _ _ Hok) as Hb. pose proof Hb as [Hinv Hids Hu Hm].
  pose proof (active_find M E (sk S) o i Hb Hi (or_introl Hs) Hcur) as Hf.
  unfold kthread_trampoline_run in Hrun. rewrite (thread_entry M E o S i Hok Hi Hcur Hs) in Hrun.
  pose proof (exec_cases M E (sk S) o i eflags Hb Hf Hs) as Hex. cbv zeta in Hex.
  destruct (user_exec_task eflags (sk S)) as [[f'|] s1]; [|by destruct (kthread_exit sp s1)].
  injection Hrun as -> ->. destruct Hex as (d & E' & o' & _ & _ & _ & _ & _ & _ & _ & Hor).
  destruct Hor as [[? _]|(c & t & image & size & cs & eo & R & _)]; [done|]. exists image, size, cs, eo.
  split; [apply R|]. split; [apply R|]. intros m Him. split; [|exists 0; unfold kont_of, S'; cbn [konts]; by rewrite lookup_insert_eq].
  assert (Hgi : get_process i s' = with_pstate USER_PROCESS_RUNNING (loaded_process c t eo (get_process i (sk S)))).
  { pose proof (rn_record _ _ _ _ _ _ _ _ _ _ _ R) as Hus. set (p := with_pstate _ _) in *.
    rewrite <- (get_put_same M E (o_pages o) (sk S) i p Hu Hi). unfold get_process. by rewrite Hus. }
  split; cbn [sk S']; [done|by rewrite Hgi|rewrite Hgi; exact Hcur|]. intros u Hp. unfold proc_byte. rewrite Hgi.
  change (address_space (with_pstate _ _)) with (address_space (get_process i (sk S))).
  rewrite (rn_space _ _ _ _ _ _ _ _ _ _ _ R), Z.div_mul by done.
  apply (image_bytes (mem (km (sk S))) m _ d c t image cs); [|done|apply R..|done].
  destruct (find_in_module M _ _ _ _ _ Hm (rn_find _ _ _ _ _ _ _ _ _ _ _ R)) as [(Hlo & _) _]. lia.
Qed.

(** The same for the step of the system. *)
Lemma thread_starts M E o S sp eflags S' i :
  sys_ok M E o S -> counters_ok S -> 0 <= i < 16 -> current i S -> state (get_process i (sk S)) = USER_PROCESS_CREATED ->
  sys_step sp (EvThread eflags) S = Some (Done (Running S')) -> in_user (cur_id S) S' ->
  (exists E' o', sys_ok M E' o' S') /\
  exists image size cs eo,
    initramfs_find (Some (at_arr (path (get_process i (sk S))))) LOCAL LOCAL (mem (km (sk S))) (bv (sk S)) = Some (image, size) /\
    emxf (mem (km (sk S))) image size cs eo /\
    forall m, image_memory (mem (km (sk S))) m image cs -> resident i (cur_id S) m S'.
Proof.
  intros Hok Hn Hi Hcur Hs Hst [x Hx].
  split; [destruct (step_ends M E o S sp (EvThread eflags) _ Hok Hn Logic.I Hst) as (out & [= <-] & (E1 & o1 & Hok1 & _)); by exists E1, o1|].
  unfold sys_step in Hst. destruct (_ =? 0); [done|]. destruct (kont_of S (cur_id S)); [|done..].
  destruct (kthread_trampoline_run sp eflags (sk S)) as [[[f|] s']| |] eqn:Hr; cbn [obind] in Hst; try done; injection Hst as <-.
  - destruct (exec_resident M E o S sp eflags f s' i Hok Hi Hcur Hs Hr) as (image & size & cs & eo & Hf & Hex & Hm).
    exists image, size, cs, eo. split; [done|]. split; [done|]. intros m Him. by destruct (Hm m Him).
  - unfold kont_of in Hx. cbn [konts] in Hx. by rewrite lookup_delete_eq in Hx.
Qed.

(** Some memory holds the image. *)
Definition memory_of (f : Z -> Z) (l : list Z) : memory := foldr (fun u m => store8 m u (f u)) ∅ l.

Lemma memory_of_at f l u : u ∈ l -> load8 (memory_of f l) u = u8 (f u).
Proof.
  induction l as [|x l IH]; [by intros ?%elem_of_nil|]. intros Hu. cbn. rewrite load8_store8. case_decide as Hx; [by subst|].
  apply IH. apply elem_of_cons in Hu as [->|]; [done|done].
Qed.

Lemma image_exists m0 image cs : exists m, image_memory m0 m image cs.
Proof.
  set (f u := if (u <? USER_INIT_CODE_ADDR + 4096) && (u - USER_INIT_CODE_ADDR <? cs)
              then load8 m0 (phys (image + EMXF_HEADER_SIZE) + (u - USER_INIT_CODE_ADDR)) else 0).
  exists (memory_of f (seqZ USER_INIT_CODE_ADDR 4096 ++ seqZ USER_INIT_STACK_ADDR 4096)). intros j Hj.
  rewrite !memory_of_at by (rewrite elem_of_app, !elem_of_seqZ; lia). unfold f. split.
  - rewrite (proj2 (Z.ltb_lt _ _)) by lia. replace (USER_INIT_CODE_ADDR + j - USER_INIT_CODE_ADDR) with j by lia. cbn [andb].
    case_if; [apply wrap_small, load8_range|done].
  - by rewrite (proj2 (Z.ltb_ge _ _)) by lia.
Qed.

(** A program that keeps to its pages when they hold its file never faults. *)
Lemma program_safe {A} (p : prog A) (Q : memory -> A -> Prop) M E o S sp eflags S1 i S' st :
  sys_ok M E o S -> counters_ok S -> 0 <= i < 16 -> current i S -> state (get_process i (sk S)) = USER_PROCESS_CREATED ->
  (forall image size cs eo m,
    initramfs_find (Some (at_arr (path (get_process i (sk S))))) LOCAL LOCAL (mem (km (sk S))) (bv (sk S)) = Some (image, size) ->
    emxf (mem (km (sk S))) image size cs eo -> image_memory (mem (km (sk S))) m image cs -> wp m p Q) ->
  sys_step sp (EvThread eflags) S = Some (Done (Running S1)) -> in_user (cur_id S) S1 ->
  rtc (ustep i) (S1, Ready p) (S', st) -> counters_ok S' -> current i S' -> no_fault S' st.
Proof.
  intros Hok Hn Hi Hc Hs Hp Hst Hu Hrun.
  destruct (thread_starts M E o S sp eflags S1 i Hok Hn Hi Hc Hs Hst Hu) as ((E1 & o1 & Hok1) & image & size & cs & eo & Hf & Hex & Hm).
  destruct (image_exists (mem (km (sk S))) image cs) as [m Him].
  apply (fine_no_fault i M (cur_id S) Q). eapply fine_run; [|exact Hrun].
  split; [by exists E1, o1|]. exists m. split; [by apply Hm|]. split; [done|]. by eapply Hp.
Qed.
End exec.
