(* ===== verification/ShellProcess.v ===== *)
(** * The user shell as a process

    The shell of Programs.v, with crt0.S around it, in the system of System.v:
    whatever its user types and whatever the other processes do, it never
    touches memory that is not its own, so it never brings the machine down. *)

From S2P Require Import Prelude Memory Programs.
From S2P Require Import Machine FrameAlloc Pmm Vmm Initramfs Kernel Sched User UserMem UserExec UserInv.
From S2P Require Import Syscall Calls System SystemTheorems ProcessMemory Ushell Userland.

Section shell.
Context (lit : string -> Z) (input : Z).

(** [main] of the shell, [n] rounds of its loop, under the [_start] of crt0.S. *)
Definition shell_process (n : nat) : prog unit :=
  r ← shell_main lit input n;
  match r with
  | inl _ => mret tt
  | inr status => crt0_start (mret status)
  end.

(** The literals are in the pages of the process, [input] is on its stack. *)
Record placed (m : memory) : Prop := {
  pl_layout : layout lit input m;
  pl_lit s j : s ∈ literals -> 0 <= j < Z.of_nat (length (chars s)) -> in_pages (lit s + j);
  pl_input j : 0 <= j < 32 -> in_stack (input + j);
}.

Lemma placed_same m m' : placed m -> same_outside input m m' -> placed m'.
Proof. intros [L P I] H. split; [by eapply layout_same|done..]. Qed.

Lemma page_not_null u : in_pages u -> u <> 0.
Proof. unfold in_pages, in_stack. intros [H|H] ->; discriminate H. Qed.

Lemma input_at m j : placed m -> 0 <= j < 32 -> input +u j = input + j /\ in_stack (input + j).
Proof. intros P Hj. destruct (la_input _ _ _ (pl_layout _ P)). split; [apply wrap_small; lia|by apply (pl_input _ P)]. Qed.

(** ** The actions *)

Lemma wp_write_lit m s n (Q : memory -> Z -> Prop) :
  placed m -> s ∈ literals -> n = Z.of_nat (length (chars s)) -> (0 < length (chars s))%nat ->
  (forall r, Q m r) -> wp m (write Programs.SYS_FD_STDOUT (lit s) n) Q.
Proof.
  intros P Hs -> Hlen HQ. split; [|intros _ r; apply HQ]. destruct (la_lit _ _ _ (pl_layout _ P) s Hs) as (H0 & H1 & _).
  apply (cf_write m (lit s)).
  - apply page_not_null. rewrite <- (Z.add_0_r (lit s)). apply (pl_lit _ P s 0 Hs). lia.
  - lia.
  - intros j Hj. rewrite wrap_small by lia. by apply (pl_lit _ P).
Qed.

(** A call whose answer is read as an [int]. *)
Lemma wp_int m c (Q : memory -> Z -> Prop) : call_fine m c -> (forall r, Q m (s32 r)) -> wp m (ret ← int80 c; mret (s32 ret)) Q.
Proof. by split. Qed.

Lemma wp_prompt m Q : placed m -> Q m tt -> wp m (shell_prompt lit) Q.
Proof.
  intros P HQ. unfold shell_prompt. apply wp_bind, wp_write_lit; [done|unfold literals; set_solver|done|simpl; lia|done].
Qed.

Lemma wp_input_is m i word Q :
  placed m -> 0 <= i -> i + Z.of_nat (length word) <= 32 -> (forall b, Q m b) -> wp m (input_is input i word) Q.
Proof.
  intros P. revert i. induction word as [|c word IH]; intros i Hi Hl HQ; [apply HQ|]. cbn [length] in Hl.
  cbn [input_is]. apply wp_bind. destruct (input_at m i P ltac:(lia)) as [E Hin]. split; [rewrite E; by right|].
  cbn. destruct (_ =? c); [apply IH; [lia|lia|done]|apply HQ].
Qed.

Lemma wp_run_program m line Q :
  placed m -> holds input m line -> load8 m (input + Z.of_nat (length line)) = 0 -> Q m tt -> wp m (run_program lit input) Q.
Proof.
  intros P H Hz HQ. pose proof (ho_fits _ _ _ H). unfold run_program. apply wp_bind, wp_int.
  { destruct (input_at m (Z.of_nat (length line)) P ltac:(lia)) as [E _].
    apply (cf_spawn m input (Z.of_nat (length line))); [|lia|by rewrite E|].
    - apply page_not_null. right. rewrite <- (Z.add_0_r input). apply (pl_input _ P). lia.
    - intros j Hj. destruct (input_at m j P ltac:(lia)) as [-> ?]. by right. }
  intros pid. destruct (s32 pid <? 0).
  - apply wp_bind, wp_write_lit; [done|unfold literals; set_solver|done|simpl; lia|done].
  - apply wp_bind, wp_int; [constructor|]. intros st. destruct (s32 st <? 0); [|done].
    apply wp_bind, wp_write_lit; [done|unfold literals; set_solver|done|simpl; lia|done].
Qed.

(** ** The loop *)

Definition line_kept (m : memory) (r : Z + Z) : Prop :=
  placed m /\ match r with inl n => exists line, n = Z.of_nat (length line) /\ holds input m line | inr _ => True end.

Lemma kept_line m line : placed m -> holds input m line -> line_kept m (inl (Z.of_nat (length line))).
Proof. intros P H. split; [done|by exists line]. Qed.

(** The store of a character or of the final NUL. *)
Lemma wp_put {B} m line b (p : prog B) Q :
  placed m -> holds input m line ->
  (forall m', m' = store8 m (input + Z.of_nat (length line)) b -> placed m' -> wp m' p Q) ->
  wp m (_ ← poke (input +u Z.of_nat (length line)) b; p) Q.
Proof.
  intros P H Hp. pose proof (ho_fits _ _ _ H). destruct (input_at m (Z.of_nat (length line)) P ltac:(lia)) as [E Hin].
  apply wp_bind. cbn. rewrite E. split; [done|]. apply Hp; [done|]. apply (placed_same m); [done|]. apply store_same. lia.
Qed.

Lemma wp_enter m line :
  placed m -> holds input m line ->
  wp m (_ ← write Programs.SYS_FD_STDOUT (lit (ln "")) 1;
        _ ← poke (input +u Z.of_nat (length line)) 0;
        quit ← is_quit input (Z.of_nat (length line));
        if quit : bool then mret (inr 0)
        else _ ← (if 0 <? Z.of_nat (length line) then run_program lit input else mret tt); _ ← shell_prompt lit; mret (inl 0)) line_kept.
Proof.
  intros P H. apply wp_bind, wp_write_lit; [done|unfold literals; set_solver|done|simpl; lia|]. intros _.
  apply (wp_put m line); [done|done|]. intros m' Hm P'. assert (H' : holds input m' line) by (subst m'; by apply holds_store).
  assert (Hz : load8 m' (input + Z.of_nat (length line)) = 0) by (subst m'; apply load8_store8_eq).
  apply wp_bind. unfold is_quit. assert (Hrest : forall b : bool, wp m' (if b then mret (inr 0)
    else _ ← (if 0 <? Z.of_nat (length line) then run_program lit input else mret tt); _ ← shell_prompt lit; mret (inl 0)) line_kept).
  { intros []; [by split|]. apply wp_bind. assert (Hend : wp m' (_ ← shell_prompt lit; mret (inl 0)) line_kept).
    { apply wp_bind, wp_prompt; [done|]. apply (kept_line m' []); [done|apply holds_nil]. }
    destruct (0 <? _); [by apply (wp_run_program m' line)|done]. }
  destruct (Z.eqb_spec (Z.of_nat (length line)) 4); [|apply Hrest].
  apply wp_input_is; [done|lia|simpl; lia|done].
Qed.

Lemma wp_round m line : placed m -> holds input m line -> wp m (shell_round lit input (Z.of_nat (length line))) line_kept.
Proof.
  intros P H. pose proof (kept_line m line P H) as Hk. pose proof (ho_fits _ _ _ H). unfold shell_round.
  apply wp_bind, wp_int; [constructor|]. intros r. set (c := s32 r).
  destruct (c =? 0); [apply wp_bind, wp_int; [constructor|done]|].
  destruct (c =? 8).
  { destruct (Z.ltb_spec 0 (Z.of_nat (length line))); [|done].
    apply wp_bind, wp_write_lit; [done|unfold literals; set_solver|done|simpl; lia|]. intros _.
    replace (Z.of_nat (length line) - 1) with (Z.of_nat (length (take (length line - 1) line))) by (rewrite length_take; lia).
    apply kept_line; [done|by apply holds_take]. }
  destruct (c =? 10); [by apply wp_enter|].
  destruct ((c <? 32) || (126 <? c) || (Z.of_nat (length line) =? 32 - 1)) eqn:Hc; [done|]. bool_simpl.
  assert (Hu : u8 c = c) by (apply wrap_small; lia). rewrite Hu.
  apply (wp_put m line); [done|done|]. intros m' Hm P'.
  destruct (input_at m' (Z.of_nat (length line)) P' ltac:(lia)) as [Ea Hin]. rewrite Ea.
  assert (H' : holds input m' (line ++ [c])).
  { subst m'. apply holds_snoc; [done|lia|]. unfold printable. by rewrite !(proj2 (Z.leb_le _ _)) by lia. }
  apply wp_bind, wp_int.
  - apply cf_write; [apply page_not_null; by right|lia|]. intros j Hj. replace j with 0 by lia. rewrite Z.add_0_r, <- Ea.
    rewrite wrap_wrap by lia. rewrite Ea. by right.
  - intros _. replace (Z.of_nat (length line) + 1) with (Z.of_nat (length (line ++ [c]))) by (rewrite length_app; simpl; lia).
    by apply kept_line.
Qed.

Lemma wp_loop n m line : placed m -> holds input m line -> wp m (shell_loop lit input n (Z.of_nat (length line))) (fun _ _ => True).
Proof.
  revert m line. induction n as [|n IH]; intros m line P H; [done|]. cbn [shell_loop]. apply wp_bind.
  eapply wp_mono; [|by apply wp_round]. intros m' [k|st] [P' Hr]; [|done]. destruct Hr as (line' & -> & H'). by apply IH.
Qed.

Lemma wp_process n m : placed m -> wp m (shell_process n) (fun _ _ => True).
Proof.
  intros P. unfold shell_process, shell_main. apply wp_bind. apply wp_bind, wp_prompt; [done|].
  eapply wp_mono; [|apply (wp_loop n m []); [done|apply holds_nil]]. intros m' [k|st] _; [done|]. cbn. split; [constructor|done].
Qed.

(** ** The theorem *)

Context {FA : FrameAllocator pmm_alloc_page pmm_free_page}.

(** The file that the record of process [i] names has the literals of the shell
    in its code, and [input] is on the stack. *)
Record shell_file (S : sys) (i : Z) : Prop := {
  sf_input : USER_INIT_STACK_ADDR <= input /\ input + 32 <= USER_INIT_STACK_ADDR + 4096;
  sf_lit image size cs eo s :
    initramfs_find (Some (at_arr (path (get_process i (sk S))))) LOCAL LOCAL (mem (km (sk S))) (bv (sk S)) = Some (image, size) ->
    emxf (mem (km (sk S))) image size cs eo -> s ∈ literals ->
    USER_INIT_CODE_ADDR <= lit s /\ lit s + Z.of_nat (length (chars s)) <= USER_INIT_CODE_ADDR + cs /\
    forall j c, chars s !! j = Some c ->
      load8 (mem (km (sk S))) (phys (image + EMXF_HEADER_SIZE) + (lit s - USER_INIT_CODE_ADDR + Z.of_nat j)) = c;
}.

Lemma file_placed S i image size cs eo m :
  shell_file S i ->
  initramfs_find (Some (at_arr (path (get_process i (sk S))))) LOCAL LOCAL (mem (km (sk S))) (bv (sk S)) = Some (image, size) ->
  emxf (mem (km (sk S))) image size cs eo -> image_memory (mem (km (sk S))) m image cs -> placed m.
Proof.
  intros [Hin Hlit] Hf Hex Him. assert (Hcs : cs <= 4096) by apply (ex_page _ _ _ _ _ Hex). split; [split|..].
  - lia.
  - intros s Hs. destruct (Hlit image size cs eo s Hf Hex Hs) as (H1 & H2 & _). lia.
  - intros s Hs. destruct (Hlit image size cs eo s Hf Hex Hs) as (H1 & H2 & H3). apply bytes_at_eq; [lia|lia|]. intros j c Hc.
    pose proof (lookup_lt_Some _ _ _ Hc). rewrite <- (H3 j c Hc).
    destruct (Him (lit s - USER_INIT_CODE_ADDR + Z.of_nat j) ltac:(lia)) as [He _].
    rewrite (proj2 (Z.ltb_lt _ cs)) in He by lia. rewrite <- He. f_equal. lia.
  - intros s j Hs Hj. destruct (Hlit image size cs eo s Hf Hex Hs) as (H1 & H2 & _). left. Z.div_mod_to_equations; lia.
  - intros j Hj. unfold in_stack. Z.div_mod_to_equations; lia.
Qed.

(** C4: the shell never brings the machine down.  Let a new thread get to user
    mode in a file with the shell's code.  In every state that the system reaches
    from there, with any keys typed, any answers to its calls and any other
    processes in between, the next action of the shell, when it is its turn, ends
    in a next state: no store or load of its own faults, and no pointer that it
    passes makes the kernel fault. *)
Theorem shell_never_faults M E o S sp eflags S1 i n S' st :
  sys_ok M E o S -> counters_ok S -> 0 <= i < 16 -> current i S -> state (get_process i (sk S)) = USER_PROCESS_CREATED ->
  shell_file S i -> sys_step sp (EvThread eflags) S = Some (Done (Running S1)) -> in_user (cur_id S) S1 ->
  rtc (ustep i) (S1, Ready (shell_process n)) (S', st) -> counters_ok S' -> current i S' -> no_fault S' st.
Proof.
  intros Hok Hn Hi Hc Hs Hfile. apply (program_safe _ (fun _ _ => True) M E o S sp eflags S1 i S' st Hok Hn Hi Hc Hs).
  intros image size cs eo m Hf Hex Him. apply wp_process. by eapply file_placed.
Qed.
End shell.

(** ** init and hello *)

Lemma wp_crt0 m main Q : wp m main (fun _ _ => True) -> wp m (crt0_start main) Q.
Proof.
  intros H. unfold crt0_start. apply wp_bind. eapply wp_mono; [|exact H]. intros m' st _. cbn. split; [constructor|done].
Qed.

(** init keeps to its pages when the path of the shell is in them. *)
Lemma wp_init lit m Q :
  path_at m (lit "/bin/shell") = Some (chars "/bin/shell") -> (forall j, 0 <= j <= 10 -> in_pages (lit "/bin/shell" +u j)) ->
  wp m (crt0_start (init_main lit)) Q.
Proof.
  intros Hp Hin. apply wp_crt0. unfold init_main. apply wp_bind, wp_int.
  - apply (cf_spawn m _ 10); [|lia| |done].
    + intros H0. specialize (Hin 0 ltac:(lia)). rewrite H0 in Hin. by apply page_not_null in Hin.
    + unfold path_at in Hp. destruct (strlen 32 _) as [k|] eqn:Hk; [|done]. destruct (k =? 0); [done|].
      assert (Hl : length (bytes_at m (lit "/bin/shell") k) = 10%nat) by (apply (inj Some) in Hp; rewrite Hp; reflexivity).
      apply strlen_Some in Hk as (Hr & Hz & _). unfold bytes_at in Hl. rewrite length_fmap, length_seqZ in Hl.
      replace 10 with k by lia. exact Hz.
  - intros pid. destruct (s32 pid <? 0); [done|]. apply wp_bind, wp_int; [constructor|]. intros st. by destruct (s32 st <? 0).
Qed.

Lemma wp_hello lit m Q :
  lit (ln "hello from C") <> 0 -> (forall j, 0 <= j < 13 -> in_pages (lit (ln "hello from C") +u j)) ->
  wp m (crt0_start (hello_main lit)) Q.
Proof.
  intros H0 Hin. apply wp_crt0. unfold hello_main. apply wp_bind, wp_int; [by apply cf_write|done].
Qed.
