(* ===== verification/Kshell.v ===== *)
(** * The kernel shell (src/kernel/kshell.c, src/kernel/timer.c)

    The line editor that the keyboard interrupt feeds, and the commands.  The
    state of the whole kernel is [kernel]: the tables of Kernel.v with the
    static variables of kshell.c, timer.c and interrupt.c and the devices.
    A command may call [sched_yield]; what is left of it then is a [sh_kont]. *)

From S2P Require Import Prelude Memory Tty Printk Keyboard Machine PmmInit FrameAlloc Pmm Vmm VmmSpec Kmalloc Initramfs Kernel Sched User.
From S2P Require Import Gdt Idt Ports Asm Entry Syscall.

(** ** State *)

Record kshell := mkShell {
  buffer : list Z;               (** [char buffer[128]] *)
  length : Z;
  command_ready : Z;
  active : Z;
}.

(** timer.c *)
Record timer := mkTimer { ticks : Z; last_printed_ticks : Z }.

Record kernel := mkKernel {
  kk : ks;
  sh : kshell;
  tm : timer;
  irq_counts : list Z;           (** interrupt.c *)
  dv : devices;
}.

Definition on_kk (f : ks -> ks) (k : kernel) : kernel := mkKernel (f (kk k)) (sh k) (tm k) (irq_counts k) (dv k).
Definition set_sh (s : kshell) (k : kernel) : kernel := mkKernel (kk k) s (tm k) (irq_counts k) (dv k).
Definition set_tm (t : timer) (k : kernel) : kernel := mkKernel (kk k) (sh k) t (irq_counts k) (dv k).
Definition set_counts (l : list Z) (k : kernel) : kernel := mkKernel (kk k) (sh k) (tm k) l (dv k).
Definition set_dv (d : devices) (k : kernel) : kernel := mkKernel (kk k) (sh k) (tm k) (irq_counts k) d.
Definition say (format : string) (args : list varg) : kernel -> kernel := on_kk (kprintk format args).
Definition serial_say (data : list Z) : kernel -> kernel := on_kk (on_km (serial_writestring data)).

(** ** timer.c *)

Definition timer_tick (k : kernel) : kernel := set_tm (mkTimer (ticks (tm k) +u 1) (last_printed_ticks (tm k))) k.
Definition timer_get_ticks (k : kernel) : Z := ticks (tm k).

(** A [char[11]] that [u32_to_hex] fills, as a string. *)
Definition hex_string (v : Z) : list Z := c_string (u32_to_hex (replicate 11 0) v).

Definition timer_print (k : kernel) : kernel :=
  if 100 <=? ticks (tm k) -u last_printed_ticks (tm k) then
    let k := serial_say (chars "TICKS: ") k in
    let k := serial_say (hex_string (ticks (tm k))) k in
    let k := serial_say (chars (ln "")) k in
    set_tm (mkTimer (ticks (tm k)) (ticks (tm k))) k
  else k.

(** ** The line editor *)

Abbreviation BUFFER_SIZE := 128.

Definition kshell_init (k : kernel) : kernel :=
  let k := set_sh (mkShell (replicate 128 0) 0 0 (active (sh k))) k in
  let k := say "kshell> " [] k in
  set_sh (mkShell (buffer (sh k)) (length (sh k)) (command_ready (sh k)) 1) k.

Definition kshell_on_char (c : Z) (k : kernel) : kernel :=
  let s := sh k in
  if active s =? 0 then k
  else if c =? 10 then
    let k := say "%c" [VInt c] k in
    set_sh (mkShell (buffer s) (length s) 1 (active s)) k
  else if c =? 8 then
    if 0 <? length s then
      let n := length s - 1 in
      let k := set_sh (mkShell (<[Z.to_nat n := 0]> (buffer s)) n (command_ready s) (active s)) k in
      say "%c" [VInt c] k
    else k
  else if length s <? BUFFER_SIZE - 1 then
    let b := <[Z.to_nat (length s) := c]> (buffer s) in
    let n := length s + 1 in
    let k := set_sh (mkShell (<[Z.to_nat n := 0]> b) n (command_ready s) (active s)) k in
    say "%c" [VInt c] k
  else k.

(** ** Commands *)

Inductive command :=
  | cmd_help | cmd_clear | cmd_ticks | cmd_irq | cmd_panic | cmd_reboot | cmd_pagefault
  | cmd_vmmtest | cmd_heaptest | cmd_initramfs | cmd_userspawn | cmd_userland | cmd_yield.

Record kshell_cmd := mkCmd { name : string; desc : string; fn : command }.

Definition commands : list kshell_cmd := [
  mkCmd "help" "List commands" cmd_help;
  mkCmd "clear" "Clear screen" cmd_clear;
  mkCmd "ticks" "Show timer" cmd_ticks;
  mkCmd "irq" "Show IRQ info" cmd_irq;
  mkCmd "panic" "Trigger a kernel panic" cmd_panic;
  mkCmd "reboot" "Reboot machine" cmd_reboot;
  mkCmd "pagefault" "Trigger page fault" cmd_pagefault;
  mkCmd "vmmtest" "Run VMM smoke test" cmd_vmmtest;
  mkCmd "heaptest" "Run heap smoke test" cmd_heaptest;
  mkCmd "initramfs" "Show first boot module" cmd_initramfs;
  mkCmd "userspawn" "Spawn user program by path" cmd_userspawn;
  mkCmd "userland" "Start the userland init process" cmd_userland;
  mkCmd "yield" "Yield to the next runnable task" cmd_yield ].

(** What is left of a command that called [sched_yield]. *)
Inductive sh_kont := ShNothing | ShVmmtest | ShUserland (pid : Z).

Inductive sh_out :=
  | ShDone (k : kernel)
  | ShYield (rest : sh_kont) (k : kernel)      (** [sched_yield] was called; the rest when task 0 runs *)
  | ShTrap (vector : Z) (k : kernel)           (** the processor raises an exception *)
  | ShReset (k : kernel).                      (** the machine is being reset *)

Section shell_commands.
Context (sp : Z).                              (** stack pointer at a switch *)
Context (cmd_vmmtest_at : Z).                  (** where the linker put [cmd_vmmtest] *)
Context (kbc_fuel : nat).                      (** polls of the keyboard controller *)

Definition yield (rest : sh_kont) (k : kernel) : outcome sh_out :=
  let* (_, s) := sched_yield sp (kk k) in
  Done (ShYield rest (on_kk (fun _ => s) k)).

Definition run_help (k : kernel) : kernel :=
  let k := say (ln "Available commands:") [] k in
  for_range 0 (Z.of_nat (List.length commands)) (fun i k =>
    match commands !! Z.to_nat i with
    | Some c => say (ln "- %s: %s") [VStr (Some (chars (name c))); VStr (Some (chars (desc c)))] k
    | None => k
    end) k.

Definition run_clear (k : kernel) : kernel := on_kk (on_km (fun m => set_con (terminal_init (con m)) m)) k.

Definition run_ticks (k : kernel) : kernel :=
  let t := timer_get_ticks k in
  say (ln "Ticks: %u (%x)" +:+ ln "Uptime: %us") [VInt t; VInt t; VInt (t / 100)] k.

Definition run_irq (k : kernel) : kernel :=
  for_range 0 16 (fun i k => say (ln "irq%u: %u") [VInt i; VInt (at_arr (irq_counts k) i)] k) k.

(** The division by zero is exception 0. *)
Definition run_panic (k : kernel) : sh_out := ShTrap 0 (say (ln "Triggering exception...") [] k).

Definition run_reboot (k : kernel) : outcome sh_out :=
  let k := say (ln "Rebooting...") [] k in
  match arch_reboot kbc_fuel (dv k) with
  | Some d => Done (ShReset (set_dv d k))
  | None => Diverge
  end.

(** The access of [cmd_pagefault] goes through the page tables. *)
Definition run_pagefault (k : kernel) : sh_out :=
  let k := say (ln "Triggering pagefault...") [] k in
  match user_byte (kk k) VMM_DIRECT_MAP_LIMIT with
  | None => ShTrap 14 k
  | Some _ => ShDone k
  end.

(** [int] results of lookups: the code, and the variable passed by address. *)
Definition lookup_ret (r : option Z) (old : Z) : Z * Z :=
  match r with Some p => (0, p) | None => (-1, old) end.

(** [cmd_vmmtest] up to its [sched_yield]. *)
Definition vmmtest_start (k : kernel) : outcome (Z * kernel) :=
  let '(ret, s) := sched_set_current_address_space (vmm_get_kernel_address_space (km (kk k))) (kk k) in
  let s := kprintk (ln "sched task0 address space: ret=%x") [VInt (u32 ret)] s in
  let* (ret, s) := kthread_create (Some sched_zero_address_space_test_fn) s in
  Done (ret, on_kk (fun _ => kprintk (ln "sched address space test task=%x") [VInt (u32 ret)] s) k).

Abbreviation RWU := (Z.lor (Z.lor VMM_PAGE_PRESENT VMM_PAGE_WRITABLE) VMM_PAGE_USER).

(** The part that works in a fresh address space. *)
Definition vmmtest_space (s : ks) : ks :=
  let '(space, s) := call_km vmm_create_address_space s in
  let '(ret, kernel_paddr) := lookup_ret (vmm_get_paddr cmd_vmmtest_at LOCAL (km s)) 0 in
  let '(ret', shared) := lookup_ret (vmm_get_paddr_in space cmd_vmmtest_at LOCAL (km s)) 0 in
  let ret := if negb (kernel_paddr =? shared) then -1 else Z.lor ret ret' in
  let s := kprintk (ln "vmm address space=%x kernel=%x shared=%x ret=%x")
    [VInt space; VInt kernel_paddr; VInt shared; VInt (u32 ret)] s in
  let '(user_page, s) := call_km pmm_alloc_page s in
  let '(ret, s) := call_km (vmm_map_page_in space 0x00400000 user_page RWU) s in
  let '(ret', user_paddr) := lookup_ret (vmm_get_paddr_in space 0x00400000 LOCAL (km s)) 0 in
  let ret := if negb (user_paddr =? user_page) then -1 else Z.lor ret ret' in
  let s := kprintk (ln "vmm user map page=%x paddr=%x ret=%x") [VInt user_page; VInt user_paddr; VInt (u32 ret)] s in
  let '(ret, s) := call_km (vmm_map_page_in space 0x00400000 user_page RWU) s in
  let s := kprintk (ln "vmm duplicate map: ret=%x") [VInt (u32 ret)] s in
  let '(unmap_ret, s) := call_km (vmm_unmap_page_in space 0x00400000) s in
  let '(lookup, user_paddr) := lookup_ret (vmm_get_paddr_in space 0x00400000 LOCAL (km s)) user_paddr in
  let s := kprintk (ln "vmm user unmap: ret=%x lookup=%x") [VInt (u32 unmap_ret); VInt (u32 lookup)] s in
  let s := on_km (pmm_free_page user_page) s in
  on_km (vmm_destroy_address_space space) s.

(** The part that maps a page in the low half of the kernel's own directory. *)
Definition vmmtest_kernel (s : ks) : ks :=
  let '(ret, paddr) := lookup_ret (vmm_get_paddr 0x00F00000 LOCAL (km s)) 0 in
  let s := kprintk (ln "vmm kernel low before: ret=%x") [VInt (u32 ret)] s in
  let '(ret, s) := call_km (vmm_map_page 0x00F00000 0 (Z.lor VMM_PAGE_PRESENT VMM_PAGE_WRITABLE)) s in
  let s := kprintk (ln "vmm_map_page: ret=%x") [VInt (u32 ret)] s in
  let '(ret, paddr) := lookup_ret (vmm_get_paddr 0x00F00000 LOCAL (km s)) paddr in
  let s := kprintk (ln "vmm_get_paddr after map: ret=%x paddr=%x") [VInt (u32 ret); VInt paddr] s in
  let '(ret, s) := call_km (vmm_unmap_page 0x00F00000) s in
  let s := kprintk (ln "vmm_unmap_page: ret=%x") [VInt (u32 ret)] s in
  let '(ret, paddr) := lookup_ret (vmm_get_paddr 0x00F00000 LOCAL (km s)) paddr in
  kprintk (ln "vmm kernel low after: ret=%x") [VInt (u32 ret)] s.

(** The rest of [cmd_vmmtest]. *)
Definition vmmtest_rest (s : ks) : ks :=
  let ret := match vmm_get_paddr USER_INIT_CODE_ADDR LOCAL (km s) with Some _ => 0 | None => -1 end in
  let s := kprintk (ln "vmm kernel user code: ret=%x") [VInt (u32 ret)] s in
  vmmtest_kernel (vmmtest_space s).

Definition run_vmmtest (k : kernel) : outcome sh_out :=
  let* (ret, k) := vmmtest_start k in
  if 0 <=? ret then yield ShVmmtest k
  else Done (ShDone (on_kk vmmtest_rest k)).

Definition store_word (p v : Z) (m : mm) : mm := set_mem (wr32 (mem m) p v) m.

Definition run_heaptest (s : mm) : outcome mm :=
  let* (a, s) := kmalloc 4 s in
  let* (b, s) := kmalloc 4 s in
  let s := kprint (ln "kmalloc a=%x b=%x") [VInt a; VInt b] s in
  if (a =? NULL) || (b =? NULL) then Done s
  else
    let s := store_word a 0x12345678 s in
    let s := store_word b 0x9abcdef0 s in
    let s := kprint (ln "heap values a=%x b=%x") [VInt (rd32 (mem s) a); VInt (rd32 (mem s) b)] s in
    let* s := kfree a s in
    let* (c, s) := kmalloc 4 s in
    let s := kprint (ln "kmalloc c=%x") [VInt c] s in
    if c =? NULL then Done s
    else
      let s := store_word c 0xfeedbeef s in
      let s := kprint (ln "heap value c=%x reused=%x") [VInt (rd32 (mem s) c); VInt (if c =? a then 1 else 0)] s in
      let* s := kfree b s in
      kfree c s.

Definition run_initramfs (k : kernel) : kernel := on_kk (fun s => on_km (initramfs_list (bv s)) s) k.

(** The length of the literal is computed by [strlen]. *)
Definition run_userspawn (k : kernel) : outcome kernel :=
  let cmd_len := Z.of_nat (List.length (chars "userspawn")) in
  if (length (sh k) <=? cmd_len) || negb (at_arr (buffer (sh k)) cmd_len =? 32)
  then Done (say (ln "usage: userspawn PATH") [] k)
  else
    let path i := at_arr (buffer (sh k)) (cmd_len + 1 + i) in
    let* (process_id, s) := user_spawn (Some path) (kk k) in
    let k := on_kk (fun _ => kprintk (ln "userspawn: process=%x") [VInt (u32 process_id)] s) k in
    Done (if process_id <? 0 then say (ln "userspawn: failed to create user process") [] k else k).

(** The loop of [user_init] (src/kernel/user.c), a round at a time. *)
Definition user_init_round (n : Z) (k : kernel) : outcome sh_out :=
  if user_init_waits n (kk k) then yield (ShUserland n) k
  else Done (ShDone (on_kk user_init_end k)).

Definition run_user_init (k : kernel) : outcome sh_out :=
  let* (p, s) := user_init_start (kk k) in
  let k := on_kk (fun _ => s) k in
  match p with
  | None => Done (ShDone k)
  | Some n => user_init_round n k
  end.

Definition run_yield (k : kernel) : outcome sh_out :=
  yield ShNothing (on_kk (fun s => set_kb (keyboard_buffer_clear (kb s)) s) k).

(** [cmd.fn()] *)
Definition run_command (c : command) (k : kernel) : outcome sh_out :=
  match c with
  | cmd_help => Done (ShDone (run_help k))
  | cmd_clear => Done (ShDone (run_clear k))
  | cmd_ticks => Done (ShDone (run_ticks k))
  | cmd_irq => Done (ShDone (run_irq k))
  | cmd_panic => Done (run_panic k)
  | cmd_reboot => run_reboot k
  | cmd_pagefault => Done (run_pagefault k)
  | cmd_vmmtest => run_vmmtest k
  | cmd_heaptest => let* m := run_heaptest (km (kk k)) in Done (ShDone (on_kk (set_km m) k))
  | cmd_initramfs => Done (ShDone (run_initramfs k))
  | cmd_userspawn => let* k := run_userspawn k in Done (ShDone k)
  | cmd_userland => run_user_init k
  | cmd_yield => run_yield k
  end.

(** The word before the first space of the line. *)
Definition command_length (s : kshell) : Z :=
  match find_range 0 (length s) (fun i => at_arr (buffer s) i =? 32) with
  | Some i => i
  | None => length s
  end.

Definition find_command (s : kshell) : option kshell_cmd :=
  let input_cmd_len := command_length s in
  match find_range 0 (Z.of_nat (List.length commands)) (fun i =>
    match commands !! Z.to_nat i with
    | Some c =>
      let cmd_len := Z.of_nat (List.length (chars (name c))) in
      (cmd_len =? input_cmd_len) && (memcmp (at_arr (buffer s)) (at_arr (chars (name c))) cmd_len =? 0)
    | None => false
    end) with
  | Some i => commands !! Z.to_nat i
  | None => None
  end.

Definition kshell_exec (k : kernel) : outcome sh_out :=
  match strlen 128 (at_arr (buffer (sh k))) with
  | None => Diverge
  | Some n =>
    if n =? 0 then Done (ShDone k)
    else match find_command (sh k) with
         | Some c => run_command (fn c) k
         | None => Done (ShDone (say (ln "Unknown command") [] k))
         end
  end.

(** After the command, the shell starts a new line. *)
Definition then_init (r : sh_out) : sh_out :=
  match r with
  | ShDone k => ShDone (kshell_init k)
  | r => r
  end.

Definition kshell_poll (k : kernel) : outcome sh_out :=
  if command_ready (sh k) =? 0 then Done (ShDone k)
  else let* r := kshell_exec k in Done (then_init r).

(** Task 0 runs again after a [sched_yield] of a command. *)
Definition kshell_resume (rest : sh_kont) (k : kernel) : outcome sh_out :=
  let* r := match rest with
            | ShNothing => Done (ShDone k)
            | ShVmmtest => Done (ShDone (on_kk vmmtest_rest k))
            | ShUserland n => user_init_round n k
            end in
  Done (then_init r).
End shell_commands.
