(* ===== verification/Interrupt.v ===== *)
(** * Interrupts and exceptions (src/kernel/interrupt.c, src/kernel/arch/i386/interrupt.c)

    What the stubs of isr_stub.S call.  An exception is reported on the console
    and on the serial line and halts the machine; an interrupt is counted,
    handled and acknowledged. *)

From S2P Require Import Prelude Memory Tty Printk Keyboard Machine PmmInit FrameAlloc Pmm Vmm Kmalloc Initramfs Kernel Sched User.
From S2P Require Import Gdt Idt Ports Asm Entry Kshell.

(** ** Exceptions

    [ex_frame] (Entry.v) is what the stub and the processor pushed. *)

Record ex_extra := mkExtra { x_name : string; x_value : Z }.
Record ex_report := mkReport {
  rp_name : string; rp_vector : Z; rp_error_code : Z; rp_pc : Z; rp_status : Z;
  extras : list ex_extra;        (** [extra_count] of the twelve *)
}.

Definition exception_names : list string := [
  "#DE divide by zero"; "#DB debug"; "NMI interrupt"; "#BP breakpoint"; "#OF overflow";
  "#BR bound range exceeded"; "#UD invalid opcode"; "#NM device not available"; "#DF double fault";
  "coprocessor segment overrun"; "#TS invalid TSS"; "#NP segment not present"; "#SS stack-segment fault";
  "#GP general protection fault"; "#PF page fault"; "reserved"; "#MF x87 floating-point exception";
  "#AC alignment check"; "#MC machine check"; "#XM SIMD floating-point exception";
  "#VE virtualization exception"; "#CP control protection exception";
  "reserved"; "reserved"; "reserved"; "reserved"; "reserved"; "reserved";
  "#HV hypervisor injection exception"; "#VC VMM communication exception"; "#SX security exception"; "reserved" ].

(** [paging_fault_addr] reads CR2. *)
Definition add_extra (n : string) (v : Z) (l : list ex_extra) : list ex_extra := l ++ [mkExtra n v].

Definition ex_extras (cr2 : Z) (f : ex_frame) : list ex_extra :=
  let l := add_extra "CS" (ef_cs f) [] in
  let l := if negb (Z.land (ef_cs f) 0x3 =? 0)
           then add_extra "USER_SS" (ef_user_ss f) (add_extra "USER_ESP" (ef_user_esp f) l) else l in
  if ef_vector f =? 14 then
    let error := ef_error_code f in
    let l := add_extra "CR2" cr2 l in
    let l := add_extra "PF_PRESENT" (Z.land (Z.shiftr error 0) 0x1) l in
    let l := add_extra "PF_WRITE" (Z.land (Z.shiftr error 1) 0x1) l in
    let l := add_extra "PF_USER" (Z.land (Z.shiftr error 2) 0x1) l in
    let l := add_extra "PF_RSVD" (Z.land (Z.shiftr error 3) 0x1) l in
    add_extra "PF_ID" (Z.land (Z.shiftr error 4) 0x1) l
  else l.

Definition ex_report_of (cr2 : Z) (f : ex_frame) : ex_report :=
  mkReport (if ef_vector f <? 32 then default "unknown" (exception_names !! Z.to_nat (ef_vector f)) else "unknown")
    (ef_vector f) (ef_error_code f) (ef_eip f) (ef_eflags f) (ex_extras cr2 f).

(** A line on the serial port: a label, a text, LF. *)
Definition serial_line (label : string) (text : list Z) (k : kernel) : kernel :=
  serial_say (chars (ln "")) (serial_say text (serial_say (chars label) k)).

(** The body of the loop over the extras. *)
Definition print_extra (x : ex_extra) (k : kernel) : kernel :=
  let extra_hex := hex_string (x_value x) in
  let k := say (ln "%s: %s") [VStr (Some (chars (x_name x))); VStr (Some extra_hex)] k in
  let k := serial_say (chars (x_name x)) k in
  let k := serial_say (chars ": ") k in
  let k := serial_say extra_hex k in
  serial_say (chars (ln "")) k.

(** The state in which the machine halts. *)
Definition ex_handler (r : ex_report) (k : kernel) : kernel :=
  let error_hex := hex_string (rp_error_code r) in
  let pc_hex := hex_string (rp_pc r) in
  let status_hex := hex_string (rp_status r) in
  let k := say (ln "EXCEPTION: %s") [VStr (Some (chars (rp_name r)))] k in
  let k := say (ln "Error code: %s") [VStr (Some error_hex)] k in
  let k := say (ln "PC: %s") [VStr (Some pc_hex)] k in
  let k := say (ln "Status: %s") [VStr (Some status_hex)] k in
  let k := serial_line "EXCEPTION: " (chars (rp_name r)) k in
  let k := serial_line "Error code: " error_hex k in
  let k := serial_line "PC: " pc_hex k in
  let k := serial_line "Status: " status_hex k in
  fold_left (fun k x => print_extra x k) (extras r) k.

Definition i386_ex_handler (cr2 : Z) (f : ex_frame) (k : kernel) : kernel := ex_handler (ex_report_of cr2 f) k.

(** ** Interrupts *)

Definition irq_ack (irq : Z) (k : kernel) : kernel := set_dv (pic_send_eoi (u8 irq) (dv k)) k.

(** The line that logs a key. *)
Definition log_key (sc c : Z) (k : kernel) : kernel :=
  let k := serial_say (chars "scancode=") k in
  let k := serial_say (hex_string sc) k in
  let k := serial_say (chars " key=") k in
  let k := serial_say [c] k in
  serial_say (chars (ln "")) k.

(** [sc] is what [keyboard_read] finds at the data port. *)
Definition on_key (sc : Z) (k : kernel) : kernel :=
  let c := keyboard_decode sc in
  if c =? 0 then k
  else
    let k := if user_has_input_focus (kk k)
             then on_kk (fun s => set_kb (keyboard_buffer_push c (kb s)) s) k
             else kshell_on_char c k in
    log_key sc c k.

Definition irq_handler (irq sc : Z) (k : kernel) : kernel :=
  let k := if irq <? 16
           then set_counts (<[Z.to_nat irq := at_arr (irq_counts k) irq +u 1]> (irq_counts k)) k else k in
  let k := if irq =? 0 then timer_tick k else k in
  let k := if irq =? 1 then on_key sc k else k in
  irq_ack irq k.

Definition irq_get_counts (k : kernel) : list Z := irq_counts k.
