(* ===== verification/KshellTheorems.v ===== *)
(** * The kernel shell and the interrupts: theorems

    The line editor keeps the line that the keys describe, a line runs the
    command it names, and an interrupt leaves the controllers as it found
    them. *)

From S2P Require Import Prelude Memory Tty Printk Keyboard Machine PmmInit FrameAlloc Pmm Vmm Kmalloc Initramfs Kernel Sched User.
From S2P Require Import Gdt Idt Ports IrqLines Asm Entry Syscall Kshell Interrupt.

(** [length] is the variable of kshell.c. *)
Abbreviation len l := (Z.of_nat (List.length l)).

(** ** The line editor *)

(** What a key does to a line. *)
Definition edit (l : list Z) (c : Z) : list Z :=
  if c =? 10 then l
  else if c =? 8 then take (List.length l - 1) l
  else if len l <? 127 then l ++ [c] else l.

(** The buffer holds the line [l]: its characters, and zeros up to the end. *)
Record holds_line (s : kshell) (l : list Z) : Prop := {
  hl_buffer : buffer s = l ++ replicate (128 - List.length l) 0;
  hl_length : length s = len l;
  hl_bound : len l <= 127;
  hl_chars : Forall (fun c => c <> 0) l;
}.

Lemma say_sh f args k : sh (say f args k) = sh k.
Proof. done. Qed.

Lemma init_line k : holds_line (sh (kshell_init k)) [] /\ active (sh (kshell_init k)) = 1 /\ command_ready (sh (kshell_init k)) = 0.
Proof. by split. Qed.

Lemma last_split (l : list Z) : l <> [] -> exists x, l = take (List.length l - 1) l ++ [x].
Proof.
  intros Hl. destruct (exists_last Hl) as (l' & x & ->). exists x. rewrite length_app. simpl.
  replace (List.length l' + 1 - 1)%nat with (List.length l') by lia. by rewrite take_app_length.
Qed.

Lemma replicate_head n : (0 < n)%nat -> replicate n 0 = 0 :: replicate (n - 1) 0.
Proof. intros Hn. destruct n; [lia|]. simpl. by rewrite Nat.sub_0_r. Qed.

Lemma insert_after (l : list Z) n c : (0 < n)%nat ->
  <[List.length l := c]> (l ++ replicate n 0) = l ++ c :: replicate (n - 1) 0.
Proof. intros Hn. rewrite (replicate_head n) by done. replace (List.length l) with (List.length l + 0)%nat at 1 by lia. by rewrite insert_app_r. Qed.

(** One key. *)
Lemma on_char_line c k l :
  active (sh k) = 1 -> c <> 0 -> holds_line (sh k) l ->
  let s' := sh (kshell_on_char c k) in
  holds_line s' (edit l c) /\ active s' = 1 /\ command_ready s' = if c =? 10 then 1 else command_ready (sh k).
Proof.
  intros Ha Hc [Hb Hn Hl Hf]. cbv zeta. unfold kshell_on_char, edit. rewrite Ha. cbn [Z.eqb].
  destruct (Z.eqb_spec c 10); [by split; [|split]|]. destruct (Z.eqb_spec c 8).
  - destruct (Z.ltb_spec 0 (length (sh k))) as [Hpos|Hpos].
    + destruct (last_split l) as [x Hx]; [intros ->; simpl in *; lia|]. assert (Hlen : List.length (take (List.length l - 1) l) = (List.length l - 1)%nat) by (rewrite length_take; lia).
      split; [|done]. split; cbn [sh say on_kk set_sh buffer length].
      * rewrite Hb, Hx at 1. rewrite <- app_assoc. cbn [app]. rewrite Hlen, Hn. replace (Z.to_nat (len l - 1)) with (List.length (take (List.length l - 1) l) + 0)%nat by lia.
        rewrite insert_app_r. cbn [insert list_insert]. f_equal. rewrite (replicate_head (128 - (List.length l - 1))) by lia. do 2 f_equal. lia.
      * rewrite Hn, Hlen. lia.
      * rewrite Hlen. lia.
      * by apply Forall_take.
    + assert (l = []) as -> by (destruct l; [done|simpl in *; lia]). by split; [|split].
  - rewrite Hn. destruct (Z.ltb_spec (len l) (128 - 1)), (Z.ltb_spec (len l) 127); try lia.
    + split; [|done]. split; cbn [sh say on_kk set_sh buffer length].
      * rewrite Hb, Nat2Z.id, insert_after by lia.
        replace (l ++ c :: replicate (128 - List.length l - 1) 0) with ((l ++ [c]) ++ replicate (128 - List.length l - 1) 0) by (by rewrite <- app_assoc).
        replace (Z.to_nat (len l + 1)) with (List.length (l ++ [c])) by (rewrite length_app; simpl; lia).
        rewrite insert_after by lia. rewrite (replicate_head (128 - List.length (l ++ [c]))) by (rewrite length_app; simpl; lia).
        do 3 f_equal. rewrite length_app. simpl. lia.
      * rewrite length_app. simpl. lia.
      * rewrite length_app. simpl. lia.
      * apply Forall_app. split; [done|]. by constructor.
    + by split; [|split].
Qed.

(** The keys of a line. *)
Lemma on_keys_line cs k l :
  active (sh k) = 1 -> Forall (fun c => c <> 0) cs -> holds_line (sh k) l ->
  let s' := sh (fold_left (fun k c => kshell_on_char c k) cs k) in
  holds_line s' (fold_left edit cs l) /\ active s' = 1 /\
  command_ready s' = if bool_decide (10 ∈ cs) then 1 else command_ready (sh k).
Proof.
  intros Ha Hcs. revert k l Ha. induction Hcs as [|c cs Hc _ IH]; intros k l Ha Hl; [done|]. cbn [fold_left].
  destruct (on_char_line c k l Ha Hc Hl) as (Hl1 & Ha1 & Hr1). destruct (IH _ _ Ha1 Hl1) as (Hl2 & Ha2 & Hr2).
  split; [done|]. split; [done|]. rewrite Hr2, Hr1. destruct (Z.eqb_spec c 10) as [->|Hne].
  - rewrite (bool_decide_eq_true_2 (10 ∈ 10 :: cs)) by (by left). by case_bool_decide.
  - case_bool_decide as H1; case_bool_decide as H2; try done; exfalso; [by apply H2; right|].
    apply elem_of_cons in H2 as [?|?]; [congruence|done].
Qed.

(** ** The command of a line *)

Fixpoint first_word (l : list Z) : list Z :=
  match l with
  | [] => []
  | c :: l => if c =? 32 then [] else c :: first_word l
  end.

Lemma line_at s l i : holds_line s l -> 0 <= i -> at_arr (buffer s) i = default 0 (l !! Z.to_nat i).
Proof.
  intros [Hb _ _ _] Hi. unfold at_arr. rewrite Hb. destruct (decide (Z.to_nat i < List.length l)%nat).
  - by rewrite lookup_app_l.
  - rewrite lookup_app_r, (lookup_ge_None_2 l) by lia. destruct (_ !! _) eqn:E; [|done]. by apply lookup_replicate in E as [-> _].
Qed.

Lemma word_length l :
  match find_range 0 (len l) (fun i => default 0 (l !! Z.to_nat i) =? 32) with Some i => i | None => len l end = len (first_word l) /\
  first_word l = take (List.length (first_word l)) l.
Proof.
  assert (H : forall l, first_word l = take (List.length (first_word l)) l /\ Forall (fun c => c <> 32) (first_word l) /\
    (List.length (first_word l) <= List.length l)%nat /\
    ((List.length (first_word l) < List.length l)%nat -> l !! List.length (first_word l) = Some 32)).
  { clear. intros l. induction l as [|c l IH]; [simpl; repeat split; done || lia|]. cbn [first_word]. destruct (Z.eqb_spec c 32) as [->|Hne].
    - simpl. repeat split; try done; lia.
    - destruct IH as (H1 & H2 & H3 & H4). cbn [List.length take]. rewrite <- H1. split; [done|]. split; [by constructor|]. split; [lia|].
      intros Hlt. cbn. apply H4. lia. }
  destruct (H l) as (H1 & H2 & H3 & H4). split; [|done].
  assert (Hin : forall i, 0 <= i < len (first_word l) -> default 0 (l !! Z.to_nat i) <> 32).
  { intros i Hi. rewrite Forall_lookup in H2. destruct (first_word l !! Z.to_nat i) as [c|] eqn:E.
    - pose proof (H2 _ _ E) as Hc. rewrite H1, lookup_take in E. case_decide; [|done]. by rewrite E.
    - apply lookup_ge_None in E. lia. }
  destruct (find_range 0 (len l) _) as [i|] eqn:E.
  - apply find_range_Some in E as (Hi & Hp & Hn). apply Z.eqb_eq in Hp.
    destruct (Z.lt_trichotomy i (len (first_word l))) as [Hlt|[?|Hgt]]; [|done|].
    + by destruct (Hin i); [lia|].
    + specialize (Hn (len (first_word l)) ltac:(lia)). rewrite Nat2Z.id, H4 in Hn by lia. done.
  - rewrite find_range_None in E. destruct (decide (List.length (first_word l) < List.length l)%nat) as [Hlt|]; [|lia].
    specialize (E (len (first_word l)) ltac:(lia)). rewrite Nat2Z.id, H4 in E by lia. done.
Qed.

Lemma command_length_spec s l : holds_line s l -> command_length s = len (first_word l).
Proof.
  intros Hl. rewrite <- (proj1 (word_length l)). unfold command_length. rewrite (hl_length _ _ Hl).
  erewrite find_range_ext; [reflexivity|]. intros i Hi. by rewrite (line_at s l) by (done || lia).
Qed.

(** A name matches when it is the first word. *)
Lemma name_matches s l w :
  holds_line s l ->
  (len w =? command_length s) && (memcmp (at_arr (buffer s)) (at_arr w) (len w) =? 0) = true <-> w = first_word l.
Proof.
  intros Hl. rewrite (command_length_spec s l Hl), andb_true_iff, Z.eqb_eq. rewrite Z.eqb_eq, memcmp_eq.
  destruct (word_length l) as [_ Hw]. split.
  - intros [Hlen Heq]. apply list_eq_same_length with (n := List.length w); [lia|lia|].
    intros i x y Hi Hx Hy. specialize (Heq (Z.of_nat i) ltac:(lia)). rewrite (line_at s l) in Heq by (done || lia).
    unfold at_arr in Heq. rewrite Nat2Z.id, Hx in Heq. rewrite Hw, lookup_take in Hy. case_decide; [|done]. rewrite Hy in Heq. by simpl in Heq.
  - intros ->. split; [done|]. intros i Hi. rewrite (line_at s l) by (done || lia). unfold at_arr. rewrite Hw at 1.
    rewrite lookup_take. by rewrite decide_True by lia.
Qed.

Lemma names_unique : NoDup ((fun c => chars (name c)) <$> commands).
Proof. apply (bool_decide_unpack _). vm_compute. exact I. Qed.

Lemma find_command_spec s l c :
  holds_line s l -> find_command s = Some c <-> c ∈ commands /\ chars (name c) = first_word l.
Proof.
  intros Hl. unfold find_command. set (p := fun i => match commands !! Z.to_nat i with Some _ => _ | None => false end).
  assert (Hp : forall i c, commands !! Z.to_nat i = Some c -> p i = true <-> chars (name c) = first_word l).
  { intros i x Hx. unfold p. rewrite Hx. by apply name_matches. }
  assert (Huniq : forall (i j : nat) x y, commands !! i = Some x -> commands !! j = Some y -> chars (name x) = chars (name y) -> i = j).
  { intros i j x y Hx Hy Hn. apply (NoDup_lookup _ i j (chars (name x)) names_unique); rewrite list_lookup_fmap.
    - by rewrite Hx.
    - rewrite Hy. simpl. by rewrite Hn. }
  split.
  - destruct (find_range _ _ p) as [i|] eqn:E; [|done]. intros Hc. apply find_range_Some in E as (_ & Hi & _).
    split; [by eapply list_elem_of_lookup_2|]. by apply (Hp i).
  - intros [[n Hn]%list_elem_of_lookup_1 Hw]. pose proof (lookup_lt_Some _ _ _ Hn) as Hlt.
    destruct (find_range _ _ p) as [i|] eqn:E.
    + apply find_range_Some in E as (Hi & Hpi & _).
      destruct (lookup_lt_is_Some_2 commands (Z.to_nat i)) as [x Hx]; [lia|].
      apply (Hp i x Hx) in Hpi. assert (Z.to_nat i = n) as -> by (apply (Huniq _ _ x c); congruence). done.
    + rewrite find_range_None in E. specialize (E (Z.of_nat n) ltac:(lia)).
      assert (Ht : p (Z.of_nat n) = true) by (apply (Hp _ c); [by rewrite Nat2Z.id|done]). congruence.
Qed.

Lemma line_strlen s l : holds_line s l -> strlen 128 (at_arr (buffer s)) = Some (len l).
Proof.
  intros Hl. pose proof (hl_bound _ _ Hl). apply strlen_Some. split; [lia|]. split.
  - rewrite (line_at s l) by (done || lia). by rewrite Nat2Z.id, lookup_ge_None_2.
  - intros i Hi. rewrite (line_at s l) by (done || lia). destruct (lookup_lt_is_Some_2 l (Z.to_nat i)) as [x Hx]; [lia|].
    rewrite Hx. simpl. by apply (Forall_lookup_1 _ _ _ _ (hl_chars _ _ Hl) Hx).
Qed.

(** C22: the keys typed after a prompt, corrected with backspace and ended with
    Enter, make the shell run at its next poll the command whose name is the
    first word of the edited line; an empty line does nothing and any other line
    is reported as unknown.  The line never leaves its buffer. *)
Theorem kshell_typed sp at_ fuel keys k0 :
  Forall (fun c => c <> 0) keys -> 10 ∈ keys ->
  let k := fold_left (fun k c => kshell_on_char c k) keys (kshell_init k0) in
  let l := fold_left edit keys [] in
  holds_line (sh k) l /\
  (l = [] -> kshell_poll sp at_ fuel k = Done (ShDone (kshell_init k))) /\
  (forall c, l <> [] -> c ∈ commands -> chars (name c) = first_word l ->
     kshell_poll sp at_ fuel k = obind (run_command sp at_ fuel (fn c) k) (fun r => Done (then_init r))) /\
  (l <> [] -> (forall c, c ∈ commands -> chars (name c) <> first_word l) ->
     kshell_poll sp at_ fuel k = Done (ShDone (kshell_init (say (ln "Unknown command") [] k)))).
Proof.
  intros Hk H10 k l. destruct (init_line k0) as (Hl0 & Ha0 & _).
  destruct (on_keys_line keys _ [] Ha0 Hk Hl0) as (Hl & _ & Hr). fold k l in Hl, Hr. rewrite bool_decide_eq_true_2 in Hr by done.
  clearbody k l. split; [done|]. unfold kshell_poll, kshell_exec. rewrite Hr, (line_strlen _ l Hl). cbn [Z.eqb].
  assert (Hne : l <> [] -> (len l =? 0) = false) by (intros H; apply Z.eqb_neq; destruct l; [done|simpl; lia]).
  split; [by intros ->|]. split.
  - intros c Hl1 Hc Hw. rewrite (Hne Hl1). by rewrite (proj2 (find_command_spec _ l c Hl) (conj Hc Hw)).
  - intros Hl1 Hno. rewrite (Hne Hl1). destruct (find_command (sh k)) as [c|] eqn:E; [|done].
    apply (find_command_spec _ l c Hl) in E as [Hc Hw]. by destruct (Hno c).
Qed.

(** ** Interrupts *)

(** Between [k] and [k'] only the console, the serial line, the keyboard buffer,
    the shell and the counters may have changed. *)
Record calm (k k' : kernel) : Prop := {
  ca_mem : mem (km (kk k')) = mem (km (kk k));
  ca_pm : pm (km (kk k')) = pm (km (kk k));
  ca_cr3 : cr3 (km (kk k')) = cr3 (km (kk k));
  ca_kpd : kernel_page_directory (km (kk k')) = kernel_page_directory (km (kk k));
  ca_heap : heap_list (km (kk k')) = heap_list (km (kk k));
  ca_sc : sc (kk k') = sc (kk k);
  ca_us : us (kk k') = us (kk k);
  ca_bv : bv (kk k') = bv (kk k);
}.

#[export] Instance calm_preorder : PreOrder calm.
Proof. split; [by intros k|]. intros k1 k2 k3 [] []. split; congruence. Qed.

Lemma calm_say f args k : calm k (say f args k).
Proof. unfold say, on_kk, kprintk, on_km. rewrite kprint_con. by split. Qed.

Lemma calm_serial data k : calm k (serial_say data k).
Proof. by split. Qed.

Lemma calm_on_char c k : calm k (kshell_on_char c k) /\ kb (kk (kshell_on_char c k)) = kb (kk k).
Proof.
  unfold kshell_on_char. repeat case_if; (split; [|done]); try done; (etransitivity; [|apply calm_say]; by split).
Qed.

(** The logging changes the serial line and nothing else. *)
Lemma log_key_quiet sc c k :
  calm k (log_key sc c k) /\ kb (kk (log_key sc c k)) = kb (kk k) /\ sh (log_key sc c k) = sh k /\ tm (log_key sc c k) = tm k /\
  irq_counts (log_key sc c k) = irq_counts k /\ dv (log_key sc c k) = dv k.
Proof. by repeat split. Qed.

(** Where a key goes. *)
Definition key_taken (c : Z) (k k' : kernel) : Prop :=
  if user_has_input_focus (kk k) then kb (kk k') = keyboard_buffer_push c (kb (kk k)) /\ sh k' = sh k
  else kb (kk k') = kb (kk k) /\ sh k' = sh (kshell_on_char c k).

Lemma on_key_spec sc k :
  let k' := on_key sc k in
  calm k k' /\ tm k' = tm k /\ irq_counts k' = irq_counts k /\ dv k' = dv k /\
  if keyboard_decode sc =? 0 then kb (kk k') = kb (kk k) /\ sh k' = sh k else key_taken (keyboard_decode sc) k k'.
Proof.
  cbv zeta. unfold on_key. destruct (keyboard_decode sc =? 0); [done|]. set (c := keyboard_decode sc). unfold key_taken.
  destruct (user_has_input_focus (kk k)).
  - set (k1 := on_kk _ k). destruct (log_key_quiet sc c k1) as (H1 & H2 & H3 & H4 & H5 & H6).
    split; [etransitivity; [|exact H1]; by split|]. rewrite H2, H3, H4, H5, H6. done.
  - destruct (calm_on_char c k) as [Hc Hkb]. set (k1 := kshell_on_char c k) in *.
    assert (Hrest : tm k1 = tm k /\ irq_counts k1 = irq_counts k /\ dv k1 = dv k) by (unfold k1, kshell_on_char; repeat case_if; done).
    clearbody k1. destruct (log_key_quiet sc c k1) as (H1 & H2 & H3 & H4 & H5 & H6).
    destruct Hrest as (R1 & R2 & R3). split; [by etransitivity|]. rewrite H2, H3, H4, H5, H6. done.
Qed.

(** C21: an interrupt on any line is counted and acknowledged, so that the
    controllers are again as before it came; line 0 advances the clock; a key on
    line 1 goes to the foreground process, if there is one, and otherwise to the
    shell; memory, page tables, tasks and processes are left alone. *)
Theorem irq_handler_correct irq sc k :
  0 <= irq < 16 -> pic_isr (pic1 (dv k)) = 0 -> pic_isr (pic2 (dv k)) = 0 -> List.length (irq_counts k) = 16%nat ->
  let k' := irq_handler irq sc (set_dv (accept irq (dv k)) k) in
  calm k k' /\ dv k' = dv k /\
  (forall j, 0 <= j < 16 -> at_arr (irq_counts k') j = if irq =? j then at_arr (irq_counts k) j +u 1 else at_arr (irq_counts k) j) /\
  tm k' = (if irq =? 0 then mkTimer (ticks (tm k) +u 1) (last_printed_ticks (tm k)) else tm k) /\
  if (irq =? 1) && negb (keyboard_decode sc =? 0) then key_taken (keyboard_decode sc) k k'
  else kb (kk k') = kb (kk k) /\ sh k' = sh k.
Proof.
  intros Hi H1 H2 Hl. cbv zeta. unfold irq_handler. rewrite (proj2 (Z.ltb_lt irq 16)) by lia.
  set (k1 := set_counts _ _). assert (Hc1 : forall j, 0 <= j < 16 -> at_arr (irq_counts k1) j = if irq =? j then at_arr (irq_counts k) j +u 1 else at_arr (irq_counts k) j).
  { intros j Hj. unfold k1, at_arr. cbn [irq_counts set_counts set_dv]. destruct (Z.eqb_spec irq j) as [<-|Hne].
    - by rewrite list_lookup_insert_eq by lia.
    - by rewrite list_lookup_insert_ne by lia. }
  assert (Hd1 : dv k1 = accept irq (dv k)) by done. assert (Ht1 : tm k1 = tm k) by done. assert (Hs1 : sh k1 = sh k) by done.
  assert (Hk1 : kk k1 = kk k) by done. clearbody k1. unfold irq_ack.
  assert (Hack : pic_send_eoi (u8 irq) (accept irq (dv k)) = dv k) by (rewrite (wrap_small 8) by (simpl; lia); by apply eoi_accept).
  assert (Hcalm : calm k k1) by (by split; rewrite Hk1).
  destruct (Z.eqb_spec irq 0) as [E0|E0].
  - subst irq. cbn [Z.eqb andb]. split; [by destruct Hcalm|]. cbn [dv set_dv timer_tick set_tm]. rewrite Hd1, Hack. split; [done|]. split; [done|].
    cbn [tm]. rewrite <- Ht1, <- Hk1, <- Hs1. done.
  - destruct (Z.eqb_spec irq 1) as [E1|E1]; cbn [andb].
    + destruct (on_key_spec sc k1) as (A & T & C & D & K). cbv zeta in *. set (k2 := on_key sc k1) in *. clearbody k2.
      split; [etransitivity; [exact Hcalm|]; by destruct A|]. cbn [dv set_dv irq_counts tm kk sh]. rewrite D, Hd1, Hack. split; [done|].
      rewrite C. split; [done|]. split; [congruence|]. unfold key_taken in *. rewrite Hk1, Hs1 in K.
      destruct (keyboard_decode sc =? 0); cbn [negb]; [done|]. destruct (user_has_input_focus (kk k)); [done|].
      destruct K as [K1 K2]. split; [done|]. cbn [sh set_dv]. rewrite K2. unfold kshell_on_char. rewrite Hs1. by repeat case_if.
    + split; [by destruct Hcalm|]. cbn [dv set_dv irq_counts tm kk sh]. rewrite Hd1, Hack, Hk1, Hs1. done.
Qed.
