(* ===== verification/Main.v ===== *)
(** * The boot sequence (src/kernel/main.c)

    [kmain] up to the point where interrupts are on, the start of [user_init],
    and a round of its main loop.  The rest of the machine that is set up on the
    way (segments, gates) is in [machine]. *)

From S2P Require Import Prelude Memory Tty Printk Keyboard Machine PmmInit FrameAlloc Pmm Vmm Kmalloc Initramfs Kernel Sched User.
From S2P Require Import Gdt Idt Ports Serial Kshell.

Abbreviation MULTIBOOT_MAGIC := 0x2BADB002.

Record machine := mkMachine {
  mk : kernel;
  m_gdt : gdt_vars;
  m_segs : seg_regs;
  m_idt : idt_vars;
  m_idtr : table_ptr;
  m_if : bool;                   (** interrupts enabled *)
}.

Section boot.
Context (kstart kend : Z).       (** the kernel image *)
Context (yg : gdt_symbols) (yi : idt_symbols).

Definition on_mm (f : mm -> mm) : kernel -> kernel := on_kk (on_km f).

(** [arch_init] on the parts of the machine it sets up; [tss_esp0] of Kernel.v
    is the field of the task-state segment that [tss_set_kernel_stack] writes. *)
Definition boot_arch (m : machine) : machine :=
  let a := arch_init yg yi (mkArch (m_gdt m) (m_segs m) (m_idt m) (m_idtr m) (dv (mk m))) in
  mkMachine (on_kk (set_esp0 (esp0 (tss (a_gdt a)))) (set_dv (a_dev a) (mk m)))
    (a_gdt a) (a_segs a) (a_idt a) (a_idtr a) (m_if m).

Definition set_mk (k : kernel) (m : machine) : machine := mkMachine k (m_gdt m) (m_segs m) (m_idt m) (m_idtr m) (m_if m).
Definition irq_enable (m : machine) : machine := mkMachine (mk m) (m_gdt m) (m_segs m) (m_idt m) (m_idtr m) true.
Definition irq_disable (m : machine) : machine := mkMachine (mk m) (m_gdt m) (m_segs m) (m_idt m) (m_idtr m) false.

Definition set_bv (b : boot_vars) (s : ks) : ks := mkKs (km s) (sc s) (us s) (kb s) b (tss_esp0 s) (lk s).

Definition kmain_init (magic mbi_addr : Z) (m : machine) : outcome machine :=
  let k := set_dv (serial_init (dv (mk m))) (mk m) in
  let k := on_mm (fun s => set_con (terminal_init (con s)) s) k in
  if negb (magic =? MULTIBOOT_MAGIC) then panic (ln "multiboot: wrong magic value") (km (kk k))
  else
    let mbi := vmm_phys_to_virt mbi_addr in
    if mbi =? NULL then panic "multiboot: info is outside direct map" (km (kk k))
    else
      let* s := pmm_init kstart kend mbi (km (kk k)) in
      let '(b, s) := boot_init mbi s in
      let* s := vmm_init VMM_DIRECT_MAP_LIMIT s in
      let k := on_kk (fun x => set_bv b (set_km s x)) k in
      let m := boot_arch (set_mk k m) in
      let m := set_mk (on_kk sched_init (mk m)) m in
      Done (irq_enable m).

(** [user_init] follows, and then the first prompt. *)
Definition kmain_user (sp : Z) (k : kernel) : outcome sh_out :=
  let* r := run_user_init sp k in Done (then_init r).

(** A round of the main loop, woken by an interrupt. *)
Definition kmain_round (sp cmd_vmmtest_at : Z) (fuel : nat) (k : kernel) : outcome sh_out :=
  let* r := kshell_poll sp cmd_vmmtest_at fuel k in
  Done (match r with ShDone k => ShDone (timer_print k) | r => r end).
End boot.
