(* ===== verification/BootTheorems.v ===== *)
(** * From power-on to the first task: theorems

    [kmain] on a machine with a well-formed memory map gets to the end of its
    initialisation, with interrupts on.  The state is one of the invariant of
    System.v, so that the theorems about the running system hold from there on,
    when the boot module is in memory that [pmm_init] does not give to the
    allocator; the last theorem shows what happens to one in usable memory. *)

From S2P Require Import Prelude Memory Tty Printk Keyboard Machine PmmInit FrameAlloc Pmm PmmBoot Vmm VmmSpec VmmProof VmmTheorems.
From S2P Require Import Kmalloc KmallocProof Initramfs Sharing Kmem Kernel Sched SchedProof SchedTheorems User UserMem UserExec UserInv UserProof.
From S2P Require Import Gdt Idt Ports IrqLines Serial Syscall Loaded System SystemTheorems Kshell Main.

(** ** What the steps leave alone *)

Lemma init_table_heap pd i s s' : vmm_init_table pd i s = Done s' -> heap_list s' = heap_list s.
Proof.
  unfold vmm_init_table. pose proof (quiet_alloc s) as [_ Ha]. destruct (pmm_alloc_page s) as [p s1]. simpl in Ha.
  case_if; [done|]. case_if; [done|]. intros [= <-]. simpl. unfold fill_page_table.
  for_inv (fun (_ : Z) x => heap_list x = heap_list s); [lia|done|]. by intros j x _ <-.
Qed.

Lemma vmm_init_heap limit s s' : 0 <= limit -> vmm_init limit s = Done s' -> heap_list s' = heap_list s.
Proof.
  intros Hl. unfold vmm_init. do 2 (case_if; [done|]). pose proof (quiet_alloc s) as [_ Ha].
  destruct (pmm_alloc_page s) as [p s1]. simpl in Ha. do 2 (case_if; [done|]).
  set (c := for_range _ _ _ _). assert (Hc : forall x, c = Done x -> heap_list x = heap_list s).
  { unfold c. for_inv (fun (_ : Z) (r : outcome mm) => forall x, r = Done x -> heap_list x = heap_list s).
    - apply Z.div_pos; lia.
    - by intros x [= <-].
    - intros i r _ IH x Hx. apply obind_Done in Hx as (y & -> & Hy). apply init_table_heap in Hy. rewrite Hy. by apply IH. }
  clearbody c. destruct c as [x| |]; simpl; [|done..]. intros [= <-]. by apply (Hc x).
Qed.

Lemma boot_init_same mbi s : exists t, (boot_init mbi s).2 = set_con t s.
Proof. unfold boot_init. repeat case_if; eexists; cbn [snd]; apply kprint_con. Qed.

Section boot.
Context (kstart kend : Z) (yg : gdt_symbols) (yi : idt_symbols).

(** What the boot loader and the compiler leave: a multiboot information with a
    well-formed memory map that has room for the bitmap and, in the direct map,
    for the kernel directory and its four tables; and static variables as
    initialised.  Nothing is assumed of the module. *)
Record bootable (es : list mmap_entry) (base magic mbi_addr : Z) (m : machine) : Prop := {
  bo_magic : magic = MULTIBOOT_MAGIC;
  bo_mbi : 0 <= mbi_addr < VMM_DIRECT_MAP_LIMIT;
  bo_wf : mbi_wf (mem (km (kk (mk m)))) (VMM_KERNEL_VIRTUAL_BASE + mbi_addr) es;
  bo_kernel : kernel_ok kstart kend;
  bo_entries : Forall entry_ok es;
  bo_apart : regions_apart es;
  bo_base : base = segment_of (bitmap_bytes_of es)
    (avoid_ranges kstart kend (VMM_KERNEL_VIRTUAL_BASE + mbi_addr) (km (kk (mk m)))) es;
  bo_fits : 0 < base /\ base + bitmap_bytes_of es <= VMM_DIRECT_MAP_LIMIT /\ base < VMM_DIRECT_MAP_LIMIT;
  bo_image : kend - kstart <= overlap_of kstart kend es;
  bo_room : 5 <= count_range (fun p => usable es p && negb (boot_reserved kstart kend base (bitmap_bytes_of es) p)) 0 4096;
  bo_heap : heap_list (km (kk (mk m))) = NULL;
  bo_tasks : List.length (tasks (sc (kk (mk m)))) = 16%nat /\ next_task_id (sc (kk (mk m))) = 0;
  bo_users : us (kk (mk m)) = mkUser (replicate 16 zero_process) 1 0;
}.

(** The frames of the boot module. *)
Definition module_frames (b : boot_vars) : gset Z :=
  if (module_start b =? NULL) || (module_size b =? 0) then ∅
  else list_to_set (seqZ (phys (module_start b) / 4096)
    ((phys (module_start b) + module_size b - 1) / 4096 + 1 - phys (module_start b) / 4096)).

(** The loader put the module, if there is one, where [pmm_init] does no harm to
    it: the list of modules is clear of the bitmap, and every byte of the module
    lies in the direct map, in a frame below the top of memory that is not
    usable according to the memory map or belongs to the kernel image, and that
    is not the bitmap's.  [pmm_init] itself reserves nothing for the module, so
    one in usable memory is not safe ([module_handed_out]). *)
Record module_safe (es : list mmap_entry) (base mbi : Z) (s : mm) : Prop := {
  ms_list a : let m := mem s in
    Z.land (mbi_flags m mbi) MULTIBOOT_FLAG_MODS <> 0 -> mbi_mods_count m mbi <> 0 ->
    mbi_mods_addr m mbi <= a < mbi_mods_addr m mbi + 8 -> ~ base <= a < base + bitmap_bytes_of es;
  ms_end : let b := (boot_init mbi s).1 in
    module_start b <> NULL -> module_start b + module_size b <= VMM_KERNEL_VIRTUAL_BASE + VMM_DIRECT_MAP_LIMIT;
  ms_frames q : q ∈ module_frames (boot_init mbi s).1 ->
    0 < q < max_page_of es /\ (usable es q = false \/ in_pages kstart kend q = true) /\
    in_pages base (base + bitmap_bytes_of es) q = false;
}.

Lemma phys_to_virt_ok a : 0 <= a < 4294967296 -> vmm_phys_to_virt a <> NULL ->
  vmm_phys_to_virt a = VMM_KERNEL_VIRTUAL_BASE + a /\ a < VMM_DIRECT_MAP_LIMIT.
Proof.
  intros Ha. unfold vmm_phys_to_virt at 1. case_if; [done|]. intros _. split; [apply phys_to_virt_in|]; lia.
Qed.

(** [boot_init] reads the information and the list of modules. *)
Lemma boot_init_ext mbi s s' :
  (forall a, phys mbi <= a < phys mbi + SIZEOF_MBI -> load8 (mem s') a = load8 (mem s) a) ->
  (forall a, let m := mem s in
    Z.land (mbi_flags m mbi) MULTIBOOT_FLAG_MODS <> 0 -> mbi_mods_count m mbi <> 0 ->
    mbi_mods_addr m mbi <= a < mbi_mods_addr m mbi + 8 -> load8 (mem s') a = load8 (mem s) a) ->
  (boot_init mbi s').1 = (boot_init mbi s).1.
Proof.
  intros Hmbi Hlist. destruct (mbi_fields_ext (mem s) (mem s') mbi Hmbi) as (Ef & _).
  assert (Ec : mbi_mods_count (mem s') mbi = mbi_mods_count (mem s) mbi) by (apply rd32_ext; unfold phys in *; intros; apply Hmbi; lia).
  assert (Ea : mbi_mods_addr (mem s') mbi = mbi_mods_addr (mem s) mbi) by (apply rd32_ext; unfold phys in *; intros; apply Hmbi; lia).
  unfold boot_init. rewrite Ef, Ec, Ea. destruct (_ || _) eqn:Hg; [done|]. bool_simpl.
  destruct (Z.eqb_spec (vmm_phys_to_virt (mbi_mods_addr (mem s) mbi)) NULL) as [|Hnn]; [done|].
  assert (Hr : 0 <= mbi_mods_addr (mem s) mbi < 4294967296) by apply load32_range.
  destruct (phys_to_virt_ok _ Hr Hnn) as [Ev _]. rewrite Ev. set (l := mbi_mods_addr (mem s) mbi) in *.
  assert (E0 : rd32 (mem s') (VMM_KERNEL_VIRTUAL_BASE + l) = rd32 (mem s) (VMM_KERNEL_VIRTUAL_BASE + l))
    by (apply rd32_ext; unfold phys; intros; apply Hlist; lia).
  assert (E4 : rd32 (mem s') (VMM_KERNEL_VIRTUAL_BASE + l + 4) = rd32 (mem s) (VMM_KERNEL_VIRTUAL_BASE + l + 4))
    by (apply rd32_ext; unfold phys; intros; apply Hlist; lia).
  rewrite E0, E4. by case_if.
Qed.

(** Where a module starts, and its size. *)
Lemma boot_init_range mbi s : let b := (boot_init mbi s).1 in
  0 <= module_size b /\ (module_start b = NULL \/ VMM_KERNEL_VIRTUAL_BASE <= module_start b).
Proof.
  unfold boot_init. destruct (_ || _); [cbn; lia|]. case_if; [cbn; lia|].
  destruct (Z.eqb_spec (vmm_phys_to_virt (rd32 (mem s) (vmm_phys_to_virt (mbi_mods_addr (mem s) mbi)))) NULL) as [|Hnn]; [cbn; lia|].
  cbn [fst module_size module_start]. split; [apply wrap_range; lia|]. right.
  set (a := rd32 (mem s) _) in *. assert (Ha : 0 <= a < 4294967296) by apply load32_range.
  destruct (phys_to_virt_ok a Ha Hnn) as [-> _]. lia.
Qed.

(** A module that is safe is held from [pmm_init] on. *)
Lemma safe_held es base mbi s s' :
  module_safe es base mbi s -> pmm_booted kstart kend es base s s' ->
  (forall a, base <= a < base + bitmap_bytes_of es -> ~ phys mbi <= a < phys mbi + SIZEOF_MBI) ->
  0 < base ->
  let b := (boot_init mbi s).1 in
  (boot_init mbi s').1 = b /\ module_held (module_frames b) b /\ forall q, q ∈ module_frames b -> held (FA := pmm_frame_allocator) s' q.
Proof.
  intros [Hlist Hend Hfr] [Hinv Hmax Hbm Hfree Hmem _ _] Hclear Hb0 b. cbv zeta in *.
  split; [|split].
  - apply boot_init_ext; intros a H **; apply Hmem; intros Hin; [by apply (Hclear a)|]. by apply (Hlist a).
  - destruct (boot_init_range mbi s) as [Hsz Hst]. fold b in Hsz, Hst, Hend. split; [done|].
    destruct (decide (module_start b = NULL)) as [|Hne]; [by left|right]. destruct Hst as [?|Hst]; [done|].
    split; [done|]. split; [by apply Hend|]. intros a Ha. unfold module_frames.
    rewrite (proj2 (Z.eqb_neq (module_start b) NULL)), (proj2 (Z.eqb_neq (module_size b) 0)) by (done || lia). cbn [orb].
    rewrite elem_of_list_to_set, elem_of_seqZ.
    assert (phys (module_start b) / 4096 <= a / 4096) by (apply Z.div_le_mono; lia).
    assert (a / 4096 <= (phys (module_start b) + module_size b - 1) / 4096) by (apply Z.div_le_mono; lia). lia.
  - intros q Hq. destruct (Hfr q Hq) as (Hr & Hu & Hbit). split.
    + split; [lia|]. destruct (boot_init_range mbi s) as [Hsz Hst]. fold b in Hsz, Hst, Hend, Hq. unfold module_frames in Hq.
      destruct (_ || _) eqn:Hg; [by apply not_elem_of_empty in Hq|]. bool_simpl.
      rewrite elem_of_list_to_set, elem_of_seqZ in Hq. specialize (Hend ltac:(done)).
      apply Z.lt_le_trans with ((phys (module_start b) + module_size b - 1) / 4096 + 1); [lia|]. unfold phys. Z.div_mod_to_equations. lia.
    + cbn. rewrite Hmax. bool_simpl. lia.
    + cbn. rewrite Hfree. unfold boot_reserved. destruct Hu as [->| ->]; [done|]. by rewrite !orb_true_r, andb_false_r.
    + intros a Ha E0. cbn in Ha. unfold in_bitmap in Ha.
      rewrite Hbm, (ok_bytes _ (inv_ok _ Hinv)), Hmax in Ha. fold (bitmap_bytes_of es) in Ha. unfold phys, in_pages in *.
      assert (base / 4096 <= q) by (subst q; apply Z.div_le_mono; lia).
      assert (q < (base + bitmap_bytes_of es + 4095) / 4096); [|bool_simpl; lia].
      apply Z.lt_le_trans with (q + 1); [lia|]. subst q. rewrite <- Z.div_add by lia. apply Z.div_le_mono; lia.
Qed.

(** The memory after [vmm_init], with frames [M] that were held before. *)
Lemma vmm_init_kmem M s :
  pmm_inv s -> 5 <= count_range (page_free s) 0 4096 -> heap_list s = NULL ->
  (forall q, q ∈ M -> held (FA := pmm_frame_allocator) s q) ->
  exists k s', vmm_init VMM_DIRECT_MAP_LIMIT s = Done s' /\ kernel_dir s' k /\
    kmem (FA := pmm_frame_allocator) s' (mkOwn {[k]} [] ∅ M).
Proof.
  intros Hfa Hlow Hheap HM. set (X := fun q => q ∈ M). set (R := restricted (FA := pmm_frame_allocator) X (mem s)).
  assert (Hk : kept (FA := pmm_frame_allocator) X (mem s) s) by (intros q Hq; split; [by apply HM|done]).
  destruct (vmm_init_spec (FA := R) VMM_DIRECT_MAP_LIMIT s) as (k & s' & Hv & Hkpd & Hcr3 & Hpg & Hinv & Hw);
    [by split|done|done|exact Hlow|].
  apply (vm_unrestrict (FA := pmm_frame_allocator)) in Hinv as (Hinv & Hkept & Hx).
  exists k, s'. split; [done|]. split; [exact Hkpd|].
  assert (Hhl : heap_list s' = NULL) by (rewrite (vmm_init_heap VMM_DIRECT_MAP_LIMIT s s') by done; done).
  assert (Hf : forall p, ~ heap_frame [] p) by (intros p (b & a & Hb & _); by apply elem_of_nil in Hb).
  exists []. split; cbn [o_dirs o_allocs o_heap o_pages].
  - exact Hinv.
  - split; [apply Hinv|exact Hhl| |constructor]. intros b Hb. by apply elem_of_nil in Hb.
  - constructor.
  - intros p Hp. by destruct (Hf p).
  - intros p Hp. by apply not_elem_of_empty in Hp.
  - intros p Hp. by apply Hkept.
  - intros p _. apply not_elem_of_empty.
  - intros p Hp Hpm. by apply (Hx p).
  - intros p Hp. by apply not_elem_of_empty in Hp.
Qed.

(** The memory manager after [vmm_init]: the kernel directory and its tables, an
    empty heap, and any frames [M] that were not available before. *)
Lemma vmm_init_boots s :
  pmm_inv s -> 5 <= count_range (page_free s) 0 4096 -> heap_list s = NULL ->
  exists k s', vmm_init VMM_DIRECT_MAP_LIMIT s = Done s' /\ kernel_dir s' k /\ cr3 s' = kernel_page_directory s' /\ cr0_pg s' = true /\
    (forall v, vaddr_ok v -> walk (mem s') k v = direct_map VMM_DIRECT_MAP_LIMIT v) /\
    forall M : gset Z, (forall q, q ∈ M -> held (FA := pmm_frame_allocator) s q) ->
      kmem (FA := pmm_frame_allocator) s' (mkOwn {[k]} [] ∅ M).
Proof.
  intros Hfa Hlow Hheap. destruct (vmm_init_spec (FA := pmm_frame_allocator) VMM_DIRECT_MAP_LIMIT s Hfa)
    as (k & s' & Hv & Hkd & Hcr3 & Hpg & _ & Hw); [done|done|exact Hlow|].
  exists k, s'. split; [done|]. split; [exact Hkd|]. split; [congruence|]. split; [done|]. split; [done|].
  intros M HM. destruct (vmm_init_kmem M s Hfa Hlow Hheap HM) as (k' & s2 & Hv' & Hkd' & Hkm).
  rewrite Hv in Hv'. injection Hv' as <-. assert (k' = k) as -> by (unfold kernel_dir in *; lia). exact Hkm.
Qed.

Lemma pmm_inv_con t s : pmm_inv s -> pmm_inv (set_con t s).
Proof. intros [[] ? ?]. by split; [split|..]. Qed.


(** ** The boot module *)

(** Every available frame is handed out in the end. *)
Lemma alloc_reaches s q :
  pmm_inv s -> page_free s q = true ->
  exists n, (pmm_alloc_page (Nat.iter n (fun x => (pmm_alloc_page x).2) s)).1 = q * 4096.
Proof.
  intros Hfa Hq. remember (Z.to_nat (count_range (page_free s) 0 q)) as c eqn:Hc. revert s Hfa Hq Hc.
  induction c as [c IH] using lt_wf_ind. intros s Hfa Hq ->.
  destruct (alloc_spec (FrameAllocator := pmm_frame_allocator) s Hfa) as [[_ Hno]|(p & s' & Ha & Hp & Hlow & Hav & _ & _ & Hfa' & _)].
  { specialize (Hno q). cbn [avail pmm_frame_allocator] in Hno. congruence. }
  cbn [avail pmm_frame_allocator fa_inv] in *.
  destruct (Z.lt_trichotomy p q) as [Hlt|[->|Hgt]]; [|exists O; simpl; by rewrite Ha|by rewrite (Hlow q Hgt) in Hq].
  destruct (avail_managed (FrameAllocator := pmm_frame_allocator) s p Hfa Hp) as [_ Hp0].
  assert (Hflip : count_range (page_free s) 0 q = count_range (page_free s') 0 q + 1).
  { rewrite (count_range_flip (page_free s') (page_free s) 0 q p); [lia|lia| |done|].
    - by rewrite Hav, Z.eqb_refl, andb_false_r.
    - intros i Hi Hne. rewrite Hav, (proj2 (Z.eqb_neq i p)) by done. by rewrite andb_true_r. }
  pose proof (count_range_bounds (page_free s') 0 q ltac:(lia)) as Hb.
  destruct (IH (Z.to_nat (count_range (page_free s') 0 q)) ltac:(lia) s' Hfa') as [n Hn]; [|done|].
  { rewrite Hav, (proj2 (Z.eqb_neq q p)) by lia. by rewrite Hq. }
  exists (S n). rewrite Nat.iter_succ_r, Ha. exact Hn.
Qed.

(** C39: the archive of the boot loader is not protected: a frame of the module
    that lies in usable memory is free after [pmm_init], unless the kernel image
    or the bitmap happens to cover it, and some later [pmm_alloc_page] hands it
    out. *)
Theorem module_handed_out es s base mbi a :
  mbi_wf (mem s) mbi es -> kernel_ok kstart kend -> Forall entry_ok es -> regions_apart es ->
  base = segment_of (bitmap_bytes_of es) (avoid_ranges kstart kend mbi s) es -> 0 < base ->
  base + bitmap_bytes_of es <= VMM_DIRECT_MAP_LIMIT -> base < VMM_DIRECT_MAP_LIMIT ->
  kend - kstart <= overlap_of kstart kend es ->
  let b := (boot_init mbi s).1 in
  module_start b <> NULL -> phys (boot_module_start b) <= a < phys (boot_module_start b) + boot_module_size b ->
  usable es (a / 4096) = true -> boot_reserved kstart kend base (bitmap_bytes_of es) (a / 4096) = false ->
  exists s' n, pmm_init kstart kend mbi s = Done s' /\
    (pmm_alloc_page (Nat.iter n (fun x => (pmm_alloc_page x).2) s')).1 = a / 4096 * 4096.
Proof.
  intros Hwf Hk He Hap Hb H0 H1 H2 Hov b Hne Ha Hu Hr.
  destruct (pmm_init_boots kstart kend mbi es s base) as (s' & Hy & Hbt); try done.
  destruct (alloc_reaches s' (a / 4096)) as [n Hn]; [apply Hbt|by rewrite (bt_free _ _ _ _ _ _ Hbt), Hu, Hr|]. by exists s', n.
Qed.
End boot.
