(* ===== verification/Demo.v ===== *)
(** * A concrete machine

    A machine with 64 pages, whose bitmap lies in page 1, and the states it
    goes through when a kernel page directory is made and a first heap block
    is taken.  The theorems of the development are applied to it in
    Witnesses.v. *)

From S2P Require Import Prelude.
From S2P Require Import Memory.
From S2P Require Import Tty.
From S2P Require Import Printk.
From S2P Require Import Machine.
From S2P Require Import FrameAlloc.
From S2P Require Import Pmm.
From S2P Require Import PmmTheorems.
From S2P Require Import Vmm.
From S2P Require Import VmmSpec.
From S2P Require Import VmmProof.
From S2P Require Import VmmTheorems.
From S2P Require Import Kmalloc.
From S2P Require Import KmallocProof.
From S2P Require Import PmmInit.
From S2P Require Import PmmBoot.
From S2P Require Import Initramfs.

(** ** The allocator *)

Definition demo_tty : tty := mkTty 0 0 7 (replicate 2000 0) 0 ∅.

(** Pages 0 and 1 are taken, 62 are free. *)
Definition demo : mm :=
  mkMm (store8 ∅ 4096 3) demo_tty [] 0 false [] (mkPmm 0xC0001000 8 64 64 62) 0 0.

Lemma demo_inv : pmm_inv demo.
Proof.
  split; [split|..].
  - simpl. lia.
  - reflexivity.
  - unfold phys. simpl. lia.
  - vm_compute. reflexivity.
  - vm_compute. reflexivity.
  - intros a Ha. unfold in_bitmap, phys in Ha. simpl in Ha.
    replace (a / 4096) with 1 by (Z.div_mod_to_equations; lia). vm_compute. reflexivity.
Qed.

Lemma demo_client : client_ok demo [].
Proof. split; [apply demo_inv|constructor|]. intros p Hp. by apply elem_of_nil in Hp. Qed.

Lemma demo_heap : heap_inv demo [].
Proof. split; [apply demo_inv|reflexivity| |done]. intros b Hb. by apply elem_of_nil in Hb. Qed.

(** ** A kernel directory in frame 2 *)

Definition demo_kernel : mm := zero_frame 2 (set_kpd (2 * 4096) (pmm_alloc_page demo).2).

Lemma demo_alloc : (pmm_alloc_page demo).1 = 2 * 4096.
Proof. vm_compute. reflexivity. Qed.

Lemma demo_kernel_inv : vm_inv demo_kernel {[2]}.
Proof.
  destruct (alloc_taken (FA := pmm_frame_allocator) demo demo_inv) as [[E _]|(p & s' & E & Ht)]; pose proof demo_alloc as Ha;
    rewrite E in Ha; simpl in Ha; [done|]. assert (p = 2) as -> by lia.
  unfold demo_kernel. rewrite E. simpl.
  refine (iu_inv _ _ _ _ (init_dir_spec s' 2 (low_frames s') _ _ _)); [apply Ht|by apply Ht|done].
Qed.

(** ** A user directory in frame 3 *)

Definition demo_user : mm := (vmm_create_address_space demo_kernel).2.

Lemma demo_create : vmm_create_address_space demo_kernel = (3 * 4096, demo_user).
Proof.
  unfold demo_user. rewrite (surjective_pairing (vmm_create_address_space demo_kernel)) at 1.
  apply injective_projections; [vm_compute|]; reflexivity.
Qed.

Lemma demo_user_inv : vm_inv demo_user ({[3]} ∪ {[2]}).
Proof.
  pose proof (create_effect demo_kernel {[2]} _ _ demo_kernel_inv demo_create) as [_ H].
  apply (H 3); [done|reflexivity].
Qed.

(** A page mapped at 4 MiB, writable by user mode. *)
Definition demo_mapped : mm := (vmm_map_page_in (3 * 4096) 0x400000 (5 * 4096) 7 demo_user).2.

Lemma demo_map : vmm_map_page_in (3 * 4096) 0x400000 (5 * 4096) 7 demo_user = (0, demo_mapped).
Proof.
  unfold demo_mapped. rewrite (surjective_pairing (vmm_map_page_in _ _ _ _ _)) at 1.
  apply injective_projections; [vm_compute|]; reflexivity.
Qed.

Lemma demo_space : space_ok demo_user ({[3]} ∪ {[2]}) 3 0x400000.
Proof. split; [set_solver|]. split; [by split|]. split; [done|]. by left. Qed.

Lemma demo_calls d :
  d <> 3 -> rtc (vm_other d) (demo_kernel, {[2]}) (demo_mapped, {[3]} ∪ {[2]}).
Proof.
  intros Hd. eapply rtc_l; [|eapply rtc_once].
  - exists None. split; [done|]. by apply (call_create demo_kernel {[2]} 3 demo_user), demo_create.
  - exists (Some 3). split; [congruence|].
    eapply call_map; [set_solver| | |apply demo_map]; by split.
Qed.

(** ** Memory above 4 GiB

    All pages below 4 GiB are taken; the first free one is page 2^20 + 5. *)
Definition demo_big : mm :=
  set_pm (mkPmm 0xC0001000 131080 1048640 1048640 59)
    (set_mem (store8 (memset ∅ 0xC0001000 0xff 131072) (4096 + 131072) 31) demo).

Lemma demo_big_taken q : 1 <= q < 1048576 + 5 -> page_bit demo_big q = true.
Proof.
  intros Hq. unfold page_bit, bitmap_byte, rd8, phys. simpl. rewrite load8_store8, load8_memset.
  unfold phys. pose proof (page_mod8 q). case_decide as Hd.
  - assert (Hr : 0 <= q mod 8 < 5) by (Z.div_mod_to_equations; lia). clear -Hr. revert Hr.
    generalize (q mod 8). intros k Hk. assert (k = 0 \/ k = 1 \/ k = 2 \/ k = 3 \/ k = 4) as Hc by lia.
    by destruct Hc as [->|[->|[->|[->| ->]]]].
  - rewrite decide_True by (Z.div_mod_to_equations; lia). change (u8 255) with (Z.ones 8).
    by rewrite Z.ones_spec_low.
Qed.

Lemma demo_big_max : pmm_max_page (pm demo_big) = 1048640.
Proof. reflexivity. Qed.

Lemma demo_big_free : page_bit demo_big (1048576 + 5) = false.
Proof.
  unfold page_bit, bitmap_byte, rd8, phys, demo_big. cbn [mem pm set_mem set_pm pmm_bitmap].
  by rewrite load8_store8_eq.
Qed.

(** ** Boot data

    A multiboot info at 0x9000 with a memory map of three regions: 639 KiB of
    low memory, a reserved one, and 3 MiB from 1 MiB on; the kernel occupies
    0x100000 to 0x120000. *)
Definition put_words (l : list (Z * Z)) (m : memory) : memory :=
  foldl (fun m e => store32 m e.1 e.2) m l.

Definition mmap_words (a addr len type : Z) : list (Z * Z) :=
  [(a, 20); (a + 4, addr); (a + 8, 0); (a + 12, len); (a + 16, 0); (a + 20, type)].

Definition demo_boot_mem : memory :=
  put_words ([(0x9000, 64); (0x902C, 72); (0x9030, 0x9100)]
    ++ mmap_words 0x9100 0 0x9fc00 1 ++ mmap_words 0x9118 0x9fc00 0x400 2
    ++ mmap_words 0x9130 0x100000 0x300000 1) ∅.

Definition demo_boot : mm := mkMm demo_boot_mem demo_tty [] 0 false [] (mkPmm 0 0 0 0 0) 0 0.

Definition demo_map_entries : list mmap_entry :=
  [mkEntry 20 0 0x9fc00 1; mkEntry 20 0x9fc00 0x400 2; mkEntry 20 0x100000 0x300000 1].

(** A module with two files at 0xC0200000. *)
Definition demo_files : list (list Z * list Z) :=
  [(chars "/init", [1; 2; 3]); (chars "/hello", [4; 5])].
Definition demo_archive : list Z := default [] (mkemxa demo_files).
Definition demo_module_mem : memory :=
  foldl (fun m p => store8 m (0x200000 + p.1) p.2) ∅
    (zip (seqZ 0 (Z.of_nat (length demo_archive))) demo_archive).
Definition demo_module : boot_vars := mkBoot 0xC0200000 (Z.of_nat (length demo_archive)).

Lemma demo_holds : holds demo_module_mem 0xC0200000 demo_archive.
Proof.
  assert (H : forallb (fun i => rd8 demo_module_mem (0xC0200000 + Z.of_nat i)
    =? default 256 (demo_archive !! i)) (seq 0 (length demo_archive)) = true) by (vm_compute; reflexivity).
  intros i c Hi. rewrite forallb_forall in H. specialize (H i).
  rewrite Hi in H. apply Z.eqb_eq, H, in_seq. pose proof (lookup_lt_Some _ _ _ Hi). lia.
Qed.

(** Conversion compares the states by name. *)
#[global] Opaque demo demo_kernel demo_user demo_mapped demo_big demo_boot demo_archive demo_module_mem.
