(* ===== verification/Witnesses.v ===== *)
(** * The theorems at work

    Each theorem with hypotheses, applied to the concrete machine of Demo.v (or
    to a small concrete input), where its hypotheses hold. *)

From S2P Require Import Prelude.
From S2P Require Import Memory.
From S2P Require Import Tty.
From S2P Require Import Printk.
From S2P Require Import Keyboard.
From S2P Require Import Machine.
From S2P Require Import FrameAlloc.
From S2P Require Import Pmm.
From S2P Require Import PmmInit.
From S2P Require Import PmmBoot.
From S2P Require Import PmmTheorems.
From S2P Require Import Vmm.
From S2P Require Import VmmSpec.
From S2P Require Import VmmProof.
From S2P Require Import VmmTheorems.
From S2P Require Import Kmalloc.
From S2P Require Import KmallocProof.
From S2P Require Import Initramfs.
From S2P Require Import Demo.

(** ** Virtual memory *)

Lemma vm_isolation_witness :
  same_user_half 2 demo_kernel demo_mapped /\ walk (mem demo_mapped) 3 0x400000 = Some (0x5000, true, true).
Proof.
  split; [|vm_compute; reflexivity].
  pose proof (vm_isolation (FA := pmm_frame_allocator) 2 (demo_kernel, {[2]}) (demo_mapped, {[3]} ∪ {[2]})) as H.
  cbn [fst snd] in H. apply H; [by apply demo_calls|exact demo_kernel_inv|set_solver].
Defined.

Lemma demo_any : rtc vm_any (demo_kernel, {[2]}) (demo_mapped, {[3]} ∪ {[2]}).
Proof.
  eapply (rtc_subrel (vm_other 0)); [|by apply demo_calls]. intros a b (t & _ & Hc). by exists t.
Qed.

Lemma vm_history_inv_witness : vm_inv demo_mapped ({[3]} ∪ {[2]}).
Proof.
  pose proof (vm_history_inv (FA := pmm_frame_allocator) (demo_kernel, {[2]}) (demo_mapped, {[3]} ∪ {[2]})) as H.
  cbn [fst snd] in H. apply H; [exact demo_any|exact demo_kernel_inv].
Defined.

Lemma vm_no_leak_witness : accounted demo_mapped ({[3]} ∪ {[2]}) 4.
Proof.
  pose proof (vm_no_leak (FA := pmm_frame_allocator) (demo_kernel, {[2]}) (demo_mapped, {[3]} ∪ {[2]}) 4) as H.
  cbn [fst snd] in H. apply H; [exact demo_any|exact demo_kernel_inv|].
  left. vm_compute. reflexivity.
Defined.

Lemma vmm_map_get_roundtrip_witness :
  vmm_get_paddr_in (3 * 4096) 0x400123 1 demo_mapped = Some 0x5123.
Proof.
  destruct (vmm_map_get_roundtrip (FA := pmm_frame_allocator) demo_user ({[3]} ∪ {[2]}) 3 0x400000 5 7 1 demo_mapped) as [H _].
  - exact demo_user_inv.
  - exact demo_space.
  - lia.
  - lia.
  - exact demo_map.
  - exact (H 0x123 ltac:(lia)).
Defined.

Lemma vmm_map_outcome_witness :
  exists s', vmm_map_page_in (3 * 4096) 0x400000 (5 * 4096) 7 demo_user = (0, s') /\
    walk (mem s') 3 0x400001 = Some (0x5001, true, true).
Proof.
  destruct (vmm_map_outcome (FA := pmm_frame_allocator) demo_user ({[3]} ∪ {[2]}) 3 0x400000 5 7 demo_user_inv demo_space ltac:(lia)) as [H _].
  destruct H as (s' & Hm & _ & Hw).
  - vm_compute. reflexivity.
  - right. exists 5. split; [lia|]. vm_compute. reflexivity.
  - exists s'. split; [exact Hm|]. exact (Hw 1 ltac:(lia)).
Defined.

Lemma vmm_guards_witness :
  vmm_map_page_in (3 * 4096) 0xC0000000 0 7 demo_user = (-1, demo_user) /\
  vmm_unmap_page_in (3 * 4096) 0xC0000000 demo_user = (-1, demo_user).
Proof.
  apply (vmm_guards (3 * 4096) 0xC0000000 0 7 demo_user); [by split|].
  right. right. split; [vm_compute; discriminate|lia].
Defined.

Lemma vmm_map_unmap_roundtrip_witness :
  exists s2, vmm_unmap_page_in (3 * 4096) 0x400000 demo_mapped = (0, s2) /\
    vm_inv s2 ({[3]} ∪ {[2]}) /\ same_walks ({[3]} ∪ {[2]}) demo_user s2.
Proof.
  apply (vmm_map_unmap_roundtrip (FA := pmm_frame_allocator) demo_user ({[3]} ∪ {[2]}) 3 0x400000 5 7 demo_mapped);
    [exact demo_user_inv|exact demo_space|lia|reflexivity|exact demo_map].
Defined.

Lemma vmm_create_spec_witness :
  avail demo_kernel 3 = true /\ vm_inv demo_user ({[3]} ∪ {[2]}) /\ walk (mem demo_user) 3 0x400000 = None.
Proof.
  destruct (vmm_create_spec (FA := pmm_frame_allocator) demo_kernel {[2]} 2 3 demo_user demo_kernel_inv eq_refl ltac:(lia) demo_create)
    as (Ha & _ & Hi & _ & Hw).
  split; [exact Ha|]. split; [exact Hi|]. exact (Hw 0x400000 ltac:(unfold vaddr_ok; lia)).
Defined.

Lemma vmm_init_direct_map_witness :
  exists k s', vmm_init 0x400000 demo = Done s' /\ cr3 s' = k * 4096 /\
    walk (mem s') k 0xC0000042 = Some (0x42, true, false).
Proof.
  destruct (vmm_init_direct_map (FA := pmm_frame_allocator) 0x400000 demo) as (k & s' & Hd & _ & Hc & _ & _ & Hw).
  - exact demo_inv.
  - lia.
  - reflexivity.
  - vm_compute. discriminate.
  - exists k, s'. split; [exact Hd|]. split; [exact Hc|]. exact (Hw 0xC0000042 ltac:(unfold vaddr_ok; lia)).
Defined.

(** ** The page allocator *)

Lemma demo_map_wf : mbi_wf demo_boot_mem 0xC0009000 demo_map_entries.
Proof.
  split.
  - lia.
  - vm_compute. discriminate.
  - vm_compute. split; [discriminate|reflexivity].
  - vm_compute. repeat split; try discriminate; reflexivity.
Qed.

Lemma demo_regions : Forall entry_ok demo_map_entries /\ regions_apart demo_map_entries.
Proof.
  split.
  - repeat constructor; simpl; lia || done.
  - unfold demo_map_entries, regions_apart, in_region, region_start, region_end, ram.
    repeat split; intros e p He; rewrite ?elem_of_cons, ?elem_of_nil in He; simpl.
    + intros Hp. bool_simpl. destruct He as [->|[->|[]]]; [done|]. simpl in *.
      change (0 / 4096 + 654336 / 4096) with 159 in *. change (1048576 / 4096) with 256.
      apply andb_false_iff. left. apply Z.leb_gt. lia.
    + done.
    + by destruct He.
Qed.

Lemma pmm_init_done_witness :
  exists s', pmm_init 0x100000 0x120000 0xC0009000 demo_boot = Done s' /\
    pmm_booted 0x100000 0x120000 demo_map_entries 0x1000 demo_boot s'.
Proof.
  apply (pmm_init_done 0x100000 0x120000 0xC0009000 demo_map_entries demo_boot 0x1000).
  - exact demo_map_wf.
  - split; lia.
  - apply demo_regions.
  - apply demo_regions.
  - vm_compute. reflexivity.
  - lia.
  - vm_compute. discriminate.
  - lia.
  - vm_compute. discriminate.
Defined.

Lemma pmm_alloc_correct_witness :
  pmm_inv (pmm_alloc_page demo).2 /\ pmm_get_free_pages (pmm_alloc_page demo).2 = 61.
Proof.
  pose proof (pmm_alloc_correct demo demo_inv) as H. split; [|vm_compute; reflexivity].
  destruct (pmm_alloc_page demo) as [addr s']. exact (proj1 H).
Defined.

Lemma pmm_free_correct_witness :
  let s' := pmm_free_page (1 * 4096 + 5) demo in
  (forall q, page_free s' q = page_free demo q || (q =? 1)) /\ pmm_get_free_pages s' = 63.
Proof.
  destruct (pmm_free_correct demo 1 5 (inv_ok _ demo_inv) ltac:(lia) ltac:(lia)) as (_ & Hf & _).
  split; [exact Hf|vm_compute; reflexivity].
Defined.

Lemma pmm_alloc_free_roundtrip_witness :
  pm (pmm_free_page 8192 (pmm_alloc_page demo).2) = pm demo /\
  mem (pmm_free_page 8192 (pmm_alloc_page demo).2) ≡ₘ mem demo.
Proof.
  apply (pmm_alloc_free_roundtrip demo 8192 (pmm_alloc_page demo).2 demo_inv); [|lia].
  change 8192 with (2 * 4096). rewrite <- demo_alloc. apply surjective_pairing.
Defined.

Lemma pmm_history_witness : client_ok (pmm_alloc_page demo).2 [2].
Proof.
  pose proof (pmm_history (demo, []) ((pmm_alloc_page demo).2, [2])) as H. cbn [fst snd] in H.
  apply H; [|exact demo_client]. apply rtc_once. apply pc_alloc; [lia|].
  rewrite <- demo_alloc. apply surjective_pairing.
Defined.

Lemma pmm_alloc_above_4gib_witness :
  (pmm_alloc_page demo_big).1 = 5 * 4096 /\ page_bit demo_big 5 = true.
Proof.
  destruct (pmm_alloc_above_4gib demo_big 5) as [H _].
  - lia.
  - rewrite demo_big_max. lia.
  - exact demo_big_taken.
  - exact demo_big_free.
  - split; [exact H|]. apply demo_big_taken. lia.
Defined.

(** ** The heap *)

Lemma kmalloc_correct_witness :
  exists r s' n, kmalloc 100 demo = Done (r, s') /\ r <> NULL /\ 100 <= n < 108 /\ heap_rep s' [(r, n)].
Proof.
  destruct (kmalloc_correct (FA := pmm_frame_allocator) demo [] 100 demo_heap ltac:(lia))
    as (r & s' & Hk & _ & [(-> & _ & Hno)|(n & _ & Hr & Hn & Hrep & _)]).
  - exfalso. destruct Hno as [?|[?|[_ Hno]]]; [lia..|]. by specialize (Hno 2 ltac:(lia)).
  - exists r, s', n. split; [exact Hk|]. split; [exact Hr|]. split; [lia|exact Hrep].
Defined.

(** The state after the first allocation of 100 bytes. *)
Definition demo_alloc100 : mm :=
  match kmalloc 100 demo with Done (_, s) => s | _ => demo end.

Lemma demo_alloc100_eq : kmalloc 100 demo = Done (0xC000200C, demo_alloc100).
Proof.
  unfold demo_alloc100. destruct (kmalloc 100 demo) as [[r s]| |] eqn:E.
  - enough (r = 0xC000200C) as -> by done. revert E.
    assert (H : match kmalloc 100 demo with Done (r, _) => r | _ => 0 end = 0xC000200C) by (vm_compute; reflexivity).
    intros E. by rewrite E in H.
  - assert (H : match kmalloc 100 demo with Done (r, _) => r | _ => 0 end = 0xC000200C) by (vm_compute; reflexivity).
    by rewrite E in H.
  - assert (H : match kmalloc 100 demo with Done (r, _) => r | _ => 0 end = 0xC000200C) by (vm_compute; reflexivity).
    by rewrite E in H.
Qed.

Lemma demo_alloc100_call : rtc heap_call (demo, []) (demo_alloc100, [(0xC000200C, 104)]).
Proof. apply rtc_once. by apply (hc_malloc demo [] 100 0xC000200C demo_alloc100 104); [|apply demo_alloc100_eq|..]. Qed.

Lemma demo_heap_rep : heap_rep demo [].
Proof. exists []. by split; [apply demo_heap|]. Qed.

Lemma heap_history_witness : heap_rep demo_alloc100 [(0xC000200C, 104)].
Proof.
  pose proof (heap_history (FA := pmm_frame_allocator) (demo, []) (demo_alloc100, [(0xC000200C, 104)])
    [] (0, 0) [] (0, 0)) as H. cbn [fst snd] in H.
  apply H; [exact demo_alloc100_call|exact demo_heap_rep].
Defined.

Lemma kfree_correct_witness : exists s', kfree 0xC000200C demo_alloc100 = Done s' /\ heap_rep s' [].
Proof.
  destruct (kfree_correct (FA := pmm_frame_allocator) demo_alloc100 [] 0xC000200C 104) as (s' & Hk & Hr & _).
  - apply (heap_call_step (demo, []) (demo_alloc100, [(0xC000200C, 104)])); [|exact demo_heap_rep].
    by apply (hc_malloc demo [] 100 0xC000200C demo_alloc100 104); [|apply demo_alloc100_eq|..].
  - exists s'. split; [exact Hk|exact Hr].
Defined.

Lemma kmalloc_first_alignment_witness :
  exists r s', kmalloc 8 demo = Done (r, s') /\ r <> NULL /\ r mod 8 = 4.
Proof.
  apply (kmalloc_first_alignment (FA := pmm_frame_allocator) demo 8 demo_heap ltac:(lia)).
  exists 2. split; [lia|vm_compute; reflexivity].
Defined.

Lemma kmalloc_slack_lost_witness :
  let s := (new_block demo).2 in let s1 := (alloc_from_block 0xC0002000 4072 s).2 in
  blk_size (mem s) 0xC0002000 = 4084 /\
  exists s2, kfree 0xC000200C s1 = Done s2 /\ blk_size (mem s2) 0xC0002000 = 4072.
Proof.
  split; [vm_compute; reflexivity|].
  apply (kmalloc_slack_lost (new_block demo).2 0xC0002000 4084 4072);
    [lia|lia|vm_compute; reflexivity|vm_compute; reflexivity|lia|lia|].
  rewrite (surjective_pairing (alloc_from_block _ _ _)) at 1. f_equal.
Defined.

(** ** The archive *)

Lemma demo_paths : Forall (fun f => path_ok f.1) demo_files /\ path_ok (chars "/hello").
Proof. split; repeat constructor; simpl; lia. Qed.

Lemma emxa_roundtrip_witness :
  exists d, initramfs_find (Some (cstr (chars "/hello"))) 1 1 demo_module_mem demo_module = Some (d, 2) /\
    holds demo_module_mem d [4; 5].
Proof.
  pose proof (emxa_roundtrip demo_files demo_archive demo_module_mem demo_module (chars "/hello") 1 1) as H.
  apply H.
  - vm_compute. reflexivity.
  - apply demo_paths.
  - apply demo_paths.
  - exact demo_holds.
  - reflexivity.
  - simpl. lia.
  - vm_compute. reflexivity.
  - lia.
  - lia.
Defined.

Lemma initramfs_find_bounds_witness :
  (0xC0200000 <= 0xC020005B /\ 0xC020005B + 2 <= 0xC020005D /\ 0 <= 2) /\
  initramfs_find (Some (cstr (chars "/hello"))) 1 1 (store8 demo_module_mem 0x20005D 7) demo_module = Some (0xC020005B, 2).
Proof.
  destruct (initramfs_find_bounds (Some (cstr (chars "/hello"))) 1 1 demo_module_mem demo_module) as (_ & Hsame & Hin).
  - simpl. lia.
  - vm_compute. reflexivity.
  - split; [apply Hin; vm_compute; reflexivity|].
    transitivity (initramfs_find (Some (cstr (chars "/hello"))) 1 1 demo_module_mem demo_module); [|vm_compute; reflexivity].
    apply Hsame. intros p Hp. apply load8_store8_ne. unfold phys.
    assert (E : module_start demo_module + module_size demo_module = 0xC020005D) by (vm_compute; reflexivity). lia.
Defined.

(** ** The console and the keyboard *)

Definition demo_kbd : kbd := mkKbd (replicate 32 0) 30 30.

Lemma demo_kbd_wf : kbd_wf demo_kbd.
Proof. split; simpl; lia || done. Qed.

Lemma keyboard_refines_fifo_witness :
  answers kbd_run1 [Push 97; Push 98; Push 99; Pop; Clear; Pop] demo_kbd = [97; 0].
Proof. rewrite (keyboard_refines_fifo _ demo_kbd demo_kbd_wf). vm_compute. reflexivity. Defined.

Lemma pop_linearizable_witness :
  let r := pop_interrupted [98] [99] (keyboard_buffer_push 97 demo_kbd) in
  r = keyboard_buffer_pop (irq_pushes [98; 99] (keyboard_buffer_push 97 demo_kbd)) /\ r.1 = 97 /\ queue r.2 = [98; 99].
Proof.
  destruct (pop_linearizable [98] [99] (keyboard_buffer_push 97 demo_kbd)) as [H1 H2].
  - apply push_wf, demo_kbd_wf.
  - split; [exact H1|]. exact H2.
Defined.

Lemma keyboard_decode_spec_witness : editable (keyboard_decode 30) = true.
Proof. apply (keyboard_decode_spec 30 31); lia. Defined.

Definition demo_screen : tty := terminal_init demo_tty.

Lemma terminal_write_refines_witness : tty_wf (terminal_write (chars "ok") demo_screen).
Proof.
  apply (terminal_write_refines (chars "ok") demo_screen). apply terminal_init_wf. reflexivity.
Defined.

Lemma printk_spec_witness :
  printk (chars "n=%u") [VInt 42] demo_screen = Some (4, terminal_write (chars "n=42") demo_screen).
Proof.
  apply (printk_spec (chars "n=%u") [VInt 42] demo_screen (chars "n=42")).
  - vm_compute. reflexivity.
  - vm_compute. discriminate.
Defined.

Lemma printk_overflow_witness :
  exists t', printk (chars "%s") [VStr (Some (replicate (Z.to_nat 2147483648) 65))] demo_screen = Some (-1, t').
Proof.
  apply (printk_overflow _ _ demo_screen (replicate (Z.to_nat 2147483648) 65)).
  - generalize (replicate (Z.to_nat 2147483648) 65). intros l. simpl. by rewrite app_nil_r.
  - rewrite length_replicate, Z2Nat.id; lia.
Defined.

Lemma memmove_correct_witness :
  rd8 (memmove (store8 ∅ 0x1000 7) 0xC0001001 0xC0001000 4) (0xC0001001 + 0) = 7.
Proof.
  rewrite (proj1 (memmove_correct (store8 ∅ 0x1000 7) 0xC0001001 0xC0001000 4 ltac:(lia)) 0 ltac:(lia)).
  vm_compute. reflexivity.
Defined.
