(* ===== verification/KernelDemo.v ===== *)
(** * A concrete kernel

    The machine of Demo.v with the tables of the scheduler and of the user
    processes, and the states it goes through when a thread is created, runs
    and exits. *)

From S2P Require Import Prelude Memory Tty Printk Machine FrameAlloc Pmm Vmm VmmSpec VmmProof VmmTheorems.
From S2P Require Import Kmalloc KmallocProof Keyboard Initramfs Kmem Kernel Sched SchedProof SchedTheorems Demo.

Definition demo_ks : ks :=
  mkKs demo_kernel (mkSched (replicate 16 zero_task) 0 0)
    (mkUser (replicate 16 zero_process) 1 0) (mkKbd (replicate 32 0) 0 0)
    demo_module 0 (mkSymbols 0xC0100000).

Definition demo_own : own := mkOwn {[2]} [] ∅ ∅.

Lemma demo_kmem : kmem (FA := pmm_frame_allocator) demo_kernel demo_own.
Proof.
  assert (Hf : forall p, ~ heap_frame [] p) by (intros p (b & a & Hb & _); by apply elem_of_nil in Hb).
  exists []. split.
  - apply demo_kernel_inv.
  - split; [apply demo_kernel_inv|reflexivity| |constructor]. intros b Hb. by apply elem_of_nil in Hb.
  - constructor.
  - intros p Hp. by destruct (Hf p).
  - intros p Hp. by apply not_elem_of_empty in Hp.
  - intros p Hp. by apply not_elem_of_empty in Hp.
  - intros p _. apply not_elem_of_empty.
  - intros p _. apply not_elem_of_empty.
  - intros p _. apply not_elem_of_empty.
Qed.

(** After [sched_init]. *)
Definition demo_sched : ks := sched_init demo_ks.

Lemma demo_sched_inv : sched_inv (FA := pmm_frame_allocator) [] demo_sched demo_own.
Proof. apply (sched_init_spec demo_ks demo_own 2); [done|apply demo_kmem|reflexivity|done..]. Qed.

(** A thread in slot 1, *)
Definition demo_thread : ks :=
  match kthread_create (Some user_exec_task_fn) demo_sched with Done (_, s) => s | _ => demo_sched end.

(** which runs after a yield *)
Definition demo_switched : ks :=
  match sched_yield 0xC0800000 demo_thread with Done (_, s) => s | _ => demo_thread end.

(** and exits. *)
Definition demo_exited : ks :=
  match kthread_exit 0xC0003000 demo_switched with Done s => s | _ => demo_switched end.

Lemma demo_create_eq : kthread_create (Some user_exec_task_fn) demo_sched = Done (1, demo_thread).
Proof.
  assert (H : match kthread_create (Some user_exec_task_fn) demo_sched with Done (r, _) => r | _ => -1 end = 1)
    by (vm_compute; reflexivity).
  unfold demo_thread. destruct (kthread_create _ _) as [[r s]|? ?|]; [by subst r|lia..].
Qed.

Lemma demo_yield_eq : sched_yield 0xC0800000 demo_thread = Done (true, demo_switched).
Proof.
  assert (H : match sched_yield 0xC0800000 demo_thread with Done (r, _) => r | _ => false end = true)
    by (vm_compute; reflexivity).
  unfold demo_switched. destruct (sched_yield _ _) as [[r s]|? ?|]; [by subst r|done..].
Qed.

Lemma demo_exit_eq : kthread_exit 0xC0003000 demo_switched = Done demo_exited.
Proof.
  assert (H : match kthread_exit 0xC0003000 demo_switched with Done _ => true | _ => false end = true)
    by (vm_compute; reflexivity).
  unfold demo_exited. by destruct (kthread_exit _ _).
Qed.

Lemma demo_run : sched_run 2 ([], demo_sched) ([], demo_exited).
Proof.
  apply (run_cons 0 2 _ ([], demo_thread)); [exact (ev_create _ _ _ _ _ demo_create_eq)|].
  apply (run_cons 1 1 _ ([], demo_switched)); [exact (ev_yield _ _ _ true _ demo_yield_eq)|].
  apply (run_cons 1 0 _ ([], demo_exited)); [|constructor].
  apply (ev_exit [] demo_switched 0xC0003000); [by vm_compute|exact demo_exit_eq].
Qed.

Lemma demo_thread_inv : exists o, sched_inv (FA := pmm_frame_allocator) [] demo_thread o.
Proof.
  destruct (sched_ev_step (FA := pmm_frame_allocator) 0 [] demo_sched demo_own [] demo_thread) as (o & H & _);
    [exact (ev_create _ _ _ _ _ demo_create_eq)|exact demo_sched_inv|by exists o].
Qed.

Lemma demo_switched_inv : exists o, sched_inv (FA := pmm_frame_allocator) [] demo_switched o.
Proof.
  destruct demo_thread_inv as [o Ho].
  destruct (sched_ev_step (FA := pmm_frame_allocator) 1 [] demo_thread o [] demo_switched) as (o' & H & _);
    [exact (ev_yield _ _ _ true _ demo_yield_eq)|exact Ho|by exists o'].
Qed.

(** Two threads that yield to each other for fifteen turns. *)
Fixpoint yields (n : nat) (s : ks) : outcome ks :=
  match n with
  | O => Done s
  | S n => let* (b, s1) := sched_yield 0xC0800000 s in
           if b : bool then yields n s1 else Diverge
  end.

Lemma yields_run n s s' : yields n s = Done s' -> sched_run n ([], s) ([], s').
Proof.
  revert s. induction n as [|n IH]; intros s H; simpl in H; [simplify_eq; constructor|].
  destruct (sched_yield _ _) as [[b s1]|? ?|] eqn:Hy; simpl in H; [|done..]. destruct b; [|done].
  apply (run_cons 1 n _ ([], s1)); [exact (ev_yield _ _ _ true _ Hy)|auto].
Qed.

Definition demo_yielded : ks := match yields 15 demo_thread with Done s => s | _ => demo_thread end.

Lemma demo_yields : sched_run 15 ([], demo_thread) ([], demo_yielded).
Proof.
  apply yields_run. unfold demo_yielded.
  assert (H : match yields 15 demo_thread with Done _ => true | _ => false end = true) by (vm_compute; reflexivity).
  by destruct (yields 15 demo_thread).
Qed.

#[global] Opaque demo_ks demo_sched demo_thread demo_switched demo_exited demo_yielded.
