(* ===== verification/KernelWitnesses.v ===== *)
(** * The theorems about the kernel, applied

    Each theorem that has hypotheses is applied to a state of KernelDemo.v. *)

From S2P Require Import Prelude Memory Tty Printk Machine FrameAlloc Pmm Vmm VmmSpec VmmProof VmmTheorems.
From S2P Require Import Kmalloc KmallocProof Keyboard Initramfs Kmem Kernel Sched SchedProof SchedTheorems Asm Entry Bootstrap Demo KernelDemo.

(** ** Scheduler *)

Lemma sched_yield_correct_witness :
  exists i idx s' o', next_in_turn demo_thread i idx /\ sched_yield 0xC0800000 demo_thread = Done (true, s') /\
    sched_inv (FA := pmm_frame_allocator) [] s' o' /\ turn 0xC0800000 idx demo_thread s'.
Proof.
  destruct demo_thread_inv as [o Ho].
  destruct (sched_yield_correct (FA := pmm_frame_allocator) [] demo_thread o 0xC0800000 Ho)
    as [(i & idx & s' & o' & Hn & Hy & Hi & Ht & _)|[_ (s' & o' & Hy & _)]].
  - exists i, idx, s', o'. exact (conj Hn (conj Hy (conj Hi Ht))).
  - rewrite demo_yield_eq in Hy. discriminate Hy.
Defined.

Lemma kthread_exit_correct_witness :
  exists idx s' o', kthread_exit 0xC0003000 demo_switched = Done s' /\
    sched_inv (FA := pmm_frame_allocator) [] s' o' /\ turn 0xC0003000 idx (zombified demo_switched) s'.
Proof.
  destruct demo_switched_inv as [o Ho].
  destruct (kthread_exit_correct (FA := pmm_frame_allocator) [] demo_switched o 0xC0003000 Ho)
    as (idx & s' & o' & Hy & _ & _ & Hi & Ht & _); [vm_compute; discriminate|].
  exists idx, s', o'. exact (conj Hy (conj Hi Ht)).
Defined.

Lemma kthread_create_correct_witness :
  exists s1 o1 i st s2 o2, kthread_create (Some user_exec_task_fn) demo_sched = Done (1, s2) /\
    sched_inv (FA := pmm_frame_allocator) [] s2 o2 /\ created user_exec_task_fn i st s1 o1 s2 o2.
Proof.
  destruct (kthread_create_correct (FA := pmm_frame_allocator) [] demo_sched demo_own user_exec_task_fn demo_sched_inv)
    as (s1 & o1 & _ & [(s2 & Hy & _)|(i & st & s2 & o2 & Hy & Hi & Hc)]).
  - rewrite demo_create_eq in Hy. discriminate Hy.
  - exists s1, o1, i, st, s2, o2. exact (conj Hy (conj Hi Hc)).
Defined.

Lemma sched_history_witness :
  exists o, sched_inv (FA := pmm_frame_allocator) [] demo_exited o /\
    (forall q, acct (km demo_exited) o q <-> acct (km demo_sched) demo_own q) /\ o_pages o = o_pages demo_own /\
    forall q, q ∈ o_heap o -> q ∈ o_heap demo_own \/ exists n1 n2 E1 s1,
      sched_run n1 ([], demo_sched) (E1, s1) /\ sched_run n2 (E1, s1) ([], demo_exited) /\ in_heap (km s1) q.
Proof. exact (sched_history 2 [] demo_sched demo_own [] demo_exited demo_run demo_sched_inv). Defined.

Lemma sched_fair_witness :
  exists k k' E1 s1, (k <= 15)%nat /\ 15%nat = (k + k')%nat /\ sched_run k ([], demo_thread) (E1, s1) /\
    sched_run k' (E1, s1) ([], demo_yielded) /\ current_task (sc s1) = 1.
Proof.
  destruct demo_thread_inv as [o Ho].
  apply (sched_fair (FA := pmm_frame_allocator) 15 [] demo_thread o [] demo_yielded 1 demo_yields Ho);
    [lia|vm_compute; reflexivity|lia].
Defined.

(** ** Assembly *)

(** A task [A] with its stack below 0xC0010000 leaves for a task [B] whose
    frame is at 0xC0020000, and comes back.  The fields that hold the stack
    pointers are at 0xC0030000 and 0xC0030004. *)
Definition demo_regs (sp : Z) : regs := mkRegs 1 2 3 4 sp 5 6 7.
Definition demo_cpu (sp old new : Z) (m : memory) : cpu :=
  mkCpu (demo_regs sp) (wr32 (wr32 (wr32 m sp 0xC0100000) (sp + 4) old) (sp + 8) new) false 0 0.

Definition demo_leave : cpu := demo_cpu 0xC000FF00 0xC0030000 0xC0020000 ∅.
Definition demo_callee (_ : string) (c : cpu) : cpu := rset EAX 9 (rset ESP (rget ESP c + 4) c).
Definition demo_ret (_ : nat) : Z := 0xC0101000.

Lemma demo_leave_run :
  exists c, run demo_callee demo_ret 13 sched_context_switch 0 demo_leave = Some (Returned 0, c) /\
    rd32 (cmem c) 0xC0030000 = 0xC000FEF0.
Proof. eexists. split; vm_compute; reflexivity. Qed.

(** [A], on a stack of the given top, calls the switch. *)
Lemma demo_switch_call sp old new m :
  0xC0000040 <= sp <= 0xC0100000 -> 0xC0000000 <= old <= 0xC0100000 -> 0xC0000000 <= new <= 0xC0100000 ->
  old + 4 <= sp - 16 \/ sp + 12 <= old -> new + 20 <= sp - 16 \/ sp <= new -> new + 20 <= old \/ old + 4 <= new ->
  switch_call (demo_cpu sp old new m) old new.
Proof.
  intros Hsp Ho Hn H1 H2 H3. split; try lia; change (rget ESP (demo_cpu sp old new m)) with sp; try lia.
  - split; [|change (rget ESP (demo_cpu sp old new m)) with sp; lia].
    intros r. unfold demo_cpu, demo_regs. destruct r; simpl; lia.
  - unfold demo_cpu, rd32, wr32. cbn [cmem]. rewrite load32_store32_ne, load32_store32_eq by (unfold phys; lia).
    apply wrap_small. lia.
  - unfold demo_cpu, rd32, wr32. cbn [cmem]. rewrite load32_store32_eq. apply wrap_small. lia.
Qed.

Lemma context_switch_roundtrip_witness :
  exists c1 c3, run demo_callee demo_ret 13 sched_context_switch 0 demo_leave = Some (Returned 0, c1) /\
    run demo_callee demo_ret 13 sched_context_switch 0 (demo_cpu 0xC0021000 0xC0030004 0xC000FEF0 (cmem c1)) =
      Some (Returned 0xC0100000, c3) /\
    rget ESP c3 = 0xC000FF04 /\ rget EBX c3 = 4.
Proof.
  destruct demo_leave_run as (c1 & Hrun & Hsp).
  destruct (context_switch_roundtrip demo_callee demo_ret demo_leave 0xC0030000 0xC0020000 0 c1
    (demo_cpu 0xC0021000 0xC0030004 0xC000FEF0 (cmem c1)) 0xC0030004) as (c3 & Hrun3 & Hesp & Hr).
  - apply demo_switch_call; lia.
  - exact Hrun.
  - intros a Ha. unfold demo_cpu, wr32. cbn [cmem]. change (rget ESP demo_leave) with 0xC000FF00 in Ha.
    rewrite !load8_store32_ne by (unfold phys in *; lia). reflexivity.
  - rewrite Hsp. apply demo_switch_call; lia.
  - exists c1, c3. split; [exact Hrun|]. split; [exact Hrun3|]. split; [exact Hesp|].
    rewrite (Hr EBX) by (apply list_elem_of_In; simpl; tauto). reflexivity.
Defined.

Lemma thread_start_witness :
  exists c', run demo_callee demo_ret 13 sched_context_switch 0
      (demo_cpu 0xC000FF00 0xC0030000 0xC0020FE8 (sched_prepare_kthread_stack 0xC0020000 4096 0xC0100000 ∅).2) =
      Some (Returned 0xC0100000, c') /\ (rget ESP c' + 4) mod 16 = 0.
Proof.
  pose proof (thread_start demo_callee demo_ret
    (demo_cpu 0xC000FF00 0xC0030000 0xC0020FE8 (sched_prepare_kthread_stack 0xC0020000 4096 0xC0100000 ∅).2)
    0xC0030000 0xC0020000 4096 0xC0100000 ∅ ltac:(lia) ltac:(lia) ltac:(lia)) as H.
  assert (Hsp : (sched_prepare_kthread_stack 0xC0020000 4096 0xC0100000 ∅).1 = 0xC0020FE8) by (vm_compute; reflexivity).
  destruct (sched_prepare_kthread_stack _ _ _ _) as [sp m']. simpl in Hsp. subst sp. cbn [snd] in *.
  destruct H as (c' & Hrun & _ & Hal & _).
  - apply demo_switch_call; lia.
  - intros a Ha. unfold in_alloc in Ha. simpl in Ha. unfold demo_cpu, wr32. cbn [cmem].
    rewrite !load8_store32_ne by (unfold phys in *; lia). reflexivity.
  - exists c'. exact (conj Hrun Hal).
Defined.

Lemma demo_entered m : entered (mkCpu (demo_regs 0xC000FF00) m false 0 0).
Proof. split; [intros r; destruct r; simpl; lia|simpl; lia]. Qed.

Lemma demo_cdecl f c keep : rget ESP c = 0xC000FF00 - 40 -> cdecl_call (demo_callee f) keep c.
Proof. intros H. split; [unfold demo_callee; simpl; lia|unfold demo_callee; simpl; lia|done]. Qed.

Lemma syscall_stub_correct_witness :
  exists c', run demo_callee demo_ret 7 syscall_stub 0 (mkCpu (demo_regs 0xC000FF00) ∅ false 0 0) = Some (Resumed, c') /\
    rget EAX c' = 9 /\ rget EBX c' = 4.
Proof.
  destruct (syscall_stub_correct demo_callee demo_ret _ (demo_entered ∅)) as (c1 & c' & Hrun & _ & Ha & Hr & _);
    [intros c1; apply demo_cdecl|].
  exists c'. split; [exact Hrun|]. split; [rewrite Ha; reflexivity|]. rewrite (Hr EBX) by discriminate. reflexivity.
Defined.

Lemma irq_stub_transparent_witness :
  exists c', run demo_callee demo_ret 6 (irq_stub 1) 0 (mkCpu (demo_regs 0xC000FF00) ∅ false 0 0) = Some (Resumed, c') /\
    rget EAX c' = 1.
Proof.
  destruct (irq_stub_transparent demo_callee demo_ret _ 1 (demo_entered ∅)) as (c1 & c' & Hrun & _ & _ & Hr & _);
    [lia|intros c1; apply demo_cdecl|].
  exists c'. split; [exact Hrun|]. rewrite (Hr EAX). reflexivity.
Defined.

Lemma bootstrap_maps_witness :
  exists n c', run demo_callee demo_ret n (start_text 0x101000 0xC0100000) 0 (mkCpu (demo_regs 0) ∅ false 0 0) =
    Some (Jumped 0xC0100000, c') /\ c_cr3 c' = 0x101000.
Proof.
  destruct (bootstrap_maps 0x101000 0xC0100000 demo_callee demo_ret ltac:(repeat split; lia) (mkCpu (demo_regs 0) ∅ false 0 0))
    as (n & c' & Hrun & _ & _ & Hcr & _).
  exists n, c'. exact (conj Hrun Hcr).
Defined.
