(* ===== verification/SystemDemo.v ===== *)
(** * A concrete system

    The machine of Demo.v with an archive in a frame of its own, and a run in
    which task 0 spawns two processes and both come up. *)

From S2P Require Import Prelude Memory Programs Ushell.
From S2P Require Import Tty Printk Keyboard Machine PmmInit FrameAlloc Pmm Vmm VmmSpec VmmProof VmmTheorems.
From S2P Require Import Kmalloc KmallocProof Initramfs Sharing Kmem Kernel Sched SchedProof SchedTheorems User UserMem UserExec UserInv UserProof UserSpawn UserRun UserExit.
From S2P Require Import Asm Entry Syscall Loaded System SystemTheorems Demo KernelDemo.

(** An executable (a jump to itself, and the literals of the shell) in an archive
    of one file. *)
Definition demo_code : list Z := [0xEB; 0xFE] ++ (literals ≫= chars).
Definition demo_exe : list Z := [69; 77; 88; 70] ++ le32 (Z.of_nat (length demo_code)) ++ le32 0 ++ demo_code.
Definition demo_fs : list Z := default [] (mkemxa [(chars "/bin/init", demo_exe)]).

Definition put_bytes (a : Z) (l : list Z) (m : memory) : memory :=
  for_range 0 (Z.of_nat (length l)) (fun i m => store8 m (a + i) (at_arr l i)) m.

Lemma put_bytes_only a l m :
  (forall i, 0 <= i < Z.of_nat (length l) -> (a + i) / 4096 = a / 4096) ->
  only_changes (fun x => x / 4096 = a / 4096) m (put_bytes a l m).
Proof.
  intros Ha. unfold put_bytes. for_inv (fun (_ : Z) m' => only_changes (fun x => x / 4096 = a / 4096) m m'); [lia|by intros x _|].
  intros i m' Hi Hm x Hx. rewrite load8_store8_ne; [by apply Hm|]. intros E. apply Hx. rewrite <- E. by apply Ha.
Qed.

Definition demo_sys_mm : mm :=
  let s := (pmm_alloc_page demo_kernel).2 in
  paging_load_directory (kernel_page_directory s) (set_mem (put_bytes 0x3000 demo_fs (mem s)) s).

Definition demo_sys_ks : ks :=
  mkKs demo_sys_mm (mkSched (replicate 16 zero_task) 0 0)
    (mkUser (replicate 16 zero_process) 1 0) (mkKbd (replicate 32 0) 0 0)
    (mkBoot 0xC0003000 (Z.of_nat (length demo_fs))) 0 (mkSymbols 0xC0100000).

Definition demo_sys_own : own := mkOwn {[2]} [] ∅ {[3]}.

Lemma demo_sys_kmem : kmem (FA := pmm_frame_allocator) demo_sys_mm demo_sys_own.
Proof.
  destruct (kmem_page_alloc (FA := pmm_frame_allocator) demo_kernel demo_own demo_kmem) as [[E _]|(p & s' & E & _ & _ & _ & Hlt & _)].
  - assert (H : (pmm_alloc_page demo_kernel).1 = 3 * 4096) by (vm_compute; reflexivity). rewrite E in H. discriminate H.
  - assert (H : (pmm_alloc_page demo_kernel).1 = 3 * 4096) by (vm_compute; reflexivity). rewrite E in H. simpl in H.
    assert (p = 3) as -> by lia. destruct Hlt as [_ Hst]; [lia|]. unfold demo_sys_mm. rewrite E. cbn [snd].
    set (m' := put_bytes 0x3000 demo_fs (mem s')).
    apply (kmem_same (FA := pmm_frame_allocator) (set_mem m' s')); [|reflexivity..].
    replace demo_sys_own with (with_pages ({[3]} ∪ o_pages demo_own) demo_own)
      by (unfold demo_sys_own, with_pages, demo_own; simpl; f_equal; set_solver).
    apply (kmem_write_page (FA := pmm_frame_allocator) s' _ 3); [apply Hst|set_solver|].
    unfold m'. clear m'. apply (put_bytes_only 0x3000). intros i Hi.
    assert (Hl : Z.of_nat (length demo_fs) = 133) by (vm_compute; reflexivity). rewrite Hl in Hi. clear -Hi. Z.div_mod_to_equations; lia.
Qed.

Definition demo_sys : sys := mkSys (sched_init demo_sys_ks) ∅.

Lemma demo_sys_ok : sys_ok (FA := pmm_frame_allocator) {[3]} [] demo_sys_own demo_sys.
Proof.
  apply (initial_sys_ok (FA := pmm_frame_allocator) demo_sys_own 2 demo_sys_ks); [done..|apply demo_sys_kmem|reflexivity|done|done|reflexivity|].
  split; [done|]. right. assert (Hl : Z.of_nat (length demo_fs) = 133) by (vm_compute; reflexivity).
  change (bytes_in {[3]} 0xC0003000 (Z.of_nat (length demo_fs))). rewrite Hl.
  split; [done|]. split; [done|]. unfold phys. intros a Ha. apply elem_of_singleton. Z.div_mod_to_equations; lia.
Qed.

(** ** Runs by evaluation *)

Definition counters_okb (S : sys) : bool :=
  (next_pid (us (sk S)) <? 2147483647) && (next_task_id (sc (sk S)) <? 2147483647).

Fixpoint steps (l : list (Z * event)) (S : sys) : option sys :=
  match l with
  | [] => Some S
  | (sp, e) :: l =>
    if counters_okb S then
      match sys_step sp e S with
      | Some (Done (Running S1)) => steps l S1
      | _ => None
      end
    else None
  end.

Lemma steps_run l S S' : Forall (fun e => event_ok e.2) l -> steps l S = Some S' -> sys_run S S'.
Proof.
  intros Hl. revert S. induction Hl as [|[sp e] l He _ IH]; intros S H; cbn [steps] in H; [injection H as <-; constructor|].
  destruct (counters_okb S) eqn:Hc; [|done]. destruct (sys_step sp e S) as [[[S1|? ?]|? ?|]|] eqn:Hst; try done.
  apply (run_more sp e S S1); [|exact He|done|auto]. unfold counters_okb in Hc. apply andb_true_iff in Hc as [H1 H2]. split; by apply Z.ltb_lt.
Qed.

Definition demo_call (n a b c : Z) : event := EvCall (replicate 32 0) (mkFrame 0 0 0 0 a c b n).

(** Task 0 starts two processes and yields; the first thread loads its image and
    calls [SYS_YIELD]; the second one loads its image. *)
Definition demo_start : list (Z * event) :=
  [(0, EvKernelSpawn init_path); (0, EvKernelSpawn init_path); (0xC0800000, EvKernelYield); (0, EvThread 2);
   (0xC0004F00, demo_call SYS_YIELD 0 0 0); (0, EvThread 2)].

Definition demo_two : sys := default demo_sys (steps demo_start demo_sys).

(** One process: it writes the path on its stack, spawns a child and waits; the
    child comes up. *)
Definition demo_type (v : Z) (l : list Z) : list (Z * event) :=
  imap (fun i c => (0, EvStore (v + Z.of_nat i) c)) l.
Definition demo_family : list (Z * event) :=
  [(0, EvKernelSpawn init_path); (0xC0800000, EvKernelYield); (0, EvThread 2)]
    ++ demo_type USER_INIT_STACK_ADDR (chars "/bin/init" ++ [0])
    ++ [(0, demo_call SYS_SPAWN USER_INIT_STACK_ADDR 0 0); (0xC0004F00, demo_call SYS_WAIT 2 0 0); (0, EvThread 2)].

Definition demo_child : sys := default demo_sys (steps demo_family demo_sys).

(** Task 0 spawned a process, whose thread is about to run. *)
Definition demo_new : sys :=
  default demo_sys (steps [(0, EvKernelSpawn init_path); (0xC0800000, EvKernelYield)] demo_sys).

Definition is_some {A} (o : option A) : bool := match o with Some _ => true | None => false end.

Lemma steps_default l S : is_some (steps l S) = true -> steps l S = Some (default S (steps l S)).
Proof. by destruct (steps l S). Qed.

Lemma init_path_ok : strlen PATH_FUEL init_path <> None.
Proof. by vm_compute. Qed.

Lemma demo_start_ok : Forall (fun e => event_ok e.2) demo_start.
Proof. repeat (constructor; [first [exact init_path_ok|done|split; [done|simpl; lia]]|]). constructor. Qed.

Lemma demo_type_ok v l : 0 <= v -> v + Z.of_nat (length l) < 4294967296 -> Forall (fun e => event_ok e.2) (demo_type v l).
Proof.
  intros Hv Hl. apply Forall_lookup. intros i e He. unfold demo_type in He. rewrite list_lookup_imap in He.
  destruct (l !! i) eqn:Hi; [|done]. apply lookup_lt_Some in Hi. injection He as <-. simpl. lia.
Qed.

Lemma demo_family_ok : Forall (fun e => event_ok e.2) demo_family.
Proof.
  apply Forall_app. split; [|apply Forall_app; split; [apply demo_type_ok; simpl; lia|]];
    (repeat (constructor; [first [exact init_path_ok|done|split; [done|simpl; lia]]|])); constructor.
Qed.

Lemma demo_two_run : sys_run demo_sys demo_two.
Proof. apply (steps_run demo_start); [exact demo_start_ok|]. apply steps_default. by vm_compute. Qed.

Lemma demo_child_run : sys_run demo_sys demo_child.
Proof. apply (steps_run demo_family); [exact demo_family_ok|]. apply steps_default. by vm_compute. Qed.

Lemma demo_new_run : sys_run demo_sys demo_new.
Proof.
  apply (steps_run [(0, EvKernelSpawn init_path); (0xC0800000, EvKernelYield)]); [|apply steps_default; by vm_compute].
  constructor; [exact init_path_ok|by repeat constructor].
Qed.

Lemma demo_run_ok S : sys_run demo_sys S -> exists E o, sys_ok (FA := pmm_frame_allocator) {[3]} E o S.
Proof.
  intros H. destruct (run_keeps (FA := pmm_frame_allocator) _ _ _ _ _ demo_sys_ok H) as (E & o & Hok & _). by exists E, o.
Qed.

#[global] Opaque demo_sys_ks demo_sys demo_two demo_child demo_new.
