(* ===== verification/SystemWitnesses.v ===== *)
(** * The theorems about processes and the whole system, applied

    To the runs of SystemDemo.v. *)

From S2P Require Import Prelude Memory Tty Printk Keyboard Machine PmmInit FrameAlloc Pmm Vmm VmmSpec VmmProof VmmTheorems.
From S2P Require Import Kmalloc KmallocProof Initramfs Sharing Kmem Kernel Sched SchedProof SchedTheorems User UserMem UserExec UserInv UserProof UserSpawn UserRun UserExit UserTheorems.
From S2P Require Import Asm Entry Syscall Loaded System SystemTheorems Demo KernelDemo SystemDemo.

Lemma sys_history_witness :
  exists E o, sys_ok (FA := pmm_frame_allocator) {[3]} E o demo_two /\
    (forall q, acct (km (sk demo_two)) o q <-> acct (km (sk demo_sys)) demo_sys_own q) /\
    forall q, q ∈ o_heap o -> q ∈ o_heap demo_sys_own \/ exists T, sys_run demo_sys T /\ sys_run T demo_two /\ in_heap (km (sk T)) q.
Proof. exact (sys_history (FA := pmm_frame_allocator) {[3]} [] demo_sys_own demo_sys demo_two demo_sys_ok demo_two_run). Defined.

(** A process exits. *)
Lemma sys_never_panics_witness :
  exists r, sys_step 0xC0006F00 (demo_call SYS_EXIT 7 0 0) demo_two = Some r /\
  ((exists S, r = Done (Running S)) \/ (exists a s, r = Done (Faulted a s) /\ a / 4096 <> USER_INIT_STACK_ADDR / 4096)).
Proof.
  assert (H : is_some (sys_step 0xC0006F00 (demo_call SYS_EXIT 7 0 0) demo_two) = true) by (vm_compute; reflexivity).
  destruct (sys_step 0xC0006F00 (demo_call SYS_EXIT 7 0 0) demo_two) as [r|] eqn:Hst; [|discriminate H].
  exists r. split; [reflexivity|].
  apply (sys_never_panics (FA := pmm_frame_allocator) {[3]} [] demo_sys_own demo_sys demo_two 0xC0006F00 (demo_call SYS_EXIT 7 0 0) r
    demo_sys_ok demo_two_run); [split; vm_compute; reflexivity|split; [reflexivity|simpl; lia]|exact Hst].
Defined.

(** The second process writes on its stack; the first one does not notice. *)
Lemma sys_isolation_witness :
  exists S, sys_step 0 (EvStore 0x7ff010 42) demo_two = Some (Done (Running S)) /\
    let d := address_space (get_process 0 (sk demo_two)) / 4096 in
    state (get_process 0 (sk S)) = USER_PROCESS_RUNNING /\
    walk (mem (km (sk S))) d 0x7ff010 = walk (mem (km (sk demo_two))) d 0x7ff010.
Proof.
  assert (H : match sys_step 0 (EvStore 0x7ff010 42) demo_two with Some (Done (Running _)) => true | _ => false end = true)
    by (vm_compute; reflexivity).
  destruct (sys_step 0 (EvStore 0x7ff010 42) demo_two) as [[[S|? ?]|? ?|]|] eqn:Hst; try discriminate H.
  exists S. split; [reflexivity|]. destruct (demo_run_ok demo_two demo_two_run) as (E & o & Hok).
  destruct (sys_isolation (FA := pmm_frame_allocator) {[3]} E o demo_two 0 (EvStore 0x7ff010 42) S 0 Hok)
    as (Hs & _ & _ & Hw); [split; vm_compute; reflexivity|simpl; lia|exact Hst|lia|vm_compute; reflexivity|vm_compute; discriminate|].
  split; [exact Hs|]. exact (proj1 (Hw 0x7ff010 ltac:(lia))).
Defined.

Lemma spawn_correct_witness :
  exists r s, user_spawn (Some init_path) (sk demo_sys) = Done (r, s) /\
    (r = -1 \/ r = next_pid (us (sk demo_sys))).
Proof.
  destruct (spawn_correct (FA := pmm_frame_allocator) {[3]} [] (sk demo_sys) demo_sys_own init_path)
    as (r & s & o' & Hy & _ & _ & _ & Hor).
  - exact (so_base _ _ _ _ demo_sys_ok).
  - vm_compute. reflexivity.
  - vm_compute. reflexivity.
  - exact init_path_ok.
  - intros i. unfold init_path, at_arr. destruct (_ !! _) as [c|] eqn:Hc; [|simpl; lia].
    assert (Hall : forallb (fun c => (0 <=? c) && (c <? 256)) (chars "/bin/init" ++ [0]) = true) by (vm_compute; reflexivity).
    rewrite forallb_forall in Hall. specialize (Hall c). rewrite <- list_elem_of_In in Hall.
    specialize (Hall (list_elem_of_lookup_2 _ _ _ Hc)). apply andb_true_iff in Hall as [? ?]. simpl. lia.
  - assert (Hn : user_process_find_by_task_id (sched_current_task_id (sk demo_sys)) (sk demo_sys) = None) by (vm_compute; reflexivity).
    intros q Hq. rewrite Hn in Hq. discriminate Hq.
  - exists r, s. split; [exact Hy|]. destruct Hor as [(Hr & _)|(i & d & p & Hr & _)]; [left|right]; exact Hr.
Defined.

(** The first run of the thread of a new process: it comes up. *)
Lemma exec_correct_witness :
  exists r s o', user_exec_task 2 (sk demo_new) = (r, s) /\ base (FA := pmm_frame_allocator) {[3]} [] s o' /\
    r = Some (mkIret 0x400000 0x1b 0x202 0x800000 0x23).
Proof.
  destruct (demo_run_ok demo_new demo_new_run) as (E & o & [Hb _ _ _]).
  destruct (exec_correct (FA := pmm_frame_allocator) {[3]} E (sk demo_new) o 0 2 Hb)
    as (r & s & E' & o' & d & Hy & HE & Hb' & _); [vm_compute; reflexivity|vm_compute; reflexivity|].
  assert (Hr : (user_exec_task 2 (sk demo_new)).1 = Some (mkIret 0x400000 0x1b 0x202 0x800000 0x23)) by (vm_compute; reflexivity).
  rewrite Hy in Hr. exists r, s, o'. split; [exact Hy|]. split; [|exact Hr].
  assert (Hus : (processes (us (user_exec_task 2 (sk demo_new)).2) ≫= created_dirs) = []) by (vm_compute; reflexivity).
  rewrite Hy in Hus. pose proof (uo_dirs _ _ _ _ (b_users _ _ _ _ Hb')) as Hd. cbn [snd] in Hus. rewrite Hus in Hd.
  apply Permutation_nil_r in Hd. rewrite Hd in Hb'. exact Hb'.
Defined.

(** The child exits with status 7. *)
Lemma exit_correct_witness :
  exists o', base (FA := pmm_frame_allocator) {[3]} [] (user_exit_current 7 (sk demo_child)) o' /\
    (forall q, page_free (km (user_exit_current 7 (sk demo_child))) q = true <->
      page_free (km (sk demo_child)) q = true \/ q ∈ proc_frames (get_process 1 (sk demo_child))) /\
    exit_status (get_process 1 (user_exit_current 7 (sk demo_child))) = 7.
Proof.
  destruct (demo_run_ok demo_child demo_child_run) as (E & o & [Hb _ _ _]).
  assert (HE : E = []).
  { pose proof (uo_dirs _ _ _ _ (b_users _ _ _ _ Hb)) as Hd.
    assert (Hus : (processes (us (sk demo_child)) ≫= created_dirs) = []) by (vm_compute; reflexivity).
    rewrite Hus in Hd. exact (proj1 (Permutation_nil_r _) Hd). }
  subst E. destruct (exit_correct (FA := pmm_frame_allocator) {[3]} [] (sk demo_child) o 1 7 Hb) as (o' & Hb' & _ & _ & _ & Hav & Hi & _);
    [vm_compute; reflexivity|vm_compute; reflexivity|lia|].
  exists o'. split; [exact Hb'|]. split; [exact Hav|]. vm_compute in Hi. vm_compute. exact (proj2 (proj2 (proj2 Hi))).
Defined.

(** The parent collects it. *)
Lemma exit_wait_roundtrip_witness :
  exists s', user_wait_round 0 2 (user_exit_current 7 (sk demo_child)) = inr (7, s') /\
    user_wait_round 0 2 s' = inr (-1, s').
Proof.
  destruct (demo_run_ok demo_child demo_child_run) as (E & o & [Hb _ _ _]).
  assert (Hpid : pid (get_process 1 (sk demo_child)) = 2) by (vm_compute; reflexivity).
  destruct (exit_wait_roundtrip (FA := pmm_frame_allocator) {[3]} E (sk demo_child) o 1 7 0 Hb) as (s' & o' & Hy & _ & _ & _ & _ & Hy');
    [vm_compute; reflexivity|vm_compute; reflexivity|lia|lia|vm_compute; reflexivity|vm_compute; reflexivity|].
  rewrite Hpid in Hy, Hy'. exists s'. split; [exact Hy|exact Hy'].
Defined.
