(* ===== verification/BootWitnesses.v ===== *)
(** * The theorems about boot, devices and the shell, applied

    Machines with the memory map of Demo.v: one without a boot module, one with a
    module in reserved memory, and one with a module in usable memory. *)

From S2P Require Import Prelude Memory Tty Printk Keyboard Machine PmmInit FrameAlloc Pmm PmmBoot Vmm VmmSpec VmmProof Kmalloc Initramfs Sharing Kmem Kernel Sched User UserMem UserExec.
From S2P Require Import Gdt Idt Ports IrqLines Serial Syscall System Kshell Interrupt KshellTheorems Main BootTheorems Demo Witnesses.

(** ** Segments and gates *)

Definition demo_ygdt : gdt_symbols := mkGdtSyms 0xC0110000 0xC0110100 0xC0118000.
Definition demo_gdt : gdt_vars := mkGdt (replicate 6 (mkDesc 0 0 0 0 0 0)) (mkPtr 0 0) zero_tss.
Definition demo_segs : seg_regs := mkSegs (mkPtr 0 0) 0 0 0 0 0 0 0.
Definition demo_yidt : idt_symbols :=
  mkIdtSyms ((fun i => 0xC0100000 + 16 * i) <$> seqZ 0 32) ((fun i => 0xC0100400 + 16 * i) <$> seqZ 0 16) 0xC0100600 0xC0100610 0xC0111000.
Definition demo_idt : idt_vars := mkIdt (replicate 256 (mkGate 0 0 0 0 0)) (mkPtr 0 0).

Lemma demo_symbols : symbols_ok demo_yidt.
Proof.
  split; [reflexivity|]. split; [reflexivity|]. apply Forall_forall. intros a Ha.
  assert (H : forallb (fun a => (0 <=? a) && (a <? 4294967296))
    (isr_stub_at demo_yidt :: syscall_stub_at demo_yidt :: exception_table demo_yidt ++ irq_table demo_yidt) = true) by (vm_compute; reflexivity).
  rewrite forallb_forall in H. specialize (H a (proj1 (list_elem_of_In _ _) Ha)). apply andb_true_iff in H as [? ?]. lia.
Qed.


Lemma idt_init_correct_witness :
  exists d, idt (idt_init demo_yidt demo_idt).1 !! 128%nat = Some d /\ gate_ok d 0xC0100610 true.
Proof.
  pose proof (idt_init_correct demo_yidt demo_idt ltac:(reflexivity) demo_symbols) as H.
  destruct (idt_init demo_yidt demo_idt) as [v r]. exact (proj2 H 0x80 ltac:(lia)).
Defined.

(** ** Devices *)

Definition demo_pic : pic := mkPic PicReady false 0 0 0 0xFF 0.
Definition demo_uart : uart := mkUart 0x83 1 1 0 0 [] 2 (fun k => (k * 7) mod 5)%nat.
Definition demo_dev : devices := mkDev demo_pic demo_pic (mkPit 0 None 0) demo_uart 0 None.

Lemma arch_init_routes_witness :
  let a := arch_init demo_ygdt demo_yidt (mkArch demo_gdt demo_segs demo_idt (mkPtr 0 0) demo_dev) in
  pics_ok (a_dev a) /\ line_masked (a_dev a) 1 = false /\ line_vector (a_dev a) 1 = 33.
Proof.
  destruct (arch_init_routes demo_ygdt demo_yidt (mkArch demo_gdt demo_segs demo_idt (mkPtr 0 0) demo_dev)) as (Hk & _ & _ & Hl & _);
    [split; simpl; lia|reflexivity|exact demo_symbols|].
  split; [exact Hk|]. destruct (Hl 1 ltac:(lia)) as (Hm & Hv & _). exact (conj Hm Hv).
Defined.


(** ** Boot *)

Definition demo_bare : ks :=
  mkKs demo_boot (mkSched (replicate 16 zero_task) 0 0) (mkUser (replicate 16 zero_process) 1 0)
    (mkKbd (replicate 32 0) 0 0) (mkBoot 0 0) 0 (mkSymbols 0xC0100700).
Definition demo_machine : machine :=
  mkMachine (mkKernel demo_bare (mkShell (replicate 128 0) 0 0 0) (mkTimer 0 0) (replicate 16 0) demo_dev)
    demo_gdt demo_segs demo_idt (mkPtr 0 0) false.

(** The same machine with a module of one page at 0xA0000, which the memory map
    does not list as usable. *)
Definition demo_safe_boot : mm :=
  set_mem (put_words [(0x9000, 72); (0x9014, 1); (0x9018, 0x9200); (0x9200, 0xA0000); (0x9204, 0xA1000)] demo_boot_mem) demo_boot.
Definition demo_safe_machine : machine :=
  mkMachine (on_mm (fun _ => demo_safe_boot) (mk demo_machine)) demo_gdt demo_segs demo_idt (mkPtr 0 0) false.

Lemma demo_bootable : bootable 0x100000 0x120000 demo_map_entries 0x1000 MULTIBOOT_MAGIC 0x9000 demo_safe_machine.
Proof.
  split.
  - reflexivity.
  - lia.
  - split; [lia|vm_compute; discriminate|vm_compute; split; [discriminate|reflexivity]|vm_compute; repeat split; try discriminate; reflexivity].
  - split; lia.
  - apply demo_regions.
  - apply demo_regions.
  - vm_compute. reflexivity.
  - vm_compute. split; [reflexivity|]. split; [discriminate|reflexivity].
  - vm_compute. discriminate.
  - vm_compute. discriminate.
  - reflexivity.
  - split; reflexivity.
  - reflexivity.
Qed.

Lemma demo_safe_module : (boot_init 0xC0009000 demo_safe_boot).1 = mkBoot 0xC00A0000 0x1000.
Proof. vm_compute. reflexivity. Qed.

Lemma demo_module_safe : module_safe 0x100000 0x120000 demo_map_entries 0x1000 0xC0009000 demo_safe_boot.
Proof.
  assert (Hb : bitmap_bytes_of demo_map_entries = 128) by (vm_compute; reflexivity). split.
  - intros a. assert (E : mbi_mods_addr (mem demo_safe_boot) 0xC0009000 = 0x9200) by (vm_compute; reflexivity).
    cbv zeta. rewrite E, Hb. lia.
  - rewrite demo_safe_module. cbn. lia.
  - intros q. rewrite demo_safe_module. assert (E : module_frames (mkBoot 0xC00A0000 0x1000) = {[160]}) by (vm_compute; reflexivity).
    rewrite E, elem_of_singleton. intros ->. vm_compute. split; [split; reflexivity|]. split; [by left|reflexivity].
Qed.


(** A module of one page at 2 MiB. *)
Definition demo_mod_boot : mm :=
  set_mem (put_words [(0x9000, 72); (0x9014, 1); (0x9018, 0x9200); (0x9200, 0x200000); (0x9204, 0x201000)] demo_boot_mem) demo_boot.

Lemma module_handed_out_witness :
  exists s' n, pmm_init 0x100000 0x120000 0xC0009000 demo_mod_boot = Done s' /\
    (pmm_alloc_page (Nat.iter n (fun x => (pmm_alloc_page x).2) s')).1 = 0x200000.
Proof.
  apply (module_handed_out 0x100000 0x120000 demo_map_entries demo_mod_boot 0x1000 0xC0009000 0x200000).
  - split; [lia|vm_compute; discriminate|vm_compute; split; [discriminate|reflexivity]|vm_compute; repeat split; try discriminate; reflexivity].
  - split; lia.
  - apply demo_regions.
  - apply demo_regions.
  - vm_compute. reflexivity.
  - lia.
  - vm_compute. discriminate.
  - lia.
  - vm_compute. discriminate.
  - vm_compute. discriminate.
  - vm_compute. split; [discriminate|reflexivity].
  - vm_compute. reflexivity.
  - vm_compute. reflexivity.
Defined.

(** ** The shell and the interrupts *)

Definition demo_shell : kernel := mk demo_machine.

(** "helx", backspace, "p", Enter. *)
Lemma kshell_typed_witness :
  let k := fold_left (fun k c => kshell_on_char c k) [104; 101; 108; 120; 8; 112; 10] (kshell_init demo_shell) in
  kshell_poll 0 0 0 k = Done (ShDone (kshell_init (run_help k))).
Proof.
  destruct (kshell_typed 0 0 0 [104; 101; 108; 120; 8; 112; 10] demo_shell) as (_ & _ & Hrun & _).
  - repeat constructor; discriminate.
  - rewrite !elem_of_cons. tauto.
  - exact (Hrun (mkCmd "help" "List commands" cmd_help) ltac:(discriminate) ltac:(left) ltac:(reflexivity)).
Defined.

(** The key "a" with nobody in the foreground. *)
Lemma irq_handler_correct_witness :
  let k := set_dv (accept 1 demo_dev) demo_shell in
  dv (irq_handler 1 0x1e k) = demo_dev /\ at_arr (irq_counts (irq_handler 1 0x1e k)) 1 = 1.
Proof.
  destruct (irq_handler_correct 1 0x1e demo_shell) as (_ & Hd & Hc & _); [lia|reflexivity|reflexivity|reflexivity|].
  split; [exact Hd|]. exact (Hc 1 ltac:(lia)).
Defined.
