(* ===== verification/ProgramWitnesses.v ===== *)
(** * The theorems about userland, applied

    A session with the user shell, and the system call that starts a program. *)

From S2P Require Import Prelude Memory Programs Ushell.
From S2P Require Import Tty Printk Keyboard Machine PmmInit FrameAlloc Pmm Vmm VmmSpec Kmalloc Initramfs Kernel Sched User.
From S2P Require Import Asm Entry Syscall Calls System SystemTheorems Demo KernelDemo SystemDemo.

(** ** A session *)

(** Keys to come, the screen, and the paths that were started. *)
Record demo_world := mkWorld { w_keys : list Z; w_screen : list Z; w_ran : list (list Z) }.

#[export] Instance demo_World : World demo_world := {
  k_write _ l w := (Z.of_nat (length l), mkWorld (w_keys w) (w_screen w ++ l) (w_ran w));
  k_exit _ w := w;
  k_yield w := (0, w);
  k_getc w := match w_keys w with [] => (0, w) | c :: l => (c, mkWorld l (w_screen w) (w_ran w)) end;
  k_spawn p w := (2, mkWorld (w_keys w) (w_screen w) (w_ran w ++ [p]));
  k_wait _ w := (0, w);
}.

Definition demo_lit (s : string) : Z :=
  if decide (s = "emyx$ ") then 0x400100 else if decide (s = backspace) then 0x400110 else if decide (s = ln "") then 0x400120
  else if decide (s = ln "shell: failed to run program") then 0x400130 else 0x400180.
Definition demo_input : Z := 0x7fffc0.
Definition demo_shell_memory : memory := foldr (fun s => put_bytes (demo_lit s) (chars s)) ∅ literals.

(** "/bn", a correction, "in/hello", Enter, "quit", Enter. *)
Definition demo_keys : list Z := chars "/bn" ++ [8] ++ chars "in/hello" ++ [10] ++ chars "quit" ++ [10].

Definition layout_okb (s : string) : bool :=
  let n := Z.of_nat (length (chars s)) in
  (0 <=? demo_lit s) && (demo_lit s + n <=? demo_input) && bool_decide (bytes_at demo_shell_memory (demo_lit s) n = chars s).

Lemma demo_layout : layout demo_lit demo_input demo_shell_memory.
Proof.
  assert (H : forall s, s ∈ literals -> layout_okb s = true).
  { assert (Hb : forallb layout_okb literals = true) by (vm_compute; reflexivity).
    rewrite forallb_forall in Hb. intros s Hs. by apply Hb, list_elem_of_In. }
  unfold layout_okb in H. split.
  - unfold demo_input. lia.
  - intros s Hs. specialize (H s Hs). bool_simpl. unfold demo_input in *. split; [done|]. split; [lia|by left].
  - intros s Hs. specialize (H s Hs). by bool_simpl.
Qed.

Lemma shell_refines_witness :
  let '(r, _, w) := Programs.run (shell_main demo_lit demo_input 18) demo_shell_memory (mkWorld demo_keys [] []) in
  r = inr 0 /\ w_ran w = [chars "/bin/hello"].
Proof.
  pose proof (shell_refines demo_lit demo_input 18 demo_shell_memory (mkWorld demo_keys [] []) demo_layout) as H.
  destruct (Programs.run _ _ _) as [[r m'] w]. destruct H as (Hw & Ha & _).
  assert (He : (editor 18 (mkWorld demo_keys [] [])).1 = inr 0) by (vm_compute; reflexivity).
  rewrite He in Ha. split; [destruct r; [done|]; by rewrite Ha|]. rewrite Hw. vm_compute. reflexivity.
Defined.

(** ** A system call *)

Definition demo_typed : sys :=
  default demo_sys (steps (demo_start ++ demo_type 0x7ff000 (chars "/bin/init" ++ [0])) demo_sys).
Definition demo_path_memory : memory := put_bytes 0x7ff000 (chars "/bin/init" ++ [0]) ∅.

Lemma calls_served_witness :
  syscall_dispatch 0xC0006F00 (replicate 32 0) (mkFrame 9 8 7 6 0x7ff000 4 3 5) (sk demo_typed) =
  (let* (pid, s) := user_spawn (Some (at_arr (chars "/bin/init" ++ [0]))) (sk demo_typed) in
   Done (SysRet (if pid <? 0 then SYS_ERR else u32 pid) s)).
Proof.
  assert (Hp : path_at demo_path_memory 0x7ff000 = Some (chars "/bin/init")) by (vm_compute; reflexivity).
  rewrite (calls_served 0xC0006F00 (replicate 32 0) ltac:(reflexivity) demo_path_memory (sk demo_typed)
    (mkCall 5 (Some 0x7ff000) None None) (mkFrame 9 8 7 6 0x7ff000 4 3 5)).
  - unfold expected. cbn [c_eax c_ebx Z.eqb Pos.eqb default]. unfold id. rewrite Hp. reflexivity.
  - apply uc_spawn; [lia|]. right. exists 9. split; [lia|]. split; [vm_compute; reflexivity|].
    intros i Hi. assert (H : forallb (fun i => bool_decide (user_byte (sk demo_typed) (0x7ff000 +u i) =
      Some (load8 demo_path_memory (0x7ff000 +u i)))) (seqZ 0 10) = true) by (vm_compute; reflexivity).
    rewrite forallb_forall in H. specialize (H i). rewrite bool_decide_eq_true in H. apply H, list_elem_of_In, elem_of_seqZ. lia.
  - split; [reflexivity|intros v [= <-]; reflexivity|discriminate|discriminate].
Defined.
