(* ===== verification/ProcessWitnesses.v ===== *)
(** * The theorems about processes and their programs, applied *)

From S2P Require Import Prelude Memory Programs Ushell.
From S2P Require Import Tty Printk Keyboard Machine PmmInit FrameAlloc Pmm Vmm VmmSpec Kmalloc Initramfs Kernel Sched User UserMem UserExec UserInv.
From S2P Require Import Asm Entry Syscall Calls System SystemTheorems ProcessMemory Userland ShellProcess Demo KernelDemo SystemDemo.

(** ** Memory of a process *)

(** The second process stores a byte and yields; the first one stores one at the
    same address. *)
Definition demo_stores : list (Z * event) :=
  [(0, EvStore 0x7ff010 42); (0xC0006F00, demo_call SYS_YIELD 0 0 0); (0xC0800000, EvKernelYield); (0, EvStore 0x7ff010 7)].
Definition demo_after : sys := default demo_sys (steps demo_stores demo_two).

(** The run of a list of events, as far as process [i] is concerned. *)
Fixpoint stores_of (i : Z) (l : list (Z * event)) (S : sys) : list (Z * Z) :=
  match l with
  | [] => []
  | (sp, e) :: l =>
    match sys_step sp e S with
    | Some (Done (Running S1)) => stores_by i S e ++ stores_of i l S1
    | _ => []
    end
  end.

Lemma steps_stores i l S S' :
  Forall (fun e => event_ok e.2 /\ ~ is_exit e.2) l -> steps l S = Some S' -> run_stores i S (stores_of i l S) S'.
Proof.
  intros Hl. revert S. induction Hl as [|[sp e] l [He Hx] _ IH]; intros S H; cbn [steps stores_of] in *; [injection H as <-; constructor|].
  destruct (counters_okb S) eqn:Hc; [|done]. destruct (sys_step sp e S) as [[[S1|? ?]|? ?|]|] eqn:Hst; try done.
  apply (rs_more i sp e S S1); [|exact He|done|tauto|auto]. unfold counters_okb in Hc. apply andb_true_iff in Hc as [H1 H2]. split; by apply Z.ltb_lt.
Qed.

Lemma demo_stores_run : run_stores 1 demo_two [(0x7ff010, 42)] demo_after.
Proof.
  assert (Hl : stores_of 1 demo_stores demo_two = [(0x7ff010, 42)]) by (vm_compute; reflexivity). rewrite <- Hl.
  apply steps_stores.
  - repeat constructor; simpl; try lia; try discriminate; tauto.
  - unfold demo_after. assert (H : is_some (steps demo_stores demo_two) = true) by (vm_compute; reflexivity).
    destruct (steps demo_stores demo_two); [done|discriminate H].
Qed.

Lemma memory_private_witness : proc_byte 1 (sk demo_after) 0x7ff010 = Some 42.
Proof.
  destruct (demo_run_ok demo_two demo_two_run) as (E & o & Hok).
  destruct (memory_private (FA := pmm_frame_allocator) {[3]} E o demo_two [(0x7ff010, 42)] demo_after 1 0x7ff010 Hok) as (_ & _ & Hb);
    [lia|vm_compute; reflexivity|exact demo_stores_run|lia|exact Hb].
Defined.

(** ** The shell *)

(** Where the literals are in the code of the executable. *)
Definition code_lit (s : string) : Z :=
  0x400002 + (if decide (s = "emyx$ ") then 0 else if decide (s = backspace) then 6 else if decide (s = ln "") then 7
              else if decide (s = ln "shell: failed to run program") then 8 else 37).
Definition stack_input : Z := 0x7fff00.

Definition demo_path : Z -> Z := at_arr (path (get_process 0 (sk demo_new))).
Definition demo_memory : memory := mem (km (sk demo_new)).

Lemma demo_found : initramfs_find (Some demo_path) LOCAL LOCAL demo_memory (bv (sk demo_new)) = Some (0xC0003030, 85).
Proof. vm_compute. reflexivity. Qed.

Definition lit_okb (s : string) : bool :=
  let n := Z.of_nat (length (chars s)) in
  (0x400000 <=? code_lit s) && (code_lit s + n <=? 0x400000 + 73) &&
  bool_decide ((fun j => load8 demo_memory (0x303c + (code_lit s - 0x400000 + j))) <$> seqZ 0 n = chars s).

Lemma demo_shell_file : shell_file code_lit stack_input demo_new 0.
Proof.
  split; [unfold stack_input; lia|]. intros image size cs eo s Hf Hex Hs.
  pose proof demo_found as Hf'. unfold demo_path, demo_memory in Hf'. rewrite Hf' in Hf. injection Hf as <- <-.
  assert (Hcs : cs = 73) by (rewrite <- (ex_code _ _ _ _ _ Hex); vm_compute; reflexivity). subst cs. clear Hex.
  assert (H : forallb lit_okb literals = true) by (vm_compute; reflexivity).
  rewrite forallb_forall in H. specialize (H s (proj1 (list_elem_of_In _ _) Hs)). unfold lit_okb in H. bool_simpl.
  match goal with H : _ = chars s |- _ => rename H into Hb end.
  split; [done|]. split; [done|]. intros j c Hc. pose proof (lookup_lt_Some _ _ _ Hc) as Hj.
  rewrite <- Hb in Hc. rewrite list_lookup_fmap, lookup_seqZ_lt in Hc by lia. apply fmap_Some in Hc as (x & Hx & ->). apply (inj Some) in Hx. subst x.
  apply (f_equal (load8 demo_memory)). unfold phys. lia.
Qed.

(** The new thread gets to user mode, the shell prints its prompt, and asks for a
    key, which does not fault. *)
Definition demo_up : sys :=
  match sys_step 0 (EvThread 2) demo_new with Some (Done (Running S1)) => S1 | _ => demo_new end.
Definition demo_prompt : syscall_frame := mkFrame 0 0 0 0 1 6 0x400002 1.
Definition demo_prompted : sys :=
  match sys_step 0xC0006F00 (EvCall (replicate 32 0) demo_prompt) demo_up with Some (Done (Running S1)) => S1 | _ => demo_up end.

Lemma running_step sp e S :
  match sys_step sp e S with Some (Done (Running _)) => true | _ => false end = true ->
  sys_step sp e S = Some (Done (Running (match sys_step sp e S with Some (Done (Running S1)) => S1 | _ => S end))).
Proof. by destruct (sys_step sp e S) as [[[S1|? ?]|? ?|]|]. Qed.

(** What the shell does with the answer of its first call. *)
Definition demo_next : Z -> prog unit :=
  match shell_process code_lit stack_input 1 with Int80 _ k => k | _ => fun _ => mret tt end.

Lemma shell_never_faults_witness :
  exists S', sys_step 0xC0006F00 (EvCall (replicate 32 0) (mkFrame 0 0 0 0 0 0 0 4)) demo_prompted = Some (Done (Running S')).
Proof.
  destruct (demo_run_ok demo_new demo_new_run) as (E & o & Hok).
  assert (H1 : sys_step 0 (EvThread 2) demo_new = Some (Done (Running demo_up))) by (apply running_step; vm_compute; reflexivity).
  assert (H2 : sys_step 0xC0006F00 (EvCall (replicate 32 0) demo_prompt) demo_up = Some (Done (Running demo_prompted)))
    by (apply running_step; vm_compute; reflexivity).
  assert (N : no_fault demo_prompted (Ready (demo_next 6))).
  { apply (shell_never_faults code_lit stack_input (FA := pmm_frame_allocator) {[3]} E o demo_new 0 2 demo_up 0 1 demo_prompted
      (Ready (demo_next 6)) Hok).
    - split; vm_compute; reflexivity.
    - lia.
    - vm_compute. reflexivity.
    - vm_compute. reflexivity.
    - exact demo_shell_file.
    - exact H1.
    - eexists. vm_compute. reflexivity.
    - apply (rtc_l _ _ (demo_prompted, Pending demo_next)); [|apply rtc_once].
      + apply (us_call 0 0xC0006F00 demo_up demo_prompted (mkCall 1 (Some 1) (Some 0x400002) (Some 6)) demo_prompt (replicate 32 0) demo_next);
          [vm_compute; reflexivity|split; vm_compute; reflexivity|split; [reflexivity|simpl; lia]| |exact H2].
        split; [reflexivity|intros v [= <-]; reflexivity..].
      + apply (us_return 0 demo_prompted 6 demo_next); vm_compute; reflexivity.
    - split; vm_compute; reflexivity.
    - vm_compute. reflexivity. }
  apply N; [split; [reflexivity|simpl; lia]|]. split; [reflexivity|intros v; discriminate..].
Defined.
